(* ===== verification/_CoqProject ===== *)
-Q . S2P
Prelude.v
Types.v
Keccak.v
Abi.v
AbiFacts.v
Weights.v
Config.v
Storage.v
RunLogic.v
Oracle.v
OracleFacts.v
Mock.v
Queries.v
Xcm.v
ContractAbi.v
LocationCodec.v
Governance.v
GovernanceFacts.v
Staking.v
StakingFacts.v
RewardFacts.v
Autopay.v
UsingTellor.v
UsingTellorFacts.v
RuntimeApi.v
Pallet.v
PalletWeights.v
Benchmarks.v
PalletFacts.v
AccountFacts.v
WidthFacts.v
WeightFacts.v
AutopayFacts.v
AutopayFrames.v
FundingFacts.v
DirectoryFacts.v
MessageFacts.v
LivenessFacts.v
DisputeCountFacts.v
FeeFacts.v
TipFacts.v
PaymentFacts.v
SolvencyFacts.v
RewardRunFacts.v
SafetyFacts.v
Scenario.v
OracleTheorems.v
GovernanceTheorems.v
StakingTheorems.v
AutopayTheorems.v
PalletTheorems.v
RuntimeApiTheorems.v
PostDispatch.v
PostDispatchFacts.v
WeightTheorems.v
XcmTheorems.v
ContractTheorems.v
BenchmarkFacts.v
BenchmarkTheorems.v
