(* ===== verification/Prelude.v ===== *)
(** * Tellor pallet: verification library

    A model of [tellor-io/tellor-pallet], the Substrate pallet through which a
    parachain uses the Tellor oracle.  The pallet holds the reports, the disputes,
    the votes, the tips and the rewards; stakes are held by controller contracts on
    another chain, which it calls by XCM messages and which call it back with the
    origins [Governance] and [Staking].

    ** The parts of the program and the files that model them

    - [Prelude]: widths and checked, saturating and wrapping arithmetic; the monad
      [M] of calls (state, error, panic) with its notation, its inversion tactic
      [cinv] and its frame reasoning ([keeps], [stable]); sums over finite maps,
      filters, big-endian bytes.
    - [Types]: the data of [src/src/types.rs] and [src/src/constants.rs], the events,
      errors and origins of [src/src/lib.rs], the XCM data that is built.
    - [Config]: [trait Config] of [src/src/lib.rs] as a class.  What the pallet only
      calls is an operation of it: the asset (with [AssetLaws], the documented
      behaviour of a transfer), sending, weighing, hashing, ABI and SCALE encoding,
      reanchoring, the derived accounts.  [ConfigOk] states the widths of the
      constants.
    - [Storage]: the storage items as a record per part ([OracleStore],
      [StakingStore], [GovernanceStore], [AutopayStore]), and [System], what a call
      sees of its environment: time, block number, asset, events, messages sent.
    - [RunLogic]: the weakest preconditions of calls for an invariant, with the tactic
      that walks through a call; [SafetyFacts] and [WidthFacts] are two uses of it.
    - [Oracle] (with [OracleFacts]): [submit_value], [remove_value], the binary
      search [get_index_for_data_before_with_start] and the getters.
    - [Queries]: the other read-only functions of [src/src/impls.rs].
    - [Xcm] (with [MessageFacts]): [src/src/xcm] and [src/src/contracts], and
      [register].
    - [Keccak], [Abi] (with [AbiFacts]): Keccak-256, and the encoding of arguments that
      contracts decode, by their specifications; no code of the pallet.  [ContractAbi]:
      the functions of the contracts as the unit tests of [src/src/contracts] declare them,
      what a contract decodes of a call, and [AbiLaws], what is relied on of
      [ethabi::encode].  [LocationCodec]: the format of a location for the registry.
    - [Governance] (with [GovernanceFacts], [LivenessFacts], [DisputeCountFacts],
      [FeeFacts]): [begin_dispute], the votes, the sending of votes, the tally and the execution.
    - [Staking] (with [StakingFacts], [RewardFacts], [RewardRunFacts]): the reports of the
      staking contract, the allocation and payment of rewards, the stake amount and the
      dispute fee.
    - [Autopay] (with [AutopayFacts], [FundingFacts], [DirectoryFacts], [TipFacts],
      [PaymentFacts], [SolvencyFacts]): feeds, tips and their claims.  [AutopayFrames]
      states once what the other calls leave of them.
    - [UsingTellor] (with [UsingTellorFacts]): [traits::UsingTellor] as a class, its
      laws as a class ([UsingTellorLaws]) that the pallet's implementation is shown
      to obey, and the client of [src/using-tellor], which sees only the class.
    - [RuntimeApi]: the traits of [src/runtime-api] as classes, the data they return,
      and their implementation over the getters.
    - [Pallet] (with [PalletFacts], [SafetyFacts], [WidthFacts], [AccountFacts]):
      [on_initialize], the nineteen calls as one type ([PalletCall]), [dispatch], the
      steps of a chain, and what they take from the accounts of the pallet.
    - [Weights]: the trait [WeightInfo] of [src/src/weights.rs] and both its
      implementations, function by function, over the weight arithmetic of the
      framework; [PalletWeights] (with [WeightFacts]): the weight each call declares,
      and the one it reports to have used; [PostDispatch] (with [PostDispatchFacts]): the
      calls with the weight that their errors carry.
    - [Benchmarks] (with [BenchmarkFacts]): the set-ups of [src/src/benchmarking.rs] as
      programs over the calls, over the [BenchmarkHelper] of [src/src/traits.rs].
    - [Mock]: the weigher of [src/src/mock.rs] and a configuration like the one there,
      and [Scenario]: states reached from its genesis by calls.  The witnesses compute
      with them.
    - [OracleTheorems], [GovernanceTheorems], [StakingTheorems], [AutopayTheorems],
      [PalletTheorems], [RuntimeApiTheorems], [WeightTheorems], [XcmTheorems],
      [ContractTheorems], [BenchmarkTheorems]: the theorems, each with a witness at a
      concrete input.

    The parts share storage: [begin_dispute] removes a value through [Oracle], takes
    the slashed amount from [Staking] and calls a contract through [Xcm]; claims of
    tips read reports and feed the staking rewards; the stake amount and the
    dispute fee are read from values that were reported for two price queries; the
    rewards of a stake depend on the votes that were cast.

    ** How code is written down

    - A function that may fail is a [Call A]: from a state to a result ([Ok], [Err])
      or [Panic], and a state.  An error keeps the writes made before it, as in the
      source; [transactional] undoes them, for the storage layer the framework
      runs every dispatchable in ([dispatch]) and for the one [on_initialize] opens.
      A failing [expect] or [unreachable!], and a loop of a call that does not end, are
      [Panic]; a search that is a pure function returns nothing when its fuel runs out.
    - A loop is a fixpoint on its list, or on fuel.  The search before a time has
      [MAX_ITERATIONS] = 32 turns, the constant that bounds it in the weights, and
      needs no more: its range is halved from less than [2 ^ 32] indices.  The search
      after a time and those over tips have 33; the first is shown to end while a
      query has at most [2 ^ 31] reports ([search_after_stuck] shows that it need not
      beyond), the second for fewer than [2 ^ 31] tips.  The other loops have as fuel
      the length of the range they walk.
    - Integers are [Z]; a checked operation fails outside its width, a saturating one
      stops at its bounds, an unchecked one on primitive integers wraps (a release
      build), and one on [U256] panics.  [Balance] is [u128], as in the pallet's
      runtimes.  Accounts, addresses, hashes and asset identifiers are numbers.
    - A [StorageMap] is a [gmap], a map to [()] a [gset].  The iteration over pending
      votes is by key, so equal schedules are sent in the order of dispute identifiers;
      where an iteration order reaches a caller of a getter, none is promised.
    - Every event is recorded, also in block 0, where the framework would drop it: what
      theorems count by events ([tipped_ever], [claimed_ever]) includes that block.
    - Lists of a bounded type ([BoundedVec]) are lists: their decoding has checked the
      bound.  The conversion of a call's bytes to one is checked as in the source.

    ** The theorems

    - [PalletTheorems]: in every reachable state the storage of the oracle, of the
      stakes and of the disputes is well formed ([oracle_wf], [staking_wf],
      [disputes_wf]), and every stored integer is in the range of its type ([typed]);
      no call panics while the local currency has at most 18 decimals; the hook succeeds
      for any number of decimals and updates both prices or neither; only the staking contract changes stakes, and its origin comes only
      from its location; the sample client gets a recent price.
    - [OracleTheorems]: the abstract state of a query is its [history], the valid
      values with their times.  Submitting appends to it, removing filters it, and
      every lookup (before, after, a range) is the obvious function of it: [last],
      [head], a suffix.  When [submit_value] succeeds, and the conversion of bytes.
    - [GovernanceTheorems]: the rounds of a dispute, their fee, counting votes once,
      when a tally is accepted, that the execution pays the right account, once, the
      number of the votes sent; that a vote that is due is sent within a bounded number
      of blocks while the network accepts messages ([GovernanceReachable]); that
      [OpenDisputesOnId] counts the disputes that were not executed, and that the dispute
      fees account covers the fees of all of them.
    - [StakingTheorems]: a stake that changes is paid the reward due; in every run in
      which only the pallet takes from it ([rewards_run]) the rewards account covers what
      is allocated but for the rounding of the latest changes of stakes; slashes and
      withdrawals, the prices; that a partial withdrawal leaves [ToWithdraw] too low; and
      when rounding rejects a deposit once the rewards have run out ([entry_rounding]).
    - [AutopayTheorems]: what a report earns from a feed, that claims pay the sum of it
      once, the split of the fee, that funded feeds are those with a balance, the
      search over tips, the deposit of tips; that a one-time claim is worth at least the
      last tip it earns and at most the tips since the previous valid report, that all
      claims pay no more than was tipped, and that the tips account covers the feeds and
      the tips that are left ([guarded_step]: runs in which only the pallet takes from
      it); and when the first tip of a query is paid to no report.
    - [RuntimeApiTheorems]: the lists of funded feeds are complete, a quoted reward is
      the one a claim pays, and tips that are listed too late.
    - [BenchmarkTheorems]: the benchmarks vary the size of the call they measure with
      their component; those of the price updates measure no search when [set_time] moves
      the clock further than it is asked to ([StrictClock], as on the mock); every benchmark
      runs on the mock.
    - [WeightTheorems]: a call is charged no more weight than it declared, whether it
      succeeds or fails, and the hook stays within the weight of its limits
      ([erases_post_body] of [PostDispatchFacts]: the calls that carry the weights of their
      errors are otherwise the calls).
    - [XcmTheorems]: every message sent calls a controller contract with a fee for the
      whole message.
    - [ContractTheorems]: what the contracts decode of these calls: a registration, a new
      dispute and the votes that are sent are told as the storage has them, each argument
      in its place ([tells]) and each junction of the fee location from its bytes, but for
      the network of an [AccountKey20] ([conveyed]).

    ** What is not modelled

    The tests but for the functions they declare, metadata, logging and allocation
    ([Vec::with_capacity]); the measuring of time by the benchmark framework.  The
    asset, the XCM executor, hashing and encoding, the arithmetic of weights and the
    weights of the database are parameters. *)

From Stdlib Require Export ZArith Lia.
From Stdlib Require Export Strings.Byte.
From stdpp Require Export base numbers list gmap sets sorting.

Open Scope Z_scope.

(** ** Machine integers

    An unsigned integer of width [w] is a [Z]; the definitions below carry the
    largest value of the width.  Operators of the source that are not checked
    are written with their own definitions ([wrapping_add], ...). *)

Definition u8_max : Z := 255.
Definition u16_max : Z := 65535.
Definition u32_max : Z := 4294967295.
Definition u64_max : Z := 18446744073709551615.
Definition u128_max : Z := 340282366920938463463374607431768211455.
Definition u256_max : Z := 115792089237316195423570985008687907853269984665640564039457584007913129639935.
(** Of an [H160], an address. *)
Definition h160_max : Z := 1461501637330902918203684832716283019655932542975.

Definition checked (mx r : Z) : option Z :=
  if (0 <=? r) && (r <=? mx) then Some r else None.

Definition checked_add (mx a b : Z) : option Z := checked mx (a + b).
Definition checked_sub (mx a b : Z) : option Z := checked mx (a - b).
Definition checked_mul (mx a b : Z) : option Z := checked mx (a * b).
Definition checked_pow (mx a b : Z) : option Z := checked mx (a ^ b).
Definition checked_div (a b : Z) : option Z := if b =? 0 then None else Some (a / b).

Definition saturating_add (mx a b : Z) : Z := Z.min mx (a + b).
Definition saturating_sub (a b : Z) : Z := Z.max 0 (a - b).
Definition saturating_mul (mx a b : Z) : Z := Z.min mx (a * b).
Definition saturating_pow (mx a b : Z) : Z := Z.min mx (a ^ b).
Definition saturated_into (mx a : Z) : Z := Z.min mx a.

(** Unchecked [+] and [-] on primitive integers: they wrap in a release build. *)
Definition wrapping_add (mx a b : Z) : Z := (a + b) mod (mx + 1).
Definition wrapping_sub (mx a b : Z) : Z := (a - b) mod (mx + 1).

Ltac unfold_widths :=
  unfold u8_max, u16_max, u32_max, u64_max, u128_max, u256_max in *.

(** Linear arithmetic over the widths. *)
Ltac zlia := unfold_widths; lia.

Lemma checked_Some mx r v : checked mx r = Some v <-> v = r /\ 0 <= r <= mx.
Proof.
  unfold checked. destruct (Z.leb_spec 0 r), (Z.leb_spec r mx); simpl;
    split; intros Hv; try discriminate; try lia.
  - injection Hv as <-. lia.
  - destruct Hv as [-> _]. reflexivity.
Qed.

Lemma checked_ok mx r : 0 <= r <= mx -> checked mx r = Some r.
Proof. intros H. apply checked_Some. auto. Qed.

Lemma checked_None mx r : checked mx r = None <-> r < 0 \/ mx < r.
Proof.
  unfold checked. destruct (Z.leb_spec 0 r), (Z.leb_spec r mx); simpl;
    split; intros; try discriminate; try reflexivity; lia.
Qed.

Lemma checked_add_Some mx a b v :
  checked_add mx a b = Some v <-> v = a + b /\ 0 <= a + b <= mx.
Proof. apply checked_Some. Qed.

Lemma checked_sub_Some mx a b v :
  checked_sub mx a b = Some v <-> v = a - b /\ 0 <= a - b <= mx.
Proof. apply checked_Some. Qed.

Lemma checked_mul_Some mx a b v :
  checked_mul mx a b = Some v <-> v = a * b /\ 0 <= a * b <= mx.
Proof. apply checked_Some. Qed.

Lemma checked_div_Some a b v : checked_div a b = Some v <-> v = a / b /\ b <> 0.
Proof.
  unfold checked_div. destruct (Z.eqb_spec b 0); split; [done|intros []; done|..];
    [intros [= <-]; done|intros [-> _]; done].
Qed.

(** ** Outcomes and the storage monad

    A call of the pallet either returns [Ok], returns an error, or panics
    (an [expect] on [None], or an overflowing [+] on [U256]).  [M S E A] is a
    computation over the storage [S]: like the code, it keeps the writes made
    before an error; [transactional] is the storage layer that rolls them
    back. *)

Inductive Outcome (E A : Type) : Type :=
| Ok (a : A)
| Err (e : E)
| Panic.
Arguments Ok {E A} a.
Arguments Err {E A} e.
Arguments Panic {E A}.

Definition M (S E A : Type) : Type := S -> Outcome E A * S.

Section Monad.
Context {S E : Type}.

Definition ret {A} (a : A) : M S E A := fun s => (Ok a, s).
Definition fail {A} (e : E) : M S E A := fun s => (Err e, s).
Definition panic {A} : M S E A := fun s => (Panic, s).

Definition bind {A B} (m : M S E A) (k : A -> M S E B) : M S E B :=
  fun s =>
    match m s with
    | (Ok a, s') => k a s'
    | (Err e, s') => (Err e, s')
    | (Panic, s') => (Panic, s')
    end.

(** Read the storage. *)
Definition gets {A} (f : S -> A) : M S E A := fun s => (Ok (f s), s).
(** Write the storage. *)
Definition modify (f : S -> S) : M S E unit := fun s => (Ok tt, f s).
(** [ensure!(b, e)] *)
Definition ensure (b : bool) (e : E) : M S E unit :=
  if b then ret tt else fail e.
(** [o.ok_or(e)?] *)
Definition ok_or {A} (o : option A) (e : E) : M S E A :=
  match o with Some a => ret a | None => fail e end.
(** [o.expect(..)] *)
Definition expect {A} (o : option A) : M S E A :=
  match o with Some a => ret a | None => panic end.
(** [#[transactional]] / [storage::with_storage_layer]: an error rolls the
    storage back. *)
Definition transactional {A} (m : M S E A) : M S E A :=
  fun s =>
    match m s with
    | (Ok a, s') => (Ok a, s')
    | (Err e, _) => (Err e, s)
    | (Panic, _) => (Panic, s)
    end.
(** A result that is looked at, or dropped ([let _ = m], [m.unwrap_or_default()]),
    instead of being propagated: writes made before the error stay. *)
Definition attempt {A} (m : M S E A) : M S E (option A) :=
  fun s =>
    match m s with
    | (Ok a, s') => (Ok (Some a), s')
    | (Err _, s') => (Ok None, s')
    | (Panic, s') => (Panic, s')
    end.

(** [for x in l { body }] with an accumulator. *)
Fixpoint foldM {A B} (f : B -> A -> M S E B) (b : B) (l : list A) : M S E B :=
  match l with
  | [] => ret b
  | a :: l' => bind (f b a) (fun b' => foldM f b' l')
  end.
End Monad.

Declare Scope tellor_scope.
Delimit Scope tellor_scope with tellor.

Notation "'let*' x ':=' m 'in' k" := (bind m (fun x => k))
  (at level 10, x name, m at level 100, k at level 200,
   format "'let*'  x  ':='  m  'in' '//' k") : tellor_scope.
Notation "'let*' ' p ':=' m 'in' k" := (bind m (fun x => match x with p => k end))
  (at level 10, p pattern, m at level 100, k at level 200) : tellor_scope.
Notation "m ;;; k" := (bind m (fun _ => k))
  (at level 100, k at level 200, right associativity,
   format "m  ;;; '//' k") : tellor_scope.

Open Scope tellor_scope.

(** ** Inversion of successful runs *)

Section MonadFacts.
Context {S E : Type}.
Implicit Types s : S.

Lemma bind_Ok {A B} (m : M S E A) (k : A -> M S E B) s b s' :
  bind m k s = (Ok b, s') ->
  exists a s1, m s = (Ok a, s1) /\ k a s1 = (Ok b, s').
Proof.
  unfold bind. destruct (m s) as [[a|e|] s1]; intros H; simplify_eq. eauto.
Qed.

Lemma bind_run {A B} (m : M S E A) (k : A -> M S E B) s a s1 :
  m s = (Ok a, s1) -> bind m k s = k a s1.
Proof. unfold bind. by intros ->. Qed.

Lemma bind_fails {A B} (m : M S E A) (k : A -> M S E B) s e s1 :
  m s = (Err e, s1) -> bind m k s = (Err e, s1).
Proof. unfold bind. by intros ->. Qed.

Lemma bind_gets {A B} (f : S -> A) (k : A -> M S E B) s :
  bind (gets f) k s = k (f s) s.
Proof. reflexivity. Qed.

Lemma bind_modify {B} (f : S -> S) (k : unit -> M S E B) s :
  bind (modify f) k s = k tt (f s).
Proof. reflexivity. Qed.

Lemma bind_ret {A B} (a : A) (k : A -> M S E B) s : bind (ret a) k s = k a s.
Proof. reflexivity. Qed.

Lemma bind_assoc {A B C} (m : M S E A) (f : A -> M S E B) (g : B -> M S E C) s :
  bind (bind m f) g s = bind m (fun a => bind (f a) g) s.
Proof. unfold bind. by destruct (m s) as [[] ?]. Qed.

Lemma bind_ensure_true {B} b e (k : unit -> M S E B) s :
  b = true -> bind (ensure b e) k s = k tt s.
Proof. by intros ->. Qed.

Lemma bind_ensure_false {B} b e (k : unit -> M S E B) s :
  b = false -> bind (ensure b e) k s = (Err e, s).
Proof. by intros ->. Qed.

Lemma bind_ok_or_some {A B} (o : option A) e (k : A -> M S E B) s a :
  o = Some a -> bind (ok_or o e) k s = k a s.
Proof. by intros ->. Qed.

Lemma ret_Ok {A} (a b : A) s s' : ret (E:=E) a s = (Ok b, s') -> b = a /\ s' = s.
Proof. unfold ret. intros H. by simplify_eq. Qed.

Lemma gets_Ok {A} (f : S -> A) b s s' :
  gets (E:=E) f s = (Ok b, s') -> b = f s /\ s' = s.
Proof. unfold gets. intros H. by simplify_eq. Qed.

Lemma modify_Ok (f : S -> S) b s s' :
  modify (E:=E) f s = (Ok b, s') -> s' = f s.
Proof. unfold modify. intros H. by simplify_eq. Qed.

Lemma ensure_Ok (c : bool) (e : E) b s s' :
  ensure c e s = (Ok b, s') -> c = true /\ s' = s.
Proof. destruct c; simpl; unfold ret, fail; intros; by simplify_eq. Qed.

Lemma ok_or_Ok {A} (o : option A) (e : E) b s s' :
  ok_or o e s = (Ok b, s') -> o = Some b /\ s' = s.
Proof. destruct o; simpl; unfold ret, fail; intros; by simplify_eq. Qed.

Lemma expect_Ok {A} (o : option A) b s s' :
  expect (E:=E) o s = (Ok b, s') -> o = Some b /\ s' = s.
Proof. destruct o; simpl; unfold ret, panic; intros; by simplify_eq. Qed.

Lemma fail_Ok {A} (e : E) (a : A) s s' : fail e s = (Ok a, s') -> False.
Proof. unfold fail. intros. by simplify_eq. Qed.

Lemma transactional_Ok {A} (m : M S E A) a s s' :
  transactional m s = (Ok a, s') -> m s = (Ok a, s').
Proof. unfold transactional. destruct (m s) as [[] ?]; intros; by simplify_eq. Qed.

(** An error of a transactional computation leaves the storage as it was. *)
Lemma transactional_Err {A} (m : M S E A) e s s' :
  transactional m s = (Err e, s') -> s' = s.
Proof.
  unfold transactional. destruct (m s) as [[] ?]; intros; by simplify_eq.
Qed.

Lemma attempt_Ok {A} (m : M S E A) o s s' :
  attempt m s = (Ok o, s') ->
  (exists a, o = Some a /\ m s = (Ok a, s')) \/ (exists e, o = None /\ m s = (Err e, s')).
Proof.
  unfold attempt. destruct (m s) as [[] ?]; intros; simplify_eq; eauto.
Qed.
End MonadFacts.

(** Invert every successful run in the context. *)
Ltac minv_step :=
  match goal with
  | H : bind _ _ _ = (Ok _, _) |- _ =>
      let a := fresh "a" in let s := fresh "s" in
      let H1 := fresh "Hr" in
      apply bind_Ok in H as (a & s & H1 & H)
  | H : ret _ _ = (Ok _, _) |- _ => apply ret_Ok in H as [? ?]
  | H : gets _ _ = (Ok _, _) |- _ => apply gets_Ok in H as [? ?]
  | H : modify _ _ = (Ok _, _) |- _ => apply modify_Ok in H
  | H : ensure _ _ _ = (Ok _, _) |- _ => apply ensure_Ok in H as [? ?]
  | H : ok_or _ _ _ = (Ok _, _) |- _ => apply ok_or_Ok in H as [? ?]
  | H : expect _ _ = (Ok _, _) |- _ => apply expect_Ok in H as [? ?]
  | H : fail _ _ = (Ok _, _) |- _ => destruct (fail_Ok _ _ _ _ H)
  | H : transactional _ _ = (Ok _, _) |- _ => apply transactional_Ok in H
  end.

(** Turn the conditions a successful run passed into propositions. *)
Ltac conditions :=
  repeat match goal with
  | H : (_ <=? _) = true |- _ => apply Z.leb_le in H
  | H : (_ <? _) = true |- _ => apply Z.ltb_lt in H
  | H : (_ =? _) = true |- _ => apply Z.eqb_eq in H
  | H : (_ <=? _) = false |- _ => apply Z.leb_gt in H
  | H : (_ <? _) = false |- _ => apply Z.ltb_ge in H
  | H : (_ =? _) = false |- _ => apply Z.eqb_neq in H
  | H : negb _ = true |- _ => apply negb_true_iff in H
  | H : negb _ = false |- _ => apply negb_false_iff in H
  | H : (_ && _) = true |- _ => apply andb_true_iff in H as [? ?]
  | H : (_ || _) = true |- _ => apply orb_true_iff in H
  | H : (_ || _) = false |- _ => apply orb_false_iff in H as [? ?]
  | H : bool_decide _ = true |- _ => apply bool_decide_eq_true in H
  | H : bool_decide _ = false |- _ => apply bool_decide_eq_false in H
  | H : checked_add _ _ _ = Some _ |- _ => apply checked_add_Some in H as [? ?]
  | H : checked_sub _ _ _ = Some _ |- _ => apply checked_sub_Some in H as [? ?]
  | H : checked_mul _ _ _ = Some _ |- _ => apply checked_mul_Some in H as [? ?]
  | H : checked_div _ _ = Some _ |- _ => apply checked_div_Some in H as [? ?]
  end.

(** Case analysis on a [decide] of the goal only. *)
Ltac goal_decide :=
  match goal with |- context [@decide ?P ?d] => destruct (@decide P d) end.

(** Split the equations of tuples in the context. *)
Ltac split_pairs :=
  repeat match goal with
  | H : (_, _) = (_, _) |- _ => apply pair_equal_spec in H as [? H]
  end.

Ltac minv := repeat (minv_step; subst; cbv beta in *).

(** ** What a computation leaves unchanged, and what it preserves

    [keeps f m]: whatever the outcome, [m] does not change the part [f] of the
    storage.  [stable I m]: whatever the outcome, [m] preserves [I]. *)

Definition keeps {S E A X : Type} (f : S -> X) (m : M S E A) : Prop :=
  forall s, f (snd (m s)) = f s.

Definition stable {S E A : Type} (I : S -> Prop) (m : M S E A) : Prop :=
  forall s, I s -> I (snd (m s)).

Create HintDb frame discriminated.

Section Frame.
Context {S E X : Type} (f : S -> X).

Lemma keeps_ret {A} (a : A) : keeps f (ret (E:=E) a).
Proof. intros s. reflexivity. Qed.
Lemma keeps_fail {A} (e : E) : keeps f (fail (A:=A) e).
Proof. intros s. reflexivity. Qed.
Lemma keeps_gets {A} (g : S -> A) : keeps f (gets (E:=E) g).
Proof. intros s. reflexivity. Qed.
Lemma keeps_ensure b (e : E) : keeps f (ensure b e).
Proof. destruct b; intros s; reflexivity. Qed.
Lemma keeps_ok_or {A} (o : option A) (e : E) : keeps f (ok_or o e).
Proof. destruct o; intros s; reflexivity. Qed.
Lemma keeps_expect {A} (o : option A) : keeps f (expect (E:=E) o).
Proof. destruct o; intros s; reflexivity. Qed.
Lemma keeps_modify (g : S -> S) :
  (forall s, f (g s) = f s) -> keeps f (modify (E:=E) g).
Proof. intros H s. apply H. Qed.

Lemma keeps_bind {A B} (m : M S E A) (k : A -> M S E B) :
  keeps f m -> (forall a, keeps f (k a)) -> keeps f (bind m k).
Proof.
  intros Hm Hk s. specialize (Hm s). unfold bind.
  destruct (m s) as [[a|e|] s1]; simpl in *; [|done..].
  rewrite <- Hm. apply Hk.
Qed.

Lemma keeps_transactional {A} (m : M S E A) : keeps f m -> keeps f (transactional m).
Proof.
  intros Hm s. specialize (Hm s). unfold transactional.
  destruct (m s) as [[a|e|] s1]; simpl in *; done.
Qed.

Lemma keeps_attempt {A} (m : M S E A) : keeps f m -> keeps f (attempt m).
Proof.
  intros Hm s. specialize (Hm s). unfold attempt.
  destruct (m s) as [[a|e|] s1]; simpl in *; done.
Qed.

Lemma keeps_foldM {A B} (g : B -> A -> M S E B) l :
  (forall b a, keeps f (g b a)) -> forall b, keeps f (foldM g b l).
Proof.
  intros Hg. induction l as [|a l IH]; intros b; simpl.
  - apply keeps_ret.
  - by apply keeps_bind.
Qed.

Lemma keeps_if {A} (b : bool) (m1 m2 : M S E A) :
  keeps f m1 -> keeps f m2 -> keeps f (if b then m1 else m2).
Proof. by destruct b. Qed.

Lemma keeps_run {A} (m : M S E A) s r s' : keeps f m -> m s = (r, s') -> f s' = f s.
Proof. intros Hk Hm. specialize (Hk s). by rewrite Hm in Hk. Qed.
End Frame.

#[export] Hint Resolve keeps_ret keeps_fail keeps_gets keeps_ensure keeps_ok_or
  keeps_expect keeps_transactional keeps_attempt : frame.

(** [reads_only f m]: what [m] returns only depends on the part [f] of the storage. *)
Definition reads_only {S E A X : Type} (f : S -> X) (m : M S E A) : Prop :=
  forall s s', f s = f s' -> fst (m s) = fst (m s').

Section Reads.
Context {S E X : Type} (f : S -> X).

Lemma reads_ret {A} (a : A) : reads_only f (ret (E:=E) a).
Proof. intros s s' _. reflexivity. Qed.
Lemma reads_fail {A} (e : E) : reads_only f (fail (A:=A) e).
Proof. intros s s' _. reflexivity. Qed.
Lemma reads_gets {A} (g : S -> A) :
  (forall s s', f s = f s' -> g s = g s') -> reads_only f (gets (E:=E) g).
Proof. intros Hg s s' Hs. unfold gets. simpl. by rewrite (Hg s s' Hs). Qed.
Lemma reads_ensure b (e : E) : reads_only f (ensure b e).
Proof. destruct b; intros s s' _; reflexivity. Qed.
Lemma reads_ok_or {A} (o : option A) (e : E) : reads_only f (ok_or o e).
Proof. destruct o; intros s s' _; reflexivity. Qed.
Lemma reads_expect {A} (o : option A) : reads_only f (expect (E:=E) o).
Proof. destruct o; intros s s' _; reflexivity. Qed.

Lemma reads_bind {A B} (m : M S E A) (k : A -> M S E B) :
  reads_only f m -> keeps f m -> (forall a, reads_only f (k a)) -> reads_only f (bind m k).
Proof.
  intros Hm Hf Hk s s' Hs. pose proof (Hm s s' Hs) as H1. pose proof (Hf s) as E1.
  pose proof (Hf s') as E2. unfold bind.
  destruct (m s) as [r s1], (m s') as [r' s1']. simpl in *. subst r'.
  destruct r as [a|e|]; [|done..]. apply Hk. congruence.
Qed.
End Reads.

#[export] Hint Resolve reads_ret reads_fail reads_ensure reads_ok_or reads_expect : frame.

Section Stable.
Context {S E : Type} (I : S -> Prop).

Lemma stable_modify (g : S -> S) :
  (forall s, I s -> I (g s)) -> stable I (modify (E:=E) g).
Proof. intros Hg s HI. simpl. auto. Qed.

Lemma stable_bind {A B} (m : M S E A) (k : A -> M S E B) :
  stable I m -> (forall a, stable I (k a)) -> stable I (bind m k).
Proof.
  intros Hm Hk s HI. specialize (Hm s HI). unfold bind.
  destruct (m s) as [[a|e|] s1]; simpl in *; [by apply Hk|done..].
Qed.

Lemma stable_transactional {A} (m : M S E A) : stable I m -> stable I (transactional m).
Proof.
  intros Hm s HI. specialize (Hm s HI). unfold transactional. by destruct (m s) as [[] ?].
Qed.

Lemma stable_attempt {A} (m : M S E A) : stable I m -> stable I (attempt m).
Proof. intros Hm s HI. specialize (Hm s HI). unfold attempt. by destruct (m s) as [[] ?]. Qed.

Lemma stable_foldM {A B} (g : B -> A -> M S E B) l :
  (forall b a, stable I (g b a)) -> forall b, stable I (foldM g b l).
Proof.
  intros Hg. induction l as [|a l IH]; intros b; simpl; [by intros s|]. by apply stable_bind.
Qed.

(** An invariant that reads only a part of the storage is preserved by what
    does not touch that part. *)
Lemma stable_keeps {A X} (f : S -> X) (m : M S E A) :
  (forall s s', f s' = f s -> I s -> I s') -> keeps f m -> stable I m.
Proof. intros HI Hk s Hs. eapply HI; [apply Hk|done]. Qed.

Lemma stable_run {A} (m : M S E A) s r s' : stable I m -> m s = (r, s') -> I s -> I s'.
Proof. intros Hm Hr HI. specialize (Hm s HI). by rewrite Hr in Hm. Qed.
End Stable.

Lemma Forall2_impl_elem {A B} (P Q : A -> B -> Prop) l k : Forall2 P l k ->
  (forall a b, a ∈ l -> P a b -> Q a b) -> Forall2 Q l k.
Proof.
  induction 1 as [|a b l k Hab _ IH]; intros H; constructor; [by apply H; [left|]|].
  apply IH. intros a' b' Ha. apply H. by right.
Qed.

Lemma foldM_app {S E A B} (f : B -> A -> M S E B) l l' : forall b s,
  foldM f b (l ++ l') s = (let* b' := foldM f b l in foldM f b' l') s.
Proof.
  induction l as [|a l IH]; intros b s; [done|]. cbn [foldM app]. unfold bind at 1 2 3.
  destruct (f b a s) as [[x|e|] s1]; [|done..]. rewrite IH. done.
Qed.

(** ** Sums over storage maps *)

Section MapSum.
Context `{Countable K} {V : Type}.
Implicit Types (f : V -> Z) (m : gmap K V).

Definition map_sum f m : Z := map_fold (fun _ v acc => f v + acc) 0 m.

Lemma map_sum_empty f : map_sum f ∅ = 0.
Proof. apply map_fold_empty. Qed.

Lemma map_sum_insert_None f m k v :
  m !! k = None -> map_sum f (<[k:=v]> m) = f v + map_sum f m.
Proof.
  intros Hk. unfold map_sum. rewrite map_fold_insert_L; [done| |done].
  intros. lia.
Qed.

Lemma map_sum_delete f m k v :
  m !! k = Some v -> map_sum f m = f v + map_sum f (delete k m).
Proof.
  intros Hk. rewrite <- (insert_id m k v Hk) at 1.
  rewrite <- insert_delete_eq. apply map_sum_insert_None.
  apply lookup_delete_eq.
Qed.

(** Writing one entry changes the sum by the difference of the two values. *)
Lemma map_sum_insert f m k v :
  map_sum f (<[k:=v]> m) = map_sum f m - from_option f 0 (m !! k) + f v.
Proof.
  destruct (m !! k) as [w|] eqn:Hk; simpl.
  - rewrite <- insert_delete_eq, map_sum_insert_None by apply lookup_delete_eq.
    rewrite (map_sum_delete f m k w Hk). lia.
  - rewrite map_sum_insert_None by done. lia.
Qed.

Lemma map_sum_nonneg f m :
  (forall k v, m !! k = Some v -> 0 <= f v) -> 0 <= map_sum f m.
Proof.
  induction m as [|k v m Hk IH] using map_ind; intros Hf.
  - by rewrite map_sum_empty.
  - rewrite map_sum_insert_None by done.
    assert (0 <= f v) by (apply (Hf k); apply lookup_insert_eq).
    enough (0 <= map_sum f m) by lia.
    apply IH. intros j w Hj. apply (Hf j).
    rewrite lookup_insert_ne; [done|]. intros ->. congruence.
Qed.

(** One entry is at most the sum. *)
Lemma map_sum_lookup_le f m k v :
  (forall k v, m !! k = Some v -> 0 <= f v) ->
  m !! k = Some v -> f v <= map_sum f m.
Proof.
  intros Hf Hk. rewrite (map_sum_delete f m k v Hk).
  enough (0 <= map_sum f (delete k m)) by lia.
  apply map_sum_nonneg. intros j w Hj.
  apply lookup_delete_Some in Hj as [_ Hj]. by apply (Hf j).
Qed.
End MapSum.

(** ** Sums over lists of indices *)

Section IndexSum.
Context (d : Z -> Z).

Fixpoint zsum (l : list Z) : Z :=
  match l with
  | [] => 0
  | k :: l' => d k + zsum l'
  end.

Lemma zsum_app l l' : zsum (l ++ l') = zsum l + zsum l'.
Proof. induction l; simpl; lia. Qed.

Lemma zsum_submseteq l l' : l ⊆+ l' -> (forall k, k ∈ l' -> 0 <= d k) -> zsum l <= zsum l'.
Proof.
  intros Hs. induction Hs as [|x l l' Hs IH|x y l|x l l' Hs IH|l l' l'' H1 IH1 H2 IH2];
    intros Hd; simpl.
  - lia.
  - specialize (IH ltac:(set_solver)). lia.
  - lia.
  - specialize (IH ltac:(set_solver)). specialize (Hd x ltac:(set_solver)). lia.
  - specialize (IH2 Hd). transitivity (zsum l'); [|done]. apply IH1.
    intros k Hk. apply Hd. by eapply elem_of_submseteq.
Qed.
Lemma zsum_nonneg l : (forall k, k ∈ l -> 0 <= d k) -> 0 <= zsum l.
Proof.
  induction l as [|x l IH]; intros Hd; simpl; [done|]. pose proof (Hd x ltac:(set_solver)).
  assert (0 <= zsum l) by (apply IH; set_solver). lia.
Qed.

Lemma zsum_reverse l : zsum (reverse l) = zsum l.
Proof. induction l as [|x l IH]; [done|]. rewrite reverse_cons, zsum_app, IH. simpl. lia. Qed.
End IndexSum.

(** Differences telescope. *)
Lemma zsum_telescope (F : Z -> Z) m n :
  zsum (fun k => F (k + 1) - F k) (seqZ m (Z.of_nat n)) = F (m + Z.of_nat n) - F m.
Proof.
  revert m. induction n as [|n IH]; intros m; [rewrite Z.add_0_r; simpl; lia|].
  rewrite seqZ_cons by lia. simpl zsum.
  replace (Z.pred (Z.of_nat (S n))) with (Z.of_nat n) by lia. rewrite IH.
  replace (Z.succ m + Z.of_nat n) with (m + Z.of_nat (S n)) by lia.
  replace (Z.succ m) with (m + 1) by lia. lia.
Qed.

Lemma zsum_ext (f g : Z -> Z) l : (forall k, k ∈ l -> f k = g k) -> zsum f l = zsum g l.
Proof.
  induction l as [|x l IH]; intros H; simpl; [done|].
  rewrite (H x) by set_solver. rewrite IH; [done|]. set_solver.
Qed.

(** ** Filters *)

Section Filters.
Context {A : Type} (P : A -> Prop) `{!forall x, Decision (P x)}.

Lemma filter_none (l : list A) : (forall x, x ∈ l -> ~ P x) -> filter P l = [].
Proof.
  induction l as [|x l IH]; intros Hl; [done|].
  rewrite filter_cons_False by (apply Hl; left). apply IH. intros y Hy. apply Hl. by right.
Qed.

Lemma filter_all (l : list A) : (forall x, x ∈ l -> P x) -> filter P l = l.
Proof.
  induction l as [|x l IH]; intros Hl; [done|].
  rewrite filter_cons_True by (apply Hl; left). f_equal.
  apply IH. intros y Hy. apply Hl. by right.
Qed.
End Filters.

(** ** Byte strings *)

Definition bytes : Type := list byte.

Definition byte_to_Z (b : byte) : Z := Z.of_N (Byte.to_N b).
Definition byte_of_Z (z : Z) : byte :=
  match Byte.of_N (Z.to_N (z mod 256)) with Some b => b | None => x00 end.

(** The number a byte string denotes, most significant byte first. *)
Definition be_value (bs : bytes) : Z :=
  foldl (fun acc b => acc * 256 + byte_to_Z b) 0 bs.

(** [to_be_bytes]: [n] bytes, most significant first. *)
Fixpoint to_be_bytes (n : nat) (z : Z) : bytes :=
  match n with
  | O => []
  | S n' => to_be_bytes n' (z / 256) ++ [byte_of_Z z]
  end.

Lemma byte_to_Z_range b : 0 <= byte_to_Z b < 256.
Proof. unfold byte_to_Z. pose proof (Byte.to_N_bounded b). lia. Qed.

Lemma byte_to_of_Z z : byte_to_Z (byte_of_Z z) = z mod 256.
Proof.
  unfold byte_to_Z, byte_of_Z.
  pose proof (Z.mod_pos_bound z 256 ltac:(lia)) as Hz.
  destruct (Byte.of_N (Z.to_N (z mod 256))) as [b|] eqn:Hb.
  - apply Byte.to_of_N in Hb. rewrite Hb. lia.
  - apply Byte.of_N_None_iff in Hb. lia.
Qed.

Lemma byte_of_to_Z b : byte_of_Z (byte_to_Z b) = b.
Proof.
  unfold byte_of_Z, byte_to_Z. pose proof (Byte.to_N_bounded b).
  rewrite Z.mod_small by lia. rewrite N2Z.id, Byte.of_to_N. done.
Qed.

Lemma be_value_snoc bs b : be_value (bs ++ [b]) = be_value bs * 256 + byte_to_Z b.
Proof. unfold be_value. by rewrite foldl_app. Qed.

Lemma be_value_nonneg bs : 0 <= be_value bs.
Proof.
  induction bs as [|b bs IH] using rev_ind; [done|].
  rewrite be_value_snoc. pose proof (byte_to_Z_range b). lia.
Qed.

Lemma length_to_be_bytes n z : length (to_be_bytes n z) = n.
Proof.
  revert z. induction n as [|n IH]; intros z; simpl; [done|].
  rewrite length_app, IH. simpl. lia.
Qed.

(** Decoding what was encoded gives the number modulo the width. *)
Lemma be_value_to_be_bytes n z :
  be_value (to_be_bytes n z) = z mod 256 ^ (Z.of_nat n).
Proof.
  revert z. induction n as [|n IH]; intros z; simpl to_be_bytes.
  - change (256 ^ Z.of_nat 0) with 1. by rewrite Z.mod_1_r.
  - rewrite be_value_snoc, IH, byte_to_of_Z.
    rewrite Nat2Z.inj_succ, Z.pow_succ_r by lia.
    rewrite Z.rem_mul_r by lia. lia.
Qed.

(** [to_be_bytes] is injective on the numbers of the width. *)
Lemma to_be_bytes_inj n a b :
  0 <= a < 256 ^ Z.of_nat n -> 0 <= b < 256 ^ Z.of_nat n ->
  to_be_bytes n a = to_be_bytes n b -> a = b.
Proof.
  intros Ha Hb Heq. apply (f_equal be_value) in Heq.
  rewrite !be_value_to_be_bytes, !Z.mod_small in Heq; done.
Qed.

#[global] Arguments to_be_bytes : simpl never.
