(* ===== verification/Types.v ===== *)
(** * Data of the pallet

    [src/src/types.rs], [src/src/constants.rs], the events, errors and
    configuration of [src/src/lib.rs], and the parts of the XCM data types that
    [src/src/xcm] and [src/src/contracts] build.  Identifiers (accounts, 256-bit
    hashes, 160-bit addresses, asset ids) are numbers: the pallet only compares
    them, hashes them and writes their bytes. *)

From S2P Require Import Prelude.

#[local] Set Warnings "-register-all".

Abbreviation AccountId := Z (only parsing).
Abbreviation H256 := Z (only parsing).
Abbreviation H160 := Z (only parsing).
Abbreviation Address := Z (only parsing).
Abbreviation Balance := Z (only parsing).
Abbreviation BlockNumber := Z (only parsing).
Abbreviation DisputeId := Z (only parsing).
Abbreviation FeedId := Z (only parsing).
Abbreviation QueryId := Z (only parsing).
Abbreviation Timestamp := Z (only parsing).
Abbreviation Tributes := Z (only parsing).
Abbreviation ParaId := Z (only parsing).
Abbreviation Nonce := Z (only parsing).
Abbreviation AssetId := Z (only parsing).
Abbreviation Value := bytes (only parsing).
Abbreviation QueryDataBytes := bytes (only parsing).

(** ** constants.rs *)

Definition MINUTES : Timestamp := 60.
Definition HOURS : Timestamp := 60 * MINUTES.
Definition DAYS : Timestamp := 24 * HOURS.
Definition WEEKS : Timestamp := 7 * DAYS.
Definition DECIMALS : Z := 18.
Definition MAX_ITERATIONS : Z := 32.
Definition MAX_AGGREGATE_VOTES_SENT_PER_BLOCK : Z := 3.
Definition MAX_VOTE_ROUNDS : Z := 20.
Definition REPORTING_LOCK : Timestamp := 12 * HOURS.

(** The gas limits of [contracts/mod.rs]. *)
Definition BEGIN_PARACHAIN_DISPUTE_GAS : Z := 600000.
Definition REGISTER_GAS : Z := 400000.
Definition VOTE_GAS : Z := 150000.

Ltac unfold_times := unfold REPORTING_LOCK, WEEKS, DAYS, HOURS, MINUTES in *.

(** ** types.rs *)

(** Record fields are global names, so they carry a prefix for their type. *)

Record Feed := {
  feed_reward : Balance;
  feed_balance : Balance;
  feed_start_time : Timestamp;
  feed_interval : Timestamp;
  feed_window : Timestamp;
  feed_price_threshold : Z;
  feed_reward_increase_per_second : Balance;
}.

Record Tip := {
  tip_amount : Balance;
  tip_timestamp : Timestamp;
  tip_cumulative_tips : Balance;
}.

Record Report := {
  rep_index : Z;
  rep_block_number : BlockNumber;
  rep_reporter : AccountId;
  rep_is_disputed : bool;
  rep_previous : option Timestamp;
}.

Record StakeInfo := {
  stk_address : Address;
  stk_start_date : Timestamp;
  stk_staked_balance : Tributes;
  stk_locked_balance : Tributes;
  stk_reward_debt : Balance;
  stk_reporter_last_timestamp : Timestamp;
  stk_reports_submitted : Z;
  stk_start_vote_count : Z;
  stk_start_vote_tally : Z;
  stk_staked : bool;
}.

(** [StakeInfo::new]: everything but the address is the default. *)
Definition StakeInfo_new (a : Address) : StakeInfo :=
  {| stk_address := a; stk_start_date := 0; stk_staked_balance := 0;
     stk_locked_balance := 0; stk_reward_debt := 0;
     stk_reporter_last_timestamp := 0; stk_reports_submitted := 0;
     stk_start_vote_count := 0; stk_start_vote_tally := 0; stk_staked := false |}.

Record Dispute := {
  dsp_query_id : QueryId;
  dsp_timestamp : Timestamp;
  dsp_value : Value;
  dsp_disputed_reporter : AccountId;
  dsp_slashed_amount : Tributes;
}.

Record Tally := {
  does_support : Z;
  against : Z;
  invalid_query : Z;
}.

Definition Tally_default : Tally :=
  {| does_support := 0; against := 0; invalid_query := 0 |}.

Inductive VoteResult := Failed | Passed | Invalid.

#[export] Instance VoteResult_eq_dec : EqDecision VoteResult.
Proof. solve_decision. Defined.

Record Vote := {
  vote_identifier : DisputeId;
  vote_vote_round : Z;
  vote_start_date : Timestamp;
  vote_block_number : BlockNumber;
  vote_fee : Balance;
  vote_tally_date : Timestamp;
  vote_users : Tally;
  vote_reporters : Tally;
  vote_sent : bool;
  vote_executed : bool;
  vote_result : option VoteResult;
  vote_initiator : AccountId;
}.

Record Weights := {
  w_report_stake_deposited : Z;
  w_report_staking_withdraw_request : Z;
  w_report_stake_withdrawn : Z;
  w_report_vote_tallied : Z;
  w_report_vote_executed : Z;
  w_report_slash : Z;
}.

(** Field updates of [Feed]. *)
Definition set_feed_balance (v : Balance) (x : Feed) : Feed :=
  {| feed_reward := feed_reward x;
     feed_balance := v;
     feed_start_time := feed_start_time x;
     feed_interval := feed_interval x;
     feed_window := feed_window x;
     feed_price_threshold := feed_price_threshold x;
     feed_reward_increase_per_second := feed_reward_increase_per_second x |}.

(** Field updates of [Tip]. *)
Definition set_tip_amount (v : Balance) (x : Tip) : Tip :=
  {| tip_amount := v;
     tip_timestamp := tip_timestamp x;
     tip_cumulative_tips := tip_cumulative_tips x |}.

(** Field updates of [Report]. *)
Definition set_rep_is_disputed (v : bool) (x : Report) : Report :=
  {| rep_index := rep_index x;
     rep_block_number := rep_block_number x;
     rep_reporter := rep_reporter x;
     rep_is_disputed := v;
     rep_previous := rep_previous x |}.
Definition set_rep_previous (v : option Timestamp) (x : Report) : Report :=
  {| rep_index := rep_index x;
     rep_block_number := rep_block_number x;
     rep_reporter := rep_reporter x;
     rep_is_disputed := rep_is_disputed x;
     rep_previous := v |}.

(** Field updates of [StakeInfo]. *)
Definition set_stk_start_date (v : Timestamp) (x : StakeInfo) : StakeInfo :=
  {| stk_address := stk_address x;
     stk_start_date := v;
     stk_staked_balance := stk_staked_balance x;
     stk_locked_balance := stk_locked_balance x;
     stk_reward_debt := stk_reward_debt x;
     stk_reporter_last_timestamp := stk_reporter_last_timestamp x;
     stk_reports_submitted := stk_reports_submitted x;
     stk_start_vote_count := stk_start_vote_count x;
     stk_start_vote_tally := stk_start_vote_tally x;
     stk_staked := stk_staked x |}.
Definition set_stk_staked_balance (v : Tributes) (x : StakeInfo) : StakeInfo :=
  {| stk_address := stk_address x;
     stk_start_date := stk_start_date x;
     stk_staked_balance := v;
     stk_locked_balance := stk_locked_balance x;
     stk_reward_debt := stk_reward_debt x;
     stk_reporter_last_timestamp := stk_reporter_last_timestamp x;
     stk_reports_submitted := stk_reports_submitted x;
     stk_start_vote_count := stk_start_vote_count x;
     stk_start_vote_tally := stk_start_vote_tally x;
     stk_staked := stk_staked x |}.
Definition set_stk_locked_balance (v : Tributes) (x : StakeInfo) : StakeInfo :=
  {| stk_address := stk_address x;
     stk_start_date := stk_start_date x;
     stk_staked_balance := stk_staked_balance x;
     stk_locked_balance := v;
     stk_reward_debt := stk_reward_debt x;
     stk_reporter_last_timestamp := stk_reporter_last_timestamp x;
     stk_reports_submitted := stk_reports_submitted x;
     stk_start_vote_count := stk_start_vote_count x;
     stk_start_vote_tally := stk_start_vote_tally x;
     stk_staked := stk_staked x |}.
Definition set_stk_reward_debt (v : Balance) (x : StakeInfo) : StakeInfo :=
  {| stk_address := stk_address x;
     stk_start_date := stk_start_date x;
     stk_staked_balance := stk_staked_balance x;
     stk_locked_balance := stk_locked_balance x;
     stk_reward_debt := v;
     stk_reporter_last_timestamp := stk_reporter_last_timestamp x;
     stk_reports_submitted := stk_reports_submitted x;
     stk_start_vote_count := stk_start_vote_count x;
     stk_start_vote_tally := stk_start_vote_tally x;
     stk_staked := stk_staked x |}.
Definition set_stk_reporter_last_timestamp (v : Timestamp) (x : StakeInfo) : StakeInfo :=
  {| stk_address := stk_address x;
     stk_start_date := stk_start_date x;
     stk_staked_balance := stk_staked_balance x;
     stk_locked_balance := stk_locked_balance x;
     stk_reward_debt := stk_reward_debt x;
     stk_reporter_last_timestamp := v;
     stk_reports_submitted := stk_reports_submitted x;
     stk_start_vote_count := stk_start_vote_count x;
     stk_start_vote_tally := stk_start_vote_tally x;
     stk_staked := stk_staked x |}.
Definition set_stk_reports_submitted (v : Z) (x : StakeInfo) : StakeInfo :=
  {| stk_address := stk_address x;
     stk_start_date := stk_start_date x;
     stk_staked_balance := stk_staked_balance x;
     stk_locked_balance := stk_locked_balance x;
     stk_reward_debt := stk_reward_debt x;
     stk_reporter_last_timestamp := stk_reporter_last_timestamp x;
     stk_reports_submitted := v;
     stk_start_vote_count := stk_start_vote_count x;
     stk_start_vote_tally := stk_start_vote_tally x;
     stk_staked := stk_staked x |}.
Definition set_stk_start_vote_count (v : Z) (x : StakeInfo) : StakeInfo :=
  {| stk_address := stk_address x;
     stk_start_date := stk_start_date x;
     stk_staked_balance := stk_staked_balance x;
     stk_locked_balance := stk_locked_balance x;
     stk_reward_debt := stk_reward_debt x;
     stk_reporter_last_timestamp := stk_reporter_last_timestamp x;
     stk_reports_submitted := stk_reports_submitted x;
     stk_start_vote_count := v;
     stk_start_vote_tally := stk_start_vote_tally x;
     stk_staked := stk_staked x |}.
Definition set_stk_start_vote_tally (v : Z) (x : StakeInfo) : StakeInfo :=
  {| stk_address := stk_address x;
     stk_start_date := stk_start_date x;
     stk_staked_balance := stk_staked_balance x;
     stk_locked_balance := stk_locked_balance x;
     stk_reward_debt := stk_reward_debt x;
     stk_reporter_last_timestamp := stk_reporter_last_timestamp x;
     stk_reports_submitted := stk_reports_submitted x;
     stk_start_vote_count := stk_start_vote_count x;
     stk_start_vote_tally := v;
     stk_staked := stk_staked x |}.
Definition set_stk_staked (v : bool) (x : StakeInfo) : StakeInfo :=
  {| stk_address := stk_address x;
     stk_start_date := stk_start_date x;
     stk_staked_balance := stk_staked_balance x;
     stk_locked_balance := stk_locked_balance x;
     stk_reward_debt := stk_reward_debt x;
     stk_reporter_last_timestamp := stk_reporter_last_timestamp x;
     stk_reports_submitted := stk_reports_submitted x;
     stk_start_vote_count := stk_start_vote_count x;
     stk_start_vote_tally := stk_start_vote_tally x;
     stk_staked := v |}.

(** Field updates of [Vote]. *)
Definition set_vote_fee (v : Balance) (x : Vote) : Vote :=
  {| vote_identifier := vote_identifier x;
     vote_vote_round := vote_vote_round x;
     vote_start_date := vote_start_date x;
     vote_block_number := vote_block_number x;
     vote_fee := v;
     vote_tally_date := vote_tally_date x;
     vote_users := vote_users x;
     vote_reporters := vote_reporters x;
     vote_sent := vote_sent x;
     vote_executed := vote_executed x;
     vote_result := vote_result x;
     vote_initiator := vote_initiator x |}.
Definition set_vote_tally_date (v : Timestamp) (x : Vote) : Vote :=
  {| vote_identifier := vote_identifier x;
     vote_vote_round := vote_vote_round x;
     vote_start_date := vote_start_date x;
     vote_block_number := vote_block_number x;
     vote_fee := vote_fee x;
     vote_tally_date := v;
     vote_users := vote_users x;
     vote_reporters := vote_reporters x;
     vote_sent := vote_sent x;
     vote_executed := vote_executed x;
     vote_result := vote_result x;
     vote_initiator := vote_initiator x |}.
Definition set_vote_users (v : Tally) (x : Vote) : Vote :=
  {| vote_identifier := vote_identifier x;
     vote_vote_round := vote_vote_round x;
     vote_start_date := vote_start_date x;
     vote_block_number := vote_block_number x;
     vote_fee := vote_fee x;
     vote_tally_date := vote_tally_date x;
     vote_users := v;
     vote_reporters := vote_reporters x;
     vote_sent := vote_sent x;
     vote_executed := vote_executed x;
     vote_result := vote_result x;
     vote_initiator := vote_initiator x |}.
Definition set_vote_reporters (v : Tally) (x : Vote) : Vote :=
  {| vote_identifier := vote_identifier x;
     vote_vote_round := vote_vote_round x;
     vote_start_date := vote_start_date x;
     vote_block_number := vote_block_number x;
     vote_fee := vote_fee x;
     vote_tally_date := vote_tally_date x;
     vote_users := vote_users x;
     vote_reporters := v;
     vote_sent := vote_sent x;
     vote_executed := vote_executed x;
     vote_result := vote_result x;
     vote_initiator := vote_initiator x |}.
Definition set_vote_sent (v : bool) (x : Vote) : Vote :=
  {| vote_identifier := vote_identifier x;
     vote_vote_round := vote_vote_round x;
     vote_start_date := vote_start_date x;
     vote_block_number := vote_block_number x;
     vote_fee := vote_fee x;
     vote_tally_date := vote_tally_date x;
     vote_users := vote_users x;
     vote_reporters := vote_reporters x;
     vote_sent := v;
     vote_executed := vote_executed x;
     vote_result := vote_result x;
     vote_initiator := vote_initiator x |}.
Definition set_vote_executed (v : bool) (x : Vote) : Vote :=
  {| vote_identifier := vote_identifier x;
     vote_vote_round := vote_vote_round x;
     vote_start_date := vote_start_date x;
     vote_block_number := vote_block_number x;
     vote_fee := vote_fee x;
     vote_tally_date := vote_tally_date x;
     vote_users := vote_users x;
     vote_reporters := vote_reporters x;
     vote_sent := vote_sent x;
     vote_executed := v;
     vote_result := vote_result x;
     vote_initiator := vote_initiator x |}.
Definition set_vote_result (v : option VoteResult) (x : Vote) : Vote :=
  {| vote_identifier := vote_identifier x;
     vote_vote_round := vote_vote_round x;
     vote_start_date := vote_start_date x;
     vote_block_number := vote_block_number x;
     vote_fee := vote_fee x;
     vote_tally_date := vote_tally_date x;
     vote_users := vote_users x;
     vote_reporters := vote_reporters x;
     vote_sent := vote_sent x;
     vote_executed := vote_executed x;
     vote_result := v;
     vote_initiator := vote_initiator x |}.

(** [U256ToBalance]: saturate into [u128], then into the balance type, which is
    [u128] here as in the pallet's runtimes. *)
Definition U256ToBalance (a : Z) : Balance :=
  saturated_into u128_max (saturated_into u128_max a).

(** [BytesToU256]: the loop over the bytes, with both checks. *)
Definition BytesToU256 (b : bytes) : option Z :=
  foldl (fun number i =>
    match number with
    | None => None
    | Some n =>
        match checked_mul u256_max n 256 with
        | None => None
        | Some n' => checked_add u256_max n' (byte_to_Z i)
        end
    end) (Some 0) b.

(** ** XCM data *)

Inductive NetworkId :=
| ByGenesis (id : bytes)
| ByFork (block_number : Z) (block_hash : bytes)
| Polkadot
| Kusama
| Westend
| Rococo
| Wococo
| Ethereum (chain_id : Z)
| BitcoinCore
| BitcoinCash.

Inductive Junction :=
| Parachain (id : ParaId)
| AccountId32 (network : option NetworkId) (id : bytes)
| AccountIndex64 (network : option NetworkId) (idx : Z)
| AccountKey20 (network : option NetworkId) (key : bytes)
| PalletInstance (i : Z)
| GeneralIndex (i : Z)
| GeneralKey (length : Z) (data : bytes)
| OnlyChild
| Plurality
| GlobalConsensus (n : NetworkId).

#[export] Instance byte_eq_dec : EqDecision byte := Byte.byte_eq_dec.
#[export] Instance NetworkId_eq_dec : EqDecision NetworkId.
Proof. solve_decision. Defined.
#[export] Instance Junction_eq_dec : EqDecision Junction.
Proof. solve_decision. Defined.

Record MultiLocation := { parents : Z; interior : list Junction }.

#[export] Instance MultiLocation_eq_dec : EqDecision MultiLocation.
Proof. solve_decision. Defined.

Record Weight := { ref_time : Z; proof_size : Z }.

Record MultiAsset := { asset_id : AssetId; fungible : Z }.

Inductive OriginKind := Native | SovereignAccount | Superuser | OKXcm.

Inductive Instruction :=
| DescendOrigin (j : list Junction)
| WithdrawAsset (a : MultiAsset)
| BuyExecution (fees : MultiAsset) (weight_limit : Weight)
| Transact (origin_kind : OriginKind) (require_weight_at_most : Weight) (call : bytes).

Abbreviation Xcm := (list Instruction) (only parsing).

Inductive SendError := NotApplicable | Fees | OtherSendError.

(** [xcm/ethereum_xcm.rs] *)

Definition MAX_ETHEREUM_XCM_INPUT_SIZE : Z := 2 ^ 16.

Inductive TransactionAction := TxCall (a : H160).

Record ManualEthereumXcmFee := {
  mf_gas_price : option Z;
  mf_max_fee_per_gas : option Z;
}.

Inductive EthereumXcmFee := Manual (f : ManualEthereumXcmFee) | Auto.

Record EthereumXcmTransactionV1 := {
  v1_gas_limit : Z;
  v1_fee_payment : EthereumXcmFee;
  v1_action : TransactionAction;
  v1_value : Z;
  v1_input : bytes;
  v1_access_list : option (list (H160 * list H256));
}.

Record EthereumXcmTransactionV2 := {
  v2_gas_limit : Z;
  v2_action : TransactionAction;
  v2_value : Z;
  v2_input : bytes;
  v2_access_list : option (list (H160 * list H256));
}.

Inductive EthereumXcmTransaction :=
| V1 (t : EthereumXcmTransactionV1)
| V2 (t : EthereumXcmTransactionV2).

Inductive EthereumXcmCall :=
| EthTransact (xcm_transaction : EthereumXcmTransaction)
| EthTransactThroughProxy (transact_as : H160) (xcm_transaction : EthereumXcmTransaction).

(** The [ethabi] tokens the pallet builds. *)
Inductive Token :=
| FixedBytes (b : bytes)
| Uint (n : Z)
| Bytes (b : bytes)
| TokenAddress (a : H160)
| Tuple (l : list Token)
| Array (l : list Token).

(** [xcm/mod.rs], [ContractLocation]; the address is its 20 bytes. *)
Record ContractLocation := {
  cl_para_id : ParaId;
  cl_address : bytes;
  cl_network : option NetworkId;
}.

(** ** Errors *)

Inductive Error :=
| ClaimBufferNotPassed | ClaimPeriodExpired | FeedAlreadyExists
| InsufficientFeedBalance | InvalidAmount | InvalidClaimer | InvalidFeed
| InvalidIndex | InvalidInterval | InvalidReward | InvalidQueryId
| InvalidTimestamp | InvalidWindow | NoTipsSubmitted | PriceThresholdNotMet
| TimestampIneligibleForTip | TipAlreadyClaimed | TipAlreadyEarned
| ValueConversionError | ValueDisputed
| InvalidAddress | InsufficientStake | InvalidNonce | InvalidPrice
| InvalidStakingTokenPrice | InvalidValue | MaxDisputedTimeSeriesReached
| NoWithdrawalRequested | ReporterTimeLocked | TimestampAlreadyReported
| WithdrawalPeriodPending
| AlreadyVoted | DisputeReportingPeriodExpired
| DisputeRoundReportingPeriodExpired | InvalidDispute | InvalidVote
| MaxVoteRoundsReached | NotReporter | NoValueExists | TallyDisputePeriodActive
| VoteAlreadyExecuted | VoteAlreadySent | VoteAlreadyTallied | VoteNotTallied
| VotingPeriodActive
| FeesNotMet | JunctionOverflow | MaxEthereumXcmInputSizeExceeded | SendFailure
| Unreachable | WeighingFailure.

Inductive ArithmeticError := Underflow | Overflow | DivisionByZero.

(** [DispatchError]: an error of this pallet, an arithmetic error, a refused
    origin, or an error of the asset pallet, which is opaque here. *)
Inductive DispatchError :=
| PalletError (e : Error)
| Arithmetic (e : ArithmeticError)
| BadOrigin
| AssetError (code : Z).

#[export] Instance Error_eq_dec : EqDecision Error.
Proof. solve_decision. Defined.
#[export] Instance ArithmeticError_eq_dec : EqDecision ArithmeticError.
Proof. solve_decision. Defined.
#[export] Instance DispatchError_eq_dec : EqDecision DispatchError.
Proof. solve_decision. Defined.

(** ** Events *)

Inductive Event :=
| DataFeedFunded (query_id : QueryId) (feed_id : FeedId) (amount : Balance)
    (feed_funder : AccountId) (feed_details : Feed)
| NewDataFeed (query_id : QueryId) (feed_id : FeedId) (query_data : QueryDataBytes)
    (feed_creator : AccountId)
| OneTimeTipClaimed (query_id : QueryId) (amount : Balance) (reporter : AccountId)
| TipAdded (query_id : QueryId) (amount : Balance) (query_data : QueryDataBytes)
    (tipper : AccountId)
| TipClaimed (feed_id : FeedId) (query_id : QueryId) (amount : Balance)
    (reporter : AccountId)
| NewReport (query_id : QueryId) (time : Timestamp) (value : Value) (nonce : Nonce)
    (query_data : QueryDataBytes) (reporter : AccountId)
| NewStakeAmount (amount : Tributes)
| NewStakerReported (staker : AccountId) (amount : Tributes) (address : Address)
| SlashReported (reporter : AccountId) (amount : Tributes)
| StakeWithdrawnReported (staker : AccountId)
| StakeWithdrawRequestReported (reporter : AccountId) (amount : Tributes)
    (address : Address)
| StakingRewardsAdded (source : AccountId) (amount : Balance)
| ValueRemoved (query_id : QueryId) (timestamp : Timestamp)
| NewDispute (dispute_id : DisputeId) (query_id : QueryId) (timestamp : Timestamp)
    (reporter : AccountId)
| NewDisputeSent (para_id : ParaId) (contract_address : bytes)
| NewDisputeFee (dispute_fee : Balance)
| Voted (dispute_id : DisputeId) (supports : option bool) (voter : AccountId)
| VoteSent (para_id : ParaId) (contract_address : bytes) (dispute_id : DisputeId)
    (vote_round : Z)
| VoteTallied (dispute_id : DisputeId) (result : VoteResult) (initiator : AccountId)
    (reporter : AccountId)
| VoteExecuted (dispute_id : DisputeId) (result : VoteResult)
| QueryDataStored (query_id : QueryId)
| RegistrationSent (para_id : ParaId) (contract_address : bytes) (weights : Weights).

(** ** Origins *)

(** [pallet::Origin]. *)
Inductive Origin := Governance | Staking.

(** The runtime's origin: a signed account, root, or one of the pallet's. *)
Inductive RuntimeOrigin :=
| Signed (who : AccountId)
| Root
| Unsigned
| TellorOrigin (o : Origin).

(** [EnsureGovernance::try_origin]. *)
Definition EnsureGovernance (o : RuntimeOrigin) : bool :=
  match o with TellorOrigin Governance => true | _ => false end.

(** [EnsureStaking::try_origin]. *)
Definition EnsureStaking (o : RuntimeOrigin) : bool :=
  match o with TellorOrigin Staking => true | _ => false end.
