(* ===== verification/Keccak.v ===== *)
(** * Keccak-256

    The hash [sp_core::keccak_256] and [ethabi] use, as it is published: the sponge over
    the permutation of 1600 bits with a rate of 136 bytes.  It gives the selectors of the
    contracts' functions and the identifiers of the price queries their meaning. *)

From S2P Require Import Prelude.

(** ** Lanes *)

(** A lane is 64 bits, the state 25 of them: [(x, y)] at [x + 5 y]. *)
Definition rol (a : Z) (n : Z) : Z :=
  Z.lor (Z.land (Z.shiftl a n) u64_max) (Z.shiftr a (64 - n)).

Definition lane (a : list Z) (x y : nat) : Z := nth (x mod 5 + 5 * (y mod 5)) a 0.

Definition lanes (f : nat -> nat -> Z) : list Z :=
  map (fun i => f (i mod 5)%nat (i / 5)%nat) (seq 0 25).

(** The rotations of [rho], and the constants of [iota]. *)
Definition rotations : list Z :=
  [0; 1; 62; 28; 27;  36; 44; 6; 55; 20;  3; 10; 43; 25; 39;
   41; 45; 15; 21; 8;  18; 2; 61; 56; 14].

Definition round_constants : list Z :=
  [0x0000000000000001; 0x0000000000008082; 0x800000000000808A; 0x8000000080008000;
   0x000000000000808B; 0x0000000080000001; 0x8000000080008081; 0x8000000000008009;
   0x000000000000008A; 0x0000000000000088; 0x0000000080008009; 0x000000008000000A;
   0x000000008000808B; 0x800000000000008B; 0x8000000000008089; 0x8000000000008003;
   0x8000000000008002; 0x8000000000000080; 0x000000000000800A; 0x800000008000000A;
   0x8000000080008081; 0x8000000000008080; 0x0000000080000001; 0x8000000080008008].

Definition theta (a : list Z) : list Z :=
  let c := map (fun x => Z.lxor (lane a x 0) (Z.lxor (lane a x 1)
             (Z.lxor (lane a x 2) (Z.lxor (lane a x 3) (lane a x 4))))) (seq 0 5) in
  let d := map (fun x => Z.lxor (nth ((x + 4) mod 5) c 0) (rol (nth ((x + 1) mod 5) c 0) 1))
             (seq 0 5) in
  lanes (fun x y => Z.lxor (lane a x y) (nth x d 0)).

(** [rho] and [pi]: the lane at [(x, y)] moves to [(y, 2 x + 3 y)]. *)
Definition rho_pi (a : list Z) : list Z :=
  lanes (fun x y => rol (lane a (x + 3 * y) x) (lane rotations (x + 3 * y) x)).

Definition chi (a : list Z) : list Z :=
  lanes (fun x y => Z.lxor (lane a x y)
    (Z.land (Z.lxor (lane a (x + 1) y) u64_max) (lane a (x + 2) y))).

Definition iota (rc : Z) (a : list Z) : list Z :=
  match a with [] => [] | l :: r => Z.lxor l rc :: r end.

Definition keccak_round (a : list Z) (rc : Z) : list Z := iota rc (chi (rho_pi (theta a))).

Definition keccak_f (a : list Z) : list Z := foldl keccak_round a round_constants.

(** ** The sponge *)

Definition rate : nat := 136.

Definition le_value (b : bytes) : Z := be_value (rev b).
Definition to_le_bytes (n : nat) (z : Z) : bytes := rev (to_be_bytes n z).

(** The message, padded to whole blocks: a bit 1 first and a bit 1 last. *)
Definition pad (m : bytes) : bytes :=
  let n := (rate - length m mod rate)%nat in
  if (n =? 1)%nat then m ++ [x81] else m ++ [x01] ++ replicate (n - 2) x00 ++ [x80].

Definition absorb (a : list Z) (block : bytes) : list Z :=
  zip_with Z.lxor a
    (map (fun i => le_value (take 8 (drop (8 * i) block))) (seq 0 17) ++ replicate 8 0).

Fixpoint blocks (fuel : nat) (m : bytes) : list bytes :=
  match fuel, m with
  | S fuel, _ :: _ => take rate m :: blocks fuel (drop rate m)
  | _, _ => []
  end.

Definition keccak_256 (m : bytes) : bytes :=
  let p := pad m in
  let a := foldl (fun a block => keccak_f (absorb a block)) (replicate 25 0)
             (blocks (length p) p) in
  concat (map (to_le_bytes 8) (take 4 a)).

(** The hash of the empty string, and that it fills 32 bytes. *)
Example keccak_256_empty : be_value (keccak_256 []) =
  0xC5D2460186F7233C927E7DB2DCC703C0E500B653CA82273B7BFAD8045D85A470.
Proof. by vm_compute. Qed.
