(* ===== verification/Abi.v ===== *)
(** * The ABI of contracts

    The encoding of arguments that Solidity contracts read and [ethabi] writes: static
    values in place, dynamic ones behind an offset.  A contract's view of a call, its
    functions with their types ([Function]), and that what is encoded is decoded. *)

From Stdlib Require Import Strings.String.
From stdpp Require Import pretty.
From S2P Require Import Prelude Types Keccak.

(** ** Types *)

(** [ethabi::ParamType], the cases the contracts' functions use. *)
#[warnings="-register-all"]
Inductive ParamType :=
| PFixedBytes (n : nat)
| PUint (bits : N)
| PBytes
| PAddress
| PTuple (l : list ParamType)
| PArray (t : ParamType).

Section Induction.
Context (P : ParamType -> Prop).
Context (Hfixed : forall n, P (PFixedBytes n)) (Huint : forall n, P (PUint n)) (Hbytes : P PBytes).
Context (Haddress : P PAddress) (Htuple : forall l, Forall P l -> P (PTuple l)).
Context (Harray : forall p, P p -> P (PArray p)).

Fixpoint param_type_ind (p : ParamType) : P p :=
  match p with
  | PFixedBytes n => Hfixed n
  | PUint n => Huint n
  | PBytes => Hbytes
  | PAddress => Haddress
  | PTuple l => Htuple l
      ((fix go l : Forall P l :=
          match l with
          | [] => Forall_nil_2 P
          | q :: l' => Forall_cons_2 P q l' (param_type_ind q) (go l')
          end) l)
  | PArray q => Harray q (param_type_ind q)
  end.
End Induction.

(** The canonical name of a type, in the signature of a function. *)
Fixpoint type_name (p : ParamType) : string :=
  match p with
  | PFixedBytes n => "bytes" ++ pretty n
  | PUint bits => "uint" ++ pretty bits
  | PBytes => "bytes"
  | PAddress => "address"
  | PTuple l => "(" ++ String.concat "," (map type_name l) ++ ")"
  | PArray q => type_name q ++ "[]"
  end%string.

Fixpoint dynamic (p : ParamType) : bool :=
  match p with
  | PBytes | PArray _ => true
  | PTuple l => existsb dynamic l
  | _ => false
  end.

Fixpoint static_size (p : ParamType) : nat :=
  match p with
  | PTuple l => list_sum (map static_size l)
  | _ => 32
  end.

(** ** Encoding *)

Definition word (n : Z) : bytes := to_be_bytes 32 n.

(** Padded to whole words, on the right. *)
Definition pad_right (b : bytes) : bytes :=
  b ++ replicate ((32 - length b mod 32) mod 32)%nat x00.

Fixpoint is_dynamic (t : Token) : bool :=
  match t with
  | Bytes _ | Array _ => true
  | Tuple l => existsb is_dynamic l
  | _ => false
  end.

(** A part of a sequence is dynamic or not, and its encoding. *)
Definition part_head_size (p : bool * bytes) : nat := if fst p then 32 else length (snd p).
Definition part_tail (p : bool * bytes) : bytes := if fst p then snd p else [].

(** The heads of the parts, when the next tail begins at [off]. *)
Fixpoint heads (off : nat) (parts : list (bool * bytes)) : bytes :=
  match parts with
  | [] => []
  | (true, b) :: l => word (Z.of_nat off) ++ heads (off + length b) l
  | (false, b) :: l => b ++ heads off l
  end.

Definition tails (parts : list (bool * bytes)) : bytes := concat (map part_tail parts).

Definition sequence (parts : list (bool * bytes)) : bytes :=
  heads (list_sum (map part_head_size parts)) parts ++ tails parts.

Fixpoint encode_token (t : Token) : bytes :=
  match t with
  | FixedBytes b => pad_right b
  | Uint n => word n
  | TokenAddress a => word a
  | Bytes b => word (Z.of_nat (length b)) ++ pad_right b
  | Tuple l => sequence (map (fun t => (is_dynamic t, encode_token t)) l)
  | Array l =>
      word (Z.of_nat (length l)) ++ sequence (map (fun t => (is_dynamic t, encode_token t)) l)
  end.

Definition encode_part (t : Token) : bool * bytes := (is_dynamic t, encode_token t).

(** [ethabi::encode] *)
Definition encode_tokens (l : list Token) : bytes := sequence (map encode_part l).

(** ** Decoding *)

Definition read_word (data : bytes) : option bytes :=
  if (32 <=? length data)%nat then Some (take 32 data) else None.

(** Decoders of the parts, dynamic or of a size, on the heads that are left and all of
    the sequence. *)
Fixpoint decode_parts (l : list (bool * nat * (bytes -> option Token))) (hds whole : bytes)
    : option (list Token) :=
  match l with
  | [] => Some []
  | (true, _, d) :: l =>
      w ← read_word hds;
      t ← d (drop (Z.to_nat (be_value w)) whole);
      ts ← decode_parts l (drop 32 hds) whole; Some (t :: ts)
  | (false, size, d) :: l =>
      t ← d hds;
      ts ← decode_parts l (drop size hds) whole; Some (t :: ts)
  end.

Fixpoint decode_token (p : ParamType) (data : bytes) : option Token :=
  match p with
  | PFixedBytes n => w ← read_word data; Some (FixedBytes (take n w))
  | PUint bits =>
      w ← read_word data;
      if be_value w <? 2 ^ Z.of_N bits then Some (Uint (be_value w)) else None
  | PAddress =>
      w ← read_word data;
      if be_value w <? 2 ^ 160 then Some (TokenAddress (be_value w)) else None
  | PBytes =>
      w ← read_word data;
      let rest := drop 32 data in
      if be_value w <=? Z.of_nat (length rest)
      then Some (Bytes (take (Z.to_nat (be_value w)) rest)) else None
  | PTuple l =>
      Tuple <$> decode_parts (map (fun p => (dynamic p, static_size p, decode_token p)) l) data data
  | PArray p =>
      w ← read_word data;
      let rest := drop 32 data in
      if be_value w <=? Z.of_nat (length rest)
      then Array <$> decode_parts
             (replicate (Z.to_nat (be_value w)) (dynamic p, static_size p, decode_token p)) rest rest
      else None
  end.

Definition decode_part (p : ParamType) : bool * nat * (bytes -> option Token) :=
  (dynamic p, static_size p, decode_token p).

Definition decode_tokens (l : list ParamType) (data : bytes) : option (list Token) :=
  decode_parts (map decode_part l) data data.

(** ** Values of a type *)

(** [Token::type_check], with the widths of the values (and no empty tuples). *)
Fixpoint type_check (p : ParamType) (t : Token) : bool :=
  match p, t with
  | PFixedBytes n, FixedBytes b => (length b =? n)%nat && (1 <=? n)%nat && (n <=? 32)%nat
  | PUint bits, Uint n => (0 <=? n) && (n <? 2 ^ Z.of_N bits) && (bits <=? 256)%N
  | PBytes, Bytes _ => true
  | PAddress, TokenAddress a => (0 <=? a) && (a <? 2 ^ 160)
  | PTuple ps, Tuple ts =>
      negb (length ps =? 0)%nat &&
      (fix go ps ts :=
         match ps, ts with
         | [], [] => true
         | p :: ps, t :: ts => type_check p t && go ps ts
         | _, _ => false
         end) ps ts
  | PArray p, Array ts => forallb (type_check p) ts
  | _, _ => false
  end.

(** [Token::types_check] *)
Fixpoint types_check (ps : list ParamType) (ts : list Token) : bool :=
  match ps, ts with
  | [], [] => true
  | p :: ps, t :: ts => type_check p t && types_check ps ts
  | _, _ => false
  end.

(** ** Functions *)

(** [ethabi::Function], its name and the names and types of its inputs. *)
Record Function := { fn_name : string; fn_inputs : list (string * ParamType) }.

Definition fn_types (f : Function) : list ParamType := map snd (fn_inputs f).

Definition signature (f : Function) : string :=
  (fn_name f ++ "(" ++ String.concat "," (map type_name (fn_types f)) ++ ")")%string.

Definition short_signature (f : Function) : bytes :=
  take 4 (keccak_256 (list_byte_of_string (signature f))).
