(* ===== verification/AbiFacts.v ===== *)
(** * The ABI of contracts: what is encoded is decoded *)

From S2P Require Import Prelude Types Keccak Abi.

(** ** Words *)

Lemma length_word n : length (word n) = 32%nat.
Proof. apply length_to_be_bytes. Qed.

Lemma be_value_word n : 0 <= n < 2 ^ 256 -> be_value (word n) = n.
Proof. intros Hn. unfold word. rewrite be_value_to_be_bytes. by apply Z.mod_small. Qed.

Lemma read_word_app w rest : length w = 32%nat -> read_word (w ++ rest) = Some w.
Proof.
  intros Hw. unfold read_word. rewrite length_app, (proj2 (Nat.leb_le _ _)) by lia.
  by rewrite take_app_length'.
Qed.

Lemma drop_word n rest : drop 32 (word n ++ rest) = rest.
Proof. apply drop_app_length'. by rewrite length_word. Qed.

Lemma length_pad_right b n : length b = n -> (1 <= n)%nat -> (n <= 32)%nat ->
  length (pad_right b) = 32%nat.
Proof.
  intros Hb H1 H2. unfold pad_right. rewrite length_app, length_replicate, Hb.
  destruct (decide (n = 32%nat)) as [->|]; [done|].
  rewrite (Nat.mod_small n) by lia. rewrite Nat.mod_small by lia. lia.
Qed.

Lemma length_pad_right_le b : (length b <= length (pad_right b))%nat.
Proof. unfold pad_right. rewrite length_app. lia. Qed.

Lemma take_pad_right b rest : take (length b) (pad_right b ++ rest) = b.
Proof. unfold pad_right. rewrite <- app_assoc. by rewrite take_app_length. Qed.

(** ** Sequences *)

Lemma length_heads parts : forall off,
  length (heads off parts) = list_sum (map part_head_size parts).
Proof.
  induction parts as [|[[] b] l IH]; intros off; cbn [heads map list_sum fold_right]; [done|..];
    rewrite length_app, IH; [by rewrite length_word|done].
Qed.

Lemma length_sequence parts :
  length (sequence parts) = (list_sum (map part_head_size parts) + length (tails parts))%nat.
Proof. unfold sequence. by rewrite length_app, length_heads. Qed.

(** A part is no longer than the sequence. *)
Lemma part_length parts p : p ∈ parts -> (length (snd p) <= length (sequence parts))%nat.
Proof.
  rewrite length_sequence. unfold tails, part_head_size, part_tail, list_sum.
  induction 1 as [[[] b] l|[[] b] q l _ IH]; cbn [map concat fold_right fst snd] in *;
    rewrite ?length_app; lia.
Qed.

(** The decoder of a type reads the value from where its encoding begins. *)
Record decodes (p : ParamType) (t : Token) : Prop := {
  dc_dynamic : is_dynamic t = dynamic p;
  dc_size : dynamic p = false -> length (encode_token t) = static_size p;
  dc_length : (1 <= length (encode_token t))%nat;
  dc_value : forall rest, Z.of_nat (length (encode_token t)) < 2 ^ 256 ->
    decode_token p (encode_token t ++ rest) = Some t;
}.

Lemma parts_count ps ts : Forall2 decodes ps ts ->
  (length ts <= length (sequence (map encode_part ts)))%nat.
Proof.
  intros H. rewrite length_sequence.
  enough (length ts <= list_sum (map part_head_size (map encode_part ts)))%nat by lia.
  induction H as [|p t ps ts Ht _ IH]; simpl; [lia|].
  unfold part_head_size at 1, encode_part at 1. simpl.
  pose proof (dc_length _ _ Ht). destruct (is_dynamic t); lia.
Qed.

Lemma decode_parts_ok ps ts : Forall2 decodes ps ts ->
  Forall (fun t => Z.of_nat (length (encode_token t)) < 2 ^ 256) ts ->
  forall pre more rest,
  Z.of_nat (length pre + length (tails (map encode_part ts))) < 2 ^ 256 ->
  decode_parts (map decode_part ps) (heads (length pre) (map encode_part ts) ++ more)
    (pre ++ tails (map encode_part ts) ++ rest) = Some ts.
Proof.
  induction 1 as [|p t ps ts Ht _ IH]; intros Hall pre more rest Hlen; [done|].
  apply Forall_cons in Hall as [Hl Hall]. destruct Ht as [Hdyn Hsize _ Hval].
  assert (Ep : encode_part t = (dynamic p, encode_token t)) by (unfold encode_part; by rewrite Hdyn).
  unfold tails in *. cbn [map concat] in *. rewrite Ep in *. unfold part_tail at 1 in Hlen.
  unfold part_tail at 1. unfold decode_part at 1. cbn [decode_parts heads fst snd] in *.
  destruct (dynamic p) eqn:Hp.
  - rewrite length_app in Hlen. rewrite <- app_assoc, read_word_app by apply length_word.
    cbn [mbind option_bind]. rewrite be_value_word, Nat2Z.id, drop_app_length, <- app_assoc by lia.
    rewrite Hval by done. cbn [mbind option_bind]. rewrite drop_word.
    rewrite (app_assoc pre), <- (length_app pre), IH; [done..|]. rewrite length_app. lia.
  - rewrite <- app_assoc, Hval by done. cbn [mbind option_bind].
    rewrite drop_app_length' by (by rewrite Hsize). cbn [app]. by rewrite IH.
Qed.

Lemma sequence_decodes ps ts rest : Forall2 decodes ps ts ->
  Z.of_nat (length (sequence (map encode_part ts))) < 2 ^ 256 ->
  decode_parts (map decode_part ps) (sequence (map encode_part ts) ++ rest)
    (sequence (map encode_part ts) ++ rest) = Some ts.
Proof.
  intros H Hlen.
  assert (Hall : Forall (fun t => Z.of_nat (length (encode_token t)) < 2 ^ 256) ts).
  { apply Forall_forall. intros t Ht.
    pose proof (part_length (map encode_part ts) (encode_part t)
      (list_elem_of_fmap_2 _ _ _ Ht)) as Hp.
    simpl in Hp. lia. }
  unfold sequence in *. rewrite length_app, length_heads in Hlen. rewrite <- app_assoc.
  set (off := list_sum _) in *.
  pose proof (length_heads (map encode_part ts) off) as Hoff. fold off in Hoff.
  pose proof (decode_parts_ok ps ts H Hall (heads off (map encode_part ts))
    (tails (map encode_part ts) ++ rest) rest) as Hd.
  rewrite Hoff in Hd. by apply Hd.
Qed.

(** ** Values *)

Lemma type_check_tuple ps ts :
  type_check (PTuple ps) (Tuple ts) = negb (length ps =? 0)%nat && types_check ps ts.
Proof. reflexivity. Qed.

Lemma types_check_Forall2 ps ts :
  types_check ps ts = true -> Forall2 (fun p t => type_check p t = true) ps ts.
Proof.
  revert ts. induction ps as [|p ps IH]; intros [|t ts]; cbn [types_check]; [by constructor|done|done|].
  intros [Hp Hps]%andb_prop. constructor; [done|by apply IH].
Qed.

Lemma types_check_decodes ps ts :
  Forall (fun p => forall t, type_check p t = true -> decodes p t) ps ->
  types_check ps ts = true -> Forall2 decodes ps ts.
Proof.
  intros Hall Ht%types_check_Forall2. induction Ht as [|p t ps ts Hp _ IH]; [constructor|].
  apply Forall_cons in Hall as [H Hall]. constructor; auto.
Qed.

Lemma decodes_dynamic ps ts : Forall2 decodes ps ts ->
  existsb is_dynamic ts = existsb dynamic ps.
Proof. induction 1 as [|p t ps ts Hp _ IH]; simpl; [done|]. by rewrite (dc_dynamic _ _ Hp), IH. Qed.

Lemma decodes_size ps ts : Forall2 decodes ps ts -> existsb dynamic ps = false ->
  length (sequence (map encode_part ts)) = list_sum (map static_size ps).
Proof.
  intros H. rewrite length_sequence. unfold tails, part_head_size, part_tail, list_sum.
  induction H as [|p t ps ts Hp _ IH]; cbn [existsb map concat fold_right encode_part fst snd]; [done|].
  intros [Hd Hds]%orb_false_elim. rewrite (dc_dynamic _ _ Hp), Hd, (dc_size _ _ Hp Hd).
  specialize (IH Hds). rewrite length_app. cbn [length]. lia.
Qed.

Lemma decodes_bytes n b : length b = n -> (1 <= n)%nat -> (n <= 32)%nat ->
  decodes (PFixedBytes n) (FixedBytes b).
Proof.
  intros Hb H1 H2. pose proof (length_pad_right b n Hb H1 H2) as Hp.
  split; cbn [is_dynamic dynamic encode_token static_size decode_token]; [done|done|lia|].
  intros rest _. rewrite read_word_app by done. cbn [mbind option_bind]. do 2 f_equal.
  subst n. rewrite <- (app_nil_r (pad_right b)). apply take_pad_right.
Qed.

Lemma decodes_word p t n : is_dynamic t = false -> dynamic p = false -> static_size p = 32%nat ->
  encode_token t = word n ->
  (forall rest, decode_token p (word n ++ rest) = Some t) -> decodes p t.
Proof.
  intros H1 H2 H3 H4 H5. split; [by rewrite H1|..].
  - by rewrite H4, length_word.
  - rewrite H4, length_word. lia.
  - intros rest _. by rewrite H4.
Qed.

Lemma decodes_dynamic_bytes b : decodes PBytes (Bytes b).
Proof.
  pose proof (length_pad_right_le b) as Hp.
  split; cbn [is_dynamic dynamic encode_token static_size decode_token]; [done|done|..].
  - rewrite length_app, length_word. lia.
  - intros rest. rewrite length_app, length_word. intros Hlen.
    rewrite <- app_assoc, read_word_app by apply length_word. cbn [mbind option_bind].
    rewrite be_value_word, drop_word, length_app, Nat2Z.id, take_pad_right by lia.
    by rewrite (proj2 (Z.leb_le _ _)) by lia.
Qed.

Lemma decodes_tuple ps ts : length ps <> 0%nat -> Forall2 decodes ps ts ->
  decodes (PTuple ps) (Tuple ts).
Proof.
  intros Hps H. pose proof (Forall2_length _ _ _ H) as Hl. pose proof (parts_count _ _ H) as Hc.
  split; cbn [is_dynamic dynamic encode_token static_size decode_token].
  - by apply decodes_dynamic.
  - by apply decodes_size.
  - fold encode_part. lia.
  - fold encode_part. intros rest Hlen.
    exact (f_equal (fmap Tuple) (sequence_decodes ps ts rest H Hlen)).
Qed.

Lemma Forall2_same p ts : Forall (decodes p) ts -> Forall2 decodes (replicate (length ts) p) ts.
Proof. induction 1; simpl; by constructor. Qed.

Lemma decodes_array p ts : Forall (decodes p) ts -> decodes (PArray p) (Array ts).
Proof.
  intros H%Forall2_same. pose proof (parts_count _ _ H) as Hc.
  split; cbn [is_dynamic dynamic encode_token static_size decode_token]; [done|done|..].
  - rewrite length_app, length_word. lia.
  - fold encode_part. intros rest. rewrite length_app, length_word. intros Hlen.
    rewrite <- app_assoc, read_word_app by apply length_word. cbn [mbind option_bind].
    rewrite be_value_word, drop_word, Nat2Z.id by lia.
    rewrite (proj2 (Z.leb_le _ _)) by (rewrite length_app; lia).
    change (dynamic p, static_size p, decode_token p) with (decode_part p).
    pose proof (fmap_replicate decode_part (length ts) p) as Hr. rewrite <- Hr.
    refine (f_equal (fmap Array) (sequence_decodes _ ts rest H _)). lia.
Qed.

(** A value is decoded from its encoding. *)
Lemma token_decodes p : forall t, type_check p t = true -> decodes p t.
Proof.
  induction p as [n|bits| | |ps IH|p IH] using param_type_ind; intros t Ht;
    destruct t as [b|n'|b|a|ts|ts]; try discriminate Ht.
  - cbn [type_check] in Ht.
    apply andb_prop in Ht as [[H1%Nat.eqb_eq H2%Nat.leb_le]%andb_prop H3%Nat.leb_le].
    by apply decodes_bytes.
  - cbn [type_check] in Ht.
    apply andb_prop in Ht as [[H1%Z.leb_le H2%Z.ltb_lt]%andb_prop H3%N.leb_le].
    assert (2 ^ Z.of_N bits <= 2 ^ 256) by (apply Z.pow_le_mono_r; lia).
    apply (decodes_word _ _ n'); try done. intros rest. cbn [decode_token].
    rewrite read_word_app by apply length_word. cbn [mbind option_bind].
    rewrite be_value_word by lia. by rewrite (proj2 (Z.ltb_lt _ _)).
  - apply decodes_dynamic_bytes.
  - cbn [type_check] in Ht. apply andb_prop in Ht as [H1%Z.leb_le H2%Z.ltb_lt].
    apply (decodes_word _ _ a); try done. intros rest. cbn [decode_token].
    rewrite read_word_app by apply length_word. cbn [mbind option_bind].
    rewrite be_value_word by lia. by rewrite (proj2 (Z.ltb_lt _ _)).
  - rewrite type_check_tuple in Ht. apply andb_prop in Ht as [H1%negb_true_iff%Nat.eqb_neq H2].
    by apply decodes_tuple, types_check_decodes.
  - cbn [type_check] in Ht. apply decodes_array, Forall_forall. intros t Hin. apply IH.
    rewrite forallb_forall in Ht. apply Ht. by apply list_elem_of_In.
Qed.

Lemma decode_encode_tokens ps ts : types_check ps ts = true ->
  Z.of_nat (length (encode_tokens ts)) < 2 ^ 256 ->
  decode_tokens ps (encode_tokens ts) = Some ts.
Proof.
  intros Ht Hlen. unfold decode_tokens, encode_tokens in *.
  pose proof (sequence_decodes ps ts []) as H. rewrite app_nil_r in H. apply H; [|done].
  apply types_check_decodes; [|done]. apply Forall_forall. intros p _. apply token_decodes.
Qed.
