(* ===== verification/Weights.v ===== *)
(** * Weights

    [src/src/weights.rs]: the trait [WeightInfo] as a class, its implementation
    [SubstrateWeight<T>] over the database weights of the runtime, and the one for
    the unit type over those of RocksDB.  The arithmetic of weights and the database
    weights are the framework's: they are parameters, with the monotonicity they
    document. *)

From S2P Require Import Prelude Types.

(** [Weight::saturating_add], [Weight::saturating_mul] and the order
    [Weight::all_lte] (each component at most the other's). *)
Class WeightOps := {
  weight_saturating_add : Weight -> Weight -> Weight;
  weight_saturating_mul : Weight -> Z -> Weight;
}.

(** [RuntimeDbWeight]: the weight of a number of reads or writes. *)
Record RuntimeDbWeight := { reads : Z -> Weight; writes : Z -> Weight }.

Definition all_lte (a b : Weight) : Prop :=
  ref_time a <= ref_time b /\ proof_size a <= proof_size b.

#[global] Instance all_lte_preorder : PreOrder all_lte.
Proof.
  split; [intros a; split; lia|]. intros a b c [H1 H2] [H3 H4]. split; lia.
Qed.

Definition weight_ok (w : Weight) : Prop := 0 <= ref_time w /\ 0 <= proof_size w.

(** The operations saturate, so they are monotone. *)
Class WeightLaws (W : WeightOps) : Prop := {
  saturating_add_mono : forall a b c d,
    all_lte a b -> all_lte c d ->
    all_lte (weight_saturating_add a c) (weight_saturating_add b d);
  saturating_mul_mono : forall w k l,
    weight_ok w -> 0 <= k <= l ->
    all_lte (weight_saturating_mul w k) (weight_saturating_mul w l);
}.

Class DbWeightLaws (db : RuntimeDbWeight) : Prop := {
  reads_mono : forall k l, 0 <= k <= l -> all_lte (reads db k) (reads db l);
  writes_mono : forall k l, 0 <= k <= l -> all_lte (writes db k) (writes db l);
}.

(** [trait WeightInfo] *)
Class WeightInfo := {
  wi_register : Weight;
  wi_claim_onetime_tip : Z -> Weight;
  wi_claim_tip : Z -> Weight;
  wi_fund_feed : Weight;
  wi_setup_data_feed : Z -> Weight;
  wi_tip : Z -> Weight;
  wi_add_staking_rewards : Weight;
  wi_submit_value : Z -> Z -> Weight;
  wi_update_stake_amount : Z -> Z -> Weight;
  wi_begin_dispute : Z -> Weight;
  wi_vote : Weight;
  wi_vote_on_multiple_disputes : Z -> Weight;
  wi_send_votes : Z -> Weight;
  wi_report_stake_deposited : Weight;
  wi_report_staking_withdraw_request : Weight;
  wi_report_stake_withdrawn : Weight;
  wi_report_slash : Weight;
  wi_report_vote_tallied : Weight;
  wi_report_vote_executed : Z -> Weight;
  wi_on_initialize : Z -> Z -> Z -> Weight;
}.

Declare Scope weight_scope.
Delimit Scope weight_scope with weight.
Infix "+" := weight_saturating_add : weight_scope.
Infix "*" := weight_saturating_mul : weight_scope.

(** [Weight::from_parts] *)
Definition from_parts (r p : Z) : Weight := {| ref_time := r; proof_size := p |}.

(** ** [impl WeightInfo for SubstrateWeight<T>] *)

Section SubstrateWeight.
Context {W : WeightOps} (db : RuntimeDbWeight).

Definition register_weight : Weight :=
  (from_parts 173000000 11402
   + reads db 7
   + writes db 5)%weight.

Definition claim_onetime_tip_weight (t : Z) : Weight :=
  (from_parts 52906000 8799
   + (from_parts 24958612 0 * t)
   + reads db 12
   + reads db (saturating_mul u64_max 2 t)
   + writes db 6
   + writes db (saturating_mul u64_max 1 t)
   + (from_parts 0 2581 * t))%weight.

Definition claim_tip_weight (t : Z) : Weight :=
  (from_parts 142455120 8799
   + (from_parts 26041098 0 * t)
   + reads db 11
   + reads db (saturating_mul u64_max 3 t)
   + writes db 6
   + writes db (saturating_mul u64_max 1 t)
   + (from_parts 0 2789 * t))%weight.

Definition fund_feed_weight : Weight :=
  (from_parts 59000000 6196
   + reads db 4
   + writes db 5)%weight.

Definition setup_data_feed_weight (q : Z) : Weight :=
  (from_parts 76863625 6196
   + (from_parts 1672 0 * q)
   + reads db 4
   + writes db 7)%weight.

Definition tip_weight (q : Z) : Weight :=
  (from_parts 75823657 6196
   + (from_parts 4861 0 * q)
   + reads db 6
   + writes db 7)%weight.

Definition add_staking_rewards_weight : Weight :=
  (from_parts 62000000 6196
   + reads db 7
   + writes db 3)%weight.

Definition submit_value_weight (q v : Z) : Weight :=
  (from_parts 38023107 3646
   + (from_parts 1842 0 * q)
   + (from_parts 2564 0 * v)
   + reads db 7
   + writes db 8)%weight.

Definition update_stake_amount_weight (s l : Z) : Weight :=
  (from_parts 228000000 11130
   + (from_parts 4191831 0 * s)
   + (from_parts 7450664 0 * l)
   + reads db 13
   + writes db 2)%weight.

Definition begin_dispute_weight (d : Z) : Weight :=
  (from_parts 121792867 6196
   + (from_parts 8502405 0 * d)
   + reads db 13
   + reads db (saturating_mul u64_max 2 d)
   + writes db 11
   + writes db (saturating_mul u64_max 1 d)
   + (from_parts 0 2529 * d))%weight.

Definition vote_weight : Weight :=
  (from_parts 37000000 3859
   + reads db 7
   + writes db 3)%weight.

Definition vote_on_multiple_disputes_weight (v : Z) : Weight :=
  (from_parts 11803459 3646
   + (from_parts 26748427 0 * v)
   + reads db 3
   + reads db (saturating_mul u64_max 4 v)
   + writes db 1
   + writes db (saturating_mul u64_max 2 v)
   + (from_parts 0 2869 * v))%weight.

Definition send_votes_weight (v : Z) : Weight :=
  (from_parts 15000000 3707
   + (from_parts 29775552 0 * v)
   + reads db 3
   + reads db (saturating_mul u64_max 2 v)
   + writes db (saturating_mul u64_max 2 v)
   + (from_parts 0 2545 * v))%weight.

Definition report_stake_deposited_weight : Weight :=
  (from_parts 60000000 6196
   + reads db 12
   + writes db 6)%weight.

Definition report_staking_withdraw_request_weight : Weight :=
  (from_parts 58000000 6196
   + reads db 13
   + writes db 7)%weight.

Definition report_stake_withdrawn_weight : Weight :=
  (from_parts 20000000 3646
   + reads db 3
   + writes db 2)%weight.

Definition report_slash_weight : Weight :=
  (from_parts 76000000 6196
   + reads db 14
   + writes db 8)%weight.

Definition report_vote_tallied_weight : Weight :=
  (from_parts 25000000 3859
   + reads db 4
   + writes db 1)%weight.

Definition report_vote_executed_weight (r : Z) : Weight :=
  (from_parts 33833263 3859
   + (from_parts 40452488 0 * r)
   + reads db 5
   + reads db (saturating_mul u64_max 2 r)
   + writes db 3
   + writes db (saturating_mul u64_max 1 r)
   + (from_parts 0 2717 * r))%weight.

Definition on_initialize_weight (s l v : Z) : Weight :=
  (from_parts 236922053 11130
   + (from_parts 6253366 0 * s)
   + (from_parts 3013191 0 * l)
   + (from_parts 22146935 0 * v)
   + reads db 18
   + reads db (saturating_mul u64_max 2 v)
   + writes db 4
   + writes db (saturating_mul u64_max 2 v)
   + (from_parts 0 290 * l)
   + (from_parts 0 407 * s)
   + (from_parts 0 2717 * v))%weight.

Definition SubstrateWeight : WeightInfo := {|
  wi_register := register_weight;
  wi_claim_onetime_tip := claim_onetime_tip_weight;
  wi_claim_tip := claim_tip_weight;
  wi_fund_feed := fund_feed_weight;
  wi_setup_data_feed := setup_data_feed_weight;
  wi_tip := tip_weight;
  wi_add_staking_rewards := add_staking_rewards_weight;
  wi_submit_value := submit_value_weight;
  wi_update_stake_amount := update_stake_amount_weight;
  wi_begin_dispute := begin_dispute_weight;
  wi_vote := vote_weight;
  wi_vote_on_multiple_disputes := vote_on_multiple_disputes_weight;
  wi_send_votes := send_votes_weight;
  wi_report_stake_deposited := report_stake_deposited_weight;
  wi_report_staking_withdraw_request := report_staking_withdraw_request_weight;
  wi_report_stake_withdrawn := report_stake_withdrawn_weight;
  wi_report_slash := report_slash_weight;
  wi_report_vote_tallied := report_vote_tallied_weight;
  wi_report_vote_executed := report_vote_executed_weight;
  wi_on_initialize := on_initialize_weight;
|}.

End SubstrateWeight.

(** ** [impl WeightInfo for ()] *)

Section UnitWeight.
Context {W : WeightOps} (RocksDbWeight : RuntimeDbWeight).

Definition register_unit_weight : Weight :=
  (from_parts 173000000 11402
   + reads RocksDbWeight 7
   + writes RocksDbWeight 5)%weight.

Definition claim_onetime_tip_unit_weight (t : Z) : Weight :=
  (from_parts 52906000 8799
   + (from_parts 24958612 0 * t)
   + reads RocksDbWeight 12
   + reads RocksDbWeight (saturating_mul u64_max 2 t)
   + writes RocksDbWeight 6
   + writes RocksDbWeight (saturating_mul u64_max 1 t)
   + (from_parts 0 2581 * t))%weight.

Definition claim_tip_unit_weight (t : Z) : Weight :=
  (from_parts 142455120 8799
   + (from_parts 26041098 0 * t)
   + reads RocksDbWeight 11
   + reads RocksDbWeight (saturating_mul u64_max 3 t)
   + writes RocksDbWeight 6
   + writes RocksDbWeight (saturating_mul u64_max 1 t)
   + (from_parts 0 2789 * t))%weight.

Definition fund_feed_unit_weight : Weight :=
  (from_parts 59000000 6196
   + reads RocksDbWeight 4
   + writes RocksDbWeight 5)%weight.

Definition setup_data_feed_unit_weight (q : Z) : Weight :=
  (from_parts 76863625 6196
   + (from_parts 1672 0 * q)
   + reads RocksDbWeight 4
   + writes RocksDbWeight 7)%weight.

Definition tip_unit_weight (q : Z) : Weight :=
  (from_parts 75823657 6196
   + (from_parts 4861 0 * q)
   + reads RocksDbWeight 6
   + writes RocksDbWeight 7)%weight.

Definition add_staking_rewards_unit_weight : Weight :=
  (from_parts 62000000 6196
   + reads RocksDbWeight 7
   + writes RocksDbWeight 3)%weight.

Definition submit_value_unit_weight (q v : Z) : Weight :=
  (from_parts 38023107 3646
   + (from_parts 1842 0 * q)
   + (from_parts 2564 0 * v)
   + reads RocksDbWeight 7
   + writes RocksDbWeight 8)%weight.

Definition update_stake_amount_unit_weight (s l : Z) : Weight :=
  (from_parts 228000000 11130
   + (from_parts 4191831 0 * s)
   + (from_parts 7450664 0 * l)
   + reads RocksDbWeight 13
   + writes RocksDbWeight 2)%weight.

Definition begin_dispute_unit_weight (d : Z) : Weight :=
  (from_parts 121792867 6196
   + (from_parts 8502405 0 * d)
   + reads RocksDbWeight 13
   + reads RocksDbWeight (saturating_mul u64_max 2 d)
   + writes RocksDbWeight 11
   + writes RocksDbWeight (saturating_mul u64_max 1 d)
   + (from_parts 0 2529 * d))%weight.

Definition vote_unit_weight : Weight :=
  (from_parts 37000000 3859
   + reads RocksDbWeight 7
   + writes RocksDbWeight 3)%weight.

Definition vote_on_multiple_disputes_unit_weight (v : Z) : Weight :=
  (from_parts 11803459 3646
   + (from_parts 26748427 0 * v)
   + reads RocksDbWeight 3
   + reads RocksDbWeight (saturating_mul u64_max 4 v)
   + writes RocksDbWeight 1
   + writes RocksDbWeight (saturating_mul u64_max 2 v)
   + (from_parts 0 2869 * v))%weight.

Definition send_votes_unit_weight (v : Z) : Weight :=
  (from_parts 15000000 3707
   + (from_parts 29775552 0 * v)
   + reads RocksDbWeight 3
   + reads RocksDbWeight (saturating_mul u64_max 2 v)
   + writes RocksDbWeight (saturating_mul u64_max 2 v)
   + (from_parts 0 2545 * v))%weight.

Definition report_stake_deposited_unit_weight : Weight :=
  (from_parts 60000000 6196
   + reads RocksDbWeight 12
   + writes RocksDbWeight 6)%weight.

Definition report_staking_withdraw_request_unit_weight : Weight :=
  (from_parts 58000000 6196
   + reads RocksDbWeight 13
   + writes RocksDbWeight 7)%weight.

Definition report_stake_withdrawn_unit_weight : Weight :=
  (from_parts 20000000 3646
   + reads RocksDbWeight 3
   + writes RocksDbWeight 2)%weight.

Definition report_slash_unit_weight : Weight :=
  (from_parts 76000000 6196
   + reads RocksDbWeight 14
   + writes RocksDbWeight 8)%weight.

Definition report_vote_tallied_unit_weight : Weight :=
  (from_parts 25000000 3859
   + reads RocksDbWeight 4
   + writes RocksDbWeight 1)%weight.

Definition report_vote_executed_unit_weight (r : Z) : Weight :=
  (from_parts 33833263 3859
   + (from_parts 40452488 0 * r)
   + reads RocksDbWeight 5
   + reads RocksDbWeight (saturating_mul u64_max 2 r)
   + writes RocksDbWeight 3
   + writes RocksDbWeight (saturating_mul u64_max 1 r)
   + (from_parts 0 2717 * r))%weight.

Definition on_initialize_unit_weight (s l v : Z) : Weight :=
  (from_parts 236922053 11130
   + (from_parts 6253366 0 * s)
   + (from_parts 3013191 0 * l)
   + (from_parts 22146935 0 * v)
   + reads RocksDbWeight 18
   + reads RocksDbWeight (saturating_mul u64_max 2 v)
   + writes RocksDbWeight 4
   + writes RocksDbWeight (saturating_mul u64_max 2 v)
   + (from_parts 0 290 * l)
   + (from_parts 0 407 * s)
   + (from_parts 0 2717 * v))%weight.

Definition UnitWeight : WeightInfo := {|
  wi_register := register_unit_weight;
  wi_claim_onetime_tip := claim_onetime_tip_unit_weight;
  wi_claim_tip := claim_tip_unit_weight;
  wi_fund_feed := fund_feed_unit_weight;
  wi_setup_data_feed := setup_data_feed_unit_weight;
  wi_tip := tip_unit_weight;
  wi_add_staking_rewards := add_staking_rewards_unit_weight;
  wi_submit_value := submit_value_unit_weight;
  wi_update_stake_amount := update_stake_amount_unit_weight;
  wi_begin_dispute := begin_dispute_unit_weight;
  wi_vote := vote_unit_weight;
  wi_vote_on_multiple_disputes := vote_on_multiple_disputes_unit_weight;
  wi_send_votes := send_votes_unit_weight;
  wi_report_stake_deposited := report_stake_deposited_unit_weight;
  wi_report_staking_withdraw_request := report_staking_withdraw_request_unit_weight;
  wi_report_stake_withdrawn := report_stake_withdrawn_unit_weight;
  wi_report_slash := report_slash_unit_weight;
  wi_report_vote_tallied := report_vote_tallied_unit_weight;
  wi_report_vote_executed := report_vote_executed_unit_weight;
  wi_on_initialize := on_initialize_unit_weight;
|}.

End UnitWeight.
