(* ===== verification/Config.v ===== *)
(** * Configuration of the pallet

    [trait Config] of [src/src/lib.rs] (lines 102-198) as a type class.  What the
    pallet only calls is an operation of the class: the asset
    ([fungible::Inspect] and [fungible::Mutate]), the XCM sender and weigher of
    [src/src/traits.rs], the hash, the ABI and SCALE encoders, reanchoring, and
    the accounts derived from the pallet identifier.  [AssetLaws] is what the
    pallet relies on of the asset. *)

From S2P Require Import Prelude Types Weights.

(** [tokens::Preservation] *)
Inductive Preservation := Expendable | Protect | Preserve.

(** [T::Asset].  A transfer returns the error of the asset pallet, or the asset
    storage after it. *)
Class Asset := {
  AssetState : Type;
  asset_balance : AssetState -> AccountId -> Balance;
  minimum_balance : Balance;
  asset_transfer :
    AssetState -> AccountId -> AccountId -> Balance -> Preservation -> Z + AssetState;
}.

(** What [fungible::Mutate::transfer] documents.  An account left with less
    than the minimum balance may be dusted, and the dust may be credited to
    another account.  An amount is a [u128]. *)
Class AssetLaws (A : Asset) : Prop := {
  balance_range : forall st a, 0 <= asset_balance st a <= u128_max;
  transfer_funds : forall st st' src dst amt p,
    asset_transfer st src dst amt p = inr st' -> src <> dst ->
    0 <= amt <= asset_balance st src;
  transfer_dst : forall st st' src dst amt p,
    asset_transfer st src dst amt p = inr st' -> src <> dst ->
    asset_balance st' dst = asset_balance st dst + amt;
  transfer_src_le : forall st st' src dst amt p,
    asset_transfer st src dst amt p = inr st' -> src <> dst ->
    asset_balance st' src <= asset_balance st src - amt;
  transfer_src : forall st st' src dst amt p,
    asset_transfer st src dst amt p = inr st' -> src <> dst ->
    p = Preserve \/ minimum_balance <= asset_balance st src - amt ->
    asset_balance st' src = asset_balance st src - amt;
  transfer_other : forall st st' src dst amt p a,
    asset_transfer st src dst amt p = inr st' -> a <> src -> a <> dst ->
    asset_balance st a <= asset_balance st' a;
  transfer_self : forall st st' a amt p b,
    asset_transfer st a a amt p = inr st' -> asset_balance st' b = asset_balance st b;
}.

(** [traits::SendXcm]: whether sending fails may depend on what was sent
    before. *)
Class SendXcm := {
  xcm_send : list (MultiLocation * Xcm) -> list Junction -> MultiLocation -> Xcm ->
             option SendError;
}.

(** [traits::UniversalWeigher] and [traits::Weigher] *)
Class Weigher := {
  weigh : MultiLocation -> Xcm -> option Weight;
  weigher_transact : MultiLocation -> Z -> Weight;
}.

(** Code that is not the pallet's: hashing and encoding. *)
Class Encoders := {
  (** [Keccak256::hash] *)
  keccak256 : bytes -> H256;
  (** [ethabi::encode] *)
  abi_encode : list Token -> bytes;
  (** [EthereumXcmCall::encode], derived *)
  scale_encode_call : EthereumXcmCall -> bytes;
  (** [Option<NetworkId>::encode], derived in the [xcm] crate *)
  scale_encode_network : option NetworkId -> bytes;
  (** [MultiLocation::reanchor], which fails on too many junctions *)
  reanchor : list Junction -> MultiLocation -> list Junction -> option MultiLocation;
}.

Class Config := {
  #[global] cfg_Asset :: Asset;
  #[global] cfg_Xcm :: SendXcm;
  #[global] cfg_Weigher :: Weigher;
  #[global] cfg_Encoders :: Encoders;
  #[global] cfg_WeightInfo :: WeightInfo;
  Decimals : Z;
  EthereumXcmPalletIndex : Z;
  Fee : Z;
  FeeLocation : list Junction;
  GovernanceContract : ContractLocation;  (* [T::Governance] *)
  GovernanceOrigin : RuntimeOrigin -> bool;
  InitialDisputeFee : Balance;
  MaxClaimTimestamps : Z;
  MaxDisputedTimeSeries : Z;
  MaxQueryDataLength : Z;
  MaxValueLength : Z;
  MaxVotes : Z;
  MinimumStakeAmount : Z;
  ParachainId : ParaId;
  PalletIndex : Z;  (* [Pallet::<T>::index()] *)
  RegisterOrigin : RuntimeOrigin -> bool;
  Registry : ContractLocation;
  StakeAmountCurrencyTarget : Z;
  StakingOrigin : RuntimeOrigin -> bool;
  StakingTokenPriceQueryId : QueryId;
  StakingToLocalTokenPriceQueryId : QueryId;
  UpdateStakeAmountInterval : Timestamp;
  WeightToFee : Z;
  XcmFeesAsset : AssetId;
  XcmWeightToAsset : Z;
  (** [T::PalletId::get().into_account_truncating()] and its sub-accounts. *)
  pallet_account : AccountId;
  dispute_fees : AccountId;
  staking_rewards : AccountId;
  tips : AccountId;
}.

(** The widths of the configured constants, and the distinctness of the
    accounts derived from the pallet identifier. *)
Class ConfigOk (T : Config) : Prop := {
  Decimals_u8 : 0 <= Decimals <= u8_max;
  Fee_u16 : 0 <= Fee <= u16_max;
  InitialDisputeFee_u128 : 0 <= InitialDisputeFee <= u128_max;
  MaxDisputedTimeSeries_u32 : 0 <= MaxDisputedTimeSeries <= u32_max;
  MinimumStakeAmount_u128 : 0 <= MinimumStakeAmount <= u128_max;
  StakeAmountCurrencyTarget_u128 : 0 <= StakeAmountCurrencyTarget <= u128_max;
  sub_accounts_distinct : NoDup [pallet_account; dispute_fees; staking_rewards; tips];
}.
