(* ===== verification/Storage.v ===== *)
(** * Storage of the pallet

    The storage items of [src/src/lib.rs] (lines 200-345), grouped by the part
    of the pallet that writes them, and what a call reads of its environment:
    the time, the block number, the asset storage, the events deposited and the
    XCM messages sent (latest first).  A [StorageMap] is a [gmap], a double or
    n-map one with a tuple as key, a map to [()] a [gset]; a [ValueQuery] map is
    read with [value_or_zero].  A [StorageValue] with a default is its value. *)

From S2P Require Import Prelude Types Config.

Record OracleStore := {
  LastReportedTimestamp : gmap QueryId Timestamp;
  Reports : gmap (QueryId * Timestamp) Report;
  ReportedTimestampsByIndex : gmap (QueryId * Z) Timestamp;
  ReportedTimestampCount : gmap QueryId Z;
  ReportedValuesByTimestamp : gmap (QueryId * Timestamp) Value;
  StakerReportsSubmittedByQueryId : gmap (AccountId * QueryId) Z;
  TimeOfLastNewValue : option Timestamp;
}.

Record StakingStore := {
  AccumulatedRewardPerShare : Balance;
  LastStakeAmountUpdate : Timestamp;
  RewardRate : Balance;
  StakeAmount : Tributes;
  StakerDetails : gmap AccountId StakeInfo;
  TimeOfLastAllocation : Timestamp;
  TotalRewardDebt : Balance;
  TotalStakeAmount : Tributes;
  TotalStakers : Z;
  ToWithdraw : Tributes;
}.

Record GovernanceStore := {
  DisputeFee : Balance;
  DisputeIdsByReporter : gset (AccountId * DisputeId);
  DisputeInfo : gmap DisputeId Dispute;
  OpenDisputesOnId : gmap QueryId Z;
  PendingVotes : gmap DisputeId (Z * Timestamp);
  VoteCount : Z;
  VoteInfo : gmap (DisputeId * Z) Vote;
  VoteRounds : gmap DisputeId Z;
  Votes : gmap (DisputeId * Z * AccountId) bool;
  VoteTallyByAddress : gmap AccountId Z;
}.

Record AutopayStore := {
  DataFeeds : gmap (QueryId * FeedId) Feed;
  DataFeedRewardClaimed : gset (QueryId * FeedId * Timestamp);
  FeedsWithFunding : gset FeedId;
  QueryIdFromDataFeedId : gmap FeedId QueryId;
  QueryIdsWithFunding : gset QueryId;
  Tips : gmap (QueryId * Z) Tip;
  TipCount : gmap QueryId Z;
  UserTipsTotal : gmap AccountId Balance;
  QueryData : gmap QueryId QueryDataBytes;
}.

Section WithConfig.
Context {T : Config}.

Record System := {
  sys_now : Timestamp;
  sys_block_number : BlockNumber;
  sys_events : list Event;
  sys_sent : list (MultiLocation * Xcm);
  sys_assets : AssetState;
}.

Record State := {
  st_oracle : OracleStore;
  st_staking : StakingStore;
  st_governance : GovernanceStore;
  st_autopay : AutopayStore;
  st_system : System;
}.

End WithConfig.

Arguments System {T} : assert.
Arguments State {T} : assert.

Coercion st_oracle : State >-> OracleStore.
Coercion st_staking : State >-> StakingStore.
Coercion st_governance : State >-> GovernanceStore.
Coercion st_autopay : State >-> AutopayStore.
Coercion st_system : State >-> System.

Section WithConfig.
Context {T : Config}.

(** ** Writes

    [upd_X f] replaces the storage item [X] by [f] of it. *)

Definition upd_st_oracle (f : OracleStore -> OracleStore) (s : State) : State :=
  {| st_oracle := f (st_oracle s); st_staking := st_staking s; st_governance := st_governance s; st_autopay := st_autopay s; st_system := st_system s |}.

Definition upd_LastReportedTimestamp (f : gmap QueryId Timestamp -> gmap QueryId Timestamp) : State -> State :=
  upd_st_oracle (fun x =>
  {| LastReportedTimestamp := f (LastReportedTimestamp x);
     Reports := Reports x;
     ReportedTimestampsByIndex := ReportedTimestampsByIndex x;
     ReportedTimestampCount := ReportedTimestampCount x;
     ReportedValuesByTimestamp := ReportedValuesByTimestamp x;
     StakerReportsSubmittedByQueryId := StakerReportsSubmittedByQueryId x;
     TimeOfLastNewValue := TimeOfLastNewValue x |}).

Definition upd_Reports (f : gmap (QueryId * Timestamp) Report -> gmap (QueryId * Timestamp) Report) : State -> State :=
  upd_st_oracle (fun x =>
  {| LastReportedTimestamp := LastReportedTimestamp x;
     Reports := f (Reports x);
     ReportedTimestampsByIndex := ReportedTimestampsByIndex x;
     ReportedTimestampCount := ReportedTimestampCount x;
     ReportedValuesByTimestamp := ReportedValuesByTimestamp x;
     StakerReportsSubmittedByQueryId := StakerReportsSubmittedByQueryId x;
     TimeOfLastNewValue := TimeOfLastNewValue x |}).

Definition upd_ReportedTimestampsByIndex (f : gmap (QueryId * Z) Timestamp -> gmap (QueryId * Z) Timestamp) : State -> State :=
  upd_st_oracle (fun x =>
  {| LastReportedTimestamp := LastReportedTimestamp x;
     Reports := Reports x;
     ReportedTimestampsByIndex := f (ReportedTimestampsByIndex x);
     ReportedTimestampCount := ReportedTimestampCount x;
     ReportedValuesByTimestamp := ReportedValuesByTimestamp x;
     StakerReportsSubmittedByQueryId := StakerReportsSubmittedByQueryId x;
     TimeOfLastNewValue := TimeOfLastNewValue x |}).

Definition upd_ReportedTimestampCount (f : gmap QueryId Z -> gmap QueryId Z) : State -> State :=
  upd_st_oracle (fun x =>
  {| LastReportedTimestamp := LastReportedTimestamp x;
     Reports := Reports x;
     ReportedTimestampsByIndex := ReportedTimestampsByIndex x;
     ReportedTimestampCount := f (ReportedTimestampCount x);
     ReportedValuesByTimestamp := ReportedValuesByTimestamp x;
     StakerReportsSubmittedByQueryId := StakerReportsSubmittedByQueryId x;
     TimeOfLastNewValue := TimeOfLastNewValue x |}).

Definition upd_ReportedValuesByTimestamp (f : gmap (QueryId * Timestamp) Value -> gmap (QueryId * Timestamp) Value) : State -> State :=
  upd_st_oracle (fun x =>
  {| LastReportedTimestamp := LastReportedTimestamp x;
     Reports := Reports x;
     ReportedTimestampsByIndex := ReportedTimestampsByIndex x;
     ReportedTimestampCount := ReportedTimestampCount x;
     ReportedValuesByTimestamp := f (ReportedValuesByTimestamp x);
     StakerReportsSubmittedByQueryId := StakerReportsSubmittedByQueryId x;
     TimeOfLastNewValue := TimeOfLastNewValue x |}).

Definition upd_StakerReportsSubmittedByQueryId (f : gmap (AccountId * QueryId) Z -> gmap (AccountId * QueryId) Z) : State -> State :=
  upd_st_oracle (fun x =>
  {| LastReportedTimestamp := LastReportedTimestamp x;
     Reports := Reports x;
     ReportedTimestampsByIndex := ReportedTimestampsByIndex x;
     ReportedTimestampCount := ReportedTimestampCount x;
     ReportedValuesByTimestamp := ReportedValuesByTimestamp x;
     StakerReportsSubmittedByQueryId := f (StakerReportsSubmittedByQueryId x);
     TimeOfLastNewValue := TimeOfLastNewValue x |}).

Definition upd_TimeOfLastNewValue (f : option Timestamp -> option Timestamp) : State -> State :=
  upd_st_oracle (fun x =>
  {| LastReportedTimestamp := LastReportedTimestamp x;
     Reports := Reports x;
     ReportedTimestampsByIndex := ReportedTimestampsByIndex x;
     ReportedTimestampCount := ReportedTimestampCount x;
     ReportedValuesByTimestamp := ReportedValuesByTimestamp x;
     StakerReportsSubmittedByQueryId := StakerReportsSubmittedByQueryId x;
     TimeOfLastNewValue := f (TimeOfLastNewValue x) |}).

Definition upd_st_staking (f : StakingStore -> StakingStore) (s : State) : State :=
  {| st_oracle := st_oracle s; st_staking := f (st_staking s); st_governance := st_governance s; st_autopay := st_autopay s; st_system := st_system s |}.

Definition upd_AccumulatedRewardPerShare (f : Balance -> Balance) : State -> State :=
  upd_st_staking (fun x =>
  {| AccumulatedRewardPerShare := f (AccumulatedRewardPerShare x);
     LastStakeAmountUpdate := LastStakeAmountUpdate x;
     RewardRate := RewardRate x;
     StakeAmount := StakeAmount x;
     StakerDetails := StakerDetails x;
     TimeOfLastAllocation := TimeOfLastAllocation x;
     TotalRewardDebt := TotalRewardDebt x;
     TotalStakeAmount := TotalStakeAmount x;
     TotalStakers := TotalStakers x;
     ToWithdraw := ToWithdraw x |}).

Definition upd_LastStakeAmountUpdate (f : Timestamp -> Timestamp) : State -> State :=
  upd_st_staking (fun x =>
  {| AccumulatedRewardPerShare := AccumulatedRewardPerShare x;
     LastStakeAmountUpdate := f (LastStakeAmountUpdate x);
     RewardRate := RewardRate x;
     StakeAmount := StakeAmount x;
     StakerDetails := StakerDetails x;
     TimeOfLastAllocation := TimeOfLastAllocation x;
     TotalRewardDebt := TotalRewardDebt x;
     TotalStakeAmount := TotalStakeAmount x;
     TotalStakers := TotalStakers x;
     ToWithdraw := ToWithdraw x |}).

Definition upd_RewardRate (f : Balance -> Balance) : State -> State :=
  upd_st_staking (fun x =>
  {| AccumulatedRewardPerShare := AccumulatedRewardPerShare x;
     LastStakeAmountUpdate := LastStakeAmountUpdate x;
     RewardRate := f (RewardRate x);
     StakeAmount := StakeAmount x;
     StakerDetails := StakerDetails x;
     TimeOfLastAllocation := TimeOfLastAllocation x;
     TotalRewardDebt := TotalRewardDebt x;
     TotalStakeAmount := TotalStakeAmount x;
     TotalStakers := TotalStakers x;
     ToWithdraw := ToWithdraw x |}).

Definition upd_StakeAmount (f : Tributes -> Tributes) : State -> State :=
  upd_st_staking (fun x =>
  {| AccumulatedRewardPerShare := AccumulatedRewardPerShare x;
     LastStakeAmountUpdate := LastStakeAmountUpdate x;
     RewardRate := RewardRate x;
     StakeAmount := f (StakeAmount x);
     StakerDetails := StakerDetails x;
     TimeOfLastAllocation := TimeOfLastAllocation x;
     TotalRewardDebt := TotalRewardDebt x;
     TotalStakeAmount := TotalStakeAmount x;
     TotalStakers := TotalStakers x;
     ToWithdraw := ToWithdraw x |}).

Definition upd_StakerDetails (f : gmap AccountId StakeInfo -> gmap AccountId StakeInfo) : State -> State :=
  upd_st_staking (fun x =>
  {| AccumulatedRewardPerShare := AccumulatedRewardPerShare x;
     LastStakeAmountUpdate := LastStakeAmountUpdate x;
     RewardRate := RewardRate x;
     StakeAmount := StakeAmount x;
     StakerDetails := f (StakerDetails x);
     TimeOfLastAllocation := TimeOfLastAllocation x;
     TotalRewardDebt := TotalRewardDebt x;
     TotalStakeAmount := TotalStakeAmount x;
     TotalStakers := TotalStakers x;
     ToWithdraw := ToWithdraw x |}).

Definition upd_TimeOfLastAllocation (f : Timestamp -> Timestamp) : State -> State :=
  upd_st_staking (fun x =>
  {| AccumulatedRewardPerShare := AccumulatedRewardPerShare x;
     LastStakeAmountUpdate := LastStakeAmountUpdate x;
     RewardRate := RewardRate x;
     StakeAmount := StakeAmount x;
     StakerDetails := StakerDetails x;
     TimeOfLastAllocation := f (TimeOfLastAllocation x);
     TotalRewardDebt := TotalRewardDebt x;
     TotalStakeAmount := TotalStakeAmount x;
     TotalStakers := TotalStakers x;
     ToWithdraw := ToWithdraw x |}).

Definition upd_TotalRewardDebt (f : Balance -> Balance) : State -> State :=
  upd_st_staking (fun x =>
  {| AccumulatedRewardPerShare := AccumulatedRewardPerShare x;
     LastStakeAmountUpdate := LastStakeAmountUpdate x;
     RewardRate := RewardRate x;
     StakeAmount := StakeAmount x;
     StakerDetails := StakerDetails x;
     TimeOfLastAllocation := TimeOfLastAllocation x;
     TotalRewardDebt := f (TotalRewardDebt x);
     TotalStakeAmount := TotalStakeAmount x;
     TotalStakers := TotalStakers x;
     ToWithdraw := ToWithdraw x |}).

Definition upd_TotalStakeAmount (f : Tributes -> Tributes) : State -> State :=
  upd_st_staking (fun x =>
  {| AccumulatedRewardPerShare := AccumulatedRewardPerShare x;
     LastStakeAmountUpdate := LastStakeAmountUpdate x;
     RewardRate := RewardRate x;
     StakeAmount := StakeAmount x;
     StakerDetails := StakerDetails x;
     TimeOfLastAllocation := TimeOfLastAllocation x;
     TotalRewardDebt := TotalRewardDebt x;
     TotalStakeAmount := f (TotalStakeAmount x);
     TotalStakers := TotalStakers x;
     ToWithdraw := ToWithdraw x |}).

Definition upd_TotalStakers (f : Z -> Z) : State -> State :=
  upd_st_staking (fun x =>
  {| AccumulatedRewardPerShare := AccumulatedRewardPerShare x;
     LastStakeAmountUpdate := LastStakeAmountUpdate x;
     RewardRate := RewardRate x;
     StakeAmount := StakeAmount x;
     StakerDetails := StakerDetails x;
     TimeOfLastAllocation := TimeOfLastAllocation x;
     TotalRewardDebt := TotalRewardDebt x;
     TotalStakeAmount := TotalStakeAmount x;
     TotalStakers := f (TotalStakers x);
     ToWithdraw := ToWithdraw x |}).

Definition upd_ToWithdraw (f : Tributes -> Tributes) : State -> State :=
  upd_st_staking (fun x =>
  {| AccumulatedRewardPerShare := AccumulatedRewardPerShare x;
     LastStakeAmountUpdate := LastStakeAmountUpdate x;
     RewardRate := RewardRate x;
     StakeAmount := StakeAmount x;
     StakerDetails := StakerDetails x;
     TimeOfLastAllocation := TimeOfLastAllocation x;
     TotalRewardDebt := TotalRewardDebt x;
     TotalStakeAmount := TotalStakeAmount x;
     TotalStakers := TotalStakers x;
     ToWithdraw := f (ToWithdraw x) |}).

Definition upd_st_governance (f : GovernanceStore -> GovernanceStore) (s : State) : State :=
  {| st_oracle := st_oracle s; st_staking := st_staking s; st_governance := f (st_governance s); st_autopay := st_autopay s; st_system := st_system s |}.

Definition upd_DisputeFee (f : Balance -> Balance) : State -> State :=
  upd_st_governance (fun x =>
  {| DisputeFee := f (DisputeFee x);
     DisputeIdsByReporter := DisputeIdsByReporter x;
     DisputeInfo := DisputeInfo x;
     OpenDisputesOnId := OpenDisputesOnId x;
     PendingVotes := PendingVotes x;
     VoteCount := VoteCount x;
     VoteInfo := VoteInfo x;
     VoteRounds := VoteRounds x;
     Votes := Votes x;
     VoteTallyByAddress := VoteTallyByAddress x |}).

Definition upd_DisputeIdsByReporter (f : gset (AccountId * DisputeId) -> gset (AccountId * DisputeId)) : State -> State :=
  upd_st_governance (fun x =>
  {| DisputeFee := DisputeFee x;
     DisputeIdsByReporter := f (DisputeIdsByReporter x);
     DisputeInfo := DisputeInfo x;
     OpenDisputesOnId := OpenDisputesOnId x;
     PendingVotes := PendingVotes x;
     VoteCount := VoteCount x;
     VoteInfo := VoteInfo x;
     VoteRounds := VoteRounds x;
     Votes := Votes x;
     VoteTallyByAddress := VoteTallyByAddress x |}).

Definition upd_DisputeInfo (f : gmap DisputeId Dispute -> gmap DisputeId Dispute) : State -> State :=
  upd_st_governance (fun x =>
  {| DisputeFee := DisputeFee x;
     DisputeIdsByReporter := DisputeIdsByReporter x;
     DisputeInfo := f (DisputeInfo x);
     OpenDisputesOnId := OpenDisputesOnId x;
     PendingVotes := PendingVotes x;
     VoteCount := VoteCount x;
     VoteInfo := VoteInfo x;
     VoteRounds := VoteRounds x;
     Votes := Votes x;
     VoteTallyByAddress := VoteTallyByAddress x |}).

Definition upd_OpenDisputesOnId (f : gmap QueryId Z -> gmap QueryId Z) : State -> State :=
  upd_st_governance (fun x =>
  {| DisputeFee := DisputeFee x;
     DisputeIdsByReporter := DisputeIdsByReporter x;
     DisputeInfo := DisputeInfo x;
     OpenDisputesOnId := f (OpenDisputesOnId x);
     PendingVotes := PendingVotes x;
     VoteCount := VoteCount x;
     VoteInfo := VoteInfo x;
     VoteRounds := VoteRounds x;
     Votes := Votes x;
     VoteTallyByAddress := VoteTallyByAddress x |}).

Definition upd_PendingVotes (f : gmap DisputeId (Z * Timestamp) -> gmap DisputeId (Z * Timestamp)) : State -> State :=
  upd_st_governance (fun x =>
  {| DisputeFee := DisputeFee x;
     DisputeIdsByReporter := DisputeIdsByReporter x;
     DisputeInfo := DisputeInfo x;
     OpenDisputesOnId := OpenDisputesOnId x;
     PendingVotes := f (PendingVotes x);
     VoteCount := VoteCount x;
     VoteInfo := VoteInfo x;
     VoteRounds := VoteRounds x;
     Votes := Votes x;
     VoteTallyByAddress := VoteTallyByAddress x |}).

Definition upd_VoteCount (f : Z -> Z) : State -> State :=
  upd_st_governance (fun x =>
  {| DisputeFee := DisputeFee x;
     DisputeIdsByReporter := DisputeIdsByReporter x;
     DisputeInfo := DisputeInfo x;
     OpenDisputesOnId := OpenDisputesOnId x;
     PendingVotes := PendingVotes x;
     VoteCount := f (VoteCount x);
     VoteInfo := VoteInfo x;
     VoteRounds := VoteRounds x;
     Votes := Votes x;
     VoteTallyByAddress := VoteTallyByAddress x |}).

Definition upd_VoteInfo (f : gmap (DisputeId * Z) Vote -> gmap (DisputeId * Z) Vote) : State -> State :=
  upd_st_governance (fun x =>
  {| DisputeFee := DisputeFee x;
     DisputeIdsByReporter := DisputeIdsByReporter x;
     DisputeInfo := DisputeInfo x;
     OpenDisputesOnId := OpenDisputesOnId x;
     PendingVotes := PendingVotes x;
     VoteCount := VoteCount x;
     VoteInfo := f (VoteInfo x);
     VoteRounds := VoteRounds x;
     Votes := Votes x;
     VoteTallyByAddress := VoteTallyByAddress x |}).

Definition upd_VoteRounds (f : gmap DisputeId Z -> gmap DisputeId Z) : State -> State :=
  upd_st_governance (fun x =>
  {| DisputeFee := DisputeFee x;
     DisputeIdsByReporter := DisputeIdsByReporter x;
     DisputeInfo := DisputeInfo x;
     OpenDisputesOnId := OpenDisputesOnId x;
     PendingVotes := PendingVotes x;
     VoteCount := VoteCount x;
     VoteInfo := VoteInfo x;
     VoteRounds := f (VoteRounds x);
     Votes := Votes x;
     VoteTallyByAddress := VoteTallyByAddress x |}).

Definition upd_Votes (f : gmap (DisputeId * Z * AccountId) bool -> gmap (DisputeId * Z * AccountId) bool) : State -> State :=
  upd_st_governance (fun x =>
  {| DisputeFee := DisputeFee x;
     DisputeIdsByReporter := DisputeIdsByReporter x;
     DisputeInfo := DisputeInfo x;
     OpenDisputesOnId := OpenDisputesOnId x;
     PendingVotes := PendingVotes x;
     VoteCount := VoteCount x;
     VoteInfo := VoteInfo x;
     VoteRounds := VoteRounds x;
     Votes := f (Votes x);
     VoteTallyByAddress := VoteTallyByAddress x |}).

Definition upd_VoteTallyByAddress (f : gmap AccountId Z -> gmap AccountId Z) : State -> State :=
  upd_st_governance (fun x =>
  {| DisputeFee := DisputeFee x;
     DisputeIdsByReporter := DisputeIdsByReporter x;
     DisputeInfo := DisputeInfo x;
     OpenDisputesOnId := OpenDisputesOnId x;
     PendingVotes := PendingVotes x;
     VoteCount := VoteCount x;
     VoteInfo := VoteInfo x;
     VoteRounds := VoteRounds x;
     Votes := Votes x;
     VoteTallyByAddress := f (VoteTallyByAddress x) |}).

Definition upd_st_autopay (f : AutopayStore -> AutopayStore) (s : State) : State :=
  {| st_oracle := st_oracle s; st_staking := st_staking s; st_governance := st_governance s; st_autopay := f (st_autopay s); st_system := st_system s |}.

Definition upd_DataFeeds (f : gmap (QueryId * FeedId) Feed -> gmap (QueryId * FeedId) Feed) : State -> State :=
  upd_st_autopay (fun x =>
  {| DataFeeds := f (DataFeeds x);
     DataFeedRewardClaimed := DataFeedRewardClaimed x;
     FeedsWithFunding := FeedsWithFunding x;
     QueryIdFromDataFeedId := QueryIdFromDataFeedId x;
     QueryIdsWithFunding := QueryIdsWithFunding x;
     Tips := Tips x;
     TipCount := TipCount x;
     UserTipsTotal := UserTipsTotal x;
     QueryData := QueryData x |}).

Definition upd_DataFeedRewardClaimed (f : gset (QueryId * FeedId * Timestamp) -> gset (QueryId * FeedId * Timestamp)) : State -> State :=
  upd_st_autopay (fun x =>
  {| DataFeeds := DataFeeds x;
     DataFeedRewardClaimed := f (DataFeedRewardClaimed x);
     FeedsWithFunding := FeedsWithFunding x;
     QueryIdFromDataFeedId := QueryIdFromDataFeedId x;
     QueryIdsWithFunding := QueryIdsWithFunding x;
     Tips := Tips x;
     TipCount := TipCount x;
     UserTipsTotal := UserTipsTotal x;
     QueryData := QueryData x |}).

Definition upd_FeedsWithFunding (f : gset FeedId -> gset FeedId) : State -> State :=
  upd_st_autopay (fun x =>
  {| DataFeeds := DataFeeds x;
     DataFeedRewardClaimed := DataFeedRewardClaimed x;
     FeedsWithFunding := f (FeedsWithFunding x);
     QueryIdFromDataFeedId := QueryIdFromDataFeedId x;
     QueryIdsWithFunding := QueryIdsWithFunding x;
     Tips := Tips x;
     TipCount := TipCount x;
     UserTipsTotal := UserTipsTotal x;
     QueryData := QueryData x |}).

Definition upd_QueryIdFromDataFeedId (f : gmap FeedId QueryId -> gmap FeedId QueryId) : State -> State :=
  upd_st_autopay (fun x =>
  {| DataFeeds := DataFeeds x;
     DataFeedRewardClaimed := DataFeedRewardClaimed x;
     FeedsWithFunding := FeedsWithFunding x;
     QueryIdFromDataFeedId := f (QueryIdFromDataFeedId x);
     QueryIdsWithFunding := QueryIdsWithFunding x;
     Tips := Tips x;
     TipCount := TipCount x;
     UserTipsTotal := UserTipsTotal x;
     QueryData := QueryData x |}).

Definition upd_QueryIdsWithFunding (f : gset QueryId -> gset QueryId) : State -> State :=
  upd_st_autopay (fun x =>
  {| DataFeeds := DataFeeds x;
     DataFeedRewardClaimed := DataFeedRewardClaimed x;
     FeedsWithFunding := FeedsWithFunding x;
     QueryIdFromDataFeedId := QueryIdFromDataFeedId x;
     QueryIdsWithFunding := f (QueryIdsWithFunding x);
     Tips := Tips x;
     TipCount := TipCount x;
     UserTipsTotal := UserTipsTotal x;
     QueryData := QueryData x |}).

Definition upd_Tips (f : gmap (QueryId * Z) Tip -> gmap (QueryId * Z) Tip) : State -> State :=
  upd_st_autopay (fun x =>
  {| DataFeeds := DataFeeds x;
     DataFeedRewardClaimed := DataFeedRewardClaimed x;
     FeedsWithFunding := FeedsWithFunding x;
     QueryIdFromDataFeedId := QueryIdFromDataFeedId x;
     QueryIdsWithFunding := QueryIdsWithFunding x;
     Tips := f (Tips x);
     TipCount := TipCount x;
     UserTipsTotal := UserTipsTotal x;
     QueryData := QueryData x |}).

Definition upd_TipCount (f : gmap QueryId Z -> gmap QueryId Z) : State -> State :=
  upd_st_autopay (fun x =>
  {| DataFeeds := DataFeeds x;
     DataFeedRewardClaimed := DataFeedRewardClaimed x;
     FeedsWithFunding := FeedsWithFunding x;
     QueryIdFromDataFeedId := QueryIdFromDataFeedId x;
     QueryIdsWithFunding := QueryIdsWithFunding x;
     Tips := Tips x;
     TipCount := f (TipCount x);
     UserTipsTotal := UserTipsTotal x;
     QueryData := QueryData x |}).

Definition upd_UserTipsTotal (f : gmap AccountId Balance -> gmap AccountId Balance) : State -> State :=
  upd_st_autopay (fun x =>
  {| DataFeeds := DataFeeds x;
     DataFeedRewardClaimed := DataFeedRewardClaimed x;
     FeedsWithFunding := FeedsWithFunding x;
     QueryIdFromDataFeedId := QueryIdFromDataFeedId x;
     QueryIdsWithFunding := QueryIdsWithFunding x;
     Tips := Tips x;
     TipCount := TipCount x;
     UserTipsTotal := f (UserTipsTotal x);
     QueryData := QueryData x |}).

Definition upd_QueryData (f : gmap QueryId QueryDataBytes -> gmap QueryId QueryDataBytes) : State -> State :=
  upd_st_autopay (fun x =>
  {| DataFeeds := DataFeeds x;
     DataFeedRewardClaimed := DataFeedRewardClaimed x;
     FeedsWithFunding := FeedsWithFunding x;
     QueryIdFromDataFeedId := QueryIdFromDataFeedId x;
     QueryIdsWithFunding := QueryIdsWithFunding x;
     Tips := Tips x;
     TipCount := TipCount x;
     UserTipsTotal := UserTipsTotal x;
     QueryData := f (QueryData x) |}).

Definition upd_st_system (f : System -> System) (s : State) : State :=
  {| st_oracle := st_oracle s; st_staking := st_staking s; st_governance := st_governance s; st_autopay := st_autopay s; st_system := f (st_system s) |}.

Definition upd_sys_now (f : Timestamp -> Timestamp) : State -> State :=
  upd_st_system (fun x =>
  {| sys_now := f (sys_now x);
     sys_block_number := sys_block_number x;
     sys_events := sys_events x;
     sys_sent := sys_sent x;
     sys_assets := sys_assets x |}).

Definition upd_sys_block_number (f : BlockNumber -> BlockNumber) : State -> State :=
  upd_st_system (fun x =>
  {| sys_now := sys_now x;
     sys_block_number := f (sys_block_number x);
     sys_events := sys_events x;
     sys_sent := sys_sent x;
     sys_assets := sys_assets x |}).

Definition upd_sys_events (f : list Event -> list Event) : State -> State :=
  upd_st_system (fun x =>
  {| sys_now := sys_now x;
     sys_block_number := sys_block_number x;
     sys_events := f (sys_events x);
     sys_sent := sys_sent x;
     sys_assets := sys_assets x |}).

Definition upd_sys_sent (f : list (MultiLocation * Xcm) -> list (MultiLocation * Xcm)) : State -> State :=
  upd_st_system (fun x =>
  {| sys_now := sys_now x;
     sys_block_number := sys_block_number x;
     sys_events := sys_events x;
     sys_sent := f (sys_sent x);
     sys_assets := sys_assets x |}).

Definition upd_sys_assets (f : AssetState -> AssetState) : State -> State :=
  upd_st_system (fun x =>
  {| sys_now := sys_now x;
     sys_block_number := sys_block_number x;
     sys_events := sys_events x;
     sys_sent := sys_sent x;
     sys_assets := f (sys_assets x) |}).

(** [ValueQuery] on a map of numbers. *)
Definition value_or_zero `{Countable K} (m : gmap K Z) (k : K) : Z := default 0 (m !! k).

(** A call of the pallet. *)
Definition Call (A : Type) : Type := M State DispatchError A.

(** A storage read. *)
Definition read {A} (f : State -> A) : Call A := gets f.
Definition write (f : State -> State) : Call unit := modify f.

Definition throw {A} (e : Error) : Call A := fail (PalletError e).
Definition ensure_that (b : bool) (e : Error) : Call unit := ensure b (PalletError e).
Definition ok_or_error {A} (o : option A) (e : Error) : Call A := ok_or o (PalletError e).
Definition ok_or_arith {A} (o : option A) (e : ArithmeticError) : Call A :=
  ok_or o (Arithmetic e).

Definition deposit_event (e : Event) : Call unit := write (upd_sys_events (cons e)).

(** [Self::now()]: [T::Time::now().as_secs()] *)
Definition now : Call Timestamp := read (fun s => sys_now s).

(** [T::Asset::transfer(source, dest, amount, preservation)?] *)
Definition transfer (src dst : AccountId) (amt : Balance) (p : Preservation) : Call unit :=
  fun s =>
    match asset_transfer (sys_assets s) src dst amt p with
    | inl code => (Err (AssetError code), s)
    | inr a => (Ok tt, upd_sys_assets (fun _ => a) s)
    end.

(** [T::Asset::balance(who)] *)
Definition balance_of (s : State) (who : AccountId) : Balance :=
  asset_balance (sys_assets s) who.

(** [ensure_signed(origin)?] *)
Definition ensure_signed (o : RuntimeOrigin) : Call AccountId :=
  match o with Signed who => ret who | _ => fail BadOrigin end.

(** [T::XOrigin::ensure_origin(origin)?] *)
Definition ensure_origin (ok : RuntimeOrigin -> bool) (o : RuntimeOrigin) : Call unit :=
  ensure (ok o) BadOrigin.

(** The storage before any call: every item at its default. *)
Definition genesis (t : Timestamp) (a : AssetState) : State :=
  {| st_oracle :=
       {| LastReportedTimestamp := ∅; Reports := ∅; ReportedTimestampsByIndex := ∅;
          ReportedTimestampCount := ∅; ReportedValuesByTimestamp := ∅;
          StakerReportsSubmittedByQueryId := ∅; TimeOfLastNewValue := None |};
     st_staking :=
       {| AccumulatedRewardPerShare := 0; LastStakeAmountUpdate := 0; RewardRate := 0;
          StakeAmount := MinimumStakeAmount; StakerDetails := ∅;
          TimeOfLastAllocation := 0; TotalRewardDebt := 0; TotalStakeAmount := 0;
          TotalStakers := 0; ToWithdraw := 0 |};
     st_governance :=
       {| DisputeFee := InitialDisputeFee; DisputeIdsByReporter := ∅; DisputeInfo := ∅;
          OpenDisputesOnId := ∅; PendingVotes := ∅; VoteCount := 0; VoteInfo := ∅;
          VoteRounds := ∅; Votes := ∅; VoteTallyByAddress := ∅ |};
     st_autopay :=
       {| DataFeeds := ∅; DataFeedRewardClaimed := ∅; FeedsWithFunding := ∅;
          QueryIdFromDataFeedId := ∅; QueryIdsWithFunding := ∅; Tips := ∅;
          TipCount := ∅; UserTipsTotal := ∅; QueryData := ∅ |};
     st_system :=
       {| sys_now := t; sys_block_number := 0; sys_events := []; sys_sent := [];
          sys_assets := a |} |}.

End WithConfig.

(** ** Automation for calls *)

Ltac unfold_calls :=
  unfold deposit_event, now, throw, ensure_that, ok_or_error, ok_or_arith, ensure_origin,
    read, write in *.

Section CallFacts.
Context {T : Config}.

Lemma transfer_Ok src dst amt p (s s' : State) u :
  transfer src dst amt p s = (Ok u, s') ->
  exists a, asset_transfer (sys_assets s) src dst amt p = inr a /\
            s' = upd_sys_assets (fun _ => a) s.
Proof.
  unfold transfer. destruct (asset_transfer _ _ _ _ _) as [c|a]; intros; simplify_eq.
  eauto.
Qed.

Lemma ensure_signed_Ok o (s s' : State) who :
  ensure_signed o s = (Ok who, s') -> o = Signed who /\ s' = s.
Proof. destruct o; simpl; intros; minv; done. Qed.

Lemma keeps_transfer {X} (f : State -> X) src dst amt p :
  (forall g s, f (upd_sys_assets g s) = f s) -> keeps f (transfer src dst amt p).
Proof.
  intros Hf s. unfold transfer. destruct (asset_transfer _ _ _ _ _); simpl; auto.
Qed.

Lemma keeps_ensure_signed {X} (f : State -> X) o : keeps f (ensure_signed o).
Proof. destruct o; intros s; reflexivity. Qed.

Lemma keeps_write {X} (f : State -> X) g :
  (forall s, f (g s) = f s) -> keeps f (write g).
Proof. intros H s. apply H. Qed.
End CallFacts.

#[export] Hint Resolve keeps_ensure_signed : frame.

(** Invert a successful call. *)
Ltac cinv_step :=
  match goal with
  | H : transfer _ _ _ _ _ = (Ok _, _) |- _ =>
      apply transfer_Ok in H as (? & ? & H)
  | H : ensure_signed _ _ = (Ok _, _) |- _ => apply ensure_signed_Ok in H as [? ?]
  end.

Ltac cinv := unfold_calls; repeat (first [minv_step | cinv_step]; subst; cbv beta in *).

(** A call touches only other storage items. *)
Ltac solve_keeps :=
  unfold_calls; cbv zeta;
  repeat (intros; lazymatch goal with
  | |- keeps _ (bind _ _) => apply keeps_bind
  | |- keeps _ (modify _) => apply keeps_modify
  | |- keeps _ (transfer _ _ _ _) => apply keeps_transfer
  | |- keeps _ (foldM _ _ _) => apply keeps_foldM
  | |- keeps _ (let _ := _ in _) => cbv zeta
  | |- keeps _ (if ?b then _ else _) => destruct b
  | |- keeps _ (match ?x with _ => _ end) => destruct x
  | |- keeps _ _ => solve [auto with frame]
  | |- _ = _ => reflexivity
  end).
