(* ===== verification/RunLogic.v ===== *)
(** * A logic of runs

    A weakest-precondition reading of the calls for an invariant of the state: a run
    from a state in which the invariant holds ends in the postcondition or with an
    error, in a state in which it still holds.  [stuck] is what a panic has to imply:
    [False] for calls that must not panic, [True] where a panic is of no interest. *)

From S2P Require Import Prelude Types Config Storage.

Section Logic.
Context {T : Config} {I : State -> Prop} {stuck : Prop}.
Implicit Types s : State.

Definition wp {A} (m : Call A) (Q : A -> State -> Prop) s : Prop :=
  match m s with
  | (Ok a, s') => Q a s'
  | (Err _, s') => I s'
  | (Panic, _) => stuck
  end.

(** The results of [m] have the property [P], and the invariant is kept. *)
Definition yields {A} (P : A -> Prop) (m : Call A) : Prop :=
  forall s, I s -> wp m (fun a s' => P a /\ I s') s.

(** The invariant is kept. *)
Definition safe {A} (m : Call A) : Prop := forall s, I s -> wp m (fun _ => I) s.

Lemma wp_bind {A B} (m : Call A) (k : A -> Call B) Q s :
  wp m (fun a => wp (k a) Q) s -> wp (bind m k) Q s.
Proof. unfold wp, bind. by destruct (m s) as [[a|e|] s']. Qed.

Lemma wp_mono {A} (m : Call A) (Q Q' : A -> State -> Prop) s :
  wp m Q s -> (forall a s', Q a s' -> Q' a s') -> wp m Q' s.
Proof. unfold wp. destruct (m s) as [[a|e|] s']; auto. Qed.

Lemma wp_ret {A} (a : A) Q s : Q a s -> wp (ret a) Q s.
Proof. done. Qed.
Lemma wp_fail {A} e (Q : A -> State -> Prop) s : I s -> wp (fail e) Q s.
Proof. done. Qed.
Lemma wp_gets {A} (f : State -> A) Q s : Q (f s) s -> wp (gets f) Q s.
Proof. done. Qed.
Lemma wp_modify f Q s : I (f s) -> (I (f s) -> Q tt (f s)) -> wp (modify f) Q s.
Proof. unfold wp. simpl. auto. Qed.
Lemma wp_ensure b e Q s : I s -> (b = true -> Q tt s) -> wp (ensure b e) Q s.
Proof. destruct b; unfold wp; simpl; auto. Qed.
Lemma wp_ok_or {A} (o : option A) e Q s :
  I s -> (forall a, o = Some a -> Q a s) -> wp (ok_or o e) Q s.
Proof. destruct o; unfold wp; simpl; auto. Qed.
Lemma wp_expect {A} (o : option A) a Q s : o = Some a -> Q a s -> wp (expect o) Q s.
Proof. by intros ->. Qed.
Lemma wp_expect_div a b Q s : b <> 0 -> Q (a / b) s -> wp (expect (checked_div a b)) Q s.
Proof. intros Hb. apply wp_expect. by apply checked_div_Some. Qed.
(** Where a panic is of no interest. *)
Lemma wp_expect_any {A} (o : option A) Q s :
  stuck -> (forall a, o = Some a -> Q a s) -> wp (expect o) Q s.
Proof. destruct o; unfold wp; simpl; auto. Qed.
(** Where the value exists, or a panic is of no interest. *)
Lemma wp_expect_or {A} (o : option A) Q s :
  stuck \/ is_Some o -> (forall a, o = Some a -> Q a s) -> wp (expect o) Q s.
Proof. intros [Hs|[a ->]] HQ; [by apply wp_expect_any|by apply HQ]. Qed.
Lemma wp_ensure_signed o Q s :
  I s -> (forall who, Q who s) -> wp (ensure_signed o) Q s.
Proof. intros Hs HQ. destruct o; simpl; first [by apply wp_fail|apply wp_ret; auto]. Qed.
Lemma wp_transactional {A} (m : Call A) Q s : I s -> wp m Q s -> wp (transactional m) Q s.
Proof. unfold wp, transactional. by destruct (m s) as [[]]. Qed.
Lemma wp_attempt {A} (m : Call A) (Q : option A -> State -> Prop) s :
  wp m (fun a => Q (Some a)) s -> (forall s', I s' -> Q None s') -> wp (attempt m) Q s.
Proof. unfold wp, attempt. destruct (m s) as [[]]; auto. Qed.

(** The transfers of the asset do not touch the pallet's storage. *)
Lemma wp_transfer src dst amt p Q s :
  I s -> (forall a, I (upd_sys_assets (fun _ => a) s)) ->
  (forall a, I (upd_sys_assets (fun _ => a) s) -> Q tt (upd_sys_assets (fun _ => a) s)) ->
  wp (transfer src dst amt p) Q s.
Proof. unfold wp, transfer. intros Hs Ha HQ. destruct (asset_transfer _ _ _ _ _); auto. Qed.

(** A call of a function that keeps the invariant. *)
Lemma wp_safe {A} (m : Call A) (Q : A -> State -> Prop) s :
  safe m -> I s -> (forall a s', m s = (Ok a, s') -> I s' -> Q a s') -> wp m Q s.
Proof.
  intros Hm Hs HQ. specialize (Hm s Hs). unfold wp in *.
  destruct (m s) as [[a|e|] s']; auto.
Qed.

Lemma wp_yields {A} P (m : Call A) (Q : A -> State -> Prop) s :
  yields P m -> I s -> (forall a s', P a -> I s' -> Q a s') -> wp m Q s.
Proof.
  intros Hm Hs HQ. specialize (Hm s Hs). unfold wp in *.
  destruct (m s) as [[a|e|] s']; [|done..]. destruct Hm. auto.
Qed.

Lemma yields_safe {A} P (m : Call A) : yields P m -> safe m.
Proof. intros Hm s Hs. eapply wp_mono; [by apply Hm|]. by intros a s' []. Qed.

(** A fold whose accumulator has the property [P]. *)
Lemma wp_foldM {A B} (P : B -> Prop) (g : B -> A -> Call B) l Q :
  (forall b a, P b -> yields P (g b a)) ->
  forall b s, P b -> I s -> (forall b' s', P b' -> I s' -> Q b' s') -> wp (foldM g b l) Q s.
Proof.
  intros Hg. induction l as [|a l IH]; intros b s Hb Hs HQ; simpl; [apply wp_ret; auto|].
  apply wp_bind. eapply wp_yields; [by apply Hg|done|]. auto.
Qed.

Lemma wp_foldM_safe {A B} (g : B -> A -> Call B) l Q : (forall b a, safe (g b a)) ->
  forall b s, I s -> (forall b' s', I s' -> Q b' s') -> wp (foldM g b l) Q s.
Proof.
  intros Hg b s Hs HQ. apply (wp_foldM (fun _ => True)); auto.
  intros b' a _ s' Hs'. eapply wp_mono; [by apply Hg|]. auto.
Qed.
End Logic.

Arguments wp {T} I stuck {A} m Q s : assert.
Arguments yields {T} I stuck {A} P m : assert.
Arguments safe {T} I stuck {A} m : assert.

(** One step of a proof; [keep] shows that a write keeps the invariant, and the
    functions that keep it are in the database [safe]. *)
Create HintDb safe.

Ltac wp_step_with keep :=
  lazymatch goal with
  | |- safe _ _ _ => intros ?s ?Hs
  | |- wp _ _ (bind _ _) _ _ => apply wp_bind
  | |- wp _ _ (ret _) _ _ => apply wp_ret
  | |- wp _ _ (fail _) _ _ => apply wp_fail
  | |- wp _ _ (gets _) _ _ => apply wp_gets
  | |- wp _ _ (modify _) _ _ => apply wp_modify; [|intros ?Hs]
  | |- wp _ _ (ensure _ _) _ _ => apply wp_ensure; [|intros ?Hc]
  | |- wp _ _ (ok_or _ _) _ _ => apply wp_ok_or; [|intros ?a ?Ha]
  | |- wp _ _ (expect (checked_div _ _)) _ _ => apply wp_expect_div
  | |- wp _ _ (transfer _ _ _ _) _ _ => apply wp_transfer; [|intros ?a|intros ?a ?Hs]
  | |- wp _ _ (ensure_signed _) _ _ => apply wp_ensure_signed; [|intros ?who]
  | |- wp _ _ (transactional _) _ _ => apply wp_transactional
  | |- wp _ _ (foldM _ _ _) _ _ => apply wp_foldM_safe; [intros ?b ?x| |intros ?b ?s ?Hs]
  | |- wp _ _ (attempt _) _ _ => apply wp_attempt; [|intros ?s ?Hs]
  | |- wp _ _ (if ?b then _ else _) _ _ => destruct b eqn:?
  | |- wp _ _ (match ?x with _ => _ end) _ _ => destruct x eqn:?
  | |- wp _ _ _ _ _ => apply wp_safe; [solve [auto with safe]| |intros ?a ?s ?Hm ?Hs]
  | |- _ => keep
  end; cbv beta zeta.
