(* ===== verification/OracleFacts.v ===== *)
(** * Oracle: invariant and correctness

    The invariant [oracle_wf] of the oracle's storage, its preservation by
    [submit_value] and [remove_value], and the correctness and cost of the
    binary search for the latest value before a time. *)

From S2P Require Import Prelude Types Config Storage Oracle.

(** ** The invariant *)

Section Invariant.
Implicit Types (o : OracleStore) (q : QueryId) (i k : Z) (t clock : Timestamp).

Definition ts_at o q i : option Timestamp := ReportedTimestampsByIndex o !! (q, i).
Definition report_at o q t : option Report := Reports o !! (q, t).
Definition report_count o q : Z := value_or_zero (ReportedTimestampCount o) q.

(** The report at index [i] is valid, reported at [t]. *)
Definition live o q i t : Prop :=
  ts_at o q i = Some t /\ exists r, report_at o q t = Some r /\ rep_is_disputed r = false.

(** The report at index [i] has been disputed. *)
Definition dead o q i : Prop :=
  exists t r, ts_at o q i = Some t /\ report_at o q t = Some r /\ rep_is_disputed r = true.

(** [p] is the time of the last valid report with an index below [k]. *)
Definition last_live o q k (p : option Timestamp) : Prop :=
  match p with
  | None => forall i, 0 <= i < k -> dead o q i
  | Some t => exists i, 0 <= i < k /\ live o q i t /\ forall j, i < j < k -> dead o q j
  end.

(** The reports of one query: indices are dense and times increase with them,
    [Reports] and [ReportedTimestampsByIndex] are inverse to each other, every
    report points at the last valid one before it, [LastReportedTimestamp] is
    the last valid one, and exactly the valid reports have a value. *)
Record query_wf o clock q : Prop := {
  wf_count : 0 <= report_count o q <= u32_max;
  wf_index : forall i, is_Some (ts_at o q i) <-> 0 <= i < report_count o q;
  wf_report : forall i t, ts_at o q i = Some t ->
    exists r, report_at o q t = Some r /\ rep_index r = i;
  wf_at : forall t r, report_at o q t = Some r -> ts_at o q (rep_index r) = Some t;
  wf_increasing : forall i j t t', ts_at o q i = Some t -> ts_at o q j = Some t' ->
    i < j -> t < t';
  wf_time : forall i t, ts_at o q i = Some t -> 0 <= t <= clock;
  wf_previous : forall t r, report_at o q t = Some r ->
    last_live o q (rep_index r) (rep_previous r);
  wf_last : last_live o q (report_count o q) (LastReportedTimestamp o !! q);
  wf_value : forall t, is_Some (ReportedValuesByTimestamp o !! (q, t)) <->
    exists r, report_at o q t = Some r /\ rep_is_disputed r = false;
}.

Definition oracle_wf o clock : Prop := forall q, query_wf o clock q.

(** What the search has to return for the time [t]: the last valid index whose
    time is before [t]. *)
Definition latest_before o q t (res : option Z) : Prop :=
  match res with
  | None => forall i u, ts_at o q i = Some u -> u < t -> dead o q i
  | Some i => exists u, live o q i u /\ u < t /\
      forall j u', i < j -> ts_at o q j = Some u' -> u' < t -> dead o q j
  end.
End Invariant.

Section InvariantFacts.
Context (o : OracleStore) (clock : Timestamp) (q : QueryId).
Context (Hwf : query_wf o clock q).

Lemma live_not_dead i t : live o q i t -> ~ dead o q i.
Proof.
  intros (Ht & r & Hr & Hl) (t' & r' & Ht' & Hr' & Hd). congruence.
Qed.

Lemma live_or_dead i : 0 <= i < report_count o q -> (exists t, live o q i t) \/ dead o q i.
Proof.
  intros Hi. apply (wf_index _ _ _ Hwf) in Hi as [t Ht].
  destruct (wf_report _ _ _ Hwf _ _ Ht) as (r & Hr & _).
  destruct (rep_is_disputed r) eqn:Hd; [right | left].
  - by exists t, r.
  - exists t. split; [done|]. by exists r.
Qed.

Lemma ts_at_range i t : ts_at o q i = Some t -> 0 <= i < report_count o q.
Proof. intros Ht. apply (wf_index _ _ _ Hwf). by exists t. Qed.

Lemma ts_at_lt_iff i j t t' :
  ts_at o q i = Some t -> ts_at o q j = Some t' -> (t < t' <-> i < j).
Proof.
  intros Hi Hj. split; [|by eapply wf_increasing].
  intros Hlt. destruct (Z.lt_total i j) as [?|[->|Hji]]; [done| |].
  - replace t' with t in Hlt by congruence. lia.
  - pose proof (wf_increasing _ _ _ Hwf _ _ _ _ Hj Hi Hji). lia.
Qed.

Lemma dead_range i : dead o q i -> 0 <= i < report_count o q.
Proof. intros (t & r & Ht & _). by eapply ts_at_range. Qed.

(** There is one last valid report below an index. *)
Lemma last_live_unique k p p' : last_live o q k p -> last_live o q k p' -> p = p'.
Proof.
  destruct p as [t|], p' as [t'|]; simpl.
  - intros (i & Hi & Hl & Hd) (i' & Hi' & Hl' & Hd').
    destruct (Z.lt_total i i') as [?|[->|?]].
    + destruct (live_not_dead _ _ Hl'). apply Hd. lia.
    + destruct Hl as [? _], Hl' as [? _]. congruence.
    + destruct (live_not_dead _ _ Hl). apply Hd'. lia.
  - intros (i & Hi & Hl & _) Hall. destruct (live_not_dead _ _ Hl). auto.
  - intros Hall (i & Hi & Hl & _). destruct (live_not_dead _ _ Hl). auto.
  - done.
Qed.

(** Reading the candidate of the search gives the answer. *)
Lemma undisputed_index_correct {T : Config} (s : State) time m timestamp :
  st_oracle s = o -> ts_at o q m = Some time -> time < timestamp ->
  (forall j u, m < j -> ts_at o q j = Some u -> timestamp <= u) ->
  exists res, undisputed_index s q time m = Some res /\ latest_before o q timestamp res.
Proof.
  intros Ho Hm Hlt Hnext. unfold undisputed_index. rewrite Ho.
  fold (report_at o q time).
  destruct (wf_report _ _ _ Hwf _ _ Hm) as (r & Hr & Hri). rewrite Hr. simpl.
  destruct (rep_is_disputed r) eqn:Hd; simpl; eexists; (split; [reflexivity|]).
  - assert (Hdm : dead o q m) by (by exists time, r).
    pose proof (wf_previous _ _ _ Hwf _ _ Hr) as Hp. rewrite Hri in Hp.
    destruct (rep_previous r) as [t|]; simpl in *.
    + destruct Hp as (i & Hi & Hl & Hdead).
      destruct (wf_report _ _ _ Hwf _ _ (proj1 Hl)) as (r' & Hr' & Hri').
      fold (report_at o q t). rewrite Hr'. simpl. rewrite Hri'. exists t. repeat split.
      * apply Hl.
      * apply Hl.
      * destruct Hl as [Hl _]. pose proof (wf_increasing _ _ _ Hwf _ _ _ _ Hl Hm). lia.
      * intros j u Hij Hj Hu. destruct (Z.lt_total j m) as [?|[->|Hmj]]; [|done|].
        -- apply Hdead. lia.
        -- pose proof (Hnext _ _ Hmj Hj). lia.
    + intros i u Hi Hu. pose proof (ts_at_range _ _ Hi).
      destruct (Z.lt_total i m) as [?|[->|Hmi]]; [|done|].
      * apply Hp. lia.
      * pose proof (Hnext _ _ Hmi Hi). lia.
  - exists time. repeat split; [done|by exists r|done|].
    intros j u Hmj Hj Hu. pose proof (Hnext _ _ Hmj Hj). lia.
Qed.
End InvariantFacts.

(** ** The binary search *)

Section Search.
Context {T : Config} (s : State) (clock : Timestamp) (q : QueryId).
Context (Hwf : query_wf s clock q).
Abbreviation o := (st_oracle s).

(** The range of the search brackets the time searched for. *)
Definition brackets (timestamp : Timestamp) (start en : Z) : Prop :=
  exists a b, ts_at o q start = Some a /\ ts_at o q en = Some b /\
              a < timestamp <= b.

Lemma brackets_lt timestamp start en : brackets timestamp start en -> start < en.
Proof.
  intros (a & b & Ha & Hb & Hlt). apply (ts_at_lt_iff _ _ _ Hwf _ _ _ _ Ha Hb). lia.
Qed.

Lemma search_next_le m u timestamp : ts_at o q m = Some u -> timestamp <= u ->
  forall j v, m <= j -> ts_at o q j = Some v -> timestamp <= v.
Proof.
  intros Hm Hu j v Hmj Hj. destruct (Z.eq_dec m j) as [->|]; [congruence|].
  pose proof (wf_increasing _ _ _ Hwf _ _ _ _ Hm Hj ltac:(lia)). lia.
Qed.

(** One turn of the loop ends with the answer, or leaves a bracket of at most
    half the width. *)
Lemma search_before_step_correct timestamp start en :
  brackets timestamp start en ->
  (exists res, search_before_step s q timestamp start en = Some (Found res) /\
               latest_before o q timestamp res) \/
  (exists start' en', search_before_step s q timestamp start en = Some (Narrow start' en') /\
                      brackets timestamp start' en' /\ en' - start' <= (en - start) / 2).
Proof.
  intros Hb. pose proof (brackets_lt _ _ _ Hb) as Hlt.
  destruct Hb as (a & b & Ha & Hbb & Hab).
  pose proof (ts_at_range _ _ _ Hwf _ _ Ha). pose proof (ts_at_range _ _ _ Hwf _ _ Hbb).
  pose proof (wf_count _ _ _ Hwf) as Hcount.
  unfold search_before_step, checked_add, checked_sub, checked_div.
  remember (en - start) as d eqn:Hd. assert (0 <= d / 2 < d) by (split; [apply Z.div_pos|apply Z.div_lt]; lia).
  pose proof (Z.div_mod d 2 ltac:(lia)). pose proof (Z.mod_pos_bound d 2 ltac:(lia)).
  rewrite (checked_ok u32_max d) by lia. simpl.
  rewrite (checked_ok u32_max (d / 2 + 1)) by lia. simpl.
  rewrite (checked_ok u32_max (d / 2 + 1 + start)) by lia. simpl.
  remember (d / 2 + 1 + start) as m eqn:Hmd. assert (Hm : start < m <= en) by lia.
  destruct (wf_index _ _ _ Hwf m) as [_ [u Hu]]; [lia|].
  unfold ts_at in Hu. rewrite Hu. fold (ts_at o q m) in Hu. simpl.
  destruct (Z.ltb_spec u timestamp) as [Hut|Hut].
  - assert (Hme : m < en).
    { apply (ts_at_lt_iff _ _ _ Hwf _ _ _ _ Hu Hbb). lia. }
    unfold wrapping_add. rewrite Z.mod_small by lia.
    destruct (wf_index _ _ _ Hwf (m + 1)) as [_ [v Hv]]; [lia|].
    unfold ts_at in Hv. rewrite Hv. fold (ts_at o q (m + 1)) in Hv. simpl.
    destruct (Z.leb_spec timestamp v) as [Hv'|Hv'].
    + left. destruct (undisputed_index_correct _ _ _ Hwf s u m timestamp)
        as (res & Hres & Hlb); [done|done|done| |].
      { intros j w Hj. apply (search_next_le _ _ _ Hv Hv'). lia. }
      rewrite Hres. by exists res.
    + right. rewrite (checked_ok u32_max (m + 1)) by lia. simpl.
      exists (m + 1), en. repeat split; [|lia].
      exists v, b. repeat split; [done|done|lia|lia].
  - rewrite (checked_ok u32_max (m - 1)) by lia. simpl.
    destruct (wf_index _ _ _ Hwf (m - 1)) as [_ [v Hv]]; [lia|].
    unfold ts_at in Hv. rewrite Hv. fold (ts_at o q (m - 1)) in Hv. simpl.
    destruct (Z.ltb_spec v timestamp) as [Hv'|Hv'].
    + left. destruct (undisputed_index_correct _ _ _ Hwf s v (m - 1) timestamp)
        as (res & Hres & Hlb); [done|done|done| |].
      { intros j w Hj. apply (search_next_le _ _ _ Hu Hut). lia. }
      rewrite Hres. by exists res.
    + right. exists start, (m - 1). repeat split; [|lia].
      exists a, v. repeat split; [done|done|lia|lia].
Qed.

(** Fuel logarithmic in the width of the range is enough. *)
Lemma search_before_correct fuel timestamp start en it :
  brackets timestamp start en -> en - start < 2 ^ Z.of_nat fuel ->
  0 <= it -> it + Z.of_nat fuel <= u32_max ->
  exists res it', search_before fuel s q timestamp start en it = Some (res, it') /\
    latest_before o q timestamp res /\ it < it' <= it + Z.of_nat fuel.
Proof.
  revert start en it. induction fuel as [|fuel IH]; intros start en it Hb Hw Hit Hmax.
  - pose proof (brackets_lt _ _ _ Hb). simpl in Hw. lia.
  - simpl search_before. unfold saturating_add. rewrite Z.min_r by lia.
    destruct (search_before_step_correct _ _ _ Hb)
      as [(res & Hstep & Hres) | (start' & en' & Hstep & Hb' & Hhalf)]; rewrite Hstep.
    + exists res, (it + 1). split; [done|split; [done|lia]].
    + destruct (IH start' en' (it + 1) Hb') as (res & it' & Hr & Hl & Hi); [|lia|lia|].
      * rewrite Nat2Z.inj_succ, Z.pow_succ_r in Hw by lia.
        apply Z.le_lt_trans with ((en - start) / 2); [done|].
        apply Z.div_lt_upper_bound; lia.
      * exists res, it'. split; [done|split; [done|lia]].
Qed.

Lemma search_fuel_enough : u32_max < 2 ^ Z.of_nat search_fuel.
Proof. reflexivity. Qed.

(** The whole search, from index 0 as every caller starts it. *)
Lemma get_index_for_data_before_with_start_correct timestamp :
  let '(res, it) := get_index_for_data_before_with_start s q timestamp 0 in
  latest_before o q timestamp res /\ 0 <= it <= MAX_ITERATIONS.
Proof.
  unfold get_index_for_data_before_with_start.
  pose proof (wf_last _ _ _ Hwf) as Hlast.
  destruct (LastReportedTimestamp s !! q) as [lrt|] eqn:Hlrt.
  2: { split; [|done]. intros i u Hi _. apply Hlast. by eapply ts_at_range. }
  destruct Hlast as (i & Hi & [Hti (r & Hr & Hlive)] & Hdead).
  destruct (wf_report _ _ _ Hwf _ _ Hti) as (r' & Hr' & Hri).
  assert (r' = r) as -> by congruence.
  fold (ts_at o q 0). destruct (wf_index _ _ _ Hwf 0) as [_ [t0 Ht0]]; [lia|].
  rewrite Ht0. destruct (Z.leb_spec timestamp t0) as [H0|H0].
  { split; [|done]. intros j u Hj Hu. pose proof (ts_at_range _ _ _ Hwf _ _ Hj).
    pose proof (search_next_le _ _ _ Ht0 H0 j u ltac:(lia) Hj). lia. }
  fold (report_at o q lrt). rewrite Hr.
  destruct (Z.ltb_spec lrt timestamp) as [H1|H1].
  - split; [|done]. exists lrt. rewrite Hri. repeat split; [done|by exists r|done|].
    intros j u Hij Hj _. apply Hdead. pose proof (ts_at_range _ _ _ Hwf _ _ Hj). lia.
  - destruct (search_before_correct search_fuel timestamp 0 (rep_index r) 0)
      as (res & it & Hs & Hl & Hit).
    + exists t0, lrt. rewrite Hri. auto with lia.
    + pose proof search_fuel_enough. pose proof (wf_count _ _ _ Hwf). lia.
    + lia.
    + done.
    + rewrite Hs. simpl. split; [done|]. change (Z.of_nat search_fuel) with MAX_ITERATIONS in Hit.
      lia.
Qed.
End Search.

(** ** Preservation, on the storage of one query *)

Section Preservation.
Implicit Types (o : OracleStore) (q : QueryId) (i k : Z) (t clock : Timestamp).

(** What the invariant of a query reads of the storage. *)
Definition same_query o o' q : Prop :=
  report_count o' q = report_count o q /\
  (forall i, ts_at o' q i = ts_at o q i) /\
  (forall t, report_at o' q t = report_at o q t) /\
  LastReportedTimestamp o' !! q = LastReportedTimestamp o !! q /\
  (forall t, ReportedValuesByTimestamp o' !! (q, t) = ReportedValuesByTimestamp o !! (q, t)).

Lemma dead_ext o o' q i :
  (forall i, ts_at o' q i = ts_at o q i) ->
  (forall t r, report_at o q t = Some r ->
     exists r', report_at o' q t = Some r' /\ rep_is_disputed r' = rep_is_disputed r) ->
  dead o q i -> dead o' q i.
Proof.
  intros Ht Hr (t & r & Hi & Hrt & Hd). destruct (Hr _ _ Hrt) as (r' & ? & ?).
  exists t, r'. rewrite Ht. repeat split; congruence.
Qed.

Lemma live_ext o o' q i t :
  (forall i, ts_at o' q i = ts_at o q i) ->
  (forall t r, report_at o q t = Some r ->
     exists r', report_at o' q t = Some r' /\ rep_is_disputed r' = rep_is_disputed r) ->
  live o q i t -> live o' q i t.
Proof.
  intros Ht Hr (Hi & r & Hrt & Hd). destruct (Hr _ _ Hrt) as (r' & ? & ?).
  split; [by rewrite Ht|]. exists r'. split; congruence.
Qed.

(** [last_live] only depends on the reports below the index. *)
Lemma last_live_ext o o' q k p :
  (forall i t, 0 <= i < k -> live o q i t -> live o' q i t) ->
  (forall i, 0 <= i < k -> dead o q i -> dead o' q i) ->
  last_live o q k p -> last_live o' q k p.
Proof.
  intros Hl Hd. destruct p as [t|]; simpl; [|by auto].
  intros (i & Hi & Hli & Hj). exists i. split; [done|]. split; [by apply Hl|].
  intros j Hij. apply Hd; [lia|]. by apply Hj.
Qed.

Lemma query_wf_ext o o' clock q :
  same_query o o' q -> query_wf o clock q -> query_wf o' clock q.
Proof.
  intros (Hc & Ht & Hr & Hl & Hv) Hwf.
  assert (Hdis : forall t r, report_at o q t = Some r ->
    exists r', report_at o' q t = Some r' /\ rep_is_disputed r' = rep_is_disputed r).
  { intros t r Htr. exists r. by rewrite Hr. }
  assert (Hlast : forall k p, last_live o q k p -> last_live o' q k p).
  { intros k p. apply last_live_ext.
    - intros i t _. by apply live_ext.
    - intros i _. by apply dead_ext. }
  destruct Hwf. split.
  - by rewrite Hc.
  - intros i. rewrite Ht, Hc. done.
  - intros i t. rewrite Ht, Hr. auto.
  - intros t r. rewrite Hr, Ht. auto.
  - intros i j t t'. rewrite !Ht. eauto.
  - intros i t. rewrite Ht. eauto.
  - intros t r. rewrite Hr. eauto.
  - rewrite Hc, Hl. auto.
  - intros t. rewrite Hv, Hr. done.
Qed.

Lemma query_wf_clock o clock clock' q :
  clock <= clock' -> query_wf o clock q -> query_wf o clock' q.
Proof.
  intros Hle Hwf. destruct Hwf; split; auto.
  intros i t Hi. destruct (wf_time0 _ _ Hi). lia.
Qed.

(** *** A new report *)

Section Push.
Context (o o' : OracleStore) (clock : Timestamp) (q : QueryId) (rnew : Report) (v : Value).
Context (Hwf : query_wf o clock q) (Hclock : 0 <= clock).
Abbreviation n := (report_count o q).
Context (Hroom : n < u32_max).
Context (Hfresh : report_at o q clock = None).
Context (Hcount' : report_count o' q = n + 1).
Context (Hts' : forall i, ts_at o' q i = if decide (i = n) then Some clock else ts_at o q i).
Context (Hrep' : forall t, report_at o' q t =
  if decide (t = clock) then Some rnew else report_at o q t).
Context (Hlrt' : LastReportedTimestamp o' !! q = Some clock).
Context (Hval' : forall t, ReportedValuesByTimestamp o' !! (q, t) =
  if decide (t = clock) then Some v else ReportedValuesByTimestamp o !! (q, t)).
Context (Hidx : rep_index rnew = n) (Hdis : rep_is_disputed rnew = false).
Context (Hprev : rep_previous rnew = LastReportedTimestamp o !! q).

Lemma push_before i t : ts_at o q i = Some t -> t < clock.
Proof.
  intros Hi. destruct (wf_report _ _ _ Hwf _ _ Hi) as (r & Hr & _).
  pose proof (wf_time _ _ _ Hwf _ _ Hi).
  destruct (Z.eq_dec t clock) as [->|]; [congruence|lia].
Qed.

Lemma push_last_live k p : k <= n -> last_live o q k p -> last_live o' q k p.
Proof.
  intros Hk. apply last_live_ext.
  - intros i t Hi (Hti & r & Hr & Hd). split.
    + rewrite Hts'. by rewrite decide_False by lia.
    + exists r. rewrite Hrep', decide_False; [done|]. apply push_before in Hti. lia.
  - intros i Hi (t & r & Hti & Hr & Hd). exists t, r. split_and!; [| |done].
    + rewrite Hts'. by rewrite decide_False by lia.
    + rewrite Hrep', decide_False; [done|]. apply push_before in Hti. lia.
Qed.

Lemma query_wf_push : query_wf o' clock q.
Proof.
  pose proof (wf_count _ _ _ Hwf) as Hc. split.
  - lia.
  - intros i. rewrite Hts', Hcount'. case_decide.
    + split; [lia|by eexists].
    + rewrite (wf_index _ _ _ Hwf). lia.
  - intros i t. rewrite Hts', Hrep'. case_decide; intros Ht.
    + injection Ht as <-. rewrite decide_True by done. exists rnew. by subst i.
    + rewrite decide_False; [by apply (wf_report _ _ _ Hwf)|].
      apply push_before in Ht. lia.
  - intros t r. rewrite Hrep', Hts'. case_decide; intros Hr.
    + injection Hr as <-. rewrite decide_True by done. congruence.
    + apply (wf_at _ _ _ Hwf) in Hr. rewrite decide_False; [done|].
      apply (ts_at_range _ _ _ Hwf) in Hr. lia.
  - intros i j t t'. rewrite !Hts'. intros Hi Hj Hij.
    case_decide; case_decide.
    + lia.
    + injection Hj as <-. by apply push_before in Hi.
    + apply (ts_at_range _ _ _ Hwf) in Hj. lia.
    + by apply (wf_increasing _ _ _ Hwf i j).
  - intros i t. rewrite Hts'. case_decide; intros Ht; [injection Ht as <-; lia|].
    by apply (wf_time _ _ _ Hwf) in Ht.
  - intros t r. rewrite Hrep'. case_decide; intros Hr.
    + injection Hr as <-. rewrite Hidx, Hprev. apply push_last_live; [done|]. apply (wf_last _ _ _ Hwf).
    + apply push_last_live; [|by eapply wf_previous].
      apply (wf_at _ _ _ Hwf), (ts_at_range _ _ _ Hwf) in Hr. lia.
  - rewrite Hcount', Hlrt'. exists n. split; [lia|]. split; [split|].
    + rewrite Hts'. by rewrite decide_True.
    + exists rnew. rewrite Hrep'. by rewrite decide_True.
    + intros j Hj. lia.
  - intros t. rewrite Hval', Hrep'. case_decide; [|by apply (wf_value _ _ _ Hwf)].
    split; [by exists rnew|by eexists].
Qed.
End Push.

(** *** A removed value *)

(** What the removal at [ts] does to the other reports: a pointer to [ts]
    becomes a pointer to [p]. *)
Definition relink (ts : Timestamp) (p : option Timestamp) (r : Report) : Report :=
  if decide (rep_previous r = Some ts) then set_rep_previous p r else r.

Lemma relink_index ts p r : rep_index (relink ts p r) = rep_index r.
Proof. unfold relink. by case_decide. Qed.
Lemma relink_disputed ts p r : rep_is_disputed (relink ts p r) = rep_is_disputed r.
Proof. unfold relink. by case_decide. Qed.
Lemma relink_previous ts p r :
  rep_previous (relink ts p r) =
  if decide (rep_previous r = Some ts) then p else rep_previous r.
Proof. unfold relink. by case_decide. Qed.

Section Remove.
Context (o o' : OracleStore) (clock : Timestamp) (q : QueryId) (ts : Timestamp) (r : Report).
Context (Hwf : query_wf o clock q).
Context (Hr : report_at o q ts = Some r) (Hlive : rep_is_disputed r = false).
Context (Hcount' : report_count o' q = report_count o q).
Context (Hts' : forall i, ts_at o' q i = ts_at o q i).
Context (Hrep' : forall t, report_at o' q t =
  if decide (t = ts) then Some (set_rep_is_disputed true r)
  else relink ts (rep_previous r) <$> report_at o q t).
Context (Hlrt' : LastReportedTimestamp o' !! q =
  if decide (LastReportedTimestamp o !! q = Some ts) then rep_previous r
  else LastReportedTimestamp o !! q).
Context (Hval' : forall t, ReportedValuesByTimestamp o' !! (q, t) =
  if decide (t = ts) then None else ReportedValuesByTimestamp o !! (q, t)).

Lemma remove_live j t : t <> ts -> live o q j t -> live o' q j t.
Proof.
  intros Hne (Hj & r' & Hr' & Hd). split; [by rewrite Hts'|].
  exists (relink ts (rep_previous r) r'). rewrite Hrep', decide_False, Hr' by done.
  split; [done|]. by rewrite relink_disputed.
Qed.

Lemma remove_dead j : dead o q j -> dead o' q j.
Proof.
  intros (t & r' & Hj & Hr' & Hd). assert (t <> ts) by congruence.
  exists t, (relink ts (rep_previous r) r').
  rewrite Hts', Hrep', decide_False, Hr' by done. by rewrite relink_disputed.
Qed.

Lemma remove_dead_at : dead o' q (rep_index r).
Proof.
  exists ts, (set_rep_is_disputed true r). rewrite Hts', Hrep', decide_True by done.
  split_and!; [|done..]. by apply (wf_at _ _ _ Hwf).
Qed.

Lemma remove_last_live k p :
  last_live o q k p ->
  last_live o' q k (if decide (p = Some ts) then rep_previous r else p).
Proof.
  intros Hp. pose proof (wf_at _ _ _ Hwf _ _ Hr) as Hat.
  assert (Hlv : live o q (rep_index r) ts) by (split; [done|by exists r]).
  destruct (decide (p = Some ts)) as [Heq|Heq]; [subst p; simpl in Hp|].
  - destruct Hp as (i & Hi & [Hti _] & Hdead).
    assert (i = rep_index r) as ->.
    { destruct (wf_report _ _ _ Hwf _ _ Hti) as (r' & ? & ?). congruence. }
    pose proof (wf_previous _ _ _ Hwf _ _ Hr) as Hprev.
    assert (Hd : forall j, rep_index r <= j < k -> dead o' q j).
    { intros j Hj. destruct (Z.eq_dec j (rep_index r)) as [->|]; [apply remove_dead_at|].
      apply remove_dead, Hdead. lia. }
    revert Hprev. generalize (rep_previous r). intros [t|] Hprev; simpl in Hprev |- *.
    + destruct Hprev as (j & Hj & Hl & Hjd). exists j. split; [lia|]. split.
      * apply remove_live; [|done]. intros Hte. destruct Hl as [Hl _]. rewrite Hte in Hl.
        pose proof (wf_increasing _ _ _ Hwf _ _ _ _ Hl Hat). lia.
      * intros l Hl'. destruct (decide (l < rep_index r)); [|apply Hd; lia].
        apply remove_dead, Hjd. lia.
    + intros l Hl'. destruct (decide (l < rep_index r)); [|apply Hd; lia].
      apply remove_dead, Hprev. lia.
  - destruct p as [t|]; simpl in Hp |- *; [|intros j Hj; by apply remove_dead, Hp].
    destruct Hp as (j & Hj & Hl & Hdead). exists j. split; [done|]. split.
    + apply remove_live; [congruence|done].
    + intros l Hl'. apply remove_dead. by apply Hdead.
Qed.

Lemma query_wf_remove : query_wf o' clock q.
Proof.
  split.
  - rewrite Hcount'. apply Hwf.
  - intros i. rewrite Hts', Hcount'. apply Hwf.
  - intros i t. rewrite Hts', Hrep'. intros Ht.
    destruct (wf_report _ _ _ Hwf _ _ Ht) as (r' & Hr' & Hi). destruct (decide (t = ts)) as [Heq|Heq].
    + rewrite Heq in Hr'. eexists. split; [done|]. simpl. congruence.
    + rewrite Hr'. eexists. split; [done|]. by rewrite relink_index.
  - intros t r'. rewrite Hrep', Hts'. destruct (decide (t = ts)) as [Heq|Heq]; intros Hr'.
    + injection Hr' as <-. rewrite Heq. exact (wf_at _ _ _ Hwf _ _ Hr).
    + apply fmap_Some_1 in Hr' as (r0 & Hr0 & ->). rewrite relink_index.
      by apply (wf_at _ _ _ Hwf).
  - intros i j t t'. rewrite !Hts'. apply Hwf.
  - intros i t. rewrite Hts'. apply Hwf.
  - intros t r'. rewrite Hrep'. destruct (decide (t = ts)) as [Heq|Heq]; intros Hr'.
    + injection Hr' as <-. simpl. pose proof (wf_previous _ _ _ Hwf _ _ Hr) as Hp.
      pose proof (remove_last_live _ _ Hp) as Hp'. rewrite decide_False in Hp'; [done|].
      intros Hts. rewrite Hts in Hp. simpl in Hp. destruct Hp as (i & Hi & [Hti _] & _).
      pose proof (wf_at _ _ _ Hwf _ _ Hr) as Hat.
      pose proof (wf_increasing _ _ _ Hwf _ _ _ _ Hti Hat). lia.
    + apply fmap_Some_1 in Hr' as (r0 & Hr0 & ->). rewrite relink_index, relink_previous.
      apply remove_last_live. by eapply wf_previous.
  - rewrite Hcount', Hlrt'. apply remove_last_live, Hwf.
  - intros t. rewrite Hval', Hrep'. destruct (decide (t = ts)) as [Heq|Heq].
    + split; [by intros []|]. intros (r' & [= <-] & Hd). done.
    + rewrite (wf_value _ _ _ Hwf). split.
      * intros (r' & -> & Hd). eexists. split; [done|]. by rewrite relink_disputed.
      * intros (r' & Hr' & Hd). apply fmap_Some_1 in Hr' as (r0 & Hr0 & ->).
        exists r0. by rewrite relink_disputed in Hd.
Qed.
End Remove.
End Preservation.

(** ** The operations *)

Section Operations.
Context {T : Config} {HT : ConfigOk T}.
Implicit Types s : State.

Section Loop.
Context (o : OracleStore) (clock : Timestamp) (q : QueryId) (ts : Timestamp) (r : Report).
Context (Hwf : query_wf o clock q).
Context (Hr : report_at o q ts = Some r) (Hlive : rep_is_disputed r = false).
Abbreviation p := (rep_previous r).

(** The reports once those with an index below [idx] have been processed. *)
Definition relinked (idx : Z) (R : gmap (QueryId * Timestamp) Report) : Prop :=
  forall q' t, R !! (q', t) =
    if decide (q' = q)
    then (fun r' => if decide (rep_index r' < idx) then relink ts p r' else r')
           <$> report_at o q t
    else Reports o !! (q', t).

(** A report beyond a valid one does not point at the removed one. *)
Lemma relink_past t r' idx :
  report_at o q t = Some r' -> rep_index r < idx < rep_index r' ->
  ~ dead o q idx -> relink ts p r' = r'.
Proof.
  intros Hr' Hidx Hnd. unfold relink. rewrite decide_False; [done|].
  intros Hp. pose proof (wf_previous _ _ _ Hwf _ _ Hr') as Hprev. rewrite Hp in Hprev.
  destruct Hprev as (i & Hi & [Hti _] & Hdead).
  destruct (wf_report _ _ _ Hwf _ _ Hti) as (r0 & Hr0 & Hri).
  assert (r0 = r) as -> by congruence. apply Hnd, Hdead. lia.
Qed.

Lemma relink_before t r' :
  report_at o q t = Some r' -> rep_index r' <= rep_index r -> relink ts p r' = r'.
Proof.
  intros Hr' Hle. unfold relink. rewrite decide_False; [done|].
  intros Hp. pose proof (wf_previous _ _ _ Hwf _ _ Hr') as Hprev. rewrite Hp in Hprev.
  destruct Hprev as (i & Hi & [Hti _] & _).
  destruct (wf_report _ _ _ Hwf _ _ Hti) as (r0 & Hr0 & Hri).
  assert (r0 = r) as -> by congruence. lia.
Qed.

(** The report the loop reaches points at the removed one. *)
Lemma relink_at t r' :
  report_at o q t = Some r' -> rep_index r < rep_index r' ->
  (forall j, rep_index r < j < rep_index r' -> dead o q j) ->
  relink ts p r' = set_rep_previous p r'.
Proof.
  intros Hr' Hlt Hdead. unfold relink. rewrite decide_True; [done|].
  apply (last_live_unique o q (rep_index r')).
  - by eapply wf_previous.
  - exists (rep_index r). pose proof (wf_at _ _ _ Hwf _ _ Hr).
    apply (wf_at _ _ _ Hwf), (ts_at_range _ _ _ Hwf) in Hr' as ?.
    pose proof (ts_at_range _ _ _ Hwf _ _ H). split; [lia|]. split; [|done].
    split; [done|]. by exists r.
Qed.

Lemma relinked_done idx R :
  relinked idx R -> rep_index r < idx ->
  (forall t r', report_at o q t = Some r' -> idx <= rep_index r' -> relink ts p r' = r') ->
  forall q' t, R !! (q', t) =
    if decide (q' = q) then relink ts p <$> report_at o q t else Reports o !! (q', t).
Proof.
  intros HR Hidx Hpast q' t. rewrite HR. case_decide; [|done].
  destruct (report_at o q t) as [r'|] eqn:Hr'; simpl; [|done]. f_equal.
  case_decide; [done|]. symmetry. apply Hpast with t; [done|lia].
Qed.

Lemma relinked_step idx R t r' :
  relinked idx R -> report_at o q t = Some r' -> rep_index r' = idx ->
  relink ts p r' = set_rep_previous p r' ->
  relinked (idx + 1) (<[(q, t) := set_rep_previous p r']> R).
Proof.
  intros HR Hr' Hi Hrel q' u. destruct (decide ((q, t) = (q', u))) as [[= <- <-]|Hne].
  - rewrite lookup_insert_eq, decide_True, Hr' by done. simpl.
    rewrite decide_True by lia. by rewrite Hrel.
  - rewrite lookup_insert_ne by done. rewrite HR. case_decide as Hq; [|done]. subst q'.
    destruct (report_at o q u) as [r0|] eqn:Hr0; simpl; [|done]. f_equal.
    assert (rep_index r0 <> idx).
    { intros Heq. apply (wf_at _ _ _ Hwf) in Hr0. apply (wf_at _ _ _ Hwf) in Hr'.
      rewrite Heq in Hr0. rewrite Hi in Hr'. congruence. }
    repeat case_decide; done || lia.
Qed.

Lemma remove_value_loop_spec len : forall idx it s it' s',
  rep_index r < idx -> (forall j, rep_index r < j < idx -> dead o q j) ->
  ReportedTimestampsByIndex s = ReportedTimestampsByIndex o ->
  relinked idx (Reports s) ->
  0 <= it <= MaxDisputedTimeSeries ->
  (MaxDisputedTimeSeries < u32_max /\ MaxDisputedTimeSeries < it + Z.of_nat len) \/
    u32_max < idx + Z.of_nat len ->
  remove_value_loop q p (seqZ idx (Z.of_nat len)) it s = (Ok it', s') ->
  s' = upd_Reports (fun _ => Reports s') s /\
  forall q' t, Reports s' !! (q', t) =
    if decide (q' = q) then relink ts p <$> report_at o q t else Reports o !! (q', t).
Proof.
  pose proof (MaxDisputedTimeSeries_u32 (ConfigOk := HT)) as HMax.
  pose proof (wf_count _ _ _ Hwf) as Hcount.
  pose proof (ts_at_range _ _ _ Hwf _ _ (wf_at _ _ _ Hwf _ _ Hr)) as Hri0.
  induction len as [|len IH]; intros idx it s it' s' Hidx Hdead Hts HR Hit Hlen Hrun.
  - simpl in Hrun. cinv. split; [by destruct s as [[] ? ? ? ?]|].
    apply relinked_done with idx; [done..|]. intros t r' Hr' Hle.
    apply (wf_at _ _ _ Hwf), (ts_at_range _ _ _ Hwf) in Hr'. lia.
  - rewrite seqZ_cons in Hrun by lia. cbn [remove_value_loop] in Hrun.
    set (it1 := saturating_add u32_max it 1) in Hrun.
    destruct (Z.ltb_spec MaxDisputedTimeSeries it1) as [Hmax|Hmax]; [by cinv|].
    unfold_calls. rewrite bind_gets in Hrun. cbv beta in Hrun. rewrite Hts in Hrun.
    fold (ts_at o q idx) in Hrun.
    destruct (ts_at o q idx) as [t|] eqn:Ht.
    2: { minv. split; [by destruct s as [[] ? ? ? ?]|].
         apply relinked_done with idx; [done..|]. intros t r' Hr' Hle.
         apply (wf_at _ _ _ Hwf), (ts_at_range _ _ _ Hwf) in Hr'.
         destruct (wf_index _ _ _ Hwf idx) as [_ [? Hx]]; [lia|congruence]. }
    destruct (wf_report _ _ _ Hwf _ _ Ht) as (r' & Hr' & Hri).
    rewrite bind_gets in Hrun. cbv beta in Hrun. rewrite HR, decide_True, Hr' in Hrun by done.
    simpl in Hrun. rewrite decide_False in Hrun by lia.
    rewrite bind_ret, bind_modify in Hrun.
    assert (Hrel : relink ts p r' = set_rep_previous p r').
    { apply relink_at with t; [done|lia|by rewrite Hri]. }
    pose proof (relinked_step _ _ _ _ HR Hr' Hri Hrel) as HR'.
    simpl in Hrun. destruct (rep_is_disputed r') eqn:Hd; simpl in Hrun.
    + replace (Z.succ idx) with (idx + 1) in Hrun by lia.
      replace (Z.pred (Z.of_nat (S len))) with (Z.of_nat len) in Hrun by lia.
      unfold it1, saturating_add in *.
      eapply IH in Hrun as [Hs' HR'']; [by split; [rewrite Hs'|]|lia| |done|done|lia|lia].
      intros j Hj. destruct (decide (j = idx)) as [->|]; [by exists t, r'|].
      apply Hdead. lia.
    + apply ret_Ok in Hrun as [_ ->]. split; [done|]. apply relinked_done with (idx + 1); [done|lia|].
      intros u r0 Hr0 Hle. apply relink_past with u idx; [done|lia|].
      intros (u' & r1 & ? & ? & ?). congruence.
Qed.
End Loop.

(** What a successful removal at [ts] does to the oracle's storage. *)
Record removed (o o' : OracleStore) (q : QueryId) (ts : Timestamp) (r : Report) : Prop := {
  rm_report : report_at o q ts = Some r;
  rm_live : rep_is_disputed r = false;
  rm_count : ReportedTimestampCount o' = ReportedTimestampCount o;
  rm_ts : ReportedTimestampsByIndex o' = ReportedTimestampsByIndex o;
  rm_reports : forall q' t, Reports o' !! (q', t) =
    if decide (q' = q)
    then if decide (t = ts) then Some (set_rep_is_disputed true r)
         else relink ts (rep_previous r) <$> report_at o q t
    else Reports o !! (q', t);
  rm_last : forall q', LastReportedTimestamp o' !! q' =
    if decide (q' = q /\ LastReportedTimestamp o !! q = Some ts) then rep_previous r
    else LastReportedTimestamp o !! q';
  rm_values : ReportedValuesByTimestamp o' = delete (q, ts) (ReportedValuesByTimestamp o);
}.

(** The update of [LastReportedTimestamp] by [remove_value]. *)
Lemma update_last_Ok (b : bool) (f : gmap QueryId Timestamp -> gmap QueryId Timestamp) s u s' :
  (if b then modify (upd_LastReportedTimestamp f) else ret (E:=DispatchError) tt) s = (Ok u, s') ->
  s' = upd_LastReportedTimestamp (if b then f else id) s.
Proof. destruct b; intros; minv; [done|]. by destruct s as [[] ? ? ? ?]. Qed.

Lemma remove_value_Ok q ts clock s it s' :
  query_wf s clock q ->
  remove_value q ts s = (Ok it, s') ->
  exists r, removed s s' q ts r /\
    st_staking s' = st_staking s /\ st_governance s' = st_governance s /\
    st_autopay s' = st_autopay s /\ sys_now s' = sys_now s /\
    sys_assets s' = sys_assets s.
Proof.
  intros Hwf Hrun. unfold remove_value in Hrun. cinv.
  rename a0 into r, a6 into start, H2 into Hr.
  apply update_last_Ok in Hr5 as ->. apply negb_true_iff in H0.
  apply checked_add_Some in H1 as [-> Hrange].
  change (rep_index (set_rep_is_disputed true r)) with (rep_index r) in *.
  change (rep_previous (set_rep_is_disputed true r)) with (rep_previous r) in *.
  pose proof (MaxDisputedTimeSeries_u32 (ConfigOk := HT)) as HMax.
  set (len := saturating_add u32_max (rep_index r + 1) MaxDisputedTimeSeries
              - (rep_index r + 1) + 1) in Hr7.
  assert (Hlen : Z.of_nat (Z.to_nat len) = len).
  { apply Z2Nat.id. unfold len, saturating_add. lia. }
  rewrite <- Hlen in Hr7.
  apply (remove_value_loop_spec (st_oracle s) clock q ts r Hwf Hr H0) in Hr7
    as [Hs8 Hrep]; [|lia|lia|done| |lia|].
  - exists r. rewrite Hs8. split; [|done]. split; [done|done|done|done| | |done].
    + intros q' t. simpl. destruct (decide ((q, ts) = (q', t))) as [[= <- <-]|Hne].
      * by rewrite lookup_insert_eq, !decide_True.
      * rewrite lookup_insert_ne, Hrep by done.
        destruct (decide (q' = q)) as [->|]; [by rewrite decide_False by congruence|done].
    + intros q'. simpl. case_bool_decide as Hb.
      * destruct (decide (q' = q)) as [->|Hne].
        -- by rewrite lookup_partial_alter_eq, decide_True.
        -- rewrite lookup_partial_alter_ne by done. rewrite decide_False; [done|].
           by intros [? _].
      * simpl. rewrite decide_False; [done|]. intros [_ ?]. done.
  - intros q' t. simpl. destruct (decide (q' = q)) as [->|]; [|done]. unfold report_at.
    destruct (Reports s !! (q, t)) as [r'|] eqn:Hr'; [|done]. simpl. f_equal.
    destruct (decide (rep_index r' < rep_index r + 1)); [|done].
    symmetry. apply (relink_before s clock q ts r Hwf Hr t); [done|lia].
  - rewrite Hlen. unfold len, saturating_add. lia.
Qed.

(** *** The invariant is preserved *)

Lemma removed_wf o o' q ts r clock :
  removed o o' q ts r -> oracle_wf o clock -> oracle_wf o' clock.
Proof.
  intros [Hr Hlive Hc Ht Hrep Hl Hv] Hwf q'.
  destruct (decide (q' = q)) as [->|Hne].
  - apply (query_wf_remove o o' clock q ts r (Hwf q) Hr Hlive).
    + unfold report_count. by rewrite Hc.
    + intros i. unfold ts_at. by rewrite Ht.
    + intros t. unfold report_at. by rewrite Hrep, decide_True.
    + rewrite Hl. repeat goal_decide; tauto.
    + intros t. rewrite Hv. goal_decide; [subst t; apply lookup_delete_eq|].
      apply lookup_delete_ne. congruence.
  - apply (query_wf_ext o); [|apply Hwf]. split_and!.
    + unfold report_count. by rewrite Hc.
    + intros i. unfold ts_at. by rewrite Ht.
    + intros t. unfold report_at. by rewrite Hrep, decide_False.
    + rewrite Hl, decide_False; [done|]. by intros [? _].
    + intros t. rewrite Hv. apply lookup_delete_ne. congruence.
Qed.

Lemma remove_value_wf q ts clock s it s' :
  oracle_wf s clock -> remove_value q ts s = (Ok it, s') -> oracle_wf s' clock.
Proof.
  intros Hwf Hrun. destruct (remove_value_Ok q ts clock s it s' (Hwf q) Hrun) as (r & Hrm & _).
  by eapply removed_wf.
Qed.

(** The lock a staker has to wait out between two reports, in milliseconds:
    [REPORTING_LOCK] divided by the number of stakes held. *)
Definition lock_ms (st : StakeInfo) (stake_amount : Tributes) : Z :=
  REPORTING_LOCK * 1000 / (stk_staked_balance st / stake_amount).

(** The conditions under which a report is accepted, and its effect. *)
Record submitted (s s' : State) (who : AccountId) (q : QueryId) (v : Value) (n : Nonce)
    (qd : QueryDataBytes) (st : StakeInfo) : Prop := {
  sb_value : v <> [];
  sb_nonce : n = report_count s q \/ n = 0;
  sb_staker : StakerDetails s !! who = Some st;
  sb_stake : StakeAmount s <= stk_staked_balance st;
  sb_last : stk_reporter_last_timestamp st <= sys_now s;
  sb_stakes : StakeAmount s <> 0 /\ stk_staked_balance st / StakeAmount s <> 0;
  sb_lock : lock_ms st (StakeAmount s) < (sys_now s - stk_reporter_last_timestamp st) * 1000;
  sb_hash : q = keccak256 qd;
  sb_fresh : report_at s q (sys_now s) = None;
  sb_effect : s' =
    upd_sys_events (cons (NewReport q (sys_now s) v n qd who))
   (upd_StakerDetails <[who :=
      set_stk_reports_submitted (saturating_add u32_max (stk_reports_submitted st) 1)
        (set_stk_reporter_last_timestamp (sys_now s) st)]>
   (upd_StakerReportsSubmittedByQueryId <[(who, q) :=
      saturating_add u32_max (value_or_zero (StakerReportsSubmittedByQueryId s) (who, q)) 1]>
   (upd_TimeOfLastNewValue (fun _ => Some (sys_now s))
   (upd_ReportedValuesByTimestamp <[(q, sys_now s) := v]>
   (upd_LastReportedTimestamp <[q := sys_now s]>
   (upd_Reports <[(q, sys_now s) :=
      {| rep_index := report_count s q; rep_block_number := sys_block_number s;
         rep_reporter := who; rep_is_disputed := false;
         rep_previous := LastReportedTimestamp s !! q |}]>
   (upd_ReportedTimestampsByIndex <[(q, report_count s q) := sys_now s]>
   (upd_ReportedTimestampCount <[q := saturating_add u32_max (report_count s q) 1]> s))))))))
}.

Lemma submit_value_Ok origin q v n qd s s' u :
  submit_value origin q v n qd s = (Ok u, s') ->
  exists who st, origin = Signed who /\ submitted s s' who q v n qd st.
Proof.
  intros Hrun. unfold submit_value in Hrun. cinv. conditions. subst.
  eexists _, _. split; [done|]. split; try done.
  - by destruct v.
  - match goal with H : _ \/ _ |- _ => destruct H as [H|H]; conditions; auto end.
  - lia.
Qed.

(** *** The invariant is preserved *)

Lemma submit_value_wf origin q v n qd s s' u :
  oracle_wf s (sys_now s) -> 0 <= sys_now s -> report_count s q < u32_max ->
  submit_value origin q v n qd s = (Ok u, s') ->
  oracle_wf s' (sys_now s').
Proof.
  intros Hwf Hnow Hroom Hrun.
  apply submit_value_Ok in Hrun as (who & st & _ & [_ _ _ _ _ _ _ _ Hfresh Heff]).
  pose proof (wf_count _ _ _ (Hwf q)) as Hcount.
  rewrite Heff. simpl. intros q'. destruct (decide (q' = q)) as [->|Hne].
  - eapply (query_wf_push s); try done.
    + unfold report_count at 1, value_or_zero. simpl. rewrite lookup_insert_eq. simpl.
      unfold saturating_add. lia.
    + intros i. unfold ts_at. simpl. goal_decide; subst.
      * by rewrite lookup_insert_eq.
      * rewrite lookup_insert_ne; [done|congruence].
    + intros t. unfold report_at. simpl. goal_decide; subst.
      * by rewrite lookup_insert_eq.
      * rewrite lookup_insert_ne; [done|congruence].
    + simpl. apply lookup_insert_eq.
    + intros t. simpl. goal_decide; subst.
      * by rewrite lookup_insert_eq.
      * rewrite lookup_insert_ne; [done|congruence].
    + done.
    + done.
    + done.
  - apply (query_wf_ext s); [|apply Hwf]. split_and!.
    + unfold report_count, value_or_zero. simpl. by rewrite lookup_insert_ne.
    + intros i. unfold ts_at. simpl. rewrite lookup_insert_ne; [done|congruence].
    + intros t. unfold report_at. simpl. rewrite lookup_insert_ne; [done|congruence].
    + simpl. by rewrite lookup_insert_ne.
    + intros t. simpl. rewrite lookup_insert_ne; [done|congruence].
Qed.

End Operations.
