(* ===== verification/Mock.v ===== *)
(** * The mock runtime

    The configuration of [src/src/mock.rs], as an instance of [Config]: it shows
    that the hypotheses of the development can hold together, and the witnesses
    compute with it.  The asset is a ledger with an existential deposit of 1,
    as the balances pallet is configured there; the arguments of contracts are encoded as
    [Abi] does; the hash and the other encoders are stand-ins; the price query ids are
    the hashes of the price queries, as they are there. *)

From S2P Require Import Prelude Types Keccak Abi Weights Config Storage.

(** ** A ledger *)

Definition ledger_balance (st : gmap AccountId Z) (a : AccountId) : Z :=
  Z.max 0 (Z.min u128_max (default 0 (st !! a))).

Definition ledger_transfer (st : gmap AccountId Z) (src dst : AccountId) (amt : Z)
    (p : Preservation) : Z + gmap AccountId Z :=
  if bool_decide (src = dst) then inr st
  else if amt <? 0 then inl 0
  else if amt =? 0 then inr st
  else if ledger_balance st src <? amt then inl 1
  else if u128_max <? ledger_balance st dst + amt then inl 2
  else if match p with Expendable => false | _ => ledger_balance st src - amt <? 1 end
  then inl 3
  else inr (<[dst := ledger_balance st dst + amt]>
             (<[src := ledger_balance st src - amt]> st)).

Definition MockAsset : Asset := {|
  AssetState := gmap AccountId Z;
  asset_balance := ledger_balance;
  minimum_balance := 1;
  asset_transfer := ledger_transfer;
|}.

Section LedgerLaws.
Implicit Types st : gmap AccountId Z.

Lemma ledger_balance_range st a : 0 <= ledger_balance st a <= u128_max.
Proof. unfold ledger_balance. zlia. Qed.

Lemma ledger_balance_insert st a b v : 0 <= v <= u128_max ->
  ledger_balance (<[a := v]> st) b = if decide (a = b) then v else ledger_balance st b.
Proof.
  intros Hv. unfold ledger_balance. rewrite lookup_insert. goal_decide; simpl; [lia|done].
Qed.

(** A successful transfer, of distinct accounts. *)
Lemma ledger_transfer_inr st src dst amt p st' :
  ledger_transfer st src dst amt p = inr st' -> src <> dst ->
  0 <= amt <= ledger_balance st src /\
  forall a, ledger_balance st' a =
    if decide (a = dst) then ledger_balance st dst + amt
    else if decide (a = src) then ledger_balance st src - amt
    else ledger_balance st a.
Proof.
  unfold ledger_transfer. intros Htr Hne.
  pose proof (ledger_balance_range st src). pose proof (ledger_balance_range st dst).
  rewrite bool_decide_false in Htr by done.
  destruct (Z.ltb_spec amt 0); [done|].
  destruct (Z.eqb_spec amt 0) as [->|].
  { injection Htr as <-. split; [lia|]. intros a. repeat goal_decide; subst; lia. }
  destruct (Z.ltb_spec (ledger_balance st src) amt); [done|].
  destruct (Z.ltb_spec u128_max (ledger_balance st dst + amt)); [done|].
  destruct (match p with Expendable => false | _ => _ end); [done|].
  injection Htr as <-. split; [lia|]. intros a.
  rewrite !ledger_balance_insert by lia. repeat goal_decide; subst; congruence.
Qed.

Lemma MockAssetLaws : AssetLaws MockAsset.
Proof.
  split; simpl.
  - apply ledger_balance_range.
  - intros st st' src dst amt p H Hne.
    destruct (ledger_transfer_inr _ _ _ _ _ _ H Hne) as [? _]. lia.
  - intros st st' src dst amt p H Hne. destruct (ledger_transfer_inr _ _ _ _ _ _ H Hne) as [_ ->].
    by rewrite decide_True.
  - intros st st' src dst amt p H Hne. destruct (ledger_transfer_inr _ _ _ _ _ _ H Hne) as [_ ->].
    by rewrite decide_False, decide_True.
  - intros st st' src dst amt p H Hne _.
    destruct (ledger_transfer_inr _ _ _ _ _ _ H Hne) as [_ ->].
    by rewrite decide_False, decide_True.
  - intros st st' src dst amt p a H Hs Hd. destruct (decide (src = dst)) as [->|Hne].
    + unfold ledger_transfer in H. rewrite bool_decide_true in H by done.
      injection H as <-. done.
    + destruct (ledger_transfer_inr _ _ _ _ _ _ H Hne) as [_ ->].
      by rewrite !decide_False.
  - intros st st' a amt p b H. unfold ledger_transfer in H.
    rewrite bool_decide_true in H by done. by injection H as <-.
Qed.
End LedgerLaws.

(** ** Sending and weights *)

(** [TestSendXcm]: "Sender that never returns error, always sends". *)
Definition MockSendXcm : SendXcm := {| xcm_send := fun _ _ _ _ => None |}.

(** What [TestSendXcm::send_xcm] records: the message descends to the sender first. *)
Definition test_send_xcm (interior : list Junction) (dest : MultiLocation) (message : Xcm)
    (sent : list (MultiLocation * Xcm)) : list (MultiLocation * Xcm) :=
  (dest, match interior with [] => message | _ => DescendOrigin interior :: message end) :: sent.

(** The arithmetic of weights, and the database weights of RocksDB. *)
#[export] Instance MockWeightOps : WeightOps := {|
  weight_saturating_add := fun a b =>
    {| ref_time := saturating_add u64_max (ref_time a) (ref_time b);
       proof_size := saturating_add u64_max (proof_size a) (proof_size b) |};
  weight_saturating_mul := fun w k =>
    {| ref_time := saturating_mul u64_max (ref_time w) k;
       proof_size := saturating_mul u64_max (proof_size w) k |};
|}.

Definition MockRocksDb : RuntimeDbWeight := {|
  reads := fun n => {| ref_time := saturating_mul u64_max 25000000 n; proof_size := 0 |};
  writes := fun n => {| ref_time := saturating_mul u64_max 100000000 n; proof_size := 0 |};
|}.

#[export] Instance MockWeightLaws : WeightLaws MockWeightOps.
Proof.
  split; simpl; unfold all_lte, weight_ok, saturating_add, saturating_mul; simpl.
  - lia.
  - intros w k l [? ?] ?. split; apply Z.min_le_compat_l; nia.
Qed.

#[export] Instance MockDbLaws : DbWeightLaws MockRocksDb.
Proof. split; simpl; unfold all_lte, saturating_mul; simpl; lia. Qed.

(** ** [DestinationParachainWeigher] *)

Definition EVM_PARA_ID : Z := 2000.
Definition PARA_ID : Z := 3000.
Definition PALLET_INDEX : Z := 3.

Definition descend_origin_weight : Weight := {| ref_time := 5992000; proof_size := 0 |}.
Definition withdraw_asset_weight : Weight := {| ref_time := 200000000; proof_size := 0 |}.
Definition buy_execution_weight : Weight :=
  weight_saturating_add {| ref_time := 181080000; proof_size := 19056 |} (reads MockRocksDb 4).
Definition transact_weight : Weight :=
  weight_saturating_add {| ref_time := 24375000; proof_size := 1527 |} (reads MockRocksDb 1).

(** [Weight::checked_add] *)
Definition weight_checked_add (a b : Weight) : option Weight :=
  r ← checked_add u64_max (ref_time a) (ref_time b);
  p ← checked_add u64_max (proof_size a) (proof_size b);
  Some {| ref_time := r; proof_size := p |}.

Definition instruction_weight (i : Instruction) : Weight :=
  match i with
  | DescendOrigin _ => descend_origin_weight
  | WithdrawAsset _ => withdraw_asset_weight
  | BuyExecution _ _ => buy_execution_weight
  | Transact _ _ _ => transact_weight
  end.

(** [UniversalWeigher::weigh] *)
Definition mock_weigh (dest : MultiLocation) (message : Xcm) : option Weight :=
  if bool_decide (interior dest = [Parachain EVM_PARA_ID])
  then foldl (fun weight i => w ← weight; weight_checked_add w (instruction_weight i))
         (Some {| ref_time := 0; proof_size := 0 |}) message
  else None.

Definition GAS_PER_SECOND : Z := 40000000.
(** [WEIGHT_REF_TIME_PER_SECOND] is [10 ^ 12]. *)
Definition WEIGHT_PER_GAS : Z := 10 ^ 12 / GAS_PER_SECOND.

(** [Weigher::transact] *)
Definition mock_weigher_transact (dest : MultiLocation) (gas_limit : Z) : Weight :=
  if bool_decide (interior dest = [Parachain EVM_PARA_ID])
  then weight_saturating_add
         {| ref_time := saturating_mul u64_max gas_limit WEIGHT_PER_GAS; proof_size := 0 |}
         (reads MockRocksDb 1)
  else {| ref_time := 0; proof_size := 0 |}.

Definition MockWeigher : Weigher :=
  {| weigh := mock_weigh; weigher_transact := mock_weigher_transact |}.

(** ** Encoders *)

(** The bytes as a number after a leading 1, modulo [2 ^ 61 - 31] (not fully reduced):
    quick to evaluate, and distinct for short strings. *)
Definition mock_hash_step (acc : Z) (b : byte) : Z :=
  let v := acc * 256 + byte_to_Z b in
  Z.land v 2305843009213693951 + 31 * Z.shiftr v 61.

Definition mock_hash (b : bytes) : H256 := foldl mock_hash_step 1 b.

Definition MockEncoders : Encoders := {|
  keccak256 := mock_hash;
  abi_encode := encode_tokens;
  scale_encode_call := fun c =>
    match c with
    | EthTransact (V2 t) => v2_input t
    | _ => []
    end;
  scale_encode_network := fun n =>
    match n with None => [x00] | Some Polkadot => [x01; x02] | Some _ => [x01] end;
  reanchor := fun loc dest para =>
    Some {| parents := 1; interior := para ++ loc |};
|}.

(** ** Price queries *)

(** A string, padded to whole words. *)
Definition padded (b : bytes) : bytes := b ++ replicate (32 - length b) x00.

(** The ABI encoding of a query for the price of an asset in a currency, both of three
    letters. *)
Definition spot_price_query (asset currency : bytes) : bytes :=
  concat [to_be_bytes 32 64; to_be_bytes 32 128;
          to_be_bytes 32 9; padded [x53; x70; x6f; x74; x50; x72; x69; x63; x65];
          to_be_bytes 32 192; to_be_bytes 32 64; to_be_bytes 32 128;
          to_be_bytes 32 3; padded asset; to_be_bytes 32 3; padded currency].

Definition staking_token_price_query_data : bytes :=
  Eval vm_compute in spot_price_query [x74; x72; x62] [x67; x62; x70].
Definition staking_to_local_token_price_query_data : bytes :=
  Eval vm_compute in spot_price_query [x74; x72; x62] [x6f; x63; x70].

Definition staking_token_price_query_id : QueryId :=
  Eval vm_compute in mock_hash staking_token_price_query_data.
Definition staking_to_local_token_price_query_id : QueryId :=
  Eval vm_compute in mock_hash staking_to_local_token_price_query_data.

(** The two identifiers as they are written there. *)
Definition StakingTokenPriceQueryId_bytes : bytes := map byte_of_Z
  [211; 194; 112; 119; 36; 198; 191; 243; 89; 99; 24; 187; 3; 60; 229; 109;
   166; 126; 119; 8; 208; 251; 201; 107; 66; 216; 126; 12; 172; 199; 241; 136].

Definition StakingToLocalTokenPriceQueryId_bytes : bytes := map byte_of_Z
  [252; 212; 53; 69; 139; 47; 79; 224; 14; 207; 98; 192; 81; 195; 123; 170;
   138; 241; 23; 4; 53; 70; 22; 191; 191; 171; 11; 101; 130; 16; 61; 30].

(** They are the hashes of the price queries, by Keccak-256. *)
Lemma price_query_ids_are_hashes :
  keccak_256 staking_token_price_query_data = StakingTokenPriceQueryId_bytes /\
  keccak_256 staking_to_local_token_price_query_data = StakingToLocalTokenPriceQueryId_bytes.
Proof. split; by vm_compute. Qed.

(** ** [impl tellor::Config for Test] *)

Definition mock_contract : ContractLocation :=
  {| cl_para_id := EVM_PARA_ID; cl_address := to_be_bytes 20 77; cl_network := None |}.

Definition Test : Config := {|
  cfg_Asset := MockAsset;
  cfg_Xcm := MockSendXcm;
  cfg_Weigher := MockWeigher;
  cfg_Encoders := MockEncoders;
  cfg_WeightInfo := UnitWeight MockRocksDb;
  Decimals := 12;
  EthereumXcmPalletIndex := 38;
  Fee := 10;
  FeeLocation := [];
  GovernanceContract := mock_contract;
  GovernanceOrigin := EnsureGovernance;
  InitialDisputeFee := 50 * 10 ^ 12;
  MaxClaimTimestamps := 100;
  MaxDisputedTimeSeries := 100;
  MaxQueryDataLength := 1024;
  MaxValueLength := 256;
  MaxVotes := 10;
  MinimumStakeAmount := 100 * 10 ^ 18;
  ParachainId := PARA_ID;
  PalletIndex := PALLET_INDEX;
  RegisterOrigin := fun o => match o with Root => true | _ => false end;
  Registry := mock_contract;
  StakeAmountCurrencyTarget := 500 * 10 ^ 18;
  StakingOrigin := EnsureStaking;
  StakingTokenPriceQueryId := staking_token_price_query_id;
  StakingToLocalTokenPriceQueryId := staking_to_local_token_price_query_id;
  UpdateStakeAmountInterval := 12 * HOURS;
  WeightToFee := 10000;
  XcmFeesAsset := 3;
  XcmWeightToAsset := 50000;
  pallet_account := 900;
  dispute_fees := 901;
  staking_rewards := 902;
  tips := 903;
|}.

Lemma TestOk : ConfigOk Test.
Proof.
  split; simpl; try zlia. apply (bool_decide_unpack _). by vm_compute.
Qed.

(** The genesis of [new_test_ext], with funds for three users too. *)
Definition mock_genesis : State :=
  genesis (T := Test) 1700000000
    (list_to_map [(900, 1000000 * 10 ^ 12); (1, 1000000 * 10 ^ 12);
                  (2, 1000000 * 10 ^ 12); (3, 1000000 * 10 ^ 12)] : gmap Z Z).

#[local] Existing Instance Test.

(** ** Blocks of the tests *)

(** The first block is at the time of the clock, a later one a second and more after
    the one before it. *)
Definition new_block (clock : Timestamp) (time_in_secs : Z) (s : State) : State :=
  match sys_block_number s with
  | 0 => upd_sys_block_number (fun _ => 1) (upd_sys_now (fun _ => clock) s)
  | block =>
      upd_sys_block_number (fun _ => block + 1)
        (upd_sys_now (fun _ => sys_now s + (1 + time_in_secs)) s)
  end.

(** "Reset events after block executed, ensuring we only receive events for current
    block". *)
Definition end_block (s : State) : State :=
  upd_sys_sent (fun _ => []) (upd_sys_events (fun _ => []) s).

Definition with_block_after {A} (clock : Timestamp) (time_in_secs : Z) (execute : Call A) : Call A :=
  fun s => let '(result, s') := execute (new_block clock time_in_secs s) in (result, end_block s').

Definition with_block {A} (clock : Timestamp) (execute : Call A) : Call A :=
  with_block_after clock 0 execute.

(** A later block. *)
Definition at_time (t : Timestamp) (s : State) : State := upd_sys_now (fun _ => t) s.

(** The storage after a call that must succeed. *)
Definition after {E A} (m : M State E A) (s : State) : State := snd (m s).
Definition succeeds {A} (m : Call A) (s : State) : bool :=
  match fst (m s) with Ok _ => true | _ => false end.

Lemma succeeds_run {A} (m : Call A) s :
  succeeds m s = true -> exists a, m s = (Ok a, after m s).
Proof. unfold succeeds, after. destruct (m s) as [[] ?]; simpl; intros; eauto; done. Qed.

(** The outcome of a run, without its storage. *)
Lemma run_after {E A} (m : M State E A) s a : fst (m s) = Ok a -> m s = (Ok a, after m s).
Proof. unfold after. destruct (m s) as [r s']. simpl. by intros ->. Qed.
