(* ===== verification/Queries.v ===== *)
(** * Queries

    The read-only functions of [src/src/impls.rs] on the staking, governance
    and autopay storage that only look something up (those of the oracle are in
    [Oracle], those that compute in their component). *)

From S2P Require Import Prelude Types Config Storage.

Section Queries.
Context {T : Config}.
Implicit Types s : State.

(** ** Governance *)

Definition did_vote s (dispute_id : DisputeId) (vote_round : Z) (voter : AccountId) : bool :=
  default false (Votes s !! (dispute_id, vote_round, voter)).

Definition get_dispute_fee s : Balance := DisputeFee s.

Definition get_dispute_info s (dispute_id : DisputeId)
    : option (QueryId * Timestamp * Value * AccountId) :=
  (fun d => (dsp_query_id d, dsp_timestamp d, dsp_value d, dsp_disputed_reporter d))
    <$> DisputeInfo s !! dispute_id.

(** In no particular order. *)
Definition get_disputes_by_reporter s (reporter : AccountId) : list DisputeId :=
  snd <$> filter (fun k => fst k = reporter) (elements (DisputeIdsByReporter s)).

Definition get_open_disputes_on_id s (query_id : QueryId) : Z :=
  default 0 (OpenDisputesOnId s !! query_id).

Definition get_vote_count s : Z := VoteCount s.

Definition get_vote_info s (dispute_id : DisputeId) (vote_round : Z) : option Vote :=
  VoteInfo s !! (dispute_id, vote_round).

Definition get_vote_rounds s (dispute_id : DisputeId) : Z :=
  value_or_zero (VoteRounds s) dispute_id.

Definition get_vote_tally_by_address s (voter : AccountId) : Z :=
  value_or_zero (VoteTallyByAddress s) voter.

(** ** Staking *)

Definition get_stake_amount s : Tributes := StakeAmount s.

Definition get_staker_info s (staker : AccountId) : option StakeInfo :=
  StakerDetails s !! staker.

Definition get_total_stake_amount s : Tributes := TotalStakeAmount s.

Definition get_total_stakers s : Z := TotalStakers s.

(** ** Autopay *)

Definition get_tips_by_address s (user : AccountId) : Balance :=
  value_or_zero (UserTipsTotal s) user.

(** In no particular order. *)
Definition get_current_feeds s (query_id : QueryId) : list FeedId :=
  snd <$> filter (fun k => fst k = query_id) (map_to_list (DataFeeds s)).*1.

Definition get_data_feed s (feed_id : FeedId) : option Feed :=
  query_id ← QueryIdFromDataFeedId s !! feed_id;
  DataFeeds s !! (query_id, feed_id).

Definition get_funded_feeds s : list FeedId := elements (FeedsWithFunding s).

Definition get_funded_query_ids s : list QueryId := elements (QueryIdsWithFunding s).

Definition get_query_data s (query_id : QueryId) : option QueryDataBytes :=
  QueryData s !! query_id.

Definition get_query_id_from_feed_id s (feed_id : FeedId) : option QueryId :=
  QueryIdFromDataFeedId s !! feed_id.

Definition get_funded_feed_details s : list (Feed * QueryDataBytes) :=
  omap (fun feed_id =>
    feed_detail ← get_data_feed s feed_id;
    query_id ← get_query_id_from_feed_id s feed_id;
    query_data ← get_query_data s query_id;
    Some (feed_detail, query_data)) (get_funded_feeds s).

Definition get_past_tip_count s (query_id : QueryId) : Z :=
  value_or_zero (TipCount s) query_id.

(** In no particular order. *)
Definition get_past_tips s (query_id : QueryId) : list Tip :=
  snd <$> filter (fun kv => fst (fst kv) = query_id) (map_to_list (Tips s)).

Definition get_past_tip_by_index s (query_id : QueryId) (idx : Z) : option Tip :=
  Tips s !! (query_id, idx).

Definition get_reward_claimed_status s (feed_id : FeedId) (query_id : QueryId)
    (timestamp : Timestamp) : bool :=
  bool_decide ((query_id, feed_id, timestamp) ∈ DataFeedRewardClaimed s).

Definition get_reward_claim_status_list s (feed_id : FeedId) (query_id : QueryId)
    (timestamps : list Timestamp) : list bool :=
  (fun timestamp => bool_decide ((query_id, feed_id, timestamp) ∈ DataFeedRewardClaimed s))
    <$> take (Z.to_nat MaxClaimTimestamps) timestamps.

(** A tip is current until a value is reported after it. *)
Definition get_current_tip s (query_id : QueryId) : Balance :=
  let tip_count := value_or_zero (TipCount s) query_id in
  if tip_count =? 0 then 0
  else
    match Tips s !! (query_id, tip_count - 1) with
    | None => 0
    | Some last_tip =>
        let last_reported_timestamp := value_or_zero (LastReportedTimestamp s) query_id in
        if last_reported_timestamp <? tip_timestamp last_tip then tip_amount last_tip else 0
    end.

Definition get_funded_single_tips_info s : list (QueryDataBytes * Balance) :=
  omap (fun query_id =>
    query_data ← get_query_data s query_id;
    Some (query_data, get_current_tip s query_id)) (get_funded_query_ids s).

End Queries.
