(* ===== verification/Xcm.v ===== *)
(** * Messages to the controller contracts

    [src/src/contracts] (the calls' ABI encoding) and [src/src/xcm] (the Ethereum
    transaction, the message with its fee, sending, and the conversion of a
    contract's location to an account or an origin). *)

From S2P Require Import Prelude Types Weights Config Storage.

Section Xcm.
Context {T : Config}.

(** ** contracts/mod.rs, governance.rs, registry.rs *)

(** [call]: the function selector, then the parameters. *)
Definition call (function : bytes) (parameters : bytes) : bytes := function ++ parameters.

Definition selector (a b c d : Z) : bytes := map byte_of_Z [a; b; c; d].

Definition begin_parachain_dispute (query_id : bytes) (timestamp : Z) (value : bytes)
    (disputed_reporter dispute_initiator : H160) (slash_amount : Z) : bytes :=
  call (selector 29 93 54 159)
    (abi_encode
      [FixedBytes query_id; Uint timestamp; Bytes value; TokenAddress disputed_reporter;
       TokenAddress dispute_initiator; Uint slash_amount]).

Definition vote_call (dispute_id : bytes)
    (total_tips_for total_tips_against total_tips_invalid
     total_reports_for total_reports_against total_reports_invalid : Z) : bytes :=
  call (selector 61 181 167 166)
    (abi_encode
      [FixedBytes dispute_id; Uint total_tips_for; Uint total_tips_against;
       Uint total_tips_invalid; Uint total_reports_for; Uint total_reports_against;
       Uint total_reports_invalid]).

Definition encode_network_id (network_id : option NetworkId) : bytes :=
  match network_id with
  | None => map byte_of_Z [0]
  | Some (ByGenesis id) => map byte_of_Z [1] ++ id
  | Some Polkadot => map byte_of_Z [2; 2]
  | Some Kusama => map byte_of_Z [3; 3]
  | Some (ByFork block_number block_hash) =>
      map byte_of_Z [4; 1] ++ to_be_bytes 8 block_number ++ block_hash
  | Some Westend => map byte_of_Z [5; 4]
  | Some Rococo => map byte_of_Z [6; 5]
  | Some Wococo => map byte_of_Z [7; 6]
  | Some (Ethereum chain_id) => map byte_of_Z [8; 7] ++ to_be_bytes 8 chain_id
  | Some BitcoinCore => map byte_of_Z [9; 8]
  | Some BitcoinCash => map byte_of_Z [10; 9]
  end.

(** [None] is the [unreachable!] of [Plurality], a panic. *)
Definition encode_junction (junction : Junction) : option bytes :=
  match junction with
  | Parachain para_id => Some (map byte_of_Z [0] ++ to_be_bytes 4 para_id)
  | AccountId32 network id => Some (map byte_of_Z [1] ++ id ++ encode_network_id network)
  | AccountIndex64 network idx =>
      Some (map byte_of_Z [2] ++ to_be_bytes 8 idx ++ encode_network_id network)
  | AccountKey20 network key =>
      Some (map byte_of_Z [3] ++ key ++ scale_encode_network network)
  | PalletInstance i => Some (map byte_of_Z [4] ++ to_be_bytes 1 i)
  | GeneralIndex i => Some (map byte_of_Z [5] ++ to_be_bytes 16 i)
  | GeneralKey len data => Some (map byte_of_Z [6] ++ [byte_of_Z len] ++ data)
  | OnlyChild => Some (map byte_of_Z [7])
  | GlobalConsensus network_id =>
      Some (map byte_of_Z [9] ++ encode_network_id (Some network_id))
  | Plurality => None
  end.

Definition register_call (para_id : ParaId) (pallet_index : Z) (weight_to_fee : Z)
    (fee_location : MultiLocation) (weights : Weights) : option bytes :=
  junctions ← mapM encode_junction (interior fee_location);
  Some (call (selector 96 114 55 127)
    (abi_encode
      [Uint para_id; Uint pallet_index; Uint weight_to_fee;
       Tuple [Uint (parents fee_location); Array (map Bytes junctions)];
       Tuple [Uint (w_report_stake_deposited weights);
              Uint (w_report_staking_withdraw_request weights);
              Uint (w_report_stake_withdrawn weights);
              Uint (w_report_vote_tallied weights);
              Uint (w_report_vote_executed weights);
              Uint (w_report_slash weights)]])).

(** ** xcm/ethereum_xcm.rs *)

(** [call_data] converted to the bounded input: [None] when it is too long. *)
Definition ethereum_xcm_transact (pallet_index : Z) (contract_address : bytes)
    (call_data : bytes) (gas_limit : Z) : bytes :=
  byte_of_Z pallet_index ::
  scale_encode_call
    (EthTransact (V2
      {| v2_gas_limit := gas_limit; v2_action := TxCall (be_value contract_address);
         v2_value := 0; v2_input := call_data; v2_access_list := None |})).

Definition bounded_input (call_data : bytes) : Call bytes :=
  if Z.of_nat (length call_data) <=? MAX_ETHEREUM_XCM_INPUT_SIZE
  then ret call_data
  else throw MaxEthereumXcmInputSizeExceeded.

(** ** xcm/mod.rs *)

Definition location_of_contract (value : ContractLocation) : MultiLocation :=
  {| parents := 1;
     interior := [Parachain (cl_para_id value);
                  AccountKey20 (cl_network value) (cl_address value)] |}.

(** [From<(ParaId, [u8; 20])>] and [From<(ParaId, [u8; 20], NetworkId)>]. *)
Definition contract_location (para_id : ParaId) (addr : bytes) (network : option NetworkId)
    : ContractLocation :=
  {| cl_para_id := para_id; cl_address := addr; cl_network := network |}.

(** [LocationToAccount::convert]; the error is the location itself. *)
Definition LocationToAccount_convert (loc : ContractLocation) (account : AccountId)
    (location : MultiLocation) : AccountId + MultiLocation :=
  if bool_decide (location = location_of_contract loc) then inl account else inr location.

(** [LocationToOrigin::convert_origin] *)
Definition LocationToOrigin_convert (loc : ContractLocation) (pallet_origin : RuntimeOrigin)
    (origin : MultiLocation) (kind : OriginKind) : RuntimeOrigin + MultiLocation :=
  match kind with
  | SovereignAccount =>
      if bool_decide (origin = location_of_contract loc) then inl pallet_origin
      else inr origin
  | _ => inr origin
  end.

Definition weight_to_fee (w : Weight) : Z :=
  saturating_mul u128_max (ref_time w) XcmWeightToAsset.

(** [Weight + Weight] *)
Definition weight_add (a b : Weight) : Weight :=
  {| ref_time := wrapping_add u64_max (ref_time a) (ref_time b);
     proof_size := wrapping_add u64_max (proof_size a) (proof_size b) |}.

Definition parachain_location (para_id : ParaId) : MultiLocation :=
  {| parents := 0; interior := [Parachain para_id] |}.

(** The message [transact] weighs: its fees are placeholders. *)
Definition sample_message (encoded_call : bytes) (weight : Weight) : Xcm :=
  let fees := {| asset_id := XcmFeesAsset; fungible := 1 |} in
  [DescendOrigin [Parachain ParachainId];
   WithdrawAsset fees;
   BuyExecution fees {| ref_time := 0; proof_size := 0 |};
   Transact SovereignAccount weight encoded_call].

(** The message [transact] returns, with the fee for the total weight. *)
Definition transact_message (encoded_call : bytes) (weight total_weight : Weight) : Xcm :=
  let asset := {| asset_id := XcmFeesAsset; fungible := weight_to_fee total_weight |} in
  [WithdrawAsset asset;
   BuyExecution asset total_weight;
   Transact SovereignAccount weight encoded_call].

Definition transact (dest : MultiLocation) (encoded_call : bytes) (gas_limit : Z)
    : Call Xcm :=
  let transact_extrinsic_weight := weigher_transact dest gas_limit in
  match weigh dest (sample_message encoded_call transact_extrinsic_weight) with
  | Some xcm_weight =>
      ret (transact_message encoded_call transact_extrinsic_weight
             (weight_add xcm_weight transact_extrinsic_weight))
  | None => throw WeighingFailure
  end.

Definition send_error (e : SendError) : Error :=
  match e with
  | Fees => FeesNotMet
  | NotApplicable => Unreachable
  | OtherSendError => SendFailure
  end.

Definition send_xcm (para_id : ParaId) (message : Xcm) (event : Event) : Call unit :=
  let interior := [PalletInstance (PalletIndex mod 256)] in
  let dest := {| parents := 1; interior := [Parachain para_id] |} in
  let* history := read (fun s => sys_sent s) in
  match xcm_send history interior dest message with
  | Some e => throw (send_error e)
  | None => write (upd_sys_sent (cons (dest, message))) ;;; deposit_event event
  end.

(** [FeeLocation::get] and [FeeLocation::convert] *)
Definition fee_location_convert (loc : list Junction) (dest : MultiLocation)
    (para_id : ParaId) : Call MultiLocation :=
  ok_or_error (reanchor loc dest [Parachain para_id]) JunctionOverflow.

Definition fee_location_get : Call MultiLocation :=
  let dest := {| parents := 1; interior := [Parachain (cl_para_id Registry)] |} in
  fee_location_convert FeeLocation dest ParachainId.

(** A call of a controller contract: encode, wrap, weigh and send. *)
Definition send_contract_call (contract : ContractLocation) (call_data : bytes)
    (gas_limit : Z) (event : Event) : Call unit :=
  let* input := bounded_input call_data in
  let* message := transact (parachain_location (cl_para_id contract))
    (ethereum_xcm_transact EthereumXcmPalletIndex (cl_address contract) input gas_limit)
    gas_limit in
  send_xcm (cl_para_id contract) message event.

(** ** register *)

(** The sub-accounts that are funded up to the minimum balance. *)
Fixpoint init_sub_accounts (accounts : list AccountId) : Call unit :=
  match accounts with
  | [] => ret tt
  | account :: accounts' =>
      let* b := read (fun s => balance_of s account) in
      (if b <? minimum_balance
       then transfer pallet_account account minimum_balance Protect
       else ret tt) ;;;
      init_sub_accounts accounts'
  end.

(** The reference times that registration sends. *)
Definition registration_weights : Weights :=
  {| w_report_stake_deposited := ref_time wi_report_stake_deposited;
     w_report_staking_withdraw_request := ref_time wi_report_staking_withdraw_request;
     w_report_stake_withdrawn := ref_time wi_report_stake_withdrawn;
     w_report_vote_tallied := ref_time wi_report_vote_tallied;
     w_report_vote_executed := ref_time (wi_report_vote_executed MAX_VOTE_ROUNDS);
     w_report_slash := ref_time wi_report_slash |}.

Definition register (origin : RuntimeOrigin) (gas_limit : option Z) : Call unit :=
  ensure_origin RegisterOrigin origin ;;;
  init_sub_accounts [dispute_fees; staking_rewards; tips] ;;;
  let gas_limit := default REGISTER_GAS gas_limit in
  let weights := registration_weights in
  let* fee_location := fee_location_get in
  let* encoded := expect (register_call ParachainId (PalletIndex mod 256) WeightToFee
                            fee_location weights) in
  send_contract_call Registry encoded gas_limit
    (RegistrationSent (cl_para_id Registry) (cl_address Registry) weights).

End Xcm.
