(* ===== verification/ContractAbi.v ===== *)
(** * The functions of the controller contracts

    The functions that the pallet calls, with the types of their inputs, as the unit tests
    of [src/src/contracts/governance.rs] and [src/src/contracts/registry.rs] declare them:
    what a contract makes of a call's data ([decode_input]), and that the calls of [Xcm]
    are those that [encode_input] makes ([encodes_*]). *)

From Stdlib Require Import Strings.String.
From S2P Require Import Prelude Types Keccak Abi AbiFacts Weights Config Storage Xcm.

(** ** The declarations *)

(** [begin_parachain_dispute] of the tests of governance.rs. *)
Definition begin_parachain_dispute_function : Function := {|
  fn_name := "beginParachainDispute";
  fn_inputs := [("_queryId", PFixedBytes 32); ("_timestamp", PUint 256); ("_value", PBytes);
                ("_disputedReporter", PAddress); ("_disputeInitiator", PAddress);
                ("_slashAmount", PUint 256)]
|}%string.

(** [vote] of the tests of governance.rs. *)
Definition vote_function : Function := {|
  fn_name := "voteParachain";
  fn_inputs := [("_disputeId", PFixedBytes 32); ("_totalTipsFor", PUint 256);
                ("_totalTipsAgainst", PUint 256); ("_totalTipsInvalid", PUint 256);
                ("_totalReportsFor", PUint 256); ("_totalReportsAgainst", PUint 256);
                ("_totalReportsInvalid", PUint 256)]
|}%string.

(** [register] of the tests of registry.rs. *)
Definition register_function : Function := {|
  fn_name := "register";
  fn_inputs := [("_paraId", PUint 32); ("_palletIndex", PUint 8); ("_weightToFee", PUint 256);
                ("_feeLocation", PTuple [PUint 8; PArray PBytes]);
                ("_weights", PTuple [PUint 64; PUint 64; PUint 64; PUint 64; PUint 64; PUint 64])]
|}%string.

(** What the pallet relies on of [ethabi::encode]: the encoding is that of the ABI, so
    values are decoded from it by their types (unless it exceeds any memory). *)
Class AbiLaws (E : Encoders) : Prop :=
  abi_decodes : forall ps ts, types_check ps ts = true ->
    Z.of_nat (length (abi_encode ts)) < 2 ^ 256 -> decode_tokens ps (abi_encode ts) = Some ts.

Section Inputs.
Context {T : Config}.

(** [Function::encode_input] *)
Definition encode_input (f : Function) (tokens : list Token) : option bytes :=
  if types_check (fn_types f) tokens then Some (short_signature f ++ abi_encode tokens) else None.

(** What a contract reads of a call's data, if the call is of its function. *)
Definition decode_input (f : Function) (data : bytes) : option (list Token) :=
  if decide (take 4 data = short_signature f) then decode_tokens (fn_types f) (drop 4 data)
  else None.

Lemma decode_encode_input `{!AbiLaws cfg_Encoders} f tokens data :
  length (short_signature f) = 4%nat ->
  encode_input f tokens = Some data -> Z.of_nat (length data) < 2 ^ 256 ->
  decode_input f data = Some tokens.
Proof.
  unfold encode_input, decode_input. intros Hf. destruct (types_check _ _) eqn:Ht; [|done].
  intros [= <-] Hlen. rewrite length_app in Hlen.
  rewrite take_app_length', decide_True, drop_app_length' by done. apply abi_decodes; [done|lia].
Qed.

(** ** The selectors *)

Lemma begin_parachain_dispute_selector :
  short_signature begin_parachain_dispute_function = selector 29 93 54 159.
Proof. by vm_compute. Qed.

Lemma vote_selector : short_signature vote_function = selector 61 181 167 166.
Proof. by vm_compute. Qed.

Lemma register_selector : short_signature register_function = selector 96 114 55 127.
Proof. by vm_compute. Qed.

(** The signatures that the comments beside two of the declarations give have other
    selectors. *)
Example commented_signatures_differ :
  take 4 (keccak_256 (list_byte_of_string
    "beginParachainDispute(bytes32,uint256,bytes,address,address,uint256,uint256)"))
    = selector 186 124 60 48 /\
  take 4 (keccak_256 (list_byte_of_string "register(uint32,uint8,uint256,uint8,(uint8,bytes[]))"))
    <> short_signature register_function.
Proof. split; [by vm_compute|]. rewrite register_selector. by vm_compute. Qed.

(** ** The calls *)

Definition address_ok (a : H160) : Prop := 0 <= a <= h160_max.

Lemma check_uint bits n : 0 <= n < 2 ^ Z.of_N bits -> (bits <= 256)%N ->
  type_check (PUint bits) (Uint n) = true.
Proof.
  intros [H0 H1] Hb. cbn [type_check].
  by rewrite (proj2 (Z.leb_le _ _)), (proj2 (Z.ltb_lt _ _)), (proj2 (N.leb_le _ _)).
Qed.

Lemma check_address a : address_ok a -> type_check PAddress (TokenAddress a) = true.
Proof.
  unfold address_ok, h160_max. intros Ha. cbn [type_check].
  by rewrite (proj2 (Z.leb_le _ _)), (proj2 (Z.ltb_lt _ _)) by lia.
Qed.

Lemma check_hash n : type_check (PFixedBytes 32) (FixedBytes (to_be_bytes 32 n)) = true.
Proof. cbn [type_check]. by rewrite length_to_be_bytes. Qed.

Lemma check_bytes l : type_check (PArray PBytes) (Array (map Bytes l)) = true.
Proof. cbn [type_check]. by induction l. Qed.

Lemma types_check_cons p ps t ts : type_check p t = true -> types_check ps ts = true ->
  types_check (p :: ps) (t :: ts) = true.
Proof. intros H1 H2. cbn [types_check]. by rewrite H1, H2. Qed.

Lemma check_tuple p ps ts : types_check (p :: ps) ts = true ->
  type_check (PTuple (p :: ps)) (Tuple ts) = true.
Proof. by rewrite type_check_tuple. Qed.

(** Every input by its type. *)
Ltac check_inputs :=
  repeat (first [ reflexivity | apply check_tuple | apply types_check_cons
                | apply check_hash | apply check_bytes | apply check_address
                | apply check_uint; [zlia|done] ]); try done.

(** The call of [begin_parachain_dispute] is that of the contract's function. *)
Lemma encodes_begin_parachain_dispute q t v reporter initiator amount :
  0 <= t <= u64_max -> address_ok reporter -> address_ok initiator -> 0 <= amount <= u256_max ->
  encode_input begin_parachain_dispute_function
    [FixedBytes (to_be_bytes 32 q); Uint t; Bytes v; TokenAddress reporter;
     TokenAddress initiator; Uint amount]
  = Some (begin_parachain_dispute (to_be_bytes 32 q) t v reporter initiator amount).
Proof.
  intros. unfold encode_input.
  replace (types_check _ _) with true by (symmetry; cbn [fn_types fn_inputs map snd]; check_inputs).
  by rewrite begin_parachain_dispute_selector.
Qed.

(** The call of [vote] is that of the contract's function. *)
Lemma encodes_vote id a b c d e f :
  0 <= a <= u128_max -> 0 <= b <= u128_max -> 0 <= c <= u128_max ->
  0 <= d <= u128_max -> 0 <= e <= u128_max -> 0 <= f <= u128_max ->
  encode_input vote_function
    [FixedBytes (to_be_bytes 32 id); Uint a; Uint b; Uint c; Uint d; Uint e; Uint f]
  = Some (vote_call (to_be_bytes 32 id) a b c d e f).
Proof.
  intros. unfold encode_input.
  replace (types_check _ _) with true by (symmetry; cbn [fn_types fn_inputs map snd]; check_inputs).
  by rewrite vote_selector.
Qed.

Record weights_ok (w : Weights) : Prop := {
  wo_deposited : 0 <= w_report_stake_deposited w <= u64_max;
  wo_request : 0 <= w_report_staking_withdraw_request w <= u64_max;
  wo_withdrawn : 0 <= w_report_stake_withdrawn w <= u64_max;
  wo_tallied : 0 <= w_report_vote_tallied w <= u64_max;
  wo_executed : 0 <= w_report_vote_executed w <= u64_max;
  wo_slash : 0 <= w_report_slash w <= u64_max;
}.

(** The call of [register] is that of the contract's function. *)
Lemma encodes_register para index fee location junctions w :
  0 <= para <= u32_max -> 0 <= index <= u8_max -> 0 <= fee <= u128_max ->
  0 <= parents location <= u8_max -> weights_ok w ->
  mapM encode_junction (interior location) = Some junctions ->
  encode_input register_function
    [Uint para; Uint index; Uint fee;
     Tuple [Uint (parents location); Array (map Bytes junctions)];
     Tuple [Uint (w_report_stake_deposited w); Uint (w_report_staking_withdraw_request w);
            Uint (w_report_stake_withdrawn w); Uint (w_report_vote_tallied w);
            Uint (w_report_vote_executed w); Uint (w_report_slash w)]]
  = register_call para index fee location w.
Proof.
  intros ???? [] Hj. unfold encode_input, register_call. rewrite Hj.
  replace (types_check _ _) with true by (symmetry; cbn [fn_types fn_inputs map snd]; check_inputs).
  by rewrite register_selector.
Qed.
End Inputs.

(** The encoding of [Abi] satisfies the laws. *)
Lemma encode_tokens_laws k s n r : AbiLaws {|
  keccak256 := k; abi_encode := encode_tokens; scale_encode_call := s;
  scale_encode_network := n; reanchor := r |}.
Proof. intros ps ts. apply decode_encode_tokens. Qed.
