(* ===== verification/LocationCodec.v ===== *)
(** * Locations in the format of the registry contract

    The decoder of the format that [encode_network_id] and [encode_junction] of
    [src/src/contracts/registry.rs] cite, and that junctions survive their encoding. *)

From S2P Require Import Prelude Types Weights Config Storage Xcm.

(** ** The precompile's format

    The decoder of the format that [encode_network_id] and [encode_junction] cite:
    a tag, fixed-width fields, and the network last. *)

Definition decode_network (b : bytes) : option (option NetworkId) :=
  match b with
  | [] => None
  | tag :: r =>
      match byte_to_Z tag, map byte_to_Z r with
      | 0, [] => Some None
      | 1, _ => if decide (length r = 32%nat) then Some (Some (ByGenesis r)) else None
      | 2, [2] => Some (Some Polkadot)
      | 3, [3] => Some (Some Kusama)
      | 4, 1 :: _ =>
          if decide (length r = 41%nat)
          then Some (Some (ByFork (be_value (take 8 (tail r))) (drop 9 r))) else None
      | 5, [4] => Some (Some Westend)
      | 6, [5] => Some (Some Rococo)
      | 7, [6] => Some (Some Wococo)
      | 8, 7 :: _ =>
          if decide (length r = 9%nat) then Some (Some (Ethereum (be_value (tail r)))) else None
      | 9, [8] => Some (Some BitcoinCore)
      | 10, [9] => Some (Some BitcoinCash)
      | _, _ => None
      end
  end.

(** A number in exactly [n] bytes. *)
Definition decode_uint (n : nat) (b : bytes) : option Z :=
  if decide (length b = n) then Some (be_value b) else None.

(** What follows the tag of a junction. *)
Definition decode_tagged (tag : Z) (r : bytes) : option Junction :=
  match tag with
  | 0 => Parachain <$> decode_uint 4 r
  | 1 => n ← decode_network (drop 32 r); Some (AccountId32 n (take 32 r))
  | 2 => i ← decode_uint 8 (take 8 r); n ← decode_network (drop 8 r);
         Some (AccountIndex64 n i)
  | 3 => n ← decode_network (drop 20 r); Some (AccountKey20 n (take 20 r))
  | 4 => PalletInstance <$> decode_uint 1 r
  | 5 => GeneralIndex <$> decode_uint 16 r
  | 6 => match r with len :: data => Some (GeneralKey (byte_to_Z len) data) | [] => None end
  | 7 => match r with [] => Some OnlyChild | _ => None end
  | 9 => n ← decode_network r; n ← n; Some (GlobalConsensus n)
  | _ => None
  end.

Definition decode_junction (b : bytes) : option Junction :=
  match b with [] => None | tag :: r => decode_tagged (byte_to_Z tag) r end.

(** ** The widths of the parts *)

Definition network_ok (n : NetworkId) : Prop :=
  match n with
  | ByGenesis id => length id = 32%nat
  | ByFork block_number block_hash => 0 <= block_number <= u64_max /\ length block_hash = 32%nat
  | Ethereum chain_id => 0 <= chain_id <= u64_max
  | _ => True
  end.

Definition network_opt_ok (n : option NetworkId) : Prop := from_option network_ok True n.

(** The widths of the fields of a junction. *)
Definition junction_ok (j : Junction) : Prop :=
  match j with
  | Parachain id => 0 <= id <= u32_max
  | AccountId32 n id => network_opt_ok n /\ length id = 32%nat
  | AccountIndex64 n idx => network_opt_ok n /\ 0 <= idx <= u64_max
  | AccountKey20 n key => network_opt_ok n /\ length key = 20%nat
  | PalletInstance i => 0 <= i <= u8_max
  | GeneralIndex i => 0 <= i <= u128_max
  | GeneralKey len data => 0 <= len <= u8_max
  | OnlyChild => True
  | Plurality => True
  | GlobalConsensus n => network_ok n
  end.

Section RoundTrip.
Context {T : Config}.

Lemma be_value_width n z m : 0 <= z <= m -> m < 256 ^ Z.of_nat n -> be_value (to_be_bytes n z) = z.
Proof. intros Hz Hm. rewrite be_value_to_be_bytes, Z.mod_small; [done|lia]. Qed.

Lemma decode_uint_bytes n z m :
  0 <= z <= m -> m < 256 ^ Z.of_nat n -> decode_uint n (to_be_bytes n z) = Some z.
Proof.
  intros Hz Hm. unfold decode_uint. rewrite length_to_be_bytes, decide_True by done.
  by rewrite (be_value_width n z m).
Qed.

Lemma decode_fork b h : length b = 8%nat -> length h = 32%nat ->
  decode_network (map byte_of_Z [4; 1] ++ b ++ h) = Some (Some (ByFork (be_value b) h)).
Proof.
  intros Hb Hh. simpl. rewrite decide_True by (rewrite length_app; lia).
  by rewrite take_app_length', drop_app_length'.
Qed.

Lemma decode_chain b : length b = 8%nat ->
  decode_network (map byte_of_Z [8; 7] ++ b) = Some (Some (Ethereum (be_value b))).
Proof. intros Hb. simpl. by rewrite decide_True by lia. Qed.

Lemma decode_network_encode n : network_opt_ok n -> decode_network (encode_network_id n) = Some n.
Proof.
  destruct n as [[id|num hash| | | | | |chain| |]|]; intros Hok; try reflexivity; simpl in Hok.
  - unfold encode_network_id. simpl. by rewrite decide_True.
  - destruct Hok as [Hn Hh]. unfold encode_network_id.
    rewrite decode_fork by (by rewrite ?length_to_be_bytes). by rewrite (be_value_width 8 num u64_max).
  - unfold encode_network_id. rewrite decode_chain by apply length_to_be_bytes.
    by rewrite (be_value_width 8 chain u64_max).
Qed.

Lemma decode_tag tag r : 0 <= tag < 256 ->
  decode_junction (map byte_of_Z [tag] ++ r) = decode_tagged tag r.
Proof. intros Ht. cbn [map app decode_junction]. by rewrite byte_to_of_Z, Z.mod_small. Qed.

(** What the bytes sent for a junction say: they decode to the junction, but for the
    network of an [AccountKey20], which is not encoded in the format. *)
Definition conveyed (j : Junction) (b : bytes) : Prop :=
  match j with
  | AccountKey20 (Some n) key => b = map byte_of_Z [3] ++ key ++ scale_encode_network (Some n)
  | _ => decode_junction b = Some j
  end.

Lemma encode_junction_conveyed j b : scale_encode_network None = [x00] -> junction_ok j ->
  encode_junction j = Some b -> conveyed j b.
Proof.
  intros Hnone Hok.
  destruct j as [id|n id|n idx|n key|i|i|len data| | |n]; cbn [junction_ok] in Hok; [..|done|];
    unfold encode_junction; intros Hb%(inj Some); subst b; unfold conveyed; rewrite ?decode_tag by lia;
    unfold decode_tagged; try done; try destruct Hok as [Hn Hi].
  - by rewrite (decode_uint_bytes 4 id u32_max).
  - rewrite take_app_length', drop_app_length' by done. by rewrite decode_network_encode.
  - rewrite take_app_length', drop_app_length' by by rewrite length_to_be_bytes.
    rewrite (decode_uint_bytes 8 idx u64_max) by done. cbn [mbind option_bind].
    by rewrite decode_network_encode.
  - destruct n as [n|]; [done|].
    rewrite take_app_length', drop_app_length' by done. by rewrite Hnone.
  - by rewrite (decode_uint_bytes 1 i u8_max).
  - by rewrite (decode_uint_bytes 16 i u128_max).
  - cbn [app]. rewrite byte_to_of_Z, Z.mod_small by zlia. done.
  - by rewrite (decode_network_encode (Some n)).
Qed.

Lemma encode_junctions_conveyed l : scale_encode_network None = [x00] -> Forall junction_ok l ->
  forall junctions, mapM encode_junction l = Some junctions -> Forall2 conveyed l junctions.
Proof.
  intros Hnone. induction 1 as [|j l Hj _ IH]; intros junctions H; cbn [mapM] in H.
  - by injection H as <-.
  - destruct (encode_junction j) as [b|] eqn:Hb; [|done]. cbn [mbind option_bind] in H.
    destruct (mapM encode_junction l) as [bs|]; [|done]. injection H as <-.
    constructor; [by apply encode_junction_conveyed|by apply IH].
Qed.
End RoundTrip.
