(* ===== verification/Governance.v ===== *)
(** * Governance

    Disputes and their votes: [begin_dispute], [vote], [vote_on_multiple_disputes],
    [send_votes], [report_vote_tallied] and [report_vote_executed] of
    [src/src/lib.rs], with [do_vote], [execute_vote], [tally_votes] and
    [do_send_votes] of [src/src/impls.rs]. *)

From S2P Require Import Prelude Types Config Storage Oracle Queries Xcm.

Section Governance.
Context {T : Config}.
Implicit Types s : State.

(** [dispute_id != default && dispute_id != Keccak256::hash(&[]) &&
    DisputeInfo::contains_key(dispute_id)] *)
Definition dispute_exists s (dispute_id : DisputeId) : bool :=
  negb (dispute_id =? 0) && negb (dispute_id =? keccak256 [])
  && bool_decide (is_Some (DisputeInfo s !! dispute_id)).

(** ** Voting *)

(** The tally with a vote of weight [w]. *)
Definition tally_vote (supports : option bool) (w : Z) (t : Tally) : Tally :=
  match supports with
  | None => {| does_support := does_support t; against := against t;
               invalid_query := saturating_add u128_max (invalid_query t) w |}
  | Some true => {| does_support := saturating_add u128_max (does_support t) w;
                    against := against t; invalid_query := invalid_query t |}
  | Some false => {| does_support := does_support t;
                     against := saturating_add u128_max (against t) w;
                     invalid_query := invalid_query t |}
  end.

Definition do_vote (voter : AccountId) (dispute_id : DisputeId) (supports : option bool)
    : Call unit :=
  let* known := read (fun s => dispute_exists s dispute_id) in
  ensure_that known InvalidDispute ;;;
  let* vote_round := read (fun s => value_or_zero (VoteRounds s) dispute_id) in
  let* maybe := read (fun s => VoteInfo s !! (dispute_id, vote_round)) in
  let* vote := ok_or_error maybe InvalidVote in
  ensure_that (vote_tally_date vote =? 0) VoteAlreadyTallied ;;;
  let* voted := read (fun s => did_vote s dispute_id (vote_vote_round vote) voter) in
  ensure_that (negb voted) AlreadyVoted ;;;
  ensure_that (negb (vote_sent vote)) VoteAlreadySent ;;;
  write (upd_Votes <[(dispute_id, vote_round, voter) := true]>) ;;;
  let* reports := read (fun s => get_reports_submitted_by_address s voter) in
  let* user_tips := read (fun s => get_tips_by_address s voter) in
  write (upd_VoteInfo <[(dispute_id, vote_round) :=
    set_vote_users (tally_vote supports user_tips (vote_users vote))
      (set_vote_reporters (tally_vote supports reports (vote_reporters vote)) vote)]>) ;;;
  let* total := read (fun s => value_or_zero (VoteTallyByAddress s) voter) in
  write (upd_VoteTallyByAddress <[voter := saturating_add u32_max total 1]>) ;;;
  deposit_event (Voted dispute_id supports voter).

Definition vote (origin : RuntimeOrigin) (dispute_id : DisputeId) (supports : option bool)
    : Call unit :=
  let* voter := ensure_signed origin in
  do_vote voter dispute_id supports.

Fixpoint vote_all (voter : AccountId) (votes : list (DisputeId * option bool)) : Call unit :=
  match votes with
  | [] => ret tt
  | (dispute_id, supports) :: votes' =>
      do_vote voter dispute_id supports ;;;
      vote_all voter votes'
  end.

Definition vote_on_multiple_disputes (origin : RuntimeOrigin)
    (votes : list (DisputeId * option bool)) : Call unit :=
  let* voter := ensure_signed origin in
  vote_all voter votes.

(** ** Sending votes *)

(** Storage iteration is by key, and the sort by schedule is stable: the order
    is by schedule, then by dispute. *)
Definition pending_le (a b : DisputeId * (Z * Timestamp)) : Prop :=
  snd (snd a) < snd (snd b) \/ (snd (snd a) = snd (snd b) /\ fst a <= fst b).

#[global] Instance pending_le_dec a b : Decision (pending_le a b).
Proof. unfold pending_le. apply _. Defined.

Definition due_votes s (timestamp : Timestamp) : list (DisputeId * (Z * Timestamp)) :=
  merge_sort pending_le
    (filter (fun kv => snd (snd kv) <= timestamp) (map_to_list (PendingVotes s))).

Definition send_vote (dispute_id : DisputeId) (vote_round : Z) : Call unit :=
  let* maybe := read (fun s => VoteInfo s !! (dispute_id, vote_round)) in
  let* vote := ok_or_error maybe InvalidVote in
  ensure_that (negb (vote_sent vote)) VoteAlreadySent ;;;
  send_contract_call GovernanceContract
    (vote_call (to_be_bytes 32 dispute_id)
       (does_support (vote_users vote)) (against (vote_users vote))
       (invalid_query (vote_users vote))
       (does_support (vote_reporters vote)) (against (vote_reporters vote))
       (invalid_query (vote_reporters vote)))
    VOTE_GAS
    (VoteSent (cl_para_id GovernanceContract) (cl_address GovernanceContract)
       dispute_id vote_round) ;;;
  write (upd_PendingVotes (delete dispute_id)) ;;;
  write (upd_VoteInfo <[(dispute_id, vote_round) := set_vote_sent true vote]>).

Definition do_send_votes (timestamp : Timestamp) (max : Z) : Call Z :=
  let* pending_votes := read (fun s => due_votes s timestamp) in
  foldM (fun pending_votes_len '(dispute_id, (vote_round, _)) =>
      attempt (send_vote dispute_id vote_round) ;;;
      ret (saturating_add u32_max pending_votes_len 1))
    0 (take (Z.to_nat max) pending_votes).

Definition send_votes (origin : RuntimeOrigin) (max_votes : Z) : Call Z :=
  ensure_signed origin ;;;
  let* timestamp := now in
  do_send_votes timestamp max_votes.

(** ** Tallying *)

Definition tally_votes (dispute_id : DisputeId) (result : VoteResult) : Call unit :=
  let* vote_round := read (fun s => value_or_zero (VoteRounds s) dispute_id) in
  let* maybe := read (fun s => VoteInfo s !! (dispute_id, vote_round)) in
  let* vote := ok_or_error maybe InvalidDispute in
  ensure_that (negb (vote_executed vote)) VoteAlreadyExecuted ;;;
  ensure_that (vote_tally_date vote =? 0) VoteAlreadyTallied ;;;
  let* timestamp := now in
  let* elapsed := ok_or_arith
    (checked_sub u64_max timestamp (vote_start_date vote)) Underflow in
  let* duration := expect (checked_mul u64_max (vote_vote_round vote) DAYS) in
  ensure_that ((duration <=? elapsed) || (6 * DAYS <=? elapsed)) VotingPeriodActive ;;;
  write (upd_VoteInfo <[(dispute_id, vote_round) :=
    set_vote_tally_date timestamp (set_vote_result (Some result) vote)]>) ;;;
  let* maybe_dispute := read (fun s => DisputeInfo s !! dispute_id) in
  let* dispute := ok_or_error maybe_dispute InvalidDispute in
  deposit_event
    (VoteTallied dispute_id result (vote_initiator vote) (dsp_disputed_reporter dispute)).

Definition report_vote_tallied (origin : RuntimeOrigin) (dispute_id : DisputeId)
    (result : VoteResult) : Call unit :=
  ensure_origin GovernanceOrigin origin ;;;
  tally_votes dispute_id result.

(** ** Execution *)

(** The loop over the vote rounds: each round's fee goes to its initiator, or
    to the disputed reporter when the dispute failed. *)
Fixpoint pay_rounds (dispute_id : DisputeId) (result : VoteResult) (dispute : Dispute)
    (final_vote : Vote) (final_vote_round : Z) (rounds : list Z) : Call unit :=
  match rounds with
  | [] => ret tt
  | vote_round :: rounds' =>
      let* round :=
        if vote_round =? final_vote_round
        then ret (vote_initiator final_vote, vote_fee final_vote)
        else
          let* maybe := read (fun s => VoteInfo s !! (dispute_id, vote_round)) in
          ok_or_error ((fun v => (vote_initiator v, vote_fee v)) <$> maybe) InvalidVote in
      let dest :=
        match result with
        | Passed | Invalid => fst round
        | Failed => dsp_disputed_reporter dispute
        end in
      transfer dispute_fees dest (snd round) Protect ;;;
      pay_rounds dispute_id result dispute final_vote final_vote_round rounds'
  end.

Definition execute_vote (dispute_id : DisputeId) : Call Z :=
  let* known := read (fun s => dispute_exists s dispute_id) in
  ensure_that known InvalidDispute ;;;
  let* final_vote_round := read (fun s => value_or_zero (VoteRounds s) dispute_id) in
  ensure_that (0 <? final_vote_round) InvalidVote ;;;
  let* maybe := read (fun s => VoteInfo s !! (dispute_id, final_vote_round)) in
  let* vote := ok_or_error maybe InvalidVote in
  ensure_that (negb (vote_executed vote)) VoteAlreadyExecuted ;;;
  ensure_that (0 <? vote_tally_date vote) VoteNotTallied ;;;
  let* result := ok_or_error (vote_result vote) VoteNotTallied in
  let* timestamp := now in
  let* elapsed := ok_or_arith
    (checked_sub u64_max timestamp (vote_tally_date vote)) Underflow in
  ensure_that (1 * DAYS <=? elapsed) TallyDisputePeriodActive ;;;
  let vote := set_vote_executed true vote in
  let* maybe_dispute := read (fun s => DisputeInfo s !! dispute_id) in
  let* dispute := ok_or_error maybe_dispute InvalidDispute in
  let* maybe_open := read (fun s => OpenDisputesOnId s !! dsp_query_id dispute) in
  match maybe_open with
  | Some disputes =>
      write (upd_OpenDisputesOnId <[dsp_query_id dispute := saturating_sub disputes 1]>)
  | None => ret tt
  end ;;;
  pay_rounds dispute_id result dispute vote final_vote_round
    (reverse (seqZ 1 final_vote_round)) ;;;
  (* [try_mutate] writes the vote back *)
  write (upd_VoteInfo <[(dispute_id, final_vote_round) := vote]>) ;;;
  deposit_event (VoteExecuted dispute_id result) ;;;
  ret final_vote_round.

Definition report_vote_executed (origin : RuntimeOrigin) (dispute_id : DisputeId) : Call Z :=
  ensure_origin GovernanceOrigin origin ;;;
  execute_vote dispute_id.

(** ** Disputes *)

Definition dispute_id_of (query_id : QueryId) (timestamp : Timestamp) : DisputeId :=
  keccak256 (abi_encode
    [Uint ParachainId; FixedBytes (to_be_bytes 32 query_id); Uint timestamp]).

(** The first round: the dispute is recorded and the value removed. *)
Definition begin_first_round (query_id : QueryId) (timestamp : Timestamp)
    (dispute_id : DisputeId) (vote : Vote) : Call (Vote * Dispute * Z) :=
  let* t := now in
  let* age := ok_or_arith (checked_sub u64_max t timestamp) Underflow in
  ensure_that (age <? REPORTING_LOCK) DisputeReportingPeriodExpired ;;;
  let* maybe_open := read (fun s => OpenDisputesOnId s !! query_id) in
  let* open_disputes := ok_or_arith (checked_add u32_max (default 0 maybe_open) 1) Overflow in
  write (upd_OpenDisputesOnId <[query_id := open_disputes]>) ;;;
  let* maybe_open := read (fun s => OpenDisputesOnId s !! query_id) in
  let* open_disputes := ok_or_error maybe_open InvalidIndex in
  let* exponent := expect (checked_sub u32_max open_disputes 1) in
  let vote := set_vote_fee
    (saturating_mul u128_max (vote_fee vote) (saturating_pow u128_max 2 exponent)) vote in
  let* maybe_value := read (fun s => retrieve_data s query_id timestamp) in
  let* value := ok_or_error maybe_value InvalidTimestamp in
  let* maybe_reporter := read (fun s => get_reporter_by_timestamp s query_id timestamp) in
  let* disputed_reporter := ok_or_error maybe_reporter NoValueExists in
  let* slashed_amount := read (fun s => StakeAmount s) in
  let dispute :=
    {| dsp_query_id := query_id; dsp_timestamp := timestamp; dsp_value := value;
       dsp_disputed_reporter := disputed_reporter; dsp_slashed_amount := slashed_amount |} in
  write (upd_DisputeIdsByReporter (union {[(disputed_reporter, dispute_id)]})) ;;;
  write (upd_DisputeInfo <[dispute_id := dispute]>) ;;;
  let* disputed_timestamps := remove_value query_id timestamp in
  ret (vote, dispute, disputed_timestamps).

(** A further round, within a day of the tally of the previous one. *)
Definition begin_next_round (dispute_id : DisputeId) (vote_round : Z) (vote : Vote)
    : Call (Vote * Dispute * Z) :=
  let* prev_id := ok_or_arith (checked_sub u8_max vote_round 1) Underflow in
  let* maybe_prev := read (fun s => VoteInfo s !! (dispute_id, prev_id)) in
  let* prev_vote := ok_or_error maybe_prev InvalidVote in
  let* t := now in
  let* age := ok_or_arith (checked_sub u64_max t (vote_tally_date prev_vote)) Underflow in
  ensure_that (age <? DAYS) DisputeRoundReportingPeriodExpired ;;;
  ensure_that (negb (vote_executed prev_vote)) VoteAlreadyExecuted ;;;
  let* exponent := expect (checked_sub u8_max vote_round 1) in
  let vote := set_vote_fee
    (saturating_mul u128_max (vote_fee vote) (saturating_pow u128_max 2 exponent)) vote in
  let* maybe_dispute := read (fun s => DisputeInfo s !! dispute_id) in
  let* dispute := ok_or_error maybe_dispute InvalidDispute in
  ret (vote, dispute, 0).

Definition begin_dispute (origin : RuntimeOrigin) (query_id : QueryId)
    (timestamp : Timestamp) (beneficiary : option Address) : Call Z :=
  let* dispute_initiator := ensure_signed origin in
  let* own := read (fun s => stk_address <$> StakerDetails s !! dispute_initiator) in
  let* beneficiary := ok_or_error
    (match beneficiary with Some b => Some b | None => own end) NotReporter in
  let* known := read (fun s => bool_decide (is_Some (Reports s !! (query_id, timestamp)))) in
  ensure_that known NoValueExists ;;;
  let dispute_id := dispute_id_of query_id timestamp in
  (* push a new vote round *)
  let* vote_rounds := read (fun s => value_or_zero (VoteRounds s) dispute_id) in
  let* vote_round := ok_or_error (checked_add u8_max vote_rounds 1) MaxVoteRoundsReached in
  ensure_that (negb (MAX_VOTE_ROUNDS <? vote_round)) MaxVoteRoundsReached ;;;
  write (upd_VoteRounds <[dispute_id := vote_round]>) ;;;
  let* start_date := now in
  let* block_number := read (fun s => sys_block_number s) in
  let* dispute_fee := read (fun s => get_dispute_fee s) in
  let vote :=
    {| vote_identifier := dispute_id; vote_vote_round := vote_round;
       vote_start_date := start_date; vote_block_number := block_number;
       vote_fee := dispute_fee; vote_tally_date := 0; vote_users := Tally_default;
       vote_reporters := Tally_default; vote_sent := false; vote_executed := false;
       vote_result := None; vote_initiator := dispute_initiator |} in
  let* round :=
    if vote_round =? 1 then begin_first_round query_id timestamp dispute_id vote
    else begin_next_round dispute_id vote_round vote in
  let '(vote, dispute, disputed_timestamps) := round in
  let* base_fee := read (fun s => DisputeFee s) in
  let stake_amount := saturating_mul u128_max base_fee 10 in
  let vote := if stake_amount <? vote_fee vote then set_vote_fee stake_amount vote else vote in
  let* count := read (fun s => VoteCount s) in
  write (upd_VoteCount (fun _ => saturating_add u64_max count 1)) ;;;
  transfer dispute_initiator dispute_fees (vote_fee vote) Protect ;;;
  write (upd_PendingVotes <[dispute_id :=
    (vote_round, wrapping_add u64_max (vote_start_date vote) (11 * HOURS))]>) ;;;
  write (upd_VoteInfo <[(dispute_id, vote_round) := vote]>) ;;;
  deposit_event (NewDispute dispute_id query_id timestamp (dsp_disputed_reporter dispute)) ;;;
  (* look up the reporter's address on the controller chain *)
  let* maybe_staker := read (fun s => StakerDetails s !! dsp_disputed_reporter dispute) in
  let* staker := ok_or_error maybe_staker NotReporter in
  send_contract_call GovernanceContract
    (begin_parachain_dispute (to_be_bytes 32 query_id) timestamp (dsp_value dispute)
       (stk_address staker) beneficiary (dsp_slashed_amount dispute))
    BEGIN_PARACHAIN_DISPUTE_GAS
    (NewDisputeSent (cl_para_id GovernanceContract) (cl_address GovernanceContract)) ;;;
  ret disputed_timestamps.

End Governance.
