(* ===== verification/GovernanceFacts.v ===== *)
(** * Governance: invariant and correctness

    What each call of the governance part does to its storage, and the invariant
    [disputes_wf]: rounds are dense and bounded, only the last round can be
    executed, and pending votes are unsent votes of the last round. *)

From S2P Require Import Prelude Types Config Storage Oracle OracleFacts Queries Xcm Governance.

(** ** Frames *)

Section Frames.
Context {T : Config}.

(** What the oracle's operations do not touch. *)
Definition beside_oracle (s : State) :=
  (st_staking s, st_governance s, st_autopay s, sys_now s, sys_block_number s,
   sys_sent s, sys_assets s).

Lemma keeps_remove_value_loop q p l : forall it,
  keeps beside_oracle (remove_value_loop q p l it).
Proof. induction l as [|i l IH]; intros it; simpl; solve_keeps. Qed.

#[local] Hint Resolve keeps_remove_value_loop : frame.

Lemma keeps_remove_value q ts : keeps beside_oracle (remove_value q ts).
Proof. unfold remove_value. solve_keeps. Qed.

(** What sending a message does not touch. *)
Definition beside_sent (s : State) :=
  (st_oracle s, st_staking s, st_governance s, st_autopay s, sys_now s, sys_block_number s,
   sys_assets s).

Lemma keeps_send_contract_call c d g e : keeps beside_sent (send_contract_call c d g e).
Proof. unfold send_contract_call, bounded_input, transact, send_xcm. solve_keeps. Qed.
End Frames.

(** ** Beginning a dispute *)

Section Begin.
Context {T : Config}.
Implicit Types s : State.

(** The fee of the [e + 1]-th dispute or round, at most ten times the base. *)
Definition capped_fee (base e : Z) : Balance :=
  let fee := saturating_mul u128_max base (saturating_pow u128_max 2 e) in
  let cap := saturating_mul u128_max base 10 in
  if cap <? fee then cap else fee.

Lemma capped_fee_min base e : 0 <= base -> base * 10 <= u128_max -> 0 <= e ->
  capped_fee base e = Z.min (base * 10) (base * 2 ^ e).
Proof.
  intros Hb Hmax He. unfold capped_fee, saturating_mul, saturating_pow.
  assert (Hp : 0 < 2 ^ e) by (apply Z.pow_pos_nonneg; lia).
  rewrite (Z.min_r u128_max (base * 10)) by done.
  destruct (Z.le_gt_cases (2 ^ e) u128_max).
  - rewrite (Z.min_r u128_max (2 ^ e)) by done.
    destruct (Z.ltb_spec (base * 10) (Z.min u128_max (base * 2 ^ e))); lia.
  - rewrite (Z.min_l u128_max (2 ^ e)) by lia.
    assert (base * u128_max <= base * 2 ^ e) by (apply Z.mul_le_mono_nonneg_l; lia).
    destruct (Z.ltb_spec (base * 10) (Z.min u128_max (base * u128_max))); [lia|].
    assert (base = 0 \/ 0 < base) as [->|] by lia; [lia|]. unfold u128_max in *. nia.
Qed.

(** A dispute that was begun: round [n] with the vote [v], on the dispute [d]. *)
Record disputed s s' (who : AccountId) (q : QueryId) (ts : Timestamp) (n e : Z)
    (v : Vote) (d : Dispute) : Prop := {
  ds_known : is_Some (Reports s !! (q, ts));
  ds_round : n = value_or_zero (VoteRounds s) (dispute_id_of q ts) + 1;
  ds_max : 0 <= n <= MAX_VOTE_ROUNDS;
  ds_exponent : 0 <= e;
  ds_first : n = 1 ->
    0 <= sys_now s - ts < REPORTING_LOCK /\ e = default 0 (OpenDisputesOnId s !! q) /\
    (exists v, retrieve_data s q ts = Some v /\ dsp_value d = v) /\
    Some (dsp_disputed_reporter d) = get_reporter_by_timestamp s q ts /\
    dsp_query_id d = q /\ dsp_timestamp d = ts /\ dsp_slashed_amount d = StakeAmount s /\
    DisputeInfo s' = <[dispute_id_of q ts := d]> (DisputeInfo s) /\
    OpenDisputesOnId s' = <[q := e + 1]> (OpenDisputesOnId s) /\
    DisputeIdsByReporter s' =
      {[(dsp_disputed_reporter d, dispute_id_of q ts)]} ∪ DisputeIdsByReporter s /\
    exists it s1 s2, remove_value q ts s1 = (Ok it, s2) /\ st_oracle s1 = st_oracle s /\
                     sys_now s1 = sys_now s /\ st_oracle s' = st_oracle s2;
  ds_next : n <> 1 ->
    e = n - 1 /\
    (exists prev, VoteInfo s !! (dispute_id_of q ts, n - 1) = Some prev /\
      0 <= sys_now s - vote_tally_date prev < DAYS /\ vote_executed prev = false) /\
    DisputeInfo s !! dispute_id_of q ts = Some d /\
    DisputeInfo s' = DisputeInfo s /\ OpenDisputesOnId s' = OpenDisputesOnId s /\
    DisputeIdsByReporter s' = DisputeIdsByReporter s /\ st_oracle s' = st_oracle s;
  ds_vote : v =
    {| vote_identifier := dispute_id_of q ts; vote_vote_round := n;
       vote_start_date := sys_now s; vote_block_number := sys_block_number s;
       vote_fee := capped_fee (DisputeFee s) e; vote_tally_date := 0;
       vote_users := Tally_default; vote_reporters := Tally_default; vote_sent := false;
       vote_executed := false; vote_result := None; vote_initiator := who |};
  ds_VoteInfo : VoteInfo s' = <[(dispute_id_of q ts, n) := v]> (VoteInfo s);
  ds_VoteRounds : VoteRounds s' = <[dispute_id_of q ts := n]> (VoteRounds s);
  ds_Pending : PendingVotes s' =
    <[dispute_id_of q ts := (n, wrapping_add u64_max (sys_now s) (11 * HOURS))]> (PendingVotes s);
  ds_count : VoteCount s' = saturating_add u64_max (VoteCount s) 1;
  ds_Votes : Votes s' = Votes s;
  ds_tally : VoteTallyByAddress s' = VoteTallyByAddress s;
  ds_fee : DisputeFee s' = DisputeFee s;
  ds_paid : asset_transfer (sys_assets s) who dispute_fees (vote_fee v) Protect
            = inr (sys_assets s');
  ds_staking : st_staking s' = st_staking s;
  ds_autopay : st_autopay s' = st_autopay s;
  ds_now : sys_now s' = sys_now s;
}.

(** The governance storage that the first part of a dispute leaves alone. *)
Definition gov_rest s :=
  (DisputeFee s, PendingVotes s, VoteCount s, VoteInfo s, VoteRounds s, Votes s,
   VoteTallyByAddress s, st_staking s, st_autopay s, sys_now s, sys_block_number s,
   sys_assets s).

(** [vote.fee.saturating_mul(2.saturating_pow(e))] *)
Definition scaled_vote (e : Z) (v : Vote) : Vote :=
  set_vote_fee (saturating_mul u128_max (vote_fee v) (saturating_pow u128_max 2 e)) v.
#[local] Arguments scaled_vote : simpl never.

Lemma begin_first_round_Ok q ts id v0 s v d it s' :
  begin_first_round q ts id v0 s = (Ok (v, d, it), s') ->
  exists e, v = scaled_vote e v0 /\ gov_rest s' = gov_rest s /\ 0 <= e /\
    0 <= sys_now s - ts < REPORTING_LOCK /\ e = default 0 (OpenDisputesOnId s !! q) /\
    (exists v, retrieve_data s q ts = Some v /\ dsp_value d = v) /\
    Some (dsp_disputed_reporter d) = get_reporter_by_timestamp s q ts /\
    dsp_query_id d = q /\ dsp_timestamp d = ts /\ dsp_slashed_amount d = StakeAmount s /\
    DisputeInfo s' = <[id := d]> (DisputeInfo s) /\
    OpenDisputesOnId s' = <[q := e + 1]> (OpenDisputesOnId s) /\
    DisputeIdsByReporter s' =
      {[(dsp_disputed_reporter d, id)]} ∪ DisputeIdsByReporter s /\
    exists s1, remove_value q ts s1 = (Ok it, s') /\ st_oracle s1 = st_oracle s /\
               sys_now s1 = sys_now s.
Proof.
  unfold begin_first_round. intros H. cinv. conditions. simplify_eq. simpl in *.
  match goal with H : <[_:=_]> _ !! _ = Some _ |- _ => rewrite lookup_insert_eq in H end.
  simplify_eq.
  match goal with H : remove_value _ _ _ = _ |- _ =>
    pose proof (keeps_run _ _ _ _ _ (keeps_remove_value q ts) H) as Hk end.
  unfold beside_oracle in Hk. split_pairs. simpl in *.
  exists (default 0 (OpenDisputesOnId s !! q)). unfold gov_rest, scaled_vote.
  repeat match goal with H : ?f ?x = _, R : remove_value _ _ _ = (_, ?x) |- _ =>
    rewrite H; clear H end.
  replace (default 0 (OpenDisputesOnId s !! q) + 1 - 1)
    with (default 0 (OpenDisputesOnId s !! q)) by lia.
  split_and!; try (simpl; congruence); try lia; eauto.
Qed.

Lemma begin_next_round_Ok id n v0 s v d it s' :
  begin_next_round id n v0 s = (Ok (v, d, it), s') ->
  s' = s /\ v = scaled_vote (n - 1) v0 /\ 0 <= n - 1 /\ DisputeInfo s !! id = Some d /\
  exists prev, VoteInfo s !! (id, n - 1) = Some prev /\
    0 <= sys_now s - vote_tally_date prev < DAYS /\ vote_executed prev = false.
Proof.
  unfold begin_next_round. intros H. cinv. conditions. simplify_eq.
  split_and!; try done; try lia. eexists. split_and!; try done. lia.
Qed.

Lemma capped_scaled base e v : vote_fee v = base ->
  (if saturating_mul u128_max base 10 <? vote_fee (scaled_vote e v)
   then set_vote_fee (saturating_mul u128_max base 10) (scaled_vote e v)
   else scaled_vote e v) = set_vote_fee (capped_fee base e) v.
Proof.
  intros <-. unfold capped_fee, scaled_vote. cbn [vote_fee set_vote_fee].
  by destruct (_ <? saturating_mul _ _ (saturating_pow _ _ _)).
Qed.

Lemma begin_dispute_Ok origin q ts b s it s' :
  begin_dispute origin q ts b s = (Ok it, s') ->
  exists who n e v d, origin = Signed who /\ disputed s s' who q ts n e v d.
Proof.
  unfold begin_dispute. intros H. cinv. conditions.
  set (id := dispute_id_of q ts) in *. subst. cinv.
  match goal with H : _ = (Ok ?r, _) |- _ => is_var r; destruct r as [[v1 d] it'];
    rename H into Hround end. cinv.
  match goal with H : send_contract_call _ _ _ _ _ = _ |- _ =>
    apply (keeps_run _ _ _ _ _ (keeps_send_contract_call _ _ _ _)) in H as Hk; clear H end.
  unfold beside_sent in Hk. split_pairs. simpl in *.
  set (n := value_or_zero (VoteRounds s) id + 1) in *.
  set (v0 := Build_Vote _ _ _ _ _ _ _ _ _ _ _ _) in Hround.
  destruct (Z.eqb_spec n 1) as [Hn|Hn];
    [apply begin_first_round_Ok in Hround as (e & Hv1 & Hrest & He & Hround)
    |apply begin_next_round_Ok in Hround as (-> & Hv1 & He & Hround)];
    [exists a, n, e, (set_vote_fee (capped_fee (DisputeFee s) e) v0), d
    |exists a, n, (n - 1), (set_vote_fee (capped_fee (DisputeFee s) (n - 1)) v0), d];
    (split; [done|]).
  - unfold gov_rest in Hrest. split_pairs. simpl in *.
    destruct Hround as (R1 & R2 & R3 & R4 & R5 & R6 & R7 & R8 & R9 & R10 & sr & R11).
    match goal with Hg : st_governance _ = Build_GovernanceStore _ _ _ _ _ _ _ _ _ _,
      Ht : asset_transfer _ _ _ _ _ = _, Hf : DisputeFee _ = DisputeFee _ |- _ =>
      rewrite Hf in Hg, Ht; rewrite Hv1, (capped_scaled (DisputeFee s) e v0 eq_refl) in Hg;
      rewrite Hv1, (capped_scaled (DisputeFee s) e v0 eq_refl) in Ht; subst id;
      split; try (rewrite Hg; simpl); try done; try congruence; try lia
    end.
    intros _. split_and!; try done; try apply R1.
    eexists _, sr, _. split_and!; try apply R11. congruence.
  - simpl in *. destruct Hround as [R1 R2].
    match goal with Hg : st_governance _ = Build_GovernanceStore _ _ _ _ _ _ _ _ _ _,
      Ht : asset_transfer _ _ _ _ _ = _ |- _ =>
      rewrite Hv1, (capped_scaled (DisputeFee s) (n - 1) v0 eq_refl) in Hg;
      rewrite Hv1, (capped_scaled (DisputeFee s) (n - 1) v0 eq_refl) in Ht; subst id;
      split; try (rewrite Hg; simpl); try done; try congruence; try lia
    end.
Qed.
End Begin.

(** ** The invariant *)

Section Invariant.
Context {T : Config}.
Implicit Types (g : GovernanceStore) (s : State).

Definition rounds g (id : DisputeId) : Z := value_or_zero (VoteRounds g) id.

(** One round: its own identifier and number; it is only executed after it was
    tallied, and a tallied round has a result. *)
Record round_wf g (id r : Z) (v : Vote) : Prop := {
  rw_identifier : vote_identifier v = id;
  rw_round : vote_vote_round v = r;
  rw_executed : vote_executed v = true -> vote_tally_date v <> 0 /\ r = rounds g id;
  rw_tallied : vote_tally_date v <> 0 -> is_Some (vote_result v);
}.

Record dispute_wf g (id : DisputeId) : Prop := {
  dw_rounds : 0 <= rounds g id <= MAX_VOTE_ROUNDS;
  dw_votes : forall r, is_Some (VoteInfo g !! (id, r)) <-> 1 <= r <= rounds g id;
  dw_dispute : is_Some (DisputeInfo g !! id) <-> 1 <= rounds g id;
  dw_round : forall r v, VoteInfo g !! (id, r) = Some v -> round_wf g id r v;
  dw_pending : forall r t, PendingVotes g !! id = Some (r, t) ->
    r = rounds g id /\ exists v, VoteInfo g !! (id, r) = Some v /\ vote_sent v = false;
}.

Definition disputes_wf g : Prop := forall id, dispute_wf g id.

(** The parts of the governance storage the invariant reads. *)
Definition dispute_parts g := (VoteRounds g, VoteInfo g, DisputeInfo g, PendingVotes g).

Lemma disputes_wf_parts g g' :
  dispute_parts g' = dispute_parts g -> disputes_wf g -> disputes_wf g'.
Proof.
  unfold dispute_parts. intros Hp. split_pairs. intros Hwf id. specialize (Hwf id).
  assert (Hr : rounds g' id = rounds g id) by (unfold rounds; congruence).
  destruct Hwf as [W1 W2 W3 W4 W5]. split; rewrite ?Hr;
    repeat match goal with H : ?f g' = ?f g |- _ => rewrite H; clear H end; try done.
  intros r v Hv. destruct (W4 r v Hv). split; rewrite ?Hr; done.
Qed.

(** Replacing the last round of a dispute. *)
Lemma disputes_wf_update g g' id v v' :
  disputes_wf g -> VoteInfo g !! (id, rounds g id) = Some v ->
  VoteRounds g' = VoteRounds g -> DisputeInfo g' = DisputeInfo g ->
  VoteInfo g' = <[(id, rounds g id) := v']> (VoteInfo g) ->
  round_wf g id (rounds g id) v' ->
  (forall i, i <> id -> PendingVotes g' !! i = PendingVotes g !! i) ->
  (PendingVotes g' !! id = None \/
   PendingVotes g' !! id = PendingVotes g !! id /\ vote_sent v' = vote_sent v) ->
  disputes_wf g'.
Proof.
  intros Hwf Hv ER ED EV Hv' Hother Hpend i.
  assert (Hr : rounds g' i = rounds g i) by (unfold rounds; congruence).
  destruct (Hwf i) as [H1 H2 H3 H4 H5]. split; rewrite ?Hr, ?ED, ?EV; try done.
  - intros r. rewrite <- H2. destruct (decide ((id, rounds g id) = (i, r))) as [[= <- <-]|Hne].
    + rewrite lookup_insert_eq, Hv. split; intros _; by eexists.
    + by rewrite lookup_insert_ne.
  - intros r w. destruct (decide ((id, rounds g id) = (i, r))) as [[= <- <-]|Hne].
    + rewrite lookup_insert_eq. intros [= <-]. destruct Hv'. split; rewrite ?Hr; done.
    + rewrite lookup_insert_ne by done. intros Hw. destruct (H4 r w Hw). split; rewrite ?Hr; done.
  - intros r t Hp. destruct (decide (i = id)) as [->|Hne].
    + destruct Hpend as [Hnone|[Hsame Hs]]; [congruence|].
      rewrite Hsame in Hp. destruct (H5 _ _ Hp) as (-> & w & Hw & Hws). split; [done|].
      exists v'. rewrite lookup_insert_eq. split; congruence.
    + rewrite Hother in Hp by done. destruct (H5 _ _ Hp) as (-> & w & Hw & Hws).
      split; [done|]. exists w. rewrite lookup_insert_ne by congruence. done.
Qed.

(** Adding a round. *)
Section Added.
Context (s s' : State) (who : AccountId) (q : QueryId) (ts : Timestamp) (n e : Z) (v : Vote)
  (d : Dispute) (Hwf : disputes_wf s) (Hd : disputed s s' who q ts n e v d).
Abbreviation id := (dispute_id_of q ts).

Lemma added_number : n = rounds s id + 1.
Proof. exact (ds_round _ _ _ _ _ _ _ _ _ Hd). Qed.

Lemma added_rounds i : rounds s' i = if decide (i = id) then n else rounds s i.
Proof.
  unfold rounds, value_or_zero. rewrite (ds_VoteRounds _ _ _ _ _ _ _ _ _ Hd). goal_decide; subst.
  - by rewrite lookup_insert_eq.
  - by rewrite lookup_insert_ne.
Qed.

Lemma added_dispute : is_Some (DisputeInfo s' !! id) /\
  forall i, i <> id -> DisputeInfo s' !! i = DisputeInfo s !! i.
Proof.
  destruct (Z.eq_dec n 1) as [H1|H1].
  - apply (ds_first _ _ _ _ _ _ _ _ _ Hd) in H1 as (_&_&_&_&_&_&_&->&_).
    split; [rewrite lookup_insert_eq; by eexists|]. intros i Hi. by rewrite lookup_insert_ne.
  - apply (ds_next _ _ _ _ _ _ _ _ _ Hd) in H1 as (_&_&Hid&->&_). split; [by eexists|done].
Qed.

(** A round is only added to a dispute that was not executed. *)
Lemma added_previous w : VoteInfo s !! (id, rounds s id) = Some w -> vote_executed w = false.
Proof.
  intros Hw. pose proof added_number as Hn. assert (Hn1 : n <> 1).
  { intros ->. assert (1 <= rounds s id <= rounds s id) by (apply (dw_votes _ _ (Hwf id)); by eexists).
    lia. }
  apply (ds_next _ _ _ _ _ _ _ _ _ Hd) in Hn1 as (_ & (p & Hp & _ & Hx) & _).
  replace (n - 1) with (rounds s id) in Hp by lia. congruence.
Qed.

Lemma added_wf : dispute_wf s' id.
Proof.
  destruct (Hwf id) as [H1 H2 H3 H4 H5]. pose proof added_number as Hn.
  pose proof (added_rounds id) as Hr. rewrite decide_True in Hr by done.
  pose proof (ds_VoteInfo _ _ _ _ _ _ _ _ _ Hd) as EV.
  pose proof (ds_max _ _ _ _ _ _ _ _ _ Hd) as Hmax. pose proof (ds_vote _ _ _ _ _ _ _ _ _ Hd) as Ev.
  split; rewrite ?Hr, ?EV; [lia| | | |].
  - intros r. destruct (Z.eq_dec r n) as [->|Hrn].
    + rewrite lookup_insert_eq. split; [lia|by eexists].
    + rewrite lookup_insert_ne by congruence. rewrite H2. lia.
  - split; [lia|]. intros _. apply added_dispute.
  - intros r w. destruct (Z.eq_dec r n) as [->|Hrn].
    + rewrite lookup_insert_eq. intros [= <-]. rewrite Ev. by split.
    + rewrite lookup_insert_ne by congruence. intros Hw. destruct (H4 r w Hw) as [? ? Hx ?].
      split; [done|done| |done]. intros Hx'. destruct (Hx Hx') as [_ ->].
      rewrite (added_previous w Hw) in Hx'. done.
  - intros r t. rewrite (ds_Pending _ _ _ _ _ _ _ _ _ Hd), lookup_insert_eq. intros [= <- <-].
    split; [done|]. exists v. rewrite lookup_insert_eq. split; [done|]. by rewrite Ev.
Qed.

Lemma beside_added_wf i : i <> id -> dispute_wf s' i.
Proof.
  intros Hne. destruct (Hwf i) as [H1 H2 H3 H4 H5].
  pose proof (added_rounds i) as Hr. rewrite decide_False in Hr by done.
  pose proof (proj2 added_dispute i Hne) as HD.
  pose proof (ds_VoteInfo _ _ _ _ _ _ _ _ _ Hd) as EV.
  pose proof (ds_Pending _ _ _ _ _ _ _ _ _ Hd) as EP.
  split; rewrite ?Hr, ?EV, ?EP, ?HD by done; [done| |done| |].
  - intros r. by rewrite lookup_insert_ne by congruence.
  - intros r w. rewrite lookup_insert_ne by congruence. intros Hw.
    destruct (H4 r w Hw). by split; rewrite ?Hr.
  - intros r t. rewrite lookup_insert_ne by done. intros Hp.
    destruct (H5 _ _ Hp) as (-> & w & Hw & Hs). split; [done|]. exists w.
    by rewrite lookup_insert_ne by congruence.
Qed.
End Added.

Lemma disputed_wf s s' who q ts n e v d : disputes_wf s ->
  disputed s s' who q ts n e v d -> disputes_wf s'.
Proof.
  intros Hwf Hd i. destruct (decide (i = dispute_id_of q ts)) as [->|Hne].
  - by eapply added_wf.
  - by eapply beside_added_wf.
Qed.
End Invariant.

(** ** Votes *)

Section Voting.
Context {T : Config}.
Implicit Types s : State.

(** A vote that was cast: what it needs, and its effect. *)
Record voted s s' (who : AccountId) (id : DisputeId) (supports : option bool) (v : Vote)
    : Prop := {
  vt_known : dispute_exists s id = true;
  vt_vote : VoteInfo s !! (id, rounds s id) = Some v;
  vt_untallied : vote_tally_date v = 0;
  vt_once : did_vote s id (vote_vote_round v) who = false;
  vt_unsent : vote_sent v = false;
  vt_effect : s' =
    upd_sys_events (cons (Voted id supports who))
   (upd_VoteTallyByAddress
      <[who := saturating_add u32_max (value_or_zero (VoteTallyByAddress s) who) 1]>
   (upd_VoteInfo <[(id, rounds s id) :=
      set_vote_users (tally_vote supports (get_tips_by_address s who) (vote_users v))
        (set_vote_reporters
           (tally_vote supports (get_reports_submitted_by_address s who) (vote_reporters v)) v)]>
   (upd_Votes <[(id, rounds s id, who) := true]> s)));
}.

Lemma do_vote_Ok who id supports s u s' :
  do_vote who id supports s = (Ok u, s') -> exists v, voted s s' who id supports v.
Proof.
  unfold do_vote. intros H. cinv. conditions. eexists. by split.
Qed.

Lemma voted_wf s s' who id supports v : disputes_wf s ->
  voted s s' who id supports v -> disputes_wf s'.
Proof.
  intros Hwf [_ Hv _ _ _ ->].
  eapply (disputes_wf_update s _ id v); try done; [|simpl; auto].
  destruct (dw_round _ _ (Hwf id) _ _ Hv). by split.
Qed.

(** ** Tallies *)

Record tallied s s' (id : DisputeId) (result : VoteResult) (v : Vote) (d : Dispute)
    : Prop := {
  tl_vote : VoteInfo s !! (id, rounds s id) = Some v;
  tl_dispute : DisputeInfo s !! id = Some d;
  tl_executed : vote_executed v = false;
  tl_untallied : vote_tally_date v = 0;
  tl_time : Z.min (vote_vote_round v) 6 * DAYS <= sys_now s - vote_start_date v;
  tl_effect : s' =
    upd_sys_events (cons (VoteTallied id result (vote_initiator v) (dsp_disputed_reporter d)))
   (upd_VoteInfo <[(id, rounds s id) :=
      set_vote_tally_date (sys_now s) (set_vote_result (Some result) v)]> s);
}.

Lemma tally_votes_Ok id result s u s' :
  tally_votes id result s = (Ok u, s') -> exists v d, tallied s s' id result v d.
Proof.
  unfold tally_votes. intros H. cinv. conditions. subst. simpl in *.
  eexists _, _. split; try done.
  match goal with H : _ \/ _ |- _ => destruct H end; conditions; unfold DAYS, HOURS, MINUTES in *; lia.
Qed.

Lemma tallied_wf s s' id result v d : disputes_wf s ->
  tallied s s' id result v d -> disputes_wf s'.
Proof.
  intros Hwf [Hv _ Hx _ _ ->].
  eapply (disputes_wf_update s _ id v); try done; [|simpl; auto].
  destruct (dw_round _ _ (Hwf id) _ _ Hv). split; simpl; try done; congruence.
Qed.

(** ** Execution *)

(** The payments of a dispute, last round first: each round's fee to its
    initiator, or to the disputed reporter when the dispute failed. *)
Definition payee (result : VoteResult) (d : Dispute) (v : Vote) : AccountId * Balance :=
  (match result with Failed => dsp_disputed_reporter d | _ => vote_initiator v end, vote_fee v).

Definition payments s (id : DisputeId) (result : VoteResult) (d : Dispute) (l : list Z)
    : option (list (AccountId * Balance)) :=
  mapM (fun r => payee result d <$> VoteInfo s !! (id, r)) l.

(** Transfers out of one account, in order. *)
Fixpoint transfers (st : AssetState) (src : AccountId) (l : list (AccountId * Balance))
    : Z + AssetState :=
  match l with
  | [] => inr st
  | (dst, amt) :: l' =>
      match asset_transfer st src dst amt Protect with
      | inl c => inl c
      | inr st' => transfers st' src l'
      end
  end.

Lemma pay_rounds_Ok id result d fv n l : forall s u s',
  (exists v, VoteInfo s !! (id, n) = Some v /\ vote_initiator fv = vote_initiator v /\
             vote_fee fv = vote_fee v) ->
  pay_rounds id result d fv n l s = (Ok u, s') ->
  exists ps a, payments s id result d l = Some ps /\
    transfers (sys_assets s) dispute_fees ps = inr a /\ s' = upd_sys_assets (fun _ => a) s.
Proof.
  induction l as [|r l IH]; intros s u s' Hfv H; simpl in H.
  - cinv. exists [], (sys_assets s). split; [done|]. split; [done|]. by destruct s as [? ? ? ? []].
  - apply bind_Ok in H as ([w fee] & s1 & H1 & H). cinv.
    assert (Hr : s1 = s /\ exists v, VoteInfo s !! (id, r) = Some v /\
                 (w, fee) = (vote_initiator v, vote_fee v)).
    { destruct (Z.eqb_spec r n) as [->|].
      - destruct Hfv as (v & Hv & E1 & E2). cinv. split; [done|]. exists v. split; congruence.
      - cinv. destruct (VoteInfo s !! (id, r)) as [v|]; simplify_eq/=. eauto. }
    destruct Hr as (-> & v & Hv & [= -> ->]).
    match goal with Ht : asset_transfer _ _ _ _ _ = inr ?x |- _ =>
      apply IH in H as (ps & b & Hps & Htr & ->); [|done] end.
    eexists (payee result d v :: ps), b. split_and!.
    + unfold payments in *. simpl. rewrite Hv. simpl. simpl in Hps. by rewrite Hps.
    + simpl. unfold payee. destruct result; simpl in *;
        match goal with Ht : asset_transfer _ _ _ _ _ = inr _ |- _ => by rewrite Ht end.
    + by destruct s as [? ? ? ? []].
Qed.

Record executed s s' (id : DisputeId) (n : Z) (result : VoteResult) (v : Vote) (d : Dispute)
    : Prop := {
  ex_known : dispute_exists s id = true;
  ex_round : n = rounds s id /\ 0 < n;
  ex_vote : VoteInfo s !! (id, n) = Some v;
  ex_once : vote_executed v = false;
  ex_tallied : 0 < vote_tally_date v /\ vote_result v = Some result;
  ex_time : DAYS <= sys_now s - vote_tally_date v;
  ex_dispute : DisputeInfo s !! id = Some d;
  ex_paid : exists ps, payments s id result d (reverse (seqZ 1 n)) = Some ps /\
              transfers (sys_assets s) dispute_fees ps = inr (sys_assets s');
  ex_open : OpenDisputesOnId s' = alter (fun k => saturating_sub k 1) (dsp_query_id d)
                                    (OpenDisputesOnId s);
  ex_effect : VoteInfo s' = <[(id, n) := set_vote_executed true v]> (VoteInfo s);
  ex_rest : (VoteRounds s', DisputeInfo s', PendingVotes s', Votes s', VoteCount s',
             VoteTallyByAddress s', DisputeFee s', DisputeIdsByReporter s', st_oracle s',
             st_staking s', st_autopay s', sys_now s', sys_sent s')
          = (VoteRounds s, DisputeInfo s, PendingVotes s, Votes s, VoteCount s,
             VoteTallyByAddress s, DisputeFee s, DisputeIdsByReporter s, st_oracle s,
             st_staking s, st_autopay s, sys_now s, sys_sent s);
}.

(** The decrement of [OpenDisputesOnId]. *)
Lemma close_dispute_Ok q s u s' :
  match OpenDisputesOnId s !! q with
  | Some disputes =>
      modify (E := DispatchError)
        (upd_OpenDisputesOnId <[q := saturating_sub disputes 1]>)
  | None => ret tt
  end s = (Ok u, s') ->
  s' = upd_OpenDisputesOnId (alter (fun k => saturating_sub k 1) q) s.
Proof.
  destruct (OpenDisputesOnId s !! q) as [k|] eqn:Hk; intros H; minv; destruct s as [? ? [] ? ?];
    unfold upd_OpenDisputesOnId, upd_st_governance; simpl in *; do 2 f_equal.
  - apply map_eq. intros j. destruct (decide (q = j)) as [<-|].
    + by rewrite lookup_insert_eq, lookup_alter_eq, Hk.
    + by rewrite lookup_insert_ne, lookup_alter_ne.
  - apply map_eq. intros j. destruct (decide (q = j)) as [<-|].
    + by rewrite lookup_alter_eq, Hk.
    + by rewrite lookup_alter_ne.
Qed.

Lemma execute_vote_Ok id s n s' :
  execute_vote id s = (Ok n, s') -> exists result v d, executed s s' id n result v d.
Proof.
  unfold execute_vote. intros H. cinv. conditions. subst.
  match goal with H : (match OpenDisputesOnId _ !! _ with _ => _ end) _ = _ |- _ =>
    apply close_dispute_Ok in H as -> end.
  match goal with H : pay_rounds _ _ _ _ _ _ _ = _ |- _ =>
    apply pay_rounds_Ok in H as (ps & a & Hps & Htr & ->); [|by eauto] end.
  simpl in *. eexists _, _, _. split; try done; try lia.
  by exists ps.
Qed.

Lemma executed_wf s s' id n result v d : disputes_wf s ->
  executed s s' id n result v d -> disputes_wf s'.
Proof.
  intros Hwf [_ [-> Hn] Hv Hx [Ht Hres] _ _ _ _ Heff Hrest]. split_pairs.
  eapply (disputes_wf_update s _ id v); try done.
  - destruct (dw_round _ _ (Hwf id) _ _ Hv). split; simpl; try done. intros _. lia.
  - intros i Hi. congruence.
  - right. split; [congruence|done].
Qed.

(** ** Sending *)

(** What [send_vote] does when it succeeds. *)
Lemma send_vote_Ok id r s u s' : send_vote id r s = (Ok u, s') ->
  exists v, VoteInfo s !! (id, r) = Some v /\ vote_sent v = false /\
    VoteInfo s' = <[(id, r) := set_vote_sent true v]> (VoteInfo s) /\
    PendingVotes s' = delete id (PendingVotes s) /\
    (VoteRounds s', DisputeInfo s', st_oracle s', st_staking s', st_autopay s', sys_now s',
     sys_assets s') =
    (VoteRounds s, DisputeInfo s, st_oracle s, st_staking s, st_autopay s, sys_now s,
     sys_assets s).
Proof.
  unfold send_vote. intros H. cinv. conditions.
  match goal with H : send_contract_call _ _ _ _ _ = _ |- _ =>
    apply (keeps_run _ _ _ _ _ (keeps_send_contract_call _ _ _ _)) in H as Hk; clear H end.
  unfold beside_sent in Hk. split_pairs. simpl in *.
  match goal with H : st_governance _ = st_governance s |- _ => rewrite H end.
  eexists. split_and!; try done. simpl. congruence.
Qed.

(** When it fails, only the messages and the events may differ. *)
Lemma send_vote_Err id r s e s' : send_vote id r s = (Err e, s') ->
  beside_sent s' = beside_sent s.
Proof.
  unfold send_vote, bind, read, gets, ok_or_error, ok_or, fail.
  destruct (VoteInfo s !! (id, r)) as [v|]; [|intros; by simplify_eq].
  unfold ret, ensure_that, ensure. destruct (vote_sent v); simpl; [intros; by simplify_eq|].
  destruct (send_contract_call _ _ _ _ s) as [[] s1] eqn:Hs; intros; simplify_eq.
  apply (keeps_run _ _ _ _ _ (keeps_send_contract_call _ _ _ _) Hs).
Qed.
End Voting.

Section Sending.
Context {T : Config}.
Implicit Types s : State.

(** One turn of the loop of [do_send_votes]. *)
Definition send_turn (n : Z) (entry : DisputeId * (Z * Timestamp)) : Call Z :=
  let '(dispute_id, (vote_round, _)) := entry in
  attempt (send_vote dispute_id vote_round) ;;;
  ret (saturating_add u32_max n 1).

(** The votes sent or attempted: nothing else changes. *)
Record sent_turn s s' (id : DisputeId) : Prop := {
  st_wf : disputes_wf s -> disputes_wf s';
  st_others : forall i, i <> id -> PendingVotes s' !! i = PendingVotes s !! i;
  st_votes : forall i r, i <> id -> VoteInfo s' !! (i, r) = VoteInfo s !! (i, r);
  st_beside : (st_oracle s', st_staking s', st_autopay s', sys_now s', sys_assets s',
               VoteRounds s', DisputeInfo s') =
              (st_oracle s, st_staking s, st_autopay s, sys_now s, sys_assets s,
               VoteRounds s, DisputeInfo s);
  st_sent : (length (sys_sent s') <= S (length (sys_sent s)))%nat;
}.

Lemma send_contract_call_sent c d g e s r s' : send_contract_call c d g e s = (r, s') ->
  (length (sys_sent s') <= S (length (sys_sent s)))%nat.
Proof.
  unfold send_contract_call, bounded_input, transact, send_xcm, bind. intros H.
  repeat (case_match; simplify_eq); unfold_calls; unfold ret, fail, modify, gets, ok_or in *;
    repeat (case_match; simplify_eq/=); simplify_eq/=; lia.
Qed.

Lemma send_vote_sent id r s o s' : send_vote id r s = (o, s') ->
  (length (sys_sent s') <= S (length (sys_sent s)))%nat.
Proof.
  unfold send_vote, bind, read, gets, ok_or_error, ok_or, fail.
  destruct (VoteInfo s !! (id, r)) as [v|]; [|intros; simplify_eq; lia].
  unfold ret, ensure_that, ensure. destruct (vote_sent v); simpl; [intros; simplify_eq/=; lia|].
  destruct (send_contract_call _ _ _ _ s) as [[] s1] eqn:Hs; intros; unfold write, modify in *;
    simplify_eq/=; apply send_contract_call_sent in Hs; lia.
Qed.

Lemma send_turn_Ok n id r t s m s' : PendingVotes s !! id = Some (r, t) ->
  send_turn n (id, (r, t)) s = (Ok m, s') ->
  m = saturating_add u32_max n 1 /\ sent_turn s s' id.
Proof.
  intros Hp H. unfold send_turn in H. cinv. split; [done|].
  match goal with H : attempt _ _ = _ |- _ =>
    apply attempt_Ok in H as [(u & _ & H)|(e & _ & H)];
    pose proof (send_vote_sent _ _ _ _ _ H) as Hlen end.
  - match goal with H : send_vote _ _ _ = _ |- _ =>
      apply send_vote_Ok in H as (v & Hv & Hs & EV & EP & Hk) end. split_pairs.
    split; [| | |congruence|done].
    + intros Hwf. destruct (dw_pending _ _ (Hwf id) _ _ Hp) as (-> & _).
      eapply (disputes_wf_update s _ id v); try done.
      * destruct (dw_round _ _ (Hwf id) _ _ Hv). by split.
      * intros i Hi. rewrite EP. by apply lookup_delete_ne.
      * left. rewrite EP. apply lookup_delete_eq.
    + intros i Hi. rewrite EP. by apply lookup_delete_ne.
    + intros i k Hi. rewrite EV. apply lookup_insert_ne. congruence.
  - match goal with H : send_vote _ _ _ = _ |- _ => apply send_vote_Err in H as Hk end.
    unfold beside_sent in Hk. split_pairs.
    match goal with H : st_governance _ = st_governance s |- _ => rename H into Hg end.
    split; rewrite ?Hg; try done; congruence.
Qed.

Record sent_all s s' (l : list (DisputeId * (Z * Timestamp))) : Prop := {
  sa_wf : disputes_wf s -> disputes_wf s';
  sa_others : forall i, i ∉ l.*1 -> PendingVotes s' !! i = PendingVotes s !! i;
  sa_votes : forall i r, i ∉ l.*1 -> VoteInfo s' !! (i, r) = VoteInfo s !! (i, r);
  sa_beside : (st_oracle s', st_staking s', st_autopay s', sys_now s', sys_assets s',
               VoteRounds s', DisputeInfo s') =
              (st_oracle s, st_staking s, st_autopay s, sys_now s, sys_assets s,
               VoteRounds s, DisputeInfo s);
  sa_sent : (length (sys_sent s') <= length l + length (sys_sent s))%nat;
}.

Lemma send_all_Ok l : forall n s m s',
  NoDup l -> (forall id rt, (id, rt) ∈ l -> PendingVotes s !! id = Some rt) ->
  0 <= n <= u32_max ->
  foldM send_turn n l s = (Ok m, s') ->
  m = Z.min u32_max (n + Z.of_nat (length l)) /\ sent_all s s' l.
Proof.
  induction l as [|[id [r t]] l IH]; intros n s m s' Hnd Hin Hn H; cbn [foldM] in H.
  - apply ret_Ok in H as [-> ->]. split; [simpl; lia|]. by split.
  - apply bind_Ok in H as (n1 & s1 & H1 & H).
    apply send_turn_Ok in H1 as (-> & Ht); [|apply Hin; left].
    apply NoDup_cons in Hnd as [Hnew Hnd].
    assert (Hne : forall id' rt', (id', rt') ∈ l -> id' <> id).
    { intros id' rt' Hl ->. assert (Some rt' = Some (r, t)) as [= ->]; [|done].
      rewrite <- (Hin id rt') by by right. apply Hin. left. }
    apply IH in H as (-> & Hall); [|done| |unfold saturating_add; lia].
    + split; [unfold saturating_add; simpl length; lia|].
      destruct Ht as [T1 T2 T3 T4 T5], Hall as [A1 A2 A3 A4 A5]. split.
      * auto.
      * intros i Hi. simpl in Hi. apply not_elem_of_cons in Hi as [? ?].
        rewrite A2, T2; done.
      * intros i k Hi. simpl in Hi. apply not_elem_of_cons in Hi as [? ?].
        rewrite A3, T3; done.
      * congruence.
      * simpl. lia.
    + intros id' rt' Hl. rewrite (st_others _ _ _ Ht) by (by eapply Hne).
      apply Hin. by right.
Qed.

Lemma due_votes_pending s t id rt : (id, rt) ∈ due_votes s t ->
  PendingVotes s !! id = Some rt /\ snd rt <= t.
Proof.
  unfold due_votes. rewrite merge_sort_Permutation, list_elem_of_filter. simpl.
  intros [? Hl]. split; [|done]. by apply elem_of_map_to_list.
Qed.

Lemma due_votes_NoDup s t : NoDup (due_votes s t).
Proof.
  unfold due_votes. rewrite merge_sort_Permutation. apply NoDup_filter.
  apply NoDup_map_to_list.
Qed.

Lemma pending_le_total : Total pending_le.
Proof. intros [? [? ?]] [? [? ?]]. unfold pending_le. simpl. lia. Qed.
Lemma pending_le_trans : Transitive pending_le.
Proof. intros [? [? ?]] [? [? ?]] [? [? ?]]. unfold pending_le. simpl. lia. Qed.

(** The due votes are exactly the pending votes whose time has come, in the
    order of their time. *)
Lemma due_votes_ordered s timestamp :
  StronglySorted pending_le (due_votes s timestamp) /\ NoDup (due_votes s timestamp) /\
  forall id r t, (id, (r, t)) ∈ due_votes s timestamp <->
    PendingVotes s !! id = Some (r, t) /\ t <= timestamp.
Proof.
  pose proof pending_le_total. pose proof pending_le_trans.
  split; [apply StronglySorted_merge_sort; apply _|]. split; [apply due_votes_NoDup|].
  intros id r t. unfold due_votes. rewrite merge_sort_Permutation, list_elem_of_filter. simpl.
  rewrite elem_of_map_to_list. tauto.
Qed.

Lemma do_send_votes_Ok t max s n s' : do_send_votes t max s = (Ok n, s') ->
  n = Z.min u32_max (Z.of_nat (length (take (Z.to_nat max) (due_votes s t)))) /\
  sent_all s s' (take (Z.to_nat max) (due_votes s t)).
Proof.
  unfold do_send_votes. intros H. cinv.
  apply (send_all_Ok _ 0) in H as [-> Hs]; [split; [f_equal; lia|done]| | |done].
  - apply (sublist_NoDup _ (due_votes s t)); [apply due_votes_NoDup|apply sublist_take].
  - intros id rt Hin. apply (subseteq_take _ (due_votes s t)) in Hin.
    by apply due_votes_pending in Hin as [? _].
Qed.
End Sending.
