(* ===== verification/Staking.v ===== *)
(** * Staking

    Stakes reported by the staking controller contract and the rewards paid on
    them: [report_stake_deposited], [report_staking_withdraw_request],
    [report_stake_withdrawn], [report_slash], [add_staking_rewards] and
    [update_stake_amount] of [src/src/lib.rs], with [update_rewards],
    [update_stake_and_pay_rewards], [do_add_staking_rewards],
    [do_update_stake_amount], [update_dispute_fee] and the conversions of
    [src/src/impls.rs]. *)

From S2P Require Import Prelude Types Config Storage Oracle Queries.

Section Staking.
Context {T : Config}.
Implicit Types s : State.

(** ** Conversions between token amounts *)

Definition convert_to_decimals (amount : Z) (decimals : Z) : Call Z :=
  if amount =? 0 then ret amount
  else
    match DECIMALS ?= decimals with
    | Gt =>
        let* r := ok_or_arith (checked_pow u256_max 10 (DECIMALS - decimals)) Overflow in
        expect (checked_div amount r)
    | Lt =>
        let* r := ok_or_arith (checked_pow u256_max 10 (decimals - DECIMALS)) Overflow in
        ok_or_arith (checked_mul u256_max amount r) Overflow
    | Eq => ret amount
    end.

Definition convert (stake_amount : Tributes) : Call Z :=
  convert_to_decimals stake_amount Decimals.

(** [Pallet::unit]: one token of the local currency. *)
Definition unit_of_balance : Call Z :=
  ok_or_arith (checked_pow u128_max 10 Decimals) Overflow.

Definition calculate_dispute_fee (price : Z) : Call Balance :=
  let* stake_amount := read (fun s => StakeAmount s) in
  let* tenth := expect (checked_div stake_amount 10) in
  let* priced := ok_or_arith (checked_mul u256_max tenth price) Overflow in
  let* fee := expect (checked_div priced (10 ^ DECIMALS)) in
  let* converted := convert fee in
  ret (U256ToBalance converted).

(** ** Rewards *)

(** [share.checked_mul(stake).ok_or(Overflow)?.checked_div(unit).ok_or(DivisionByZero)?] *)
Definition reward_on (share stake token_unit : Z) : Call Z :=
  let* product := ok_or_arith (checked_mul u256_max share stake) Overflow in
  ok_or_arith (checked_div product token_unit) DivisionByZero.

(** The same, less the debt of the stakes. *)
Definition reward_less_debt (share stake token_unit debt : Z) : Call Z :=
  let* reward := reward_on share stake token_unit in
  ok_or_arith (checked_sub u256_max reward debt) Underflow.

Definition staking_rewards_balance s : Balance := balance_of s staking_rewards.

Definition update_rewards : Call unit :=
  let* timestamp := now in
  let* time_of_last_allocation := read (fun s => TimeOfLastAllocation s) in
  if time_of_last_allocation =? timestamp then ret tt
  else
    let* total := read (fun s => TotalStakeAmount s) in
    let* total_stake_amount := convert total in
    let* reward_rate := read (fun s => RewardRate s) in
    if (total_stake_amount =? 0) || (reward_rate =? 0)
    then write (upd_TimeOfLastAllocation (fun _ => timestamp))
    else
      let* token_unit := unit_of_balance in
      let* accumulated := read (fun s => AccumulatedRewardPerShare s) in
      let elapsed := wrapping_sub u64_max timestamp time_of_last_allocation in
      let* released := ok_or_arith (checked_mul u256_max elapsed reward_rate) Overflow in
      let* scaled := ok_or_arith (checked_mul u256_max released token_unit) Overflow in
      let* per_share := expect (checked_div scaled total_stake_amount) in
      let* new_accumulated := expect (checked_add u256_max accumulated per_share) in
      let* total_reward_debt := read (fun s => TotalRewardDebt s) in
      let* accumulated_reward :=
        reward_less_debt new_accumulated total_stake_amount token_unit total_reward_debt in
      let* balance := read (fun s => staking_rewards_balance s) in
      (if balance <=? accumulated_reward then
         (* the rewards run out: what remains, per staked token *)
         let* allocated :=
           reward_less_debt accumulated total_stake_amount token_unit total_reward_debt in
         let* new_pending := ok_or_arith (checked_sub u256_max balance allocated) Underflow in
         let* scaled_pending := ok_or_arith (checked_mul u256_max new_pending token_unit) Overflow in
         let* pending_per_share := expect (checked_div scaled_pending total_stake_amount) in
         let* value := ok_or_arith
           (checked_add u128_max accumulated (U256ToBalance pending_per_share)) Overflow in
         write (upd_AccumulatedRewardPerShare (fun _ => value)) ;;;
         write (upd_RewardRate (fun _ => 0))
       else
         write (upd_AccumulatedRewardPerShare (fun _ => U256ToBalance new_accumulated))) ;;;
      write (upd_TimeOfLastAllocation (fun _ => timestamp)).

(** The rewards not yet allocated to the stakes, over 30 days. *)
Definition rate_over_30_days (balance allocated : Z) : Call Balance :=
  let* free := ok_or_arith (checked_sub u256_max balance allocated) Underflow in
  let* rate := expect (checked_div free (30 * DAYS)) in
  ret (U256ToBalance rate).

Definition do_add_staking_rewards (source : AccountId) (amount : Balance) : Call unit :=
  (if 0 <? amount then transfer source staking_rewards amount Expendable else ret tt) ;;;
  update_rewards ;;;
  let* balance := read (fun s => staking_rewards_balance s) in
  let* total := read (fun s => TotalStakeAmount s) in
  let* total_stake_amount := convert total in
  let* accumulated := read (fun s => AccumulatedRewardPerShare s) in
  let* product := ok_or_arith (checked_mul u256_max accumulated total_stake_amount) Overflow in
  let* token_unit := unit_of_balance in
  let* reward := ok_or_arith (checked_div product token_unit) DivisionByZero in
  let* debt := read (fun s => TotalRewardDebt s) in
  let* allocated := ok_or_arith (checked_sub u256_max reward debt) Underflow in
  let* rate := rate_over_30_days balance allocated in
  write (upd_RewardRate (fun _ => rate)).

Definition add_staking_rewards (origin : RuntimeOrigin) (amount : Balance) : Call unit :=
  let* source := ensure_signed origin in
  do_add_staking_rewards source amount ;;;
  (if 0 <? amount then deposit_event (StakingRewardsAdded source amount) else ret tt).

(** ** Changing a stake *)

(** The part of the pending reward that the staker's votes earn. *)
Definition participation (votes_cast number_of_votes pending_reward : Z) : Call Balance :=
  let* product := ok_or_arith (checked_mul u128_max pending_reward votes_cast) Overflow in
  let* temp := ok_or_arith (checked_div product number_of_votes) DivisionByZero in
  ret (if temp <? pending_reward then temp else pending_reward).

Definition pending_reward_of (staker : AccountId) (stake_info : StakeInfo) (token_unit : Z)
    : Call Balance :=
  let* stake := convert (stk_staked_balance stake_info) in
  let* accumulated := read (fun s => AccumulatedRewardPerShare s) in
  let* earned := reward_less_debt stake accumulated token_unit (stk_reward_debt stake_info) in
  let pending_reward := U256ToBalance earned in
  let* vote_count := read (fun s => get_vote_count s) in
  let* number_of_votes := ok_or_arith
    (checked_sub u64_max vote_count (stk_start_vote_count stake_info)) Underflow in
  if 0 <? number_of_votes then
    let* vote_tally := read (fun s => get_vote_tally_by_address s staker) in
    let* votes_cast := ok_or_arith
      (checked_sub u32_max vote_tally (stk_start_vote_tally stake_info)) Underflow in
    participation votes_cast number_of_votes pending_reward
  else ret pending_reward.

(** Pay the pending reward and take the stake out of the totals. *)
Definition settle_stake (staker : AccountId) (stake_info : StakeInfo) (token_unit : Z) : Call unit :=
  let* pending_reward := pending_reward_of staker stake_info token_unit in
  transfer staking_rewards staker pending_reward Protect ;;;
  let* debt := read (fun s => TotalRewardDebt s) in
  let* debt := ok_or_arith (checked_sub u128_max debt (stk_reward_debt stake_info)) Underflow in
  write (upd_TotalRewardDebt (fun _ => debt)) ;;;
  let* total := read (fun s => TotalStakeAmount s) in
  let* total := ok_or_arith
    (checked_sub u256_max total (stk_staked_balance stake_info)) Underflow in
  write (upd_TotalStakeAmount (fun _ => total)).

(** Count the staker while it holds the stake amount. *)
Definition count_staker (stake_info : StakeInfo) : Call StakeInfo :=
  let* stake_amount := read (fun s => StakeAmount s) in
  let* total := read (fun s => TotalStakers s) in
  if stake_amount <=? stk_staked_balance stake_info then
    (if negb (stk_staked stake_info)
     then write (upd_TotalStakers (fun _ => saturating_add u64_max total 1))
     else ret tt) ;;;
    ret (set_stk_staked true stake_info)
  else
    (if stk_staked stake_info && (0 <? total)
     then write (upd_TotalStakers (fun _ => saturating_sub total 1))
     else ret tt) ;;;
    ret (set_stk_staked false stake_info).

(** Put the new stake into the totals. *)
Definition enter_stake (stake_info : StakeInfo) (token_unit : Z) : Call StakeInfo :=
  let* accumulated := read (fun s => AccumulatedRewardPerShare s) in
  let* stake := convert (stk_staked_balance stake_info) in
  let* debt := reward_on stake accumulated token_unit in
  let stake_info := set_stk_reward_debt (U256ToBalance debt) stake_info in
  let* total_debt := read (fun s => TotalRewardDebt s) in
  let* total_debt := ok_or_arith
    (checked_add u128_max total_debt (stk_reward_debt stake_info)) Overflow in
  write (upd_TotalRewardDebt (fun _ => total_debt)) ;;;
  let* total := read (fun s => TotalStakeAmount s) in
  let* total := ok_or_arith
    (checked_add u256_max total (stk_staked_balance stake_info)) Overflow in
  write (upd_TotalStakeAmount (fun _ => total)) ;;;
  let* total_stake_amount := convert total in
  let* reward_rate := read (fun s => RewardRate s) in
  (if reward_rate =? 0 then
     let* balance := read (fun s => staking_rewards_balance s) in
     let* allocated := reward_less_debt accumulated total_stake_amount token_unit total_debt in
     let* rate := rate_over_30_days balance allocated in
     write (upd_RewardRate (fun _ => rate))
   else ret tt) ;;;
  ret stake_info.

(** The [&mut StakeInfo] argument is returned; the caller writes it back. *)
Definition update_stake_and_pay_rewards (staker : AccountId) (stake_info : StakeInfo)
    (new_staked_balance : Tributes) : Call StakeInfo :=
  update_rewards ;;;
  let* token_unit := unit_of_balance in
  (if 0 <? stk_staked_balance stake_info
   then settle_stake staker stake_info token_unit
   else ret tt) ;;;
  let* stake_info := count_staker (set_stk_staked_balance new_staked_balance stake_info) in
  enter_stake stake_info token_unit.

(** ** Reports of the staking controller contract *)

(** [ToWithdraw::try_mutate(|locked| *locked = locked.checked_sub(amount)..)] *)
Definition withdraw_sub (amount : Tributes) : Call unit :=
  let* locked := read (fun s => ToWithdraw s) in
  let* locked := ok_or_arith (checked_sub u256_max locked amount) Underflow in
  write (upd_ToWithdraw (fun _ => locked)).

(** Restake from the locked balance, or note the votes when the stake is new. *)
Definition restake (reporter : AccountId) (staker : StakeInfo) (amount : Tributes)
    : Call StakeInfo :=
  let locked_balance := stk_locked_balance staker in
  if 0 <? locked_balance then
    if amount <=? locked_balance then
      let* locked := ok_or_arith (checked_sub u256_max locked_balance amount) Underflow in
      withdraw_sub amount ;;;
      ret (set_stk_locked_balance locked staker)
    else
      withdraw_sub locked_balance ;;;
      ret (set_stk_locked_balance 0 staker)
  else if stk_staked_balance staker =? 0 then
    let* count := read (fun s => get_vote_count s) in
    let* tally := read (fun s => get_vote_tally_by_address s reporter) in
    ret (set_stk_start_vote_tally tally (set_stk_start_vote_count count staker))
  else ret staker.

Definition report_stake_deposited (origin : RuntimeOrigin) (reporter : AccountId)
    (amount : Tributes) (address : Address) : Call unit :=
  ensure_origin StakingOrigin origin ;;;
  let* maybe := read (fun s => StakerDetails s !! reporter) in
  let staker := default (StakeInfo_new address) maybe in
  ensure_that (address =? stk_address staker) InvalidAddress ;;;
  let staked_balance := stk_staked_balance staker in
  let* staker := restake reporter staker amount in
  let* new_balance := expect (checked_add u256_max staked_balance amount) in
  let* staker := update_stake_and_pay_rewards reporter staker new_balance in
  let* timestamp := now in
  write (upd_StakerDetails <[reporter := set_stk_start_date timestamp staker]>) ;;;
  deposit_event (NewStakerReported reporter amount address).

Definition report_staking_withdraw_request (origin : RuntimeOrigin) (reporter : AccountId)
    (amount : Tributes) (address : Address) : Call unit :=
  ensure_origin StakingOrigin origin ;;;
  let* maybe := read (fun s => StakerDetails s !! reporter) in
  let* staker := ok_or_error maybe InsufficientStake in
  ensure_that (address =? stk_address staker) InvalidAddress ;;;
  ensure_that (amount <=? stk_staked_balance staker) InsufficientStake ;;;
  let* stake_amount := ok_or_arith
    (checked_sub u256_max (stk_staked_balance staker) amount) Underflow in
  let* staker := update_stake_and_pay_rewards reporter staker stake_amount in
  let* timestamp := now in
  let* locked := ok_or_arith
    (checked_add u256_max (stk_locked_balance staker) amount) Overflow in
  let* total := read (fun s => ToWithdraw s) in
  let* total := ok_or_arith (checked_add u256_max total amount) Overflow in
  write (upd_ToWithdraw (fun _ => total)) ;;;
  write (upd_StakerDetails <[reporter :=
    set_stk_locked_balance locked (set_stk_start_date timestamp staker)]>) ;;;
  deposit_event (StakeWithdrawRequestReported reporter amount address).

Definition report_stake_withdrawn (origin : RuntimeOrigin) (reporter : AccountId)
    (amount : Tributes) : Call unit :=
  ensure_origin StakingOrigin origin ;;;
  let* maybe := read (fun s => StakerDetails s !! reporter) in
  let* staker := ok_or_error maybe InsufficientStake in
  ensure_that (0 <? stk_locked_balance staker) NoWithdrawalRequested ;;;
  let* timestamp := now in
  let* elapsed := ok_or_arith
    (checked_sub u64_max timestamp (stk_start_date staker)) Underflow in
  ensure_that (7 * DAYS <=? elapsed) WithdrawalPeriodPending ;;;
  withdraw_sub (stk_locked_balance staker) ;;;
  let* locked := ok_or_arith
    (checked_sub u256_max (stk_locked_balance staker) amount) Underflow in
  write (upd_StakerDetails <[reporter := set_stk_locked_balance locked staker]>) ;;;
  deposit_event (StakeWithdrawnReported reporter).

(** The three branches of the slash: from the locked balance, then from the
    stake, and at most the sum of the two. *)
Definition slash_staker (reporter : AccountId) (staker : StakeInfo) (amount : Tributes)
    : Call StakeInfo :=
  let staked_balance := stk_staked_balance staker in
  let locked_balance := stk_locked_balance staker in
  if amount <=? locked_balance then
    let* locked := ok_or_arith (checked_sub u256_max locked_balance amount) Underflow in
    withdraw_sub amount ;;;
    ret (set_stk_locked_balance locked staker)
  else
    let* sum := ok_or_arith (checked_add u256_max locked_balance staked_balance) Overflow in
    if amount <=? sum then
      let* remainder := ok_or_arith (checked_sub u256_max amount locked_balance) Underflow in
      let* stake := ok_or_arith (checked_sub u256_max staked_balance remainder) Underflow in
      let* staker := update_stake_and_pay_rewards reporter staker stake in
      withdraw_sub locked_balance ;;;
      ret (set_stk_locked_balance 0 staker)
    else
      withdraw_sub locked_balance ;;;
      let* staker := update_stake_and_pay_rewards reporter staker 0 in
      ret (set_stk_locked_balance 0 staker).

Definition report_slash (origin : RuntimeOrigin) (reporter : AccountId)
    (amount : Tributes) : Call unit :=
  ensure_origin StakingOrigin origin ;;;
  let* maybe := read (fun s => StakerDetails s !! reporter) in
  let* staker := ok_or_error maybe InsufficientStake in
  let* holdings := ok_or_arith
    (checked_add u256_max (stk_staked_balance staker) (stk_locked_balance staker)) Overflow in
  ensure_that (0 <? holdings) InsufficientStake ;;;
  let* staker := slash_staker reporter staker amount in
  write (upd_StakerDetails <[reporter := staker]>) ;;;
  deposit_event (SlashReported reporter amount).

(** ** Prices *)

(** The value reported for a price query 12 hours ago, as an integer in
    [10^16, 10^24). *)
Definition read_price (query_id : QueryId) (e : Error) : Call (Z * Z) :=
  let* timestamp := now in
  let* cutoff := ok_or_arith (checked_sub u64_max timestamp (12 * HOURS)) Underflow in
  let* data := read (fun s => get_data_before_with_start s query_id cutoff 0) in
  match data with
  | (Some (value, _), iterations) =>
      let* price := ok_or_error (BytesToU256 value) e in
      ensure_that ((10 ^ 16 <=? price) && (price <? 10 ^ 24)) e ;;;
      ret (price, iterations)
  | (None, _) => throw e
  end.

Definition do_update_stake_amount : Call Z :=
  let* ' (staking_token_price, iterations) :=
    read_price StakingTokenPriceQueryId InvalidStakingTokenPrice in
  let* target := ok_or_arith
    (checked_mul u256_max StakeAmountCurrencyTarget (10 ^ 18)) Overflow in
  let* adjusted_stake_amount := expect (checked_div target staking_token_price) in
  let amount :=
    if adjusted_stake_amount <? MinimumStakeAmount then MinimumStakeAmount
    else adjusted_stake_amount in
  write (upd_StakeAmount (fun _ => amount)) ;;;
  deposit_event (NewStakeAmount amount) ;;;
  ret iterations.

Definition update_dispute_fee : Call Z :=
  let* ' (token_price, iterations) :=
    read_price StakingToLocalTokenPriceQueryId InvalidPrice in
  let* new_dispute_fee := calculate_dispute_fee token_price in
  let* dispute_fee := read (fun s => DisputeFee s) in
  (if negb (new_dispute_fee =? dispute_fee) then
     write (upd_DisputeFee (fun _ => new_dispute_fee)) ;;;
     deposit_event (NewDisputeFee new_dispute_fee)
   else ret tt) ;;;
  ret iterations.

(** The iterations of the two lookups are returned, for the weight. *)
Definition update_stake_amount (origin : RuntimeOrigin) : Call (Z * Z) :=
  ensure_signed origin ;;;
  let* s := do_update_stake_amount in
  let* l := update_dispute_fee in
  ret (s, l).

End Staking.
