(* ===== verification/StakingFacts.v ===== *)
(** * Staking: invariant and correctness

    What the conversions compute, what [update_rewards] and
    [update_stake_and_pay_rewards] change, and the invariant [staking_wf] of the
    totals with its preservation by every call of the staking part. *)

From S2P Require Import Prelude Types Config Storage Oracle OracleFacts Queries Staking.

Section Pure.
Context {T : Config}.
Implicit Types s : State.

(** ** Computations that do not touch the storage *)

Section Keeps.
Context {X : Type} (f : State -> X).

Lemma keeps_convert a : keeps f (convert a).
Proof. unfold convert, convert_to_decimals. solve_keeps. Qed.
Lemma keeps_unit_of_balance : keeps f unit_of_balance.
Proof. unfold unit_of_balance. solve_keeps. Qed.
Lemma keeps_reward_on a b u : keeps f (reward_on a b u).
Proof. unfold reward_on. solve_keeps. Qed.
Lemma keeps_reward_less_debt a b u d : keeps f (reward_less_debt a b u d).
Proof. unfold reward_less_debt, reward_on. solve_keeps. Qed.
Lemma keeps_rate_over_30_days a b : keeps f (rate_over_30_days a b).
Proof. unfold rate_over_30_days. solve_keeps. Qed.
Lemma keeps_participation a b c : keeps f (participation a b c).
Proof. unfold participation. solve_keeps. Qed.
Lemma keeps_calculate_dispute_fee p : keeps f (calculate_dispute_fee p).
Proof. unfold calculate_dispute_fee, convert, convert_to_decimals. solve_keeps. Qed.
Lemma keeps_read_price q e : keeps f (read_price q e).
Proof. unfold read_price. solve_keeps. Qed.
End Keeps.
End Pure.

#[export] Hint Resolve keeps_convert keeps_unit_of_balance keeps_reward_on
  keeps_reward_less_debt keeps_rate_over_30_days keeps_participation
  keeps_calculate_dispute_fee keeps_read_price : frame.

Section Frames.
Context {T : Config}.

Lemma keeps_pending_reward_of {X} (f : State -> X) a i u : keeps f (pending_reward_of a i u).
Proof. unfold pending_reward_of. solve_keeps. Qed.

(** What neither the rewards nor the totals of the stakes are part of. *)
Definition beside_stakes (s : State) :=
  (st_oracle s, st_governance s, st_autopay s, StakerDetails s, ToWithdraw s,
   StakeAmount s, LastStakeAmountUpdate s, sys_now s, sys_block_number s, sys_sent s).

Definition stake_totals (s : State) :=
  (beside_stakes s, TotalRewardDebt s, TotalStakeAmount s, TotalStakers s,
   sys_events s).

Lemma keeps_update_rewards : keeps (fun s => (stake_totals s, sys_assets s)) update_rewards.
Proof. unfold update_rewards. solve_keeps. Qed.

#[local] Hint Resolve keeps_pending_reward_of : frame.

Lemma keeps_settle_stake a i u :
  keeps (fun s => (beside_stakes s, TotalStakers s, sys_events s)) (settle_stake a i u).
Proof. unfold settle_stake. solve_keeps. Qed.

Lemma keeps_count_staker i :
  keeps (fun s => (beside_stakes s, TotalRewardDebt s, TotalStakeAmount s, sys_events s,
                   AccumulatedRewardPerShare s, RewardRate s, sys_assets s)) (count_staker i).
Proof. unfold count_staker. solve_keeps. Qed.

Lemma keeps_enter_stake i u :
  keeps (fun s => (beside_stakes s, TotalStakers s, sys_events s,
                   AccumulatedRewardPerShare s, sys_assets s)) (enter_stake i u).
Proof. unfold enter_stake. solve_keeps. Qed.
End Frames.

(** ** Conversions *)

Section Conversions.
Context {T : Config}.
Implicit Types s : State.

(** [amount] of 18 decimals in [decimals] decimals, rounded down. *)
Definition to_decimals (amount decimals : Z) : Z :=
  if decimals <=? DECIMALS then amount / 10 ^ (DECIMALS - decimals)
  else amount * 10 ^ (decimals - DECIMALS).

Definition to_local (amount : Z) : Z := to_decimals amount Decimals.

Lemma to_decimals_nonneg a d : 0 <= a -> 0 <= to_decimals a d.
Proof.
  intros Ha. unfold to_decimals, DECIMALS. destruct (Z.leb_spec d 18).
  - apply Z.div_pos; [done|]. apply Z.pow_pos_nonneg; lia.
  - apply Z.mul_nonneg_nonneg; [done|]. apply Z.pow_nonneg. lia.
Qed.

Lemma to_local_0 : to_local 0 = 0.
Proof. unfold to_local, to_decimals. destruct (_ <=? _); [apply Zdiv_0_l|lia]. Qed.

(** Conversion is monotone. *)
Lemma to_decimals_mono a b d : a <= b -> to_decimals a d <= to_decimals b d.
Proof.
  intros Hab. unfold to_decimals, DECIMALS. destruct (Z.leb_spec d 18).
  - apply Z.div_le_mono; [|done]. apply Z.pow_pos_nonneg; lia.
  - apply Z.mul_le_mono_nonneg_r; [|done]. apply Z.pow_nonneg. lia.
Qed.

Lemma convert_to_decimals_run amount decimals s :
  0 <= amount <= u256_max -> 0 <= decimals ->
  convert_to_decimals amount decimals s =
    (if to_decimals amount decimals <=? u256_max then Ok (to_decimals amount decimals)
     else Err (Arithmetic Overflow), s).
Proof.
  intros Ha Hd. unfold convert_to_decimals, to_decimals.
  destruct (Z.eqb_spec amount 0) as [->|H0].
  { replace (if decimals <=? DECIMALS then 0 / 10 ^ (DECIMALS - decimals)
             else 0 * 10 ^ (decimals - DECIMALS)) with 0; [done|].
    destruct (decimals <=? DECIMALS); [|lia].
    unfold DECIMALS. destruct (Z.le_gt_cases decimals 18).
    - rewrite Z.div_0_l; [done|]. apply Z.pow_nonzero; lia.
    - rewrite Z.pow_neg_r by lia. done. }
  unfold DECIMALS. unfold_calls.
  destruct (Z.compare_spec 18 decimals) as [<-|Hlt|Hgt].
  - simpl. rewrite Z.div_1_r. destruct (Z.leb_spec amount u256_max); [done|lia].
  - destruct (Z.leb_spec decimals 18); [lia|].
    assert (Hp : 0 < 10 ^ (decimals - 18)) by (apply Z.pow_pos_nonneg; lia).
    unfold checked_pow, checked_mul.
    destruct (checked u256_max (10 ^ (decimals - 18))) as [r|] eqn:Hr; simpl.
    + apply checked_Some in Hr as [-> _]. unfold bind, ret.
      destruct (checked _ _) as [r|] eqn:Hm; simpl.
      * apply checked_Some in Hm as [-> ?]. by rewrite Zle_imp_le_bool by lia.
      * apply checked_None in Hm. destruct (Z.leb_spec (amount * 10 ^ (decimals - 18)) u256_max);
          [nia|done].
    + apply checked_None in Hr. unfold bind, fail.
      destruct (Z.leb_spec (amount * 10 ^ (decimals - 18)) u256_max); [nia|done].
  - destruct (Z.leb_spec decimals 18); [|lia].
    assert (Hp : 0 < 10 ^ (18 - decimals)) by (apply Z.pow_pos_nonneg; lia).
    assert (Hb : 10 ^ (18 - decimals) <= 10 ^ 18) by (apply Z.pow_le_mono_r; lia).
    unfold checked_pow. rewrite checked_ok by zlia. simpl. unfold bind, ret, checked_div.
    destruct (Z.eqb_spec (10 ^ (18 - decimals)) 0); [lia|]. simpl.
    assert (amount / 10 ^ (18 - decimals) <= amount) by (apply Z.div_le_upper_bound; nia).
    by rewrite Zle_imp_le_bool by lia.
Qed.

Lemma convert_Ok a s r s' : convert a s = (Ok r, s') -> r = to_local a /\ s' = s.
Proof.
  unfold convert, convert_to_decimals, to_local, to_decimals, DECIMALS.
  destruct (Z.eqb_spec a 0) as [->|H0]; intros H; [|destruct (Z.compare_spec 18 Decimals)];
    cinv; unfold checked_pow in *; conditions; subst.
  - destruct (Z.leb_spec Decimals 18); [|done].
    rewrite Z.div_0_l; [done|]. apply Z.pow_nonzero; lia.
  - destruct (Z.leb_spec Decimals 18); [|lia].
    replace (18 - Decimals) with 0 by lia. by rewrite Z.div_1_r.
  - destruct (Z.leb_spec Decimals 18); [lia|].
    match goal with H : checked _ _ = Some _ |- _ => apply checked_Some in H as [-> _] end.
    done.
  - destruct (Z.leb_spec Decimals 18); [|lia].
    match goal with H : checked _ _ = Some _ |- _ => apply checked_Some in H as [-> _] end.
    done.
Qed.

Lemma unit_of_balance_Ok s r s' :
  unit_of_balance s = (Ok r, s') -> r = 10 ^ Decimals /\ s' = s.
Proof.
  unfold unit_of_balance. intros H. cinv. unfold checked_pow in *.
  by apply checked_Some in H as [-> _].
Qed.

(** The reward of a stake at a share. *)
Definition reward_for (share stake token_unit : Z) : Z := share * stake / token_unit.

Lemma reward_on_Ok share stake u s r s' :
  reward_on share stake u s = (Ok r, s') ->
  r = reward_for share stake u /\ u <> 0 /\ 0 <= share * stake <= u256_max /\ s' = s.
Proof. unfold reward_on. intros H. cinv. conditions. subst. done. Qed.

Lemma reward_less_debt_Ok share stake u d s r s' :
  reward_less_debt share stake u d s = (Ok r, s') ->
  r = reward_for share stake u - d /\ u <> 0 /\ 0 <= r <= u256_max /\ s' = s.
Proof.
  unfold reward_less_debt. intros H. cinv. apply reward_on_Ok in Hr as (-> & ? & ? & ->).
  conditions. subst. done.
Qed.

Lemma U256ToBalance_range a : 0 <= a -> 0 <= U256ToBalance a <= u128_max.
Proof. unfold U256ToBalance, saturated_into. zlia. Qed.

Lemma U256ToBalance_le a : U256ToBalance a <= a.
Proof. unfold U256ToBalance, saturated_into. lia. Qed.
End Conversions.

(** Invert a successful call of the staking part. *)
Ltac sinv :=
  repeat (cinv; match goal with
  | H : convert _ _ = (Ok _, _) |- _ => apply convert_Ok in H as [? H]
  | H : unit_of_balance _ = (Ok _, _) |- _ => apply unit_of_balance_Ok in H as [? H]
  | H : reward_on _ _ _ _ = (Ok _, _) |- _ =>
      apply reward_on_Ok in H as (? & ? & ? & H)
  | H : reward_less_debt _ _ _ _ _ = (Ok _, _) |- _ =>
      apply reward_less_debt_Ok in H as (? & ? & ? & H)
  end); cinv; conditions; subst.

(** ** Changing a stake *)

Section Update.
Context {T : Config} {Ok_T : ConfigOk T}.
Implicit Types s : State.

(** The part of the totals that belongs to a stake. *)
Definition debt_in_totals (i : StakeInfo) : Balance :=
  if 0 <? stk_staked_balance i then stk_reward_debt i else 0.

(** What [update_stake_and_pay_rewards] does to the totals and to the stake. *)
Record restaked (s s' : State) (i i' : StakeInfo) (new : Tributes) : Prop := {
  rs_beside : beside_stakes s' = beside_stakes s;
  rs_events : sys_events s' = sys_events s;
  rs_total : TotalStakeAmount s' = TotalStakeAmount s - stk_staked_balance i + new;
  rs_debt : TotalRewardDebt s' = TotalRewardDebt s - debt_in_totals i + stk_reward_debt i';
  rs_debt_range : 0 <= TotalRewardDebt s' <= u128_max;
  rs_total_range : 0 <= TotalStakeAmount s' <= u256_max;
  rs_stakers : TotalStakers s' =
    if StakeAmount s <=? new
    then (if stk_staked i then TotalStakers s else saturating_add u64_max (TotalStakers s) 1)
    else (if stk_staked i && (0 <? TotalStakers s) then TotalStakers s - 1
          else TotalStakers s);
  rs_reward_debt : stk_reward_debt i' =
    U256ToBalance (reward_for (to_local new) (AccumulatedRewardPerShare s') (10 ^ Decimals));
  rs_debt_nonneg : 0 <= stk_reward_debt i';
  rs_info : i' = set_stk_reward_debt (stk_reward_debt i')
    (set_stk_staked (StakeAmount s <=? new) (set_stk_staked_balance new i));
}.

Lemma settle_stake_Ok a i u s r s' :
  settle_stake a i u s = (Ok r, s') ->
  TotalRewardDebt s' = TotalRewardDebt s - stk_reward_debt i /\
  TotalStakeAmount s' = TotalStakeAmount s - stk_staked_balance i.
Proof.
  unfold settle_stake. intros H. cinv. simpl.
  pose proof (keeps_run (fun s => (TotalRewardDebt s, TotalStakeAmount s)) _ _ _ _
    (keeps_pending_reward_of _ a i u) Hr) as Hk. injection Hk as Hk1 Hk2.
  simpl in *. conditions. subst. by rewrite Hk1, Hk2.
Qed.

Lemma count_staker_Ok i s i' s' : 0 <= TotalStakers s ->
  count_staker i s = (Ok i', s') ->
  i' = set_stk_staked (StakeAmount s <=? stk_staked_balance i) i /\
  TotalStakers s' =
    if StakeAmount s <=? stk_staked_balance i
    then (if stk_staked i then TotalStakers s else saturating_add u64_max (TotalStakers s) 1)
    else (if stk_staked i && (0 <? TotalStakers s) then TotalStakers s - 1
          else TotalStakers s).
Proof.
  intros H0. unfold count_staker. intros H. cinv.
  destruct (StakeAmount s <=? stk_staked_balance i); cinv.
  - destruct (stk_staked i); cbn [negb] in *; cinv; done.
  - destruct (stk_staked i); cbn [andb] in *; [|cinv; done].
    destruct (Z.ltb_spec 0 (TotalStakers s)); cinv; [|done].
    simpl. unfold saturating_sub. split; [done|lia].
Qed.

Lemma enter_stake_Ok i u s i' s' : 0 <= u ->
  enter_stake i u s = (Ok i', s') ->
  stk_reward_debt i' =
    U256ToBalance (reward_for (to_local (stk_staked_balance i)) (AccumulatedRewardPerShare s) u) /\
  i' = set_stk_reward_debt (stk_reward_debt i') i /\ 0 <= stk_reward_debt i' /\
  TotalRewardDebt s' = TotalRewardDebt s + stk_reward_debt i' /\
  TotalStakeAmount s' = TotalStakeAmount s + stk_staked_balance i /\
  0 <= TotalRewardDebt s' <= u128_max /\ 0 <= TotalStakeAmount s' <= u256_max.
Proof.
  intros Hu. unfold enter_stake. intros H. sinv. simpl in *.
  match goal with H : (if _ then _ else _) _ = (Ok _, _) |- _ =>
    eapply (keeps_run (fun s => (TotalRewardDebt s, TotalStakeAmount s))) in H;
      [simpl in H; injection H as -> ->|solve_keeps] end.
  split; [done|]. split; [done|]. split; [|auto].
  apply U256ToBalance_range. apply Z_div_nonneg_nonneg; lia.
Qed.

Lemma update_stake_and_pay_rewards_Ok a i new s i' s' :
  0 <= stk_staked_balance i -> 0 <= TotalStakers s ->
  update_stake_and_pay_rewards a i new s = (Ok i', s') -> restaked s s' i i' new.
Proof.
  intros Hi Hn. unfold update_stake_and_pay_rewards. intros H.
  apply bind_Ok in H as (? & s1 & H1 & H). apply bind_Ok in H as (u & s2 & H2 & H).
  apply bind_Ok in H as (? & s3 & H3 & H). apply bind_Ok in H as (i1 & s4 & H4 & H5).
  apply unit_of_balance_Ok in H2 as [-> ->].
  apply (keeps_run _ _ _ _ _ keeps_update_rewards) in H1 as K1.
  assert (K3 : (beside_stakes s3, TotalStakers s3, sys_events s3)
               = (beside_stakes s1, TotalStakers s1, sys_events s1) /\
    TotalRewardDebt s3 = TotalRewardDebt s1 - debt_in_totals i /\
    TotalStakeAmount s3 = TotalStakeAmount s1 - stk_staked_balance i).
  { unfold debt_in_totals. destruct (Z.ltb_spec 0 (stk_staked_balance i)).
    - split; [|by eapply settle_stake_Ok].
      by apply (keeps_run _ _ _ _ _ (keeps_settle_stake _ _ _) H3).
    - cinv. split; [done|]. lia. }
  destruct K3 as (K3 & D3 & A3).
  apply (keeps_run _ _ _ _ _ (keeps_count_staker _)) in H4 as K4.
  apply (keeps_run _ _ _ _ _ (keeps_enter_stake _ _)) in H5 as K5.
  unfold stake_totals in K1. cbv beta in *. split_pairs.
  apply count_staker_Ok in H4 as [-> C4]; [|congruence].
  apply enter_stake_Ok in H5 as (E1 & E2 & E3 & E4 & E5 & E6 & E7); [|by apply Z.pow_nonneg].
  simpl in *.
  assert (Hamount : StakeAmount s3 = StakeAmount s).
  { assert (Hb : beside_stakes s3 = beside_stakes s) by congruence. by injection Hb. }
  rewrite Hamount in *. split; try congruence; try lia.
  replace (TotalStakers s) with (TotalStakers s3) by congruence. congruence.
Qed.
End Update.

(** ** The invariant *)

Section Invariant.
Context {T : Config} {Ok_T : ConfigOk T}.
Implicit Types s : State.

Record staker_ok (i : StakeInfo) : Prop := {
  so_staked : 0 <= stk_staked_balance i;
  so_locked : 0 <= stk_locked_balance i;
  so_debt : 0 <= stk_reward_debt i;
  so_unstaked : stk_staked_balance i = 0 -> stk_reward_debt i = 0;
}.

Definition counted (i : StakeInfo) : Z := if stk_staked i then 1 else 0.

(** The totals are the sums over the stakers; [ToWithdraw] is at most the sum of
    the locked balances; the number of stakers counts the flagged ones, while
    they are fewer than its width. *)
Record totals_ok (m : gmap AccountId StakeInfo) (total debt withdraw stakers : Z) : Prop := {
  to_stakers : forall a i, m !! a = Some i -> staker_ok i;
  to_total : total = map_sum stk_staked_balance m;
  to_debt : debt = map_sum stk_reward_debt m;
  to_withdraw : 0 <= withdraw <= map_sum stk_locked_balance m;
  to_stakers_nonneg : 0 <= stakers;
  to_count : Z.of_nat (size m) <= u64_max -> stakers = map_sum counted m;
}.

Definition staking_wf (st : StakingStore) : Prop :=
  totals_ok (StakerDetails st) (TotalStakeAmount st) (TotalRewardDebt st)
    (ToWithdraw st) (TotalStakers st).

(** The stake of an account without one. *)
Definition of_staker (f : StakeInfo -> Z) (m : gmap AccountId StakeInfo) (a : AccountId) : Z :=
  from_option f 0 (m !! a).

Lemma map_sum_counted_le (m : gmap AccountId StakeInfo) : 0 <= map_sum counted m <= Z.of_nat (size m).
Proof.
  induction m as [|k i m Hk IH] using map_ind; [done|].
  rewrite map_sum_insert_None, map_size_insert_None by done.
  unfold counted at 1 3. destruct (stk_staked i); lia.
Qed.

(** Writing one stake, the totals changed by the differences. *)
Lemma totals_ok_insert m total debt w n a i total' debt' w' n' :
  totals_ok m total debt w n -> staker_ok i ->
  total' = total - of_staker stk_staked_balance m a + stk_staked_balance i ->
  debt' = debt - of_staker stk_reward_debt m a + stk_reward_debt i ->
  0 <= w' <= w - of_staker stk_locked_balance m a + stk_locked_balance i ->
  0 <= n' ->
  (n = map_sum counted m -> n + counted i - of_staker counted m a <= u64_max ->
     n' = n + counted i - of_staker counted m a) ->
  totals_ok (<[a := i]> m) total' debt' w' n'.
Proof.
  intros Hwf Hi -> -> Hw Hn Hcount. destruct Hwf. split.
  - intros b j. rewrite lookup_insert. goal_decide; [congruence|eauto].
  - rewrite map_sum_insert. unfold of_staker. lia.
  - rewrite map_sum_insert. unfold of_staker. lia.
  - rewrite map_sum_insert. unfold of_staker in *. lia.
  - done.
  - intros Hsize. pose proof (map_sum_counted_le (<[a := i]> m)) as Hle.
    rewrite map_sum_insert in Hle |- *. fold (of_staker counted m a) in *.
    assert (Z.of_nat (size m) <= u64_max).
    { rewrite map_size_insert in Hsize. destruct (m !! a); simpl in Hsize; lia. }
    pose proof (to_count0 ltac:(done)) as Hn'. rewrite (Hcount Hn'); lia.
Qed.
End Invariant.

(** ** Preservation *)

Section Preservation.
Context {T : Config} {Ok_T : ConfigOk T}.
Implicit Types s : State.

(** [i] has the stake, the debt and the flag of the staker on record. *)
Definition same_stake (m : gmap AccountId StakeInfo) (a : AccountId) (i : StakeInfo) : Prop :=
  of_staker stk_staked_balance m a = stk_staked_balance i /\
  of_staker stk_reward_debt m a = stk_reward_debt i /\
  of_staker counted m a = counted i.

Lemma same_stake_lookup m a i : m !! a = Some i -> same_stake m a i.
Proof. unfold same_stake, of_staker. by intros ->. Qed.

Lemma of_staker_lookup f m a i : m !! a = Some i -> of_staker f m a = f i.
Proof. unfold of_staker. by intros ->. Qed.

Lemma staker_ok_debt i : staker_ok i -> debt_in_totals i = stk_reward_debt i.
Proof.
  intros []. unfold debt_in_totals. destruct (Z.ltb_spec 0 (stk_staked_balance i)); [done|].
  rewrite so_unstaked0; lia.
Qed.

Lemma withdraw_sub_Ok amount s u s' : withdraw_sub amount s = (Ok u, s') ->
  s' = upd_ToWithdraw (fun _ => ToWithdraw s - amount) s /\ 0 <= ToWithdraw s - amount.
Proof. unfold withdraw_sub. intros H. cinv. conditions. subst. split; [done|lia]. Qed.

(** Writing back the stake that [update_stake_and_pay_rewards] returned, with
    its locked balance changed. *)
Lemma restaked_totals s s1 a i i' i'' new w w' :
  totals_ok (StakerDetails s) (TotalStakeAmount s) (TotalRewardDebt s) w (TotalStakers s) ->
  same_stake (StakerDetails s) a i -> staker_ok i ->
  restaked s s1 i i' new -> 0 <= new ->
  same_stake (<[a := i']> (StakerDetails s)) a i'' ->
  0 <= stk_locked_balance i'' ->
  0 <= w' <= w - of_staker stk_locked_balance (StakerDetails s) a + stk_locked_balance i'' ->
  totals_ok (<[a := i'']> (StakerDetails s)) (TotalStakeAmount s1) (TotalRewardDebt s1) w'
    (TotalStakers s1).
Proof.
  intros Hwf (H1 & H2 & H3) Hi Hr Hnew (H1' & H2' & H3') Hl Hw.
  unfold of_staker in H1', H2', H3'. rewrite lookup_insert_eq in H1', H2', H3'. simpl in *.
  pose proof (rs_info _ _ _ _ _ Hr) as Hinfo. pose proof (rs_debt_nonneg _ _ _ _ _ Hr).
  assert (Hb : stk_staked_balance i' = new) by (rewrite Hinfo; done).
  assert (Hf : stk_staked i' = (StakeAmount s <=? new)) by (rewrite Hinfo; done).
  pose proof (to_stakers_nonneg _ _ _ _ _ Hwf).
  eapply totals_ok_insert; [exact Hwf|..].
  - split; [lia|lia|lia|]. rewrite <- H1', Hb. intros ->. rewrite <- H2'.
    rewrite (rs_reward_debt _ _ _ _ _ Hr), to_local_0. unfold reward_for.
    by rewrite Z.mul_0_l, Zdiv_0_l.
  - rewrite (rs_total _ _ _ _ _ Hr). lia.
  - rewrite (rs_debt _ _ _ _ _ Hr), (staker_ok_debt i) by done. lia.
  - lia.
  - rewrite (rs_stakers _ _ _ _ _ Hr). unfold saturating_add, u64_max.
    repeat case_match; conditions; lia.
  - intros Hn Hle. rewrite (rs_stakers _ _ _ _ _ Hr), H3, <- H3'. rewrite H3, <- H3' in Hle.
    assert (Hone : stk_staked i = true -> 0 < TotalStakers s).
    { intros Hst. rewrite Hn. unfold of_staker in H3. unfold counted at 2 in H3.
      rewrite Hst in H3. destruct (StakerDetails s !! a) as [j|] eqn:Hj; [|done]. simpl in H3.
      pose proof (map_sum_lookup_le counted (StakerDetails s) a j) as Hc.
      rewrite H3 in Hc. apply Z.lt_le_trans with 1; [lia|]. apply Hc; [|done].
      intros k v _. unfold counted. by destruct (stk_staked v). }
    revert Hle. unfold counted. rewrite Hf. unfold saturating_add.
    destruct (StakeAmount s <=? new), (stk_staked i); cbn [andb]; try lia.
    destruct (Z.ltb_spec 0 (TotalStakers s)); lia.
Qed.

(** The same stake, with another locked balance or vote count. *)
Definition same_info (i i' : StakeInfo) : Prop :=
  stk_staked_balance i' = stk_staked_balance i /\
  stk_reward_debt i' = stk_reward_debt i /\ stk_staked i' = stk_staked i.

Lemma same_info_stake m a i i' : same_stake m a i -> same_info i i' -> same_stake m a i'.
Proof. unfold same_stake, same_info, counted. intros (-> & -> & ->) (-> & -> & ->). done. Qed.

Lemma same_info_insert (m : gmap AccountId StakeInfo) a i i' :
  same_info i i' -> same_stake (<[a := i]> m) a i'.
Proof. apply same_info_stake. apply same_stake_lookup. apply lookup_insert_eq. Qed.

(** The stake of a reporter, or a new one. *)
Lemma default_staker m a addr total debt w n :
  totals_ok m total debt w n ->
  let i := default (StakeInfo_new addr) (m !! a) in
  same_stake m a i /\ staker_ok i /\ of_staker stk_locked_balance m a = stk_locked_balance i.
Proof.
  intros Hwf. unfold same_stake, of_staker. destruct (m !! a) as [i|] eqn:Hi; simpl.
  - split; [done|]. split; [|done]. by eapply to_stakers.
  - split; [done|]. split; [|done]. split; simpl; lia.
Qed.

Lemma restake_Ok a i amount s i' s' : 0 <= amount -> 0 <= stk_locked_balance i ->
  restake a i amount s = (Ok i', s') ->
  same_info i i' /\ stk_address i' = stk_address i /\
  stk_locked_balance i' = Z.max 0 (stk_locked_balance i - amount) /\
  exists w, s' = upd_ToWithdraw (fun _ => w) s /\
    (w = ToWithdraw s - stk_locked_balance i + stk_locked_balance i' /\
     (0 < stk_locked_balance i -> 0 <= w)).
Proof.
  intros Ha Hl. unfold restake, same_info. intros H.
  destruct (Z.ltb_spec 0 (stk_locked_balance i)).
  - destruct (Z.leb_spec amount (stk_locked_balance i)); cinv;
      match goal with H : withdraw_sub _ _ = _ |- _ => apply withdraw_sub_Ok in H as [-> ?] end;
      conditions; subst; simpl;
      (split; [done|]; split; [done|]; split; [lia|]; eexists; split; [done|lia]).
  - assert (Hid : forall x : State, x = upd_ToWithdraw (fun _ => ToWithdraw x) x)
      by (intros [? [] ? ? ?]; done).
    destruct (stk_staked_balance i =? 0); cinv; simpl;
      (split; [done|]; split; [done|]; split; [lia|]; eexists; split; [apply Hid|lia]).
Qed.

Lemma staker_ok_same i i' : staker_ok i -> same_info i i' -> 0 <= stk_locked_balance i' ->
  staker_ok i'.
Proof. intros [] (H1 & H2 & _) Hl. split; rewrite ?H1, ?H2; done. Qed.

(** The fields of the returned stake that do not change. *)
Lemma restaked_locked s s' i i' new : restaked s s' i i' new ->
  stk_locked_balance i' = stk_locked_balance i /\ stk_address i' = stk_address i.
Proof. intros Hr. pose proof (rs_info _ _ _ _ _ Hr) as ->. done. Qed.

Lemma restaked_storage s s' i i' new : restaked s s' i i' new ->
  StakerDetails s' = StakerDetails s /\ ToWithdraw s' = ToWithdraw s /\ sys_now s' = sys_now s.
Proof.
  intros Hr. pose proof (rs_beside _ _ _ _ _ Hr) as Hb. unfold beside_stakes in Hb.
  split_pairs. done.
Qed.

Ltac apply_restaked Hr w :=
  match type of Hr with
  | restaked ?s ?s1 ?i ?i' ?new =>
      eapply (restaked_totals s s1 _ i i' _ new w); [| | |exact Hr|..]
  end.

Lemma report_stake_deposited_wf origin a amount addr s u s' :
  staking_wf s -> 0 <= amount ->
  report_stake_deposited origin a amount addr s = (Ok u, s') -> staking_wf s'.
Proof.
  intros Hwf Ha. unfold report_stake_deposited. intros H. cinv.
  destruct (default_staker _ a addr _ _ _ _ Hwf) as (Hsame & Hok & Hlock).
  set (i := default (StakeInfo_new addr) (StakerDetails s !! a)) in *. clearbody i.
  match goal with H : restake _ _ _ _ = _ |- _ => apply restake_Ok in H as
    (Hinfo & _ & Hl & w & -> & Hw & Hw0); [|done|apply Hok] end.
  match goal with H : update_stake_and_pay_rewards _ _ _ _ = _ |- _ =>
    apply update_stake_and_pay_rewards_Ok in H as Hr;
      [|destruct Hinfo as (-> & _); apply Hok|apply (to_stakers_nonneg _ _ _ _ _ Hwf)] end.
  conditions. subst. unfold staking_wf. simpl.
  destruct (restaked_storage _ _ _ _ _ Hr) as (E1 & E2 & E3).
  destruct (restaked_locked _ _ _ _ _ Hr) as [E4 _]. simpl in *. rewrite E1, E2.
  pose proof (so_staked _ Hok). pose proof (so_locked _ Hok).
  pose proof (to_withdraw _ _ _ _ _ Hwf).
  apply_restaked Hr (ToWithdraw s); [exact Hwf| | |..]; simpl.
  - by eapply same_info_stake.
  - eapply staker_ok_same; [exact Hok|exact Hinfo|lia].
  - lia.
  - by apply same_info_insert.
  - lia.
  - rewrite Hlock, E4. lia.
Qed.

Lemma report_staking_withdraw_request_wf origin a amount addr s u s' :
  staking_wf s -> 0 <= amount ->
  report_staking_withdraw_request origin a amount addr s = (Ok u, s') -> staking_wf s'.
Proof.
  intros Hwf Ha. unfold report_staking_withdraw_request. intros H. cinv.
  match goal with H : _ !! a = Some ?i |- _ =>
    pose proof (to_stakers _ _ _ _ _ Hwf _ _ H) as Hok; rename H into Hi end.
  match goal with H : update_stake_and_pay_rewards _ _ _ _ = _ |- _ =>
    apply update_stake_and_pay_rewards_Ok in H as Hr;
      [|apply Hok|apply (to_stakers_nonneg _ _ _ _ _ Hwf)] end.
  conditions. subst. unfold staking_wf. simpl.
  destruct (restaked_storage _ _ _ _ _ Hr) as (E1 & E2 & E3).
  destruct (restaked_locked _ _ _ _ _ Hr) as [E4 _]. simpl in *. rewrite E1.
  pose proof (so_locked _ Hok). pose proof (to_withdraw _ _ _ _ _ Hwf).
  apply_restaked Hr (ToWithdraw s); [exact Hwf| |exact Hok|..]; simpl.
  - by apply same_stake_lookup.
  - lia.
  - by apply same_info_insert.
  - lia.
  - rewrite (of_staker_lookup _ _ _ _ Hi). lia.
Qed.

(** A write to the locked balance and to [ToWithdraw] only. *)
Lemma locked_totals m total debt w n a i locked w' :
  totals_ok m total debt w n -> m !! a = Some i -> 0 <= locked ->
  0 <= w' <= w - stk_locked_balance i + locked ->
  totals_ok (<[a := set_stk_locked_balance locked i]> m) total debt w' n.
Proof.
  intros Hwf Hi Hl Hw. pose proof (to_stakers _ _ _ _ _ Hwf _ _ Hi) as [].
  pose proof (to_stakers_nonneg _ _ _ _ _ Hwf).
  eapply totals_ok_insert; [exact Hwf|..]; rewrite ?(of_staker_lookup _ _ _ _ Hi); simpl; try lia.
  - by split.
  - change (counted (set_stk_locked_balance locked i)) with (counted i). lia.
Qed.

Lemma report_stake_withdrawn_wf origin a amount s u s' :
  staking_wf s -> 0 <= amount ->
  report_stake_withdrawn origin a amount s = (Ok u, s') -> staking_wf s'.
Proof.
  intros Hwf Ha. unfold report_stake_withdrawn. intros H. cinv.
  match goal with H : withdraw_sub _ _ = _ |- _ => apply withdraw_sub_Ok in H as [-> ?] end.
  conditions. subst. unfold staking_wf. simpl.
  pose proof (to_withdraw _ _ _ _ _ Hwf).
  apply locked_totals with (w := ToWithdraw s); [exact Hwf|done|lia|lia].
Qed.

Lemma report_slash_wf origin a amount s u s' :
  staking_wf s -> 0 <= amount ->
  report_slash origin a amount s = (Ok u, s') -> staking_wf s'.
Proof.
  intros Hwf Ha. unfold report_slash, slash_staker. intros H. cinv.
  match goal with H : _ !! a = Some ?i |- _ =>
    pose proof (to_stakers _ _ _ _ _ Hwf _ _ H) as Hok; rename H into Hi end.
  pose proof (so_locked _ Hok). pose proof (to_withdraw _ _ _ _ _ Hwf).
  match goal with H : (if ?b then _ else _) _ = _ |- _ => destruct b eqn:? end; cinv.
  - match goal with H : withdraw_sub _ _ = _ |- _ => apply withdraw_sub_Ok in H as [-> ?] end.
    conditions. subst. unfold staking_wf. simpl.
    apply locked_totals with (w := ToWithdraw s); [exact Hwf|done|lia|lia].
  - match goal with H : (if ?b then _ else _) _ = _ |- _ => destruct b eqn:? end; cinv;
    match goal with H : withdraw_sub _ _ = _ |- _ => apply withdraw_sub_Ok in H as [-> ?] end;
    match goal with H : update_stake_and_pay_rewards _ _ _ _ = _ |- _ =>
      apply update_stake_and_pay_rewards_Ok in H as Hr;
        [|apply Hok|apply (to_stakers_nonneg _ _ _ _ _ Hwf)] end;
    conditions; subst; unfold staking_wf; simpl;
    destruct (restaked_storage _ _ _ _ _ Hr) as (E1 & E2 & E3); simpl in *; rewrite E1;
    (apply_restaked Hr (ToWithdraw s);
       [exact Hwf|by apply same_stake_lookup|exact Hok| | | |]); simpl;
    rewrite ?E2, ?(of_staker_lookup _ _ _ _ Hi); try lia; by apply same_info_insert.
Qed.
End Preservation.

(** ** Rewards *)

Section Rewards.
Context {T : Config} {Ok_T : ConfigOk T}.
Implicit Types s : State.

(** The widths of what [update_rewards] reads. *)
Record rewards_range s : Prop := {
  rr_share : 0 <= AccumulatedRewardPerShare s <= u128_max;
  rr_rate : 0 <= RewardRate s;
  rr_total : 0 <= TotalStakeAmount s;
}.

(** The rewards the stakers have earned and not been paid. *)
Definition allocated s : Z :=
  reward_for (AccumulatedRewardPerShare s) (to_local (TotalStakeAmount s)) (10 ^ Decimals)
  - TotalRewardDebt s.

Lemma reward_for_mono share share' stake u :
  0 < u -> 0 <= stake -> share <= share' -> reward_for share stake u <= reward_for share' stake u.
Proof. intros Hu Hs Hle. apply Z.div_le_mono; [done|]. by apply Z.mul_le_mono_nonneg_r. Qed.

(** Spreading [p] over the stakes allocates at most [p]. *)
Lemma spread_le share stake u p :
  0 < u -> 0 < stake -> 0 <= p ->
  reward_for (share + p * u / stake) stake u <= reward_for share stake u + p.
Proof.
  intros Hu Hs Hp. unfold reward_for. rewrite <- Z.div_add by lia.
  apply Z.div_le_mono; [done|]. pose proof (Z.mul_div_le (p * u) stake Hs). lia.
Qed.

(** What a run of [update_rewards] does to the share and the rate. *)
Lemma update_rewards_Ok s u s' : rewards_range s -> update_rewards s = (Ok u, s') ->
  TimeOfLastAllocation s' = sys_now s /\
  stake_totals s' = stake_totals s /\ sys_assets s' = sys_assets s /\
  ((AccumulatedRewardPerShare s' = AccumulatedRewardPerShare s /\ RewardRate s' = RewardRate s /\
    (TimeOfLastAllocation s = sys_now s \/ to_local (TotalStakeAmount s) = 0 \/ RewardRate s = 0)) \/
   (AccumulatedRewardPerShare s <= AccumulatedRewardPerShare s' <= u128_max /\
    0 < to_local (TotalStakeAmount s) /\
    ((RewardRate s' = RewardRate s /\
      reward_for (AccumulatedRewardPerShare s') (to_local (TotalStakeAmount s)) (10 ^ Decimals)
        - TotalRewardDebt s < staking_rewards_balance s) \/
     (RewardRate s' = 0 /\
      reward_for (AccumulatedRewardPerShare s') (to_local (TotalStakeAmount s)) (10 ^ Decimals)
        - TotalRewardDebt s <= staking_rewards_balance s)))).
Proof.
  intros [Hshare Hrate Htotal] H.
  pose proof (keeps_run _ _ _ _ _ keeps_update_rewards H) as Hk. cbv beta in Hk. split_pairs.
  split; [|split; [done|split; [done|]]].
  - unfold update_rewards in H. sinv. destruct (Z.eqb_spec (TimeOfLastAllocation s) (sys_now s)).
    { cinv. done. }
    sinv. destruct (_ || _); sinv; [done|]. destruct (_ <=? _); sinv; done.
  - clear Hk. unfold update_rewards in H. sinv.
    assert (Hu : 0 < 10 ^ Decimals) by (apply Z.pow_pos_nonneg; [lia|apply Decimals_u8]).
    pose proof (to_decimals_nonneg (TotalStakeAmount s) Decimals Htotal) as Hpos.
    fold (to_local (TotalStakeAmount s)) in Hpos.
    destruct (Z.eqb_spec (TimeOfLastAllocation s) (sys_now s)); [cinv; left; eauto|].
    sinv. destruct ((to_local (TotalStakeAmount s) =? 0) || (RewardRate s =? 0)) eqn:Hz;
      sinv; [left; rewrite !Z.eqb_eq in Hz; eauto|]. conditions. right.
    assert (Hpos' : 0 < to_local (TotalStakeAmount s)) by lia.
    destruct (staking_rewards_balance s <=? _) eqn:Hb; sinv; simpl.
    + set (P := staking_rewards_balance s - _) in *.
      assert (0 <= P * 10 ^ Decimals / to_local (TotalStakeAmount s))
        by (apply Z.div_pos; lia).
      pose proof (U256ToBalance_range (P * 10 ^ Decimals / to_local (TotalStakeAmount s)) ltac:(done)).
      split; [lia|]. split; [done|]. right. split; [done|].
      pose proof (spread_le (AccumulatedRewardPerShare s) (to_local (TotalStakeAmount s))
        (10 ^ Decimals) P Hu Hpos' ltac:(lia)).
      pose proof (reward_for_mono (AccumulatedRewardPerShare s
          + U256ToBalance (P * 10 ^ Decimals / to_local (TotalStakeAmount s)))
        (AccumulatedRewardPerShare s + P * 10 ^ Decimals / to_local (TotalStakeAmount s))
        (to_local (TotalStakeAmount s)) (10 ^ Decimals) Hu Hpos) as Hm.
      pose proof (U256ToBalance_le (P * 10 ^ Decimals / to_local (TotalStakeAmount s))).
      specialize (Hm ltac:(lia)). subst P. lia.
    + set (X := _ * 10 ^ Decimals / _) in *.
      assert (0 <= X) by (apply Z.div_pos; lia).
      pose proof (U256ToBalance_le (AccumulatedRewardPerShare s + X)).
      split; [unfold U256ToBalance, saturated_into; lia|]. split; [done|]. left. split; [done|].
      eapply Z.le_lt_trans; [|eassumption]. apply Z.sub_le_mono_r.
      by apply reward_for_mono.
Qed.

(** The rewards account covers what is allocated, before and after. *)
Lemma update_rewards_covered s u s' : rewards_range s ->
  allocated s <= staking_rewards_balance s -> update_rewards s = (Ok u, s') ->
  rewards_range s' /\ allocated s' <= staking_rewards_balance s'.
Proof.
  intros Hr Hcov H. destruct (update_rewards_Ok _ _ _ Hr H) as (_ & Hk & Ha & Hcase).
  unfold stake_totals in Hk. split_pairs.
  assert (Hbal : staking_rewards_balance s' = staking_rewards_balance s)
    by (unfold staking_rewards_balance, balance_of; congruence).
  destruct Hr as [Hs Hrate Ht]. unfold allocated in *.
  assert (E1 : TotalRewardDebt s' = TotalRewardDebt s) by congruence.
  assert (E2 : TotalStakeAmount s' = TotalStakeAmount s) by congruence.
  rewrite Hbal, E1, E2.
  destruct Hcase as [(E3 & E4 & _) | (Hle & Hpos & [[E4 Hc]|[E4 Hc]])].
  - rewrite E3. split; [split; rewrite ?E2, ?E3, ?E4; lia|done].
  - split; [split; rewrite ?E2, ?E4; lia|lia].
  - split; [split; rewrite ?E2, ?E4; lia|lia].
Qed.

(** What a staker is owed: the reward of its stake less its debt, times its
    share of the votes since it staked, and no more than the whole. *)
Definition reward_due s (a : AccountId) (i : StakeInfo) : Z :=
  let earned := U256ToBalance
    (reward_for (to_local (stk_staked_balance i)) (AccumulatedRewardPerShare s) (10 ^ Decimals)
     - stk_reward_debt i) in
  let number_of_votes := VoteCount s - stk_start_vote_count i in
  let votes_cast := value_or_zero (VoteTallyByAddress s) a - stk_start_vote_tally i in
  if 0 <? number_of_votes then Z.min earned (earned * votes_cast / number_of_votes) else earned.

Lemma pending_reward_of_Ok a i s r s' :
  pending_reward_of a i (10 ^ Decimals) s = (Ok r, s') -> r = reward_due s a i /\ s' = s.
Proof.
  unfold pending_reward_of, reward_due, participation. intros H. sinv.
  unfold get_vote_count, get_vote_tally_by_address in *.
  destruct (0 <? VoteCount s - stk_start_vote_count i); sinv; [|done].
  split; [|done]. destruct (Z.ltb_spec
    (U256ToBalance (reward_for (to_local (stk_staked_balance i)) (AccumulatedRewardPerShare s)
       (10 ^ Decimals) - stk_reward_debt i)
     * (value_or_zero (VoteTallyByAddress s) a - stk_start_vote_tally i)
     / (VoteCount s - stk_start_vote_count i))
    (U256ToBalance (reward_for (to_local (stk_staked_balance i)) (AccumulatedRewardPerShare s)
       (10 ^ Decimals) - stk_reward_debt i))); lia.
Qed.
End Rewards.

(** ** Prices *)

Section Prices.
Context {T : Config} {Ok_T : ConfigOk T}.
Implicit Types s : State.

Lemma get_data_before_fst s q t :
  fst (get_data_before_with_start s q t 0) = get_data_before s q t.
Proof.
  unfold get_data_before, get_data_before_with_start, get_index_for_data_before.
  by destruct (get_index_for_data_before_with_start s q t 0).
Qed.

(** Lookups only depend on the oracle's storage. *)
Lemma get_data_before_oracle s s' q t : st_oracle s = st_oracle s' ->
  get_data_before s q t = get_data_before s' q t.
Proof.
  intros E. unfold get_data_before, get_index_for_data_before, get_index_for_data_before_with_start,
    get_timestamp_by_query_id_and_index, retrieve_data. rewrite E.
  assert (Hs : forall fuel st en it,
    search_before fuel s q t st en it = search_before fuel s' q t st en it).
  { induction fuel as [|fuel IH]; intros st en it; simpl; [done|].
    unfold search_before_step, undisputed_index. rewrite E. repeat case_match; auto. }
  destruct (LastReportedTimestamp s' !! q) as [l|]; [|done].
  destruct (ReportedTimestampsByIndex s' !! (q, 0)) as [t0|]; [|done].
  destruct (Reports s' !! (q, l)) as [r|]; [by rewrite Hs|done].
Qed.

(** The price reported for a query: the last valid value more than 12 hours old. *)
Definition priced s (q : QueryId) (price : Z) : Prop :=
  10 ^ 16 <= price < 10 ^ 24 /\ exists v ts,
    get_data_before s q (sys_now s - 12 * HOURS) = Some (v, ts) /\ BytesToU256 v = Some price.

(** The stake amount and the dispute fee that follow from the prices. *)
Definition repriced s s' : Prop :=
  exists price price', priced s StakingTokenPriceQueryId price /\
    priced s StakingToLocalTokenPriceQueryId price' /\
    StakeAmount s' = Z.max MinimumStakeAmount (StakeAmountCurrencyTarget * 10 ^ 18 / price) /\
    DisputeFee s' = U256ToBalance (to_local (StakeAmount s' / 10 * price' / 10 ^ 18)).

Lemma read_price_Ok q e s price it s' : read_price q e s = (Ok (price, it), s') ->
  s' = s /\ priced s q price.
Proof.
  unfold read_price, priced. intros H. unfold_times. cinv. conditions. subst.
  pose proof (get_data_before_fst s q (sys_now s - 12 * (60 * 60))) as E.
  destruct (get_data_before_with_start s q (sys_now s - 12 * (60 * 60)) 0) as [[[v ts]|] n];
    cinv; conditions; subst.
  simplify_eq. simpl in E. split; [done|]. split; [done|]. by exists v, ts.
Qed.

Lemma calculate_dispute_fee_Ok price s fee s' : calculate_dispute_fee price s = (Ok fee, s') ->
  fee = U256ToBalance (to_local (StakeAmount s / 10 * price / 10 ^ 18)) /\ s' = s.
Proof. unfold calculate_dispute_fee. intros H. sinv. done. Qed.

Lemma do_update_stake_amount_Ok s n s' : do_update_stake_amount s = (Ok n, s') ->
  st_oracle s' = st_oracle s /\ sys_now s' = sys_now s /\
  exists price, priced s StakingTokenPriceQueryId price /\
    StakeAmount s' = Z.max MinimumStakeAmount (StakeAmountCurrencyTarget * 10 ^ 18 / price).
Proof.
  unfold do_update_stake_amount. intros H. apply bind_Ok in H as ([price it] & s1 & Hp & H).
  apply read_price_Ok in Hp as [-> Hp]. cinv. conditions. subst.
  split; [done|]. split; [done|]. exists price. split; [done|]. cbn [fst snd] in *.
  simpl. match goal with |- (if ?a <? ?b then _ else _) = _ => destruct (Z.ltb_spec a b) end; lia.
Qed.

Lemma update_dispute_fee_Ok s n s' : update_dispute_fee s = (Ok n, s') ->
  StakeAmount s' = StakeAmount s /\
  exists price, priced s StakingToLocalTokenPriceQueryId price /\
    DisputeFee s' = U256ToBalance (to_local (StakeAmount s / 10 * price / 10 ^ 18)).
Proof.
  unfold update_dispute_fee. intros H. apply bind_Ok in H as ([price it] & s1 & Hp & H).
  apply read_price_Ok in Hp as [-> Hp].
  apply bind_Ok in H as (fee & s2 & Hf & H). apply calculate_dispute_fee_Ok in Hf as [-> ->].
  cinv.
  match goal with H : (if negb ?b then _ else _) _ = _ |- _ => destruct b eqn:Hb' end;
    simpl in *; cinv; conditions; simpl; (split; [done|]); exists price;
    (split; [done|]); congruence.
Qed.

(** One after the other, as the call and the hook run them. *)
Lemma reprice_Ok s n s1 m s' : do_update_stake_amount s = (Ok n, s1) ->
  update_dispute_fee s1 = (Ok m, s') -> repriced s s'.
Proof.
  intros Hs Hf. apply do_update_stake_amount_Ok in Hs as (Eo & En & price & Hp & Es).
  apply update_dispute_fee_Ok in Hf as (Es' & price' & [Hr (v & ts & Hv & Hb)] & Ef).
  rewrite (get_data_before_oracle _ s _ _ Eo), En in Hv.
  exists price, price'. rewrite Es'. split; [done|]. split; [|done].
  split; [done|]. by exists v, ts.
Qed.
End Prices.
