(* ===== verification/RewardFacts.v ===== *)
(** * Rounding when a stake changes

    The rewards allocated to all stakes are one product, rounded down; the reward of a
    stake and its debt are products of their own, and a stake is converted to local
    units on its own.  So a change of a stake can leave allocated a little more than it
    takes out of the account: how much more at most. *)

From S2P Require Import Prelude Types Config Storage Oracle OracleFacts Queries Staking.
From S2P Require Import StakingFacts.

(** ** Sums of quotients *)

Lemma div_add_bounds a b u : 0 < u -> a / u + b / u <= (a + b) / u <= a / u + b / u + 1.
Proof.
  intros Hu. pose proof (Z.div_mod a u ltac:(lia)). pose proof (Z.div_mod b u ltac:(lia)).
  pose proof (Z.mod_pos_bound a u Hu). pose proof (Z.mod_pos_bound b u Hu). split.
  - apply Z.div_le_lower_bound; nia.
  - apply Z.lt_succ_r, Z.div_lt_upper_bound; nia.
Qed.

Section Rounding.
Context {T : Config} {Ok_T : ConfigOk T}.
Implicit Types s : State.

Lemma to_local_add a b : to_local a + to_local b <= to_local (a + b) <= to_local a + to_local b + 1.
Proof.
  unfold to_local, to_decimals, DECIMALS. destruct (Z.leb_spec Decimals 18); [|lia].
  apply div_add_bounds, Z.pow_pos_nonneg; lia.
Qed.

Lemma reward_for_comm share stake u : reward_for share stake u = reward_for stake share u.
Proof. unfold reward_for. by rewrite Z.mul_comm. Qed.

(** The reward of a stake of one unit. *)
Definition unit_reward (share u : Z) : Z := share / u.

(** Two stakes and their sum. *)
Lemma reward_for_join share a b u : 0 < u -> 0 <= share ->
  reward_for share (to_local a) u + reward_for share (to_local b) u
    <= reward_for share (to_local (a + b)) u
    <= reward_for share (to_local a) u + reward_for share (to_local b) u
       + unit_reward share u + 2.
Proof.
  intros Hu Hs. pose proof (to_local_add a b) as [H1 H2]. unfold reward_for, unit_reward.
  pose proof (div_add_bounds (share * to_local a) (share * to_local b) u Hu) as [H3 H4].
  pose proof (div_add_bounds (share * to_local a + share * to_local b) share u Hu) as [_ H5].
  split.
  - etransitivity; [exact H3|]. apply Z.div_le_mono; [done|]. nia.
  - etransitivity; [apply (Z.div_le_mono _ (share * to_local a + share * to_local b + share));
      [done|nia]|]. lia.
Qed.

Lemma unit_reward_nonneg share : 0 <= share -> 0 <= unit_reward share (10 ^ Decimals).
Proof.
  intros Hs. apply Z.div_pos; [done|]. apply Z.pow_pos_nonneg; [lia|apply Decimals_u8].
Qed.

(** ** What covers the rewards *)

Lemma update_rewards_share s u s' : rewards_range s -> update_rewards s = (Ok u, s') ->
  0 <= AccumulatedRewardPerShare s'.
Proof.
  intros Hr H. pose proof (rr_share _ Hr).
  apply update_rewards_Ok in H as (_ & _ & _ & [[-> _]|[Hle _]]); [lia..|done].
Qed.

(** What the account is short of: nothing that [update_rewards] has just allocated, and
    nothing without stakes. *)
Lemma update_rewards_shortfall {A_laws : AssetLaws cfg_Asset} k s u s' :
  rewards_range s -> 0 <= TotalRewardDebt s -> 0 <= k ->
  (TimeOfLastAllocation s = sys_now s -> allocated s <= staking_rewards_balance s + k) ->
  update_rewards s = (Ok u, s') ->
  RewardRate s' = 0 \/ allocated s' <= staking_rewards_balance s' + k.
Proof.
  intros Hr HD Hk Hcov H. destruct (update_rewards_Ok _ _ _ Hr H) as (_ & Ht & Ha & Hcase).
  unfold stake_totals in Ht. split_pairs.
  assert (E1 : TotalRewardDebt s' = TotalRewardDebt s) by congruence.
  assert (E2 : TotalStakeAmount s' = TotalStakeAmount s) by congruence.
  assert (Hbal : staking_rewards_balance s' = staking_rewards_balance s)
    by (unfold staking_rewards_balance, balance_of; congruence).
  unfold allocated in *. rewrite Hbal, E1, E2.
  destruct Hcase as [(E3 & E4 & [Hn|[Hz|Hz]]) | (_ & _ & [[_ Hc]|[Hz _]])].
  - right. rewrite E3. by apply Hcov.
  - right. unfold reward_for. rewrite Hz, Z.mul_0_r, Zdiv_0_l.
    pose proof (balance_range (sys_assets s) staking_rewards).
    unfold staking_rewards_balance, balance_of. lia.
  - left. congruence.
  - right. lia.
  - by left.
Qed.

(** While no rewards are released, a stake enters only if the account covers them all. *)
Lemma enter_stake_covered i s i' s' : RewardRate s = 0 ->
  enter_stake i (10 ^ Decimals) s = (Ok i', s') -> allocated s' <= staking_rewards_balance s'.
Proof.
  intros Hz H. unfold enter_stake in H. sinv. simpl in *. rewrite Hz, Z.eqb_refl in *.
  unfold rate_over_30_days in *. sinv.
  unfold allocated, staking_rewards_balance, balance_of in *. simpl in *. lia.
Qed.

(** ** A change of a stake *)

Lemma keeps_share_settle a i u :
  keeps (fun s => (AccumulatedRewardPerShare s, RewardRate s)) (settle_stake a i u).
Proof. unfold settle_stake. pose proof @keeps_pending_reward_of. solve_keeps. Qed.

(** What is left allocated, at the share that is in force when the stake changes. *)
Lemma allocated_restaked s0 s s' i i' new (share := AccumulatedRewardPerShare s) :
  restaked s0 s' i i' new -> stake_totals s = stake_totals s0 ->
  AccumulatedRewardPerShare s' = share -> 0 <= share ->
  reward_for (to_local new) share (10 ^ Decimals) <= u128_max ->
  allocated s' <= allocated s
    - (reward_for share (to_local (stk_staked_balance i)) (10 ^ Decimals) - debt_in_totals i)
    + unit_reward share (10 ^ Decimals) + 2.
Proof.
  intros [_ _ Htotal Hdebt _ _ _ Hd _ _] Hkeep Hshare H0 Hfit. unfold stake_totals in Hkeep.
  split_pairs. unfold allocated.
  assert (TotalStakeAmount s = TotalStakeAmount s0) as E1 by congruence.
  assert (TotalRewardDebt s = TotalRewardDebt s0) as E2 by congruence.
  rewrite Hshare, Htotal, Hdebt in *. fold share. rewrite Hd, <- E1, <- E2 in *.
  assert (Hu : 0 < 10 ^ Decimals) by (apply Z.pow_pos_nonneg; [lia|apply Decimals_u8]).
  set (R := TotalStakeAmount s - stk_staked_balance i).
  pose proof (reward_for_join share R new _ Hu H0) as [_ J1].
  pose proof (reward_for_join share R (stk_staked_balance i) _ Hu H0) as [J2 _].
  replace (R + stk_staked_balance i) with (TotalStakeAmount s) in J2 by lia.
  rewrite (reward_for_comm (to_local new)) in *. unfold U256ToBalance, saturated_into in *. lia.
Qed.

(** What is paid is no more than the reward of the stake less its debt. *)
Lemma reward_due_le s a i : reward_due s a i <=
  reward_for (AccumulatedRewardPerShare s) (to_local (stk_staked_balance i)) (10 ^ Decimals)
  - stk_reward_debt i.
Proof.
  unfold reward_due. rewrite (reward_for_comm (to_local _)). set (r := reward_for _ _ _ - _). pose proof (U256ToBalance_le r).
  destruct (0 <? _); [|done]. lia.
Qed.

(** A payment out of the rewards account. *)
Lemma paid_balance {A_laws : AssetLaws cfg_Asset} s s' a n : a <> staking_rewards ->
  asset_transfer (sys_assets s) staking_rewards a n Protect = inr (sys_assets s') ->
  minimum_balance <= staking_rewards_balance s' ->
  staking_rewards_balance s' = staking_rewards_balance s - n.
Proof.
  unfold staking_rewards_balance, balance_of. intros Ha H Hmin.
  pose proof (transfer_src_le _ _ _ _ _ _ H ltac:(done)).
  apply (transfer_src _ _ _ _ _ _ H); [done|]. right. lia.
Qed.

(** A stake that is settled is paid what it is due. *)
Lemma settle_stake_paid a i s u s' : settle_stake a i (10 ^ Decimals) s = (Ok u, s') ->
  asset_transfer (sys_assets s) staking_rewards a (reward_due s a i) Protect = inr (sys_assets s').
Proof.
  unfold settle_stake. intros H. apply bind_Ok in H as (r & s1 & Hp & H).
  apply pending_reward_of_Ok in Hp as [-> ->]. cinv. by simpl.
Qed.

(** A change of a stake, from the release of the rewards on: what is paid, at which share. *)
Lemma update_stake_paid a i new s i' s' :
  update_stake_and_pay_rewards a i new s = (Ok i', s') ->
  exists u s1, update_rewards s = (Ok u, s1) /\
    AccumulatedRewardPerShare s' = AccumulatedRewardPerShare s1 /\
    (RewardRate s1 = 0 -> allocated s' <= staking_rewards_balance s') /\
    if 0 <? stk_staked_balance i
    then asset_transfer (sys_assets s1) staking_rewards a (reward_due s1 a i) Protect
         = inr (sys_assets s')
    else sys_assets s' = sys_assets s1.
Proof.
  unfold update_stake_and_pay_rewards. intros H.
  apply bind_Ok in H as (u1 & s1 & H1 & H). apply bind_Ok in H as (u & s2 & H2 & H).
  apply bind_Ok in H as (? & s3 & H3 & H). apply bind_Ok in H as (i1 & s4 & H4 & H5).
  apply unit_of_balance_Ok in H2 as [-> ->]. exists u1, s1. split; [done|].
  apply (keeps_run _ _ _ _ _ (keeps_count_staker _)) in H4.
  pose proof (fun E => enter_stake_covered _ _ _ _ E H5) as Hcov.
  apply (keeps_run _ _ _ _ _ (keeps_enter_stake _ _)) in H5. cbv beta in *. split_pairs.
  assert (E3 : sys_assets s' = sys_assets s3) by congruence.
  assert (E4 : AccumulatedRewardPerShare s' = AccumulatedRewardPerShare s3) by congruence.
  assert (E5 : RewardRate s4 = RewardRate s3) by congruence.
  rewrite E3, E4. destruct (0 <? stk_staked_balance i); [|cinv; by rewrite <- E5].
  pose proof (settle_stake_paid _ _ _ _ _ H3) as Hp.
  apply (keeps_run _ _ _ _ _ (keeps_share_settle _ _ _)) in H3. cbv beta in H3. split_pairs.
  repeat split; [done| |done]. intros Hz. apply Hcov. congruence.
Qed.

(** A stake that was empty has no reward. *)
Lemma reward_for_none share u : reward_for share (to_local 0) u = 0.
Proof. unfold reward_for. rewrite to_local_0, Z.mul_0_r. apply Zdiv_0_l. Qed.
(** However the new stake, the reward paid and the debt are rounded, a change of a stake
    leaves the rewards account short by at most the reward of one unit of stake and two, beyond
    what it was short of at the same time: the first change at a time makes up for all that
    rounding took before. *)
Lemma stake_change_overdraws_little {A_laws : AssetLaws cfg_Asset} a i new s i' s' k
    (Hr : rewards_range s) (HD : 0 <= TotalRewardDebt s) (Hk : 0 <= k)
    (Hcov : TimeOfLastAllocation s = sys_now s -> allocated s <= staking_rewards_balance s + k)
    (Hi : 0 <= stk_staked_balance i) (Hn : 0 <= TotalStakers s) (Ha : a <> staking_rewards)
    (Hrun : update_stake_and_pay_rewards a i new s = (Ok i', s'))
    (Hmin : minimum_balance <= staking_rewards_balance s')
    (Hfit : reward_for (to_local new) (AccumulatedRewardPerShare s') (10 ^ Decimals) <= u128_max) :
  allocated s' <= staking_rewards_balance s'
                  + (k + unit_reward (AccumulatedRewardPerShare s') (10 ^ Decimals) + 2).
Proof.
  pose proof (update_stake_and_pay_rewards_Ok _ _ _ _ _ _ Hi Hn Hrun) as Hre.
  apply update_stake_paid in Hrun as (u & s1 & H1 & Hshare & Hzero & Hpaid).
  pose proof (update_rewards_share _ _ _ Hr H1) as H0.
  pose proof (unit_reward_nonneg (AccumulatedRewardPerShare s1) H0) as Hone.
  pose proof (update_rewards_shortfall k _ _ _ Hr HD Hk Hcov H1) as Hcov1.
  apply (keeps_run _ _ _ _ _ keeps_update_rewards) in H1. cbv beta in H1.
  pose proof (f_equal fst H1) as Ht. cbn [fst] in Ht. rewrite Hshare in *.
  destruct Hcov1 as [Hcov1|Hcov1]; [apply Hzero in Hcov1; lia|].
  pose proof (allocated_restaked s s1 s' i i' new Hre Ht Hshare H0 Hfit) as Hall.
  cbv zeta in Hall. unfold debt_in_totals in Hall. destruct (Z.ltb_spec 0 (stk_staked_balance i)).
  - rewrite (paid_balance _ _ _ _ Ha Hpaid Hmin). pose proof (reward_due_le s1 a i). lia.
  - replace (stk_staked_balance i) with 0 in Hall by lia. rewrite reward_for_none in Hall.
    unfold staking_rewards_balance, balance_of in *. rewrite Hpaid. lia.
Qed.

End Rounding.

(** ** A stake that enters while no rewards are released *)

Section Entry.
Context {T : Config} {Ok_T : ConfigOk T} {A_laws : AssetLaws cfg_Asset}.
Implicit Types s : State.

(** What rounding adds to the rewards that are allocated when a stake enters: the reward of
    all stakes with it, less the reward of the stakes before and its own debt. *)
Definition entry_rounding s (amount : Tributes) : Z :=
  let share := AccumulatedRewardPerShare s in
  reward_for share (to_local (TotalStakeAmount s + amount)) (10 ^ Decimals)
  - reward_for share (to_local (TotalStakeAmount s)) (10 ^ Decimals)
  - reward_for share (to_local amount) (10 ^ Decimals).

(** What the entry computes is in width. *)
Record entry_fits s (amount : Tributes) : Prop := {
  ef_unit : 10 ^ Decimals <= u128_max;
  ef_amount : 0 <= amount;
  ef_total : TotalStakeAmount s + amount <= u256_max;
  ef_local : to_local (TotalStakeAmount s + amount) <= u256_max;
  ef_reward : AccumulatedRewardPerShare s * to_local (TotalStakeAmount s + amount) <= u256_max;
  ef_debt : TotalRewardDebt s
    + reward_for (AccumulatedRewardPerShare s) (to_local amount) (10 ^ Decimals) <= u128_max;
}.

Lemma one_unit : 0 < 10 ^ Decimals.
Proof. apply Z.pow_pos_nonneg; [lia|apply Decimals_u8]. Qed.

Lemma entry_rounding_bounds s amount : 0 <= AccumulatedRewardPerShare s ->
  0 <= entry_rounding s amount
    <= unit_reward (AccumulatedRewardPerShare s) (10 ^ Decimals) + 2.
Proof.
  intros Hs. pose proof (reward_for_join _ (TotalStakeAmount s) amount _ one_unit Hs).
  unfold entry_rounding. lia.
Qed.

Lemma reward_for_bounds share stake u m : 0 < u -> 0 <= share * stake <= m ->
  0 <= reward_for share stake u <= m.
Proof.
  intros Hu Hp. unfold reward_for. split; [apply Z.div_pos; lia|].
  etransitivity; [|apply Hp]. apply Z.div_le_upper_bound; [done|]. nia.
Qed.

(** The conversions and the checked products and quotients, in width. *)
Lemma convert_run a s : 0 <= a <= u256_max -> to_local a <= u256_max ->
  convert a s = (Ok (to_local a), s).
Proof.
  intros Ha Hl. unfold convert. rewrite convert_to_decimals_run; [|done|apply Decimals_u8].
  fold (to_local a). by rewrite (proj2 (Z.leb_le _ _) Hl).
Qed.

Lemma unit_of_balance_run s : 10 ^ Decimals <= u128_max ->
  unit_of_balance s = (Ok (10 ^ Decimals), s).
Proof.
  intros H. unfold unit_of_balance, checked_pow, ok_or_arith. pose proof one_unit.
  by rewrite checked_ok by lia.
Qed.

Lemma reward_on_run share stake u s : 0 < u -> 0 <= share * stake <= u256_max ->
  reward_on share stake u s = (Ok (reward_for share stake u), s).
Proof.
  intros Hu Hp. unfold reward_on, ok_or_arith.
  erewrite bind_ok_or_some; [|by apply checked_mul_Some].
  unfold checked_div. by destruct (Z.eqb_spec u 0); [lia|].
Qed.

Lemma reward_less_debt_run share stake u d s : 0 < u -> 0 <= share * stake <= u256_max ->
  reward_for share stake u - d <= u256_max ->
  reward_less_debt share stake u d s =
    (if 0 <=? reward_for share stake u - d then Ok (reward_for share stake u - d)
     else Err (Arithmetic Underflow), s).
Proof.
  intros Hu Hp Hd. unfold reward_less_debt. erewrite bind_run by (by apply reward_on_run).
  unfold ok_or_arith, ok_or, checked_sub, checked.
  destruct (Z.leb_spec 0 (reward_for share stake u - d)); [|done].
  by rewrite (proj2 (Z.leb_le _ _) Hd).
Qed.

Lemma rate_over_30_days_run b x s : b - x <= u256_max ->
  rate_over_30_days b x s =
    (if x <=? b then Ok (U256ToBalance ((b - x) / (30 * DAYS))) else Err (Arithmetic Underflow), s).
Proof.
  intros Hb. unfold rate_over_30_days, ok_or_arith, checked_sub. destruct (Z.leb_spec x b).
  - erewrite bind_ok_or_some; [done|]. apply checked_ok. lia.
  - by replace (checked u256_max (b - x)) with (@None Z)
      by (symmetry; apply checked_None; lia).
Qed.

(** What is allocated once the stake has entered. *)
Lemma allocated_on_entry s n :
  allocated s + entry_rounding s n =
    reward_for (AccumulatedRewardPerShare s) (to_local (TotalStakeAmount s + n)) (10 ^ Decimals)
    - (TotalRewardDebt s + reward_for (AccumulatedRewardPerShare s) (to_local n) (10 ^ Decimals)).
Proof. unfold allocated, entry_rounding. lia. Qed.

(** The stake enters exactly when the account covers all that is then allocated. *)
Lemma enter_stake_unreleased i s (n := stk_staked_balance i) : rewards_range s ->
  0 <= TotalRewardDebt s -> entry_fits s n -> RewardRate s = 0 ->
  exists s', enter_stake i (10 ^ Decimals) s =
    (if bool_decide (0 <= allocated s + entry_rounding s n <= staking_rewards_balance s)
     then Ok (set_stk_reward_debt
                (reward_for (AccumulatedRewardPerShare s) (to_local n) (10 ^ Decimals)) i)
     else Err (Arithmetic Underflow), s').
Proof.
  intros [[Hshare _] _ Htotal] HD [_ Hn Hsum Hlocal Hreward Hdebt] Hrate.
  rewrite allocated_on_entry.
  pose proof (to_decimals_nonneg n Decimals Hn) as Hln.
  pose proof (to_decimals_mono n (TotalStakeAmount s + n) Decimals ltac:(lia)) as Hmono.
  fold (to_local n) in *. fold (to_local (TotalStakeAmount s + n)) in *.
  set (share := AccumulatedRewardPerShare s) in *. set (all := TotalStakeAmount s + n) in *.
  assert (Hall0 : 0 <= all) by (unfold all; lia).
  assert (Hpart : 0 <= share * to_local n <= u256_max)
    by (split; [|etransitivity; [|exact Hreward]]; [lia|by apply Z.mul_le_mono_nonneg_l]).
  pose proof (reward_for_bounds _ _ _ _ one_unit Hpart) as Hown.
  assert (Hall : 0 <= share * to_local all <= u256_max) by (split; [apply Z.mul_nonneg_nonneg|]; lia).
  pose proof (reward_for_bounds _ _ _ _ one_unit Hall) as Hle.
  pose proof (balance_range (sys_assets s) staking_rewards) as Hbal.
  fold (balance_of s staking_rewards) in Hbal. fold (staking_rewards_balance s) in Hbal.
  set (own := reward_for share (to_local n) (10 ^ Decimals)) in *.
  set (total := reward_for share (to_local all) (10 ^ Decimals)) in *.
  unfold enter_stake. fold n. unfold_calls. rewrite !bind_gets. fold share.
  rewrite (bind_run _ _ _ _ _ (convert_run n s ltac:(lia) ltac:(lia))).
  erewrite (bind_run (reward_on _ _ _)) by (apply reward_on_run; [exact one_unit|by rewrite Z.mul_comm]).
  rewrite reward_for_comm. fold own.
  assert (Hsat : U256ToBalance own = own) by (unfold U256ToBalance, saturated_into; lia).
  rewrite bind_gets. cbn [stk_reward_debt set_stk_reward_debt]. rewrite Hsat.
  erewrite bind_ok_or_some by (apply checked_add_Some; split; [done|lia]).
  rewrite bind_modify, bind_gets. cbn [stk_staked_balance]. fold n.
  erewrite bind_ok_or_some; [|apply checked_add_Some; split; [done|change (0 <= all <= u256_max); lia]].
  rewrite bind_modify. simpl TotalStakeAmount. fold n all.
  rewrite (bind_run _ _ _ _ _ (convert_run all _ ltac:(lia) Hlocal)).
  rewrite bind_gets. simpl RewardRate. rewrite Hrate. cbn [Z.eqb].
  rewrite !bind_assoc, bind_gets.
  match goal with |- context [staking_rewards_balance ?x] =>
    lazymatch x with s => fail | _ => change (staking_rewards_balance x) with (staking_rewards_balance s) end end.
  set (x := total - _).
  unfold bind at 1 2. rewrite reward_less_debt_run by (try exact one_unit; fold total; lia).
  fold total x. destruct (Z.leb_spec 0 x); [|by rewrite bool_decide_false by lia; eexists].
  unfold bind at 1. rewrite rate_over_30_days_run by zlia.
  destruct (Z.leb_spec x (staking_rewards_balance s));
    [rewrite bool_decide_true by lia|rewrite bool_decide_false by lia]; by eexists.
Qed.

Lemma count_staker_run i s :
  exists s', count_staker i s = (Ok (set_stk_staked (StakeAmount s <=? stk_staked_balance i) i), s').
Proof.
  unfold count_staker. unfold_calls. rewrite !bind_gets.
  destruct (StakeAmount s <=? stk_staked_balance i).
  - destruct (stk_staked i); by eexists.
  - destruct (stk_staked i && (0 <? TotalStakers s)); by eexists.
Qed.

(** What the entry reads. *)
Definition entry_parts s :=
  (AccumulatedRewardPerShare s, RewardRate s, TotalStakeAmount s, TotalRewardDebt s, sys_assets s).

Lemma entry_parts_same s s' n : entry_parts s' = entry_parts s ->
  rewards_range s -> entry_fits s n ->
  rewards_range s' /\ entry_fits s' n /\ RewardRate s' = RewardRate s /\
  TotalRewardDebt s' = TotalRewardDebt s /\ allocated s' = allocated s /\
  entry_rounding s' n = entry_rounding s n /\
  staking_rewards_balance s' = staking_rewards_balance s.
Proof.
  unfold entry_parts, allocated, entry_rounding, staking_rewards_balance, balance_of.
  intros E [H1 H2 H3] [F1 F2 F3 F4 F5 F6]. injection E as E1 E2 E3 E4 E5.
  rewrite E1, E2, E3, E4, E5. split_and!; [split; by rewrite ?E1, ?E2, ?E3|split|done..];
    by rewrite ?E1, ?E3, ?E4.
Qed.

(** A stake where there was none, once the rewards have run out. *)
Lemma first_stake_unreleased a i n s u s1 : rewards_range s -> 0 <= TotalRewardDebt s ->
  stk_staked_balance i = 0 -> update_rewards s = (Ok u, s1) -> RewardRate s1 = 0 -> entry_fits s1 n ->
  if bool_decide (0 <= allocated s1 + entry_rounding s1 n <= staking_rewards_balance s1)
  then exists i' s', update_stake_and_pay_rewards a i n s = (Ok i', s')
  else exists s', update_stake_and_pay_rewards a i n s = (Err (Arithmetic Underflow), s').
Proof.
  intros Hr HD Hi Hrun Hrate Hfit. pose proof (update_rewards_share _ _ _ Hr Hrun) as Hshare.
  apply (keeps_run _ _ _ _ _ keeps_update_rewards) in Hrun as Hk. cbv beta in Hk.
  unfold stake_totals in Hk. split_pairs.
  assert (Hr1 : rewards_range s1).
  { apply update_rewards_Ok in Hrun as (_ & _ & _ & Hc); [|done]. destruct Hr as [[? ?] ? ?].
    split; [|lia|congruence]. split; [done|]. destruct Hc as [[-> _]|[Hle _]]; [done|apply Hle]. }
  unfold update_stake_and_pay_rewards. erewrite bind_run by exact Hrun.
  erewrite bind_run by (by apply unit_of_balance_run, (ef_unit _ _ Hfit)).
  rewrite Hi. cbn [Z.ltb Z.compare]. rewrite bind_ret.
  destruct (count_staker_run (set_stk_staked_balance n i) s1) as [s2 Hcount].
  pose proof (keeps_run _ _ _ _ _ (keeps_count_staker _) Hcount) as Hk2. cbv beta in Hk2.
  erewrite bind_run by exact Hcount. split_pairs.
  destruct (entry_parts_same s1 s2 n) as (Hr2 & Hf2 & E1 & E2 & E3 & E4 & E5);
    [by unfold entry_parts; congruence|done|done|].
  set (j := set_stk_staked _ _). change n with (stk_staked_balance j) in Hf2.
  destruct (enter_stake_unreleased j s2) as [s' He]; [done|congruence|done|congruence|].
  change (stk_staked_balance j) with n in He.
  rewrite E3, E4, E5 in He. rewrite He. case_bool_decide; eauto.
Qed.
End Entry.
