(* ===== verification/Autopay.v ===== *)
(** * Autopay

    Tips and data feeds: [claim_onetime_tip], [claim_tip], [fund_feed],
    [setup_data_feed] and [tip] of [src/src/lib.rs], with [do_fund_feed],
    [do_get_reward_amount], [get_reward_amount], [get_onetime_tip_amount] and
    [store_data] of [src/src/impls.rs]. *)

From S2P Require Import Prelude Types Config Storage Oracle Queries Staking.

Section Autopay.
Context {T : Config}.
Implicit Types s : State.

Definition store_data (query_id : QueryId) (query_data : QueryDataBytes) : Call unit :=
  write (upd_QueryData <[query_id := query_data]>) ;;;
  deposit_event (QueryDataStored query_id).

(** [UserTipsTotal::mutate(who, |total| total.saturating_accrue(amount))] *)
Definition accrue_user_tips (who : AccountId) (amount : Balance) : Call unit :=
  let* total := read (fun s => value_or_zero (UserTipsTotal s) who) in
  write (upd_UserTipsTotal <[who := saturating_add u128_max total amount]>).

(** ** Funding feeds *)

Definition do_fund_feed (feed_funder : AccountId) (feed_id : FeedId) (query_id : QueryId)
    (amount : Balance) : Call unit :=
  let* maybe := read (fun s => DataFeeds s !! (query_id, feed_id)) in
  let* feed := ok_or_error maybe InvalidFeed in
  ensure_that (0 <? amount) InvalidAmount ;;;
  let feed := set_feed_balance (saturating_add u128_max (feed_balance feed) amount) feed in
  transfer feed_funder tips amount Expendable ;;;
  write (upd_FeedsWithFunding (union {[feed_id]})) ;;;
  write (upd_DataFeeds <[(query_id, feed_id) := feed]>) ;;;
  accrue_user_tips feed_funder amount ;;;
  deposit_event (DataFeedFunded query_id feed_id amount feed_funder feed).

Definition fund_feed (origin : RuntimeOrigin) (feed_id : FeedId) (query_id : QueryId)
    (amount : Balance) : Call unit :=
  let* feed_funder := ensure_signed origin in
  do_fund_feed feed_funder feed_id query_id amount.

Definition feed_id_of (query_id : QueryId) (reward : Balance)
    (start_time interval window : Timestamp) (price_threshold : Z)
    (reward_increase_per_second : Balance) : FeedId :=
  keccak256 (abi_encode
    [FixedBytes (to_be_bytes 32 query_id); Uint reward; Uint start_time; Uint interval;
     Uint window; Uint price_threshold; Uint reward_increase_per_second]).

Definition setup_data_feed (origin : RuntimeOrigin) (query_id : QueryId) (reward : Balance)
    (start_time interval window : Timestamp) (price_threshold : Z)
    (reward_increase_per_second : Balance) (query_data : QueryDataBytes)
    (amount : Balance) : Call unit :=
  let* feed_creator := ensure_signed origin in
  ensure_that (query_id =? keccak256 query_data) InvalidQueryId ;;;
  let feed_id := feed_id_of query_id reward start_time interval window price_threshold
                   reward_increase_per_second in
  let* feed := read (fun s => DataFeeds s !! (query_id, feed_id)) in
  ensure_that (bool_decide (feed = None)) FeedAlreadyExists ;;;
  ensure_that (0 <? reward) InvalidReward ;;;
  ensure_that (0 <? interval) InvalidInterval ;;;
  ensure_that (window <? interval) InvalidWindow ;;;
  let feed :=
    {| feed_reward := reward; feed_balance := 0; feed_start_time := start_time;
       feed_interval := interval; feed_window := window;
       feed_price_threshold := price_threshold;
       feed_reward_increase_per_second := reward_increase_per_second |} in
  write (upd_QueryIdFromDataFeedId <[feed_id := query_id]>) ;;;
  store_data query_id query_data ;;;
  write (upd_DataFeeds <[(query_id, feed_id) := feed]>) ;;;
  deposit_event (NewDataFeed query_id feed_id query_data feed_creator) ;;;
  (if 0 <? amount then do_fund_feed feed_creator feed_id query_id amount else ret tt).

(** ** The reward of a report *)

(** The change from [v2] to [v1] in hundredths of a percent, as a [u16]. *)
Definition price_change_between (v1 v2 : Z) : Call Z :=
  if v2 =? 0 then ret 10000
  else
    let* diff := ok_or_arith
      (if v2 <=? v1 then checked_sub u256_max v1 v2 else checked_sub u256_max v2 v1)
      Underflow in
    let* scaled := ok_or_arith (checked_mul u256_max 10000 diff) Overflow in
    let* change := expect (checked_div scaled v2) in
    ret (saturated_into u16_max change).

Definition price_change (feed : Feed) (query_id : QueryId)
    (timestamp timestamp_before : Timestamp) : Call Z :=
  if negb (feed_price_threshold feed =? 0) then
    let* maybe := read (fun s => ReportedValuesByTimestamp s !! (query_id, timestamp)) in
    let* value := ok_or_error maybe InvalidValue in
    ensure_that (negb (is_empty value)) InvalidValue ;;;
    let* v1 := ok_or_error (BytesToU256 value) ValueConversionError in
    let* value_before := read (fun s =>
      default [] (ReportedValuesByTimestamp s !! (query_id, timestamp_before))) in
    let* v2 := ok_or_error (BytesToU256 value_before) ValueConversionError in
    price_change_between v1 v2
  else ret 0.

Definition do_get_reward_amount (feed_id : FeedId) (query_id : QueryId)
    (timestamp : Timestamp) : Call Balance :=
  let* t := now in
  let* age := ok_or_arith (checked_sub u64_max t timestamp) Underflow in
  ensure_that (age <? 4 * WEEKS) ClaimPeriodExpired ;;;
  let* maybe_feed := read (fun s => DataFeeds s !! (query_id, feed_id)) in
  let* feed := ok_or_error maybe_feed InvalidFeed in
  let* claimed := read (fun s =>
    bool_decide ((query_id, feed_id, timestamp) ∈ DataFeedRewardClaimed s)) in
  ensure_that (negb claimed) TipAlreadyClaimed ;;;
  (* the interval [n] the timestamp falls in, and its start [c] *)
  let* since := ok_or_arith
    (checked_sub u64_max timestamp (feed_start_time feed)) Underflow in
  let* n := ok_or_arith (checked_div since (feed_interval feed)) DivisionByZero in
  let* offset := ok_or_arith (checked_mul u64_max (feed_interval feed) n) Overflow in
  let* c := ok_or_arith (checked_add u64_max (feed_start_time feed) offset) Overflow in
  let* maybe_report := read (fun s => Reports s !! (query_id, timestamp)) in
  let* report := ok_or_error maybe_report InvalidTimestamp in
  ensure_that (negb (rep_is_disputed report)) ValueDisputed ;;;
  let timestamp_before := default 0 (rep_previous report) in
  let* change := price_change feed query_id timestamp timestamp_before in
  let* time_diff := ok_or_arith (checked_sub u64_max timestamp c) Underflow in
  let* reward_amount :=
    if (time_diff <? feed_window feed) && (timestamp_before <? c) then
      let* increase := ok_or_arith
        (checked_mul u128_max (feed_reward_increase_per_second feed) time_diff) Overflow in
      ret (saturating_add u128_max (feed_reward feed) increase)
    else
      ensure_that (feed_price_threshold feed <? change) PriceThresholdNotMet ;;;
      ret (feed_reward feed) in
  ret (if feed_balance feed <? reward_amount then feed_balance feed else reward_amount).

Definition get_reward_amount (feed_id : FeedId) (query_id : QueryId)
    (timestamps : list Timestamp) : Call Balance :=
  let* maybe_feed := read (fun s => DataFeeds s !! (query_id, feed_id)) in
  match maybe_feed with
  | None => ret 0
  | Some feed =>
      let* cumulative_reward :=
        foldM (fun acc timestamp =>
            let* reward := attempt (do_get_reward_amount feed_id query_id timestamp) in
            ret (saturating_add u128_max acc (default 0 reward)))
          0 (take (Z.to_nat MaxClaimTimestamps) timestamps) in
      let cumulative_reward :=
        if feed_balance feed <? cumulative_reward then feed_balance feed
        else cumulative_reward in
      ret (saturating_sub cumulative_reward
             (saturating_mul u128_max cumulative_reward Fee / 1000))
  end.

(** ** Claiming the tips of a feed *)

(** Pay the reporter what remains after the fee, and add the fee to the staking
    rewards. *)
Definition pay_claim (reporter : AccountId) (cumulative_reward : Balance) : Call unit :=
  let* product := ok_or_arith (checked_mul u128_max cumulative_reward Fee) Overflow in
  let* fee := expect (checked_div product 1000) in
  let* payment := ok_or_arith (checked_sub u128_max cumulative_reward fee) Underflow in
  transfer tips reporter payment Protect ;;;
  do_add_staking_rewards tips fee.

(** One turn of the loop over the timestamps. *)
Definition claim_timestamp (reporter : AccountId) (feed_id : FeedId) (query_id : QueryId)
    (balance : Balance) (timestamps : list Timestamp) (cumulative_reward : Balance)
    (timestamp : Timestamp) : Call Balance :=
  let* t := now in
  let* age := ok_or_arith (checked_sub u64_max t timestamp) Underflow in
  ensure_that (12 * HOURS <? age) ClaimBufferNotPassed ;;;
  let* claimer := read (fun s => get_reporter_by_timestamp s query_id timestamp) in
  ensure_that (bool_decide (Some reporter = claimer)) InvalidClaimer ;;;
  let* reward := do_get_reward_amount feed_id query_id timestamp in
  let cumulative_reward := saturating_add u128_max cumulative_reward reward in
  let* cumulative_reward :=
    if balance <=? cumulative_reward then
      ensure_that (bool_decide (Some timestamp = last timestamps)) InsufficientFeedBalance ;;;
      write (upd_FeedsWithFunding (fun x => x ∖ {[feed_id]})) ;;;
      ret balance
    else ret cumulative_reward in
  write (upd_DataFeedRewardClaimed (union {[(query_id, feed_id, timestamp)]})) ;;;
  ret cumulative_reward.

Definition claim_tip (origin : RuntimeOrigin) (feed_id : FeedId) (query_id : QueryId)
    (timestamps : list Timestamp) : Call unit :=
  let* reporter := ensure_signed origin in
  let* maybe_feed := read (fun s => DataFeeds s !! (query_id, feed_id)) in
  let* feed := ok_or_error maybe_feed InvalidFeed in
  let balance := feed_balance feed in
  ensure_that (0 <? balance) InsufficientFeedBalance ;;;
  let* cumulative_reward :=
    foldM (claim_timestamp reporter feed_id query_id balance timestamps) 0 timestamps in
  write (upd_DataFeeds <[(query_id, feed_id) :=
    set_feed_balance (saturating_sub (feed_balance feed) cumulative_reward) feed]>) ;;;
  pay_claim reporter cumulative_reward ;;;
  deposit_event (TipClaimed feed_id query_id cumulative_reward reporter).

(** ** One-time tips *)

(** The tip a deposit of [amount] starts at index [tip_count], after [last_tip]. *)
Definition new_tip (query_id : QueryId) (tip_count : Z) (amount cumulative_tips : Balance)
    : Call unit :=
  let* t := now in
  let* timestamp := ok_or_arith (checked_add u64_max t 1) Overflow in
  let* cumulative_tips := ok_or_arith
    (checked_add u128_max cumulative_tips amount) Overflow in
  write (upd_Tips <[(query_id, tip_count) :=
    {| tip_amount := amount; tip_timestamp := timestamp;
       tip_cumulative_tips := cumulative_tips |}]>) ;;;
  let* count := read (fun s => value_or_zero (TipCount s) query_id) in
  write (upd_TipCount <[query_id := saturating_add u32_max count 1]>).

(** A deposit joins the last tip while nothing has been reported after it. *)
Definition add_tip (query_id : QueryId) (amount : Balance) (query_data : QueryDataBytes)
    : Call unit :=
  let* tip_count := read (fun s => value_or_zero (TipCount s) query_id) in
  if tip_count =? 0 then
    new_tip query_id tip_count amount 0 ;;;
    store_data query_id query_data
  else
    let* last_reported_timestamp := read (fun s =>
      default 0 (LastReportedTimestamp s !! query_id)) in
    let* idx := expect (checked_sub u32_max tip_count 1) in
    let* last_tip := read (fun s => Tips s !! (query_id, idx)) in
    match last_tip with
    | Some tip =>
        if last_reported_timestamp <? tip_timestamp tip then
          let* t := now in
          let* timestamp := ok_or_arith (checked_add u64_max t 1) Overflow in
          write (upd_Tips <[(query_id, idx) :=
            {| tip_amount := saturating_add u128_max (tip_amount tip) amount;
               tip_timestamp := timestamp;
               tip_cumulative_tips :=
                 saturating_add u128_max (tip_cumulative_tips tip) amount |}]>)
        else new_tip query_id tip_count amount (tip_cumulative_tips tip)
    | None => new_tip query_id tip_count amount 0
    end.

Definition tip (origin : RuntimeOrigin) (query_id : QueryId) (amount : Balance)
    (query_data : QueryDataBytes) : Call unit :=
  let* tipper := ensure_signed origin in
  ensure_that (query_id =? keccak256 query_data) InvalidQueryId ;;;
  ensure_that (0 <? amount) InvalidAmount ;;;
  add_tip query_id amount query_data ;;;
  let* current_tip := read (fun s => get_current_tip s query_id) in
  (if 0 <? current_tip then write (upd_QueryIdsWithFunding (union {[query_id]})) else ret tt) ;;;
  transfer tipper tips amount Expendable ;;;
  accrue_user_tips tipper amount ;;;
  deposit_event (TipAdded query_id amount query_data tipper).

(** The binary searches over the tips, [while max - min > 1]: the range is
    halved on the side where [later] does not hold.  Running out of fuel is a
    loop that does not end. *)
Fixpoint search_tip (fuel : nat) (later : Z -> Call bool) (min max : Z) : Call Z :=
  match fuel with
  | O => panic
  | S fuel' =>
      let* range := ok_or_arith (checked_sub u32_max max min) Underflow in
      if 1 <? range then
        let* sum := ok_or_arith (checked_add u32_max max min) Overflow in
        let* mid := expect (checked_div sum 2) in
        let* is_later := later mid in
        if (is_later : bool) then search_tip fuel' later min mid
        else search_tip fuel' later mid max
      else ret min
  end.

(** A range of 32-bit indices is halved at most 32 times. *)
Definition search_tip_fuel : nat := 33.

Definition tip_later_or_missing (query_id : QueryId) (timestamp : Timestamp) (mid : Z)
    : Call bool :=
  read (fun s => timestamp <? default 0 (tip_timestamp <$> Tips s !! (query_id, mid))).

Definition tip_later (query_id : QueryId) (timestamp : Timestamp) (mid : Z) : Call bool :=
  let* maybe := read (fun s => Tips s !! (query_id, mid)) in
  let* tip := ok_or_error maybe InvalidIndex in
  ret (timestamp <? tip_timestamp tip).

(** The tips before [min_backup] that fall to a report because the reports that
    earned them were disputed. *)
Definition earlier_tips (query_id : QueryId) (report : Report)
    (timestamp_before : Timestamp) (min_backup : Z) (amount : Balance) : Call Balance :=
  let* index_before := read (fun s =>
    rep_index <$> Reports s !! (query_id, timestamp_before)) in
  let* skipped := ok_or_arith
    (checked_sub u32_max (rep_index report) (default 0 index_before)) Underflow in
  if (1 <? skipped) || bool_decide (index_before = None) then
    match index_before with
    | None =>
        let* maybe := read (fun s => Tips s !! (query_id, min_backup)) in
        let* tip := ok_or_error maybe InvalidIndex in
        ret (tip_cumulative_tips tip)
    | Some _ =>
        let* min := search_tip search_tip_fuel
                      (tip_later query_id timestamp_before) 0 min_backup in
        let min := saturating_add u32_max min 1 in
        if min <? min_backup then
          let* maybe := read (fun s => Tips s !! (query_id, min_backup)) in
          let* min_backup_tip := ok_or_error maybe InvalidIndex in
          let* maybe := read (fun s => Tips s !! (query_id, min)) in
          let* min_tip := ok_or_error maybe InvalidIndex in
          let* difference := ok_or_arith
            (checked_sub u128_max (tip_cumulative_tips min_backup_tip)
               (tip_cumulative_tips min_tip)) Underflow in
          ok_or_arith (checked_add u128_max difference (tip_amount min_tip)) Overflow
        else ret amount
    end
  else ret amount.

Definition get_onetime_tip_amount (query_id : QueryId) (timestamp : Timestamp)
    (claimer : AccountId) : Call Balance :=
  let* t := now in
  let* age := ok_or_arith (checked_sub u64_max t timestamp) Underflow in
  ensure_that (12 * HOURS <? age) ClaimBufferNotPassed ;;;
  let* maybe_report := read (fun s => Reports s !! (query_id, timestamp)) in
  let* report := ok_or_error maybe_report InvalidTimestamp in
  ensure_that (negb (rep_is_disputed report)) ValueDisputed ;;;
  ensure_that (claimer =? rep_reporter report) InvalidClaimer ;;;
  let* tip_count := read (fun s => value_or_zero (TipCount s) query_id) in
  if tip_count =? 0 then throw NoTipsSubmitted
  else
    let* min := search_tip search_tip_fuel
                  (tip_later_or_missing query_id timestamp) 0 tip_count in
    let timestamp_before := default 0 (rep_previous report) in
    let* maybe_tip := read (fun s => Tips s !! (query_id, min)) in
    let* min_tip := ok_or_error maybe_tip InvalidIndex in
    ensure_that (timestamp_before <? tip_timestamp min_tip) TipAlreadyEarned ;;;
    ensure_that (tip_timestamp min_tip <=? timestamp) TimestampIneligibleForTip ;;;
    ensure_that (0 <? tip_amount min_tip) TipAlreadyClaimed ;;;
    write (upd_Tips <[(query_id, min) := set_tip_amount 0 min_tip]>) ;;;
    earlier_tips query_id report timestamp_before min (tip_amount min_tip).

Definition claim_onetime_tip (origin : RuntimeOrigin) (query_id : QueryId)
    (timestamps : list Timestamp) : Call unit :=
  let* reporter := ensure_signed origin in
  let* tip_count := read (fun s => value_or_zero (TipCount s) query_id) in
  ensure_that (0 <? tip_count) NoTipsSubmitted ;;;
  let* cumulative_reward :=
    foldM (fun acc timestamp =>
        let* amount := get_onetime_tip_amount query_id timestamp reporter in
        ret (saturating_add u128_max acc amount)) 0 timestamps in
  pay_claim reporter cumulative_reward ;;;
  let* current_tip := read (fun s => get_current_tip s query_id) in
  (if current_tip =? 0 then write (upd_QueryIdsWithFunding (fun x => x ∖ {[query_id]}))
   else ret tt) ;;;
  deposit_event (OneTimeTipClaimed query_id cumulative_reward reporter).

End Autopay.
