(* ===== verification/UsingTellor.v ===== *)
(** * The interface for other pallets

    [traits::UsingTellor] ([src/src/traits.rs]) as a type class over the storage
    that is read, with the law each function keeps; the implementation of
    [src/src/impls.rs] (the search for the first value after a time and the
    collection of the values in a range) and the sample client of
    [src/using-tellor/src/lib.rs], which only sees the interface. *)

From S2P Require Import Prelude Types Config Storage Oracle.

(** ** The trait *)

(** [trait UsingTellor<AccountId>]; values come with their time. *)
Class UsingTellor (S : Type) := {
  ut_bytes_to_uint : bytes -> option Z;
  ut_get_data_after : S -> QueryId -> Timestamp -> option (Value * Timestamp);
  ut_get_data_before : S -> QueryId -> Timestamp -> option (Value * Timestamp);
  ut_get_index_for_data_after : S -> QueryId -> Timestamp -> option Z;
  ut_get_index_for_data_before : S -> QueryId -> Timestamp -> option Z;
  ut_get_multiple_values_before :
    S -> QueryId -> Timestamp -> Timestamp -> Z -> list (Value * Timestamp);
  ut_get_new_value_count_by_query_id : S -> QueryId -> Z;
  ut_get_reporter_by_timestamp : S -> QueryId -> Timestamp -> option AccountId;
  ut_get_timestamp_by_query_id_and_index : S -> QueryId -> Z -> option Timestamp;
  ut_is_in_dispute : S -> QueryId -> Timestamp -> bool;
  ut_now : S -> Timestamp;
  ut_retrieve_data : S -> QueryId -> Timestamp -> option Value;
}.

Section Implementation.
Context {T : Config}.
Implicit Types s : State.

(** ** The first index after a time *)

Definition time_at_index s (query_id : QueryId) (idx : Z) : Timestamp :=
  default 0 (get_timestamp_by_query_id_and_index s query_id idx).

Inductive AfterStep :=
| AfterFound (middle : Z) (timestamp_retrieved : Timestamp)
| AfterNarrow (start en : Z).

(** One turn of the binary search. *)
Definition search_after_step s (query_id : QueryId) (timestamp : Timestamp)
    (start en : Z) : AfterStep :=
  let middle := saturating_add u32_max en start / 2 in
  let timestamp_retrieved := time_at_index s query_id middle in
  if timestamp <? timestamp_retrieved then
    let previous_time := time_at_index s query_id (saturating_sub middle 1) in
    if previous_time <=? timestamp then AfterFound middle timestamp_retrieved
    else AfterNarrow start (saturating_sub middle 1)
  else
    let next_time := time_at_index s query_id (saturating_add u32_max middle 1) in
    if timestamp <? next_time
    then AfterFound (saturating_add u32_max middle 1) next_time
    else AfterNarrow (saturating_add u32_max middle 1) en.

Fixpoint search_after (fuel : nat) s (query_id : QueryId) (timestamp : Timestamp)
    (start en : Z) : option (Z * Timestamp) :=
  match fuel with
  | O => None
  | S fuel' =>
      match search_after_step s query_id timestamp start en with
      | AfterFound middle time => Some (middle, time)
      | AfterNarrow start' en' => search_after fuel' s query_id timestamp start' en'
      end
  end.

Definition search_after_fuel : nat := 33.

(** "iterate forward until we find a non-disputed value"; the loop stops at
    [count], which is [fuel] steps away. *)
Fixpoint skip_disputed (fuel : nat) s (query_id : QueryId) (count middle : Z)
    (timestamp_retrieved : Timestamp) : Z * Timestamp :=
  match fuel with
  | O => (middle, timestamp_retrieved)
  | S fuel' =>
      if is_in_dispute s query_id timestamp_retrieved && (middle <? count) then
        let middle := saturating_add u32_max middle 1 in
        skip_disputed fuel' s query_id count middle (time_at_index s query_id middle)
      else (middle, timestamp_retrieved)
  end.

Definition get_index_for_data_after s (query_id : QueryId) (timestamp : Timestamp)
    : option Z :=
  let count := get_new_value_count_by_query_id s query_id in
  if count =? 0 then None
  else
    let count := saturating_sub count 1 in
    if time_at_index s query_id count <=? timestamp then None
    else
      let first := time_at_index s query_id 0 in
      '(middle, timestamp_retrieved) ←
        (if timestamp <? first then Some (0, first)
         else search_after search_after_fuel s query_id timestamp 0 count);
      if negb (is_in_dispute s query_id timestamp_retrieved) then Some middle
      else
        let '(middle, timestamp_retrieved) :=
          skip_disputed (Z.to_nat (count - middle)) s query_id count middle
            timestamp_retrieved in
        if (middle =? count) && is_in_dispute s query_id timestamp_retrieved then None
        else Some middle.

Definition get_data_after s (query_id : QueryId) (timestamp : Timestamp)
    : option (Value * Timestamp) :=
  idx ← get_index_for_data_after s query_id timestamp;
  timestamp_retrieved ← get_timestamp_by_query_id_and_index s query_id idx;
  value ← retrieve_data s query_id timestamp_retrieved;
  Some (value, timestamp_retrieved).

(** ** The values in a range *)

(** The backwards walk; the vector it pushes to is read from its end, so it is
    kept with the last element first.  The walk visits at most the indices of
    the range, which is the fuel. *)
Fixpoint collect_before (fuel : nat) s (query_id : QueryId)
    (start_index end_index max_count idx : Z) (timestamps : list Timestamp)
    : list Timestamp :=
  match fuel with
  | O => timestamps
  | S fuel' =>
      if (Z.of_nat (length timestamps) <? max_count)
         && (start_index <? saturating_sub (saturating_add u32_max end_index 1) idx)
      then
        let timestamps :=
          match get_timestamp_by_query_id_and_index s query_id (saturating_sub end_index idx) with
          | Some timestamp_retrieved =>
              if negb (is_in_dispute s query_id timestamp_retrieved)
              then timestamp_retrieved :: timestamps else timestamps
          | None => timestamps
          end in
        collect_before fuel' s query_id start_index end_index max_count
          (saturating_add u32_max idx 1) timestamps
      else timestamps
  end.

Definition get_multiple_values_before s (query_id : QueryId) (timestamp max_age : Timestamp)
    (max_count : Z) : list (Value * Timestamp) :=
  match get_index_for_data_after s query_id (saturating_sub timestamp max_age) with
  | None => []
  | Some start_index =>
      match get_index_for_data_before s query_id timestamp with
      | None => []
      | Some end_index =>
          let timestamps :=
            collect_before
              (Z.to_nat (saturating_sub (saturating_add u32_max end_index 1) start_index))
              s query_id start_index end_index max_count 0 [] in
          omap (fun timestamp =>
                  (fun data => (data, timestamp)) <$> retrieve_data s query_id timestamp)
            timestamps
      end
  end.

#[global] Instance PalletUsingTellor : UsingTellor State := {
  ut_bytes_to_uint := BytesToU256;
  ut_get_data_after := get_data_after;
  ut_get_data_before := get_data_before;
  ut_get_index_for_data_after := get_index_for_data_after;
  ut_get_index_for_data_before := get_index_for_data_before;
  ut_get_multiple_values_before := get_multiple_values_before;
  ut_get_new_value_count_by_query_id := get_new_value_count_by_query_id;
  ut_get_reporter_by_timestamp := get_reporter_by_timestamp;
  ut_get_timestamp_by_query_id_and_index := get_timestamp_by_query_id_and_index;
  ut_is_in_dispute := is_in_dispute;
  ut_now := fun s => sys_now s;
  ut_retrieve_data := retrieve_data;
}.

End Implementation.

(** ** The laws of the interface

    The valid values of a query, oldest first, determine what the functions
    return. *)

Class UsingTellorLaws {S : Type} (U : UsingTellor S) (ok : S -> Prop)
    (history : S -> QueryId -> list (Timestamp * Value)) : Prop := {
  history_increasing : forall s q, ok s ->
    StronglySorted (fun a b => fst a < fst b) (history s q);
  data_before_law : forall s q t, ok s ->
    ut_get_data_before s q t =
      prod_swap <$> last (filter (fun p => fst p < t) (history s q));
  data_after_law : forall s q t, ok s ->
    ut_get_data_after s q t =
      prod_swap <$> head (filter (fun p => t < fst p) (history s q));
  multiple_values_law : forall s q t max_age max_count, ok s -> 0 <= max_count ->
    ut_get_multiple_values_before s q t max_age max_count =
      let range := filter (fun p => saturating_sub t max_age < fst p < t) (history s q) in
      prod_swap <$> drop (length range - Z.to_nat max_count) range;
}.

(** ** The sample client *)

Module Sample.

Inductive SampleEvent :=
| Configured (query_id : QueryId)
| ValueStored (value : Z) (who : AccountId).

Inductive SampleError := NotConfigured | SampleBadOrigin.

Definition FIFTEEN_MINUTES : Timestamp := 15 * MINUTES.
Definition ONE_DAY : Timestamp := 24 * HOURS.

Section Client.
Context {TellorState : Type} {Tellor : UsingTellor TellorState}.
Context (ConfigureOrigin : RuntimeOrigin -> bool).

(** The storage of the client, beside that of the oracle. *)
Record Store := {
  Configuration : option QueryId;
  Values : gmap AccountId Z;
  sample_events : list SampleEvent;
  tellor : TellorState;
}.

Definition set_Configuration (q : QueryId) (s : Store) : Store :=
  {| Configuration := Some q; Values := Values s;
     sample_events := sample_events s; tellor := tellor s |}.
Definition set_Values (f : gmap AccountId Z -> gmap AccountId Z) (s : Store) : Store :=
  {| Configuration := Configuration s; Values := f (Values s);
     sample_events := sample_events s; tellor := tellor s |}.
Definition emit (e : SampleEvent) (s : Store) : Store :=
  {| Configuration := Configuration s; Values := Values s;
     sample_events := e :: sample_events s; tellor := tellor s |}.

Definition get_price (st : TellorState) (query_id : QueryId) : option Z :=
  let timestamp := ut_now st in
  '(value, timestamp_retrieved) ←
    ut_get_data_before st query_id (saturating_sub timestamp FIFTEEN_MINUTES);
  if saturating_sub timestamp timestamp_retrieved <? ONE_DAY
  then ut_bytes_to_uint (S := TellorState) value else None.

Definition configure (origin : RuntimeOrigin) (query_id : QueryId)
    : M Store SampleError unit :=
  ensure (ConfigureOrigin origin) SampleBadOrigin ;;;
  modify (set_Configuration query_id) ;;;
  modify (emit (Configured query_id)).

Definition do_something (origin : RuntimeOrigin) (value : Z) : M Store SampleError unit :=
  let* who := match origin with Signed who => ret who | _ => fail SampleBadOrigin end in
  let* configuration := gets Configuration in
  let* query_id := ok_or configuration NotConfigured in
  let* price := gets (fun s => get_price (tellor s) query_id) in
  match price with
  | Some price =>
      let derived_value := saturating_mul u256_max price value in
      modify (set_Values <[who := derived_value]>) ;;;
      modify (emit (ValueStored derived_value who))
  | None => ret tt
  end.

End Client.
End Sample.
