(* ===== verification/UsingTellorFacts.v ===== *)
(** * The interface for other pallets: correctness

    The search for the first value after a time, the collection of the values
    in a range, and the laws of [UsingTellor] discharged for the pallet. *)

From S2P Require Import Prelude Types Config Storage Oracle OracleFacts UsingTellor.

(** The valid value at an index, with its time. *)
Definition value_at (o : OracleStore) (q : QueryId) (i : Z) : option (Timestamp * Value) :=
  t ← ts_at o q i;
  v ← ReportedValuesByTimestamp o !! (q, t);
  Some (t, v).

(** The valid values of a query, oldest first. *)
Definition history (o : OracleStore) (q : QueryId) : list (Timestamp * Value) :=
  omap (value_at o q) (seqZ 0 (report_count o q)).

(** What the search after a time has to return. *)
Definition earliest_after (o : OracleStore) (q : QueryId) (t : Timestamp) (res : option Z)
    : Prop :=
  match res with
  | None => forall i u, ts_at o q i = Some u -> t < u -> dead o q i
  | Some i => exists u, live o q i u /\ t < u /\
      forall j u', j < i -> ts_at o q j = Some u' -> t < u' -> dead o q j
  end.

Section Facts.
Context {T : Config} (s : State) (clock : Timestamp) (q : QueryId).
Context (Hwf : query_wf s clock q).
(** Twice an index has to fit in a [u32]: see [search_after_stuck]. *)
Context (Hsmall : report_count s q <= 2 ^ 31).
Abbreviation o := (st_oracle s).

Lemma time_at_index_Some i u : ts_at o q i = Some u -> time_at_index s q i = u.
Proof.
  unfold time_at_index, get_timestamp_by_query_id_and_index, ts_at. by intros ->.
Qed.

Lemma index_time i : 0 <= i < report_count o q ->
  exists u, ts_at o q i = Some u /\ time_at_index s q i = u.
Proof.
  intros Hi. apply (wf_index _ _ _ Hwf) in Hi as [u Hu].
  exists u. split; [done|]. by apply time_at_index_Some.
Qed.

Lemma in_dispute_iff i u : ts_at o q i = Some u ->
  (is_in_dispute s q u = true <-> dead o q i).
Proof.
  intros Hu. destruct (wf_report _ _ _ Hwf _ _ Hu) as (r & Hr & Hri).
  unfold is_in_dispute. fold (report_at o q u). rewrite Hr. simpl. split.
  - intros Hd. by exists u, r.
  - intros (u' & r' & Hu' & Hr' & Hd). congruence.
Qed.

Lemma not_in_dispute i u : ts_at o q i = Some u -> is_in_dispute s q u = false ->
  live o q i u.
Proof.
  intros Hu Hd. destruct (wf_report _ _ _ Hwf _ _ Hu) as (r & Hr & Hri).
  unfold is_in_dispute in Hd. fold (report_at o q u) in Hd. rewrite Hr in Hd.
  split; [done|]. by exists r.
Qed.

(** ** The search *)

Definition brackets_after (timestamp start en : Z) : Prop :=
  exists a b, ts_at o q start = Some a /\ ts_at o q en = Some b /\ a <= timestamp < b.

(** [m] is the first index whose time is after [timestamp]. *)
Definition first_after (timestamp m u : Z) : Prop :=
  ts_at o q m = Some u /\ timestamp < u /\
  forall j v, j < m -> ts_at o q j = Some v -> v <= timestamp.

Lemma times_before m u timestamp : ts_at o q m = Some u -> u <= timestamp ->
  forall j v, j <= m -> ts_at o q j = Some v -> v <= timestamp.
Proof.
  intros Hm Hu j v Hjm Hj. destruct (Z.eq_dec j m) as [->|]; [congruence|].
  pose proof (wf_increasing _ _ _ Hwf _ _ _ _ Hj Hm ltac:(lia)). lia.
Qed.

(** The midpoint of a bracket. *)
Lemma middle_range timestamp start en : brackets_after timestamp start en ->
  start <= saturating_add u32_max en start / 2 < en /\
  saturating_add u32_max en start / 2 - start <= (en - start) / 2 /\
  en - (saturating_add u32_max en start / 2 + 1) <= (en - start) / 2 /\ 0 <= start.
Proof.
  intros (a & b & Ha & Hb & Hab).
  pose proof (ts_at_range _ _ _ Hwf _ _ Ha). pose proof (ts_at_range _ _ _ Hwf _ _ Hb).
  assert (start < en) by (apply (ts_at_lt_iff _ _ _ Hwf _ _ _ _ Ha Hb); lia).
  unfold saturating_add. rewrite Z.min_r by zlia.
  pose proof (Z.div_mod (en + start) 2). pose proof (Z.mod_pos_bound (en + start) 2).
  pose proof (Z.div_mod (en - start) 2). pose proof (Z.mod_pos_bound (en - start) 2).
  lia.
Qed.

Lemma search_after_step_correct timestamp start en :
  brackets_after timestamp start en ->
  (exists m u, search_after_step s q timestamp start en = AfterFound m u /\
               first_after timestamp m u) \/
  (exists start' en', search_after_step s q timestamp start en = AfterNarrow start' en' /\
     brackets_after timestamp start' en' /\ en' - start' <= (en - start) / 2).
Proof.
  intros Hbr. pose proof (middle_range _ _ _ Hbr) as (Hm & Hleft & Hright & H0).
  destruct Hbr as (a & b & Ha & Hb & Hab).
  pose proof (ts_at_range _ _ _ Hwf _ _ Hb) as Hrb.
  unfold search_after_step.
  remember (saturating_add u32_max en start / 2) as m eqn:Hmd. clear Hmd.
  destruct (index_time m ltac:(lia)) as (u & Hu & ->).
  destruct (Z.ltb_spec timestamp u) as [Hut|Hut].
  - assert (start < m).
    { apply (ts_at_lt_iff _ _ _ Hwf _ _ _ _ Ha Hu). lia. }
    unfold saturating_sub. rewrite Z.max_r by lia.
    destruct (index_time (m - 1) ltac:(lia)) as (v & Hv & ->).
    destruct (Z.leb_spec v timestamp).
    + left. exists m, u. split; [done|]. split; [done|split; [lia|]].
      intros j w Hj. apply (times_before (m - 1) v); [done|lia|lia].
    + right. exists start, (m - 1). split; [done|]. split; [|lia].
      exists a, v. auto with lia.
  - unfold saturating_add. rewrite Z.min_r by zlia.
    destruct (index_time (m + 1) ltac:(lia)) as (v & Hv & ->).
    destruct (Z.ltb_spec timestamp v).
    + left. exists (m + 1), v. split; [done|]. split; [done|split; [lia|]].
      intros j w Hj. apply (times_before m u); [done|lia|lia].
    + right. exists (m + 1), en. split; [done|]. split; [|lia].
      exists v, b. auto with lia.
Qed.

Lemma search_after_correct fuel timestamp start en :
  brackets_after timestamp start en -> en - start < 2 ^ Z.of_nat fuel ->
  exists m u, search_after fuel s q timestamp start en = Some (m, u) /\
              first_after timestamp m u.
Proof.
  revert start en. induction fuel as [|fuel IH]; intros start en Hb Hw.
  - pose proof (middle_range _ _ _ Hb). simpl in Hw. lia.
  - simpl search_after.
    destruct (search_after_step_correct _ _ _ Hb)
      as [(m & u & -> & Hf) | (start' & en' & -> & Hb' & Hhalf)]; [by exists m, u|].
    apply IH; [done|]. rewrite Nat2Z.inj_succ, Z.pow_succ_r in Hw by lia.
    apply Z.le_lt_trans with ((en - start) / 2); [done|].
    apply Z.div_lt_upper_bound; lia.
Qed.

(** ** Skipping disputed reports *)

Lemma skip_disputed_correct fuel : forall m u count,
  ts_at o q m = Some u -> count = report_count o q - 1 ->
  count - m = Z.of_nat fuel ->
  exists m' u', skip_disputed fuel s q count m u = (m', u') /\ ts_at o q m' = Some u' /\
    m <= m' <= count /\ (forall j, m <= j < m' -> dead o q j) /\
    (m' = count \/ live o q m' u').
Proof.
  induction fuel as [|fuel IH]; intros m u count Hu Hc Hf; simpl skip_disputed.
  - exists m, u. split; [done|]. split; [done|]. split; [lia|].
    split; [intros; lia|left; lia].
  - destruct (is_in_dispute s q u) eqn:Hd; simpl.
    2: { exists m, u. split; [done|]. split; [done|]. split; [lia|].
         split; [intros; lia|]. right. by apply not_in_dispute. }
    destruct (Z.ltb_spec m count); [|lia].
    pose proof (ts_at_range _ _ _ Hwf _ _ Hu). pose proof (wf_count _ _ _ Hwf).
    unfold saturating_add. rewrite Z.min_r by lia.
    destruct (index_time (m + 1) ltac:(lia)) as (v & Hv & Ev). rewrite Ev.
    destruct (IH (m + 1) v count Hv Hc ltac:(lia)) as (m' & u' & -> & Hu' & Hm' & Hj & Hl).
    exists m', u'. split; [done|]. split; [done|]. split; [lia|]. split; [|done].
    intros j Hj'. destruct (Z.eq_dec j m) as [->|]; [|apply Hj; lia].
    by apply (in_dispute_iff _ _ Hu).
Qed.

(** From the first index after the time to the first valid one. *)
Lemma skip_from_first timestamp m u (found : option Z) :
  first_after timestamp m u ->
  found = (if negb (is_in_dispute s q u) then Some m
           else
             let '(m', u') := skip_disputed (Z.to_nat (report_count o q - 1 - m)) s q
                                (report_count o q - 1) m u in
             if (m' =? report_count o q - 1) && is_in_dispute s q u' then None
             else Some m') ->
  earliest_after o q timestamp found.
Proof.
  intros (Hu & Hlt & Hbefore) ->.
  assert (Hdead : forall j v, ts_at o q j = Some v -> timestamp < v -> m <= j).
  { intros j v Hj Hv. destruct (Z.lt_ge_cases j m) as [Hjm|]; [|done].
    pose proof (Hbefore _ _ Hjm Hj). lia. }
  destruct (is_in_dispute s q u) eqn:Hd; simpl.
  2: { exists u. split; [by apply not_in_dispute|]. split; [done|].
       intros j v Hj Hv Hlt'. pose proof (Hdead _ _ Hv Hlt'). lia. }
  pose proof (ts_at_range _ _ _ Hwf _ _ Hu) as Hr.
  destruct (skip_disputed_correct (Z.to_nat (report_count o q - 1 - m)) m u
              (report_count o q - 1) Hu eq_refl ltac:(lia))
    as (m' & u' & -> & Hu' & Hm' & Hj & Hl).
  destruct (is_in_dispute s q u') eqn:Hd'; rewrite ?andb_true_r, ?andb_false_r.
  - assert (Hdm : dead o q m') by (by apply (in_dispute_iff _ _ Hu')).
    destruct Hl as [->|Hl]; [|by destruct (live_not_dead _ _ _ _ Hl)].
    rewrite Z.eqb_refl. intros j v Hv Hlt'. pose proof (Hdead _ _ Hv Hlt').
    pose proof (ts_at_range _ _ _ Hwf _ _ Hv).
    destruct (Z.eq_dec j (report_count o q - 1)) as [->|]; [done|]. apply Hj. lia.
  - exists u'. split; [by apply not_in_dispute|]. split.
    + destruct (Z.eq_dec m m') as [<-|]; [congruence|].
      pose proof (wf_increasing _ _ _ Hwf _ _ _ _ Hu Hu' ltac:(lia)). lia.
    + intros j v Hjm Hv Hlt'. apply Hj. pose proof (Hdead _ _ Hv Hlt'). lia.
Qed.

Lemma get_index_for_data_after_correct timestamp :
  earliest_after o q timestamp (get_index_for_data_after s q timestamp).
Proof.
  unfold get_index_for_data_after.
  change (get_new_value_count_by_query_id s q) with (report_count o q).
  pose proof (wf_count _ _ _ Hwf) as Hcount.
  destruct (Z.eqb_spec (report_count o q) 0) as [H0|H0].
  { intros i u Hi. pose proof (ts_at_range _ _ _ Hwf _ _ Hi). lia. }
  unfold saturating_sub. rewrite Z.max_r by lia.
  destruct (index_time (report_count o q - 1) ltac:(lia)) as (l & Hl & ->).
  destruct (index_time 0 ltac:(lia)) as (f & Hf & ->).
  destruct (Z.leb_spec l timestamp) as [Hlt|Hlt].
  { intros i u Hi Hu. pose proof (ts_at_range _ _ _ Hwf _ _ Hi).
    pose proof (times_before _ _ _ Hl Hlt i u ltac:(lia) Hi). lia. }
  destruct (Z.ltb_spec timestamp f) as [Hft|Hft].
  - simpl. apply (skip_from_first timestamp 0 f); [|done].
    split; [done|split; [done|]]. intros j v Hj Hv.
    pose proof (ts_at_range _ _ _ Hwf _ _ Hv). lia.
  - destruct (search_after_correct search_after_fuel timestamp 0 (report_count o q - 1))
      as (m & u & -> & Hfirst).
    + exists f, l. auto with lia.
    + change (2 ^ Z.of_nat search_after_fuel) with 8589934592. zlia.
    + simpl. by apply (skip_from_first timestamp m u).
Qed.

(** ** The functions against the history *)

Lemma value_at_live i p : value_at o q i = Some p <->
  live o q i (fst p) /\ ReportedValuesByTimestamp o !! (q, fst p) = Some (snd p).
Proof.
  unfold value_at. split.
  - destruct (ts_at o q i) as [u|] eqn:Hu; [|done]. simpl.
    destruct (ReportedValuesByTimestamp o !! (q, u)) as [v|] eqn:Hv; [|done].
    intros [= <-]. simpl. split; [|done]. split; [done|].
    apply (wf_value _ _ _ Hwf). by exists v.
  - intros [[-> _] Hv]. simpl. rewrite Hv. by destruct p.
Qed.

Lemma live_value_at i u : live o q i u ->
  exists v, ReportedValuesByTimestamp o !! (q, u) = Some v /\ value_at o q i = Some (u, v).
Proof.
  intros Hl. destruct Hl as [Hu Hr]. destruct (wf_value _ _ _ Hwf u) as [_ [v Hv]]; [done|].
  exists v. split; [done|]. apply value_at_live. done.
Qed.

Lemma dead_value_at i : dead o q i -> value_at o q i = None.
Proof.
  intros Hd. destruct (value_at o q i) as [p|] eqn:Hp; [|done].
  apply value_at_live in Hp as [Hl _]. by destruct (live_not_dead _ _ _ _ Hl).
Qed.

Lemma history_split i : 0 <= i < report_count o q ->
  history o q = omap (value_at o q) (seqZ 0 i) ++ omap (value_at o q) [i]
                ++ omap (value_at o q) (seqZ (i + 1) (report_count o q - i - 1)).
Proof.
  intros Hi. unfold history. rewrite <- !omap_app. f_equal.
  replace (report_count o q) with (i + (1 + (report_count o q - i - 1))) at 1 by lia.
  rewrite seqZ_app by lia. f_equal. rewrite seqZ_app by lia. f_equal.
  all: f_equal; lia.
Qed.

Lemma elem_of_values i n p : p ∈ omap (value_at o q) (seqZ i n) ->
  exists j, i <= j < i + n /\ value_at o q j = Some p.
Proof.
  rewrite list_elem_of_omap. intros (j & Hj & Hp). apply elem_of_seqZ in Hj. eauto.
Qed.

(** The values of a stretch of indices that no valid report of a range is in. *)
Lemma filter_values_nil (P : Timestamp * Value -> Prop)
    `{!forall p, Decision (P p)} i n :
  (forall j u, i <= j < i + n -> ts_at o q j = Some u ->
     (exists v, P (u, v)) -> dead o q j) ->
  filter P (omap (value_at o q) (seqZ i n)) = [].
Proof.
  intros Hd. apply filter_none. intros [u v] Hin HP.
  apply elem_of_values in Hin as (j & Hj & Hv).
  pose proof (proj1 (value_at_live _ _) Hv) as [[Hu ?] _].
  rewrite (dead_value_at j) in Hv; [done|]. apply (Hd j u); eauto.
Qed.

Lemma StronglySorted_values n : forall i,
  StronglySorted (fun a b => fst a < fst b) (omap (value_at o q) (seqZ i n)).
Proof.
  destruct (Z.le_gt_cases n 0) as [|Hn].
  { intros i. rewrite seqZ_nil by lia. constructor. }
  rewrite <- (Z2Nat.id n) by lia. generalize (Z.to_nat n). clear n Hn.
  intros n. induction n as [|n IH]; intros i.
  - rewrite seqZ_nil by lia. constructor.
  - rewrite seqZ_cons by lia. simpl.
    replace (Z.pred (Z.of_nat (S n))) with (Z.of_nat n) by lia.
    destruct (value_at o q i) as [p|] eqn:Hp; [|apply IH].
    constructor; [apply IH|]. apply Forall_forall. intros p' Hin.
    apply elem_of_values in Hin as (j & Hj & Hv).
    apply value_at_live in Hp as [[Hpi _] _]. apply value_at_live in Hv as [[Hvj _] _].
    eapply (wf_increasing _ _ _ Hwf); [exact Hpi|exact Hvj|lia].
Qed.
End Facts.

Section History.
Context {T : Config} (s : State) (clock : Timestamp) (q : QueryId).
Context (Hwf : query_wf s clock q).
Abbreviation o := (st_oracle s).

Lemma value_of_live i u v : live o q i u ->
  ReportedValuesByTimestamp o !! (q, u) = Some v -> value_at o q i = Some (u, v).
Proof. intros Hl Hv. apply (value_at_live _ _ _ Hwf). done. Qed.

(** The answer of the search before a time picks the last value before it. *)
Lemma latest_before_history t res : latest_before o q t res ->
  match res with
  | None => filter (fun p => fst p < t) (history o q) = []
  | Some i => exists u v, ts_at o q i = Some u /\
      ReportedValuesByTimestamp o !! (q, u) = Some v /\
      last (filter (fun p => fst p < t) (history o q)) = Some (u, v)
  end.
Proof.
  destruct res as [i|]; simpl.
  - intros (u & Hl & Hut & Hafter).
    destruct (live_value_at _ _ _ Hwf _ _ Hl) as (v & Hv & Hat).
    exists u, v. split; [apply Hl|]. split; [done|].
    rewrite (history_split _ _ i) by (eapply ts_at_range; [done|apply Hl]).
    rewrite !filter_app, (filter_values_nil _ _ _ Hwf _ (i + 1)).
    + simpl. rewrite Hat. simpl. rewrite filter_cons_True by done.
      rewrite app_nil_r. apply last_snoc.
    + intros j u' Hj Hu' [w Hw]. simpl in Hw. apply (Hafter j u'); [lia|done..].
  - intros Hdead. apply (filter_values_nil _ _ _ Hwf).
    intros j u _ Hu [v Hv]. eauto.
Qed.

(** The answer of the search after a time picks the first value after it. *)
Lemma earliest_after_history t res : earliest_after o q t res ->
  match res with
  | None => filter (fun p => t < fst p) (history o q) = []
  | Some i => exists u v, ts_at o q i = Some u /\
      ReportedValuesByTimestamp o !! (q, u) = Some v /\
      head (filter (fun p => t < fst p) (history o q)) = Some (u, v)
  end.
Proof.
  destruct res as [i|]; simpl.
  - intros (u & Hl & Hut & Hbefore).
    destruct (live_value_at _ _ _ Hwf _ _ Hl) as (v & Hv & Hat).
    exists u, v. split; [apply Hl|]. split; [done|].
    rewrite (history_split _ _ i) by (eapply ts_at_range; [done|apply Hl]).
    rewrite !filter_app, (filter_values_nil _ _ _ Hwf _ 0).
    + simpl. rewrite Hat. simpl. by rewrite filter_cons_True by done.
    + intros j u' Hj Hu' [w Hw]. simpl in Hw. apply (Hbefore j u'); [lia|done..].
  - intros Hdead. apply (filter_values_nil _ _ _ Hwf).
    intros j u _ Hu [v Hv]. eauto.
Qed.

(** The stretch between the two answers is what lies between the two times. *)
Lemma range_history lo hi i j :
  earliest_after o q lo (Some i) -> latest_before o q hi (Some j) ->
  filter (fun p => lo < fst p < hi) (history o q) =
    omap (value_at o q) (seqZ i (j + 1 - i)).
Proof.
  intros (u & Hl & Hlo & Hbefore) (w & Hr & Hhi & Hafter).
  assert (Hi : 0 <= i < report_count o q) by (eapply ts_at_range; [done|apply Hl]).
  assert (Hj : 0 <= j < report_count o q) by (eapply ts_at_range; [done|apply Hr]).
  destruct (Z.le_gt_cases i j) as [Hij|Hij].
  - unfold history. replace (report_count o q) with (i + ((j + 1 - i) + (report_count o q - j - 1))) by lia.
    rewrite seqZ_app by lia. rewrite seqZ_app by lia.
    rewrite !omap_app, !filter_app, !Z.add_0_l.
    rewrite (filter_values_nil _ _ _ Hwf _ 0), (filter_values_nil _ _ _ Hwf _ (i + _)).
    + simpl. rewrite app_nil_r. apply filter_all. intros [u' v'] Hin. simpl.
      apply elem_of_values in Hin as (k & Hk & Hv).
      apply (value_at_live _ _ _ Hwf) in Hv as [[Hv _] _]. simpl in Hv.
      destruct Hl as [Hl _], Hr as [Hr _]. split.
      * destruct (Z.eq_dec i k) as [->|]; [congruence|].
        pose proof (wf_increasing _ _ _ Hwf _ _ _ _ Hl Hv ltac:(lia)). lia.
      * destruct (Z.eq_dec j k) as [->|]; [congruence|].
        pose proof (wf_increasing _ _ _ Hwf _ _ _ _ Hv Hr ltac:(lia)). lia.
    + intros k v Hk Hv [x Hx]. simpl in Hx. apply (Hafter k v); [lia|done|lia].
    + intros k v Hk Hv [x Hx]. simpl in Hx. apply (Hbefore k v); [lia|done|lia].
  - rewrite seqZ_nil by lia. apply (filter_values_nil _ _ _ Hwf).
    intros k v Hk Hv [x Hx]. simpl in Hx.
    destruct (Z.le_gt_cases k j); [apply (Hbefore k v)|apply (Hafter k v)]; (lia || done).
Qed.

(** ** The backwards walk *)

Lemma collect_before_correct fuel start en max_count : forall idx acc,
  0 <= idx -> 0 <= start -> en < report_count o q -> en <= u32_max ->
  Z.of_nat fuel = Z.max 0 (saturating_add u32_max en 1 - idx - start) ->
  0 <= max_count -> saturating_add u32_max en 1 = en + 1 ->
  collect_before fuel s q start en max_count idx acc =
    reverse (take (Z.to_nat (max_count - Z.of_nat (length acc)))
      (reverse (omap (value_at o q) (seqZ start (en + 1 - idx - start))).*1)) ++ acc.
Proof.
  induction fuel as [|fuel IH]; intros idx acc Hidx Hst Hen Hmax Hf Hc Hsat.
  - rewrite seqZ_nil by lia. simpl. by rewrite reverse_nil, take_nil.
  - simpl collect_before. rewrite Hsat in *. unfold saturating_sub at 1.
    assert (Hlt : start < en + 1 - idx) by lia.
    rewrite Z.max_r by lia. destruct (Z.ltb_spec start (en + 1 - idx)); [|lia].
    rewrite andb_true_r. destruct (Z.ltb_spec (Z.of_nat (length acc)) max_count) as [Hl|Hl].
    2: { replace (Z.to_nat (max_count - Z.of_nat (length acc))) with 0%nat by lia.
         done. }
    unfold saturating_sub, saturating_add in *. rewrite Z.max_r by lia.
    rewrite (Z.min_r _ (idx + 1)) by lia.
    destruct (index_time _ _ _ Hwf (en - idx) ltac:(lia)) as (u & Hu & _).
    unfold get_timestamp_by_query_id_and_index. fold (ts_at o q (en - idx)). rewrite Hu.
    replace (en + 1 - idx - start) with ((en + 1 - (idx + 1) - start) + 1) by lia.
    rewrite seqZ_app by lia. rewrite omap_app, fmap_app, reverse_app.
    replace (start + (en + 1 - (idx + 1) - start)) with (en - idx) by lia.
    rewrite (seqZ_cons _ 1), (seqZ_nil _ (Z.pred 1)) by lia.
    destruct (is_in_dispute s q u) eqn:Hd; cbn [negb].
    + rewrite IH by lia. simpl omap.
      rewrite (dead_value_at _ _ _ Hwf (en - idx)) by by apply (in_dispute_iff _ _ _ Hwf _ _ Hu).
      done.
    + pose proof (not_in_dispute _ _ _ Hwf _ _ Hu Hd) as Hlive.
      destruct (live_value_at _ _ _ Hwf _ _ Hlive) as (v & _ & Hv).
      rewrite IH by lia. simpl omap. rewrite Hv. simpl.
      replace (Z.to_nat (max_count - Z.of_nat (length acc)))
        with (S (Z.to_nat (max_count - Z.of_nat (S (length acc))))) by lia.
      simpl. rewrite reverse_cons, <- app_assoc. done.
Qed.
End History.

Section Laws.
Context {T : Config} (s : State) (clock : Timestamp) (q : QueryId).
Context (Hwf : query_wf s clock q).
Abbreviation o := (st_oracle s).

Lemma get_data_before_history t :
  get_data_before s q t = prod_swap <$> last (filter (fun p => fst p < t) (history o q)).
Proof.
  pose proof (get_index_for_data_before_with_start_correct s clock q Hwf t) as Hc.
  unfold get_data_before, get_index_for_data_before.
  destruct (get_index_for_data_before_with_start s q t 0) as [res it]. simpl.
  destruct Hc as [Hc _]. apply (latest_before_history _ _ _ Hwf) in Hc.
  destruct res as [i|]; simpl; [|by rewrite Hc].
  destruct Hc as (u & v & Hu & Hv & ->).
  unfold get_timestamp_by_query_id_and_index. fold (ts_at o q i). rewrite Hu. simpl.
  unfold retrieve_data. by rewrite Hv.
Qed.

Context (Hsmall : report_count s q <= 2 ^ 31).

Lemma get_data_after_history t :
  get_data_after s q t = prod_swap <$> head (filter (fun p => t < fst p) (history o q)).
Proof.
  pose proof (get_index_for_data_after_correct s clock q Hwf Hsmall t) as Hc.
  unfold get_data_after. destruct (get_index_for_data_after s q t) as [i|];
    apply (earliest_after_history _ _ _ Hwf) in Hc; simpl; [|by rewrite Hc].
  destruct Hc as (u & v & Hu & Hv & ->).
  unfold get_timestamp_by_query_id_and_index. fold (ts_at o q i). rewrite Hu. simpl.
  unfold retrieve_data. by rewrite Hv.
Qed.

(** Reading the values of collected times. *)
Lemma retrieve_collected (l : list (Timestamp * Value)) :
  (forall p, p ∈ l -> ReportedValuesByTimestamp o !! (q, fst p) = Some (snd p)) ->
  omap (fun t => (fun d => (d, t)) <$> retrieve_data s q t) l.*1 = prod_swap <$> l.
Proof.
  induction l as [|[t v] l IH]; intros Hl; [done|]. simpl.
  unfold retrieve_data at 1. pose proof (Hl (t, v) ltac:(left)) as Hv. simpl in Hv.
  rewrite Hv. simpl. f_equal.
  apply IH. intros p Hp. apply Hl. by right.
Qed.

Lemma get_multiple_values_before_history t max_age max_count : 0 <= max_count ->
  get_multiple_values_before s q t max_age max_count =
    let range := filter (fun p => saturating_sub t max_age < fst p < t) (history o q) in
    prod_swap <$> drop (length range - Z.to_nat max_count) range.
Proof.
  intros Hmc. set (lo := saturating_sub t max_age). unfold get_multiple_values_before.
  fold lo. pose proof (get_index_for_data_after_correct s clock q Hwf Hsmall lo) as Ha.
  pose proof (get_index_for_data_before_with_start_correct s clock q Hwf t) as Hb.
  unfold get_index_for_data_before.
  destruct (get_index_for_data_before_with_start s q t 0) as [res it]. simpl fst.
  destruct Hb as [Hb _].
  destruct (get_index_for_data_after s q lo) as [i|].
  2: { cbv zeta. rewrite (filter_none _ (history o q)); [done|]. intros p Hp Hin.
       apply (earliest_after_history _ _ _ Hwf) in Ha.
       destruct Hin. by eapply (filter_nil_not_elem_of _ _ p Ha). }
  destruct res as [j|].
  2: { cbv zeta. rewrite (filter_none _ (history o q)); [done|]. intros p Hp Hin.
       apply (latest_before_history _ _ _ Hwf) in Hb.
       destruct Hin. by eapply (filter_nil_not_elem_of _ _ p Hb). }
  rewrite (range_history _ _ _ Hwf _ _ _ _ Ha Hb). cbv zeta.
  destruct Ha as (u & Hl & _), Hb as (w & Hr & _).
  pose proof (ts_at_range _ _ _ Hwf _ _ (proj1 Hl)).
  pose proof (ts_at_range _ _ _ Hwf _ _ (proj1 Hr)).
  assert (Hsat : saturating_add u32_max j 1 = j + 1)
    by (unfold saturating_add; rewrite Z.min_r; zlia).
  rewrite (collect_before_correct s clock q Hwf);
    [|lia|lia|lia|zlia|rewrite Hsat; unfold saturating_sub; lia|lia|done].
  simpl length. rewrite Z.sub_0_r, Z.sub_0_r, app_nil_r.
  set (vs := omap (value_at o q) (seqZ i (j + 1 - i))).
  rewrite take_reverse, reverse_involutive, length_fmap, <- fmap_drop.
  apply retrieve_collected. intros p Hp. apply (subseteq_drop (length vs - Z.to_nat max_count) vs) in Hp.
  apply elem_of_values in Hp as (k & _ & Hk). exact (proj2 (proj1 (value_at_live _ _ _ Hwf _ _) Hk)).
Qed.
End Laws.

(** The pallet keeps the laws of the interface. *)
Definition tellor_ok {T : Config} (s : State) : Prop :=
  oracle_wf s (sys_now s) /\ forall q, report_count s q <= 2 ^ 31.

#[export] Instance PalletUsingTellorLaws {T : Config} :
  UsingTellorLaws PalletUsingTellor tellor_ok history.
Proof.
  split; simpl.
  - intros s q [Hwf _]. exact (StronglySorted_values _ _ _ (Hwf q) _ 0).
  - intros s q t [Hwf _]. by apply (get_data_before_history _ _ _ (Hwf q)).
  - intros s q t [Hwf Hc]. by apply (get_data_after_history _ _ _ (Hwf q)).
  - intros s q t age n [Hwf Hc] Hn. by apply (get_multiple_values_before_history _ _ _ (Hwf q)).
Qed.

(** With more than [2 ^ 31] reports the midpoint saturates and the search after
    a time beyond the report [2 ^ 31] never ends. *)
Lemma search_after_stuck {T : Config} fuel s q timestamp en :
  2 ^ 31 <= en <= u32_max -> time_at_index s q (2 ^ 31 - 1) <= timestamp ->
  time_at_index s q (2 ^ 31) <= timestamp ->
  search_after fuel s q timestamp (2 ^ 31) en = None.
Proof.
  intros Hen H1 H2. induction fuel as [|fuel IH]; [done|]. simpl search_after.
  unfold search_after_step.
  replace (saturating_add u32_max en (2 ^ 31) / 2) with (2 ^ 31 - 1)
    by (unfold saturating_add; rewrite Z.min_l; [reflexivity|zlia]).
  change (saturating_add u32_max (2 ^ 31 - 1) 1) with (2 ^ 31).
  destruct (Z.ltb_spec timestamp (time_at_index s q (2 ^ 31 - 1))); [lia|].
  destruct (Z.ltb_spec timestamp (time_at_index s q (2 ^ 31))); [lia|done].
Qed.

(** ** The operations on the history *)

Lemma omap_ext_in {A B} (f g : A -> option B) (l : list A) :
  (forall x, x ∈ l -> f x = g x) -> omap f l = omap g l.
Proof.
  induction l as [|x l IH]; intros H; [done|]. csimpl. rewrite (H x) by left.
  rewrite IH; [done|]. intros y Hy. apply H. by right.
Qed.

Lemma omap_filter {A B} (f g : A -> option B) (P : B -> Prop) `{!forall b, Decision (P b)}
    (l : list A) :
  (forall x, g x = match f x with Some b => if decide (P b) then Some b else None
                             | None => None end) ->
  omap g l = filter P (omap f l).
Proof.
  intros Hg. induction l as [|x l IH]; [done|]. csimpl. rewrite Hg.
  destruct (f x) as [b|]; [|done]. rewrite filter_cons. destruct (decide (P b)); by rewrite IH.
Qed.

Section Operations.
Context {T : Config}.
Implicit Types s : State.

(** An accepted report appends its value. *)
Lemma submitted_history s s' who q v n qd st : oracle_wf s (sys_now s) ->
  report_count s q < u32_max -> submitted s s' who q v n qd st ->
  history s' q = history s q ++ [(sys_now s, v)] /\
  forall q', q' <> q -> history s' q' = history s q'.
Proof.
  intros Hwf Hroom Hs. pose proof (sb_fresh _ _ _ _ _ _ _ _ Hs) as Hfresh.
  rewrite (sb_effect _ _ _ _ _ _ _ _ Hs). set (c := report_count s q) in *.
  pose proof (wf_count _ _ _ (Hwf q)) as Hc. fold c in Hc. split.
  - unfold history, report_count, value_or_zero. simpl. rewrite lookup_insert_eq. simpl.
    unfold saturating_add. rewrite Z.min_r by lia. fold (value_or_zero (ReportedTimestampCount s) q).
    change (value_or_zero (ReportedTimestampCount s) q) with c.
    rewrite seqZ_app, omap_app by lia. f_equal.
    + apply omap_ext_in. intros i Hi. apply elem_of_seqZ in Hi. unfold value_at, ts_at. simpl.
      rewrite lookup_insert_ne by (intros [=]; lia).
      fold (ts_at s q i). destruct (ts_at s q i) as [t|] eqn:Ht; [|done]. simpl.
      rewrite lookup_insert_ne; [done|]. intros [= <-].
      destruct (wf_report _ _ _ (Hwf q) _ _ Ht) as (r & Hr & _). congruence.
    + rewrite (seqZ_cons _ 1), (seqZ_nil _ (Z.pred 1)) by lia. simpl.
      unfold value_at, ts_at. simpl. rewrite Z.add_0_l, lookup_insert_eq. simpl.
      by rewrite lookup_insert_eq.
  - intros q' Hne. unfold history, report_count, value_or_zero. simpl.
    rewrite lookup_insert_ne by done. apply omap_ext_in. intros i _.
    unfold value_at, ts_at. simpl. rewrite lookup_insert_ne by congruence.
    destruct (ReportedTimestampsByIndex s !! (q', i)) as [t|]; [|done]. simpl.
    by rewrite lookup_insert_ne by congruence.
Qed.

(** A removed report disappears from the history, and nothing else does. *)
Lemma removed_history (o o' : OracleStore) q ts r : removed o o' q ts r ->
  history o' q = filter (fun p => fst p <> ts) (history o q) /\
  forall q', q' <> q -> history o' q' = history o q'.
Proof.
  intros Hr. unfold history, report_count. rewrite (rm_count _ _ _ _ _ Hr). split.
  - apply omap_filter. intros i. unfold value_at, ts_at. rewrite (rm_ts _ _ _ _ _ Hr).
    destruct (ReportedTimestampsByIndex o !! (q, i)) as [t|]; [|done]. simpl.
    rewrite (rm_values _ _ _ _ _ Hr). destruct (decide (t = ts)) as [->|Hne].
    + rewrite lookup_delete_eq. destruct (ReportedValuesByTimestamp o !! (q, ts)); [|done]. simpl.
      by destruct (decide (ts <> ts)).
    + rewrite lookup_delete_ne by congruence.
      destruct (ReportedValuesByTimestamp o !! (q, t)); [|done]. simpl.
      by destruct (decide (t <> ts)).
  - intros q' Hne. apply omap_ext_in. intros i _. unfold value_at, ts_at.
    rewrite (rm_ts _ _ _ _ _ Hr), (rm_values _ _ _ _ _ Hr).
    destruct (ReportedTimestampsByIndex o !! (q', i)) as [t|]; [|done]. simpl.
    by rewrite lookup_delete_ne by congruence.
Qed.
End Operations.
