(* ===== verification/RuntimeApi.v ===== *)
(** * The runtime API

    [src/runtime-api/src/]: the traits of [lib.rs] that a node calls on the state of
    a block, as classes over that state, the records of [autopay.rs] and
    [governance.rs] they return, and their implementation by the pallet's getters, as
    in [tests.rs]. *)

From S2P Require Import Prelude Types Config Storage Oracle Queries Autopay.

(** ** What the calls return *)

Record FeedDetailsWithQueryData := {
  details : Feed;
  fd_query_data : bytes;
}.

Record SingleTipWithQueryData := {
  st_query_data : bytes;
  st_tip : Balance;
}.

(** [VoteInfo] of the runtime API: the tallies of a vote, flattened. *)
Record VoteInfoView := {
  vi_vote_round : Z;
  vi_start_date : Timestamp;
  vi_block_number : BlockNumber;
  vi_fee : Balance;
  vi_tally_date : Timestamp;
  vi_users_does_support : Balance;
  vi_users_against : Balance;
  vi_users_invalid_query : Balance;
  vi_reporters_does_support : Z;
  vi_reporters_against : Z;
  vi_reporters_invalid_query : Z;
}.

(** ** The traits

    [S] is the state of the block the call names.  A call that could trap returns an
    option, [None] for the trap. *)

Class TellorAutoPay (S : Type) := {
  api_get_current_feeds : S -> QueryId -> list FeedId;
  api_get_current_tip : S -> QueryId -> Balance;
  api_get_data_feed : S -> FeedId -> option Feed;
  api_get_funded_feed_details : S -> list FeedDetailsWithQueryData;
  api_get_funded_feeds : S -> list FeedId;
  api_get_funded_query_ids : S -> list QueryId;
  api_get_funded_single_tips_info : S -> list SingleTipWithQueryData;
  api_get_past_tip_count : S -> QueryId -> Z;
  api_get_past_tips : S -> QueryId -> list Tip;
  api_get_past_tip_by_index : S -> QueryId -> Z -> option Tip;
  api_get_query_id_from_feed_id : S -> FeedId -> option QueryId;
  api_get_reward_amount : S -> FeedId -> QueryId -> list Timestamp -> option Balance;
  api_get_reward_claimed_status : S -> FeedId -> QueryId -> Timestamp -> bool;
  api_get_reward_claim_status_list : S -> FeedId -> QueryId -> list Timestamp -> list bool;
  api_get_tips_by_address : S -> AccountId -> Balance;
}.

Class TellorOracle (S : Type) := {
  api_get_block_number_by_timestamp : S -> QueryId -> Timestamp -> option BlockNumber;
  api_get_current_value : S -> QueryId -> option Value;
  api_get_data_before : S -> QueryId -> Timestamp -> option (Value * Timestamp);
  api_get_new_value_count_by_query_id : S -> QueryId -> Z;
  api_get_report_details : S -> QueryId -> Timestamp -> option (AccountId * bool);
  api_get_reporter_by_timestamp : S -> QueryId -> Timestamp -> option AccountId;
  api_get_reporter_last_timestamp : S -> AccountId -> option Timestamp;
  api_get_reporting_lock : S -> Timestamp;
  api_get_reports_submitted_by_address : S -> AccountId -> Z;
  api_get_reports_submitted_by_address_and_query_id : S -> AccountId -> QueryId -> Z;
  api_get_stake_amount : S -> Tributes;
  api_get_staker_info : S -> AccountId -> option StakeInfo;
  api_get_time_of_last_new_value : S -> option Timestamp;
  api_get_timestamp_by_query_id_and_index : S -> QueryId -> Z -> option Timestamp;
  api_get_index_for_data_before : S -> QueryId -> Timestamp -> option Z;
  api_get_timestamp_index_by_timestamp : S -> QueryId -> Timestamp -> option Z;
  api_get_total_stake_amount : S -> Tributes;
  api_get_total_stakers : S -> Z;
  api_is_in_dispute : S -> QueryId -> Timestamp -> bool;
  api_retrieve_data : S -> QueryId -> Timestamp -> option Value;
}.

Class TellorGovernance (S : Type) := {
  api_did_vote : S -> DisputeId -> Z -> AccountId -> bool;
  api_get_dispute_fee : S -> Balance;
  api_get_disputes_by_reporter : S -> AccountId -> list DisputeId;
  api_get_dispute_info : S -> DisputeId -> option (QueryId * Timestamp * Value * AccountId);
  api_get_open_disputes_on_id : S -> QueryId -> Z;
  api_get_vote_count : S -> Z;
  api_get_vote_info : S -> DisputeId -> Z ->
    option (VoteInfoView * bool * option VoteResult * AccountId);
  api_get_vote_rounds : S -> DisputeId -> Z;
  api_get_vote_tally_by_address : S -> AccountId -> Z;
}.

(** ** The implementation of a runtime *)

Section Runtime.
Context {T : Config}.
Implicit Types s : State.

(** A call runs on the state of the block; what it changes is dropped. *)
Definition returned {A} (m : Call A) s : option A :=
  match fst (m s) with Ok a => Some a | _ => None end.

Definition feed_view (p : Feed * QueryDataBytes) : FeedDetailsWithQueryData :=
  {| details := fst p; fd_query_data := snd p |}.

Definition tip_view (p : QueryDataBytes * Balance) : SingleTipWithQueryData :=
  {| st_query_data := fst p; st_tip := snd p |}.

Definition vote_view (v : Vote) : VoteInfoView * bool * option VoteResult * AccountId :=
  ({| vi_vote_round := vote_vote_round v;
      vi_start_date := vote_start_date v;
      vi_block_number := vote_block_number v;
      vi_fee := vote_fee v;
      vi_tally_date := vote_tally_date v;
      vi_users_does_support := does_support (vote_users v);
      vi_users_against := against (vote_users v);
      vi_users_invalid_query := invalid_query (vote_users v);
      vi_reporters_does_support := does_support (vote_reporters v);
      vi_reporters_against := against (vote_reporters v);
      vi_reporters_invalid_query := invalid_query (vote_reporters v) |},
   vote_executed v, vote_result v, vote_initiator v).

#[global] Instance RuntimeAutoPay : TellorAutoPay State := {
  api_get_current_feeds := get_current_feeds;
  api_get_current_tip := get_current_tip;
  api_get_data_feed := get_data_feed;
  api_get_funded_feed_details := fun s => feed_view <$> get_funded_feed_details s;
  api_get_funded_feeds := get_funded_feeds;
  api_get_funded_query_ids := get_funded_query_ids;
  api_get_funded_single_tips_info := fun s => tip_view <$> get_funded_single_tips_info s;
  api_get_past_tip_count := get_past_tip_count;
  api_get_past_tips := get_past_tips;
  api_get_past_tip_by_index := get_past_tip_by_index;
  api_get_query_id_from_feed_id := get_query_id_from_feed_id;
  api_get_reward_amount := fun s feed_id query_id timestamps =>
    returned (get_reward_amount feed_id query_id timestamps) s;
  api_get_reward_claimed_status := get_reward_claimed_status;
  api_get_reward_claim_status_list := get_reward_claim_status_list;
  api_get_tips_by_address := get_tips_by_address;
}.

#[global] Instance RuntimeOracle : TellorOracle State := {
  api_get_block_number_by_timestamp := get_block_number_by_timestamp;
  api_get_current_value := get_current_value;
  api_get_data_before := get_data_before;
  api_get_new_value_count_by_query_id := get_new_value_count_by_query_id;
  api_get_report_details := get_report_details;
  api_get_reporter_by_timestamp := get_reporter_by_timestamp;
  api_get_reporter_last_timestamp := get_reporter_last_timestamp;
  api_get_reporting_lock := fun _ => get_reporting_lock;
  api_get_reports_submitted_by_address := get_reports_submitted_by_address;
  api_get_reports_submitted_by_address_and_query_id :=
    get_reports_submitted_by_address_and_query_id;
  api_get_stake_amount := get_stake_amount;
  api_get_staker_info := get_staker_info;
  api_get_time_of_last_new_value := get_time_of_last_new_value;
  api_get_timestamp_by_query_id_and_index := get_timestamp_by_query_id_and_index;
  api_get_index_for_data_before := get_index_for_data_before;
  api_get_timestamp_index_by_timestamp := get_timestamp_index_by_timestamp;
  api_get_total_stake_amount := get_total_stake_amount;
  api_get_total_stakers := get_total_stakers;
  api_is_in_dispute := is_in_dispute;
  api_retrieve_data := retrieve_data;
}.

#[global] Instance RuntimeGovernance : TellorGovernance State := {
  api_did_vote := did_vote;
  api_get_dispute_fee := get_dispute_fee;
  api_get_disputes_by_reporter := get_disputes_by_reporter;
  api_get_dispute_info := get_dispute_info;
  api_get_open_disputes_on_id := get_open_disputes_on_id;
  api_get_vote_count := get_vote_count;
  api_get_vote_info := fun s dispute_id vote_round =>
    vote_view <$> get_vote_info s dispute_id vote_round;
  api_get_vote_rounds := get_vote_rounds;
  api_get_vote_tally_by_address := get_vote_tally_by_address;
}.

End Runtime.
