(* ===== verification/Pallet.v ===== *)
(** * The pallet as a state machine

    The hook [on_initialize], the dispatchable calls of [src/src/lib.rs] as one
    type, and the steps a chain takes: a dispatched call (which is rolled back
    when it fails, as the framework runs every dispatchable in a storage layer),
    the hook, the passing of time, and transfers of the asset by other pallets. *)

From S2P Require Import Prelude Types Config Storage Oracle Queries Xcm Governance Staking.
From S2P Require Import Autopay.

Section Pallet.
Context {T : Config}.
Implicit Types s : State.

(** ** on_initialize *)

(** The update of the stake amount and the dispute fee, both or neither. *)
Definition update_prices (timestamp : Timestamp) : Call (Z * Z) :=
  transactional (
    let* s := do_update_stake_amount in
    let* l := update_dispute_fee in
    write (upd_LastStakeAmountUpdate (fun _ => timestamp)) ;;;
    ret (s, l)).

Definition update_due s : bool :=
  (0 <? UpdateStakeAmountInterval)
  && (wrapping_add u64_max (LastStakeAmountUpdate s)
        (Z.max UpdateStakeAmountInterval (12 * HOURS)) <=? sys_now s).

(** The weight it returns is a function of the three counts, which are returned
    in its place. *)
Definition on_initialize : Call (Z * Z * Z) :=
  let* timestamp := now in
  let* due := read update_due in
  let* counts :=
    if (due : bool)
    then let* r := attempt (update_prices timestamp) in ret (default (0, 0) r)
    else ret (0, 0) in
  let* v := attempt (do_send_votes timestamp MAX_AGGREGATE_VOTES_SENT_PER_BLOCK) in
  ret (fst counts, snd counts, default 0 v).

(** ** The calls *)

Inductive PalletCall :=
| c_register (gas_limit : option Z)
| c_claim_onetime_tip (query_id : QueryId) (timestamps : list Timestamp)
| c_claim_tip (feed_id : FeedId) (query_id : QueryId) (timestamps : list Timestamp)
| c_fund_feed (feed_id : FeedId) (query_id : QueryId) (amount : Balance)
| c_setup_data_feed (query_id : QueryId) (reward : Balance)
    (start_time interval window : Timestamp) (price_threshold : Z)
    (reward_increase_per_second : Balance) (query_data : QueryDataBytes) (amount : Balance)
| c_tip (query_id : QueryId) (amount : Balance) (query_data : QueryDataBytes)
| c_add_staking_rewards (amount : Balance)
| c_submit_value (query_id : QueryId) (value : Value) (nonce : Nonce)
    (query_data : QueryDataBytes)
| c_update_stake_amount
| c_begin_dispute (query_id : QueryId) (timestamp : Timestamp) (beneficiary : option Address)
| c_vote (dispute_id : DisputeId) (supports : option bool)
| c_vote_on_multiple_disputes (votes : list (DisputeId * option bool))
| c_send_votes (max_votes : Z)
| c_report_stake_deposited (reporter : AccountId) (amount : Tributes) (address : Address)
| c_report_staking_withdraw_request (reporter : AccountId) (amount : Tributes)
    (address : Address)
| c_report_stake_withdrawn (reporter : AccountId) (amount : Tributes)
| c_report_slash (reporter : AccountId) (amount : Tributes)
| c_report_vote_tallied (dispute_id : DisputeId) (result : VoteResult)
| c_report_vote_executed (dispute_id : DisputeId).

(** Drop the count a call returns for its weight. *)
Definition void {A} (m : Call A) : Call unit := m ;;; ret tt.

Definition call_body (origin : RuntimeOrigin) (c : PalletCall) : Call unit :=
  match c with
  | c_register gas_limit => register origin gas_limit
  | c_claim_onetime_tip query_id timestamps => claim_onetime_tip origin query_id timestamps
  | c_claim_tip feed_id query_id timestamps => claim_tip origin feed_id query_id timestamps
  | c_fund_feed feed_id query_id amount => fund_feed origin feed_id query_id amount
  | c_setup_data_feed query_id reward start_time interval window price_threshold
      reward_increase_per_second query_data amount =>
      setup_data_feed origin query_id reward start_time interval window price_threshold
        reward_increase_per_second query_data amount
  | c_tip query_id amount query_data => tip origin query_id amount query_data
  | c_add_staking_rewards amount => add_staking_rewards origin amount
  | c_submit_value query_id value nonce query_data =>
      submit_value origin query_id value nonce query_data
  | c_update_stake_amount => void (update_stake_amount origin)
  | c_begin_dispute query_id timestamp beneficiary =>
      void (begin_dispute origin query_id timestamp beneficiary)
  | c_vote dispute_id supports => vote origin dispute_id supports
  | c_vote_on_multiple_disputes votes => vote_on_multiple_disputes origin votes
  | c_send_votes max_votes => void (send_votes origin max_votes)
  | c_report_stake_deposited reporter amount address =>
      report_stake_deposited origin reporter amount address
  | c_report_staking_withdraw_request reporter amount address =>
      report_staking_withdraw_request origin reporter amount address
  | c_report_stake_withdrawn reporter amount => report_stake_withdrawn origin reporter amount
  | c_report_slash reporter amount => report_slash origin reporter amount
  | c_report_vote_tallied dispute_id result => report_vote_tallied origin dispute_id result
  | c_report_vote_executed dispute_id => void (report_vote_executed origin dispute_id)
  end.

Definition dispatch (origin : RuntimeOrigin) (c : PalletCall) : Call unit :=
  transactional (call_body origin c).

(** The widths of the arguments that are decoded from an extrinsic. *)
Definition call_ok (c : PalletCall) : Prop :=
  match c with
  | c_report_stake_deposited _ amount address
  | c_report_staking_withdraw_request _ amount address =>
      0 <= amount <= u256_max /\ 0 <= address <= h160_max
  | c_report_stake_withdrawn _ amount
  | c_report_slash _ amount => 0 <= amount <= u256_max
  | c_fund_feed _ _ amount => 0 <= amount <= u128_max
  | c_setup_data_feed _ reward start_time interval window threshold increase _ amount =>
      0 <= reward <= u128_max /\ 0 <= start_time <= u64_max /\ 0 <= interval <= u64_max /\
      0 <= window <= u64_max /\ 0 <= threshold <= u16_max /\ 0 <= increase <= u128_max /\
      0 <= amount <= u128_max
  | c_tip _ amount _ | c_add_staking_rewards amount => 0 <= amount <= u128_max
  | c_begin_dispute _ _ (Some beneficiary) => 0 <= beneficiary <= h160_max
  | _ => True
  end.

(** ** Steps *)

Inductive step : State -> State -> Prop :=
| step_call s origin c r s' :
    call_ok c -> dispatch origin c s = (r, s') -> r <> Panic -> step s s'
| step_initialize s r s' :
    on_initialize s = (r, s') -> r <> Panic -> step s s'
| step_time s t b :
    sys_now s <= t <= u64_max ->
    step s (upd_sys_block_number (fun _ => b) (upd_sys_now (fun _ => t) s))
| step_assets s a :
    step s (upd_sys_assets (fun _ => a) s).

Definition reachable s : Prop :=
  exists t a, 0 <= t <= u64_max /\ rtc step (genesis t a) s.

Lemma reachable_step s s' : reachable s -> step s s' -> reachable s'.
Proof.
  intros (t & a & Ht & Hr) Hs. exists t, a. split; [done|]. by eapply rtc_r.
Qed.

(** What holds of the genesis and is kept by each step holds when reachable. *)
Lemma reachable_ind_inv (I : State -> Prop) :
  (forall t a, 0 <= t <= u64_max -> I (genesis t a)) ->
  (forall s s', reachable s -> I s -> step s s' -> I s') ->
  forall s, reachable s -> I s.
Proof.
  intros H0 Hstep s (t & a & Ht & Hr). pose (x := genesis t a).
  assert (Hx : reachable x) by (exists t, a; split; [done|apply rtc_refl]).
  assert (Hi : I x) by by apply H0.
  revert Hx Hi Hr. fold x. generalize x. clear x Ht. intros x Hx Hi Hr.
  induction Hr as [|x y z Hxy Hyz IH]; [done|].
  apply IH; [by eapply reachable_step|by eapply Hstep].
Qed.
End Pallet.
