(* ===== verification/PalletWeights.v ===== *)
(** * The weights of calls

    The weight a call declares before it is dispatched (the [#[pallet::weight]]
    attributes of [src/src/lib.rs]), the weight it reports to have used
    ([DispatchResultWithPostInfo]), and the weight the hook returns. *)

From S2P Require Import Prelude Types Weights Config Storage Oracle Queries Xcm Governance.
From S2P Require Import Staking Autopay Pallet.

Section PalletWeights.
Context {T : Config}.
Implicit Types s : State.

(** [x.len() as u32]; the lengths are bounded by 32-bit constants. *)
Definition len {A} (l : list A) : Z := Z.of_nat (length l).

Definition declared_weight (c : PalletCall) : Weight :=
  match c with
  | c_register _ => wi_register
  | c_claim_onetime_tip _ timestamps => wi_claim_onetime_tip (len timestamps)
  | c_claim_tip _ _ timestamps => wi_claim_tip (len timestamps)
  | c_fund_feed _ _ _ => wi_fund_feed
  | c_setup_data_feed _ _ _ _ _ _ _ query_data _ => wi_setup_data_feed (len query_data)
  | c_tip _ _ query_data => wi_tip (len query_data)
  | c_add_staking_rewards _ => wi_add_staking_rewards
  | c_submit_value _ value _ query_data => wi_submit_value (len query_data) (len value)
  | c_update_stake_amount => wi_update_stake_amount MAX_ITERATIONS MAX_ITERATIONS
  | c_begin_dispute _ _ _ => wi_begin_dispute MaxDisputedTimeSeries
  | c_vote _ _ => wi_vote
  | c_vote_on_multiple_disputes votes => wi_vote_on_multiple_disputes (len votes)
  | c_send_votes max_votes => wi_send_votes max_votes
  | c_report_stake_deposited _ _ _ => wi_report_stake_deposited
  | c_report_staking_withdraw_request _ _ _ => wi_report_staking_withdraw_request
  | c_report_stake_withdrawn _ _ => wi_report_stake_withdrawn
  | c_report_slash _ _ => wi_report_slash
  | c_report_vote_tallied _ _ => wi_report_vote_tallied
  | c_report_vote_executed _ => wi_report_vote_executed MAX_VOTE_ROUNDS
  end.

(** A call with the weight it reports on success, [None] for the declared one.
    (The weight an error carries is not modelled.) *)
Definition weighed_body (origin : RuntimeOrigin) (c : PalletCall) : Call (option Weight) :=
  match c with
  | c_update_stake_amount =>
      let* ' (s, l) := update_stake_amount origin in
      ret (Some (wi_update_stake_amount s l))
  | c_begin_dispute query_id timestamp beneficiary =>
      let* disputed_timestamps := begin_dispute origin query_id timestamp beneficiary in
      ret (Some (wi_begin_dispute disputed_timestamps))
  | c_send_votes max_votes =>
      let* sent := send_votes origin max_votes in
      ret (Some (wi_send_votes sent))
  | c_report_vote_executed dispute_id =>
      let* vote_rounds := report_vote_executed origin dispute_id in
      ret (Some (wi_report_vote_executed vote_rounds))
  | _ => call_body origin c ;;; ret None
  end.

(** The weight a successful call is charged. *)
Definition charged_weight (c : PalletCall) (actual : option Weight) : Weight :=
  default (declared_weight c) actual.

(** The hook with the weight it returns. *)
Definition weighed_hook : Call Weight :=
  let* ' (s, l, v) := on_initialize in
  ret (wi_on_initialize s l v).

(** The weighed calls are the calls. *)
Lemma weighed_body_run origin c s w s' :
  weighed_body origin c s = (Ok w, s') -> call_body origin c s = (Ok tt, s').
Proof.
  destruct c; cbn [weighed_body call_body]; unfold void; intros H;
    apply bind_Ok in H as (a & s1 & H & Hr);
    repeat match goal with p : prod _ _ |- _ => destruct p end;
    apply ret_Ok in Hr as [_ ->];
    try (erewrite bind_run by exact H; reflexivity);
    by repeat match goal with u : unit |- _ => destruct u end.
Qed.

End PalletWeights.
