(* ===== verification/Benchmarks.v ===== *)
(** * Benchmarks

    The set-ups of [src/src/benchmarking.rs] as programs over the calls: each builds a
    state and yields the call to measure, for the components it is given. *)

From Stdlib Require Import Strings.String.
From S2P Require Import Prelude Types Weights Config Storage Oracle Queries Xcm Governance.
From S2P Require Import Staking Autopay Pallet PalletWeights.

(** ** The framework *)

(** [frame_benchmarking::BenchmarkError], of which one case is built here; the other
    carries the error of a call. *)
Inductive BenchmarkError := Weightless | Dispatched (e : DispatchError).

Section Bench.
Context {T : Config}.
Implicit Types s : State.

Definition Bench (A : Type) : Type := M State BenchmarkError A.

(** A call whose error ends the benchmark ([?]), and one that must succeed. *)
Definition run_or (f : DispatchError -> option BenchmarkError) {A} (m : Call A) : Bench A :=
  fun s =>
    match m s with
    | (Ok a, s') => (Ok a, s')
    | (Err e, s') => (match f e with Some b => Err b | None => Panic end, s')
    | (Panic, s') => (Panic, s')
    end.

Definition question {A} : Call A -> Bench A := run_or (fun e => Some (Dispatched e)).
Definition unwrap {A} : Call A -> Bench A := run_or (fun _ => None).

Definition for_each {A} (l : list A) (body : A -> Bench unit) : Bench unit :=
  foldM (fun _ a => body a) tt l.

(** [traits::BenchmarkHelper], the accounts of the framework, and the origins that the
    configured checks accept ([try_successful_origin]). *)
Class BenchmarkHelper := {
  set_time : Timestamp -> State -> State;
  set_balance : AccountId -> Balance -> State -> State;
  get_staking_token_price_query_data : bytes;
  get_staking_to_local_token_price_query_data : bytes;
  account : string -> Z -> Z -> AccountId;
  staking_successful_origin : option RuntimeOrigin;
  governance_successful_origin : option RuntimeOrigin;
}.

(** What a set-up yields: the call to measure, its origin, and what is verified after. *)
Definition Measured : Type := RuntimeOrigin * PalletCall * (State -> bool).

Definition no_verify : State -> bool := fun _ => true.

(** The run of a benchmark, with the weight that is charged for the measured call.  A
    failing [assert!] is a panic. *)
Definition run_benchmark (setup : Bench Measured) : Bench Weight :=
  let* ' (origin, c, verify) := setup in
  let* actual := question (transactional (weighed_body origin c)) in
  let* verified := gets verify in
  if verified then ret (charged_weight c actual) else panic.
End Bench.

#[export] Instance Feed_eq_dec : EqDecision Feed.
Proof. solve_decision. Defined.
#[export] Instance Weights_eq_dec : EqDecision Weights.
Proof. solve_decision. Defined.
#[export] Instance Event_eq_dec : EqDecision Event.
Proof. solve_decision. Defined.

(** ** Helpers *)

Section Helpers.
Context {T : Config} {H : BenchmarkHelper}.
Implicit Types s : State.

Definition SEED : Z := 0.

(** [(amount.into() * TRB as f64) as u128]: exact for the amounts that are used. *)
Definition trb (amount : Z) : Tributes := amount * 10 ^ DECIMALS.

Definition unit_ : Z := 10 ^ Decimals.

(** A product of [u64]s. *)
Definition token (amount : Z) : Balance := (amount * (unit_ mod (u64_max + 1))) mod (u64_max + 1).

Definition uint_value (value : Z) : Bench Value :=
  let encoded := abi_encode [Uint value] in
  expect (if len encoded <=? MaxValueLength then Some encoded else None).

Definition deposit_stake (reporter : AccountId) (amount : Tributes) (address : Address)
    : Bench RuntimeOrigin :=
  match staking_successful_origin with
  | Some origin =>
      run_or (fun _ => Some Weightless)
        (report_stake_deposited origin reporter amount address) ;;;
      ret origin
  | None => fail Weightless
  end.

Definition create_feed (feed_creator : AccountId) (query_id : QueryId) (reward : Balance)
    (start_time interval window : Timestamp) (price_threshold : Z)
    (reward_increase_per_second : Balance) (query_data : QueryDataBytes) (amount : Balance)
    : Bench FeedId :=
  unwrap (setup_data_feed (Signed feed_creator) query_id reward start_time interval window
            price_threshold reward_increase_per_second query_data amount) ;;;
  ret (keccak256 (abi_encode
    [FixedBytes (to_be_bytes 32 query_id); Uint reward; Uint start_time; Uint interval;
     Uint window; Uint price_threshold; Uint reward_increase_per_second])).

Definition dispute_id (para_id : ParaId) (query_id : QueryId) (timestamp : Timestamp) : DisputeId :=
  keccak256 (abi_encode [Uint para_id; FixedBytes (to_be_bytes 32 query_id); Uint timestamp]).

Definition assert_last_event s (e : Event) : bool := bool_decide (head (sys_events s) = Some e).

(** [BoundedVec::try_from(vec![b; n]).unwrap()] *)
Definition filled (b : byte) (n : Z) : bytes := replicate (Z.to_nat n) b.

(** [vec.try_push(x).unwrap()] *)
Definition try_push {A} (bound : Z) (l : list A) (x : A) : Bench (list A) :=
  expect (if len l <? bound then Some (l ++ [x]) else None).

(** [<ReportedTimestampsByIndex<T>>::get(query_id, i).unwrap()] *)
Definition timestamp_at (query_id : QueryId) (i : Z) : Bench Timestamp :=
  let* t := gets (fun s => ReportedTimestampsByIndex s !! (query_id, i)) in expect t.

(** [<TimeOfLastNewValue<T>>::get().unwrap()] *)
Definition last_new_value : Bench Timestamp :=
  let* t := gets (fun s => TimeOfLastNewValue s) in expect t.

Definition submit (reporter : AccountId) (query_id : QueryId) (value : Z)
    (query_data : QueryDataBytes) : Bench unit :=
  let* value := uint_value value in
  question (submit_value (Signed reporter) query_id value 0 query_data).

(** [1_000 * i], on [u32] *)
Definition thousands (i : Z) : Z := (i * 1000) mod (u32_max + 1).
End Helpers.

(** ** The benchmarks of calls *)

Section Benchmarks.
Context {T : Config} {H : BenchmarkHelper}.
Implicit Types s : State.

Definition benchmark_register : Bench Measured :=
  modify (set_balance pallet_account (token 1)) ;;;
  ret (Root, c_register None, no_verify).

Definition benchmark_claim_onetime_tip (t : Z) : Bench Measured :=
  let query_data := filled x00 MaxQueryDataLength in
  let query_id := keccak256 query_data in
  let tipper := account "account" 1 SEED in
  let reporter := account "account" 2 SEED in
  modify (set_time REPORTING_LOCK) ;;;
  modify (set_balance tipper (token t)) ;;;
  deposit_stake reporter (trb 100) 0 ;;;
  let* timestamps := foldM (fun timestamps i =>
      unwrap (tip (Signed tipper) query_id (token 1) query_data) ;;;
      modify (set_time REPORTING_LOCK) ;;;
      submit reporter query_id (thousands i) query_data ;;;
      let* timestamp := timestamp_at query_id (i - 1) in
      try_push MaxClaimTimestamps timestamps timestamp) [] (seqZ 1 t) in
  modify (set_time (12 * HOURS)) ;;;
  ret (Signed reporter, c_claim_onetime_tip query_id timestamps, no_verify).

Definition benchmark_claim_tip (t : Z) : Bench Measured :=
  let query_data := filled x00 MaxQueryDataLength in
  let query_id := keccak256 query_data in
  let reporter := account "account" 1 SEED in
  let feed_creator := account "account" 2 SEED in
  let reward := token 10 in
  (* a [u64] by a [u32]: no overflow *)
  let feed_fund_amount := reward * MaxClaimTimestamps in
  modify (set_time MINUTES) ;;;
  modify (set_balance feed_creator feed_fund_amount) ;;;
  deposit_stake reporter (trb 1200) 0 ;;;
  let* now := gets (fun s => sys_now s) in
  let* feed_id := create_feed feed_creator query_id reward now 3600 600 1 (token 0)
                    query_data feed_fund_amount in
  let* timestamps := foldM (fun timestamps i =>
      modify (set_time (1 * HOURS)) ;;;
      submit reporter query_id (thousands i) query_data ;;;
      let* timestamp := timestamp_at query_id (i - 1) in
      try_push MaxClaimTimestamps timestamps timestamp) [] (seqZ 1 t) in
  modify (set_time (12 * HOURS)) ;;;
  ret (Signed reporter, c_claim_tip feed_id query_id timestamps, no_verify).

Definition benchmark_fund_feed : Bench Measured :=
  let query_data := filled x00 MaxQueryDataLength in
  let query_id := keccak256 query_data in
  let feed_creator := account "account" 1 SEED in
  modify (set_balance feed_creator (token 1000)) ;;;
  let* now := gets (fun s => sys_now s) in
  let* feed_id := create_feed feed_creator query_id (token 10) now 700 60 0 (token 0)
                    query_data (token 1000) in
  ret (Signed feed_creator, c_fund_feed feed_id query_id (token 10),
       fun s => bool_decide (is_Some (DataFeeds s !! (query_id, feed_id)))).

Definition benchmark_setup_data_feed (q : Z) : Bench Measured :=
  let query_data := filled x01 q in
  let query_id := keccak256 query_data in
  let feed_creator := account "account" 1 SEED in
  modify (set_balance feed_creator (token 1000)) ;;;
  let* now := gets (fun s => sys_now s) in
  create_feed feed_creator query_id (token 10) now 700 60 0 (token 0) query_data (token 1000) ;;;
  let* now := gets (fun s => sys_now s) in
  ret (Signed feed_creator,
       c_setup_data_feed query_id (token 10) now 600 60 0 (token 0) query_data (token 1000),
       no_verify).

Definition benchmark_tip (q : Z) : Bench Measured :=
  let query_data := filled x01 q in
  let query_id := keccak256 query_data in
  let tipper := account "account" 1 SEED in
  let amount := token 1 in
  modify (set_balance tipper amount) ;;;
  ret (Signed tipper, c_tip query_id amount query_data, no_verify).

Definition benchmark_add_staking_rewards : Bench Measured :=
  let reporter := account "account" 1 SEED in
  modify (set_balance reporter (token 1000)) ;;;
  ret (Signed reporter, c_add_staking_rewards (token 100), no_verify).

Definition benchmark_submit_value (q v : Z) : Bench Measured :=
  let query_data := filled x01 q in
  let query_id := keccak256 query_data in
  let value := filled x01 v in
  let reporter := account "account" 1 SEED in
  deposit_stake reporter (trb 1200) 0 ;;;
  modify (set_time HOURS) ;;;
  ret (Signed reporter, c_submit_value query_id value 0 query_data,
       fun s => bool_decide (is_Some (StakerDetails s !! reporter))).

(** [2 ^ n] reports of a price, all but the first and the last of them taken back. *)
Definition price_reports (retract : QueryId -> Timestamp -> Bench unit) (reporter : AccountId)
    (query_data : QueryDataBytes) (value : Z) (n : Z) : Bench unit :=
  let query_id := keccak256 query_data in
  let reports := saturating_pow u32_max 2 n in
  for_each (seqZ 1 reports) (fun i =>
    submit reporter query_id value query_data ;;;
    (if (1 <? i) && (i <? reports)
     then let* timestamp := timestamp_at query_id (i - 1) in retract query_id timestamp
     else ret tt) ;;;
    modify (set_time (12 * HOURS))).

Definition benchmark_update_stake_amount (s l : Z) : Bench Measured :=
  let reporter := account "account" 1 SEED in
  let disputer := account "disputer" 0 SEED in
  deposit_stake reporter (trb 10000) 0 ;;;
  modify (set_balance disputer u64_max) ;;;
  modify (set_time HOURS) ;;;
  let retract query_id timestamp :=
    question (void (begin_dispute (Signed disputer) query_id timestamp (Some 0))) in
  price_reports retract reporter get_staking_token_price_query_data (50 * 10 ^ 18) s ;;;
  price_reports retract reporter get_staking_to_local_token_price_query_data (6 * 10 ^ 18) l ;;;
  ret (Signed reporter, c_update_stake_amount, no_verify).

Definition benchmark_begin_dispute (d : Z) : Bench Measured :=
  let query_data := filled x00 MaxQueryDataLength in
  let query_id := keccak256 query_data in
  let* stake_amount := gets (fun s => StakeAmount s) in
  let dispute_fees := token 10 in
  modify (set_time REPORTING_LOCK) ;;;
  let reporter := account "account" 0 SEED in
  deposit_stake reporter stake_amount 0 ;;;
  modify (set_balance reporter dispute_fees) ;;;
  submit reporter query_id 10 query_data ;;;
  for_each (seqZ 2 (d - 2)) (fun i =>
    modify (set_time 1) ;;;
    let reporter := account "account" i SEED in
    deposit_stake reporter stake_amount 0 ;;;
    modify (set_balance reporter dispute_fees) ;;;
    submit reporter query_id (i * 10) query_data ;;;
    let* timestamp := timestamp_at query_id (i - 1) in
    question (void (begin_dispute (Signed reporter) query_id timestamp None))) ;;;
  let* timestamp := timestamp_at query_id 0 in
  ret (Signed reporter, c_begin_dispute query_id timestamp None,
       fun s => bool_decide (LastReportedTimestamp s !! query_id = None) &&
         assert_last_event s (NewDisputeSent (cl_para_id GovernanceContract)
                                (cl_address GovernanceContract))).

(** A reported value that its reporter disputes, as three benchmarks set it up. *)
Definition disputed_value (reporter : AccountId) : Bench DisputeId :=
  let query_data := filled x00 MaxQueryDataLength in
  let query_id := keccak256 query_data in
  submit reporter query_id 4000 query_data ;;;
  let* disputed_timestamp := last_new_value in
  modify (set_balance reporter (token 1000)) ;;;
  question (void (begin_dispute (Signed reporter) query_id disputed_timestamp None)) ;;;
  ret (dispute_id ParachainId query_id disputed_timestamp).

Definition benchmark_vote : Bench Measured :=
  let reporter := account "account" 1 SEED in
  deposit_stake reporter (trb 1200) 0 ;;;
  modify (set_time HOURS) ;;;
  let* dispute_id := disputed_value reporter in
  ret (Signed reporter, c_vote dispute_id (Some true),
       fun s => assert_last_event s (Voted dispute_id (Some true) reporter)).

Definition benchmark_vote_on_multiple_disputes (v : Z) : Bench Measured :=
  let query_data := filled x00 MaxQueryDataLength in
  let query_id := keccak256 query_data in
  let reporter := account "account" 1 SEED in
  let another_reporter := account "account" 2 SEED in
  deposit_stake reporter (trb 1200) 0 ;;;
  deposit_stake another_reporter (trb 1200) 0 ;;;
  modify (set_balance reporter (token 1000)) ;;;
  modify (set_balance another_reporter (token 1000)) ;;;
  let* votes := foldM (fun votes i =>
      modify (set_time HOURS) ;;;
      submit reporter query_id (thousands i) query_data ;;;
      let* timestamp := last_new_value in
      let dispute_id := dispute_id ParachainId query_id timestamp in
      if i mod 2 =? 0 then
        question (void (begin_dispute (Signed reporter) query_id timestamp None)) ;;;
        try_push MaxVotes votes (dispute_id, Some true)
      else
        question (void (begin_dispute (Signed another_reporter) query_id timestamp None)) ;;;
        try_push MaxVotes votes (dispute_id, Some false)) [] (seqZ 1 v) in
  ret (Signed reporter, c_vote_on_multiple_disputes votes, no_verify).

Definition benchmark_send_votes (v : Z) : Bench Measured :=
  let query_data := filled x00 MaxQueryDataLength in
  let query_id := keccak256 query_data in
  let reporter := account "account" 256 SEED in
  let user := account "account" 257 SEED in
  deposit_stake reporter (trb 1200) 0 ;;;
  modify (set_balance reporter (token 1000)) ;;;
  for_each (seqZ 1 v) (fun i =>
    let another_reporter := account "account" i SEED in
    deposit_stake another_reporter (trb 1200) 0 ;;;
    modify (set_balance another_reporter (token 100)) ;;;
    modify (set_time HOURS) ;;;
    submit another_reporter query_id (thousands i) query_data ;;;
    let* timestamp := last_new_value in
    let dispute_id := dispute_id ParachainId query_id timestamp in
    if i mod 2 =? 0 then
      question (void (begin_dispute (Signed reporter) query_id timestamp None)) ;;;
      question (vote (Signed reporter) dispute_id (Some true)) ;;;
      question (vote (Signed another_reporter) dispute_id (Some false))
    else
      question (void (begin_dispute (Signed another_reporter) query_id timestamp None)) ;;;
      question (vote (Signed reporter) dispute_id (Some false)) ;;;
      question (vote (Signed another_reporter) dispute_id (Some true)) ;;;
      question (vote (Signed user) dispute_id None)) ;;;
  modify (set_time HOURS) ;;;
  ret (Signed reporter, c_send_votes (v mod (u8_max + 1)), no_verify).

Definition benchmark_report_stake_deposited : Bench Measured :=
  let reporter := account "account" 1 SEED in
  let amount := trb 100 in
  let* caller := deposit_stake reporter amount 0 in
  ret (caller, c_report_stake_deposited reporter amount 0,
       fun s => assert_last_event s (NewStakerReported reporter amount 0)).

Definition benchmark_report_staking_withdraw_request : Bench Measured :=
  let reporter := account "account" 1 SEED in
  let amount := trb 100 in
  let* caller := deposit_stake reporter amount 0 in
  ret (caller, c_report_staking_withdraw_request reporter amount 0,
       fun s => assert_last_event s (StakeWithdrawRequestReported reporter amount 0)).

Definition benchmark_report_stake_withdrawn : Bench Measured :=
  let reporter := account "account" 1 SEED in
  let amount := trb 100 in
  let* caller := deposit_stake reporter amount 0 in
  question (report_staking_withdraw_request caller reporter amount 0) ;;;
  modify (set_time WEEKS) ;;;
  ret (caller, c_report_stake_withdrawn reporter amount,
       fun s => assert_last_event s (StakeWithdrawnReported reporter)).

(** [T::GovernanceOrigin::try_successful_origin().map_err(..)?] *)
Definition successful (origin : option RuntimeOrigin) : Bench RuntimeOrigin :=
  ok_or origin Weightless.

Definition benchmark_report_slash : Bench Measured :=
  let reporter := account "account" 1 SEED in
  let* caller := successful governance_successful_origin in
  (* [deposit_stake(..).unwrap()] *)
  let* deposited := attempt (deposit_stake reporter (trb 1200) 0) in
  expect deposited ;;;
  modify (set_time HOURS) ;;;
  let* dispute_id := disputed_value reporter in
  question (vote (Signed reporter) dispute_id (Some true)) ;;;
  modify (set_time DAYS) ;;;
  question (report_vote_tallied caller dispute_id Passed) ;;;
  let* caller := successful staking_successful_origin in
  ret (caller, c_report_slash reporter (trb 100),
       fun s => assert_last_event s (SlashReported reporter (trb 100))).

Definition benchmark_report_vote_tallied : Bench Measured :=
  let reporter := account "account" 1 SEED in
  let* caller := successful governance_successful_origin in
  deposit_stake reporter (trb 1200) 0 ;;;
  modify (set_time HOURS) ;;;
  let* dispute_id := disputed_value reporter in
  question (vote (Signed reporter) dispute_id (Some true)) ;;;
  modify (set_time DAYS) ;;;
  ret (caller, c_report_vote_tallied dispute_id Passed, no_verify).

Definition benchmark_report_vote_executed (r : Z) : Bench Measured :=
  let query_data := filled x00 MaxQueryDataLength in
  let query_id := keccak256 query_data in
  let reporter := account "account" 256 SEED in
  let* caller := successful governance_successful_origin in
  modify (set_balance pallet_account (token 1)) ;;;
  question (register Root None) ;;;
  deposit_stake reporter (trb 1200) 0 ;;;
  modify (set_time HOURS) ;;;
  submit reporter query_id 4000 query_data ;;;
  let* disputed_timestamp := last_new_value in
  let* dispute_initiators := foldM (fun dispute_initiators i =>
      let another_reporter := account "account" i SEED in
      deposit_stake another_reporter (trb 1200) 0 ;;;
      modify (set_balance another_reporter (token 1000)) ;;;
      ret (dispute_initiators ++ [another_reporter])) [] (seqZ 1 r) in
  for_each dispute_initiators (fun dispute_initiator =>
    question (void (begin_dispute (Signed dispute_initiator) query_id disputed_timestamp None))) ;;;
  let dispute_id := dispute_id ParachainId query_id disputed_timestamp in
  question (vote (Signed reporter) dispute_id (Some true)) ;;;
  modify (set_time WEEKS) ;;;
  question (report_vote_tallied caller dispute_id Passed) ;;;
  modify (set_time DAYS) ;;;
  ret (caller, c_report_vote_executed dispute_id, no_verify).

(** ** The benchmark of the hook *)

Definition benchmark_on_initialize (s l v : Z) : Bench Weight :=
  let query_data := filled x00 MaxQueryDataLength in
  let query_id := keccak256 query_data in
  let reporter := account "account" 1 SEED in
  let disputer := account "account" 2 SEED in
  let user := account "account" 3 SEED in
  deposit_stake reporter (trb 10000) 0 ;;;
  modify (set_balance disputer (token 1000)) ;;;
  modify (set_balance user (token 1000)) ;;;
  modify (set_time HOURS) ;;;
  let retract query_id timestamp := question (void (remove_value query_id timestamp)) in
  price_reports retract reporter get_staking_token_price_query_data (50 * 10 ^ 18) s ;;;
  price_reports retract reporter get_staking_to_local_token_price_query_data (6 * 10 ^ 18) l ;;;
  unwrap (tip (Signed user) query_id (token 1) query_data) ;;;
  for_each (seqZ 1 v) (fun i =>
    submit reporter query_id (thousands i) query_data ;;;
    let* timestamp := last_new_value in
    let dispute_id := dispute_id ParachainId query_id timestamp in
    question (void (begin_dispute (Signed disputer) query_id timestamp (Some 0))) ;;;
    question (vote (Signed user) dispute_id (Some true)) ;;;
    question (vote (Signed reporter) dispute_id (Some false)) ;;;
    modify (set_time HOURS)) ;;;
  modify (set_time (12 * HOURS)) ;;;
  question weighed_hook.

End Benchmarks.
