(* ===== verification/PalletFacts.v ===== *)
(** * Invariants of the pallet

    The invariants of the oracle, of the stakes and of the disputes hold in every
    reachable state: the calls that do not touch a part are framed, the others
    preserve its invariant by the lemmas of its component. *)

From S2P Require Import Prelude Types Config Storage Oracle OracleFacts Queries Xcm Governance.
From S2P Require Import GovernanceFacts Staking StakingFacts Autopay Pallet.

Section Frames.
Context {T : Config}.
Implicit Types s : State.

(** What the three invariants read. *)
Definition stakes s :=
  (StakerDetails s, TotalStakeAmount s, TotalRewardDebt s, ToWithdraw s, TotalStakers s).
Definition core s := (st_oracle s, sys_now s, stakes s, dispute_parts s).

(** ** Computations without effect *)

Lemma keeps_do_get_reward_amount {X} (f : State -> X) i q t :
  keeps f (do_get_reward_amount i q t).
Proof. unfold do_get_reward_amount, price_change, price_change_between. solve_keeps. Qed.

Lemma keeps_search_tip {X} (f : State -> X) later :
  (forall m, keeps f (later m)) -> forall fuel a b, keeps f (search_tip fuel later a b).
Proof.
  intros Hl fuel. induction fuel as [|fuel IH]; intros a b; simpl.
  - intros s. reflexivity.
  - solve_keeps.
Qed.

Lemma keeps_tip_later {X} (f : State -> X) q t m : keeps f (tip_later q t m).
Proof. unfold tip_later. solve_keeps. Qed.
Lemma keeps_tip_later_or_missing {X} (f : State -> X) q t m :
  keeps f (tip_later_or_missing q t m).
Proof. unfold tip_later_or_missing. solve_keeps. Qed.

#[local] Hint Resolve keeps_do_get_reward_amount keeps_search_tip keeps_tip_later
  keeps_tip_later_or_missing : frame.

Lemma keeps_earlier_tips {X} (f : State -> X) q r t m a : keeps f (earlier_tips q r t m a).
Proof. unfold earlier_tips. solve_keeps. Qed.

#[local] Hint Resolve keeps_earlier_tips : frame.

(** ** Calls beside the three invariants *)

Lemma core_update_rewards : keeps core update_rewards.
Proof. unfold update_rewards. solve_keeps. Qed.

#[local] Hint Resolve core_update_rewards : frame.

Lemma core_do_add_staking_rewards a n : keeps core (do_add_staking_rewards a n).
Proof. unfold do_add_staking_rewards. solve_keeps. Qed.
Lemma core_accrue_user_tips a n : keeps core (accrue_user_tips a n).
Proof. unfold accrue_user_tips. solve_keeps. Qed.
Lemma core_store_data q d : keeps core (store_data q d).
Proof. unfold store_data. solve_keeps. Qed.
Lemma core_new_tip q n a c : keeps core (new_tip q n a c).
Proof. unfold new_tip. solve_keeps. Qed.

#[local] Hint Resolve core_do_add_staking_rewards core_accrue_user_tips core_store_data
  core_new_tip : frame.

Lemma core_pay_claim a n : keeps core (pay_claim a n).
Proof. unfold pay_claim. solve_keeps. Qed.
Lemma core_do_fund_feed a i q n : keeps core (do_fund_feed a i q n).
Proof. unfold do_fund_feed. solve_keeps. Qed.
Lemma core_claim_timestamp a i q b l c t : keeps core (claim_timestamp a i q b l c t).
Proof. unfold claim_timestamp. solve_keeps. Qed.
Lemma core_get_onetime_tip_amount q t a : keeps core (get_onetime_tip_amount q t a).
Proof. unfold get_onetime_tip_amount. solve_keeps. Qed.
Lemma core_send_contract_call c d g e : keeps core (send_contract_call c d g e).
Proof. unfold send_contract_call, bounded_input, transact, send_xcm. solve_keeps. Qed.
Lemma core_init_sub_accounts l : keeps core (init_sub_accounts l).
Proof. induction l as [|a l IH]; simpl; solve_keeps. Qed.
Lemma core_do_update_stake_amount : keeps core do_update_stake_amount.
Proof. unfold do_update_stake_amount. solve_keeps. Qed.
Lemma core_update_dispute_fee : keeps core update_dispute_fee.
Proof. unfold update_dispute_fee. solve_keeps. Qed.

#[local] Hint Resolve core_pay_claim core_do_fund_feed core_claim_timestamp
  core_get_onetime_tip_amount core_send_contract_call core_init_sub_accounts
  core_do_update_stake_amount core_update_dispute_fee : frame.

(** The calls that change none of the three parts. *)
Definition beside_core (c : PalletCall) : Prop :=
  match c with
  | c_register _ | c_claim_onetime_tip _ _ | c_claim_tip _ _ _ | c_fund_feed _ _ _
  | c_setup_data_feed _ _ _ _ _ _ _ _ _ | c_tip _ _ _ | c_add_staking_rewards _
  | c_update_stake_amount => True
  | _ => False
  end.

Lemma keeps_core origin c : beside_core c -> keeps core (call_body origin c).
Proof.
  destruct c; simpl; intros Hc; try done;
    unfold void, register, fee_location_get, fee_location_convert, claim_onetime_tip, claim_tip,
      fund_feed, setup_data_feed, tip, add_tip, add_staking_rewards, update_stake_amount;
    solve_keeps.
Qed.
End Frames.

Section MoreFrames.
Context {T : Config}.
Implicit Types s : State.

(** ** Reports of the staking contract leave the oracle and the disputes alone *)

Definition clock_disputes s := (st_oracle s, sys_now s, dispute_parts s).

#[local] Hint Resolve keeps_pending_reward_of : frame.

Lemma clock_disputes_update_rewards : keeps clock_disputes update_rewards.
Proof. unfold update_rewards. solve_keeps. Qed.

#[local] Hint Resolve clock_disputes_update_rewards : frame.

Lemma clock_disputes_update_stake a i n :
  keeps clock_disputes (update_stake_and_pay_rewards a i n).
Proof.
  unfold update_stake_and_pay_rewards, settle_stake, count_staker, enter_stake. solve_keeps.
Qed.

#[local] Hint Resolve clock_disputes_update_stake : frame.

Definition is_stake_report (c : PalletCall) : Prop :=
  match c with
  | c_report_stake_deposited _ _ _ | c_report_staking_withdraw_request _ _ _
  | c_report_stake_withdrawn _ _ | c_report_slash _ _ => True
  | _ => False
  end.

Lemma keeps_clock_disputes origin c : is_stake_report c ->
  keeps clock_disputes (call_body origin c).
Proof.
  destruct c; simpl; intros Hc; try done;
    unfold report_stake_deposited, report_staking_withdraw_request, report_stake_withdrawn,
      report_slash, slash_staker, restake, withdraw_sub; solve_keeps.
Qed.

(** ** Votes leave the oracle and the stakes alone *)

Definition clock_stakes s := (st_oracle s, sys_now s, stakes s).

Lemma clock_stakes_do_vote a i b : keeps clock_stakes (do_vote a i b).
Proof. unfold do_vote. solve_keeps. Qed.

#[local] Hint Resolve clock_stakes_do_vote : frame.

Lemma clock_stakes_vote_all a l : keeps clock_stakes (vote_all a l).
Proof. induction l as [|[i b] l IH]; simpl; solve_keeps. Qed.

Lemma clock_stakes_send_contract_call c d g e : keeps clock_stakes (send_contract_call c d g e).
Proof. unfold send_contract_call, bounded_input, transact, send_xcm. solve_keeps. Qed.

#[local] Hint Resolve clock_stakes_vote_all clock_stakes_send_contract_call : frame.

Lemma clock_stakes_send_vote i r : keeps clock_stakes (send_vote i r).
Proof. unfold send_vote. solve_keeps. Qed.

#[local] Hint Resolve clock_stakes_send_vote : frame.

Lemma clock_stakes_do_send_votes t n : keeps clock_stakes (do_send_votes t n).
Proof. unfold do_send_votes. solve_keeps. Qed.

Lemma clock_stakes_pay_rounds i r d v n l : keeps clock_stakes (pay_rounds i r d v n l).
Proof. induction l as [|k l IH]; simpl; solve_keeps. Qed.

#[local] Hint Resolve clock_stakes_do_send_votes clock_stakes_pay_rounds : frame.

Definition is_vote_call (c : PalletCall) : Prop :=
  match c with
  | c_vote _ _ | c_vote_on_multiple_disputes _ | c_send_votes _
  | c_report_vote_tallied _ _ | c_report_vote_executed _ => True
  | _ => False
  end.

Lemma keeps_clock_stakes origin c : is_vote_call c ->
  keeps clock_stakes (call_body origin c).
Proof.
  destruct c; simpl; intros Hc; try done;
    unfold void, vote, vote_on_multiple_disputes, send_votes, report_vote_tallied, tally_votes,
      report_vote_executed, execute_vote; solve_keeps.
Qed.

(** Every call is of one of these kinds, a report or a dispute. *)
Lemma call_kinds c :
  beside_core c \/ is_stake_report c \/ is_vote_call c \/
  (exists q v n d, c = c_submit_value q v n d) \/ (exists q t b, c = c_begin_dispute q t b).
Proof. destruct c; simpl; eauto 10. Qed.

Lemma core_update_prices t : keeps core (update_prices t).
Proof.
  apply keeps_transactional. pose proof core_do_update_stake_amount.
  pose proof core_update_dispute_fee. solve_keeps.
Qed.
End MoreFrames.

(** ** Steps, case by case *)

Section Steps.
Context {T : Config}.
Implicit Types s : State.

Lemma send_turns_no_Err l : forall n s e s', foldM send_turn n l s <> (Err e, s').
Proof.
  induction l as [|[id [r t]] l IH]; intros n s e s' H; cbn [foldM] in H; [done|].
  unfold bind at 1, send_turn at 1, bind, attempt in H.
  destruct (send_vote id r s) as [[] s1]; try done; by apply IH in H.
Qed.

(** [do_send_votes] never fails: the errors of the single votes are dropped. *)
Lemma do_send_votes_no_Err t n s e s' : do_send_votes t n s <> (Err e, s').
Proof. apply send_turns_no_Err. Qed.

Lemma on_initialize_run s r s' : on_initialize s = (r, s') -> r <> Panic ->
  exists s1 v, core s1 = core s /\
    do_send_votes (sys_now s) MAX_AGGREGATE_VOTES_SENT_PER_BLOCK s1 = (Ok v, s').
Proof.
  intros H Hr. unfold on_initialize in H. unfold_calls. rewrite !bind_gets in H.
  match type of H with bind ?m _ _ = _ =>
    assert (Hk : keeps core m)
      by (pose proof (core_update_prices (sys_now s)); solve_keeps);
    specialize (Hk s); unfold bind at 1 in H; destruct (m s) as [[c|e|] s1] eqn:Hm end;
    cbn [snd] in Hk; [| |congruence].
  - unfold bind, attempt, ret in H.
    destruct (do_send_votes (sys_now s) _ s1) as [[v|e|] s2] eqn:Hs; [| |congruence].
    { injection H as <- <-. by exists s1, v. }
    by apply do_send_votes_no_Err in Hs.
  - exfalso. destruct (update_due s); unfold bind, attempt, ret in Hm; [|done].
    destruct (update_prices (sys_now s) s) as [[] ?]; done.
Qed.

(** The hook updates the prices, or not, and then sends votes. *)
Lemma on_initialize_cases s r s' : on_initialize s = (r, s') -> r <> Panic ->
  exists s1 n m v, r = Ok (n, m, v) /\
    do_send_votes (sys_now s) MAX_AGGREGATE_VOTES_SENT_PER_BLOCK s1 = (Ok v, s') /\
    ((s1 = s /\ n = 0 /\ m = 0) \/ (update_due s = true /\ update_prices (sys_now s) s = (Ok (n, m), s1))).
Proof.
  intros H Hr. unfold on_initialize in H. unfold_calls. rewrite !bind_gets in H.
  assert (Hsend : forall (c : Z * Z) s1,
    (let* v := attempt (do_send_votes (sys_now s) MAX_AGGREGATE_VOTES_SENT_PER_BLOCK) in
     ret (fst c, snd c, default 0 v)) s1 = (r, s') ->
    exists v, r = Ok (fst c, snd c, v) /\
      do_send_votes (sys_now s) MAX_AGGREGATE_VOTES_SENT_PER_BLOCK s1 = (Ok v, s')).
  { intros c s1 Hs. unfold bind, attempt, ret in Hs.
    destruct (do_send_votes (sys_now s) _ s1) as [[v|e|] s2] eqn:Hv; [| |congruence].
    - injection Hs as <- <-. by exists v.
    - by apply do_send_votes_no_Err in Hv. }
  destruct (update_due s) eqn:Hdue.
  - unfold bind at 1, bind at 1, attempt at 1 in H.
    destruct (update_prices (sys_now s) s) as [[[n m]|e|] s1] eqn:Hu; cbn [ret] in H;
      [| |congruence].
    + apply (Hsend (n, m)) in H as (v & -> & Hv). exists s1, n, m, v. eauto.
    + apply transactional_Err in Hu as ->. apply (Hsend (0, 0)) in H as (v & -> & Hv).
      exists s, 0, 0, v. eauto 10.
  - apply (Hsend (0, 0)) in H as (v & -> & Hv). exists s, 0, 0, v. eauto 10.
Qed.

(** A step is nothing, a successful call, the hook, the clock or other assets. *)
Lemma step_cases s s' : step s s' ->
  s' = s \/
  (exists origin c u, call_ok c /\ call_body origin c s = (Ok u, s')) \/
  (exists s1 v, core s1 = core s /\
     do_send_votes (sys_now s) MAX_AGGREGATE_VOTES_SENT_PER_BLOCK s1 = (Ok v, s')) \/
  (core s' = (st_oracle s, sys_now s', stakes s, dispute_parts s) /\
   sys_now s <= sys_now s').
Proof.
  intros [x origin c r y Hc Hd Hr|x r y Hi Hr|x t b Ht|x a].
  - unfold dispatch in Hd. destruct r as [u|e|]; [| |done].
    + apply transactional_Ok in Hd. right. left. eauto.
    + apply transactional_Err in Hd. by left.
  - right. right. left. by eapply on_initialize_run.
  - right. right. right. split; [done|]. simpl. lia.
  - right. right. right. split; [done|]. simpl. lia.
Qed.

(** The time only grows, and starts in its width. *)
Lemma call_now origin c s u s' : call_body origin c s = (Ok u, s') -> sys_now s' = sys_now s.
Proof.
  intros H. destruct (call_kinds c) as [Hc|[Hc|[Hc|[(q & v & n & d & ->)|(q & t & b & ->)]]]].
  - pose proof (keeps_run _ _ _ _ _ (keeps_core origin c Hc) H) as Hk.
    unfold core in Hk. by split_pairs.
  - pose proof (keeps_run _ _ _ _ _ (keeps_clock_disputes origin c Hc) H) as Hk.
    unfold clock_disputes in Hk. by split_pairs.
  - pose proof (keeps_run _ _ _ _ _ (keeps_clock_stakes origin c Hc) H) as Hk.
    unfold clock_stakes in Hk. by split_pairs.
  - apply submit_value_Ok in H as (who & st & _ & Hs). by rewrite (sb_effect _ _ _ _ _ _ _ _ Hs).
  - unfold call_body, void in H. cinv.
    match goal with H : begin_dispute _ _ _ _ _ = _ |- _ =>
      apply begin_dispute_Ok in H as (? & ? & ? & ? & ? & _ & Hd) end.
    apply (ds_now _ _ _ _ _ _ _ _ _ Hd).
Qed.

Lemma step_now s s' : step s s' -> sys_now s <= sys_now s'.
Proof.
  intros Hs. destruct (step_cases _ _ Hs)
    as [->|[(o & c & u & _ & H)|[(s1 & v & Hk & H)|[_ H]]]]; [done| | |done].
  - by rewrite (call_now _ _ _ _ _ H).
  - apply do_send_votes_Ok in H as [_ H]. pose proof (sa_beside _ _ _ H).
    unfold core in Hk. split_pairs. lia.
Qed.

Lemma reachable_now s : reachable s -> 0 <= sys_now s.
Proof.
  revert s. apply reachable_ind_inv; [simpl; lia|].
  intros s s' _ H0 Hs. apply step_now in Hs. lia.
Qed.
End Steps.

(** ** The invariants of reachable states *)

(** Replace the parts of a state that a step left alone. *)
Ltac rewrite_state :=
  repeat match goal with H : ?f ?x = ?f ?y |- _ => rewrite H; clear H end.

Section Invariants.
Context {T : Config} {Ok_T : ConfigOk T}.
Implicit Types s : State.

(** *** The oracle *)

(** Removing a value, in a state with the same reports. *)
Lemma disputed_oracle s s' who q ts n e v d : oracle_wf s (sys_now s) ->
  disputed s s' who q ts n e v d ->
  oracle_wf s' (sys_now s') /\ ReportedTimestampCount s' = ReportedTimestampCount s.
Proof.
  intros Hwf Hd. rewrite (ds_now _ _ _ _ _ _ _ _ _ Hd). destruct (Z.eq_dec n 1) as [Hn|Hn].
  - apply (ds_first _ _ _ _ _ _ _ _ _ Hd) in Hn
      as (_&_&_&_&_&_&_&_&_&_& it & s1 & s2 & Hrun & E1 & E2 & E3).
    rewrite <- E1 in Hwf. rewrite E3.
    destruct (remove_value_Ok q ts (sys_now s) s1 it s2 (Hwf q) Hrun) as (r & Hrm & _).
    rewrite <- E1. split; [by eapply removed_wf|]. apply (rm_count _ _ _ _ _ Hrm).
  - apply (ds_next _ _ _ _ _ _ _ _ _ Hd) in Hn as (_&_&_&_&_&_& ->). done.
Qed.

Lemma call_oracle origin c s u s' : 0 <= sys_now s -> oracle_wf s (sys_now s) ->
  (forall q, report_count s q < u32_max) -> call_body origin c s = (Ok u, s') ->
  oracle_wf s' (sys_now s').
Proof.
  intros Hnow Hwf Hroom H.
  destruct (call_kinds c) as [Hc|[Hc|[Hc|[(q & v & n & d & ->)|(q & t & b & ->)]]]].
  - pose proof (keeps_run _ _ _ _ _ (keeps_core origin c Hc) H) as Hk.
    unfold core in Hk. split_pairs. by rewrite_state.
  - pose proof (keeps_run _ _ _ _ _ (keeps_clock_disputes origin c Hc) H) as Hk.
    unfold clock_disputes in Hk. split_pairs. by rewrite_state.
  - pose proof (keeps_run _ _ _ _ _ (keeps_clock_stakes origin c Hc) H) as Hk.
    unfold clock_stakes in Hk. split_pairs. by rewrite_state.
  - by eapply submit_value_wf.
  - unfold call_body, void in H. cinv.
    match goal with H : begin_dispute _ _ _ _ _ = _ |- _ =>
      apply begin_dispute_Ok in H as (? & ? & ? & ? & ? & _ & Hd) end.
    by eapply disputed_oracle.
Qed.

Lemma keeps_count_loop q p l : forall it,
  keeps (fun s => ReportedTimestampCount s) (remove_value_loop q p l it).
Proof. induction l as [|i l IH]; intros it; simpl; solve_keeps. Qed.

#[local] Hint Resolve keeps_count_loop : frame.

Lemma keeps_count_remove q ts : keeps (fun s => ReportedTimestampCount s) (remove_value q ts).
Proof. unfold remove_value. solve_keeps. Qed.

Lemma disputed_count s s' who q ts n e v d : disputed s s' who q ts n e v d ->
  ReportedTimestampCount s' = ReportedTimestampCount s.
Proof.
  intros Hd. destruct (Z.eq_dec n 1) as [Hn|Hn].
  - apply (ds_first _ _ _ _ _ _ _ _ _ Hd) in Hn
      as (_&_&_&_&_&_&_&_&_&_& it & s1 & s2 & Hrun & E1 & E2 & E3).
    apply (keeps_run _ _ _ _ _ (keeps_count_remove q ts)) in Hrun. congruence.
  - apply (ds_next _ _ _ _ _ _ _ _ _ Hd) in Hn as (_&_&_&_&_&_& ->). done.
Qed.

(** The number of reports of a query never shrinks. *)
Lemma call_count origin c s u s' q : call_body origin c s = (Ok u, s') ->
  report_count s q <= u32_max -> report_count s q <= report_count s' q.
Proof.
  intros H Hle. unfold report_count in *.
  destruct (call_kinds c) as [Hc|[Hc|[Hc|[(q' & v & n & d & ->)|(q' & t & b & ->)]]]].
  - pose proof (keeps_run _ _ _ _ _ (keeps_core origin c Hc) H) as Hk.
    unfold core in Hk. split_pairs. apply Z.eq_le_incl. congruence.
  - pose proof (keeps_run _ _ _ _ _ (keeps_clock_disputes origin c Hc) H) as Hk.
    unfold clock_disputes in Hk. split_pairs. apply Z.eq_le_incl. congruence.
  - pose proof (keeps_run _ _ _ _ _ (keeps_clock_stakes origin c Hc) H) as Hk.
    unfold clock_stakes in Hk. split_pairs. apply Z.eq_le_incl. congruence.
  - apply submit_value_Ok in H as (who & st & _ & Hs). rewrite (sb_effect _ _ _ _ _ _ _ _ Hs).
    simpl. unfold value_or_zero at 2. rewrite lookup_insert. goal_decide; [|done].
    subst. simpl. unfold report_count, saturating_add in *. lia.
  - unfold call_body, void in H. cinv.
    match goal with H : begin_dispute _ _ _ _ _ = _ |- _ =>
      apply begin_dispute_Ok in H as (who & n & e & v & d & _ & Hd) end.
    by rewrite (disputed_count _ _ _ _ _ _ _ _ _ Hd).
Qed.

(** The storage of the oracle is well formed, as long as no query has used up
    its indices. *)
Definition oracle_inv s : Prop :=
  (forall q, report_count s q <= u32_max) /\
  ((forall q, report_count s q < u32_max) -> oracle_wf s (sys_now s)).

Lemma call_count_max origin c s u s' q : call_body origin c s = (Ok u, s') ->
  report_count s q <= u32_max -> report_count s' q <= u32_max.
Proof.
  intros H Hle. unfold report_count in *.
  destruct (call_kinds c) as [Hc|[Hc|[Hc|[(q' & v & n & d & ->)|(q' & t & b & ->)]]]].
  - pose proof (keeps_run _ _ _ _ _ (keeps_core origin c Hc) H) as Hk.
    unfold core in Hk. split_pairs. congruence.
  - pose proof (keeps_run _ _ _ _ _ (keeps_clock_disputes origin c Hc) H) as Hk.
    unfold clock_disputes in Hk. split_pairs. congruence.
  - pose proof (keeps_run _ _ _ _ _ (keeps_clock_stakes origin c Hc) H) as Hk.
    unfold clock_stakes in Hk. split_pairs. congruence.
  - apply submit_value_Ok in H as (who & st & _ & Hs). rewrite (sb_effect _ _ _ _ _ _ _ _ Hs).
    simpl. unfold value_or_zero at 1. rewrite lookup_insert. goal_decide; [|done].
    subst. simpl. unfold saturating_add. lia.
  - unfold call_body, void in H. cinv.
    match goal with H : begin_dispute _ _ _ _ _ = _ |- _ =>
      apply begin_dispute_Ok in H as (who & n & e & v & d & _ & Hd) end.
    by rewrite (disputed_count _ _ _ _ _ _ _ _ _ Hd).
Qed.

(** The hook leaves the oracle and the stakes alone. *)
Lemma hook_clock_stakes s s1 v s' : core s1 = core s ->
  do_send_votes (sys_now s) MAX_AGGREGATE_VOTES_SENT_PER_BLOCK s1 = (Ok v, s') ->
  clock_stakes s' = clock_stakes s.
Proof.
  intros Hk H. apply (keeps_run _ _ _ _ _ (clock_stakes_do_send_votes _ _)) in H.
  rewrite H. unfold core in Hk. unfold clock_stakes. split_pairs. congruence.
Qed.

Lemma genesis_oracle_wf t a : 0 <= t -> oracle_wf (genesis t a) t.
Proof.
  intros Ht q. split; unfold report_count, ts_at, report_at, value_or_zero; simpl;
    rewrite ?lookup_empty; simpl; try done.
  - intros i. rewrite lookup_empty. split; [by intros []|lia].
  - intros i Hi. lia.
  - intros u. rewrite !lookup_empty. split; [by intros []|by intros (? & ? & ?)].
Qed.

Lemma oracle_inv_reachable s : reachable s -> oracle_inv s.
Proof.
  revert s. apply reachable_ind_inv.
  - intros t a Ht. split; [|intros _; apply (genesis_oracle_wf t a); lia].
    intros q. unfold report_count, value_or_zero. simpl. by rewrite lookup_empty.
  - intros s s' Hreach [Hmax Hwf] Hs.
    destruct (step_cases _ _ Hs) as [->|[(o & c & u & _ & H)|[(s1 & v & Hk & H)|[Hk Hle]]]];
      [done| | |].
    + split; [intros q; by eapply call_count_max|]. intros Hroom.
      assert (Hroom' : forall q, report_count s q < u32_max).
      { intros q. eapply Z.le_lt_trans; [by eapply call_count|done]. }
      eapply call_oracle; [by apply reachable_now|by apply Hwf|done|done].
    + apply (hook_clock_stakes _ _ _ _ Hk) in H. unfold clock_stakes in H. split_pairs.
      split; rewrite_state; done.
    + unfold core in Hk. split_pairs. split; [by rewrite_state|].
      intros Hroom q. match goal with H : st_oracle s' = _ |- _ => rewrite H in * end.
      eapply query_wf_clock; [|by apply Hwf]. done.
Qed.

(** *** The stakes *)

Lemma staking_wf_stakes s s' : stakes s' = stakes s -> staking_wf s -> staking_wf s'.
Proof.
  unfold stakes, staking_wf. intros H. split_pairs. by rewrite_state.
Qed.

(** A report changes the reporter's counters, not its stake. *)
Lemma submitted_staking s s' who q v n qd st : staking_wf s ->
  submitted s s' who q v n qd st -> staking_wf s'.
Proof.
  intros Hwf Hs. rewrite (sb_effect _ _ _ _ _ _ _ _ Hs). unfold staking_wf. simpl.
  pose proof (sb_staker _ _ _ _ _ _ _ _ Hs) as Hst.
  pose proof (to_stakers _ _ _ _ _ Hwf _ _ Hst) as [].
  eapply totals_ok_insert; [exact Hwf|..]; rewrite ?(of_staker_lookup _ _ _ _ Hst); simpl;
    try lia.
  - by split.
  - pose proof (to_withdraw _ _ _ _ _ Hwf). lia.
  - apply (to_stakers_nonneg _ _ _ _ _ Hwf).
  - match goal with |- context [counted ?x] => change (counted x) with (counted st) end. lia.
Qed.

Lemma call_staking origin c s u s' : call_ok c -> staking_wf s ->
  call_body origin c s = (Ok u, s') -> staking_wf s'.
Proof.
  intros Hok Hwf H.
  destruct (call_kinds c) as [Hc|[Hc|[Hc|[(q & v & n & d & ->)|(q & t & b & ->)]]]].
  - pose proof (keeps_run _ _ _ _ _ (keeps_core origin c Hc) H) as Hk.
    unfold core in Hk. split_pairs. by eapply staking_wf_stakes.
  - destruct c; simpl in *; try done.
    + apply report_stake_deposited_wf in H; [exact H|exact Hwf|lia].
    + apply report_staking_withdraw_request_wf in H; [exact H|exact Hwf|lia].
    + apply report_stake_withdrawn_wf in H; [exact H|exact Hwf|lia].
    + apply report_slash_wf in H; [exact H|exact Hwf|lia].
  - pose proof (keeps_run _ _ _ _ _ (keeps_clock_stakes origin c Hc) H) as Hk.
    unfold clock_stakes in Hk. split_pairs. by eapply staking_wf_stakes.
  - apply submit_value_Ok in H as (who & st & _ & Hs). by eapply submitted_staking.
  - unfold call_body, void in H. cinv.
    match goal with H : begin_dispute _ _ _ _ _ = _ |- _ =>
      apply begin_dispute_Ok in H as (? & ? & ? & ? & ? & _ & Hd) end.
    unfold staking_wf. by rewrite (ds_staking _ _ _ _ _ _ _ _ _ Hd).
Qed.

Lemma staking_wf_reachable s : reachable s -> staking_wf s.
Proof.
  revert s. apply reachable_ind_inv.
  - intros t a Ht. unfold staking_wf. simpl. split; try done.
  - intros s s' Hreach Hwf Hs.
    destruct (step_cases _ _ Hs) as [->|[(o & c & u & Hc & H)|[(s1 & v & Hk & H)|[Hk Hle]]]];
      [done| | |].
    + by eapply call_staking.
    + apply (hook_clock_stakes _ _ _ _ Hk) in H. unfold clock_stakes in H. split_pairs.
      by eapply staking_wf_stakes.
    + unfold core in Hk. split_pairs. by eapply staking_wf_stakes.
Qed.

(** *** The disputes *)

Lemma vote_all_wf who l : forall s u s', disputes_wf s ->
  vote_all who l s = (Ok u, s') -> disputes_wf s'.
Proof.
  induction l as [|[id b] l IH]; intros s u s' Hwf H; simpl in H; [by cinv|].
  cinv. match goal with H : do_vote _ _ _ _ = _ |- _ => apply do_vote_Ok in H as [v Hv] end.
  eapply IH; [|done]. by eapply voted_wf.
Qed.

Lemma call_disputes origin c s u s' : disputes_wf s ->
  call_body origin c s = (Ok u, s') -> disputes_wf s'.
Proof.
  intros Hwf H.
  destruct (call_kinds c) as [Hc|[Hc|[Hc|[(q & v & n & d & ->)|(q & t & b & ->)]]]].
  - pose proof (keeps_run _ _ _ _ _ (keeps_core origin c Hc) H) as Hk.
    unfold core in Hk. split_pairs. by eapply disputes_wf_parts.
  - pose proof (keeps_run _ _ _ _ _ (keeps_clock_disputes origin c Hc) H) as Hk.
    unfold clock_disputes in Hk. split_pairs. by eapply disputes_wf_parts.
  - destruct c; simpl in *; try done;
      unfold void, vote, vote_on_multiple_disputes, send_votes, report_vote_tallied,
        report_vote_executed in H; cinv.
    + apply do_vote_Ok in H as [v Hv]. by eapply voted_wf.
    + by eapply vote_all_wf.
    + match goal with H : do_send_votes _ _ _ = _ |- _ => apply do_send_votes_Ok in H as [_ Hs] end.
      by apply (sa_wf _ _ _ Hs).
    + apply tally_votes_Ok in H as (v & d & Ht). by eapply tallied_wf.
    + match goal with H : execute_vote _ _ = _ |- _ => apply execute_vote_Ok in H as (r & v & d & Hx) end.
      by eapply executed_wf.
  - apply submit_value_Ok in H as (who & st & _ & Hs).
    eapply disputes_wf_parts; [|exact Hwf]. by rewrite (sb_effect _ _ _ _ _ _ _ _ Hs).
  - unfold call_body, void in H. cinv.
    match goal with H : begin_dispute _ _ _ _ _ = _ |- _ =>
      apply begin_dispute_Ok in H as (? & ? & ? & ? & ? & _ & Hd) end.
    by eapply disputed_wf.
Qed.

Lemma disputes_wf_reachable s : reachable s -> disputes_wf s.
Proof.
  revert s. apply reachable_ind_inv.
  - intros t a Ht id. split; unfold rounds, value_or_zero; simpl; rewrite ?lookup_empty; simpl.
    + done.
    + intros r. rewrite lookup_empty. split; [by intros []|lia].
    + split; [by intros []|lia].
    + done.
    + done.
  - intros s s' Hreach Hwf Hs.
    destruct (step_cases _ _ Hs) as [->|[(o & c & u & Hc & H)|[(s1 & v & Hk & H)|[Hk Hle]]]];
      [done| | |].
    + by eapply call_disputes.
    + apply do_send_votes_Ok in H as [_ H]. apply (sa_wf _ _ _ H).
      unfold core in Hk. split_pairs. by eapply disputes_wf_parts.
    + unfold core in Hk. split_pairs. by eapply disputes_wf_parts.
Qed.
End Invariants.
