(* ===== verification/AccountFacts.v ===== *)
(** * What is taken from an account

    A call takes from an account of the pallet only when it pays from it: claims take
    from the one for tips, the execution of a vote from the one for dispute fees, a report
    on a stake from the one for rewards.  The steps of a chain in which nobody else takes
    from the account ([guarded_step]). *)

From S2P Require Import Prelude Types Config Storage RunLogic Oracle OracleFacts Queries Xcm.
From S2P Require Import Governance GovernanceFacts Staking StakingFacts Autopay Pallet PalletFacts.

(** ** Calls that take nothing from an account *)

Section Kept.
Context {T : Config} {A_laws : AssetLaws cfg_Asset} (acct : AccountId).
Implicit Types s : State.

(** The account has at least [b]. *)
Definition holds (b : Balance) s : Prop := b <= asset_balance (sys_assets s) acct.

Definition takes_none {A} (m : Call A) : Prop := forall b, safe (holds b) True m.

(** A transfer from another account. *)
Lemma transfer_holds a a' src dst n p : src <> acct ->
  asset_transfer a src dst n p = inr a' -> asset_balance a acct <= asset_balance a' acct.
Proof.
  intros Hsrc H. destruct (decide (dst = acct)) as [->|Hdst].
  - rewrite (transfer_dst _ _ _ _ _ _ H) by done.
    pose proof (transfer_funds _ _ _ _ _ _ H). lia.
  - by eapply transfer_other.
Qed.

Lemma wp_transfer_other b src dst n p Q s : src <> acct -> holds b s ->
  (forall s', holds b s' -> Q tt s') -> wp (holds b) True (transfer src dst n p) Q s.
Proof.
  intros Hsrc Hs HQ. unfold wp, transfer.
  destruct (asset_transfer _ _ _ _ _) as [e|a] eqn:H; [done|].
  apply HQ. pose proof (transfer_holds _ _ _ _ _ _ Hsrc H). unfold holds in *. simpl. lia.
Qed.

Lemma wp_signed_other b o Q s : o <> Signed acct -> holds b s ->
  (forall who, who <> acct -> Q who s) -> wp (holds b) True (ensure_signed o) Q s.
Proof.
  intros Ho Hs HQ. destruct o as [who| | |]; try exact Hs. apply wp_ret, HQ. congruence.
Qed.

Lemma wp_panics b {A} Q s : wp (holds b) True (@panic _ _ A) Q s.
Proof. exact I. Qed.

(** A write of something else. *)
Ltac holds_same :=
  match goal with H : holds ?b _ |- holds ?b _ => exact H end.

Ltac kept_step :=
  lazymatch goal with
  | |- takes_none _ => intros ?b ?s ?Hs
  | |- wp _ _ (transfer _ _ _ _) _ _ => apply wp_transfer_other; [assumption| |intros ?s ?Hs]
  | |- wp _ _ (ensure_signed _) _ _ => apply wp_signed_other; [assumption| |intros ?who ?Hw]
  | |- wp _ _ panic _ _ => apply wp_panics
  | |- wp _ _ (expect _) _ _ => apply wp_expect_any; [exact I|intros ?a ?Ha]
  | |- _ => wp_step_with ltac:(idtac; holds_same)
  end; cbv beta zeta.

Ltac solve_kept := unfold_calls; cbv zeta; repeat kept_step.

Context (Hpallet : pallet_account <> acct).

Lemma kept_safe {A} (m : Call A) b : takes_none m -> safe (holds b) True m.
Proof. auto. Qed.

#[local] Hint Resolve kept_safe : safe.

Lemma kept_remove_value_loop q p l : forall it, takes_none (remove_value_loop q p l it).
Proof. induction l as [|i l IH]; intros it; simpl; solve_kept. Qed.
Lemma kept_init_sub_accounts l : takes_none (init_sub_accounts l).
Proof. induction l as [|a l IH]; simpl; solve_kept. Qed.
Lemma kept_send_contract_call c d g e : takes_none (send_contract_call c d g e).
Proof. unfold send_contract_call, bounded_input, transact, send_xcm. solve_kept. Qed.
Lemma kept_pay_rounds i r d v n l : dispute_fees <> acct -> takes_none (pay_rounds i r d v n l).
Proof. intros Hf. induction l as [|k l IH]; simpl; solve_kept. Qed.
Lemma kept_do_vote a i v : takes_none (do_vote a i v).
Proof. unfold do_vote. solve_kept. Qed.
Lemma kept_convert_to_decimals a d : takes_none (convert_to_decimals a d).
Proof. unfold convert_to_decimals. solve_kept. Qed.
Lemma kept_read_price q e : takes_none (read_price q e).
Proof. unfold read_price. solve_kept. Qed.
Lemma kept_rate_over_30_days b a : takes_none (rate_over_30_days b a).
Proof. unfold rate_over_30_days. solve_kept. Qed.

#[local] Hint Resolve kept_remove_value_loop kept_init_sub_accounts kept_send_contract_call
  kept_pay_rounds kept_do_vote kept_convert_to_decimals kept_read_price
  kept_rate_over_30_days : safe.

Lemma kept_convert a : takes_none (convert a).
Proof. unfold convert. solve_kept. Qed.
Lemma kept_unit_of_balance : takes_none unit_of_balance.
Proof. unfold unit_of_balance. solve_kept. Qed.
Lemma kept_reward_on a b c : takes_none (reward_on a b c).
Proof. unfold reward_on. solve_kept. Qed.

#[local] Hint Resolve kept_convert kept_unit_of_balance kept_reward_on : safe.

Lemma kept_calculate_dispute_fee p : takes_none (calculate_dispute_fee p).
Proof. unfold calculate_dispute_fee. solve_kept. Qed.
Lemma kept_reward_less_debt a b c d : takes_none (reward_less_debt a b c d).
Proof. unfold reward_less_debt. solve_kept. Qed.
Lemma kept_participation a b c : takes_none (participation a b c).
Proof. unfold participation. solve_kept. Qed.

#[local] Hint Resolve kept_calculate_dispute_fee kept_reward_less_debt kept_participation : safe.

Lemma kept_update_rewards : takes_none update_rewards.
Proof. unfold update_rewards. solve_kept. Qed.
Lemma kept_pending_reward_of a i u : takes_none (pending_reward_of a i u).
Proof. unfold pending_reward_of. solve_kept. Qed.
Lemma kept_enter_stake i u : takes_none (enter_stake i u).
Proof. unfold enter_stake. solve_kept. Qed.
Lemma kept_count_staker i : takes_none (count_staker i).
Proof. unfold count_staker. solve_kept. Qed.
Lemma kept_withdraw_sub n : takes_none (withdraw_sub n).
Proof. unfold withdraw_sub. solve_kept. Qed.
Lemma kept_do_update_stake_amount : takes_none do_update_stake_amount.
Proof. unfold do_update_stake_amount. solve_kept. Qed.
Lemma kept_update_dispute_fee : takes_none update_dispute_fee.
Proof. unfold update_dispute_fee. solve_kept. Qed.
Lemma kept_send_vote i r : takes_none (send_vote i r).
Proof. unfold send_vote. solve_kept. Qed.
Lemma kept_vote_all a l : takes_none (vote_all a l).
Proof. induction l as [|[i b] l IH]; simpl; solve_kept. Qed.
Lemma kept_remove_value q t : takes_none (remove_value q t).
Proof. unfold remove_value. solve_kept. Qed.

#[local] Hint Resolve kept_update_rewards kept_pending_reward_of kept_enter_stake
  kept_count_staker kept_withdraw_sub kept_do_update_stake_amount kept_update_dispute_fee
  kept_send_vote kept_vote_all kept_remove_value : safe.

Lemma kept_settle_stake a i u : staking_rewards <> acct -> takes_none (settle_stake a i u).
Proof. unfold settle_stake. intros Hr. solve_kept. Qed.
Lemma kept_do_add_staking_rewards a n : a <> acct -> takes_none (do_add_staking_rewards a n).
Proof. unfold do_add_staking_rewards. intros Ha. solve_kept. Qed.
Lemma kept_do_send_votes t n : takes_none (do_send_votes t n).
Proof. unfold do_send_votes. solve_kept. Qed.
Lemma kept_update_prices t : takes_none (update_prices t).
Proof. unfold update_prices. solve_kept. Qed.

#[local] Hint Resolve kept_settle_stake kept_do_add_staking_rewards kept_do_send_votes
  kept_update_prices : safe.

Lemma kept_update_stake a i n : staking_rewards <> acct ->
  takes_none (update_stake_and_pay_rewards a i n).
Proof. unfold update_stake_and_pay_rewards. intros Hr. solve_kept. Qed.

#[local] Hint Resolve kept_update_stake : safe.

Lemma kept_on_initialize : takes_none on_initialize.
Proof. unfold on_initialize. solve_kept. Qed.

Lemma kept_accrue_user_tips a n : takes_none (accrue_user_tips a n).
Proof. unfold accrue_user_tips. solve_kept. Qed.
Lemma kept_store_data q d : takes_none (store_data q d).
Proof. unfold store_data. solve_kept. Qed.
Lemma kept_new_tip q n a c : takes_none (new_tip q n a c).
Proof. unfold new_tip. solve_kept. Qed.

#[local] Hint Resolve kept_accrue_user_tips kept_store_data kept_new_tip : safe.

Lemma kept_pay_claim a n : tips <> acct -> takes_none (pay_claim a n).
Proof. unfold pay_claim. intros Ht. solve_kept. Qed.
Lemma kept_do_get_reward_amount i q t : takes_none (do_get_reward_amount i q t).
Proof. unfold do_get_reward_amount, price_change, price_change_between. solve_kept. Qed.
Lemma kept_tip_later q t m : takes_none (tip_later q t m).
Proof. unfold tip_later. solve_kept. Qed.
Lemma kept_tip_later_or_missing q t m : takes_none (tip_later_or_missing q t m).
Proof. unfold tip_later_or_missing. solve_kept. Qed.
Lemma kept_search_tip later : (forall m, takes_none (later m)) ->
  forall fuel a b, takes_none (search_tip fuel later a b).
Proof. intros Hl fuel. induction fuel as [|fuel IH]; intros a b; simpl; solve_kept. Qed.

#[local] Hint Resolve kept_pay_claim kept_do_get_reward_amount kept_tip_later
  kept_tip_later_or_missing kept_search_tip : safe.

Lemma kept_earlier_tips q r t m n : takes_none (earlier_tips q r t m n).
Proof. unfold earlier_tips. solve_kept. Qed.
Lemma kept_claim_timestamp a i q b l c t : takes_none (claim_timestamp a i q b l c t).
Proof. unfold claim_timestamp. solve_kept. Qed.

#[local] Hint Resolve kept_earlier_tips kept_claim_timestamp : safe.

Lemma kept_get_onetime_tip_amount q t a : takes_none (get_onetime_tip_amount q t a).
Proof. unfold get_onetime_tip_amount. solve_kept. Qed.

#[local] Hint Resolve kept_get_onetime_tip_amount : safe.

Lemma kept_add_tip q a d : takes_none (add_tip q a d).
Proof. unfold add_tip. solve_kept. Qed.
Lemma kept_do_fund_feed a i q n : a <> acct -> takes_none (do_fund_feed a i q n).
Proof. unfold do_fund_feed. intros Ha. solve_kept. Qed.

#[local] Hint Resolve kept_add_tip kept_do_fund_feed : safe.

(** The account that pays for a call, when it is not the one that signed it. *)
Definition payer (c : PalletCall) : option AccountId :=
  match c with
  | c_claim_onetime_tip _ _ | c_claim_tip _ _ _ => Some tips
  | c_report_vote_executed _ => Some dispute_fees
  | c_report_stake_deposited _ _ _ | c_report_staking_withdraw_request _ _ _
  | c_report_slash _ _ => Some staking_rewards
  | _ => None
  end.

Lemma kept_call origin c : payer c <> Some acct -> origin <> Signed acct ->
  takes_none (call_body origin c).
Proof.
  intros Hc Ho. destruct c; cbn [call_body payer] in *;
    try (assert (tips <> acct) by congruence);
    try (assert (dispute_fees <> acct) by congruence);
    try (assert (staking_rewards <> acct) by congruence);
    unfold void, register, fee_location_get, fee_location_convert, add_staking_rewards,
      submit_value, update_stake_amount, begin_dispute, begin_first_round, begin_next_round,
      vote, vote_on_multiple_disputes, send_votes, report_stake_deposited,
      report_staking_withdraw_request, report_stake_withdrawn, report_slash, slash_staker,
      restake, report_vote_tallied, tally_votes, report_vote_executed, execute_vote,
      fund_feed, setup_data_feed, tip, claim_tip, claim_onetime_tip; solve_kept.
Qed.
End Kept.

(** ** Runs *)

Section Runs.
Context {T : Config} (acct : AccountId).
Implicit Types s : State.

(** The steps of a chain in which nothing but the pallet takes from the account:
    no call is signed by it, and what other pallets do leaves it as much. *)
Inductive guarded_step : State -> State -> Prop :=
| guarded_call s origin c r s' :
    origin <> Signed acct -> call_ok c -> dispatch origin c s = (r, s') -> r <> Panic ->
    guarded_step s s'
| guarded_initialize s r s' :
    on_initialize s = (r, s') -> r <> Panic -> guarded_step s s'
| guarded_time s t b :
    sys_now s <= t <= u64_max ->
    guarded_step s (upd_sys_block_number (fun _ => b) (upd_sys_now (fun _ => t) s))
| guarded_assets s a :
    asset_balance (sys_assets s) acct <= asset_balance a acct ->
    guarded_step s (upd_sys_assets (fun _ => a) s).

Lemma guarded_is_step s s' : guarded_step s s' -> step s s'.
Proof.
  destruct 1; [by eapply step_call|by eapply step_initialize|by apply step_time|by apply step_assets].
Qed.

Lemma guarded_reachable s s' : reachable s -> rtc guarded_step s s' -> reachable s'.
Proof.
  intros Hs Hrun. induction Hrun as [|x y z Hxy _ IH]; [done|].
  apply IH. eapply reachable_step; [exact Hs|by apply guarded_is_step].
Qed.
End Runs.

(** ** A debt that is covered *)

Section Covered.
Context {T : Config} {A_laws : AssetLaws cfg_Asset} (acct : AccountId) (debt : State -> Balance).
Context (Hpallet : pallet_account <> acct).
Implicit Types s : State.

(** The account has what is owed from it, beside the minimum that keeps it alive. *)
Definition covered s : Prop := minimum_balance + debt s <= asset_balance (sys_assets s) acct.

(** What takes nothing and owes nothing more. *)
Lemma takes_none_covered {A} (m : Call A) r s s' : takes_none acct m ->
  debt s' = debt s -> m s = (r, s') -> r <> Panic -> covered s -> covered s'.
Proof.
  intros Hm Hd H Hr Hs. specialize (Hm (asset_balance (sys_assets s) acct) s (Z.le_refl _)).
  unfold wp, holds in Hm. rewrite H in Hm.
  assert (asset_balance (sys_assets s) acct <= asset_balance (sys_assets s') acct)
    by (destruct r as [a|e|]; [exact Hm..|done]).
  unfold covered in *. rewrite Hd. lia.
Qed.

(** A debt that only calls change, and that they keep covered, is covered by a run,
    given what holds of its states. *)
Lemma covered_run (P : State -> Prop) :
  (forall s s', reachable s -> step s s' -> P s' -> P s) ->
  (forall s t b, debt (upd_sys_block_number (fun _ => b) (upd_sys_now (fun _ => t) s)) = debt s) ->
  (forall s a, debt (upd_sys_assets (fun _ => a) s) = debt s) ->
  (forall s r s', reachable s -> on_initialize s = (r, s') -> r <> Panic -> debt s' = debt s) ->
  (forall origin c s u s', reachable s -> reachable s' -> P s' -> origin <> Signed acct ->
     call_ok c -> call_body origin c s = (Ok u, s') -> covered s -> covered s') ->
  forall s s', reachable s -> rtc (guarded_step acct) s s' -> P s' -> covered s -> covered s'.
Proof.
  intros HP Ht Ha Hi Hc s s' Hs Hrun HPs.
  enough ((covered s -> covered s') /\ P s) as [H _] by done. revert Hs.
  induction Hrun as [s|s s1 s' Hstep Hrun IH]; intros Hs; [done|].
  pose proof (guarded_is_step _ _ _ Hstep) as Hst. pose proof (reachable_step _ _ Hs Hst) as Hs1.
  destruct (IH HPs Hs1) as [IHs HP1].
  split; [|exact (HP _ _ Hs Hst HP1)]. intros H. apply IHs. revert Hs Hs1 HP1 H. clear IH IHs HPs Hrun Hst.
  destruct Hstep as [x origin c r y Ho Hok Hd Hr|x r y Hin Hr|x t b Hle|x a Hle];
    intros Hs Hs1 HP1 H.
  - unfold dispatch in Hd. destruct r as [u|e|]; [| |done].
    + apply transactional_Ok in Hd. exact (Hc _ _ _ _ _ Hs Hs1 HP1 Ho Hok Hd H).
    + apply transactional_Err in Hd. by subst.
  - eapply takes_none_covered; [by apply kept_on_initialize|exact (Hi _ _ _ Hs Hin Hr)|exact Hin|done|done].
  - unfold covered in *. by rewrite Ht.
  - unfold covered in *. rewrite Ha. etransitivity; [exact H|exact Hle].
Qed.
End Covered.
