(* ===== verification/WidthFacts.v ===== *)
(** * The widths of what is stored

    Integers are modelled by [Z].  In every reachable state each integer that the
    pallet stores lies in the range of the type its storage item has in
    [src/src/lib.rs] and [src/src/types.rs]: the checked, saturating and wrapping
    operations of the code suffice, and nothing is ever stored that the type could
    not hold. *)

From S2P Require Import Prelude Types Config Storage RunLogic Oracle OracleFacts Queries Xcm.
From S2P Require Import Governance GovernanceFacts Staking StakingFacts Autopay Pallet PalletFacts.

(** ** Widths *)

Definition fits (mx n : Z) : Prop := 0 <= n <= mx.

Record feed_typed (f : Feed) : Prop := {
  ft_reward : fits u128_max (feed_reward f);
  ft_balance : fits u128_max (feed_balance f);
  ft_start : fits u64_max (feed_start_time f);
  ft_interval : fits u64_max (feed_interval f);
  ft_window : fits u64_max (feed_window f);
  ft_threshold : fits u16_max (feed_price_threshold f);
  ft_increase : fits u128_max (feed_reward_increase_per_second f);
}.

Record tip_typed (t : Tip) : Prop := {
  tt_amount : fits u128_max (tip_amount t);
  tt_timestamp : fits u64_max (tip_timestamp t);
  tt_cumulative : fits u128_max (tip_cumulative_tips t);
}.

Record report_typed (r : Report) : Prop := {
  rt_index : fits u32_max (rep_index r);
  rt_previous : forall t, rep_previous r = Some t -> fits u64_max t;
}.

Record stake_typed (i : StakeInfo) : Prop := {
  st_address : fits h160_max (stk_address i);
  st_start_date : fits u64_max (stk_start_date i);
  st_staked : fits u256_max (stk_staked_balance i);
  st_locked : fits u256_max (stk_locked_balance i);
  st_debt : fits u128_max (stk_reward_debt i);
  st_last : fits u64_max (stk_reporter_last_timestamp i);
  st_reports : fits u32_max (stk_reports_submitted i);
  st_votes : fits u64_max (stk_start_vote_count i);
  st_tally : fits u32_max (stk_start_vote_tally i);
}.

Record dispute_typed (d : Dispute) : Prop := {
  dt_timestamp : fits u64_max (dsp_timestamp d);
  dt_slashed : fits u256_max (dsp_slashed_amount d);
}.

Record tally_typed (t : Tally) : Prop := {
  ta_support : fits u128_max (does_support t);
  ta_against : fits u128_max (against t);
  ta_invalid : fits u128_max (invalid_query t);
}.

Record vote_typed (v : Vote) : Prop := {
  vt_round : fits u8_max (vote_vote_round v);
  vt_start : fits u64_max (vote_start_date v);
  vt_fee : fits u128_max (vote_fee v);
  vt_tally_date : fits u64_max (vote_tally_date v);
  vt_users : tally_typed (vote_users v);
  vt_reporters : tally_typed (vote_reporters v);
}.

Definition pending_typed (p : Z * Timestamp) : Prop :=
  fits u8_max (fst p) /\ fits u64_max (snd p).

(** The vote and the dispute of a round that begins. *)
Definition round_typed (r : Vote * Dispute * Z) : Prop :=
  vote_typed (fst (fst r)) /\ dispute_typed (snd (fst r)).

(** Every value of a map. *)
Definition values {K} `{Countable K} {V} (P : V -> Prop) (m : gmap K V) : Prop :=
  map_Forall (fun _ => P) m.

Section Typed.
Context {T : Config}.
Implicit Types s : State.

Record typed s : Prop := {
  ty_now : fits u64_max (sys_now s);
  ty_last : values (fits u64_max) (LastReportedTimestamp s);
  ty_reports : values report_typed (Reports s);
  ty_report_times : map_Forall (fun k _ => fits u64_max (snd k)) (Reports s);
  ty_by_index : values (fits u64_max) (ReportedTimestampsByIndex s);
  ty_count : values (fits u32_max) (ReportedTimestampCount s);
  ty_submitted : values (fits u32_max) (StakerReportsSubmittedByQueryId s);
  ty_new_value : forall t, TimeOfLastNewValue s = Some t -> fits u64_max t;
  ty_share : fits u128_max (AccumulatedRewardPerShare s);
  ty_update : fits u64_max (LastStakeAmountUpdate s);
  ty_rate : fits u128_max (RewardRate s);
  ty_stake_amount : fits u256_max (StakeAmount s);
  ty_stakers : values stake_typed (StakerDetails s);
  ty_allocation : fits u64_max (TimeOfLastAllocation s);
  ty_debt : fits u128_max (TotalRewardDebt s);
  ty_total : fits u256_max (TotalStakeAmount s);
  ty_total_stakers : fits u64_max (TotalStakers s);
  ty_withdraw : fits u256_max (ToWithdraw s);
  ty_fee : fits u128_max (DisputeFee s);
  ty_disputes : values dispute_typed (DisputeInfo s);
  ty_open : values (fits u32_max) (OpenDisputesOnId s);
  ty_pending : values pending_typed (PendingVotes s);
  ty_vote_count : fits u64_max (VoteCount s);
  ty_votes : values vote_typed (VoteInfo s);
  ty_rounds : values (fits u8_max) (VoteRounds s);
  ty_tally : values (fits u32_max) (VoteTallyByAddress s);
  ty_feeds : values feed_typed (DataFeeds s);
  ty_tips : values tip_typed (Tips s);
  ty_tip_count : values (fits u32_max) (TipCount s);
  ty_user_tips : values (fits u128_max) (UserTipsTotal s);
}.

(** ** Reading *)

Lemma values_lookup {K} `{Countable K} {V} (P : V -> Prop) (m : gmap K V) k v :
  values P m -> m !! k = Some v -> P v.
Proof. intros Hm. apply Hm. Qed.

Lemma fits_value_or_zero {K} `{Countable K} mx (m : gmap K Z) k :
  0 <= mx -> values (fits mx) m -> fits mx (value_or_zero m k).
Proof.
  intros Hmx Hm. unfold value_or_zero. destruct (m !! k) eqn:E; simpl; [by eapply Hm|].
  unfold fits. lia.
Qed.

Lemma values_insert {K} `{Countable K} {V} (P : V -> Prop) (m : gmap K V) k v :
  P v -> values P m -> values P (<[k := v]> m).
Proof. intros Hv Hm. by apply map_Forall_insert_2. Qed.

Lemma values_alter {K} `{Countable K} {V} (P : V -> Prop) (m : gmap K V) k o :
  (forall v, o = Some v -> P v) -> values P m -> values P (partial_alter (fun _ => o) k m).
Proof.
  intros Ho Hm i v. rewrite lookup_partial_alter. case_decide; [apply Ho|apply Hm].
Qed.

Lemma values_delete {K} `{Countable K} {V} (P : V -> Prop) (m : gmap K V) k :
  values P m -> values P (delete k m).
Proof. intros Hm. by apply map_Forall_delete. Qed.
(** ** Arithmetic *)

Lemma checked_fits mx r v : checked mx r = Some v -> fits mx v.
Proof. intros Hv. apply checked_Some in Hv as [-> Hv]. done. Qed.

Lemma checked_div_nonneg a b v : checked_div a b = Some v -> 0 <= a -> 0 <= b -> 0 <= v.
Proof. intros Hv Ha Hb. apply checked_div_Some in Hv as [-> Hb0]. apply Z.div_pos; lia. Qed.

Lemma checked_div_fits mx a b v : checked_div a b = Some v -> fits mx a -> 0 <= b -> fits mx v.
Proof.
  intros Hv [Ha Hm] Hb. pose proof (checked_div_nonneg _ _ _ Hv Ha Hb) as Hv0.
  apply checked_div_Some in Hv as [-> Hb0]. split; [done|]. etransitivity; [|exact Hm].
  apply Z.div_le_upper_bound; [lia|]. nia.
Qed.

Lemma saturating_add_fits mx a b : fits mx a -> 0 <= b -> fits mx (saturating_add mx a b).
Proof. unfold fits, saturating_add. lia. Qed.

Lemma saturating_sub_fits mx a b : fits mx a -> 0 <= b -> fits mx (saturating_sub a b).
Proof. unfold fits, saturating_sub. lia. Qed.

Lemma saturating_mul_fits mx a b : 0 <= mx -> 0 <= a -> 0 <= b -> fits mx (saturating_mul mx a b).
Proof. unfold fits, saturating_mul. nia. Qed.

Lemma wrapping_add_fits mx a b : 0 <= mx -> fits mx (wrapping_add mx a b).
Proof.
  intros Hm. unfold fits, wrapping_add. pose proof (Z.mod_pos_bound (a + b) (mx + 1)). lia.
Qed.

Lemma U256ToBalance_fits a : 0 <= a -> fits u128_max (U256ToBalance a).
Proof. apply U256ToBalance_range. Qed.

Lemma fits_nonneg mx n : fits mx n -> 0 <= n.
Proof. by intros []. Qed.

Lemma fits_wider mx mx' n : fits mx n -> mx <= mx' -> fits mx' n.
Proof. unfold fits. lia. Qed.
End Typed.

(** The facts on the numbers that a call computes. *)
Create HintDb width.

Ltac width_mono :=
  match goal with H : fits ?m ?n |- fits _ ?n => apply (fits_wider m); [exact H|done] end.

#[export] Hint Resolve ty_now ty_last ty_reports ty_report_times ty_by_index ty_count
  ty_submitted ty_new_value ty_share ty_update ty_rate ty_stake_amount ty_stakers ty_allocation
  ty_debt ty_total ty_total_stakers ty_withdraw ty_fee ty_disputes ty_open ty_pending
  ty_vote_count ty_votes ty_rounds ty_tally ty_feeds ty_tips ty_tip_count ty_user_tips : width.

#[export] Hint Resolve ft_reward ft_balance ft_start ft_interval ft_window ft_threshold
  ft_increase tt_amount tt_timestamp tt_cumulative rt_index rt_previous st_address st_start_date
  st_staked st_locked st_debt st_last st_reports st_votes st_tally dt_timestamp dt_slashed ta_support
  ta_against ta_invalid vt_round vt_start vt_fee vt_tally_date vt_users vt_reporters : width.

#[export] Hint Resolve values_insert values_delete checked_fits saturating_add_fits
  saturating_sub_fits saturating_mul_fits wrapping_add_fits U256ToBalance_fits : width.
#[export] Hint Extern 1 (0 <= 1) => done : width.

(** ** Writing *)

Section Writes.
Context {T : Config}.
Implicit Types s : State.

Ltac by_write :=
  intros; match goal with H : typed _ |- _ => destruct H end; split; simpl; assumption.

Lemma write_LastReportedTimestamp f s : values (fits u64_max) (f (LastReportedTimestamp s)) -> typed s ->
  typed (upd_LastReportedTimestamp f s).
Proof. by_write. Qed.
Lemma write_ReportedTimestampsByIndex f s : values (fits u64_max) (f (ReportedTimestampsByIndex s)) -> typed s ->
  typed (upd_ReportedTimestampsByIndex f s).
Proof. by_write. Qed.
Lemma write_ReportedTimestampCount f s : values (fits u32_max) (f (ReportedTimestampCount s)) -> typed s ->
  typed (upd_ReportedTimestampCount f s).
Proof. by_write. Qed.
Lemma write_StakerReportsSubmittedByQueryId f s : values (fits u32_max) (f (StakerReportsSubmittedByQueryId s)) -> typed s ->
  typed (upd_StakerReportsSubmittedByQueryId f s).
Proof. by_write. Qed.
Lemma write_AccumulatedRewardPerShare f s : fits u128_max (f (AccumulatedRewardPerShare s)) -> typed s ->
  typed (upd_AccumulatedRewardPerShare f s).
Proof. by_write. Qed.
Lemma write_LastStakeAmountUpdate f s : fits u64_max (f (LastStakeAmountUpdate s)) -> typed s ->
  typed (upd_LastStakeAmountUpdate f s).
Proof. by_write. Qed.
Lemma write_RewardRate f s : fits u128_max (f (RewardRate s)) -> typed s ->
  typed (upd_RewardRate f s).
Proof. by_write. Qed.
Lemma write_StakeAmount f s : fits u256_max (f (StakeAmount s)) -> typed s ->
  typed (upd_StakeAmount f s).
Proof. by_write. Qed.
Lemma write_StakerDetails f s : values stake_typed (f (StakerDetails s)) -> typed s ->
  typed (upd_StakerDetails f s).
Proof. by_write. Qed.
Lemma write_TimeOfLastAllocation f s : fits u64_max (f (TimeOfLastAllocation s)) -> typed s ->
  typed (upd_TimeOfLastAllocation f s).
Proof. by_write. Qed.
Lemma write_TotalRewardDebt f s : fits u128_max (f (TotalRewardDebt s)) -> typed s ->
  typed (upd_TotalRewardDebt f s).
Proof. by_write. Qed.
Lemma write_TotalStakeAmount f s : fits u256_max (f (TotalStakeAmount s)) -> typed s ->
  typed (upd_TotalStakeAmount f s).
Proof. by_write. Qed.
Lemma write_TotalStakers f s : fits u64_max (f (TotalStakers s)) -> typed s ->
  typed (upd_TotalStakers f s).
Proof. by_write. Qed.
Lemma write_ToWithdraw f s : fits u256_max (f (ToWithdraw s)) -> typed s ->
  typed (upd_ToWithdraw f s).
Proof. by_write. Qed.
Lemma write_DisputeFee f s : fits u128_max (f (DisputeFee s)) -> typed s ->
  typed (upd_DisputeFee f s).
Proof. by_write. Qed.
Lemma write_DisputeInfo f s : values dispute_typed (f (DisputeInfo s)) -> typed s ->
  typed (upd_DisputeInfo f s).
Proof. by_write. Qed.
Lemma write_OpenDisputesOnId f s : values (fits u32_max) (f (OpenDisputesOnId s)) -> typed s ->
  typed (upd_OpenDisputesOnId f s).
Proof. by_write. Qed.
Lemma write_PendingVotes f s : values pending_typed (f (PendingVotes s)) -> typed s ->
  typed (upd_PendingVotes f s).
Proof. by_write. Qed.
Lemma write_VoteCount f s : fits u64_max (f (VoteCount s)) -> typed s ->
  typed (upd_VoteCount f s).
Proof. by_write. Qed.
Lemma write_VoteInfo f s : values vote_typed (f (VoteInfo s)) -> typed s ->
  typed (upd_VoteInfo f s).
Proof. by_write. Qed.
Lemma write_VoteRounds f s : values (fits u8_max) (f (VoteRounds s)) -> typed s ->
  typed (upd_VoteRounds f s).
Proof. by_write. Qed.
Lemma write_VoteTallyByAddress f s : values (fits u32_max) (f (VoteTallyByAddress s)) -> typed s ->
  typed (upd_VoteTallyByAddress f s).
Proof. by_write. Qed.
Lemma write_DataFeeds f s : values feed_typed (f (DataFeeds s)) -> typed s ->
  typed (upd_DataFeeds f s).
Proof. by_write. Qed.
Lemma write_Tips f s : values tip_typed (f (Tips s)) -> typed s ->
  typed (upd_Tips f s).
Proof. by_write. Qed.
Lemma write_TipCount f s : values (fits u32_max) (f (TipCount s)) -> typed s ->
  typed (upd_TipCount f s).
Proof. by_write. Qed.
Lemma write_UserTipsTotal f s : values (fits u128_max) (f (UserTipsTotal s)) -> typed s ->
  typed (upd_UserTipsTotal f s).
Proof. by_write. Qed.
Lemma write_Reports q t r s : report_typed r -> fits u64_max t -> typed s ->
  typed (upd_Reports <[(q, t) := r]> s).
Proof.
  intros Hr Ht []. split; simpl; try assumption; [by apply values_insert|].
  by apply map_Forall_insert_2.
Qed.
Lemma write_TimeOfLastNewValue t s : fits u64_max t -> typed s ->
  typed (upd_TimeOfLastNewValue (fun _ => Some t) s).
Proof. intros Ht []. split; simpl; try assumption. by intros t' [= <-]. Qed.

(** Items without integers, and the environment. *)
Lemma write_ReportedValuesByTimestamp f s : typed s -> typed (upd_ReportedValuesByTimestamp f s).
Proof. by_write. Qed.
Lemma write_DisputeIdsByReporter f s : typed s -> typed (upd_DisputeIdsByReporter f s).
Proof. by_write. Qed.
Lemma write_Votes f s : typed s -> typed (upd_Votes f s).
Proof. by_write. Qed.
Lemma write_DataFeedRewardClaimed f s : typed s -> typed (upd_DataFeedRewardClaimed f s).
Proof. by_write. Qed.
Lemma write_FeedsWithFunding f s : typed s -> typed (upd_FeedsWithFunding f s).
Proof. by_write. Qed.
Lemma write_QueryIdFromDataFeedId f s : typed s -> typed (upd_QueryIdFromDataFeedId f s).
Proof. by_write. Qed.
Lemma write_QueryIdsWithFunding f s : typed s -> typed (upd_QueryIdsWithFunding f s).
Proof. by_write. Qed.
Lemma write_QueryData f s : typed s -> typed (upd_QueryData f s).
Proof. by_write. Qed.
Lemma write_sys_events f s : typed s -> typed (upd_sys_events f s).
Proof. by_write. Qed.
Lemma write_sys_sent f s : typed s -> typed (upd_sys_sent f s).
Proof. by_write. Qed.
Lemma write_sys_assets f s : typed s -> typed (upd_sys_assets f s).
Proof. by_write. Qed.
End Writes.

(** The lemma for a write. *)
Ltac write_typed :=
  lazymatch goal with
  | |- typed (upd_LastReportedTimestamp _ _) => apply write_LastReportedTimestamp
  | |- typed (upd_ReportedTimestampsByIndex _ _) => apply write_ReportedTimestampsByIndex
  | |- typed (upd_ReportedTimestampCount _ _) => apply write_ReportedTimestampCount
  | |- typed (upd_StakerReportsSubmittedByQueryId _ _) => apply write_StakerReportsSubmittedByQueryId
  | |- typed (upd_AccumulatedRewardPerShare _ _) => apply write_AccumulatedRewardPerShare
  | |- typed (upd_LastStakeAmountUpdate _ _) => apply write_LastStakeAmountUpdate
  | |- typed (upd_RewardRate _ _) => apply write_RewardRate
  | |- typed (upd_StakeAmount _ _) => apply write_StakeAmount
  | |- typed (upd_StakerDetails _ _) => apply write_StakerDetails
  | |- typed (upd_TimeOfLastAllocation _ _) => apply write_TimeOfLastAllocation
  | |- typed (upd_TotalRewardDebt _ _) => apply write_TotalRewardDebt
  | |- typed (upd_TotalStakeAmount _ _) => apply write_TotalStakeAmount
  | |- typed (upd_TotalStakers _ _) => apply write_TotalStakers
  | |- typed (upd_ToWithdraw _ _) => apply write_ToWithdraw
  | |- typed (upd_DisputeFee _ _) => apply write_DisputeFee
  | |- typed (upd_DisputeInfo _ _) => apply write_DisputeInfo
  | |- typed (upd_OpenDisputesOnId _ _) => apply write_OpenDisputesOnId
  | |- typed (upd_PendingVotes _ _) => apply write_PendingVotes
  | |- typed (upd_VoteCount _ _) => apply write_VoteCount
  | |- typed (upd_VoteInfo _ _) => apply write_VoteInfo
  | |- typed (upd_VoteRounds _ _) => apply write_VoteRounds
  | |- typed (upd_VoteTallyByAddress _ _) => apply write_VoteTallyByAddress
  | |- typed (upd_DataFeeds _ _) => apply write_DataFeeds
  | |- typed (upd_Tips _ _) => apply write_Tips
  | |- typed (upd_TipCount _ _) => apply write_TipCount
  | |- typed (upd_UserTipsTotal _ _) => apply write_UserTipsTotal
  | |- typed (upd_Reports _ _) => apply write_Reports
  | |- typed (upd_TimeOfLastNewValue _ _) => apply write_TimeOfLastNewValue
  | |- typed (upd_ReportedValuesByTimestamp _ _) => apply write_ReportedValuesByTimestamp
  | |- typed (upd_DisputeIdsByReporter _ _) => apply write_DisputeIdsByReporter
  | |- typed (upd_Votes _ _) => apply write_Votes
  | |- typed (upd_DataFeedRewardClaimed _ _) => apply write_DataFeedRewardClaimed
  | |- typed (upd_FeedsWithFunding _ _) => apply write_FeedsWithFunding
  | |- typed (upd_QueryIdFromDataFeedId _ _) => apply write_QueryIdFromDataFeedId
  | |- typed (upd_QueryIdsWithFunding _ _) => apply write_QueryIdsWithFunding
  | |- typed (upd_QueryData _ _) => apply write_QueryData
  | |- typed (upd_sys_events _ _) => apply write_sys_events
  | |- typed (upd_sys_sent _ _) => apply write_sys_sent
  | |- typed (upd_sys_assets _ _) => apply write_sys_assets
  end.

(** ** Proofs on calls *)

Section Lookups.
Context {T : Config}.
Implicit Types s : State.

Lemma stake_lookup s k i : StakerDetails s !! k = Some i -> typed s -> stake_typed i.
Proof. intros Hk Hs. exact (ty_stakers _ Hs _ _ Hk). Qed.
Lemma report_lookup s k r : Reports s !! k = Some r -> typed s -> report_typed r.
Proof. intros Hk Hs. exact (ty_reports _ Hs _ _ Hk). Qed.
Lemma report_time_lookup s q t r : Reports s !! (q, t) = Some r -> typed s -> fits u64_max t.
Proof. intros Hk Hs. exact (ty_report_times _ Hs _ _ Hk). Qed.
Lemma last_lookup s q t : LastReportedTimestamp s !! q = Some t -> typed s -> fits u64_max t.
Proof. intros Hk Hs. exact (ty_last _ Hs _ _ Hk). Qed.
Lemma index_lookup s k t : ReportedTimestampsByIndex s !! k = Some t -> typed s -> fits u64_max t.
Proof. intros Hk Hs. exact (ty_by_index _ Hs _ _ Hk). Qed.
Lemma dispute_lookup s k d : DisputeInfo s !! k = Some d -> typed s -> dispute_typed d.
Proof. intros Hk Hs. exact (ty_disputes _ Hs _ _ Hk). Qed.
Lemma vote_lookup s k v : VoteInfo s !! k = Some v -> typed s -> vote_typed v.
Proof. intros Hk Hs. exact (ty_votes _ Hs _ _ Hk). Qed.
Lemma open_lookup s k n : OpenDisputesOnId s !! k = Some n -> typed s -> fits u32_max n.
Proof. intros Hk Hs. exact (ty_open _ Hs _ _ Hk). Qed.
Lemma feed_lookup s k f : DataFeeds s !! k = Some f -> typed s -> feed_typed f.
Proof. intros Hk Hs. exact (ty_feeds _ Hs _ _ Hk). Qed.
Lemma tip_lookup s k t : Tips s !! k = Some t -> typed s -> tip_typed t.
Proof. intros Hk Hs. exact (ty_tips _ Hs _ _ Hk). Qed.

Lemma StakeInfo_new_typed a : fits h160_max a -> stake_typed (StakeInfo_new a).
Proof. by split. Qed.
Lemma default_stake_typed s a k : fits h160_max a -> typed s ->
  stake_typed (default (StakeInfo_new a) (StakerDetails s !! k)).
Proof.
  intros Ha Hs. destruct (StakerDetails s !! k) eqn:E; simpl; [by eapply stake_lookup|].
  by apply StakeInfo_new_typed.
Qed.
(** The getters. *)
Lemma get_tips_by_address_fits s a : typed s -> fits u128_max (get_tips_by_address s a).
Proof. intros Hs. apply fits_value_or_zero; [done|apply ty_user_tips, Hs]. Qed.
Lemma get_reports_submitted_fits s a :
  typed s -> fits u32_max (get_reports_submitted_by_address s a).
Proof.
  intros Hs. unfold get_reports_submitted_by_address.
  destruct (StakerDetails s !! a) eqn:E; simpl; [|done].
  apply st_reports. by eapply stake_lookup.
Qed.
Lemma get_vote_tally_fits s a : typed s -> fits u32_max (get_vote_tally_by_address s a).
Proof. intros Hs. apply fits_value_or_zero; [done|apply ty_tally, Hs]. Qed.
Lemma get_vote_count_fits s : typed s -> fits u64_max (get_vote_count s).
Proof. apply ty_vote_count. Qed.
Lemma get_dispute_fee_fits s : typed s -> fits u128_max (get_dispute_fee s).
Proof. apply ty_fee. Qed.
Lemma get_current_tip_fits s q : typed s -> fits u128_max (get_current_tip s q).
Proof.
  intros Hs. unfold get_current_tip. destruct (_ =? 0); [done|].
  destruct (Tips s !! _) as [tp|] eqn:E; [|done]. destruct (_ <? _); [|done].
  apply tt_amount. by eapply tip_lookup.
Qed.

Lemma tally_vote_typed b w t : tally_typed t -> 0 <= w -> tally_typed (tally_vote b w t).
Proof.
  intros [] Hw. by destruct b as [[]|]; split; simpl; try apply saturating_add_fits.
Qed.
Lemma Tally_default_typed : tally_typed Tally_default.
Proof. by split. Qed.
End Lookups.

#[export] Hint Resolve stake_lookup report_lookup report_time_lookup last_lookup index_lookup
  dispute_lookup vote_lookup open_lookup feed_lookup tip_lookup default_stake_typed
  get_tips_by_address_fits get_reports_submitted_fits get_vote_tally_fits get_vote_count_fits
  get_dispute_fee_fits get_current_tip_fits
  Tally_default_typed : width.

Ltac width :=
  lazymatch goal with
  | |- values _ (<[_ := _]> _) => apply values_insert; width
  | |- values _ (partial_alter _ _ _) => apply values_alter; width
  | |- values _ (delete _ _) => apply values_delete; width
  | |- fits _ (value_or_zero _ _) => apply fits_value_or_zero; [done|width]
  | |- fits _ (saturating_add _ _ _) => apply saturating_add_fits; width
  | |- fits _ (saturating_sub _ _) => apply saturating_sub_fits; width
  | |- fits _ (saturating_mul _ _ _) => apply saturating_mul_fits; width
  | |- fits _ (wrapping_add _ _ _) => apply wrapping_add_fits; done
  | |- fits _ (U256ToBalance _) => apply U256ToBalance_fits; width
  | |- fits _ (if ?b then _ else _) => destruct b; width
  | |- fits _ 0 => done
  | |- 0 <= 0 => done
  | |- 0 <= 1 => done
  | |- 0 <= _ ^ _ => apply Z.pow_nonneg; done
  | |- 0 <= 10 => done
  | |- 0 <= 30 * DAYS => done
  | |- 0 <= u128_max => done
  | |- 0 <= saturating_pow _ _ _ => apply Z.min_glb; [done|apply Z.pow_nonneg; done]
  | |- 0 <= value_or_zero _ _ => eapply fits_nonneg, fits_value_or_zero; [|width]; done
  | H : checked_div _ _ = Some ?v |- 0 <= ?v => apply (checked_div_nonneg _ _ _ H); width
  | H : checked_div _ _ = Some ?v |- fits _ ?v => apply (checked_div_fits _ _ _ _ H); width
  | |- 0 <= _ => first [lia | simpl in *; lia | eapply fits_nonneg; solve [eauto 6 with width] | idtac]
  | |- stake_typed ({| stk_address := _ |}) => split; simpl; width
  | |- stake_typed (_ _ _) => first [solve [eauto 6 with width] | split; simpl; width]
  | |- report_typed {| rep_index := _ |} => split; simpl; width
  | |- report_typed (_ _ _) => split; simpl; width
  | |- forall t, _ = Some t -> fits _ t => intros ?t ?Ht; simpl in *; eauto 6 with width
  | |- dispute_typed {| dsp_query_id := _ |} => split; simpl; width
  | |- tally_typed (tally_vote _ _ _) => apply tally_vote_typed; width
  | |- tip_typed {| tip_amount := _ |} => split; simpl; width
  | |- tip_typed (_ _ _) => first [solve [eauto 6 with width] | split]; simpl; width
  | |- feed_typed {| feed_reward := _ |} => split; simpl; width
  | |- round_typed (_, _, _) => split; simpl; width
  | |- pending_typed (_, _) => split; simpl; width
  | |- vote_typed (if ?b then _ else _) => destruct b; width
  | |- vote_typed {| vote_identifier := _ |} => split; simpl; width
  | |- vote_typed (_ _ _) => first [solve [eauto 6 with width] | split]; simpl; width
  | |- feed_typed (_ _ _) => split; simpl; width
  | |- _ => eauto 6 with width
  end.

Ltac keep_typed :=
  idtac; lazymatch goal with
  | |- typed ?s => first [assumption | write_typed; [cbv beta; width..|]]
  | |- _ /\ typed _ => split
  end.

Ltac typed_step :=
  lazymatch goal with
  | |- yields _ _ _ _ => intros ?s ?Hs
  | |- wp _ _ panic _ _ => exact Logic.I
  | |- wp _ _ (foldM (claim_timestamp _ _ _ _ _) _ _) _ _ => idtac
  | |- wp _ _ (expect _) _ _ => apply wp_expect_any; [exact Logic.I|intros ?a ?Ha]
  | |- _ =>
      first [ progress wp_step_with ltac:(keep_typed)
            | eapply wp_yields;
                [solve [eauto 4 with safe]| |let H := fresh "Ha" in intros ?a ?s H ?Hs; cbv beta in H] ]
  end; cbv beta zeta.

(** A call whose lemma has premises. *)
Ltac typed_call H := apply wp_safe; [apply H; width|assumption|intros ?a ?s ?Hm ?Hs].
Ltac yields_call H := eapply wp_yields; [apply H; width|assumption|
    let H1 := fresh "Ha" in intros ?a ?s H1 ?Hs; cbv beta in H1].

Ltac solve_typed := unfold_calls; cbv zeta; repeat typed_step; try solve [width].

Abbreviation safe := (RunLogic.safe typed True).
Abbreviation yields := (RunLogic.yields typed True).

Section Calls.
Context {T : Config} {Ok_T : ConfigOk T}.
Implicit Types s : State.

(** ** The oracle *)

Lemma typed_submit_value o q v n d : safe (submit_value o q v n d).
Proof. unfold submit_value. solve_typed. Qed.

Lemma typed_remove_value_loop q p l : (forall t, p = Some t -> fits u64_max t) ->
  forall it, safe (remove_value_loop q p l it).
Proof.
  intros Hp. induction l as [|i l IH]; intros it; simpl; solve_typed.
Qed.

Lemma typed_remove_value q t : safe (remove_value q t).
Proof.
  unfold remove_value. solve_typed; typed_call (typed_remove_value_loop q); solve_typed.
Qed.

(** ** Messages *)

Lemma typed_send_contract_call c d g e : safe (send_contract_call c d g e).
Proof. unfold send_contract_call, bounded_input, transact, send_xcm. solve_typed. Qed.

Lemma typed_init_sub_accounts l : safe (init_sub_accounts l).
Proof. induction l as [|a l IH]; simpl; solve_typed. Qed.

#[local] Hint Resolve typed_remove_value typed_send_contract_call typed_init_sub_accounts : safe.

Lemma typed_register o g : safe (register o g).
Proof. unfold register, fee_location_get, fee_location_convert. solve_typed. Qed.

(** ** Governance *)

Lemma typed_send_vote i r : safe (send_vote i r).
Proof. unfold send_vote. solve_typed. Qed.

#[local] Hint Resolve typed_send_vote : safe.

Lemma typed_do_send_votes t n : safe (do_send_votes t n).
Proof. unfold do_send_votes. solve_typed. Qed.

Lemma typed_do_vote a i b : safe (do_vote a i b).
Proof. unfold do_vote. solve_typed. Qed.

#[local] Hint Resolve typed_do_send_votes typed_do_vote : safe.

Lemma typed_vote_all a l : safe (vote_all a l).
Proof. induction l as [|[i b] l IH]; simpl; solve_typed. Qed.

Lemma typed_tally_votes i r : safe (tally_votes i r).
Proof. unfold tally_votes. solve_typed. Qed.

Lemma typed_pay_rounds i r d v n l : safe (pay_rounds i r d v n l).
Proof. induction l as [|k l IH]; simpl; solve_typed. Qed.

#[local] Hint Resolve typed_vote_all typed_tally_votes typed_pay_rounds : safe.

Lemma typed_execute_vote i : safe (execute_vote i).
Proof. unfold execute_vote. solve_typed. Qed.

Lemma typed_begin_first_round q t i v : vote_typed v -> fits u64_max t ->
  yields round_typed (begin_first_round q t i v).
Proof. intros Hv Ht. unfold begin_first_round. solve_typed. Qed.

Lemma typed_begin_next_round i n v : vote_typed v -> yields round_typed (begin_next_round i n v).
Proof. intros Hv. unfold begin_next_round. solve_typed. Qed.

(** A dispute is on a report, whose time is in range. *)
Lemma typed_begin_dispute o q t b : safe (begin_dispute o q t b).
Proof.
  unfold begin_dispute. solve_typed.
  all: match goal with H : bool_decide _ = true |- _ => apply bool_decide_eq_true in H as [r Hr] end.
  all: assert (Ht : fits u64_max t) by width.
  1: yields_call (typed_begin_first_round q t).
  2: yields_call (typed_begin_next_round (dispute_id_of q t)).
  all: match goal with H : round_typed ?r |- _ => destruct r as [[v d] k], H as [Hv Hd] end;
    cbn [fst snd] in Hv, Hd; solve_typed.
Qed.

(** ** Staking *)

Lemma typed_convert_to_decimals n d : 0 <= n -> yields (fun r => 0 <= r) (convert_to_decimals n d).
Proof. intros Hn. unfold convert_to_decimals. solve_typed. Qed.

Lemma typed_convert n : 0 <= n -> yields (fun r => 0 <= r) (convert n).
Proof. apply typed_convert_to_decimals. Qed.

#[local] Hint Extern 1 (RunLogic.yields _ _ _ (convert _)) => apply typed_convert; width : safe.

Lemma typed_unit_of_balance : yields (fun r => 0 <= r) unit_of_balance.
Proof. unfold unit_of_balance. solve_typed. Qed.

Lemma typed_reward_on a b u : 0 <= a -> 0 <= b -> 0 <= u -> yields (fun r => 0 <= r) (reward_on a b u).
Proof. intros Ha Hb Hu. unfold reward_on. solve_typed. Qed.

#[local] Hint Extern 1 (RunLogic.yields _ _ _ (reward_on _ _ _)) =>
  apply typed_reward_on; width : safe.

Lemma typed_reward_less_debt a b u d : yields (fun r => 0 <= r) (reward_less_debt a b u d).
Proof. unfold reward_less_debt, reward_on. solve_typed. Qed.

Lemma typed_read_price q e : yields (fun r => 0 <= fst r) (read_price q e).
Proof. unfold read_price. solve_typed. Qed.

Lemma typed_calculate_dispute_fee p : 0 <= p -> yields (fits u128_max) (calculate_dispute_fee p).
Proof. intros Hp. unfold calculate_dispute_fee. solve_typed. Qed.

#[local] Hint Extern 1 (RunLogic.yields _ _ _ (calculate_dispute_fee _)) =>
  apply typed_calculate_dispute_fee; width : safe.
#[local] Hint Resolve typed_unit_of_balance typed_reward_less_debt typed_read_price : safe.

Lemma MinimumStakeAmount_fits : fits u256_max MinimumStakeAmount.
Proof. pose proof MinimumStakeAmount_u128. unfold fits. zlia. Qed.

#[local] Hint Resolve MinimumStakeAmount_fits : width.

Lemma typed_do_update_stake_amount : safe do_update_stake_amount.
Proof. unfold do_update_stake_amount. solve_typed. Qed.

Lemma typed_update_dispute_fee : safe update_dispute_fee.
Proof. unfold update_dispute_fee. solve_typed. Qed.

Lemma typed_update_rewards : safe update_rewards.
Proof. unfold update_rewards. solve_typed. Qed.

Lemma typed_rate_over_30_days b a : yields (fits u128_max) (rate_over_30_days b a).
Proof. unfold rate_over_30_days. solve_typed. Qed.

#[local] Hint Resolve typed_do_update_stake_amount typed_update_dispute_fee typed_update_rewards
  typed_rate_over_30_days : safe.

Lemma typed_update_stake_amount o : safe (update_stake_amount o).
Proof. unfold update_stake_amount. solve_typed. Qed.

Lemma typed_do_add_staking_rewards a n : safe (do_add_staking_rewards a n).
Proof. unfold do_add_staking_rewards. solve_typed. Qed.

#[local] Hint Resolve typed_do_add_staking_rewards : safe.

Lemma typed_add_staking_rewards o n : safe (add_staking_rewards o n).
Proof. unfold add_staking_rewards. solve_typed. Qed.

(** *** Changing a stake *)

Lemma typed_participation a b c : safe (participation a b c).
Proof. unfold participation. solve_typed. Qed.

#[local] Hint Resolve typed_participation : safe.

Lemma typed_pending_reward_of a i u : stake_typed i -> safe (pending_reward_of a i u).
Proof. intros Hi. unfold pending_reward_of. solve_typed. Qed.

#[local] Hint Resolve typed_pending_reward_of : safe.

Lemma typed_settle_stake a i u : stake_typed i -> safe (settle_stake a i u).
Proof. intros Hi. unfold settle_stake. solve_typed. Qed.

Lemma typed_count_staker i : stake_typed i -> yields stake_typed (count_staker i).
Proof. intros Hi. unfold count_staker. solve_typed. Qed.

Lemma typed_enter_stake i u : stake_typed i -> 0 <= u -> yields stake_typed (enter_stake i u).
Proof. intros Hi Hu. unfold enter_stake. solve_typed. Qed.

#[local] Hint Resolve typed_settle_stake : safe.
#[local] Hint Extern 1 (RunLogic.yields _ _ _ (count_staker _)) =>
  apply typed_count_staker; width : safe.
#[local] Hint Extern 1 (RunLogic.yields _ _ _ (enter_stake _ _)) =>
  apply typed_enter_stake; width : safe.

Lemma typed_update_stake a i n : stake_typed i -> fits u256_max n ->
  yields stake_typed (update_stake_and_pay_rewards a i n).
Proof. intros Hi Hn. unfold update_stake_and_pay_rewards. solve_typed. Qed.

#[local] Hint Extern 1 (RunLogic.yields _ _ _ (update_stake_and_pay_rewards _ _ _)) =>
  apply typed_update_stake; width : safe.

Lemma typed_withdraw_sub n : safe (withdraw_sub n).
Proof. unfold withdraw_sub. solve_typed. Qed.

#[local] Hint Resolve typed_withdraw_sub : safe.

Lemma typed_restake a i n : stake_typed i -> yields stake_typed (restake a i n).
Proof. intros Hi. unfold restake. solve_typed. Qed.

Lemma typed_slash_staker a i n : stake_typed i -> yields stake_typed (slash_staker a i n).
Proof. intros Hi. unfold slash_staker. solve_typed. Qed.

#[local] Hint Extern 1 (RunLogic.yields _ _ _ (restake _ _ _)) =>
  apply typed_restake; width : safe.
#[local] Hint Extern 1 (RunLogic.yields _ _ _ (slash_staker _ _ _)) =>
  apply typed_slash_staker; width : safe.

Lemma typed_report_stake_deposited o a n d : fits h160_max d ->
  safe (report_stake_deposited o a n d).
Proof. intros Hd. unfold report_stake_deposited. solve_typed. Qed.

Lemma typed_report_staking_withdraw_request o a n d :
  safe (report_staking_withdraw_request o a n d).
Proof. unfold report_staking_withdraw_request. solve_typed. Qed.

Lemma typed_report_stake_withdrawn o a n : safe (report_stake_withdrawn o a n).
Proof. unfold report_stake_withdrawn. solve_typed. Qed.

Lemma typed_report_slash o a n : safe (report_slash o a n).
Proof. unfold report_slash. solve_typed. Qed.

(** ** Autopay *)

Lemma typed_accrue_user_tips a n : 0 <= n -> safe (accrue_user_tips a n).
Proof. intros Hn. unfold accrue_user_tips. solve_typed. Qed.

Lemma typed_store_data q d : safe (store_data q d).
Proof. unfold store_data. solve_typed. Qed.

#[local] Hint Resolve typed_store_data : safe.
#[local] Hint Extern 1 (RunLogic.safe _ _ (accrue_user_tips _ _)) =>
  apply typed_accrue_user_tips; width : safe.

Lemma typed_do_fund_feed a i q n : safe (do_fund_feed a i q n).
Proof. unfold do_fund_feed. solve_typed. Qed.

#[local] Hint Resolve typed_do_fund_feed : safe.

Lemma typed_fund_feed o i q n : safe (fund_feed o i q n).
Proof. unfold fund_feed. solve_typed. Qed.

Lemma typed_setup_data_feed o q r st iv w th inc d n :
  call_ok (c_setup_data_feed q r st iv w th inc d n) ->
  safe (setup_data_feed o q r st iv w th inc d n).
Proof.
  intros (H1 & H2 & H3 & H4 & H5 & H6 & H7). unfold setup_data_feed. solve_typed.
Qed.

Lemma typed_do_get_reward_amount i q t :
  yields (fits u128_max) (do_get_reward_amount i q t).
Proof. unfold do_get_reward_amount, price_change, price_change_between. solve_typed. Qed.

Lemma typed_pay_claim a n : safe (pay_claim a n).
Proof. unfold pay_claim. solve_typed. Qed.

#[local] Hint Resolve typed_do_get_reward_amount typed_pay_claim : safe.

Lemma typed_claim_timestamp a i q b l c t : fits u128_max b -> fits u128_max c ->
  yields (fits u128_max) (claim_timestamp a i q b l c t).
Proof. intros Hb Hc. unfold claim_timestamp. solve_typed. Qed.

Lemma typed_claim_tip o i q l : safe (claim_tip o i q l).
Proof.
  unfold claim_tip. solve_typed.
  apply (wp_foldM (fits u128_max)); [|done|assumption|].
  - intros c t Hcum. apply typed_claim_timestamp; width.
  - intros c s1 Hc1 Hs1. solve_typed.
Qed.

Lemma typed_new_tip q n a c : fits u128_max a -> safe (new_tip q n a c).
Proof. intros Ha. unfold new_tip. solve_typed. Qed.

#[local] Hint Resolve typed_new_tip : safe.

Lemma typed_add_tip q n d : fits u128_max n -> safe (add_tip q n d).
Proof. intros Hn. unfold add_tip. solve_typed. Qed.

#[local] Hint Resolve typed_add_tip : safe.

Lemma typed_tip o q n d : fits u128_max n -> safe (tip o q n d).
Proof. intros Hn. unfold tip. solve_typed. Qed.

Lemma typed_search_tip later fuel : (forall m, safe (later m)) -> forall a b,
  safe (search_tip fuel later a b).
Proof. intros Hl. induction fuel as [|fuel IH]; intros a b; simpl; solve_typed. Qed.

Lemma typed_tip_later q t m : safe (tip_later q t m).
Proof. unfold tip_later. solve_typed. Qed.
Lemma typed_tip_later_or_missing q t m : safe (tip_later_or_missing q t m).
Proof. unfold tip_later_or_missing. solve_typed. Qed.

#[local] Hint Resolve typed_search_tip typed_tip_later typed_tip_later_or_missing : safe.

Lemma typed_earlier_tips q r t m a : safe (earlier_tips q r t m a).
Proof. unfold earlier_tips. solve_typed. Qed.

#[local] Hint Resolve typed_earlier_tips : safe.

Lemma typed_get_onetime_tip_amount q t a : safe (get_onetime_tip_amount q t a).
Proof. unfold get_onetime_tip_amount. solve_typed. Qed.

#[local] Hint Resolve typed_get_onetime_tip_amount : safe.

Lemma typed_claim_onetime_tip o q l : safe (claim_onetime_tip o q l).
Proof. unfold claim_onetime_tip. solve_typed. Qed.

(** ** The hook and the dispatcher *)

Lemma typed_on_initialize : safe on_initialize.
Proof. unfold on_initialize, update_prices. solve_typed. Qed.

#[local] Hint Resolve typed_submit_value typed_register typed_begin_dispute typed_execute_vote
  typed_tally_votes typed_vote_all typed_do_vote typed_do_send_votes typed_update_stake_amount
  typed_add_staking_rewards typed_report_staking_withdraw_request
  typed_report_stake_withdrawn typed_report_slash typed_fund_feed typed_setup_data_feed
  typed_claim_tip typed_tip typed_claim_onetime_tip : safe.
#[local] Hint Extern 1 (RunLogic.safe _ _ (report_stake_deposited _ _ _ _)) =>
  apply typed_report_stake_deposited; unfold fits; tauto : safe.

Lemma typed_call origin c : call_ok c -> safe (call_body origin c).
Proof.
  intros Hc. destruct c; cbn [call_body]; cbn [call_ok] in Hc;
    unfold void, vote, vote_on_multiple_disputes, send_votes, report_vote_tallied,
      report_vote_executed; solve_typed.
Qed.

(** ** Every reachable state is typed *)

Lemma genesis_typed t a : 0 <= t <= u64_max -> typed (genesis t a).
Proof.
  intros Ht. split; simpl;
    first [apply MinimumStakeAmount_fits | apply InitialDisputeFee_u128 | exact Ht
          | by apply map_Forall_empty | done].
Qed.

Lemma typed_reachable s : reachable s -> typed s.
Proof.
  revert s. apply reachable_ind_inv; [intros; by apply genesis_typed|].
  intros s s' _ Hs Hstep. revert Hs.
  destruct Hstep as [x origin c r y Hc Hd Hr|x r y Hi Hr|x t b Ht|x a]; intros Hs.
  - unfold dispatch in Hd. destruct r as [u|e|]; [| |done].
    + apply transactional_Ok in Hd. pose proof (typed_call origin c Hc x Hs) as Hw.
      unfold wp in Hw. by rewrite Hd in Hw.
    + apply transactional_Err in Hd. by subst.
  - pose proof (typed_on_initialize x Hs) as Hw. unfold wp in Hw. rewrite Hi in Hw. by destruct r.
  - pose proof (ty_now _ Hs). destruct Hs. split; try assumption. simpl. unfold fits in *. lia.
  - by apply write_sys_assets.
Qed.
End Calls.
