(* ===== verification/WeightFacts.v ===== *)
(** * The weights of calls: bounds

    The generated weights grow with their components, and the counts that calls
    report are bounded by those they declare. *)

From S2P Require Import Prelude Types Weights Config Storage Oracle OracleFacts Queries Xcm.
From S2P Require Import Governance GovernanceFacts Staking StakingFacts Autopay Pallet.
From S2P Require Import PalletWeights PalletFacts.

(** ** The weights grow *)

(** What calls rely on: the weight of more work is not less. *)
Class WeightInfoMono (I : WeightInfo) : Prop := {
  wm_claim_onetime_tip : forall t t', 0 <= t <= t' ->
    all_lte (wi_claim_onetime_tip t) (wi_claim_onetime_tip t');
  wm_claim_tip : forall t t', 0 <= t <= t' -> all_lte (wi_claim_tip t) (wi_claim_tip t');
  wm_vote_on_multiple_disputes : forall v v', 0 <= v <= v' ->
    all_lte (wi_vote_on_multiple_disputes v) (wi_vote_on_multiple_disputes v');
  wm_update_stake_amount : forall s l s' l', 0 <= s <= s' -> 0 <= l <= l' ->
    all_lte (wi_update_stake_amount s l) (wi_update_stake_amount s' l');
  wm_begin_dispute : forall d d', 0 <= d <= d' -> all_lte (wi_begin_dispute d) (wi_begin_dispute d');
  wm_send_votes : forall v v', 0 <= v <= v' -> all_lte (wi_send_votes v) (wi_send_votes v');
  wm_report_vote_executed : forall r r', 0 <= r <= r' ->
    all_lte (wi_report_vote_executed r) (wi_report_vote_executed r');
  wm_on_initialize : forall s l v s' l' v', 0 <= s <= s' -> 0 <= l <= l' -> 0 <= v <= v' ->
    all_lte (wi_on_initialize s l v) (wi_on_initialize s' l' v');
}.

Section Generated.
Context {W : WeightOps} {LW : WeightLaws W} (db : RuntimeDbWeight) {Ldb : DbWeightLaws db}.

(** Weights as the generated code builds them: sums of terms that grow. *)
Ltac solve_grows :=
  repeat first
    [ reflexivity
    | apply saturating_add_mono
    | apply saturating_mul_mono; [by split|lia]
    | apply reads_mono; unfold saturating_mul; zlia
    | apply writes_mono; unfold saturating_mul; zlia ].

#[export] Instance SubstrateWeightMono : WeightInfoMono (SubstrateWeight db).
Proof.
  split; intros; cbn [wi_claim_onetime_tip wi_claim_tip wi_vote_on_multiple_disputes
    wi_update_stake_amount wi_begin_dispute wi_send_votes wi_report_vote_executed wi_on_initialize
    SubstrateWeight];
    unfold claim_onetime_tip_weight, claim_tip_weight, vote_on_multiple_disputes_weight,
      update_stake_amount_weight, begin_dispute_weight, send_votes_weight,
      report_vote_executed_weight, on_initialize_weight; solve_grows.
Qed.

(** The implementation for the unit type has the same weights. *)
Lemma UnitWeight_eq : UnitWeight db = SubstrateWeight db.
Proof. reflexivity. Qed.

#[export] Instance UnitWeightMono : WeightInfoMono (UnitWeight db).
Proof. rewrite UnitWeight_eq. apply _. Qed.
End Generated.

(** ** What calls return *)

(** [yields P m]: a successful run of [m] returns a value with [P]. *)
Definition yields {S E A : Type} (P : A -> Prop) (m : M S E A) : Prop :=
  forall s a s', m s = (Ok a, s') -> P a.

Section Yields.
Context {S E : Type}.

Lemma yields_ret {A} (P : A -> Prop) (a : A) : P a -> yields P (ret (S:=S) (E:=E) a).
Proof. intros Ha s b s' H. by apply ret_Ok in H as [-> _]. Qed.

Lemma yields_fail {A} (P : A -> Prop) (e : E) : yields P (fail (S:=S) (A:=A) e).
Proof. intros s b s' H. done. Qed.

Lemma yields_bind {A B} (P : A -> Prop) (Q : B -> Prop) (m : M S E A) (k : A -> M S E B) :
  yields P m -> (forall a, P a -> yields Q (k a)) -> yields Q (bind m k).
Proof. intros Hm Hk s b s' H. apply bind_Ok in H as (a & s1 & H1 & H). eapply Hk; [|exact H]. by eapply Hm. Qed.

(** What comes before the last steps does not matter. *)
Lemma yields_then {A B} (Q : B -> Prop) (m : M S E A) (k : A -> M S E B) :
  (forall a, yields Q (k a)) -> yields Q (bind m k).
Proof. intros Hk. by eapply yields_bind with (P := fun _ => True). Qed.
End Yields.

(** Steps over what comes before the part counted by [lem], or to the end. *)
Ltac through lem :=
  repeat lazymatch goal with
    | |- yields _ (let _ := _ in _) => cbv zeta
    | |- yields _ (bind _ _) =>
        first [ eapply yields_bind; [eapply lem; solve [lia|done]|]; intros ? ?
              | apply yields_then; intros ? ]
    end.

Section Counts.
Context {T : Config} {Ok_T : ConfigOk T}.
Implicit Types s : State.

Lemma remove_value_loop_count q p l : forall it, 0 <= it <= MaxDisputedTimeSeries ->
  yields (fun n => 0 <= n <= MaxDisputedTimeSeries) (remove_value_loop q p l it).
Proof.
  induction l as [|i l IH]; intros it Hit; cbn [remove_value_loop].
  - by apply yields_ret.
  - cbv zeta. set (it' := saturating_add u32_max it 1).
    destruct (Z.ltb_spec MaxDisputedTimeSeries it'); [apply yields_fail|].
    assert (0 <= it' <= MaxDisputedTimeSeries) by (unfold it', saturating_add in *; zlia).
    apply yields_then. intros [t|]; [|by apply yields_ret].
    apply yields_then; intros r. apply yields_then; intros r'. apply yields_then; intros ?.
    destruct (negb _); [by apply yields_ret|by apply IH].
Qed.

Lemma remove_value_count q ts :
  yields (fun n => 0 <= n <= MaxDisputedTimeSeries) (remove_value q ts).
Proof.
  unfold remove_value. pose proof MaxDisputedTimeSeries_u32.
  through remove_value_loop_count. by apply yields_ret.
Qed.

Lemma begin_first_round_count q ts id v :
  yields (fun r => 0 <= snd r <= MaxDisputedTimeSeries) (begin_first_round q ts id v).
Proof. unfold begin_first_round. through remove_value_count. by apply yields_ret. Qed.

Lemma begin_next_round_count id n v :
  yields (fun r => 0 <= snd r <= MaxDisputedTimeSeries) (begin_next_round id n v).
Proof.
  unfold begin_next_round. pose proof MaxDisputedTimeSeries_u32.
  through I. apply yields_ret. simpl. lia.
Qed.

Lemma begin_dispute_round_count n q ts id v :
  yields (fun r => 0 <= snd r <= MaxDisputedTimeSeries)
    (if n =? 1 then begin_first_round q ts id v else begin_next_round id n v).
Proof. destruct (_ =? 1); [apply begin_first_round_count|apply begin_next_round_count]. Qed.

Lemma begin_dispute_count o q ts b :
  yields (fun n => 0 <= n <= MaxDisputedTimeSeries) (begin_dispute o q ts b).
Proof.
  unfold begin_dispute. through begin_dispute_round_count.
  match goal with p : (Vote * Dispute * Z)%type |- _ => destruct p as [[? ?] ?] end.
  through I. by apply yields_ret.
Qed.

(** The lookups of prices, on well-formed storage. *)
Lemma get_data_before_count s clock q t : query_wf s clock q ->
  0 <= snd (get_data_before_with_start s q t 0) <= MAX_ITERATIONS.
Proof.
  intros Hwf. pose proof (get_index_for_data_before_with_start_correct s clock q Hwf t) as H.
  unfold get_data_before_with_start.
  destruct (get_index_for_data_before_with_start s q t 0) as [res it]. by destruct H.
Qed.

Lemma read_price_count s clock q e p n s' : query_wf s clock q ->
  read_price q e s = (Ok (p, n), s') -> 0 <= n <= MAX_ITERATIONS.
Proof.
  intros Hwf H. unfold read_price in H. cinv. conditions. subst.
  pose proof (get_data_before_count s clock q (sys_now s - 12 * HOURS) Hwf) as Hn.
  destruct (get_data_before_with_start s q (sys_now s - 12 * HOURS) 0) as [[[v u]|] it];
    cinv; conditions; subst. by simplify_eq.
Qed.

Lemma do_update_stake_amount_count s clock n s' : oracle_wf s clock ->
  do_update_stake_amount s = (Ok n, s') -> 0 <= n <= MAX_ITERATIONS.
Proof.
  intros Hwf H. unfold do_update_stake_amount in H.
  apply bind_Ok in H as ([p it] & s1 & Hp & H). apply (read_price_count _ clock) in Hp; [|apply Hwf].
  cinv. done.
Qed.

Lemma update_dispute_fee_count s clock n s' : oracle_wf s clock ->
  update_dispute_fee s = (Ok n, s') -> 0 <= n <= MAX_ITERATIONS.
Proof.
  intros Hwf H. unfold update_dispute_fee in H.
  apply bind_Ok in H as ([p it] & s1 & Hp & H). apply (read_price_count _ clock) in Hp; [|apply Hwf].
  cinv. done.
Qed.

(** Both, as [update_stake_amount] and the hook run them. *)
Lemma update_both_count s clock n s1 m s' : oracle_wf s clock ->
  do_update_stake_amount s = (Ok n, s1) -> update_dispute_fee s1 = (Ok m, s') ->
  0 <= n <= MAX_ITERATIONS /\ 0 <= m <= MAX_ITERATIONS.
Proof.
  intros Hwf Hn Hm. split; [by eapply do_update_stake_amount_count|].
  apply do_update_stake_amount_Ok in Hn as (Eo & _ & _).
  eapply (update_dispute_fee_count _ clock); [|exact Hm]. by rewrite Eo.
Qed.
End Counts.
