(* ===== verification/AutopayFacts.v ===== *)
(** * Autopay: correctness

    The binary search over tips, the reward of a report, the claims of feed tips
    and of one-time tips, and the funding of feeds. *)

From S2P Require Import Prelude Types Config Storage Oracle Queries Staking StakingFacts.
From S2P Require Import Autopay Pallet PalletFacts.

#[local] Set Warnings "-clear-no-such-hyp".

(** ** The search over tips *)

Section Search.
Context {T : Config}.
Implicit Types s : State.

(** The search ends at a boundary of [p]: at [i] it does not hold (or [i] is
    where the search started), at [i + 1] it does (or that is the end). *)
Lemma search_tip_correct (later : Z -> Call bool) (p : Z -> bool) s lo hi :
  (forall m, lo < m < hi -> later m s = (Ok (p m), s)) -> 0 <= lo -> 2 * hi <= u32_max ->
  forall fuel a b, lo <= a < b -> b <= hi -> b - a <= 2 ^ Z.of_nat fuel ->
  (a = lo \/ p a = false) -> (b = hi \/ p b = true) ->
  exists i, search_tip (S fuel) later a b s = (Ok i, s) /\ lo <= i < hi /\
    (i = lo \/ p i = false) /\ (i + 1 = hi \/ p (i + 1) = true).
Proof.
  intros Hl Hlo Hhi fuel. induction fuel as [|fuel IH]; intros a b Hab Hb Hw Ha Hbb;
    simpl search_tip; unfold checked_sub, ok_or_arith; rewrite checked_ok by lia; cbn [ok_or];
    rewrite bind_ret; destruct (Z.ltb_spec 1 (b - a)).
  - simpl in Hw. lia.
  - exists a. split; [done|]. split; [lia|]. split; [done|].
    by replace (a + 1) with b by lia.
  - unfold checked_add. rewrite checked_ok by lia. cbn [ok_or]. rewrite !bind_ret.
    pose proof (Z.div_mod (b + a) 2). pose proof (Z.mod_pos_bound (b + a) 2).
    rewrite Nat2Z.inj_succ, Z.pow_succ_r in Hw by lia.
    change (bind (expect (checked_div (b + a) 2)) ?k s) with (k ((b + a) / 2) s).
    set (mid := (b + a) / 2) in *. cbv beta.
    rewrite (bind_run _ _ _ _ _ (Hl mid ltac:(lia))).
    destruct (p mid) eqn:Hp; apply IH; auto with lia; lia.
  - exists a. split; [done|]. split; [lia|]. split; [done|].
    by replace (a + 1) with b by lia.
Qed.
End Search.

(** ** One-time tips *)

Section OneTime.
Context {T : Config}.
Implicit Types s : State.

(** The search only depends on what [later] answers. *)
Lemma search_tip_same (later : Z -> Call bool) s s' :
  (forall m, exists b, later m s = (Ok b, s) /\ later m s' = (Ok b, s')) ->
  forall fuel a b r, search_tip fuel later a b s = (Ok r, s) ->
  search_tip fuel later a b s' = (Ok r, s').
Proof.
  intros Hl fuel. induction fuel as [|fuel IH]; intros a b r H; [done|].
  revert H. simpl. unfold ok_or_arith.
  destruct (checked_sub u32_max b a) as [d|]; cbn [ok_or]; [rewrite !bind_ret|done].
  destruct (1 <? d); [|by intros [= <-]].
  destruct (checked_add u32_max b a) as [sum|]; cbn [ok_or]; [rewrite !bind_ret|done].
  destruct (Hl (sum / 2)) as (x & E1 & E2).
  rewrite ?bind_ret, (bind_run _ _ _ _ _ E1), (bind_run _ _ _ _ _ E2).
  destruct x; apply IH.
Qed.

(** A tip that was claimed with the report [r] at [t]. *)
Record tip_claimed s s' (q : QueryId) (t : Timestamp) (who : AccountId) (r : Report) (i : Z)
    (tp : Tip) (amount : Balance) : Prop := {
  tc_report : Reports s !! (q, t) = Some r;
  tc_valid : rep_is_disputed r = false;
  tc_reporter : rep_reporter r = who;
  tc_age : 12 * HOURS < sys_now s - t <= u64_max;
  tc_count : value_or_zero (TipCount s) q <> 0;
  tc_search : search_tip search_tip_fuel (tip_later_or_missing q t) 0
                (value_or_zero (TipCount s) q) s = (Ok i, s);
  tc_tip : Tips s !! (q, i) = Some tp;
  tc_earned : default 0 (rep_previous r) < tip_timestamp tp <= t;
  tc_unclaimed : 0 < tip_amount tp;
  tc_effect : s' = upd_Tips <[(q, i) := set_tip_amount 0 tp]> s;
  tc_amount : earlier_tips q r (default 0 (rep_previous r)) i (tip_amount tp) s' = (Ok amount, s');
}.

Lemma get_onetime_tip_amount_Ok q t who s x s' :
  get_onetime_tip_amount q t who s = (Ok x, s') ->
  exists r i tp, tip_claimed s s' q t who r i tp x.
Proof.
  unfold get_onetime_tip_amount. intros H. cinv.
  destruct (Z.eqb_spec (value_or_zero (TipCount s) q) 0) as [|Hc]; [cinv; done|].
  apply bind_Ok in H as (i & s1 & Hs & H).
  pose proof (keeps_run id _ _ _ _ (keeps_search_tip id _
    (fun m => keeps_tip_later_or_missing id q t m) _ _ _) Hs) as Hk.
  unfold id in Hk. subst s1. cinv.
  match goal with H : earlier_tips _ _ _ _ _ _ = _ |- _ =>
    pose proof (keeps_run id _ _ _ _ (keeps_earlier_tips id _ _ _ _ _) H) as Hk end.
  unfold id in Hk. conditions. subst. eexists _, _, _. split; try done; lia.
Qed.

(** Claiming again fails. *)
Lemma get_onetime_tip_amount_again s s' q t who r i tp x :
  tip_claimed s s' q t who r i tp x ->
  get_onetime_tip_amount q t who s' = (Err (PalletError TipAlreadyClaimed), s').
Proof.
  intros [Hr Hv Hwho Hage Hc Hs Ht He Hu -> _].
  assert (Hstep : forall A (m : Call A) (k : A -> Call Balance) a s0,
    m s0 = (Ok a, s0) -> bind m k s0 = k a s0) by (intros; by apply bind_run).
  unfold get_onetime_tip_amount.
  rewrite (Hstep _ _ _ (sys_now s)) by done.
  rewrite (Hstep _ _ _ (sys_now s - t)).
  2: { unfold ok_or_arith, checked_sub. rewrite checked_ok; [done|]. unfold_times. lia. }
  rewrite (Hstep _ _ _ tt) by (unfold ensure_that; rewrite (proj2 (Z.ltb_lt _ _)) by lia; done).
  rewrite (Hstep _ _ _ (Some r)) by (unfold read, gets; simpl; by rewrite Hr).
  rewrite (Hstep _ _ _ r) by done. rewrite (Hstep _ _ _ tt) by (by rewrite Hv).
  rewrite (Hstep _ _ _ tt) by (by rewrite Hwho, Z.eqb_refl).
  rewrite (Hstep _ _ _ (value_or_zero (TipCount s) q)) by done.
  destruct (Z.eqb_spec (value_or_zero (TipCount s) q) 0); [done|].
  rewrite (Hstep _ _ _ i).
  2: { eapply search_tip_same; [|exact Hs]. intros m. eexists. split; [done|].
       unfold tip_later_or_missing, read, gets. simpl. rewrite lookup_insert. goal_decide; [|done].
       simplify_eq. by rewrite Ht. }
  rewrite (Hstep _ _ _ (Some (set_tip_amount 0 tp)))
    by (unfold read, gets; simpl; by rewrite lookup_insert_eq).
  rewrite (Hstep _ _ _ (set_tip_amount 0 tp)) by done.
  rewrite (Hstep _ _ _ tt)
    by (unfold ensure_that; simpl; rewrite (proj2 (Z.ltb_lt _ _)) by lia; done).
  rewrite (Hstep _ _ _ tt)
    by (unfold ensure_that; simpl; rewrite Zle_imp_le_bool by lia; done).
  done.
Qed.
End OneTime.

(** ** Rewards of a feed *)

Section Feeds.
Context {T : Config}.
Implicit Types s : State.

(** The start of the interval of a feed that [t] falls in. *)
Definition interval_start (f : Feed) (t : Timestamp) : Timestamp :=
  feed_start_time f + feed_interval f * ((t - feed_start_time f) / feed_interval f).

(** First of its interval and within the window. *)
Definition in_window (f : Feed) (r : Report) (t : Timestamp) : bool :=
  (t - interval_start f t <? feed_window f)
  && (default 0 (rep_previous r) <? interval_start f t).

(** The reward of a report in the window, or for a change of price. *)
Definition reward_of (f : Feed) (r : Report) (t : Timestamp) : Balance :=
  Z.min (feed_balance f)
    (if in_window f r t
     then saturating_add u128_max (feed_reward f)
            (feed_reward_increase_per_second f * (t - interval_start f t))
     else feed_reward f).

Record reward_earned s (i : FeedId) (q : QueryId) (t : Timestamp) (f : Feed) (r : Report)
    : Prop := {
  re_feed : DataFeeds s !! (q, i) = Some f;
  re_age : 0 <= sys_now s - t < 4 * WEEKS;
  re_unclaimed : (q, i, t) ∉ DataFeedRewardClaimed s;
  re_interval : feed_interval f <> 0 /\ feed_start_time f <= t;
  re_report : Reports s !! (q, t) = Some r;
  re_valid : rep_is_disputed r = false;
  re_price : in_window f r t = false -> exists change,
    price_change f q t (default 0 (rep_previous r)) s = (Ok change, s) /\
    feed_price_threshold f < change;
}.

Lemma do_get_reward_amount_Ok i q t s x s' :
  do_get_reward_amount i q t s = (Ok x, s') ->
  s' = s /\ exists f r, reward_earned s i q t f r /\ x = reward_of f r t.
Proof.
  intros H. pose proof (keeps_run id _ _ _ _ (keeps_do_get_reward_amount id i q t) H) as Hid.
  unfold id in Hid. split; [done|]. subst s'.
  unfold do_get_reward_amount in H. cinv. conditions. subst.
  match goal with H : price_change _ _ _ _ ?s0 = (Ok _, ?s1) |- _ =>
    assert (s1 = s0) as -> by
      (refine (keeps_run id _ _ _ _ _ H); unfold price_change, price_change_between; solve_keeps);
    rename H into Hp, s0 into s end.
  match goal with H : DataFeeds _ !! _ = Some ?f |- _ => rename f into fd end.
  match goal with H : Reports _ !! _ = Some ?r |- _ => rename r into rp end.
  fold (interval_start fd t) in *. exists fd, rp.
  assert (Hw : (t - interval_start fd t <? feed_window fd) &&
               (default 0 (rep_previous rp) <? interval_start fd t) = in_window fd rp t) by done.
  rewrite Hw in *. unfold reward_of.
  destruct (in_window fd rp t) eqn:Hin; cinv; conditions; subst;
    (split; [split; first [done | lia | by (split; [done|lia]) | by (intros; congruence)
      | by (intros; eauto)]|]).
  - destruct (Z.ltb_spec (feed_balance fd) (saturating_add u128_max (feed_reward fd)
      (feed_reward_increase_per_second fd * (t - interval_start fd t)))); lia.
  - destruct (Z.ltb_spec (feed_balance fd) (feed_reward fd)); lia.
Qed.
End Feeds.

(** ** Claiming the tips of a feed *)

Section Claims.
Context {T : Config}.
Implicit Types s : State.

(** The widths of a feed, and the interval its creation requires. *)
Record feed_ok (f : Feed) : Prop := {
  fo_balance : 0 <= feed_balance f;
  fo_reward : 0 <= feed_reward f;
  fo_increase : 0 <= feed_reward_increase_per_second f;
  fo_interval : 0 < feed_interval f;
}.

Lemma interval_start_le f t : feed_ok f -> feed_start_time f <= t -> interval_start f t <= t.
Proof.
  intros [] Ht. unfold interval_start.
  pose proof (Z.mul_div_le (t - feed_start_time f) (feed_interval f)). lia.
Qed.

Lemma reward_of_nonneg f r t : feed_ok f -> feed_start_time f <= t -> 0 <= reward_of f r t.
Proof.
  intros Hf Ht. pose proof (interval_start_le f t Hf Ht). destruct Hf.
  unfold reward_of, saturating_add. destruct (in_window f r t); [|lia].
  assert (0 <= feed_reward_increase_per_second f * (t - interval_start f t))
    by (apply Z.mul_nonneg_nonneg; lia). zlia.
Qed.

Definition claim_keys (i : FeedId) (q : QueryId) (l : list Timestamp)
    : gset (QueryId * FeedId * Timestamp) := list_to_set ((fun t => (q, i, t)) <$> l).

(** What the loop over the timestamps does not touch. *)
Definition beside_claims s :=
  (st_oracle s, st_staking s, st_governance s, DataFeeds s, Tips s, TipCount s, st_system s).

Lemma claim_timestamp_Ok who i q b l c t s c' s' :
  claim_timestamp who i q b l c t s = (Ok c', s') ->
  exists f r, reward_earned s i q t f r /\ rep_reporter r = who /\
    12 * HOURS < sys_now s - t /\
    c' = Z.min b (saturating_add u128_max c (reward_of f r t)) /\
    (c' = b -> last l = Some t) /\
    FeedsWithFunding s' =
      (if b <=? saturating_add u128_max c (reward_of f r t)
       then FeedsWithFunding s ∖ {[i]} else FeedsWithFunding s) /\
    DataFeedRewardClaimed s' = {[(q, i, t)]} ∪ DataFeedRewardClaimed s /\
    beside_claims s' = beside_claims s.
Proof.
  unfold claim_timestamp. intros H. cinv. conditions.
  match goal with H : do_get_reward_amount _ _ _ _ = _ |- _ =>
    apply do_get_reward_amount_Ok in H as (-> & f & r & He & ->) end.
  exists f, r. split; [done|].
  assert (Hwho : rep_reporter r = who).
  { match goal with H : Some who = get_reporter_by_timestamp _ _ _ |- _ =>
      unfold get_reporter_by_timestamp in H; rewrite (re_report _ _ _ _ _ _ He) in H end.
    by simplify_eq/=. }
  split; [done|]. split; [lia|].
  destruct (Z.leb_spec b (saturating_add u128_max c (reward_of f r t))); cinv; conditions; simpl.
  - split; [lia|]. by repeat split.
  - split; [lia|]. repeat split. lia.
Qed.

(** The rewards of the reports at some times. *)
Definition rewards_of (o : OracleStore) (q : QueryId) (f : Feed) (l : list Timestamp) : Z :=
  foldr (fun t acc => from_option (fun r => reward_of f r t) 0 (Reports o !! (q, t)) + acc) 0 l.

(** The whole loop: the timestamps are distinct and were not claimed before,
    the reward is at most the balance, and the feed loses its funding exactly
    when the balance is used up. *)
Record claimed_all s s' (who : AccountId) (i : FeedId) (q : QueryId) (b c c' : Balance)
    (f : Feed) (l : list Timestamp) : Prop := {
  ca_reward : c <= c' <= b;
  ca_sum : c' = Z.min b (c + rewards_of s q f l);
  ca_distinct : NoDup l;
  ca_fresh : claim_keys i q l ## DataFeedRewardClaimed s;
  ca_claimed : DataFeedRewardClaimed s' = claim_keys i q l ∪ DataFeedRewardClaimed s;
  ca_reports : forall t, t ∈ l -> 12 * HOURS < sys_now s - t < 4 * WEEKS /\
    exists r, Reports s !! (q, t) = Some r /\ rep_reporter r = who /\ rep_is_disputed r = false;
  ca_beside : beside_claims s' = beside_claims s;
  ca_funded : c' < b -> FeedsWithFunding s' = FeedsWithFunding s;
  ca_other_feeds : FeedsWithFunding s' ∖ {[i]} = FeedsWithFunding s ∖ {[i]};
  ca_unfunded : i ∉ FeedsWithFunding s -> i ∉ FeedsWithFunding s';
  ca_exhausted : c < b -> c' = b -> i ∉ FeedsWithFunding s';
}.

Lemma claim_all_Ok who i q b all l : forall c s c' s' f,
  0 <= c <= b -> b <= u128_max -> DataFeeds s !! (q, i) = Some f -> feed_ok f ->
  foldM (claim_timestamp who i q b all) c l s = (Ok c', s') ->
  claimed_all s s' who i q b c c' f l.
Proof.
  induction l as [|t l IH]; intros c s c' s' f Hc Hb Hf Hok H; cbn [foldM] in H.
  - apply ret_Ok in H as [-> ->].
    split; unfold claim_keys; simpl; try done; try lia; [constructor|clear; set_solver..].
  - apply bind_Ok in H as (c1 & s1 & H1 & H).
    apply claim_timestamp_Ok in H1 as (f' & r & He & Hwho & Hage & Hc1 & Hlast & HF & HD & Hk).
    assert (f' = f) as -> by (pose proof (re_feed _ _ _ _ _ _ He); congruence).
    pose proof (reward_of_nonneg f r t Hok (proj2 (re_interval _ _ _ _ _ _ He))) as Hpos.
    assert (Hc1' : c <= c1 <= b) by (unfold saturating_add in Hc1; lia).
    assert (HF1 : FeedsWithFunding s1 = if decide (c1 = b) then FeedsWithFunding s ∖ {[i]}
                                        else FeedsWithFunding s).
    { rewrite HF. destruct (Z.leb_spec b (saturating_add u128_max c (reward_of f r t)));
        [rewrite decide_True by lia|rewrite decide_False by lia]; done. }
    pose proof Hk as Hk2. unfold beside_claims in Hk2. split_pairs.
    apply (IH _ _ _ _ f) in H; [|lia|done|congruence|done].
    destruct H as [A1 A0 A2 A3 A4 A5 A6 A7 A8 A9 A10]. rewrite HD in A3, A4.
    match goal with H : st_oracle s1 = st_oracle s |- _ => rewrite H in A0; rename H into Ho end.
    assert (Htl : t ∉ l).
    { intros Hin. apply (A3 (q, i, t)); [|clear; set_solver]. unfold claim_keys.
      apply elem_of_list_to_set, list_elem_of_fmap. eauto. }
    assert (Hkeys : claim_keys i q (t :: l) = {[(q, i, t)]} ∪ claim_keys i q l) by done.
    split; rewrite ?Hkeys.
    + lia.
    + simpl. rewrite (re_report _ _ _ _ _ _ He). simpl. unfold saturating_add in Hc1. lia.
    + by constructor.
    + pose proof (re_unclaimed _ _ _ _ _ _ He) as Hu. clear -A3 Hu. set_solver.
    + rewrite A4. clear. set_solver.
    + intros u Hu. apply elem_of_cons in Hu as [->|Hu].
      * pose proof (re_age _ _ _ _ _ _ He). split; [lia|].
        exists r. split; [apply (re_report _ _ _ _ _ _ He)|].
        split; [done|apply (re_valid _ _ _ _ _ _ He)].
      * match goal with H : st_system s1 = st_system s |- _ => rewrite H in A5 end.
        rewrite Ho in A5. auto.
    + congruence.
    + intros Hlt. rewrite A7 by done. rewrite HF1. by rewrite decide_False by lia.
    + rewrite A8, HF1. goal_decide; [clear; set_solver|done].
    + intros Hi. apply A9. rewrite HF1. goal_decide; [clear -Hi; set_solver|done].
    + intros Hlt Heq. destruct (Z.eq_dec c1 b) as [E|E]; [|apply A10; lia].
      apply A9. rewrite HF1, decide_True by done. clear. set_solver.
Qed.

(** The fee of a claim, in thousandths, and the transfers of its payment. *)
Definition claim_fee (amount : Balance) : Balance := amount * Fee / 1000.

Record claim_paid (a a' : AssetState) (who : AccountId) (amount : Balance) : Prop := {
  cp_fee : 0 <= claim_fee amount <= amount;
  cp_transfers : exists a1,
    asset_transfer a tips who (amount - claim_fee amount) Protect = inr a1 /\
    (if 0 <? claim_fee amount
     then asset_transfer a1 tips staking_rewards (claim_fee amount) Expendable = inr a'
     else a' = a1);
}.

(** What adding staking rewards does not touch. *)
Definition beside_rewards s :=
  (st_oracle s, st_governance s, st_autopay s, stakes s, StakeAmount s, sys_now s, sys_events s).

Lemma do_add_staking_rewards_Ok who amount s u s' :
  do_add_staking_rewards who amount s = (Ok u, s') ->
  beside_rewards s' = beside_rewards s /\
  if 0 <? amount
  then asset_transfer (sys_assets s) who staking_rewards amount Expendable = inr (sys_assets s')
  else sys_assets s' = sys_assets s.
Proof.
  unfold do_add_staking_rewards. intros H. apply bind_Ok in H as (? & s1 & H1 & H).
  assert (E1 : beside_rewards s1 = beside_rewards s /\
    if 0 <? amount
    then asset_transfer (sys_assets s) who staking_rewards amount Expendable = inr (sys_assets s1)
    else sys_assets s1 = sys_assets s) by (destruct (0 <? amount); cinv; done).
  apply bind_Ok in H as (? & s2 & H2 & H).
  assert (E2 : keeps (fun s => (beside_rewards s, sys_assets s)) update_rewards)
    by (unfold update_rewards; solve_keeps).
  apply (keeps_run _ _ _ _ _ E2) in H2. clear E2.
  eapply (keeps_run (fun s => (beside_rewards s, sys_assets s))) in H; [|solve_keeps].
  cbv beta in *. split_pairs. destruct E1 as [E1 E3].
  split; [congruence|]. destruct (0 <? amount); congruence.
Qed.

Lemma pay_claim_Ok who amount s u s' : pay_claim who amount s = (Ok u, s') ->
  claim_paid (sys_assets s) (sys_assets s') who amount /\ beside_rewards s' = beside_rewards s.
Proof.
  unfold pay_claim. intros H. cinv. conditions. subst. fold (claim_fee amount) in *.
  match goal with H : do_add_staking_rewards _ _ _ = _ |- _ =>
    apply do_add_staking_rewards_Ok in H as [Hb Ha] end.
  simpl in *. split; [|done]. split; [|eauto].
  match goal with H : 0 <= amount - _ <= _ |- _ => revert H end.
  unfold claim_fee. split; [apply Z.div_pos; lia|lia].
Qed.

(** A successful claim of the tips of a feed. *)
Record tips_claimed s s' (who : AccountId) (i : FeedId) (q : QueryId) (l : list Timestamp)
    (f : Feed) (amount : Balance) : Prop := {
  tcl_feed : DataFeeds s !! (q, i) = Some f;
  tcl_amount : amount = Z.min (feed_balance f) (rewards_of s q f l);
  tcl_nonneg : 0 <= amount;
  tcl_balance : DataFeeds s' =
    <[(q, i) := set_feed_balance (feed_balance f - amount) f]> (DataFeeds s);
  tcl_paid : claim_paid (sys_assets s) (sys_assets s') who amount;
  tcl_distinct : NoDup l;
  tcl_fresh : claim_keys i q l ## DataFeedRewardClaimed s;
  tcl_claimed : DataFeedRewardClaimed s' = claim_keys i q l ∪ DataFeedRewardClaimed s;
  tcl_reports : forall t, t ∈ l -> 12 * HOURS < sys_now s - t < 4 * WEEKS /\
    exists r, Reports s !! (q, t) = Some r /\ rep_reporter r = who /\ rep_is_disputed r = false;
  tcl_funding : FeedsWithFunding s' =
    if decide (amount = feed_balance f) then FeedsWithFunding s ∖ {[i]} else FeedsWithFunding s;
  tcl_core : core s' = core s;
  tcl_events : sys_events s' = TipClaimed i q amount who :: sys_events s;
}.

Lemma claim_tip_Ok origin i q l s u s' :
  (forall f, DataFeeds s !! (q, i) = Some f -> feed_ok f /\ feed_balance f <= u128_max) ->
  claim_tip origin i q l s = (Ok u, s') ->
  exists who f amount, origin = Signed who /\ tips_claimed s s' who i q l f amount.
Proof.
  intros Hfeeds H.
  pose proof (keeps_run _ _ _ _ _ (keeps_core origin (c_claim_tip i q l) I) H) as Hcore.
  unfold claim_tip in H. cinv. conditions.
  match goal with H : DataFeeds _ !! _ = Some ?f |- _ =>
    rename f into fd; rename H into Hfd; destruct (Hfeeds _ Hfd) as [Hok Hmax] end.
  match goal with H : foldM _ _ _ _ = (Ok ?c, _) |- _ => rename c into amount;
    apply (claim_all_Ok _ _ _ _ _ _ _ _ _ _ fd) in H as Hall; [|lia|done|done|done] end.
  match goal with H : pay_claim _ _ _ = _ |- _ => apply pay_claim_Ok in H as [Hpaid Hb] end.
  destruct Hall as [A1 A0 A2 A3 A4 A5 A6 A7 A8 A9 A10].
  unfold beside_claims, beside_rewards in *. split_pairs. simpl in *.
  match goal with H : st_autopay _ = _ |- _ => rename H into Hap end.
  match goal with H : st_system _ = st_system s |- _ => rename H into Hsys; rewrite Hsys in Hpaid end.
  eexists _, fd, amount. split; [done|]. split; try done; simpl; rewrite ?Hap; simpl.
  - lia.
  - unfold saturating_sub. rewrite Z.max_r by lia. congruence.
  - done.
  - goal_decide; [|apply A7; lia].
    specialize (A10 ltac:(lia) ltac:(done)). rewrite <- A8. clear -A10. set_solver.
  - f_equal. congruence.
Qed.

(** ** Funding *)

Record feed_funded s s' (who : AccountId) (i : FeedId) (q : QueryId) (amount : Balance)
    (f : Feed) : Prop := {
  ff_feed : DataFeeds s !! (q, i) = Some f;
  ff_amount : 0 < amount;
  ff_paid : asset_transfer (sys_assets s) who tips amount Expendable = inr (sys_assets s');
  ff_balance : DataFeeds s' = <[(q, i) :=
    set_feed_balance (saturating_add u128_max (feed_balance f) amount) f]> (DataFeeds s);
  ff_funding : FeedsWithFunding s' = {[i]} ∪ FeedsWithFunding s;
  ff_total : UserTipsTotal s' =
    <[who := saturating_add u128_max (value_or_zero (UserTipsTotal s) who) amount]>
      (UserTipsTotal s);
  ff_claimed : DataFeedRewardClaimed s' = DataFeedRewardClaimed s;
  ff_core : core s' = core s;
  ff_events : exists f', sys_events s' = DataFeedFunded q i amount who f' :: sys_events s;
}.

Lemma do_fund_feed_Ok who i q amount s u s' :
  do_fund_feed who i q amount s = (Ok u, s') -> exists f, feed_funded s s' who i q amount f.
Proof.
  unfold do_fund_feed, accrue_user_tips. intros H. cinv. conditions. eexists. split; try done. by eexists.
Qed.
End Claims.
