(* ===== verification/AutopayFrames.v ===== *)
(** * What the other calls leave of autopay

    Only the calls of autopay change its storage and deposit its events.  A view of
    the state that reads nothing else ([AutopayView]) is kept by every other call and
    by the hook, so an invariant of that storage is one of the calls of autopay. *)

From S2P Require Import Prelude Types Config Storage Oracle OracleFacts Queries Xcm Governance.
From S2P Require Import GovernanceFacts Staking StakingFacts Autopay Pallet PalletFacts.

(** ** The calls that change the storage of autopay *)

Section Frames.
Context {T : Config}.
Implicit Types s : State.

(** The events that the calls of autopay deposit. *)
Definition is_autopay_event (e : Event) : Prop :=
  match e with
  | DataFeedFunded _ _ _ _ _ | NewDataFeed _ _ _ _ | OneTimeTipClaimed _ _ _
  | TipAdded _ _ _ _ | TipClaimed _ _ _ _ | QueryDataStored _ => True
  | _ => False
  end.

(** A view of the state that reads the storage and the events of autopay only. *)
Class AutopayView {X} (view : State -> X) : Prop := {
  av_oracle : forall g s, view (upd_st_oracle g s) = view s;
  av_staking : forall g s, view (upd_st_staking g s) = view s;
  av_governance : forall g s, view (upd_st_governance g s) = view s;
  av_sent : forall g s, view (upd_sys_sent g s) = view s;
  av_assets : forall g s, view (upd_sys_assets g s) = view s;
  av_event : forall e s, ~ is_autopay_event e -> view (upd_sys_events (cons e) s) = view s;
}.

Ltac solve_view :=
  solve_keeps; intros;
  first [apply av_staking | apply av_oracle | apply av_governance | apply av_sent
        | apply av_assets | apply av_event; first [assumption | by intros []]].

Section Views.
Context {X} (view : State -> X) {View : AutopayView view}.

#[local] Hint Resolve keeps_do_get_reward_amount keeps_pending_reward_of : frame.

Lemma view_update_rewards : keeps view update_rewards.
Proof. unfold update_rewards. solve_view. Qed.
Lemma view_send_contract_call c d g e : ~ is_autopay_event e ->
  keeps view (send_contract_call c d g e).
Proof. intros He. unfold send_contract_call, bounded_input, transact, send_xcm. solve_view. Qed.
Lemma view_init_sub_accounts l : keeps view (init_sub_accounts l).
Proof. induction l as [|a l IH]; simpl; solve_view. Qed.
Lemma view_do_update_stake_amount : keeps view do_update_stake_amount.
Proof. unfold do_update_stake_amount. solve_view. Qed.
Lemma view_update_dispute_fee : keeps view update_dispute_fee.
Proof. unfold update_dispute_fee. solve_view. Qed.
Lemma view_do_vote a i b : keeps view (do_vote a i b).
Proof. unfold do_vote. solve_view. Qed.
Lemma view_remove_value_loop q p l : forall it, keeps view (remove_value_loop q p l it).
Proof. induction l as [|i l IH]; intros it; simpl; solve_view. Qed.
Lemma view_pay_rounds i r d v n l : keeps view (pay_rounds i r d v n l).
Proof. induction l as [|k l IH]; simpl; solve_view. Qed.

#[local] Hint Resolve view_update_rewards view_init_sub_accounts view_do_update_stake_amount
  view_update_dispute_fee view_do_vote view_remove_value_loop view_pay_rounds : frame.
#[local] Hint Extern 1 (keeps _ (send_contract_call _ _ _ _)) =>
  apply view_send_contract_call; by intros [] : frame.

Lemma view_do_add_staking_rewards a n : keeps view (do_add_staking_rewards a n).
Proof. unfold do_add_staking_rewards. solve_view. Qed.
Lemma view_update_stake a i n : keeps view (update_stake_and_pay_rewards a i n).
Proof.
  unfold update_stake_and_pay_rewards, settle_stake, count_staker, enter_stake. solve_view.
Qed.
Lemma view_vote_all a l : keeps view (vote_all a l).
Proof. induction l as [|[i b] l IH]; simpl; solve_view. Qed.
Lemma view_send_vote i r : keeps view (send_vote i r).
Proof. unfold send_vote. solve_view. Qed.
Lemma view_remove_value q t : keeps view (remove_value q t).
Proof. unfold remove_value. solve_view. Qed.

#[local] Hint Resolve view_do_add_staking_rewards view_update_stake view_vote_all
  view_send_vote view_remove_value : frame.

Lemma view_pay_claim a n : keeps view (pay_claim a n).
Proof. unfold pay_claim. solve_view. Qed.
Lemma view_do_send_votes t n : keeps view (do_send_votes t n).
Proof. unfold do_send_votes. solve_view. Qed.
Lemma view_update_prices t : keeps view (update_prices t).
Proof. apply keeps_transactional. solve_view. Qed.

#[local] Hint Resolve view_do_send_votes view_update_prices : frame.

Lemma view_on_initialize : keeps view on_initialize.
Proof. unfold on_initialize. solve_view. Qed.
End Views.

Definition is_autopay_call (c : PalletCall) : Prop :=
  match c with
  | c_claim_onetime_tip _ _ | c_claim_tip _ _ _ | c_fund_feed _ _ _
  | c_setup_data_feed _ _ _ _ _ _ _ _ _ | c_tip _ _ _ => True
  | _ => False
  end.

#[export] Instance is_autopay_call_dec c : Decision (is_autopay_call c).
Proof. destruct c; simpl; solve_decision. Defined.

#[local] Hint Resolve view_update_rewards view_init_sub_accounts view_do_update_stake_amount
  view_update_dispute_fee view_do_vote view_remove_value_loop view_pay_rounds
  view_do_add_staking_rewards view_update_stake view_vote_all view_send_vote view_remove_value
  view_do_send_votes view_update_prices : frame.
#[local] Hint Extern 1 (keeps _ (send_contract_call _ _ _ _)) =>
  apply view_send_contract_call; first [assumption | by intros []] : frame.

(** The other calls keep the view. *)
Lemma keeps_view {X} (view : State -> X) {View : AutopayView view} origin c :
  ~ is_autopay_call c -> keeps view (call_body origin c).
Proof.
  destruct c; simpl; intros Hc; try (by contradict Hc);
    unfold void, register, fee_location_get, fee_location_convert, add_staking_rewards,
      submit_value, update_stake_amount, begin_dispute, begin_first_round, begin_next_round,
      vote, vote_on_multiple_disputes, send_votes, report_stake_deposited,
      report_staking_withdraw_request, report_stake_withdrawn, report_slash, slash_staker,
      restake, withdraw_sub, report_vote_tallied, tally_votes, report_vote_executed,
      execute_vote; solve_view.
Qed.

(** The storage of autopay itself. *)
Definition autopay s : AutopayStore := st_autopay s.

#[export] Instance autopay_view : AutopayView autopay.
Proof. by split. Qed.

Lemma keeps_autopay origin c : ~ is_autopay_call c -> keeps autopay (call_body origin c).
Proof. apply keeps_view, _. Qed.

Lemma autopay_on_initialize : keeps autopay on_initialize.
Proof. apply view_on_initialize, _. Qed.

(** An invariant of the storage of autopay and of the time, as that passes. *)
Lemma autopay_invariant (I : AutopayStore -> Timestamp -> Prop) :
  (forall t a, 0 <= t -> I (autopay (genesis t a)) t) ->
  (forall x t t', t <= t' -> I x t -> I x t') ->
  (forall origin c s u s', is_autopay_call c -> call_ok c -> reachable s ->
     I (autopay s) (sys_now s) -> call_body origin c s = (Ok u, s') ->
     I (autopay s') (sys_now s)) ->
  forall s, reachable s -> I (autopay s) (sys_now s).
Proof.
  intros H0 Ht Hc. apply reachable_ind_inv; [intros t a [? _]; by apply H0|].
  intros s s' Hs HI Hstep. eapply Ht; [by apply step_now|]. revert Hs HI.
  destruct Hstep as [x origin c r y Hok Hd Hr|x r y Hi Hr|x t b _|x a]; intros Hs HI; try done.
  - unfold dispatch in Hd. destruct r as [u|e|]; [| |done].
    + apply transactional_Ok in Hd. destruct (decide (is_autopay_call c)) as [Ha|Ha].
      * by eapply Hc.
      * by rewrite (keeps_run _ _ _ _ _ (keeps_autopay origin c Ha) Hd).
    + apply transactional_Err in Hd. by subst.
  - by rewrite (keeps_run _ _ _ _ _ autopay_on_initialize Hi).
Qed.
End Frames.

#[export] Hint Extern 2 (keeps ?v update_rewards) => exact (view_update_rewards v) : frame.
#[export] Hint Extern 2 (keeps ?v (do_add_staking_rewards _ _)) =>
  exact (view_do_add_staking_rewards v _ _) : frame.
#[export] Hint Extern 2 (keeps ?v (pay_claim _ _)) => exact (view_pay_claim v _ _) : frame.
