(* ===== verification/FundingFacts.v ===== *)
(** * The funding of feeds

    The invariant of the feeds: their fields are in range, a feed marked as
    funded has a balance, and a feed with a balance is marked as funded (as long as
    no two feeds share an identifier, which is a hash). *)

From S2P Require Import Prelude Types Config Storage Oracle OracleFacts Queries Xcm Governance.
From S2P Require Import GovernanceFacts Staking StakingFacts Autopay Pallet PalletFacts.
From S2P Require Import AutopayFacts AutopayFrames.

#[local] Set Warnings "-clear-no-such-hyp".

Section Frames.
Context {T : Config}.
Implicit Types s : State.

Definition feeds s := (DataFeeds s, FeedsWithFunding s).

#[export] Instance feeds_view : AutopayView feeds.
Proof. by split. Qed.

#[local] Hint Resolve keeps_search_tip keeps_tip_later keeps_tip_later_or_missing
  keeps_earlier_tips : frame.

Lemma feeds_accrue_user_tips a n : keeps feeds (accrue_user_tips a n).
Proof. unfold accrue_user_tips. solve_keeps. Qed.
Lemma feeds_store_data q d : keeps feeds (store_data q d).
Proof. unfold store_data. solve_keeps. Qed.
Lemma feeds_new_tip q n a c : keeps feeds (new_tip q n a c).
Proof. unfold new_tip. solve_keeps. Qed.
Lemma feeds_get_onetime_tip_amount q t a : keeps feeds (get_onetime_tip_amount q t a).
Proof. unfold get_onetime_tip_amount. solve_keeps. Qed.

#[local] Hint Resolve feeds_accrue_user_tips feeds_store_data feeds_new_tip
  feeds_get_onetime_tip_amount : frame.

(** The calls that change feeds. *)
Definition is_feed_call (c : PalletCall) : Prop :=
  match c with
  | c_claim_tip _ _ _ | c_fund_feed _ _ _ | c_setup_data_feed _ _ _ _ _ _ _ _ _ => True
  | _ => False
  end.

Lemma keeps_feeds origin c : ~ is_feed_call c -> keeps feeds (call_body origin c).
Proof.
  intros Hf. destruct (decide (is_autopay_call c)) as [Hc|Hc]; [|by apply (keeps_view _)].
  destruct c; try done; cbn [call_body]; unfold claim_onetime_tip, tip, add_tip; solve_keeps.
Qed.

Lemma feeds_on_initialize : keeps feeds on_initialize.
Proof. apply view_on_initialize, _. Qed.
End Frames.

Section Invariant.
Context {T : Config}.
Implicit Types s : State.

(** No two feeds have the same identifier. *)
Definition ids_distinct (m : gmap (QueryId * FeedId) Feed) : Prop :=
  forall q q' i, is_Some (m !! (q, i)) -> is_Some (m !! (q', i)) -> q = q'.

Record feed_wf (f : Feed) : Prop := {
  fd_ok : feed_ok f;
  fd_balance : feed_balance f <= u128_max;
  fd_window : feed_window f < feed_interval f;
}.

Record feeds_ok (m : gmap (QueryId * FeedId) Feed) (funded : gset FeedId) : Prop := {
  fs_feed : forall k f, m !! k = Some f -> feed_wf f;
  fs_funded : forall i, i ∈ funded ->
    exists q f, m !! (q, i) = Some f /\ 0 < feed_balance f;
  fs_complete : ids_distinct m -> forall q i f,
    m !! (q, i) = Some f -> 0 < feed_balance f -> i ∈ funded;
}.

Definition feeds_wf s : Prop := feeds_ok (DataFeeds s) (FeedsWithFunding s).

Lemma ids_distinct_insert m k f : ids_distinct (<[k := f]> m) -> ids_distinct m.
Proof.
  intros H q q' i H1 H2. apply (H q q' i); apply lookup_insert_is_Some'; auto.
Qed.

(** Writing a feed, and marking it as funded when it has a balance. *)
Lemma feeds_ok_insert m x q i f x' :
  feeds_ok m x -> feed_wf f ->
  x' ∖ {[i]} = x ∖ {[i]} -> (i ∈ x' -> 0 < feed_balance f) ->
  (ids_distinct m -> 0 < feed_balance f -> i ∈ x') ->
  feeds_ok (<[(q, i) := f]> m) x'.
Proof.
  intros [H1 H2 H3] Hf Hx Hin Hout.
  assert (Hother : forall j, j <> i -> (j ∈ x' <-> j ∈ x)) by set_solver.
  split.
  - intros k g. rewrite lookup_insert_Some. intros [[_ <-]|[_ Hk]]; eauto.
  - intros j Hj. destruct (decide (j = i)) as [->|Hne].
    + exists q, f. rewrite lookup_insert_eq. split; [done|by apply Hin].
    + destruct (H2 j) as (q' & g & Hg & Hb); [by apply Hother|].
      exists q', g. rewrite lookup_insert_ne by congruence. done.
  - intros Hd q' j g. rewrite lookup_insert_Some. intros [[[= <- <-] <-]|[Hne Hg]] Hb.
    + apply Hout; [|done]. by eapply ids_distinct_insert.
    + destruct (decide (j = i)) as [->|Hj].
      * destruct Hne. f_equal.
        apply (Hd q q' i); apply lookup_insert_is_Some'; [by left|right; by eexists].
      * apply Hother; [done|]. apply (H3 (ids_distinct_insert _ _ _ Hd) q' j g Hg Hb).
Qed.

(** A new feed, which has no balance. *)
Lemma feeds_ok_new m x q i f :
  feeds_ok m x -> feed_wf f -> m !! (q, i) = None -> feed_balance f = 0 ->
  feeds_ok (<[(q, i) := f]> m) x.
Proof.
  intros [H1 H2 H3] Hf Hnew Hb. split.
  - intros k g. rewrite lookup_insert_Some. intros [[_ <-]|[_ Hk]]; eauto.
  - intros j Hj. destruct (H2 j Hj) as (q' & g & Hg & Hp). exists q', g.
    rewrite lookup_insert_ne by congruence. done.
  - intros Hd q' j g. rewrite lookup_insert_Some. intros [[_ <-]|[_ Hg]] Hp; [lia|].
    apply (H3 (ids_distinct_insert _ _ _ Hd) q' j g Hg Hp).
Qed.

Lemma do_fund_feed_wf who i q amount s u s' : feeds_wf s ->
  do_fund_feed who i q amount s = (Ok u, s') -> feeds_wf s'.
Proof.
  intros Hwf H. apply do_fund_feed_Ok in H as (f & [Hf Ha _ ED EF _ _ _]).
  destruct (fs_feed _ _ Hwf _ _ Hf) as [[] ? ?].
  unfold feeds_wf. rewrite ED, EF. eapply feeds_ok_insert; [exact Hwf| |set_solver| |set_solver].
  - unfold saturating_add. split; simpl; [split; simpl; try done; zlia|zlia|done].
  - simpl. unfold saturating_add. intros _. zlia.
Qed.

Lemma claim_tip_wf origin i q l s u s' : feeds_wf s ->
  claim_tip origin i q l s = (Ok u, s') -> feeds_wf s'.
Proof.
  intros Hwf H.
  apply claim_tip_Ok in H as (who & f & amount & _ & Hc).
  2: { intros f Hf. destruct (fs_feed _ _ Hwf _ _ Hf). done. }
  destruct Hc as [Hf Ha Ha0 ED _ _ _ _ _ EF _]. destruct (fs_feed _ _ Hwf _ _ Hf) as [[] ? ?].
  unfold feeds_wf. rewrite ED, EF.
  assert (Hnew : feed_wf (set_feed_balance (feed_balance f - amount) f))
    by (split; simpl; [split; simpl; try done; lia|lia|done]).
  goal_decide.
  - eapply feeds_ok_insert; [exact Hwf|done|set_solver|set_solver|]. simpl. lia.
  - eapply feeds_ok_insert; [exact Hwf|done|done|simpl; lia|].
    intros Hd _. eapply (fs_complete _ _ Hwf Hd); [exact Hf|lia].
Qed.

Lemma setup_data_feed_wf origin q r st iv w th inc d amount s u s' :
  0 <= r -> 0 <= inc -> feeds_wf s ->
  setup_data_feed origin q r st iv w th inc d amount s = (Ok u, s') -> feeds_wf s'.
Proof.
  intros Hr Hinc Hwf H. unfold setup_data_feed in H.
  apply bind_Ok in H as (who & s0 & Ho & H). cinv. conditions.
  match goal with Hk : store_data _ _ _ = _ |- _ =>
    apply (keeps_run _ _ _ _ _ (feeds_store_data _ _)) in Hk; unfold feeds in Hk; simpl in Hk;
    injection Hk as ED EF end.
  match goal with Hk : (if _ then do_fund_feed _ _ _ _ else _) ?s1 = _ |- _ =>
    assert (Hwf1 : feeds_wf s1); [|destruct (0 <? amount); [by eapply do_fund_feed_wf|by cinv]] end.
  unfold feeds_wf. simpl. rewrite ED, EF. apply feeds_ok_new; [exact Hwf| |done|done].
  split; simpl; [split; simpl; lia|zlia|done].
Qed.

(** ** Every reachable state *)

Lemma call_feeds origin c s u s' : call_ok c -> feeds_wf s ->
  call_body origin c s = (Ok u, s') -> feeds_wf s'.
Proof.
  intros Hc Hwf H.
  assert (is_feed_call c \/ ~ is_feed_call c) as [Hf|Hf] by (destruct c; simpl; auto).
  - destruct c; simpl in *; try done.
    + by eapply claim_tip_wf.
    + unfold fund_feed in H. cinv. by eapply do_fund_feed_wf.
    + eapply setup_data_feed_wf; [| |exact Hwf|exact H]; lia.
  - pose proof (keeps_run _ _ _ _ _ (keeps_feeds origin c Hf) H) as Hk.
    unfold feeds in Hk. injection Hk as E1 E2. unfold feeds_wf. by rewrite E1, E2.
Qed.

Lemma feeds_wf_reachable s : reachable s -> feeds_wf s.
Proof.
  revert s. apply reachable_ind_inv.
  - intros t a _. split; simpl; set_solver.
  - intros s s' _ Hwf Hs. revert Hwf.
    destruct Hs as [x origin c r y Hc Hd Hr|x r y Hi Hr|x t b Ht|x a]; intros Hwf; try done.
    + unfold dispatch in Hd. destruct r as [u|e|]; [| |done].
      * apply transactional_Ok in Hd. exact (call_feeds _ _ _ _ _ Hc Hwf Hd).
      * apply transactional_Err in Hd. by subst.
    + pose proof (feeds_on_initialize x) as Hk. rewrite Hi in Hk. simpl in Hk.
      unfold feeds in Hk. injection Hk as E1 E2. unfold feeds_wf. by rewrite E1, E2.
Qed.
End Invariant.
