(* ===== verification/DirectoryFacts.v ===== *)
(** * The directory of autopay

    [directory_ok]: what is looked up by the identifier of a feed or a query is there,
    and belongs to it. *)

From S2P Require Import Prelude Types Config Storage Oracle OracleFacts Queries Xcm Governance.
From S2P Require Import GovernanceFacts Staking StakingFacts Autopay Pallet PalletFacts.
From S2P Require Import AutopayFacts AutopayFrames FundingFacts.

#[local] Set Warnings "-clear-no-such-hyp".

(** ** The directory *)

Section Directory.
Context {T : Config}.
Implicit Types s : State.
Implicit Types x : AutopayStore.

(** The identifier of a feed is that of its query and its parameters. *)
Definition feed_id_of_feed (q : QueryId) (f : Feed) : FeedId :=
  feed_id_of q (feed_reward f) (feed_start_time f) (feed_interval f) (feed_window f)
    (feed_price_threshold f) (feed_reward_increase_per_second f).

Record directory_ok x : Prop := {
  dir_id : forall q i f, DataFeeds x !! (q, i) = Some f -> i = feed_id_of_feed q f;
  dir_query : ids_distinct (DataFeeds x) -> forall q i,
    is_Some (DataFeeds x !! (q, i)) -> QueryIdFromDataFeedId x !! i = Some q;
  dir_feed : forall q i, QueryIdFromDataFeedId x !! i = Some q -> is_Some (DataFeeds x !! (q, i));
  dir_data : forall q i, is_Some (DataFeeds x !! (q, i)) -> is_Some (QueryData x !! q);
  dir_hash : forall q d, QueryData x !! q = Some d -> q = keccak256 d;
  dir_count : forall q, 0 <= value_or_zero (TipCount x) q;
  dir_tips : forall q, 0 < value_or_zero (TipCount x) q -> is_Some (QueryData x !! q);
  dir_funded : forall q, q ∈ QueryIdsWithFunding x -> 0 < value_or_zero (TipCount x) q;
}.

(** What the directory reads beside the feeds. *)
Definition catalog s :=
  (QueryIdFromDataFeedId s, QueryIdsWithFunding s, TipCount s, QueryData s).

#[local] Hint Resolve keeps_do_get_reward_amount : frame.

Lemma catalog_accrue_user_tips a n : keeps catalog (accrue_user_tips a n).
Proof. unfold accrue_user_tips. solve_keeps. Qed.
Lemma catalog_update_rewards : keeps catalog update_rewards.
Proof. unfold update_rewards. solve_keeps. Qed.

#[local] Hint Resolve catalog_accrue_user_tips catalog_update_rewards : frame.

Lemma catalog_do_add_staking_rewards a n : keeps catalog (do_add_staking_rewards a n).
Proof. unfold do_add_staking_rewards. solve_keeps. Qed.
Lemma catalog_do_fund_feed a i q n : keeps catalog (do_fund_feed a i q n).
Proof. unfold do_fund_feed. solve_keeps. Qed.

#[local] Hint Resolve catalog_do_add_staking_rewards : frame.

Lemma catalog_pay_claim a n : keeps catalog (pay_claim a n).
Proof. unfold pay_claim. solve_keeps. Qed.
Lemma catalog_claim_timestamp a i q b l c t : keeps catalog (claim_timestamp a i q b l c t).
Proof. unfold claim_timestamp. solve_keeps. Qed.

#[local] Hint Resolve catalog_pay_claim catalog_claim_timestamp : frame.

Lemma catalog_claim_tip o i q l : keeps catalog (claim_tip o i q l).
Proof. unfold claim_tip. solve_keeps. Qed.

(** Writing a feed that is there, with the same parameters. *)
Lemma directory_balance x x' q i f f' :
  directory_ok x -> DataFeeds x !! (q, i) = Some f ->
  feed_id_of_feed q f' = feed_id_of_feed q f ->
  DataFeeds x' = <[(q, i) := f']> (DataFeeds x) ->
  (QueryIdFromDataFeedId x', QueryIdsWithFunding x', TipCount x', QueryData x')
  = (QueryIdFromDataFeedId x, QueryIdsWithFunding x, TipCount x, QueryData x) ->
  directory_ok x'.
Proof.
  intros [D1 D2 D3 D4 D5 D6 D7 D8] Hf Hp ED E. injection E as E1 E2 E3 E4.
  assert (Hsame : forall k, is_Some (DataFeeds x' !! k) <-> is_Some (DataFeeds x !! k)).
  { intros k. rewrite ED, lookup_insert_is_Some'. split; [intros [<-|]; [by eexists|done]|by right]. }
  split; rewrite ?E1, ?E2, ?E3, ?E4; try done.
  - intros q' i' g. rewrite ED, lookup_insert_Some. intros [[[= <- <-] <-]|[_ Hg]]; [|by apply D1].
    rewrite Hp. by apply D1.
  - intros Hd q' i' Hs. apply D2; [|by apply Hsame].
    intros a b j Ha Hb. apply (Hd a b j); by apply Hsame.
  - intros q' i' Hq. apply Hsame. by apply D3.
  - intros q' i' Hs. apply (D4 q' i'). by apply Hsame.
Qed.

Lemma do_fund_feed_directory who i q n s u s' : directory_ok (autopay s) ->
  do_fund_feed who i q n s = (Ok u, s') -> directory_ok (autopay s').
Proof.
  intros Hd H. pose proof (keeps_run _ _ _ _ _ (catalog_do_fund_feed _ _ _ _) H) as Hk.
  apply do_fund_feed_Ok in H as (f & [Hf _ _ ED _ _ _ _]).
  by eapply directory_balance; [exact Hd|exact Hf| |exact ED|exact Hk].
Qed.

Lemma claim_tip_directory o i q l s u s' : feeds_wf s -> directory_ok (autopay s) ->
  claim_tip o i q l s = (Ok u, s') -> directory_ok (autopay s').
Proof.
  intros Hwf Hd H. pose proof (keeps_run _ _ _ _ _ (catalog_claim_tip _ _ _ _) H) as Hk.
  apply claim_tip_Ok in H as (who & f & n & _ & Hc).
  2: { intros f Hf. by destruct (fs_feed _ _ Hwf _ _ Hf). }
  by eapply directory_balance;
    [exact Hd|exact (tcl_feed _ _ _ _ _ _ _ _ Hc)| |exact (tcl_balance _ _ _ _ _ _ _ _ Hc)|exact Hk].
Qed.

(** Storing the data of a query, which hashes to its identifier. *)
Lemma directory_store x x' d :
  directory_ok x ->
  QueryData x' = <[keccak256 d := d]> (QueryData x) ->
  (DataFeeds x', QueryIdFromDataFeedId x', QueryIdsWithFunding x', TipCount x')
  = (DataFeeds x, QueryIdFromDataFeedId x, QueryIdsWithFunding x, TipCount x) ->
  directory_ok x'.
Proof.
  intros [D1 D2 D3 D4 D5 D6 D7 D8] EQ E. injection E as E1 E2 E3 E4.
  split; rewrite ?EQ, ?E1, ?E2, ?E3, ?E4; try done.
  - intros q i Hs. apply lookup_insert_is_Some'. right. by eapply D4.
  - intros q d'. rewrite lookup_insert_Some. intros [[<- <-]|[_ Hq]]; [done|by apply D5].
  - intros q Hq. apply lookup_insert_is_Some'. right. by apply D7.
Qed.

(** A new feed, with its query and the data of the query. *)
Lemma directory_new x x' q f :
  let i := feed_id_of_feed q f in
  directory_ok x -> is_Some (QueryData x !! q) ->
  DataFeeds x' = <[(q, i) := f]> (DataFeeds x) ->
  QueryIdFromDataFeedId x' = <[i := q]> (QueryIdFromDataFeedId x) ->
  (QueryIdsWithFunding x', TipCount x', QueryData x')
  = (QueryIdsWithFunding x, TipCount x, QueryData x) ->
  directory_ok x'.
Proof.
  intros i [D1 D2 D3 D4 D5 D6 D7 D8] HQ ED EI E. injection E as E1 E2 E3.
  split; rewrite ?ED, ?EI, ?E1, ?E2, ?E3; try done.
  - intros q' i' g. rewrite lookup_insert_Some. intros [[[= <- <-] <-]|[_ Hg]]; [done|by apply D1].
  - intros Hd q' i' Hs. rewrite lookup_insert. goal_decide.
    + f_equal. apply (Hd q q' i); [|congruence]. apply lookup_insert_is_Some'. by left.
    + apply D2; [by eapply ids_distinct_insert|].
      apply lookup_insert_is_Some' in Hs as [[= <- <-]|Hs]; [done|done].
  - intros q' i'. rewrite lookup_insert_Some. intros [[<- <-]|[_ Hq]];
      apply lookup_insert_is_Some'; [by left|right; by apply D3].
  - intros q' i' Hs. apply lookup_insert_is_Some' in Hs as [[= <- <-]|Hs]; [done|by eapply D4].
Qed.

Lemma setup_data_feed_directory o q r st iv w th inc d n s u s' : directory_ok (autopay s) ->
  setup_data_feed o q r st iv w th inc d n s = (Ok u, s') -> directory_ok (autopay s').
Proof.
  intros Hd H. unfold setup_data_feed, store_data in H.
  apply bind_Ok in H as (who & s0 & Ho & H). cinv. conditions. subst.
  match goal with Hk : (if _ then do_fund_feed _ _ _ _ else _) ?s1 = _ |- _ =>
    assert (Hd1 : directory_ok (autopay s1));
      [|destruct (0 <? n); [by eapply do_fund_feed_directory|by cinv]] end.
  match goal with Hd : directory_ok (autopay ?x) |- _ =>
    pose (y := autopay (upd_QueryData <[keccak256 d := d]> x)) end.
  match goal with |- directory_ok (autopay (upd_sys_events _ (upd_DataFeeds <[_ := ?f]> _))) =>
    apply (directory_new y _ (keccak256 d) f); [| |reflexivity..] end.
  - eapply directory_store; [exact Hd|reflexivity..].
  - simpl. rewrite lookup_insert_eq. by eexists.
Qed.

(** *** Tips *)

(** A tip is added to a query with data: the count and the list of funded queries
    follow. *)
Lemma directory_tip x x' q :
  directory_ok x -> is_Some (QueryData x !! q) ->
  (forall q', q' <> q -> value_or_zero (TipCount x') q' = value_or_zero (TipCount x) q') ->
  0 < value_or_zero (TipCount x') q ->
  QueryIdsWithFunding x' ⊆ {[q]} ∪ QueryIdsWithFunding x ->
  (DataFeeds x', QueryIdFromDataFeedId x', QueryData x')
  = (DataFeeds x, QueryIdFromDataFeedId x, QueryData x) ->
  directory_ok x'.
Proof.
  intros [D1 D2 D3 D4 D5 D6 D7 D8] HQ Hother Hpos Hfund E. injection E as E1 E2 E3.
  split; rewrite ?E1, ?E2, ?E3; try done.
  - intros q'. destruct (decide (q' = q)) as [->|Hne]; [lia|]. rewrite Hother by done. apply D6.
  - intros q' Hq. destruct (decide (q' = q)) as [->|Hne]; [done|].
    apply D7. by rewrite <- Hother.
  - intros q' Hq. destruct (decide (q' = q)) as [->|Hne]; [done|]. rewrite Hother by done.
    apply D8. set_solver.
Qed.

(** The part of the storage that the deposit of a tip leaves alone. *)
Definition beside_tip s :=
  (DataFeeds s, QueryIdFromDataFeedId s, QueryIdsWithFunding s).

Lemma beside_tip_add_tip q n d : keeps beside_tip (add_tip q n d).
Proof. unfold add_tip, new_tip, store_data. solve_keeps. Qed.

Lemma new_tip_count q n a c s u s' : 0 <= value_or_zero (TipCount s) q ->
  new_tip q n a c s = (Ok u, s') ->
  QueryData s' = QueryData s /\ 0 < value_or_zero (TipCount s') q /\
  (forall q', q' <> q -> value_or_zero (TipCount s') q' = value_or_zero (TipCount s) q').
Proof.
  intros Hpos H. unfold new_tip in H. cinv. simpl. unfold value_or_zero. split; [done|].
  split; [rewrite lookup_insert_eq|intros; by rewrite lookup_insert_ne].
  unfold value_or_zero in Hpos. simpl. unfold saturating_add. zlia.
Qed.

(** The data of the query of a deposit is stored with the first tip. *)
Lemma add_tip_count q n d s u s' : directory_ok (autopay s) ->
  add_tip q n d s = (Ok u, s') ->
  (QueryData s' = QueryData s /\ is_Some (QueryData s !! q) \/
   QueryData s' = <[q := d]> (QueryData s)) /\
  0 < value_or_zero (TipCount s') q /\
  (forall q', q' <> q -> value_or_zero (TipCount s') q' = value_or_zero (TipCount s) q').
Proof.
  unfold autopay. intros Hd H. pose proof (dir_count _ Hd q) as Hcount.
  unfold add_tip in H. unfold_calls. rewrite bind_gets in H.
  destruct (Z.eqb_spec (value_or_zero (TipCount s) q) 0) as [Hz|Hz].
  - unfold store_data in H. cinv.
    match goal with H : new_tip _ _ _ _ _ = _ |- _ => apply new_tip_count in H as (<- & ? & ?) end;
      [|done]. simpl. auto.
  - assert (Hq : is_Some (QueryData s !! q)) by (apply (dir_tips _ Hd); lia).
    cinv. conditions. subst.
    destruct (Tips s !! _) as [old|]; [destruct (_ <? _)|].
    1: cinv; simpl; split; [by left|]; split; [lia|done].
    all: apply new_tip_count in H as (-> & ? & ?); auto.
Qed.

Lemma tip_directory o q n d s u s' : directory_ok (autopay s) ->
  tip o q n d s = (Ok u, s') -> directory_ok (autopay s').
Proof.
  intros Hd H. unfold tip, accrue_user_tips in H.
  apply bind_Ok in H as (who & s0 & Ho & H). cinv. conditions. subst.
  match goal with H : add_tip _ _ _ _ = (_, ?s1) |- _ =>
    pose proof (keeps_run _ _ _ _ _ (beside_tip_add_tip _ _ _) H) as Hk;
    apply add_tip_count in H as (HQ & Hpos & Hother); [|done]; rename s1 into s2 end.
  unfold beside_tip in Hk. injection Hk as E1 E2 E3.
  match goal with Hd : directory_ok (autopay ?x) |- _ =>
    pose (y := autopay (upd_QueryData (fun _ => QueryData s2) x)) end.
  assert (Hy : directory_ok y /\ is_Some (QueryData y !! keccak256 d)).
  { destruct HQ as [[EQ HQ]|EQ]; unfold y; simpl; rewrite EQ.
    - split; [|done]. revert Hd. clear. by destruct s as [? ? ? []].
    - split; [eapply directory_store; [exact Hd|reflexivity|done]|]. rewrite lookup_insert_eq. by eexists. }
  destruct Hy as [Hy HQy].
  eapply (directory_tip y); [exact Hy|exact HQy|..].
  all: destruct (0 <? get_current_tip s2 (keccak256 d)); cinv; simpl; try done.
  all: try set_solver. all: simpl in *; congruence.
Qed.

(** A claim only takes queries off the list of funded ones. *)
Lemma directory_shrink x x' :
  directory_ok x -> QueryIdsWithFunding x' ⊆ QueryIdsWithFunding x ->
  (DataFeeds x', QueryIdFromDataFeedId x', TipCount x', QueryData x')
  = (DataFeeds x, QueryIdFromDataFeedId x, TipCount x, QueryData x) ->
  directory_ok x'.
Proof.
  intros [D1 D2 D3 D4 D5 D6 D7 D8] Hsub E. injection E as E1 E2 E3 E4.
  split; rewrite ?E1, ?E2, ?E3, ?E4; try done. intros q Hq. apply D8. set_solver.
Qed.

#[local] Hint Resolve keeps_search_tip keeps_tip_later keeps_tip_later_or_missing
  keeps_earlier_tips : frame.

Definition beside_claim s := (DataFeeds s, catalog s).

Lemma beside_claim_onetime q t a : keeps beside_claim (get_onetime_tip_amount q t a).
Proof. unfold get_onetime_tip_amount. solve_keeps. Qed.
Lemma beside_claim_pay a n : keeps beside_claim (pay_claim a n).
Proof.
  intros s. pose proof (catalog_pay_claim a n s) as E. unfold beside_claim. rewrite E.
  f_equal. exact (f_equal DataFeeds (view_pay_claim autopay a n s)).
Qed.

#[local] Hint Resolve beside_claim_onetime : frame.

Lemma claim_onetime_tip_directory o q l s u s' : directory_ok (autopay s) ->
  claim_onetime_tip o q l s = (Ok u, s') -> directory_ok (autopay s').
Proof.
  intros Hd H. unfold claim_onetime_tip in H. cinv.
  match goal with
  | Hl : foldM ?g ?a l s = (_, ?s1), Hp : pay_claim _ _ ?s1 = (_, ?s2) |- _ =>
      assert (Hk : keeps beside_claim (foldM g a l)) by solve_keeps;
      pose proof (keeps_run _ _ _ _ _ Hk Hl) as E1;
      pose proof (keeps_run _ _ _ _ _ (beside_claim_pay _ _) Hp) as E2;
      rewrite E1 in E2; rename s2 into s0 end.
  unfold beside_claim, catalog in E2. injection E2 as E2 E3 E4 E5 E6.
  eapply directory_shrink; [exact Hd|..]; destruct (_ =? 0); cinv; unfold autopay; simpl;
    try (rewrite E4; clear; set_solver); congruence.
Qed.

Lemma directory_ok_reachable s : reachable s -> directory_ok (autopay s).
Proof.
  intros Hs. refine (autopay_invariant (fun x _ => directory_ok x) _ _ _ s Hs).
  - intros t a _. split; unfold value_or_zero; simpl; intros; rewrite ?lookup_empty in *; simpl in *;
      try match goal with H : is_Some None |- _ => by destruct H end; try done; set_solver.
  - done.
  - clear s Hs. intros o c s u s' Ha _ Hs Hd H. destruct c; simpl in Ha, H; try done.
    + by eapply claim_onetime_tip_directory.
    + eapply claim_tip_directory; [by apply feeds_wf_reachable|done|done].
    + unfold fund_feed in H. cinv. by eapply do_fund_feed_directory.
    + by eapply setup_data_feed_directory.
    + by eapply tip_directory.
Qed.
End Directory.
