(* ===== verification/MessageFacts.v ===== *)
(** * The messages of the pallet

    Which calls send messages, and the shape of every message that is sent. *)

From S2P Require Import Prelude Types Weights Config Storage Oracle OracleFacts Queries Xcm.
From S2P Require Import Governance GovernanceFacts Staking StakingFacts Autopay Pallet.
From S2P Require Import PalletFacts.

Section Messages.
Context {T : Config}.
Implicit Types s : State.

(** A call of a controller contract, with its gas limit. *)
Inductive controller_call : ContractLocation -> bytes -> Z -> Prop :=
| call_register fee_location data gas :
    register_call ParachainId (PalletIndex mod 256) WeightToFee fee_location
      registration_weights = Some data ->
    controller_call Registry data gas
| call_begin_dispute q t v reporter initiator amount :
    controller_call GovernanceContract
      (begin_parachain_dispute q t v reporter initiator amount) BEGIN_PARACHAIN_DISPUTE_GAS
| call_vote id a b c d e f :
    controller_call GovernanceContract (vote_call id a b c d e f) VOTE_GAS.

(** A message to a contract that makes a call with such data as the pallet's sovereign
    account, after buying the execution of itself and of the call with the fee it
    withdraws. *)
Definition call_message (c : ContractLocation) (data : bytes) (gas : Z)
    (sent : MultiLocation * list Instruction) : Prop :=
  Z.of_nat (length data) <= MAX_ETHEREUM_XCM_INPUT_SIZE /\
  exists w,
    let dest := parachain_location (cl_para_id c) in
    let call := ethereum_xcm_transact EthereumXcmPalletIndex (cl_address c) data gas in
    let call_weight := weigher_transact dest gas in
    weigh dest (sample_message call call_weight) = Some w /\
    fst sent = {| parents := 1; interior := [Parachain (cl_para_id c)] |} /\
    let fee := {| asset_id := XcmFeesAsset;
                  fungible := weight_to_fee (weight_add w call_weight) |} in
    snd sent = [WithdrawAsset fee; BuyExecution fee (weight_add w call_weight);
                Transact SovereignAccount call_weight call].

Definition paid_call (sent : MultiLocation * list Instruction) : Prop :=
  exists c data gas, controller_call c data gas /\ call_message c data gas sent.

Definition messages s := sys_sent s.
Definition messages_ok s : Prop := Forall paid_call (messages s).

Lemma messages_ok_same s s' : messages s' = messages s -> messages_ok s -> messages_ok s'.
Proof. unfold messages_ok. by intros ->. Qed.

(** ** Sending *)

(** Sending adds a message with the call, or nothing. *)
Lemma send_contract_call_adds c data gas ev s r s' :
  send_contract_call c data gas ev s = (r, s') ->
  (r = Ok tt /\ exists m, sys_sent s' = m :: sys_sent s /\ call_message c data gas m) \/
  (r <> Ok tt /\ sys_sent s' = sys_sent s).
Proof.
  unfold send_contract_call, bounded_input. intros H.
  destruct (Z.leb_spec (Z.of_nat (length data)) MAX_ETHEREUM_XCM_INPUT_SIZE);
    [|injection H as <- <-; by right].
  unfold bind at 1, ret at 1, transact in H.
  destruct (weigh _ _) as [w|] eqn:Hw; [|injection H as <- <-; by right].
  unfold bind at 1, ret at 1, send_xcm in H. unfold_calls. rewrite bind_gets in H.
  destruct (xcm_send _ _ _ _); injection H as <- <-; [by right|left].
  split; [done|]. eexists. split; [done|]. split; [done|]. by exists w.
Qed.

Lemma send_contract_call_sends c data gas ev s u s' :
  send_contract_call c data gas ev s = (Ok u, s') ->
  exists m, sys_sent s' = m :: sys_sent s /\ call_message c data gas m.
Proof. intros H. destruct u. by apply send_contract_call_adds in H as [[_ H]|[[] _]]. Qed.

Lemma stable_send_contract_call c data gas ev : controller_call c data gas ->
  stable messages_ok (send_contract_call c data gas ev).
Proof.
  intros Hc s Hs. destruct (send_contract_call c data gas ev s) as [r s'] eqn:H.
  apply send_contract_call_adds in H as [[_ (m & Hm & Hcall)]|[_ Hm]];
    unfold messages_ok, messages; simpl; rewrite Hm; [|done].
  constructor; [|done]. by exists c, data, gas.
Qed.

(** ** The rest leaves the messages alone *)

#[local] Hint Resolve keeps_do_get_reward_amount keeps_search_tip keeps_tip_later
  keeps_tip_later_or_missing keeps_earlier_tips keeps_pending_reward_of : frame.

Lemma messages_update_rewards : keeps messages update_rewards.
Proof. unfold update_rewards. solve_keeps. Qed.
Lemma messages_new_tip q n a c : keeps messages (new_tip q n a c).
Proof. unfold new_tip. solve_keeps. Qed.
Lemma messages_init_sub_accounts l : keeps messages (init_sub_accounts l).
Proof. induction l as [|a l IH]; simpl; solve_keeps. Qed.
Lemma messages_remove_value_loop q p l : forall it, keeps messages (remove_value_loop q p l it).
Proof. induction l as [|i l IH]; intros it; simpl; solve_keeps. Qed.
Lemma messages_do_vote a i b : keeps messages (do_vote a i b).
Proof. unfold do_vote. solve_keeps. Qed.
Lemma messages_pay_rounds i r d v n l : keeps messages (pay_rounds i r d v n l).
Proof. induction l as [|k l IH]; simpl; solve_keeps. Qed.

#[local] Hint Resolve messages_update_rewards messages_new_tip messages_init_sub_accounts
  messages_remove_value_loop messages_do_vote messages_pay_rounds : frame.

Lemma messages_do_add_staking_rewards a n : keeps messages (do_add_staking_rewards a n).
Proof. unfold do_add_staking_rewards. solve_keeps. Qed.
Lemma messages_update_stake a i n : keeps messages (update_stake_and_pay_rewards a i n).
Proof.
  unfold update_stake_and_pay_rewards, settle_stake, count_staker, enter_stake. solve_keeps.
Qed.
Lemma messages_vote_all a l : keeps messages (vote_all a l).
Proof. induction l as [|[i b] l IH]; simpl; solve_keeps. Qed.
Lemma messages_remove_value q t : keeps messages (remove_value q t).
Proof. unfold remove_value. solve_keeps. Qed.
Lemma messages_get_onetime_tip_amount q t a : keeps messages (get_onetime_tip_amount q t a).
Proof. unfold get_onetime_tip_amount. solve_keeps. Qed.

#[local] Hint Resolve messages_do_add_staking_rewards messages_update_stake messages_vote_all
  messages_remove_value messages_get_onetime_tip_amount : frame.

(** The calls that send messages. *)
Definition is_sending_call (c : PalletCall) : Prop :=
  match c with c_register _ | c_begin_dispute _ _ _ | c_send_votes _ => True | _ => False end.

#[export] Instance is_sending_call_dec c : Decision (is_sending_call c).
Proof. destruct c; simpl; solve_decision. Defined.

Lemma keeps_messages origin c : ~ is_sending_call c -> keeps messages (call_body origin c).
Proof.
  destruct c; simpl; intros Hc; try (by contradict Hc);
    unfold void, claim_onetime_tip, claim_tip, claim_timestamp, pay_claim, fund_feed,
      setup_data_feed, tip, add_tip, store_data, do_fund_feed, accrue_user_tips, add_staking_rewards,
      submit_value, update_stake_amount, do_update_stake_amount, update_dispute_fee, vote,
      vote_on_multiple_disputes, report_stake_deposited, report_staking_withdraw_request,
      report_stake_withdrawn, report_slash, slash_staker, restake, withdraw_sub,
      report_vote_tallied, tally_votes, report_vote_executed, execute_vote; solve_keeps.
Qed.

(** ** The calls that send *)

(** Every part sends only calls of the controller contracts. *)
Ltac solve_messages :=
  unfold_calls; cbv zeta;
  repeat (intros; lazymatch goal with
  | |- stable _ (bind _ _) => apply stable_bind
  | |- stable _ (foldM _ _ _) => apply stable_foldM
  | |- stable _ (attempt _) => apply stable_attempt
  | |- stable _ (transactional _) => apply stable_transactional
  | |- stable _ (let _ := _ in _) => cbv zeta
  | |- stable _ (send_contract_call _ _ _ _) =>
      apply stable_send_contract_call; constructor
  | |- stable _ (match ?x with _ => _ end) => destruct x
  | |- stable _ _ =>
      first [ solve [eauto with frame]
            | apply (stable_keeps messages_ok messages); [exact messages_ok_same|solve [solve_keeps]] ]
  end).

Lemma stable_send_vote i r : stable messages_ok (send_vote i r).
Proof. unfold send_vote. solve_messages. Qed.

#[local] Hint Resolve stable_send_vote : frame.

Lemma stable_do_send_votes t n : stable messages_ok (do_send_votes t n).
Proof. unfold do_send_votes. solve_messages. Qed.

#[local] Hint Resolve stable_do_send_votes : frame.

Lemma stable_begin_dispute o q t b : stable messages_ok (begin_dispute o q t b).
Proof. unfold begin_dispute, begin_first_round, begin_next_round. solve_messages. Qed.

Lemma stable_register o g : stable messages_ok (register o g).
Proof.
  unfold register, fee_location_get, fee_location_convert. unfold_calls.
  do 2 (apply stable_bind; [solve_messages|intros _]). cbv zeta.
  apply stable_bind; [solve_messages|]. intros loc.
  destruct (register_call _ _ _ loc _) as [data|] eqn:Hd; [|by intros s].
  intros s Hs. cbn [expect]. rewrite bind_ret. revert s Hs. apply stable_send_contract_call.
  by eapply call_register.
Qed.

Lemma stable_call origin c : stable messages_ok (call_body origin c).
Proof.
  destruct (decide (is_sending_call c)) as [Hc|Hc].
  - pose proof stable_register. pose proof stable_begin_dispute.
    destruct c; simpl in Hc; try done; simpl; unfold void, send_votes; solve_messages; auto.
  - apply (stable_keeps messages_ok messages); [exact messages_ok_same|by apply keeps_messages].
Qed.

Lemma stable_on_initialize : stable messages_ok on_initialize.
Proof.
  unfold on_initialize, update_prices, do_update_stake_amount, update_dispute_fee. solve_messages.
Qed.

Lemma messages_ok_reachable s : reachable s -> messages_ok s.
Proof.
  revert s. apply reachable_ind_inv; [by constructor|].
  intros s s' _ Hs Hstep. revert Hs.
  destruct Hstep as [x origin c r y _ Hd _|x r y Hi _|x t b _|x a]; intros Hs; try exact Hs.
  - eapply stable_run; [|exact Hd|exact Hs]. apply stable_transactional, stable_call.
  - eapply stable_run; [|exact Hi|exact Hs]. apply stable_on_initialize.
Qed.
End Messages.
