(* ===== verification/LivenessFacts.v ===== *)
(** * Pending votes are sent

    While the network accepts messages, every vote that is due is sent, or superseded
    by a further round, after enough runs of the hook: nothing overtakes it, and each
    run sends the three oldest. *)

From S2P Require Import Prelude Types Weights Config Storage Oracle OracleFacts Queries Xcm.
From S2P Require Import Governance GovernanceFacts Staking StakingFacts Autopay Pallet.
From S2P Require Import PalletFacts.

#[local] Set Warnings "-clear-no-such-hyp".

(** ** What steps do to votes *)

Section Growth.
Context {T : Config}.
Implicit Types s : State.

(** No round is added; votes stay, sent ones stay sent, and what is no longer pending
    was sent. *)
Record votes_grow s s' : Prop := {
  vg_rounds : forall i, rounds s' i = rounds s i;
  vg_votes : forall k v, VoteInfo s !! k = Some v ->
    exists v', VoteInfo s' !! k = Some v' /\ (vote_sent v = true -> vote_sent v' = true);
  vg_pending : forall i, PendingVotes s' !! i = PendingVotes s !! i \/
    (PendingVotes s' !! i = None /\ forall r t, PendingVotes s !! i = Some (r, t) ->
       exists v, VoteInfo s' !! (i, r) = Some v /\ vote_sent v = true);
}.

#[export] Instance votes_grow_preorder : PreOrder votes_grow.
Proof.
  split.
  - intros s. split; [done|intros k v Hv; by exists v|by left].
  - intros a b c [A1 A2 A3] [B1 B2 B3]. split.
    + intros i. by rewrite B1.
    + intros k v Hv. destruct (A2 k v Hv) as (v1 & Hv1 & H1).
      destruct (B2 k v1 Hv1) as (v2 & Hv2 & H2). exists v2. auto.
    + intros i. destruct (B3 i) as [E|[E Hb]], (A3 i) as [E1|[E1 Ha]].
      * left. congruence.
      * right. split; [congruence|]. intros r t Hp. destruct (Ha r t Hp) as (v & Hv & Hs).
        destruct (B2 _ _ Hv) as (v' & Hv' & H'). exists v'. auto.
      * right. split; [done|]. intros r t Hp. apply (Hb r t). congruence.
      * right. split; [done|]. intros r t Hp. destruct (Ha r t Hp) as (v & Hv & Hs).
        destruct (B2 _ _ Hv) as (v' & Hv' & H'). exists v'. auto.
Qed.

Lemma votes_grow_parts s s' : dispute_parts s' = dispute_parts s -> votes_grow s s'.
Proof.
  unfold dispute_parts. intros H. split_pairs. split.
  - intros i. unfold rounds. congruence.
  - intros k v Hv. exists v. split; [congruence|done].
  - intros i. left. congruence.
Qed.

(** A vote is replaced by one that is as sent. *)
Lemma votes_grow_update s s' k v v' :
  VoteInfo s !! k = Some v -> VoteInfo s' = <[k := v']> (VoteInfo s) ->
  (vote_sent v = true -> vote_sent v' = true) ->
  VoteRounds s' = VoteRounds s -> PendingVotes s' = PendingVotes s -> votes_grow s s'.
Proof.
  intros Hv EV Hs ER EP. split.
  - intros i. unfold rounds. congruence.
  - intros j w Hw. rewrite EV, lookup_insert. goal_decide; [|by exists w].
    subst. exists v'. split; [done|]. simplify_eq. auto.
  - intros i. left. congruence.
Qed.

Lemma send_turn_grow n id r t s m s' : PendingVotes s !! id = Some (r, t) ->
  send_turn n (id, (r, t)) s = (Ok m, s') -> votes_grow s s'.
Proof.
  intros Hp H. unfold send_turn in H. cinv.
  match goal with H : attempt _ _ = _ |- _ =>
    apply attempt_Ok in H as [(u & _ & H)|(e & _ & H)] end.
  - match goal with H : send_vote _ _ _ = _ |- _ =>
      apply send_vote_Ok in H as (v & Hv & Hs & EV & EP & Hk) end. split_pairs. split.
    + intros i. unfold rounds. congruence.
    + intros k w Hw. rewrite EV, lookup_insert. goal_decide; [|by exists w].
      eexists. split; [done|]. done.
    + intros i. rewrite EP. destruct (decide (i = id)) as [->|Hne].
      * right. rewrite lookup_delete_eq. split; [done|]. intros r' t' Hp'. simplify_eq.
        exists (set_vote_sent true v). by rewrite EV, lookup_insert_eq.
      * left. by rewrite lookup_delete_ne.
  - match goal with H : send_vote _ _ _ = _ |- _ => apply send_vote_Err in H as Hk end.
    apply votes_grow_parts. unfold beside_sent in Hk. split_pairs.
    match goal with H : st_governance _ = st_governance s |- _ => rename H into Hg end.
    unfold dispute_parts. by rewrite Hg.
Qed.

(** Every entry of a list of distinct pending votes stays pending until its turn. *)
Lemma send_all_grow l : forall n s m s',
  NoDup l -> (forall id rt, (id, rt) ∈ l -> PendingVotes s !! id = Some rt) ->
  foldM send_turn n l s = (Ok m, s') -> votes_grow s s'.
Proof.
  induction l as [|[id [r t]] l IH]; intros n s m s' Hnd Hin H; cbn [foldM] in H.
  - apply ret_Ok in H as [_ ->]. done.
  - apply bind_Ok in H as (n1 & s1 & H1 & H).
    assert (Hp : PendingVotes s !! id = Some (r, t)) by (apply Hin; left).
    pose proof (send_turn_grow _ _ _ _ _ _ _ Hp H1) as Hg.
    apply (send_turn_Ok _ _ _ _ _ _ _ Hp) in H1 as [_ Ht].
    apply NoDup_cons in Hnd as [Hnew Hnd]. etransitivity; [exact Hg|].
    eapply IH; [exact Hnd| |exact H]. intros id' rt' Hl.
    rewrite (st_others _ _ _ Ht); [apply Hin; by right|]. intros ->. apply Hnew.
    assert (PendingVotes s !! id = Some rt') as E by (apply Hin; by right).
    rewrite Hp in E. by simplify_eq.
Qed.

Lemma due_votes_take t max s : NoDup (take max (due_votes s t)) /\
  forall id rt, (id, rt) ∈ take max (due_votes s t) ->
    PendingVotes s !! id = Some rt /\ snd rt <= t.
Proof.
  split; [apply (sublist_NoDup _ (due_votes s t)); [apply due_votes_NoDup|apply sublist_take]|].
  intros id rt Hin. apply due_votes_pending. by eapply subseteq_take.
Qed.

Lemma do_send_votes_grow t max s n s' : do_send_votes t max s = (Ok n, s') -> votes_grow s s'.
Proof.
  unfold do_send_votes. intros H. cinv. destruct (due_votes_take t (Z.to_nat max) s) as [Hnd Hin].
  eapply (send_all_grow _ 0); [exact Hnd| |exact H]. intros id rt Hl. by apply Hin.
Qed.

Lemma vote_all_grow who l : forall s u s', vote_all who l s = (Ok u, s') -> votes_grow s s'.
Proof.
  induction l as [|[id b] l IH]; intros s u s' H; simpl in H; [by cinv|].
  apply bind_Ok in H as (x & s1 & H1 & H). apply do_vote_Ok in H1 as [v [_ Hv _ _ _ ->]].
  etransitivity; [|by eapply IH]. by eapply votes_grow_update; [exact Hv|reflexivity|..].
Qed.

Definition is_dispute_call (c : PalletCall) : Prop :=
  match c with c_begin_dispute _ _ _ => True | _ => False end.

(** Every call but a dispute. *)
Lemma call_grow origin c s u s' : ~ is_dispute_call c ->
  call_body origin c s = (Ok u, s') -> votes_grow s s'.
Proof.
  intros Hnd H.
  destruct (call_kinds c) as [Hc|[Hc|[Hc|[(q & v & n & d & ->)|(q & t & b & ->)]]]].
  - pose proof (keeps_run _ _ _ _ _ (keeps_core origin c Hc) H) as Hk.
    unfold core in Hk. split_pairs. by apply votes_grow_parts.
  - pose proof (keeps_run _ _ _ _ _ (keeps_clock_disputes origin c Hc) H) as Hk.
    unfold clock_disputes in Hk. split_pairs. by apply votes_grow_parts.
  - destruct c; simpl in *; try done;
      unfold void, vote, vote_on_multiple_disputes, send_votes, report_vote_tallied,
        report_vote_executed in H; cinv.
    + apply do_vote_Ok in H as [v [_ Hv _ _ _ ->]].
      by eapply votes_grow_update; [exact Hv|reflexivity|..].
    + by eapply vote_all_grow.
    + by eapply do_send_votes_grow.
    + apply tally_votes_Ok in H as (v & d & [Hv _ _ _ _ ->]).
      by eapply votes_grow_update; [exact Hv|reflexivity|..].
    + match goal with H : execute_vote _ _ = _ |- _ =>
        apply execute_vote_Ok in H as (r & v & d & Hx) end.
      destruct (ex_round _ _ _ _ _ _ _ Hx) as [-> _].
      pose proof (ex_rest _ _ _ _ _ _ _ Hx) as Hrest. split_pairs.
      by eapply votes_grow_update; [apply (ex_vote _ _ _ _ _ _ _ Hx)|apply (ex_effect _ _ _ _ _ _ _ Hx)|..].
  - apply submit_value_Ok in H as (who & st & _ & Hs).
    apply votes_grow_parts. by rewrite (sb_effect _ _ _ _ _ _ _ _ Hs).
  - by contradict Hnd.
Qed.
End Growth.

(** ** The hook makes progress *)

(** The network accepts messages for the governance contract, and the call of a vote,
    which has a fixed size, fits the input of a transaction. *)
Class GovernanceReachable (T : Config) : Prop := {
  net_accepts : forall history from message,
    xcm_send history from {| parents := 1; interior := [Parachain (cl_para_id GovernanceContract)] |}
      message = None;
  net_weighs : forall call weight,
    is_Some (weigh (parachain_location (cl_para_id GovernanceContract)) (sample_message call weight));
  net_fits : forall id a b c d e f,
    Z.of_nat (length (vote_call (to_be_bytes 32 id) a b c d e f)) <= MAX_ETHEREUM_XCM_INPUT_SIZE;
}.

Section Progress.
Context {T : Config} {Net : GovernanceReachable T}.
Implicit Types s : State.

Lemma send_vote_succeeds id r s v : VoteInfo s !! (id, r) = Some v -> vote_sent v = false ->
  exists s', send_vote id r s = (Ok tt, s').
Proof.
  intros Hv Hs. unfold send_vote. unfold_calls. rewrite bind_gets, Hv.
  rewrite (bind_ok_or_some _ _ _ _ v) by done. rewrite bind_ensure_true by by rewrite Hs.
  unfold send_contract_call, bounded_input. rewrite (proj2 (Z.leb_le _ _)) by apply net_fits.
  unfold bind at 1, bind at 1, ret at 1, transact.
  match goal with |- context [weigh ?d (sample_message ?c ?k)] =>
    destruct (net_weighs c k) as [w Hw];
    change (weigh d (sample_message c k))
      with (weigh (parachain_location (cl_para_id GovernanceContract)) (sample_message c k));
    rewrite Hw end.
  unfold bind at 1, ret at 1, send_xcm. unfold_calls. rewrite bind_gets, net_accepts.
  eexists. reflexivity.
Qed.

Lemma send_turn_clears n id r t s m s' : disputes_wf s -> PendingVotes s !! id = Some (r, t) ->
  send_turn n (id, (r, t)) s = (Ok m, s') -> PendingVotes s' !! id = None.
Proof.
  intros Hwf Hp H. destruct (dw_pending _ _ (Hwf id) _ _ Hp) as (_ & v & Hv & Hs).
  destruct (send_vote_succeeds id r s v Hv Hs) as [s1 H1].
  unfold send_turn in H. unfold bind at 1, attempt in H. rewrite H1 in H. cinv.
  apply send_vote_Ok in H1 as (_ & _ & _ & _ & -> & _). apply lookup_delete_eq.
Qed.

Lemma send_all_clears l : forall n s m s', disputes_wf s ->
  NoDup l -> (forall id rt, (id, rt) ∈ l -> PendingVotes s !! id = Some rt) ->
  foldM send_turn n l s = (Ok m, s') ->
  forall id rt, (id, rt) ∈ l -> PendingVotes s' !! id = None.
Proof.
  induction l as [|[id [r t]] l IH]; intros n s m s' Hwf Hnd Hin H; cbn [foldM] in H.
  - intros id rt Hl. by apply elem_of_nil in Hl.
  - apply bind_Ok in H as (n1 & s1 & H1 & H).
    assert (Hp : PendingVotes s !! id = Some (r, t)) by (apply Hin; left).
    pose proof (send_turn_clears _ _ _ _ _ _ _ Hwf Hp H1) as Hclear.
    apply (send_turn_Ok _ _ _ _ _ _ _ Hp) in H1 as [_ Ht].
    apply NoDup_cons in Hnd as [Hnew Hnd].
    assert (Hin' : forall id' rt', (id', rt') ∈ l ->
      id' <> id /\ PendingVotes s1 !! id' = Some rt').
    { intros id' rt' Hl. assert (E : PendingVotes s !! id' = Some rt') by (apply Hin; by right).
      assert (Hne : id' <> id) by (intros ->; apply Hnew; rewrite Hp in E; by simplify_eq).
      split; [done|]. by rewrite (st_others _ _ _ Ht). }
    pose proof (send_all_grow l _ s1 _ _ Hnd (fun i rt Hl => proj2 (Hin' i rt Hl)) H) as Hg.
    intros id' rt' Hl. apply elem_of_cons in Hl as [[= -> ->]|Hl].
    + destruct (vg_pending _ _ Hg id) as [E|[E _]]; [by rewrite E|done].
    + eapply (IH n1 s1); [by apply (st_wf _ _ _ Ht)|exact Hnd| |exact H|exact Hl].
      intros i rt Hi. by apply Hin'.
Qed.

(** ** The rank of a vote *)

Context (id : DisputeId) (r : Z) (t : Timestamp).

(** The disputes whose vote is sent before this one, or is this one. *)
Definition ahead s : gset DisputeId :=
  dom (filter (fun kv => pending_le kv (id, (r, t))) (PendingVotes s)).

Lemma elem_of_ahead s i :
  i ∈ ahead s <-> exists p, PendingVotes s !! i = Some p /\ pending_le (i, p) (id, (r, t)).
Proof.
  unfold ahead. rewrite elem_of_dom. split.
  - intros [p Hp]. apply map_lookup_filter_Some in Hp. eauto.
  - intros (p & Hp & Hle). exists p. by apply map_lookup_filter_Some.
Qed.

Definition waiting s : Prop := PendingVotes s !! id = Some (r, t).

(** The vote was sent, or a further round replaced it. *)
Definition settled s : Prop :=
  (exists v, VoteInfo s !! (id, r) = Some v /\ vote_sent v = true) \/ r < rounds s id.

Lemma waiting_ahead s : waiting s -> id ∈ ahead s.
Proof.
  intros Hw. apply elem_of_ahead. exists (r, t). split; [done|]. right. simpl. lia.
Qed.

Lemma settled_grow s s' : votes_grow s s' -> settled s -> settled s'.
Proof.
  intros [G1 G2 G3] [(v & Hv & Hs)|Hr]; [left|right; by rewrite G1].
  destruct (G2 _ _ Hv) as (v' & Hv' & Hs'). exists v'. auto.
Qed.

(** Nothing gets ahead without a new round, and the vote waits or is sent. *)
Lemma waiting_grow s s' : votes_grow s s' -> waiting s ->
  settled s' \/ (waiting s' /\ ahead s' ⊆ ahead s).
Proof.
  intros [G1 G2 G3] Hw. destruct (G3 id) as [E|[_ Hs]]; [right|left; left; by apply (Hs r t)].
  split; [by unfold waiting; rewrite E|]. intros i Hi. apply elem_of_ahead in Hi as (p & Hp & Hle).
  apply elem_of_ahead. exists p. split; [|done]. destruct (G3 i) as [<-|[E' _]]; [done|congruence].
Qed.

(** A new round is scheduled later, and replaces the vote if it is of its dispute. *)
Lemma waiting_disputed s s' who q ts n e v d : disputes_wf s -> disputed s s' who q ts n e v d ->
  t <= sys_now s -> 0 <= sys_now s -> sys_now s + 11 * HOURS <= u64_max -> waiting s ->
  settled s' \/ (waiting s' /\ ahead s' ⊆ ahead s).
Proof.
  intros Hwf Hd Ht Hn Hlate Hw. set (i := dispute_id_of q ts).
  pose proof (ds_Pending _ _ _ _ _ _ _ _ _ Hd) as EP. fold i in EP.
  unfold wrapping_add in EP. rewrite Z.mod_small in EP by (unfold_times; zlia).
  destruct (decide (i = id)) as [E|Hne].
  - left. right. rewrite (added_rounds s s' who q ts n e v d Hd id).
    fold i. rewrite decide_True by done.
    destruct (dw_pending _ _ (Hwf id) _ _ Hw) as (Hr & _).
    rewrite (added_number s s' who q ts n e v d Hd). fold i. rewrite E. lia.
  - right. split; [unfold waiting; by rewrite EP, lookup_insert_ne|].
    intros j Hj. apply elem_of_ahead in Hj as (p & Hp & Hle). apply elem_of_ahead.
    rewrite EP, lookup_insert in Hp. revert Hp. goal_decide; [|by exists p].
    intros [= <-]. exfalso. unfold pending_le in Hle. simpl in Hle. unfold_times. lia.
Qed.

Lemma settled_disputed s s' who q ts n e v d : disputes_wf s -> disputed s s' who q ts n e v d ->
  settled s -> settled s'.
Proof.
  intros Hwf Hd. set (i := dispute_id_of q ts).
  pose proof (added_rounds s s' who q ts n e v d Hd id) as Hr. fold i in Hr.
  pose proof (added_number s s' who q ts n e v d Hd) as Hn. fold i in Hn.
  intros [(w & Hw & Hs)|Hlt]; [left|right].
  - exists w. split; [|done]. rewrite (ds_VoteInfo _ _ _ _ _ _ _ _ _ Hd). fold i.
    rewrite lookup_insert_ne; [done|]. intros [= E En].
    assert (r <= rounds s id) by (apply (dw_votes _ _ (Hwf id)); by eexists).
    rewrite E in Hn. lia.
  - rewrite Hr. destruct (decide (id = i)) as [E|]; [rewrite <- E in Hn|]; lia.
Qed.

(** *** One run of the hook *)

(** The vote is among the three oldest, or three others leave before it. *)
Lemma oldest_ahead s now : t <= now -> waiting s ->
  let l := take 3 (due_votes s now) in
  (id, (r, t)) ∈ l \/ (length l = 3%nat /\ forall e, e ∈ l -> pending_le e (id, (r, t))).
Proof.
  intros Ht Hw l. destruct (due_votes_ordered s now) as (Hsort & _ & Hin).
  assert (Hmem : (id, (r, t)) ∈ due_votes s now) by (apply Hin; by split).
  rewrite <- (take_drop 3 (due_votes s now)) in Hmem, Hsort.
  apply elem_of_app in Hmem as [Hmem|Hmem]; [by left|right]. split.
  - unfold l. rewrite length_take. assert (length (drop 3 (due_votes s now)) <> 0%nat).
    { intros E. apply nil_length_inv in E. rewrite E in Hmem. by apply elem_of_nil in Hmem. }
    rewrite length_drop in *. lia.
  - intros e He. by eapply StronglySorted_app_1_elem_of.
Qed.

Lemma do_send_votes_progress s now n s' : disputes_wf s -> t <= now -> waiting s ->
  do_send_votes now MAX_AGGREGATE_VOTES_SENT_PER_BLOCK s = (Ok n, s') ->
  settled s' \/ (waiting s' /\ (size (ahead s') + 3 <= size (ahead s))%nat).
Proof.
  intros Hwf Ht Hw H. pose proof (do_send_votes_grow _ _ _ _ _ H) as Hg.
  destruct (waiting_grow s s' Hg Hw) as [?|[Hw' Hsub]]; [by left|].
  unfold do_send_votes in H. cinv.
  change (Z.to_nat MAX_AGGREGATE_VOTES_SENT_PER_BLOCK) with 3%nat in H.
  destruct (due_votes_take now 3 s) as [Hnd Hin].
  pose proof (send_all_clears _ 0 s n s' Hwf Hnd (fun i rt Hl => proj1 (Hin i rt Hl)) H) as Hclear.
  destruct (oldest_ahead s now Ht Hw) as [Hl|[Hlen Hle]].
  { unfold waiting in Hw'. by rewrite (Hclear _ _ Hl) in Hw'. }
  right. split; [done|]. set (l := take 3 (due_votes s now)) in *.
  assert (Hndl : NoDup l.*1).
  { apply NoDup_fmap_fst; [|exact Hnd]. intros i p p' Hp Hp'.
    apply Hin in Hp as [Hp _], Hp' as [Hp' _]. by simplify_eq. }
  assert (Hl : list_to_set l.*1 ⊆ ahead s).
  { intros i Hi. apply elem_of_list_to_set, list_elem_of_fmap in Hi as ([j p] & -> & Hp).
    apply elem_of_ahead. exists p. split; [by apply Hin|by apply Hle]. }
  assert (Hsub' : ahead s' ⊆ ahead s ∖ list_to_set l.*1).
  { intros i Hi. apply elem_of_difference. split; [by apply Hsub|].
    intros Hi'. apply elem_of_list_to_set, list_elem_of_fmap in Hi' as ([j p] & -> & Hp).
    apply elem_of_ahead in Hi as (p' & Hp' & _). simpl in Hp'. by rewrite (Hclear _ _ Hp) in Hp'. }
  apply subseteq_size in Hsub'. rewrite size_difference in Hsub' by done.
  apply subseteq_size in Hl. rewrite size_list_to_set, length_fmap, Hlen in Hsub', Hl by done. lia.
Qed.

Lemma hook_progress s o s' : disputes_wf s -> t <= sys_now s -> waiting s ->
  on_initialize s = (o, s') -> o <> Panic ->
  settled s' \/ (waiting s' /\ (size (ahead s') + 3 <= size (ahead s))%nat).
Proof.
  intros Hwf Ht Hw H Ho. apply on_initialize_run in H as (s1 & n & Hk & H); [|done].
  assert (Hp : dispute_parts s1 = dispute_parts s) by (unfold core in Hk; by split_pairs).
  assert (E : PendingVotes s1 = PendingVotes s) by (unfold dispute_parts in Hp; by split_pairs).
  eapply do_send_votes_progress in H; [|by eapply disputes_wf_parts|exact Ht|].
  - unfold ahead in *. rewrite E in H. exact H.
  - unfold waiting. by rewrite E.
Qed.

(** *** Any step *)

Lemma step_progress s s' : reachable s -> disputes_wf s -> t <= sys_now s ->
  sys_now s + 11 * HOURS <= u64_max -> step s s' -> waiting s ->
  settled s' \/ (waiting s' /\ ahead s' ⊆ ahead s).
Proof.
  intros Hreach Hwf Ht Hlate Hs Hw.
  destruct (step_cases _ _ Hs) as [->|[(o & c & u & _ & H)|[(s1 & v & Hk & H)|[Hk _]]]].
  - by right.
  - assert (is_dispute_call c \/ ~ is_dispute_call c) as [Hc|Hc] by (destruct c; simpl; auto).
    + destruct c; try done. unfold call_body, void in H. cinv.
      match goal with H : begin_dispute _ _ _ _ _ = _ |- _ =>
        apply begin_dispute_Ok in H as (? & ? & ? & ? & ? & _ & Hd) end.
      eapply waiting_disputed; [exact Hwf|exact Hd|done|by apply reachable_now|done|done].
    + apply waiting_grow; [|done]. by eapply call_grow.
  - assert (Hp : dispute_parts s1 = dispute_parts s) by (unfold core in Hk; by split_pairs).
    apply waiting_grow; [|done]. etransitivity; [by apply votes_grow_parts|].
    by eapply do_send_votes_grow.
  - apply waiting_grow; [|done]. apply votes_grow_parts. unfold core in Hk. by split_pairs.
Qed.

Lemma step_settled s s' : disputes_wf s -> step s s' -> settled s -> settled s'.
Proof.
  intros Hwf Hs Hset.
  destruct (step_cases _ _ Hs) as [->|[(o & c & u & _ & H)|[(s1 & v & Hk & H)|[Hk _]]]]; [done|..].
  - assert (is_dispute_call c \/ ~ is_dispute_call c) as [Hc|Hc] by (destruct c; simpl; auto).
    + destruct c; try done. unfold call_body, void in H. cinv.
      match goal with H : begin_dispute _ _ _ _ _ = _ |- _ =>
        apply begin_dispute_Ok in H as (? & ? & ? & ? & ? & _ & Hd) end.
      by eapply settled_disputed.
    + eapply settled_grow; [|exact Hset]. by eapply call_grow.
  - assert (Hp : dispute_parts s1 = dispute_parts s) by (unfold core in Hk; by split_pairs).
    eapply settled_grow; [|exact Hset]. etransitivity; [by apply votes_grow_parts|].
    by eapply do_send_votes_grow.
  - eapply settled_grow; [|exact Hset]. apply votes_grow_parts. unfold core in Hk. by split_pairs.
Qed.
End Progress.

(** ** Executions *)

Section Executions.
Context {T : Config}.

(** An execution with [n] runs of the hook among its steps. *)
Inductive execution : nat -> State -> State -> Prop :=
| exec_refl s : execution 0 s s
| exec_step n s s1 s' : execution n s s1 -> step s1 s' -> execution n s s'
| exec_hook n s s1 o s' :
    execution n s s1 -> on_initialize s1 = (o, s') -> o <> Panic -> execution (S n) s s'.

Lemma exec_hook_step s1 o s' : on_initialize s1 = (o, s') -> o <> Panic -> step s1 s'.
Proof. apply step_initialize. Qed.

Lemma execution_reachable n s s' : execution n s s' -> reachable s -> reachable s'.
Proof.
  intros He Hs. induction He; [done|eapply reachable_step; [by apply IHHe|done]|].
  eapply reachable_step; [by apply IHHe|by eapply exec_hook_step].
Qed.

Lemma execution_now n s s' : execution n s s' -> sys_now s <= sys_now s'.
Proof.
  induction 1 as [|n s s1 s' _ IH Hs|n s s1 o s' _ IH Hi Ho]; [done| |].
  - apply step_now in Hs. lia.
  - pose proof (step_now _ _ (exec_hook_step _ _ _ Hi Ho)). lia.
Qed.
End Executions.

Section Liveness.
Context {T : Config} {Ok_T : ConfigOk T} {Net : GovernanceReachable T}.
Context (id : DisputeId) (r : Z) (t : Timestamp).

(** The votes ahead of a waiting one decrease by three with every run of the hook. *)
Lemma execution_progress n s s' : execution n s s' -> reachable s -> t <= sys_now s ->
  sys_now s' + 11 * HOURS <= u64_max -> waiting id r t s ->
  settled id r s' \/
  (waiting id r t s' /\ (size (ahead id r t s') + 3 * n <= size (ahead id r t s))%nat).
Proof.
  intros He. induction He as [s|n s s1 s' He IH Hs|n s s1 o s' He IH Hi Ho];
    intros Hreach Ht Hlate Hw; [right; split; [done|lia]|..].
  all: pose proof (execution_reachable _ _ _ He Hreach) as Hr1.
  all: pose proof (disputes_wf_reachable _ Hr1) as Hwf1; pose proof (execution_now _ _ _ He) as Hn1.
  - pose proof (step_now _ _ Hs) as Hn.
    destruct IH as [Hset|[Hw1 Hsz]]; [done|done|lia|done|left; by eapply step_settled|].
    destruct (step_progress id r t s1 s' Hr1 Hwf1) as [?|[Hw' Hsub]];
      [lia|lia|done|done|by left|]. right. split; [done|]. apply subseteq_size in Hsub. lia.
  - pose proof (exec_hook_step _ _ _ Hi Ho) as Hs. pose proof (step_now _ _ Hs) as Hn.
    destruct IH as [Hset|[Hw1 Hsz]]; [done|done|lia|done|left; by eapply step_settled|].
    destruct (hook_progress id r t s1 o s' Hwf1) as [?|[Hw' Hsz']];
      [lia|done|done|done|by left|]. right. split; [done|]. lia.
Qed.
End Liveness.
