(* ===== verification/DisputeCountFacts.v ===== *)
(** * Open disputes

    [OpenDisputesOnId] counts the disputes on a query that were not executed. *)

From S2P Require Import Prelude Types Config Storage Oracle OracleFacts Queries Xcm Governance.
From S2P Require Import GovernanceFacts Staking StakingFacts Autopay Pallet PalletFacts.

#[local] Set Warnings "-clear-no-such-hyp".

Section Open.
Context {T : Config}.
Implicit Types s : State.

(** What the count depends on: of the votes, whether they were executed; and their fees. *)
Definition open_parts s :=
  (VoteRounds s, DisputeInfo s, OpenDisputesOnId s, vote_executed <$> VoteInfo s,
   vote_fee <$> VoteInfo s).

(** Executed in its last round. *)
Definition executed_last s (id : DisputeId) : bool :=
  default false ((vote_executed <$> VoteInfo s) !! (id, rounds s id)).

(** The disputes on a query that are open. *)
Definition open_disputes s (q : QueryId) : gset DisputeId :=
  dom (filter (fun kv => dsp_query_id (snd kv) = q /\ executed_last s (fst kv) = false)
         (DisputeInfo s)).

Definition open_count s (q : QueryId) : Z := default 0 (OpenDisputesOnId s !! q).

Definition open_ok s : Prop :=
  forall q, open_count s q = Z.of_nat (size (open_disputes s q)).

Lemma elem_of_open s q id : id ∈ open_disputes s q <->
  exists d, DisputeInfo s !! id = Some d /\ dsp_query_id d = q /\ executed_last s id = false.
Proof.
  unfold open_disputes. rewrite elem_of_dom. split.
  - intros [d Hd]. apply map_lookup_filter_Some in Hd. naive_solver.
  - intros (d & Hd & Hp). exists d. by apply map_lookup_filter_Some.
Qed.

Lemma open_ok_parts s s' : open_parts s' = open_parts s -> open_ok s -> open_ok s'.
Proof.
  unfold open_parts. intros H Hok q. injection H as E1 E2 E3 E4 _.
  assert (Hx : forall id, executed_last s' id = executed_last s id)
    by (intros id; unfold executed_last, rounds; by rewrite E4, E1).
  assert (open_disputes s' q = open_disputes s q) as ->.
  { apply set_eq. intros id. rewrite !elem_of_open, E2, Hx. done. }
  unfold open_count. rewrite E3. apply Hok.
Qed.

(** A vote is replaced by one that is as executed, with the same fee. *)
Lemma open_parts_update s s' k v v' :
  VoteInfo s !! k = Some v -> VoteInfo s' = <[k := v']> (VoteInfo s) ->
  vote_executed v' = vote_executed v -> vote_fee v' = vote_fee v ->
  (VoteRounds s', DisputeInfo s', OpenDisputesOnId s')
  = (VoteRounds s, DisputeInfo s, OpenDisputesOnId s) ->
  open_parts s' = open_parts s.
Proof.
  intros Hv EV Hx Hf H. injection H as E1 E2 E3. unfold open_parts. rewrite E1, E2, E3, EV.
  rewrite !fmap_insert. by rewrite !insert_id by by rewrite lookup_fmap, Hv; simpl; rewrite ?Hx, ?Hf.
Qed.

(** ** Calls that leave the count alone *)

#[local] Hint Resolve keeps_do_get_reward_amount keeps_search_tip keeps_tip_later
  keeps_tip_later_or_missing keeps_earlier_tips keeps_pending_reward_of : frame.

Lemma open_update_rewards : keeps open_parts update_rewards.
Proof. unfold update_rewards. solve_keeps. Qed.
Lemma open_init_sub_accounts l : keeps open_parts (init_sub_accounts l).
Proof. induction l as [|a l IH]; simpl; solve_keeps. Qed.
Lemma open_send_contract_call c d g e : keeps open_parts (send_contract_call c d g e).
Proof. unfold send_contract_call, bounded_input, transact, send_xcm. solve_keeps. Qed.

#[local] Hint Resolve open_update_rewards open_init_sub_accounts open_send_contract_call : frame.

Lemma open_do_add_staking_rewards a n : keeps open_parts (do_add_staking_rewards a n).
Proof. unfold do_add_staking_rewards. solve_keeps. Qed.
Lemma open_update_stake a i n : keeps open_parts (update_stake_and_pay_rewards a i n).
Proof.
  unfold update_stake_and_pay_rewards, settle_stake, count_staker, enter_stake. solve_keeps.
Qed.
Lemma open_get_onetime_tip_amount q t a : keeps open_parts (get_onetime_tip_amount q t a).
Proof. unfold get_onetime_tip_amount. solve_keeps. Qed.
Lemma open_update_prices t : keeps open_parts (update_prices t).
Proof.
  apply keeps_transactional. unfold do_update_stake_amount, update_dispute_fee. solve_keeps.
Qed.

#[local] Hint Resolve open_do_add_staking_rewards open_update_stake open_get_onetime_tip_amount
  open_update_prices : frame.

(** The calls on votes and disputes. *)
Definition is_dispute_or_vote (c : PalletCall) : Prop :=
  match c with
  | c_begin_dispute _ _ _ | c_vote _ _ | c_vote_on_multiple_disputes _ | c_send_votes _
  | c_report_vote_tallied _ _ | c_report_vote_executed _ => True
  | _ => False
  end.

#[export] Instance is_dispute_or_vote_dec c : Decision (is_dispute_or_vote c).
Proof. destruct c; simpl; solve_decision. Defined.

Lemma keeps_open origin c : ~ is_dispute_or_vote c -> keeps open_parts (call_body origin c).
Proof.
  destruct c; simpl; intros Hc; try (by contradict Hc);
    unfold void, register, fee_location_get, fee_location_convert, claim_onetime_tip, claim_tip,
      claim_timestamp, pay_claim, fund_feed, setup_data_feed, tip, add_tip, new_tip, store_data,
      do_fund_feed, accrue_user_tips, add_staking_rewards, submit_value, update_stake_amount,
      do_update_stake_amount, update_dispute_fee, report_stake_deposited,
      report_staking_withdraw_request, report_stake_withdrawn, report_slash, slash_staker,
      restake, withdraw_sub; solve_keeps.
Qed.

(** ** Votes *)

Lemma do_vote_open who id b s u s' : do_vote who id b s = (Ok u, s') ->
  open_parts s' = open_parts s.
Proof.
  intros H. apply do_vote_Ok in H as [v [_ Hv _ _ _ ->]].
  by eapply open_parts_update; [exact Hv|reflexivity|..].
Qed.

Lemma vote_all_open who l : forall s u s', vote_all who l s = (Ok u, s') ->
  open_parts s' = open_parts s.
Proof.
  induction l as [|[id b] l IH]; intros s u s' H; simpl in H; [by cinv|].
  apply bind_Ok in H as (x & s1 & H1 & H). apply do_vote_open in H1. rewrite <- H1.
  by eapply IH.
Qed.

Lemma open_of_beside_sent s s' : beside_sent s' = beside_sent s -> open_parts s' = open_parts s.
Proof.
  unfold beside_sent. intros H. split_pairs.
  match goal with H : st_governance _ = st_governance s |- _ => unfold open_parts; by rewrite H end.
Qed.

Lemma send_vote_open id r s o s' : send_vote id r s = (o, s') -> o <> Panic ->
  open_parts s' = open_parts s.
Proof.
  intros H Ho. destruct o as [u|e|]; [| |done].
  - unfold send_vote in H. cinv. conditions.
    match goal with H : send_contract_call _ _ _ _ _ = _ |- _ =>
      apply (keeps_run _ _ _ _ _ (open_send_contract_call _ _ _ _)) in H as Hk;
      apply (keeps_run _ _ _ _ _ (keeps_send_contract_call _ _ _ _)) in H as Hb end.
    unfold beside_sent in Hb. split_pairs. rewrite <- Hk.
    match goal with Hv : _ = Some ?v |- _ =>
      eapply (open_parts_update _ _ _ v); [|reflexivity..] end.
    match goal with Hg : st_governance _ = st_governance s |- _ => simpl; rewrite Hg end.
    eassumption.
  - apply send_vote_Err in H. by apply open_of_beside_sent.
Qed.

Lemma do_send_votes_open t max s n s' : do_send_votes t max s = (Ok n, s') ->
  open_parts s' = open_parts s.
Proof.
  unfold do_send_votes. intros H. cinv. revert H. generalize (take (Z.to_nat max) (due_votes s t)).
  intros l. generalize 0. revert s. induction l as [|[id [r u]] l IH]; intros s m H; cbn [foldM] in H.
  - by cinv.
  - apply bind_Ok in H as (n1 & s1 & H1 & H). apply IH in H. rewrite H. cinv.
    match goal with H : attempt _ _ = _ |- _ =>
      apply attempt_Ok in H as [(x & _ & H)|(e & _ & H)]; by eapply send_vote_open end.
Qed.

Lemma tally_votes_open id r s u s' : tally_votes id r s = (Ok u, s') ->
  open_parts s' = open_parts s.
Proof.
  intros H. apply tally_votes_Ok in H as (v & d & [Hv _ _ _ _ ->]).
  by eapply open_parts_update; [exact Hv|reflexivity|..].
Qed.

(** ** Disputes that begin and end *)

(** Another round keeps a dispute open: its last round was not executed. *)
Lemma disputed_next s s' who q ts n e v d : disputes_wf s -> disputed s s' who q ts n e v d ->
  n <> 1 -> open_ok s -> open_ok s'.
Proof.
  intros Hwf Hd Hn Hok q'. set (id := dispute_id_of q ts) in *.
  destruct (ds_next _ _ _ _ _ _ _ _ _ Hd Hn) as (_ & (prev & Hp & _ & Hx) & _ & ED & EO & _).
  pose proof (added_number s s' who q ts n e v d Hd) as Hnum. fold id in Hnum, Hp.
  assert (Hopen : open_disputes s' q' = open_disputes s q').
  { apply set_eq. intros i. rewrite !elem_of_open, ED.
    assert (executed_last s' i = executed_last s i) as ->; [|done].
    unfold executed_last. rewrite !lookup_fmap, (ds_VoteInfo _ _ _ _ _ _ _ _ _ Hd).
    rewrite (added_rounds s s' who q ts n e v d Hd i). fold id.
    destruct (decide (i = id)) as [->|Hne].
    - rewrite lookup_insert_eq, (ds_vote _ _ _ _ _ _ _ _ _ Hd). simpl.
      replace (n - 1) with (rounds s id) in Hp by lia. rewrite Hp. simpl. by rewrite Hx.
    - by rewrite lookup_insert_ne by congruence. }
  unfold open_count. rewrite EO, Hopen. apply Hok.
Qed.

Lemma disputed_first s s' who q ts e v d : disputes_wf s -> disputed s s' who q ts 1 e v d ->
  open_ok s -> open_ok s'.
Proof.
  intros Hwf Hd Hok q'. set (id := dispute_id_of q ts) in *.
  destruct (ds_first _ _ _ _ _ _ _ _ _ Hd eq_refl) as (_ & He & _ & _ & Hq & _ & _ & ED & EO & _).
  fold id in ED. pose proof (added_number s s' who q ts 1 e v d Hd) as Hnum. fold id in Hnum.
  assert (Hnew : DisputeInfo s !! id = None).
  { apply eq_None_not_Some. rewrite (dw_dispute _ _ (Hwf id)). lia. }
  assert (Hx : forall i, executed_last s' i = if decide (i = id) then false else executed_last s i).
  { intros i. unfold executed_last. rewrite !lookup_fmap, (ds_VoteInfo _ _ _ _ _ _ _ _ _ Hd).
    rewrite (added_rounds s s' who q ts 1 e v d Hd i). fold id. goal_decide; subst.
    - by rewrite lookup_insert_eq, (ds_vote _ _ _ _ _ _ _ _ _ Hd).
    - by rewrite lookup_insert_ne by congruence. }
  assert (Hopen : open_disputes s' q' =
    if decide (q' = q) then {[id]} ∪ open_disputes s q' else open_disputes s q').
  { apply set_eq. intros i. rewrite elem_of_open, ED, Hx.
    assert (Hi : i ∈ open_disputes s q' -> i <> id).
    { intros (d' & Hd' & _)%elem_of_open ->. congruence. }
    destruct (decide (i = id)) as [->|Hne].
    - rewrite lookup_insert_eq. destruct (decide (q' = q)) as [->|Hqq].
      + split; [set_solver|]. intros _. by exists d.
      + split; [intros (d' & [= <-] & Hq' & _); congruence|]. intros H'. by apply Hi in H'.
    - rewrite lookup_insert_ne, <- elem_of_open by done. destruct (decide (q' = q)); set_solver. }
  unfold open_count. rewrite EO, Hopen, lookup_insert. specialize (Hok q').
  unfold open_count in Hok. destruct (decide (q = q')) as [<-|Hne]; [rewrite decide_True by done|].
  - rewrite size_union, size_singleton, Nat2Z.inj_add, <- Hok; [simpl; lia|].
    apply disjoint_singleton_l. intros (d' & Hd' & _)%elem_of_open. congruence.
  - by rewrite decide_False by congruence.
Qed.

Lemma executed_open s s' id n result v d : disputes_wf s -> executed s s' id n result v d ->
  open_ok s -> open_ok s'.
Proof.
  intros Hwf [_ [-> Hn] Hv Hx _ _ Hd _ EO EV Hrest] Hok q'. split_pairs.
  assert (Hx' : forall i, executed_last s' i = if decide (i = id) then true else executed_last s i).
  { intros i. unfold executed_last, rounds. rewrite !lookup_fmap, EV.
    match goal with H : VoteRounds _ = _ |- _ => rewrite H end. goal_decide; subst.
    - by rewrite lookup_insert_eq.
    - by rewrite lookup_insert_ne by congruence. }
  assert (Hin : id ∈ open_disputes s (dsp_query_id d)).
  { apply elem_of_open. exists d. split; [done|]. split; [done|].
    unfold executed_last. by rewrite lookup_fmap, Hv. }
  assert (Hopen : open_disputes s' q' = open_disputes s q' ∖ {[id]}).
  { apply set_eq. intros i. rewrite elem_of_difference, !elem_of_open, Hx'.
    match goal with H : DisputeInfo _ = _ |- _ => rewrite H end.
    destruct (decide (i = id)); set_solver. }
  unfold open_count. rewrite EO, Hopen. pose proof (Hok q') as Hq. unfold open_count in Hq.
  rewrite lookup_alter. destruct (decide (dsp_query_id d = q')) as [<-|Hne].
  - rewrite size_difference by set_solver. rewrite size_singleton.
    assert (size (open_disputes s (dsp_query_id d)) <> 0%nat)
      by (intros E; apply size_empty_inv in E; by apply E in Hin).
    destruct (OpenDisputesOnId s !! dsp_query_id d); simpl in *; [|lia].
    unfold saturating_sub. lia.
  - assert (open_disputes s q' ∖ {[id]} = open_disputes s q') as ->; [|done].
    apply set_eq. intros i. rewrite elem_of_difference, elem_of_singleton.
    split; [tauto|]. intros Hi. split; [done|]. intros ->.
    apply elem_of_open in Hi as (d' & Hd' & Hq' & _). congruence.
Qed.

Lemma call_open origin c s u s' : disputes_wf s -> open_ok s ->
  call_body origin c s = (Ok u, s') -> open_ok s'.
Proof.
  intros Hwf Hok H. destruct (decide (is_dispute_or_vote c)) as [Hc|Hc].
  2: { eapply open_ok_parts; [|exact Hok]. by apply (keeps_run _ _ _ _ _ (keeps_open origin c Hc)) in H. }
  destruct c; simpl in Hc; try done; simpl in H;
    unfold void, vote, vote_on_multiple_disputes, send_votes, report_vote_tallied,
      report_vote_executed in H; cinv.
  - match goal with H : begin_dispute _ _ _ _ _ = _ |- _ =>
      apply begin_dispute_Ok in H as (who & n & e & v & d & _ & Hd) end.
    destruct (Z.eq_dec n 1) as [->|Hn]; [by eapply disputed_first|by eapply disputed_next].
  - eapply open_ok_parts; [by eapply do_vote_open|done].
  - eapply open_ok_parts; [by eapply vote_all_open|done].
  - eapply open_ok_parts; [by eapply do_send_votes_open|done].
  - eapply open_ok_parts; [by eapply tally_votes_open|done].
  - match goal with H : execute_vote _ _ = _ |- _ =>
      apply execute_vote_Ok in H as (r & v & d & Hx) end.
    by eapply executed_open.
Qed.

Lemma hook_open x r y : on_initialize x = (r, y) -> r <> Panic -> open_parts y = open_parts x.
Proof.
  intros Hi Hr.
  unfold on_initialize in Hi. unfold_calls. rewrite !bind_gets in Hi.
  match type of Hi with bind ?m _ _ = _ =>
    assert (Hk : keeps open_parts m) by solve_keeps; specialize (Hk x);
    unfold bind at 1 in Hi; destruct (m x) as [[c|e|] s1] eqn:Hm end;
    cbn [snd] in Hk; [| |by simplify_eq]; rewrite <- Hk.
  * unfold bind, attempt, ret in Hi. destruct (do_send_votes (sys_now x) _ s1) as [[v|e|] s2] eqn:Hs;
      simplify_eq; [by eapply do_send_votes_open|by apply do_send_votes_no_Err in Hs].
  * by simplify_eq.
Qed.

Lemma open_ok_reachable s : reachable s -> open_ok s.
Proof.
  revert s. apply reachable_ind_inv.
  - intros t a _ q. unfold open_count, open_disputes. simpl. rewrite lookup_empty. simpl.
    by rewrite map_filter_empty, dom_empty_L, size_empty.
  - intros s s' Hs Hok Hstep. pose proof (disputes_wf_reachable _ Hs) as Hwf. revert Hwf Hok. clear Hs.
    destruct Hstep as [x o c r y _ Hd Hr|x r y Hi Hr|x t b _|x a]; intros Hwf Hok; try exact Hok.
    + unfold dispatch in Hd. destruct r as [u|e|]; [| |done].
      * apply transactional_Ok in Hd. by eapply call_open.
      * apply transactional_Err in Hd. by subst.
    + eapply open_ok_parts; [|exact Hok].
      by eapply hook_open.
Qed.
End Open.
