(* ===== verification/FeeFacts.v ===== *)
(** * The dispute fees account covers the open disputes

    The initiator of a round pays its fee to the account, and the execution of the vote
    pays out the fees of all rounds.  What is owed is the sum of the fees of the rounds
    of the disputes that were not executed. *)

From S2P Require Import Prelude Types Config Storage Oracle OracleFacts Queries Xcm Governance.
From S2P Require Import GovernanceFacts Staking StakingFacts Autopay Pallet PalletFacts.
From S2P Require Import AccountFacts WidthFacts DisputeCountFacts.

#[local] Set Warnings "-clear-no-such-hyp".

(** ** What is owed *)

Section Owed.
Context {T : Config}.
Implicit Types s : State.

Definition fee_of s (id : DisputeId) (r : Z) : Balance :=
  default 0 ((vote_fee <$> VoteInfo s) !! (id, r)).

(** The fees of the rounds of a dispute, until it is executed. *)
Definition dispute_owed s (id : DisputeId) : Balance :=
  if executed_last s id then 0 else zsum (fee_of s id) (seqZ 1 (rounds s id)).

Definition fees_owed s : Balance :=
  map_sum (fun x => x) (map_imap (fun id _ => Some (dispute_owed s id)) (VoteRounds s)).

Lemma fees_owed_parts s s' : open_parts s' = open_parts s -> fees_owed s' = fees_owed s.
Proof.
  unfold open_parts. intros H. injection H as E1 _ _ E4 E5. unfold fees_owed. rewrite E1. f_equal.
  apply map_imap_ext. intros id. unfold dispute_owed, executed_last, fee_of, rounds.
  by rewrite E1, E4, E5.
Qed.

(** Only the debt of one dispute changes. *)
Lemma fees_owed_update s s' id n : VoteRounds s' = <[id := n]> (VoteRounds s) ->
  (forall i, i <> id -> dispute_owed s' i = dispute_owed s i) ->
  (VoteRounds s !! id = None -> dispute_owed s id = 0) ->
  fees_owed s' = fees_owed s - dispute_owed s id + dispute_owed s' id.
Proof.
  intros ER Hother Hnone. unfold fees_owed. rewrite ER.
  assert (map_imap (fun i _ => Some (dispute_owed s' i)) (<[id := n]> (VoteRounds s)) =
    <[id := dispute_owed s' id]> (map_imap (fun i _ => Some (dispute_owed s i)) (VoteRounds s))) as ->.
  { apply map_eq. intros i. rewrite map_lookup_imap. destruct (decide (i = id)) as [->|Hne].
    - by rewrite !lookup_insert_eq.
    - rewrite !lookup_insert_ne, map_lookup_imap, Hother by done. done. }
  rewrite map_sum_insert, map_lookup_imap.
  destruct (VoteRounds s !! id) eqn:E; simpl; [lia|]. rewrite Hnone by done. lia.
Qed.

Lemma fee_nonneg s id r : typed s -> 0 <= fee_of s id r.
Proof.
  intros Ht. unfold fee_of. rewrite lookup_fmap. destruct (VoteInfo s !! (id, r)) as [v|] eqn:Hv; [|done].
  apply (vt_fee v), (values_lookup _ _ _ _ (ty_votes _ Ht) Hv).
Qed.

(** ** Rounds that begin and disputes that end *)

Lemma dispute_owed_same s s' id : rounds s' id = rounds s id ->
  (forall r, VoteInfo s' !! (id, r) = VoteInfo s !! (id, r)) ->
  dispute_owed s' id = dispute_owed s id.
Proof.
  intros Hr Hv. unfold dispute_owed, executed_last. rewrite !lookup_fmap, Hr, Hv.
  destruct (default _ _); [done|]. apply zsum_ext. intros k _. unfold fee_of.
  by rewrite !lookup_fmap, Hv.
Qed.

Lemma disputed_owed s s' who q ts n e v d : disputes_wf s -> disputed s s' who q ts n e v d ->
  fees_owed s' = fees_owed s + vote_fee v.
Proof.
  intros Hwf Hd. set (id := dispute_id_of q ts).
  pose proof (added_number s s' who q ts n e v d Hd) as Hn. fold id in Hn.
  pose proof (added_rounds s s' who q ts n e v d Hd) as Hr. fold id in Hr.
  pose proof (ds_VoteInfo _ _ _ _ _ _ _ _ _ Hd) as EV. fold id in EV.
  pose proof (dw_rounds _ _ (Hwf id)) as Hpos.
  rewrite (fees_owed_update s s' id n); [|exact (ds_VoteRounds _ _ _ _ _ _ _ _ _ Hd)| |].
  - assert (dispute_owed s id = zsum (fee_of s id) (seqZ 1 (rounds s id))) as ->.
    { unfold dispute_owed, executed_last. rewrite lookup_fmap.
      destruct (VoteInfo s !! (id, rounds s id)) as [w|] eqn:Hw; [|done]. simpl.
      by rewrite (added_previous s s' who q ts n e v d Hwf Hd w Hw). }
    assert (dispute_owed s' id = vote_fee v + zsum (fee_of s id) (seqZ 1 (rounds s id))) as ->; [|lia].
    unfold dispute_owed, executed_last. rewrite Hr, decide_True, lookup_fmap, EV, lookup_insert_eq by done.
    simpl. rewrite (ds_vote _ _ _ _ _ _ _ _ _ Hd) at 1. simpl.
    rewrite Hn, seqZ_app, zsum_app by lia. simpl. unfold fee_of at 2. rewrite lookup_fmap, EV.
    replace (1 + rounds s id) with n by lia. rewrite lookup_insert_eq. simpl.
    rewrite (zsum_ext _ (fee_of s id)); [lia|]. intros k Hk. apply elem_of_seqZ in Hk.
    unfold fee_of. rewrite !lookup_fmap, EV, lookup_insert_ne; [done|]. intros [=]. lia.
  - intros i Hi. apply dispute_owed_same; [by rewrite Hr, decide_False|].
    intros r. rewrite EV. apply lookup_insert_ne. congruence.
  - intros Hnone. assert (Hz : rounds s id = 0) by (unfold rounds, value_or_zero; by rewrite Hnone).
    unfold dispute_owed. rewrite Hz. by destruct (executed_last s id).
Qed.

Lemma executed_owed s s' id n result v d : executed s s' id n result v d ->
  fees_owed s' = fees_owed s - zsum (fee_of s id) (seqZ 1 n).
Proof.
  intros [_ [-> Hn] Hv Hx _ _ _ _ _ EV Hrest]. injection Hrest as ER _ _ _ _ _ _ _ _ _ _ _ _.
  assert (Hr : forall i, rounds s' i = rounds s i) by (intros i; unfold rounds; by rewrite ER).
  rewrite (fees_owed_update s s' id (rounds s id)).
  - assert (dispute_owed s' id = 0) as ->.
    { unfold dispute_owed, executed_last. by rewrite Hr, lookup_fmap, EV, lookup_insert_eq. }
    unfold dispute_owed, executed_last. rewrite lookup_fmap, Hv. simpl. rewrite Hx. lia.
  - rewrite ER, insert_id; [done|]. unfold rounds, value_or_zero in Hn |- *.
    by destruct (VoteRounds s !! id).
  - intros i Hi. apply dispute_owed_same; [done|]. intros r. rewrite EV. apply lookup_insert_ne. congruence.
  - intros Hnone. unfold rounds, value_or_zero in Hn. by rewrite Hnone in Hn.
Qed.

(** The payments are the fees. *)
Definition paid_total (ps : list (AccountId * Balance)) : Balance :=
  foldr (fun p acc => snd p + acc) 0 ps.

Lemma payments_fees s id result d l : forall ps, payments s id result d l = Some ps ->
  paid_total ps = zsum (fee_of s id) l /\ Forall (fun p => exists r, snd p = fee_of s id r) ps.
Proof.
  induction l as [|r l IH]; intros ps H; unfold payments in H; simpl in H.
  - injection H as <-. split; [done|constructor].
  - destruct (VoteInfo s !! (id, r)) as [v|] eqn:Hv; simpl in H; [|done].
    destruct (mapM _ l) as [ps'|] eqn:Hl; simpl in H; [|done]. injection H as <-.
    destruct (IH ps' Hl) as [IH1 IH2].
    assert (Ef : vote_fee v = fee_of s id r) by (unfold fee_of; by rewrite lookup_fmap, Hv).
    simpl. split; [f_equal; [exact Ef|exact IH1]|]. constructor; [by exists r|done].
Qed.
End Owed.

(** ** Payments out of the account *)

Section Calls.
Context {T : Config} {Ok_T : ConfigOk T} {A_laws : AssetLaws cfg_Asset}.
Implicit Types s : State.

Lemma paid_total_nonneg ps : Forall (fun p : AccountId * Balance => 0 <= snd p) ps ->
  0 <= paid_total ps.
Proof. induction 1; simpl; lia. Qed.

Lemma transfers_cost src l : forall a a', Forall (fun p => 0 <= snd p) l ->
  transfers a src l = inr a' -> minimum_balance + paid_total l <= asset_balance a src ->
  asset_balance a src - paid_total l <= asset_balance a' src.
Proof.
  induction l as [|[dst n] l IH]; intros a a' Hpos H Hmin; simpl in *; [injection H as <-; lia|].
  apply Forall_cons in Hpos as [Hn Hl]. simpl in Hn. pose proof (paid_total_nonneg _ Hl).
  destruct (asset_transfer a src dst n Protect) as [c|a1] eqn:Ht; [done|].
  assert (Ha1 : asset_balance a src - n <= asset_balance a1 src).
  { destruct (decide (src = dst)) as [->|Hne].
    - rewrite (transfer_self _ _ _ _ _ dst Ht). lia.
    - rewrite (transfer_src _ _ _ _ _ _ Ht Hne); [lia|]. right. lia. }
  pose proof (IH a1 a' Hl H ltac:(lia)). lia.
Qed.

Abbreviation solvent := (covered dispute_fees fees_owed).

Lemma beside_fees_account : pallet_account <> dispute_fees /\ staking_rewards <> dispute_fees /\
  tips <> dispute_fees.
Proof.
  pose proof sub_accounts_distinct as Hd. rewrite !NoDup_cons in Hd. set_solver.
Qed.

Lemma begin_dispute_solvent o q t b s it s' : o <> Signed dispute_fees -> disputes_wf s ->
  begin_dispute o q t b s = (Ok it, s') -> solvent s -> solvent s'.
Proof.
  intros Ho Hwf H Hs. apply begin_dispute_Ok in H as (who & n & e & v & d & -> & Hd).
  unfold covered in *. rewrite (disputed_owed s s' who q t n e v d Hwf Hd).
  rewrite (transfer_dst _ _ _ _ _ _ (ds_paid _ _ _ _ _ _ _ _ _ Hd)) by congruence. lia.
Qed.

Lemma execute_vote_solvent id s n s' : typed s -> 0 <= fees_owed s' ->
  execute_vote id s = (Ok n, s') -> solvent s -> solvent s'.
Proof.
  intros Ht H0 H Hs. apply execute_vote_Ok in H as (result & v & d & Hx).
  destruct (ex_paid _ _ _ _ _ _ _ Hx) as (ps & Hps & Htr). apply payments_fees in Hps as [Hps Hf].
  pose proof (executed_owed _ _ _ _ _ _ _ Hx) as Ho. unfold covered in *.
  assert (Hsum : paid_total ps = zsum (fee_of s id) (seqZ 1 n)) by (by rewrite Hps, zsum_reverse).
  assert (Hpos : Forall (fun p => 0 <= snd p) ps).
  { eapply Forall_impl; [exact Hf|]. intros p [r ->]. by apply fee_nonneg. }
  pose proof (transfers_cost _ _ _ _ Hpos Htr ltac:(lia)). lia.
Qed.

(** ** Runs *)

Lemma fees_owed_nonneg s : typed s -> 0 <= fees_owed s.
Proof.
  intros Ht. apply map_sum_nonneg. intros id k. rewrite map_lookup_imap.
  destruct (VoteRounds s !! id); simpl; [|done]. intros [= <-]. unfold dispute_owed.
  destruct (executed_last s id); [done|]. apply zsum_nonneg. intros r _. by apply fee_nonneg.
Qed.

Lemma call_fees_solvent o c s u s' : reachable s -> reachable s' -> o <> Signed dispute_fees ->
  call_body o c s = (Ok u, s') -> solvent s -> solvent s'.
Proof.
  intros Hr Hr' Ho H Hs. pose proof (disputes_wf_reachable _ Hr) as Hwf.
  destruct beside_fees_account as (Hp & Hrw & Ht).
  assert (Hother : payer c <> Some dispute_fees -> open_parts s' = open_parts s -> solvent s').
  { intros Hc E. eapply (takes_none_covered dispute_fees fees_owed (call_body o c));
      [by apply kept_call|by apply fees_owed_parts|exact H|done|done]. }
  destruct (decide (is_dispute_or_vote c)) as [Hc|Hc].
  2: { apply Hother; [|by apply (keeps_run _ _ _ _ _ (keeps_open o c Hc)) in H].
       destruct c; simpl in *; try done; congruence. }
  destruct c; simpl in Hc; try done; simpl in H;
    unfold void, vote, vote_on_multiple_disputes, send_votes, report_vote_tallied,
      report_vote_executed in H; cinv.
  - by eapply begin_dispute_solvent.
  - apply Hother; [done|]. by eapply do_vote_open.
  - apply Hother; [done|]. by eapply vote_all_open.
  - apply Hother; [done|]. by eapply do_send_votes_open.
  - apply Hother; [done|]. by eapply tally_votes_open.
  - eapply (execute_vote_solvent _ s); [by apply typed_reachable| |eassumption|done].
    by apply fees_owed_nonneg, typed_reachable.
Qed.

Lemma guarded_fees_solvent s s' : reachable s -> rtc (guarded_step dispute_fees) s s' ->
  solvent s -> solvent s'.
Proof.
  intros Hs Hrun. destruct beside_fees_account as (Hp & Hr & _). revert s s' Hs Hrun.
  enough (H : forall s s', reachable s -> rtc (guarded_step dispute_fees) s s' -> True ->
    solvent s -> solvent s') by eauto.
  apply covered_run; try done.
  - intros x r y _ Hi Ho. apply fees_owed_parts. by eapply hook_open.
  - intros o c x u y Hx Hy _ Ho _ H. by apply (call_fees_solvent o c x u y).
Qed.
End Calls.
