(* ===== verification/TipFacts.v ===== *)
(** * One-time tips: the storage

    The tips of a query are numbered without gaps, in the order of their times, and
    their cumulative amounts add up the deposits: what is left of a tip is at most its
    deposit.  This holds as long as no total has reached the width of its type. *)

From S2P Require Import Prelude Types Config Storage Oracle OracleFacts Queries Xcm Governance.
From S2P Require Import GovernanceFacts Staking StakingFacts Autopay Pallet PalletFacts.
From S2P Require Import AutopayFacts AutopayFrames FundingFacts DirectoryFacts.

#[local] Set Warnings "-clear-no-such-hyp".

Section Tips.
Context {T : Config}.
Implicit Types s : State.
Implicit Types x : AutopayStore.

Definition tip_count x (q : QueryId) : Z := value_or_zero (TipCount x) q.

(** The total that was tipped before the tip at an index. *)
Definition tipped_before x (q : QueryId) (i : Z) : Balance :=
  if i <=? 0 then 0 else default 0 (tip_cumulative_tips <$> Tips x !! (q, i - 1)).

Definition tipped_total x (q : QueryId) : Balance := tipped_before x q (tip_count x q).

Record tips_ok x (now : Timestamp) : Prop := {
  tp_now : 0 <= now;
  tp_dense : forall q i, is_Some (Tips x !! (q, i)) <-> 0 <= i < tip_count x q;
  tp_time : forall q i tp, Tips x !! (q, i) = Some tp -> 0 < tip_timestamp tp <= now + 1;
  tp_order : forall q i j a b, i <= j -> Tips x !! (q, i) = Some a -> Tips x !! (q, j) = Some b ->
    tip_timestamp a <= tip_timestamp b;
  tp_amount : forall q i tp, Tips x !! (q, i) = Some tp ->
    0 <= tip_amount tp /\ 0 <= tipped_before x q i /\
    tip_amount tp + tipped_before x q i <= tip_cumulative_tips tp;
}.

(** No total has reached the width of its type, where it would saturate. *)
Definition tips_room x : Prop :=
  forall q, tip_count x q < u32_max /\ tipped_total x q < u128_max.

Definition tips_parts x := (Tips x, TipCount x).

Lemma tips_ok_parts x x' now : tips_parts x' = tips_parts x -> tips_ok x now -> tips_ok x' now.
Proof.
  unfold tips_parts. intros E [H1 H2 H3 H4]. injection E as E1 E2.
  split; unfold tip_count, tipped_before in *; rewrite ?E1, ?E2; done.
Qed.

Lemma tips_room_parts x x' : tips_parts x' = tips_parts x -> tips_room x' -> tips_room x.
Proof.
  unfold tips_parts, tips_room, tipped_total, tipped_before, tip_count. intros E. injection E as E1 E2. by rewrite E1, E2.
Qed.

Lemma tips_ok_later x now now' : now <= now' -> tips_ok x now -> tips_ok x now'.
Proof.
  intros Hle [H0 H1 H2 H3 H4]. split; try done; [lia|]. intros q i tp Htp. specialize (H2 q i tp Htp). lia.
Qed.

(** ** Writing a tip *)

(** A claim: only the amount that is left changes. *)
Lemma tips_ok_claim x x' now q i tp : tips_ok x now -> Tips x !! (q, i) = Some tp ->
  tips_parts x' = (<[(q, i) := set_tip_amount 0 tp]> (Tips x), TipCount x) -> tips_ok x' now.
Proof.
  intros [H0 H1 H2 H3 H4] Hi E. injection E as E1 E2.
  assert (Hlook : forall j k b, Tips x' !! (j, k) = Some b -> exists a, Tips x !! (j, k) = Some a /\
    tip_timestamp b = tip_timestamp a /\ tip_cumulative_tips b = tip_cumulative_tips a /\
    (tip_amount b = 0 \/ tip_amount b = tip_amount a)).
  { intros j k b. rewrite E1, lookup_insert_Some. intros [[[= <- <-] <-]|[_ Hb]]; [by exists tp; auto|].
    exists b. auto. }
  assert (Hbefore : forall j k, tipped_before x' j k = tipped_before x j k).
  { intros j k. unfold tipped_before. rewrite E1, lookup_insert. goal_decide; [|done].
    destruct (k <=? 0); [done|]. match goal with H : (q, i) = _ |- _ => rewrite <- H, Hi end. done. }
  split; unfold tip_count in *; rewrite ?E2; [done|..].
  - intros j k. rewrite <- H1, E1. rewrite lookup_insert_is_Some'. split; [|by right].
    intros [[= <- <-]|]; [by eexists|done].
  - intros j k b Hb. apply Hlook in Hb as (a & Ha & -> & _). by eapply H2.
  - intros j k l a b Hkl Ha Hb. apply Hlook in Ha as (a' & Ha & -> & _).
    apply Hlook in Hb as (b' & Hb & -> & _). by eapply H3.
  - intros j k b Hb. apply Hlook in Hb as (a & Ha & _ & -> & Hab). rewrite Hbefore.
    specialize (H4 j k a Ha). lia.
Qed.

(** A new tip, later than the others. *)
Lemma tips_ok_new x x' now q amount : tips_ok x now -> 0 <= amount -> 0 <= tip_count x q ->
  let n := tip_count x q in
  Tips x' = <[(q, n) := {| tip_amount := amount; tip_timestamp := now + 1;
    tip_cumulative_tips := tipped_before x q n + amount |}]> (Tips x) ->
  tip_count x' q = n + 1 -> (forall j, j <> q -> tip_count x' j = tip_count x j) ->
  tips_ok x' now.
Proof.
  intros [H0 H1 H2 H3 H4] Ha Hn0 n E En Eo.
  assert (Hfree : forall k b, Tips x !! (q, k) = Some b -> k < n)
    by (intros k b Hb; apply (H1 q k); by eexists).
  assert (Hb0 : 0 <= tipped_before x q n).
  { unfold tipped_before. destruct (n <=? 0); [done|]. destruct (Tips x !! (q, n - 1)) as [b|] eqn:Hb; simpl; [|done].
    specialize (H4 _ _ _ Hb). lia. }
  assert (Hbefore : forall j k b, Tips x !! (j, k) = Some b -> tipped_before x' j k = tipped_before x j k).
  { intros j k b Hb. unfold tipped_before. rewrite E, lookup_insert_ne; [done|].
    intros [= <- Hk]. apply Hfree in Hb. lia. }
  split; [done|..].
  - intros j k. rewrite E, lookup_insert_is_Some', H1. destruct (decide (j = q)) as [->|Hne].
    + rewrite En. fold n. split; [intros [[= <-]|]; lia|]. intros Hk.
      destruct (Z.eq_dec k n) as [->|]; [by left|right; lia].
    + rewrite Eo by done. split; [intros [[= <- _]|]; done|by right].
  - intros j k b. rewrite E, lookup_insert_Some. intros [[_ <-]|[_ Hb]]; [simpl; lia|by eapply H2].
  - intros j k l a b Hkl. rewrite E, !lookup_insert_Some.
    intros [[Ek <-]|[Hk Ha']] [[El <-]|[Hl Hb']]; simplify_eq; simpl.
    + lia.
    + apply Hfree in Hb'. lia.
    + by eapply H2.
    + by eapply (H3 j k l).
  - intros j k b. rewrite E, lookup_insert_Some. intros [[[= <- <-] <-]|[Hk Hb]].
    + assert (tipped_before x' q n = tipped_before x q n) as ->.
      { unfold tipped_before. rewrite E, lookup_insert_ne; [done|]. intros [= Hk]. lia. }
      simpl. lia.
    + rewrite (Hbefore _ _ _ Hb). by apply H4.
Qed.

(** A deposit that joins the last tip. *)
Lemma tips_ok_join x x' now q amount tp : tips_ok x now -> 0 <= amount ->
  let n := tip_count x q in
  Tips x !! (q, n - 1) = Some tp ->
  tips_parts x' = (<[(q, n - 1) := {| tip_amount := tip_amount tp + amount;
    tip_timestamp := now + 1; tip_cumulative_tips := tip_cumulative_tips tp + amount |}]> (Tips x),
    TipCount x) -> tips_ok x' now.
Proof.
  intros [H0 H1 H2 H3 H4] Ha n Hlast E. injection E as E EC.
  assert (Hfree : forall k b, Tips x !! (q, k) = Some b -> k <= n - 1)
    by (intros k b Hb; assert (0 <= k < n); [apply (H1 q k); by eexists|lia]).
  assert (Hbefore : forall j k, (j, k) <> (q, n) -> tipped_before x' j k = tipped_before x j k).
  { intros j k Hne. unfold tipped_before. rewrite E, lookup_insert_ne; [done|].
    intros [= <- Hk]. apply Hne. f_equal. lia. }
  split; [done|..].
  - intros j k. unfold tip_count. rewrite EC, E, lookup_insert_is_Some'.
    fold (tip_count x j). rewrite <- H1. split; [|by right]. intros [[= <- <-]|]; [by eexists|done].
  - intros j k b. rewrite E, lookup_insert_Some. intros [[_ <-]|[_ Hb]]; [simpl; lia|by eapply H2].
  - intros j k l a b Hkl. rewrite E, !lookup_insert_Some.
    intros [[Ek <-]|[Hk Ha']] [[El <-]|[Hl Hb']]; simplify_eq; simpl.
    + lia.
    + pose proof (Hfree _ _ Hb'). destruct Hl. f_equal. lia.
    + by eapply H2.
    + by eapply (H3 j k l).
  - intros j k b. rewrite E, lookup_insert_Some. intros [[[= <- <-] <-]|[Hk Hb]].
    + rewrite Hbefore by (intros [= Hk]; lia). simpl. specialize (H4 _ _ _ Hlast). lia.
    + rewrite Hbefore; [by apply H4|]. intros [= -> ->]. apply Hfree in Hb. lia.
Qed.

(** ** The calls *)

Definition tips_inv x (now : Timestamp) : Prop := tips_room x -> tips_ok x now.

Definition tipping s := tips_parts (autopay s).

#[local] Hint Resolve keeps_do_get_reward_amount keeps_search_tip keeps_tip_later
  keeps_tip_later_or_missing keeps_earlier_tips : frame.

#[export] Instance tipping_view : AutopayView tipping.
Proof. by split. Qed.

Lemma tipping_accrue_user_tips a n : keeps tipping (accrue_user_tips a n).
Proof. unfold accrue_user_tips. solve_keeps. Qed.
Lemma tipping_store_data q d : keeps tipping (store_data q d).
Proof. unfold store_data. solve_keeps. Qed.
Lemma tipping_do_fund_feed a i q n : keeps tipping (do_fund_feed a i q n).
Proof. unfold do_fund_feed, accrue_user_tips. solve_keeps. Qed.

#[local] Hint Resolve tipping_accrue_user_tips tipping_store_data
  tipping_do_fund_feed : frame.

Lemma tipping_claim_timestamp a i q b l c t : keeps tipping (claim_timestamp a i q b l c t).
Proof. unfold claim_timestamp. solve_keeps. Qed.

#[local] Hint Resolve tipping_claim_timestamp : frame.

(** The calls on feeds. *)
Lemma tipping_feed_call origin c : is_autopay_call c ->
  match c with c_tip _ _ _ | c_claim_onetime_tip _ _ => False | _ => True end ->
  keeps tipping (call_body origin c).
Proof.
  destruct c; simpl; intros Hc Hf; try done; unfold claim_tip, fund_feed, setup_data_feed; solve_keeps.
Qed.

Lemma tips_inv_same x x' now : tips_parts x' = tips_parts x -> tips_inv x now -> tips_inv x' now.
Proof.
  intros E Hx Hroom. apply (tips_ok_parts x); [done|]. apply Hx. by eapply tips_room_parts.
Qed.

(** *** Deposits *)

(** What a deposit of a tip writes, and its effect on the totals. *)
Record deposited x x' (q : QueryId) (amount : Balance) : Prop := {
  dp_counts : forall j, j <> q -> tip_count x' j = tip_count x j;
  dp_tips : forall j k, j <> q -> Tips x' !! (j, k) = Tips x !! (j, k);
  dp_count : Z.min u32_max (tip_count x q) <= tip_count x' q;
  dp_total : tipped_total x' q < u128_max -> tip_count x' q < u32_max ->
    tipped_total x' q = tipped_total x q + amount;
}.

Lemma deposited_room x x' q amount : 0 <= amount -> deposited x x' q amount ->
  tips_room x' -> tips_room x.
Proof.
  intros Ha [D1 D2 D3 D4] Hroom j. destruct (decide (j = q)) as [->|Hne].
  - destruct (Hroom q) as [H1 H2]. specialize (D4 H2 H1). lia.
  - destruct (Hroom j) as [H1 H2]. rewrite D1 in H1 by done. split; [done|].
    unfold tipped_total, tipped_before in *. rewrite D1, D2 in H2 by done. done.
Qed.

(** A new tip of a query with total [c]. *)
Lemma new_tip_deposit q amount c s u s' : 0 <= amount -> 0 <= tip_count s q ->
  c = tipped_total s q -> new_tip q (tip_count s q) amount c s = (Ok u, s') ->
  deposited s s' q amount /\ (tips_room s' -> tips_ok s (sys_now s) -> tips_ok s' (sys_now s)).
Proof.
  intros Ha Hn -> H. unfold new_tip in H. cinv. conditions. subst. simpl.
  assert (Hq : tip_count (upd_TipCount
      <[q := saturating_add u32_max (value_or_zero (TipCount s) q) 1]> s) q
      = Z.min u32_max (tip_count s q + 1)).
  { unfold tip_count, value_or_zero. simpl. by rewrite lookup_insert_eq. }
  unfold tip_count, value_or_zero in Hq. simpl in Hq. split.
  - split; unfold tipped_total, tipped_before, tip_count, value_or_zero; simpl.
    + intros j Hj. by rewrite lookup_insert_ne.
    + intros j k Hj. rewrite lookup_insert_ne by congruence. done.
    + unfold value_or_zero in Hq. rewrite Hq. lia.
    + unfold value_or_zero in Hq. rewrite Hq. intros _ Hlt.
      fold (value_or_zero (TipCount s) q) in *. fold (tip_count s q) in *.
      assert (Z.min u32_max (tip_count s q + 1) = tip_count s q + 1) as -> by lia.
      rewrite (proj2 (Z.leb_gt _ _)) by lia.
      replace (tip_count s q + 1 - 1) with (tip_count s q) by lia. by rewrite lookup_insert_eq.
  - intros Hroom Hok. destruct (Hroom q) as [Hlt _]. unfold tip_count, value_or_zero in Hlt. simpl in Hlt.
    rewrite Hq in Hlt. eapply (tips_ok_new s _ _ q amount); [done|done|done|reflexivity|..].
    + unfold tip_count, value_or_zero. simpl. rewrite Hq. unfold tip_count, value_or_zero in Hlt. lia.
    + intros j Hj. unfold tip_count, value_or_zero. simpl. by rewrite lookup_insert_ne.
Qed.

Lemma deposited_same x x' y q amount : tips_parts y = tips_parts x' ->
  deposited x x' q amount -> deposited x y q amount.
Proof.
  unfold tips_parts. intros E [D1 D2 D3 D4]. injection E as E1 E2.
  split; unfold tipped_total, tipped_before, tip_count in *; by rewrite ?E1, ?E2.
Qed.

(** A deposit that joins the last tip. *)
Lemma join_tip_deposit q amount tp s s' : 0 <= amount -> 0 < tip_count s q ->
  Tips s !! (q, tip_count s q - 1) = Some tp ->
  tips_parts s' = (<[(q, tip_count s q - 1) :=
    {| tip_amount := saturating_add u128_max (tip_amount tp) amount;
       tip_timestamp := sys_now s + 1;
       tip_cumulative_tips := saturating_add u128_max (tip_cumulative_tips tp) amount |}]> (Tips s),
    TipCount s) ->
  deposited s s' q amount /\ (tips_room s' -> tips_ok s (sys_now s) -> tips_ok s' (sys_now s)).
Proof.
  intros Ha Hn Htp E. injection E as E EC.
  assert (Htot : tipped_total s q = tip_cumulative_tips tp).
  { unfold tipped_total, tipped_before. rewrite (proj2 (Z.leb_gt _ _)) by lia. by rewrite Htp. }
  assert (Hc : forall j, tip_count s' j = tip_count s j) by (intros j; unfold tip_count; by rewrite EC).
  assert (Htot' : tipped_total s' q = saturating_add u128_max (tip_cumulative_tips tp) amount).
  { unfold tipped_total, tipped_before. rewrite Hc, (proj2 (Z.leb_gt _ _)) by lia.
    by rewrite E, lookup_insert_eq. }
  split.
  - split; [by intros; rewrite Hc| |rewrite Hc; lia|].
    + intros j k Hj. by rewrite E, lookup_insert_ne by congruence.
    + rewrite Htot', Htot. unfold saturating_add. lia.
  - intros Hroom Hok. destruct (Hroom q) as [_ Hlt]. rewrite Htot' in Hlt.
    destruct (tp_amount _ _ Hok _ _ _ Htp) as (H1 & H2 & H3).
    eapply (tips_ok_join s _ _ q amount tp); [done|done|done|]. unfold tips_parts. rewrite E, EC.
    unfold saturating_add in *. rewrite !Z.min_r by lia. done.
Qed.

Lemma add_tip_deposit q amount d s u s' : 0 <= amount -> 0 <= tip_count s q ->
  add_tip q amount d s = (Ok u, s') ->
  deposited s s' q amount /\ (tips_room s' -> tips_ok s (sys_now s) -> tips_ok s' (sys_now s)).
Proof.
  intros Ha Hn H. unfold add_tip in H. unfold_calls. rewrite bind_gets in H.
  change (value_or_zero (TipCount s) q) with (tip_count s q) in H.
  destruct (Z.eqb_spec (tip_count s q) 0) as [Hz|Hz].
  - apply bind_Ok in H as (u1 & s1 & H1 & H2).
    apply (keeps_run _ _ _ _ _ (tipping_store_data _ _)) in H2.
    apply new_tip_deposit in H1 as [Hd Hok]; [|done|done|].
    + split; [by eapply deposited_same|]. intros Hroom Hs.
      apply (tips_ok_parts s1); [done|]. apply Hok; [|done]. by eapply tips_room_parts.
    + unfold tipped_total, tipped_before. by rewrite Hz.
  - cinv. conditions. subst.
    assert (Htot : tipped_total s q
      = default 0 (tip_cumulative_tips <$> Tips s !! (q, tip_count s q - 1))).
    { unfold tipped_total, tipped_before. by rewrite (proj2 (Z.leb_gt _ _)) by lia. }
    destruct (Tips s !! (q, tip_count s q - 1)) as [old|] eqn:Hold;
      [destruct (_ <? tip_timestamp old)|].
    + cinv. conditions. subst. eapply join_tip_deposit; [done|lia|exact Hold|reflexivity].
    + eapply new_tip_deposit; [done|done| |exact H]. by rewrite Htot.
    + eapply new_tip_deposit; [done|done| |exact H]. by rewrite Htot.
Qed.

Lemma tip_inv origin q amount d s u s' : 0 <= amount -> 0 <= tip_count s q ->
  tips_inv s (sys_now s) -> tip origin q amount d s = (Ok u, s') -> tips_inv s' (sys_now s).
Proof.
  intros Ha Hn Hinv H. unfold tip in H. apply bind_Ok in H as (who & s0 & Ho & H). cinv. conditions.
  match goal with Hadd : add_tip _ _ _ _ = (_, ?s1) |- _ =>
    apply add_tip_deposit in Hadd as [Hd Hok]; [|done|done];
    match goal with Hu : accrue_user_tips _ _ _ = _ |- _ =>
      apply (keeps_run _ _ _ _ _ (tipping_accrue_user_tips _ _)) in Hu end;
    apply (tips_inv_same s1) end.
  - match goal with Hif : (if ?b then _ else _) _ = _ |- _ => destruct b; cinv end; done.
  - intros Hroom. apply Hok; [done|]. apply Hinv. exact (deposited_room _ _ _ _ Ha Hd Hroom).
Qed.

(** *** Claims *)

Lemma onetime_claim_inv q t who s paid s' : tips_inv s (sys_now s) ->
  get_onetime_tip_amount q t who s = (Ok paid, s') ->
  tips_inv s' (sys_now s') /\ sys_now s' = sys_now s.
Proof.
  intros Hinv H. apply get_onetime_tip_amount_Ok in H as (r & i & tp & Hc).
  rewrite (tc_effect _ _ _ _ _ _ _ _ _ Hc). split; [|done]. intros Hroom.
  apply (tips_ok_claim s _ _ q i tp); [|apply (tc_tip _ _ _ _ _ _ _ _ _ Hc)|done].
  apply Hinv. intros j. destruct (Hroom j) as [H1 H2]. split; [done|]. clear H1 Hroom.
  set (s1 := upd_Tips <[(q, i) := set_tip_amount 0 tp]> s) in *.
  assert (ET : Tips s1 = <[(q, i) := set_tip_amount 0 tp]> (Tips s)) by done.
  assert (EC : tip_count s1 j = tip_count s j) by done. clearbody s1.
  unfold tipped_total, tipped_before in *. rewrite EC, ET, lookup_insert in H2.
  destruct (_ <=? 0); [done|]. destruct (decide ((q, i) = _)) as [E|]; [|done].
  rewrite <- E, (tc_tip _ _ _ _ _ _ _ _ _ Hc). done.
Qed.

Lemma onetime_claims_inv q who l : forall acc s paid s', tips_inv s (sys_now s) ->
  foldM (fun acc timestamp =>
      let* amount := get_onetime_tip_amount q timestamp who in
      ret (saturating_add u128_max acc amount)) acc l s = (Ok paid, s') ->
  tips_inv s' (sys_now s') /\ sys_now s' = sys_now s.
Proof.
  induction l as [|t l IH]; intros acc s paid s' Hinv H; cbn [foldM] in H; [by cinv|].
  apply bind_Ok in H as (acc1 & s1 & H1 & H). cinv.
  match goal with H : get_onetime_tip_amount _ _ _ _ = _ |- _ =>
    apply onetime_claim_inv in H as [Hinv1 E1]; [|done] end.
  apply IH in H as [? ?]; [|done]. split; [done|congruence].
Qed.

Lemma claim_onetime_tip_inv o q l s u s' : tips_inv s (sys_now s) ->
  claim_onetime_tip o q l s = (Ok u, s') -> tips_inv s' (sys_now s).
Proof.
  intros Hinv H. unfold claim_onetime_tip in H. cinv.
  match goal with
  | Hl : foldM _ _ l _ = (_, ?s1), Hp : pay_claim _ _ ?s1 = _ |- _ =>
      apply onetime_claims_inv in Hl as [Hinv1 E1]; [|done];
      apply (keeps_run _ _ _ _ _ (view_pay_claim tipping _ _)) in Hp;
      rewrite <- E1; apply (tips_inv_same s1) end; [|done].
  match goal with Hif : (if ?b then _ else _) _ = _ |- _ => destruct b; cinv end; done.
Qed.

Lemma tips_inv_reachable s : reachable s -> tips_inv s (sys_now s).
Proof.
  intros Hs. refine (autopay_invariant tips_inv _ _ _ s Hs).
  - intros t a Ht _. split; unfold tip_count, value_or_zero; simpl; intros; rewrite ?lookup_empty in *;
      simpl; try done. split; [by intros []|lia].
  - intros x t t' Hle Hx Hroom. eapply tips_ok_later; [done|]. by apply Hx.
  - clear s Hs. intros o c s u s' Ha Hc Hs Hinv H.
    pose proof (dir_count _ (directory_ok_reachable _ Hs)) as Hn.
    destruct c; simpl in Ha; try done.
    + by eapply claim_onetime_tip_inv.
    + eapply tips_inv_same; [|exact Hinv].
      exact (keeps_run _ _ _ _ _ (tipping_feed_call o (c_claim_tip _ _ _) I I) H).
    + eapply tips_inv_same; [|exact Hinv].
      exact (keeps_run _ _ _ _ _ (tipping_feed_call o (c_fund_feed _ _ _) I I) H).
    + eapply tips_inv_same; [|exact Hinv].
      exact (keeps_run _ _ _ _ _ (tipping_feed_call o (c_setup_data_feed _ _ _ _ _ _ _ _ _) I I) H).
    + simpl in Hc. eapply tip_inv; [|apply Hn|exact Hinv|exact H]. lia.
Qed.
End Tips.

(** ** What a claim is worth *)

Section Claims.
Context {T : Config}.
Implicit Types s : State.
Implicit Types x : AutopayStore.

Lemma tipped_before_mono x now q i j : tips_ok x now -> 0 <= i <= j -> j < tip_count x q ->
  tipped_before x q i <= tipped_before x q j.
Proof.
  intros Hok [H0 Hij] Hj. remember (Z.to_nat (j - i)) as n eqn:Hn.
  revert j Hij Hj Hn. induction n as [|n IH]; intros j Hij Hj Hn;
    [by replace j with i by lia|].
  etransitivity; [apply (IH (j - 1)); lia|].
  destruct (proj2 (tp_dense _ _ Hok q (j - 1))) as [tp Htp]; [lia|].
  pose proof (tp_amount _ _ Hok _ _ _ Htp) as (? & ? & ?).
  unfold tipped_before at 2. rewrite (proj2 (Z.leb_gt _ _)) by lia. rewrite Htp. simpl. lia.
Qed.

(** The tips after [a] and up to [b] are those numbered from [m] to [i]. *)
Definition window x (q : QueryId) (a b : Timestamp) (m i : Z) : Prop :=
  0 <= m <= i /\ i < tip_count x q /\
  forall k tp, Tips x !! (q, k) = Some tp -> (a < tip_timestamp tp <= b <-> m <= k <= i).

(** The first tip after a time, up to a tip that is. *)
Lemma first_after x now q a i tp : tips_ok x now -> Tips x !! (q, i) = Some tp ->
  a < tip_timestamp tp ->
  exists m, 0 <= m <= i /\ forall k b, k <= i -> Tips x !! (q, k) = Some b ->
    (a < tip_timestamp b <-> m <= k).
Proof.
  intros Hok Hi Ha. assert (H0 : 0 <= i) by (apply (tp_dense _ _ Hok q); by eexists).
  revert tp Hi Ha. pattern i. apply natlike_ind; [|clear i H0; intros i H0 IH|done]; intros tp Hi Ha.
  - exists 0. split; [lia|]. intros k b Hk Hb.
    assert (0 <= k < tip_count x q) by (apply (tp_dense _ _ Hok); by eexists).
    assert (k = 0) as -> by lia. simplify_eq. lia.
  - destruct (proj2 (tp_dense _ _ Hok q i)) as [tp' Htp'].
    { assert (0 <= Z.succ i < tip_count x q) by (apply (tp_dense _ _ Hok); by eexists). lia. }
    destruct (Z.lt_ge_cases a (tip_timestamp tp')) as [Hlt|Hge].
    + destruct (IH tp' Htp' Hlt) as (m & Hm & Hall). exists m. split; [lia|].
      intros k b Hk Hb. destruct (Z.eq_dec k (Z.succ i)) as [->|]; [|apply Hall; [lia|done]].
      simplify_eq. lia.
    + exists (Z.succ i). split; [lia|]. intros k b Hk Hb.
      destruct (Z.eq_dec k (Z.succ i)) as [->|]; [simplify_eq; lia|].
      pose proof (tp_order _ _ Hok q k i b tp' ltac:(lia) Hb Htp'). lia.
Qed.

(** The search for the tip of a report: the last one that is not later. *)
Lemma search_tip_last s q t i : tips_ok s (sys_now s) -> 0 < tip_count s q < 2 ^ 31 ->
  search_tip search_tip_fuel (tip_later_or_missing q t) 0 (tip_count s q) s = (Ok i, s) ->
  0 <= i < tip_count s q /\
  (forall k b, i < k -> Tips s !! (q, k) = Some b -> t < tip_timestamp b).
Proof.
  intros Hok Hn Hs. set (n := tip_count s q) in *.
  set (p := fun m => t <? default 0 (tip_timestamp <$> Tips s !! (q, m))).
  destruct (search_tip_correct (tip_later_or_missing q t) p s 0 n) with (fuel := 32%nat) (a := 0) (b := n)
    as (i' & Hi & Hr & _ & Hhi); try zlia; try (by left); [by intros m Hm|].
  unfold search_tip_fuel in Hs. rewrite Hi in Hs. simplify_eq. split; [done|].
  intros k b Hk Hb. assert (Hkn : 0 <= k < n) by (apply (tp_dense _ _ Hok); by eexists).
  destruct Hhi as [?|Hhi]; [lia|].
  destruct (proj2 (tp_dense _ _ Hok q (i + 1))) as [b' Hb']; [fold n; lia|].
  unfold p in Hhi. rewrite Hb' in Hhi. simpl in Hhi. apply Z.ltb_lt in Hhi.
  pose proof (tp_order _ _ Hok q (i + 1) k b' b ltac:(lia) Hb' Hb). lia.
Qed.

(** The second search, over the tips before that one. *)
Lemma search_tip_earlier s q a i : tips_ok s (sys_now s) -> 0 < i < tip_count s q ->
  tip_count s q < 2 ^ 31 ->
  exists k, search_tip search_tip_fuel (tip_later q a) 0 i s = (Ok k, s) /\ 0 <= k < i /\
    (forall b, k + 1 < i -> Tips s !! (q, k + 1) = Some b -> a < tip_timestamp b).
Proof.
  intros Hok Hi Hn.
  set (p := fun m => a <? default 0 (tip_timestamp <$> Tips s !! (q, m))).
  destruct (search_tip_correct (tip_later q a) p s 0 i) with (fuel := 32%nat) (a := 0) (b := i)
    as (k & Hk & Hr & _ & Hhi); try zlia; try (by left).
  { intros m Hm. destruct (proj2 (tp_dense _ _ Hok q m)) as [b Hb]; [lia|].
    unfold tip_later, p. unfold_calls. rewrite bind_gets, Hb. done. }
  exists k. split; [exact Hk|]. split; [done|]. intros b Hlt Hb.
  destruct Hhi as [?|Hhi]; [lia|]. unfold p in Hhi. rewrite Hb in Hhi. by apply Z.ltb_lt.
Qed.

(** The amount for a report is at least what is left of its tip, and at most the
    deposits of the tips in the window since the previous valid report. *)
Lemma earlier_tips_bounds s q r t m i tp amount s' :
  tips_ok s (sys_now s) -> tip_count s q < 2 ^ 31 ->
  Tips s !! (q, i) = Some tp -> 0 <= m <= i ->
  (forall k b, k <= i -> Tips s !! (q, k) = Some b -> (t < tip_timestamp b <-> m <= k)) ->
  (Reports s !! (q, t) = None -> t = 0) ->
  0 <= amount -> amount + tipped_before s q i <= tip_cumulative_tips tp ->
  forall paid, earlier_tips q r t i amount s = (Ok paid, s') ->
  amount <= paid <= tip_cumulative_tips tp - tipped_before s q m.
Proof.
  intros Hok Hn Htp Hm Hwin Hnone Ha0 Ha paid H.
  assert (Hi : 0 <= i < tip_count s q) by (apply (tp_dense _ _ Hok); by eexists).
  pose proof (tipped_before_mono _ _ q m i Hok Hm ltac:(lia)) as Hmono.
  pose proof (tp_amount _ _ Hok _ _ _ Htp) as (_ & Hb0 & _).
  assert (Hsame : amount <= amount <= tip_cumulative_tips tp - tipped_before s q m) by lia.
  unfold earlier_tips in H. cinv. conditions.
  match type of H with (if ?b then _ else _) _ = _ => destruct b; [|by cinv] end.
  destruct (rep_index <$> Reports s !! (q, t)) as [idx|] eqn:Hidx.
  - destruct (Z.eq_dec i 0) as [->|Hi0].
    + cinv. match goal with Hs : search_tip _ _ 0 0 _ = _ |- _ => vm_compute in Hs; simplify_eq end.
      simpl in H. cinv. done.
    + destruct (search_tip_earlier s q t i Hok) as (k & Hk & Hki & Hlater); [lia|done|].
      rewrite (bind_run _ _ _ _ _ Hk) in H. cbv zeta in H. unfold saturating_add in H.
      rewrite Z.min_r in H by zlia. destruct (Z.ltb_spec (k + 1) i); [|by cinv].
      unfold_calls. rewrite bind_gets, Htp in H. rewrite (bind_ok_or_some _ _ _ _ tp) in H by done.
      destruct (proj2 (tp_dense _ _ Hok q (k + 1))) as [b Hb]; [lia|].
      rewrite bind_gets, Hb in H. rewrite (bind_ok_or_some _ _ _ _ b) in H by done.
      cinv. conditions. subst.
      pose proof (tp_amount _ _ Hok _ _ _ Hb) as (Hx0 & Hx1 & Hx2).
      assert (Hmk : m <= k + 1) by (apply (Hwin _ b); [lia|done|by apply Hlater]).
      pose proof (tipped_before_mono _ _ q m (k + 1) Hok ltac:(lia) ltac:(lia)).
      assert (Hcum : tip_cumulative_tips b <= tipped_before s q i).
      { pose proof (tipped_before_mono _ _ q (k + 2) i Hok ltac:(lia) ltac:(lia)) as Hle.
        unfold tipped_before at 1 in Hle. rewrite (proj2 (Z.leb_gt _ _)) in Hle by lia.
        replace (k + 2 - 1) with (k + 1) in Hle by lia. by rewrite Hb in Hle. }
      lia.
  - assert (t = 0) as -> by (apply Hnone; by destruct (Reports s !! (q, t))).
    assert (m = 0) as ->.
    { destruct (Z.eq_dec m 0) as [|Hm0]; [done|].
      destruct (proj2 (tp_dense _ _ Hok q 0)) as [b Hb]; [lia|].
      assert (m <= 0); [|lia]. apply (Hwin 0 b); [lia|done|]. apply (tp_time _ _ Hok _ _ _ Hb). }
    unfold_calls. rewrite bind_gets, Htp in H. rewrite (bind_ok_or_some _ _ _ _ tp) in H by done.
    cinv. unfold tipped_before at 1. simpl. lia.
Qed.

(** The window of the tip that the search finds. *)
Lemma search_tip_window s q a t i tp : tips_ok s (sys_now s) -> 0 < tip_count s q < 2 ^ 31 ->
  search_tip search_tip_fuel (tip_later_or_missing q t) 0 (tip_count s q) s = (Ok i, s) ->
  Tips s !! (q, i) = Some tp -> a < tip_timestamp tp <= t ->
  exists m, window s q a t m i /\
    forall k b, k <= i -> Tips s !! (q, k) = Some b -> (a < tip_timestamp b <-> m <= k).
Proof.
  intros Hok Hn Hs Htp [Ha Ht]. apply search_tip_last in Hs as [Hi Hlast]; [|done..].
  destruct (first_after s (sys_now s) q a i tp) as (m & Hm & Hwin); [done..|].
  exists m. split; [|done]. split; [done|]. split; [lia|]. intros k b Hb.
  destruct (Z.le_gt_cases k i) as [Hk|Hk].
  - rewrite <- (Hwin k b Hk Hb). pose proof (tp_order _ _ Hok q k i b tp Hk Hb Htp). lia.
  - specialize (Hlast k b ltac:(lia) Hb). lia.
Qed.

(** What a claim leaves of the totals. *)
Lemma claimed_before s q i tp j k : Tips s !! (q, i) = Some tp ->
  tipped_before (upd_Tips <[(q, i) := set_tip_amount 0 tp]> s) j k = tipped_before s j k.
Proof.
  intros Hi. unfold tipped_before. simpl. rewrite lookup_insert. goal_decide; [|done].
  destruct (k <=? 0); [done|]. match goal with H : (q, i) = _ |- _ => rewrite <- H, Hi end. done.
Qed.

Lemma tip_claimed_bounds s s' q t who r i tp paid : tips_ok s (sys_now s) ->
  tip_count s q < 2 ^ 31 -> oracle_wf s (sys_now s) ->
  tip_claimed s s' q t who r i tp paid ->
  exists m, window s q (default 0 (rep_previous r)) t m i /\
    tip_amount tp <= paid <= tip_cumulative_tips tp - tipped_before s q m.
Proof.
  intros Hok Hn Ho Hc. pose proof Hc as [Hr Hv _ _ Hc0 Hs Htp He Hu E Hp].
  assert (Hi : 0 <= i < tip_count s q) by (apply (tp_dense _ _ Hok); by eexists).
  destruct (search_tip_window s q _ t i tp Hok ltac:(lia) Hs Htp He) as (m & Hw & Hm).
  exists m. split; [done|]. destruct Hw as [Hmi _].
  pose proof (tp_amount _ _ Hok _ _ _ Htp) as (? & ? & ?).
  rewrite <- (claimed_before s q i tp q m Htp). subst s'.
  eapply (earlier_tips_bounds _ q r _ m i (set_tip_amount 0 tp) (tip_amount tp)); [..|exact Hp].
  - by eapply (tips_ok_claim s _ _ q i tp).
  - done.
  - simpl. by rewrite lookup_insert_eq.
  - done.
  - intros k b Hk Hb. simpl in Hb. apply lookup_insert_Some in Hb as [[Ek <-]|[_ Hb]]; [|by apply Hm].
    injection Ek as <-. by apply (Hm i tp).
  - intros Hnone. change (Reports s !! (q, default 0 (rep_previous r)) = None) in Hnone.
    pose proof (wf_previous _ _ _ (Ho q) _ _ Hr) as Hprev.
    destruct (rep_previous r) as [p|]; [|done]. cbn [default id last_live] in Hnone, Hprev.
    destruct Hprev as (j & _ & (_ & r' & Hr' & _) & _). unfold report_at in Hr'. congruence.
  - done.
  - rewrite claimed_before by done. simpl. lia.
Qed.

(** A report with a valid report before it is not paid the first tip of the query, unless
    that is its last tip: the second search ends at the second tip at the earliest. *)
Lemma earlier_tips_not_first s q r t i tp amount s' paid :
  tips_ok s (sys_now s) -> tip_count s q < 2 ^ 31 ->
  Tips s !! (q, i) = Some tp -> 0 < i -> is_Some (Reports s !! (q, t)) ->
  amount + tipped_before s q i <= tip_cumulative_tips tp ->
  earlier_tips q r t i amount s = (Ok paid, s') ->
  paid <= tip_cumulative_tips tp - tipped_before s q 1.
Proof.
  intros Hok Hn Htp Hi0 [r' Hr'] Ha H.
  assert (Hi : 0 <= i < tip_count s q) by (apply (tp_dense _ _ Hok q); by eexists).
  pose proof (tipped_before_mono _ _ q 1 i Hok ltac:(lia) ltac:(lia)) as Hmono.
  unfold earlier_tips in H. cinv. conditions.
  match type of H with (if ?b then _ else _) _ = _ => destruct b; [|cinv; lia] end.
  destruct (rep_index <$> Reports s !! (q, t)) as [idx|] eqn:Hidx; [|by rewrite Hr' in Hidx].
  destruct (search_tip_earlier s q t i Hok) as (k & Hk & Hki & _); [lia|done|].
  rewrite (bind_run _ _ _ _ _ Hk) in H. cbv zeta in H. unfold saturating_add in H.
  rewrite Z.min_r in H by zlia. destruct (Z.ltb_spec (k + 1) i); [|cinv; lia].
  unfold_calls. rewrite bind_gets, Htp in H. rewrite (bind_ok_or_some _ _ _ _ tp) in H by done.
  destruct (proj2 (tp_dense _ _ Hok q (k + 1))) as [b Hb]; [lia|].
  rewrite bind_gets, Hb in H. rewrite (bind_ok_or_some _ _ _ _ b) in H by done.
  cinv. conditions. subst.
  pose proof (tp_amount _ _ Hok _ _ _ Hb) as (_ & _ & Hx).
  pose proof (tipped_before_mono _ _ q 1 (k + 1) Hok ltac:(lia) ltac:(lia)). lia.
Qed.

Lemma tip_claimed_not_first s s' q t who r i tp paid p : tips_ok s (sys_now s) ->
  tip_count s q < 2 ^ 31 -> oracle_wf s (sys_now s) ->
  tip_claimed s s' q t who r i tp paid -> rep_previous r = Some p -> 0 < i ->
  paid <= tip_cumulative_tips tp - tipped_before s q 1.
Proof.
  intros Hok Hn Ho Hc Hprev Hi. pose proof Hc as [Hr _ _ _ _ _ Htp _ _ E Hp].
  pose proof (tp_amount _ _ Hok _ _ _ Htp) as (_ & _ & Hx).
  rewrite <- (claimed_before s q i tp q 1 Htp). rewrite Hprev in Hp. subst s'.
  change (tip_cumulative_tips tp) with (tip_cumulative_tips (set_tip_amount 0 tp)).
  eapply (earlier_tips_not_first _ q r p i _ (tip_amount tp)); [..|exact Hp].
  - by eapply (tips_ok_claim s _ _ q i tp).
  - done.
  - simpl. by rewrite lookup_insert_eq.
  - done.
  - pose proof (wf_previous _ _ _ (Ho q) _ _ Hr) as Hlast. rewrite Hprev in Hlast.
    destruct Hlast as (j & _ & (_ & r' & Hr' & _) & _). by exists r'.
  - rewrite claimed_before by done. simpl. lia.
Qed.
End Claims.
