(* ===== verification/PaymentFacts.v ===== *)
(** * One-time tips are paid once

    The events of a run tell what was tipped for a query and what the claims of its
    tips have paid.  The windows of distinct valid reports are disjoint, and a report
    that has claimed can no longer be disputed, nor its previous report: so the claims
    earn disjoint sets of tips, and pay no more than was tipped. *)

From S2P Require Import Prelude Types Config Storage Oracle OracleFacts Queries Xcm Governance.
From S2P Require Import GovernanceFacts Staking StakingFacts Autopay Pallet PalletFacts.
From S2P Require Import AutopayFacts AutopayFrames FundingFacts DirectoryFacts TipFacts.

(** ** Totals of the events *)

Fixpoint event_total (f : Event -> Balance) (l : list Event) : Balance :=
  match l with
  | [] => 0
  | e :: l' => f e + event_total f l'
  end.

Definition tip_event (q : QueryId) (e : Event) : Balance :=
  match e with
  | TipAdded q' amount _ _ => if q' =? q then amount else 0
  | _ => 0
  end.

Definition claim_event (q : QueryId) (e : Event) : Balance :=
  match e with
  | OneTimeTipClaimed q' amount _ => if q' =? q then amount else 0
  | _ => 0
  end.

(** ** Reports that can no longer be disputed *)

Section Reports.
Context {T : Config} {Ok_T : ConfigOk T}.
Implicit Types s : State.

(** A valid report at [t] after the valid one at [p]. *)
Definition valid_report (o : OracleStore) (q : QueryId) (t p : Timestamp) : Prop :=
  exists r, Reports o !! (q, t) = Some r /\ rep_is_disputed r = false /\
    p = default 0 (rep_previous r).

(** The time in which a report may be disputed has passed. *)
Definition final_report s (q : QueryId) (t p : Timestamp) : Prop :=
  valid_report s q t p /\ 12 * HOURS < sys_now s - t.

(** A later valid report comes after an earlier one. *)
Lemma previous_not_before o clock q t p t' p' : query_wf o clock q ->
  valid_report o q t p -> valid_report o q t' p' -> t < t' -> t <= p'.
Proof.
  intros Hwf (r & Hr & Hv & _) (r' & Hr' & Hv' & ->) Hlt.
  pose proof (wf_at _ _ _ Hwf _ _ Hr) as Hi. pose proof (wf_at _ _ _ Hwf _ _ Hr') as Hi'.
  apply (ts_at_lt_iff _ _ _ Hwf _ _ _ _ Hi Hi') in Hlt.
  assert (Hl : live o q (rep_index r) t) by (split; [done|by exists r]).
  pose proof (ts_at_range _ _ _ Hwf _ _ Hi) as Hrange.
  pose proof (wf_previous _ _ _ Hwf _ _ Hr') as Hp. destruct (rep_previous r') as [u|]; simpl in Hp |- *.
  - destruct Hp as (j & Hj & [Hju _] & Hdead). destruct (Z.le_gt_cases (rep_index r) j) as [Hle|Hgt].
    + destruct (Z.eq_dec (rep_index r) j) as [E|]; [rewrite E in Hi; simplify_eq; lia|].
      apply Z.lt_le_incl, (ts_at_lt_iff _ _ _ Hwf _ _ _ _ Hi Hju). lia.
    + destruct (live_not_dead _ _ _ _ Hl). apply Hdead. lia.
  - destruct (live_not_dead _ _ _ _ Hl). apply Hp. lia.
Qed.

(** A time is in the window of one valid report only. *)
Lemma windows_disjoint o clock q t p t' p' x : query_wf o clock q ->
  valid_report o q t p -> valid_report o q t' p' -> p < x <= t -> p' < x <= t' -> t = t'.
Proof.
  intros Hwf Hr Hr' Hx Hx'. destruct (Z.lt_total t t') as [Hlt|[|Hlt]]; [|done|].
  - pose proof (previous_not_before _ _ _ _ _ _ _ Hwf Hr Hr' Hlt). lia.
  - pose proof (previous_not_before _ _ _ _ _ _ _ Hwf Hr' Hr Hlt). lia.
Qed.

(** No valid report is later than the last reported time. *)
Lemma valid_report_last o clock q t p : query_wf o clock q -> valid_report o q t p ->
  t <= default 0 (LastReportedTimestamp o !! q).
Proof.
  intros Hwf (r & Hr & Hv & _). pose proof (wf_at _ _ _ Hwf _ _ Hr) as Hi.
  assert (Hl : live o q (rep_index r) t) by (split; [done|by exists r]).
  pose proof (ts_at_range _ _ _ Hwf _ _ Hi) as Hrange.
  pose proof (wf_last _ _ _ Hwf) as Hp. destruct (LastReportedTimestamp o !! q) as [u|]; simpl in Hp |- *.
  - destruct Hp as (j & Hj & [Hju _] & Hdead). destruct (Z.le_gt_cases (rep_index r) j) as [Hle|Hgt].
    + destruct (Z.eq_dec (rep_index r) j) as [E|]; [rewrite E in Hi; simplify_eq; lia|].
      apply Z.lt_le_incl, (ts_at_lt_iff _ _ _ Hwf _ _ _ _ Hi Hju). lia.
    + destruct (live_not_dead _ _ _ _ Hl). apply Hdead. lia.
  - destruct (live_not_dead _ _ _ _ Hl). apply Hp. lia.
Qed.

(** A removal leaves a report alone that is much older than the removed one. *)
Lemma removed_valid o o' clock q ts r j t p : oracle_wf o clock -> removed o o' q ts r ->
  t < ts -> valid_report o j t p -> valid_report o' j t p.
Proof.
  intros Hwf Hrm Hlt (r' & Hr' & Hv & ->). unfold valid_report. rewrite (rm_reports _ _ _ _ _ Hrm).
  destruct (decide (j = q)) as [->|]; [|by exists r'].
  rewrite decide_False by lia. unfold report_at. rewrite Hr'. simpl.
  exists (relink ts (rep_previous r) r'). split; [done|].
  assert (Hne : rep_previous r' <> Some ts).
  { intros E. pose proof (wf_previous _ _ _ (Hwf q) _ _ Hr') as Hp. rewrite E in Hp.
    destruct Hp as (i & Hi & [Hts _] & _). pose proof (wf_at _ _ _ (Hwf q) _ _ Hr') as Ht.
    pose proof (proj2 (ts_at_lt_iff _ _ _ (Hwf q) _ _ _ _ Hts Ht) ltac:(lia)). lia. }
  unfold relink. by rewrite decide_False.
Qed.

(** What is final stays so. *)
Lemma final_disputed s s' who q ts n e v d j t p : oracle_wf s (sys_now s) ->
  disputed s s' who q ts n e v d -> final_report s j t p -> final_report s' j t p.
Proof.
  intros Hwf Hd [Hr Ht]. split; [|by rewrite (ds_now _ _ _ _ _ _ _ _ _ Hd)].
  destruct (Z.eq_dec n 1) as [Hn|Hn].
  - apply (ds_first _ _ _ _ _ _ _ _ _ Hd) in Hn
      as (Hage & _ & _ & _ & _ & _ & _ & _ & _ & _ & it & s1 & s2 & Hrun & E1 & _ & E3).
    rewrite <- E1 in Hwf, Hr. rewrite E3.
    destruct (remove_value_Ok q ts (sys_now s) s1 it s2 (Hwf q) Hrun) as (r & Hrm & _).
    eapply removed_valid; [exact Hwf|exact Hrm| |done]. unfold REPORTING_LOCK in Hage. lia.
  - apply (ds_next _ _ _ _ _ _ _ _ _ Hd) in Hn as (_&_&_&_&_&_& ->). done.
Qed.

Lemma final_submitted s s' who q v n qd st j t p :
  submitted s s' who q v n qd st -> final_report s j t p -> final_report s' j t p.
Proof.
  intros Hs [(r & Hr & Hv & Hp) Ht]. rewrite (sb_effect _ _ _ _ _ _ _ _ Hs).
  split; [|done]. exists r. split; [|done]. simpl. rewrite lookup_insert_ne; [done|].
  intros [= -> E]. pose proof (sb_fresh _ _ _ _ _ _ _ _ Hs) as Hf. unfold report_at in Hf. congruence.
Qed.
End Reports.

(** ** Tips that have been earned *)

Section Payments.
Context {T : Config} {Ok_T : ConfigOk T}.
Implicit Types s : State.
Implicit Types x : AutopayStore.

(** What a tip adds to the total of its query. *)
Definition tip_deposit x (q : QueryId) (k : Z) : Balance :=
  tipped_before x q (k + 1) - tipped_before x q k.

(** The tip [k] was earned by a final report, of which [l] is the last tip. *)
Definition earned s (q : QueryId) (k : Z) : Prop :=
  exists t p l b c, final_report s q t p /\
    Tips s !! (q, k) = Some b /\ p < tip_timestamp b /\
    Tips s !! (q, l) = Some c /\ tip_amount c = 0 /\ tip_timestamp c <= t /\ k <= l /\
    forall j a, l < j -> Tips s !! (q, j) = Some a -> t < tip_timestamp a.

(** Claims of tips of [q] were paid [paid], for tips that were earned once. *)
Definition earns s (q : QueryId) (paid : Balance) : Prop :=
  exists ks, NoDup ks /\ (forall k, k ∈ ks -> earned s q k) /\
    paid <= zsum (tip_deposit s q) ks.

Lemma totals_same x x' q : Tips x' = Tips x -> TipCount x' = TipCount x ->
  tip_count x' q = tip_count x q /\ tipped_total x' q = tipped_total x q.
Proof. unfold tipped_total, tipped_before, tip_count. by intros -> ->. Qed.

(** Deposits are not negative, and add up to the total. *)
Lemma tip_deposit_nonneg x now q k : tips_ok x now -> 0 <= k < tip_count x q ->
  0 <= tip_deposit x q k.
Proof.
  intros Hok Hk. destruct (proj2 (tp_dense _ _ Hok q k) Hk) as [b Hb].
  pose proof (tp_amount _ _ Hok _ _ _ Hb) as (H1 & H2 & H3).
  unfold tip_deposit. unfold tipped_before at 1. rewrite (proj2 (Z.leb_gt _ _)) by lia.
  replace (k + 1 - 1) with k by lia. rewrite Hb. simpl. lia.
Qed.

Lemma tip_deposits_total x q : 0 <= tip_count x q ->
  zsum (tip_deposit x q) (seqZ 0 (tip_count x q)) = tipped_total x q.
Proof.
  intros Hn. unfold tipped_total. rewrite <- (Z2Nat.id (tip_count x q)) at 1 by done.
  unfold tip_deposit. rewrite (zsum_telescope (tipped_before x q)).
  rewrite Z.add_0_l, Z2Nat.id by done. unfold tipped_before at 2. simpl. lia.
Qed.

(** So what was paid is at most what was tipped. *)
Lemma earns_bounded s q paid : tips_ok s (sys_now s) -> 0 <= tip_count s q ->
  earns s q paid -> paid <= tipped_total s q.
Proof.
  intros Hok Hn (ks & Hnd & Hks & Hpaid). rewrite <- tip_deposits_total by done.
  etransitivity; [exact Hpaid|]. apply zsum_submseteq.
  - apply NoDup_submseteq; [done|]. intros k Hk.
    destruct (Hks k Hk) as (t & p & l & b & c & _ & Hb & _).
    apply elem_of_seqZ. rewrite Z.add_0_l. apply (tp_dense _ _ Hok). by eexists.
  - intros k Hk. apply elem_of_seqZ in Hk. eapply tip_deposit_nonneg; [exact Hok|lia].
Qed.

(** What a later state needs for the tips up to the time of a final report. *)
Definition tips_later s s' (q : QueryId) : Prop :=
  forall t p l c, final_report s q t p -> Tips s !! (q, l) = Some c -> tip_timestamp c <= t ->
    (forall k b, k <= l -> Tips s !! (q, k) = Some b ->
       exists b', Tips s' !! (q, k) = Some b' /\ tip_timestamp b' = tip_timestamp b /\
         (tip_amount b = 0 -> tip_amount b' = 0)) /\
    (forall k, k <= l -> tip_deposit s' q k = tip_deposit s q k) /\
    (forall j a', l < j -> Tips s' !! (q, j) = Some a' ->
       t < tip_timestamp a' \/
       exists a, Tips s !! (q, j) = Some a /\ tip_timestamp a = tip_timestamp a').

Lemma earned_later s s' q k :
  (forall t p, final_report s q t p -> final_report s' q t p) -> tips_later s s' q ->
  earned s q k -> earned s' q k /\ tip_deposit s' q k = tip_deposit s q k.
Proof.
  intros Hf Ht (t & p & l & b & c & Hr & Hb & Hp & Hc & H0 & Hct & Hkl & Hl).
  destruct (Ht t p l c Hr Hc Hct) as (H1 & H2 & H3). split; [|by apply H2].
  destruct (H1 k b Hkl Hb) as (b' & Hb' & Eb & _).
  destruct (H1 l c ltac:(lia) Hc) as (c' & Hc' & Ec & H0').
  exists t, p, l, b', c'. rewrite Eb, Ec. split; [by apply Hf|]. do 3 (split; [done|]).
  split; [by apply H0'|]. do 2 (split; [done|]). intros j a' Hj Ha'.
  destruct (H3 j a' Hj Ha') as [|(a & Ha & <-)]; [done|]. by eapply Hl.
Qed.

Lemma earns_later s s' q paid :
  (forall t p, final_report s q t p -> final_report s' q t p) -> tips_later s s' q ->
  earns s q paid -> earns s' q paid.
Proof.
  intros Hf Ht (ks & Hnd & Hks & Hpaid). exists ks. split; [done|]. split.
  - intros k Hk. by apply (earned_later s), Hks.
  - rewrite (zsum_ext _ (tip_deposit s q)); [done|]. intros k Hk. by apply (earned_later s), Hks.
Qed.

Lemma tips_later_same s s' q : (forall k, Tips s' !! (q, k) = Tips s !! (q, k)) ->
  tips_later s s' q.
Proof.
  intros E t p l c _ _ _. unfold tip_deposit, tipped_before. split; [|split].
  - intros k b _ Hb. rewrite E. by eauto.
  - intros k _. by rewrite !E.
  - intros j a' _. rewrite E. intros Ha'. right. by exists a'.
Qed.

Lemma earns_same s s' q paid : st_oracle s' = st_oracle s -> sys_now s' = sys_now s ->
  (forall k, Tips s' !! (q, k) = Tips s !! (q, k)) -> earns s q paid -> earns s' q paid.
Proof.
  intros Eo En Et. apply earns_later; [|by apply tips_later_same].
  unfold final_report. by rewrite Eo, En.
Qed.

Lemma earns_less s q paid paid' : paid' <= paid -> earns s q paid -> earns s q paid'.
Proof. intros Hle (ks & H1 & H2 & H3). exists ks. split; [done|]. split; [done|lia]. Qed.

(** *** A claim *)

Lemma claim_later s q i tp j : Tips s !! (q, i) = Some tp ->
  tips_later s (upd_Tips <[(q, i) := set_tip_amount 0 tp]> s) j.
Proof.
  intros Hi t p l c _ _ _. split; [|split].
  - intros k b _ Hb. simpl. rewrite lookup_insert. goal_decide; [|by eauto].
    simplify_eq. by exists (set_tip_amount 0 tp).
  - intros k _. unfold tip_deposit. by rewrite !claimed_before.
  - intros k a' _. simpl. rewrite lookup_insert. goal_decide; [|by eauto].
    intros [= <-]. right. exists tp. by simplify_eq.
Qed.

Lemma claim_final s f q t p : final_report s q t p -> final_report (upd_Tips f s) q t p.
Proof. done. Qed.

(** The window of a claim earns none of the tips that were earned before. *)
Lemma window_not_earned s q t r m i tp k : tips_ok s (sys_now s) -> query_wf s (sys_now s) q ->
  Reports s !! (q, t) = Some r -> rep_is_disputed r = false ->
  window s q (default 0 (rep_previous r)) t m i -> Tips s !! (q, i) = Some tp ->
  0 < tip_amount tp -> m <= k <= i -> ~ earned s q k.
Proof.
  intros Hok Hwf Hr Hv (Hm & Hi & Hw) Htp Hpos Hk
    (t' & p' & l & b & c & [Hr' Ht'] & Hb & Hp' & Hc & H0 & Hct & Hkl & Hl).
  assert (Hin : default 0 (rep_previous r) < tip_timestamp b <= t) by by apply (Hw k b).
  pose proof (tp_order _ _ Hok q k l b c Hkl Hb Hc) as Hbc.
  assert (t = t') as <-.
  { eapply (windows_disjoint s _ q t _ t' p'); [exact Hwf|by exists r|exact Hr'|exact Hin|lia]. }
  assert (Hli : m <= l <= i) by (apply (Hw l c); [done|lia]).
  destruct (Z.eq_dec l i) as [->|Hne]; [simplify_eq; lia|].
  assert (Hti : default 0 (rep_previous r) < tip_timestamp tp <= t) by (apply (Hw i tp); [done|lia]).
  specialize (Hl i tp ltac:(lia) Htp). lia.
Qed.

Lemma earns_claim s s' q t who r i tp a paid : tips_ok s (sys_now s) -> tip_count s q < 2 ^ 31 ->
  oracle_wf s (sys_now s) -> tip_claimed s s' q t who r i tp a -> earns s q paid ->
  earns s' q (paid + a).
Proof.
  intros Hok Hn Ho Hc (ks & Hnd & Hks & Hpaid).
  destruct (tip_claimed_bounds s s' q t who r i tp a Hok Hn Ho Hc) as (m & Hw & _ & Ha).
  pose proof Hc as [Hr Hv _ Hage _ _ Htp He Hu -> _]. pose proof Hw as (Hm & Hi & Hwin).
  exists (seqZ m (i - m + 1) ++ ks). split; [|split].
  - apply NoDup_app. split; [apply NoDup_seqZ|]. split; [|done]. intros k Hk Hk'.
    apply elem_of_seqZ in Hk.
    apply (window_not_earned s q t r m i tp k Hok (Ho q) Hr Hv Hw Htp Hu); [lia|by apply Hks].
  - intros k [Hk|Hk]%elem_of_app.
    + apply elem_of_seqZ in Hk.
      assert (Hb : is_Some (Tips s !! (q, k))) by (apply (tp_dense _ _ Hok); lia).
      destruct Hb as [b Hb]. assert (Hin : default 0 (rep_previous r) < tip_timestamp b <= t)
        by (apply (Hwin k b); [done|lia]).
      destruct (claim_later s q i tp q Htp t (default 0 (rep_previous r)) i tp) as (H1 & _ & H3);
        [by split; [exists r|lia]|done|lia|].
      destruct (H1 k b ltac:(lia) Hb) as (b' & Hb' & Eb & _).
      exists t, (default 0 (rep_previous r)), i, b', (set_tip_amount 0 tp). rewrite Eb.
      split; [split; [by exists r|simpl; lia]|]. split; [done|]. split; [lia|].
      split; [simpl; apply lookup_insert_eq|]. split; [done|]. split; [simpl; lia|]. split; [lia|].
      intros j a' Hj Ha'. destruct (H3 j a' Hj Ha') as [|(a0 & Ha0 & <-)]; [done|].
      destruct (Z.lt_ge_cases t (tip_timestamp a0)) as [|Hge]; [done|].
      pose proof (tp_order _ _ Hok q i j tp a0 ltac:(lia) Htp Ha0).
      assert (m <= j <= i) by (apply (Hwin j a0); [done|lia]). lia.
    + apply (earned_later s); [by intros; apply claim_final|by apply claim_later|by apply Hks].
  - rewrite zsum_app. rewrite (zsum_ext _ (tip_deposit s q) (seqZ _ _)), (zsum_ext _ (tip_deposit s q) ks).
    + replace (i - m + 1) with (Z.of_nat (Z.to_nat (i - m + 1))) by lia.
      unfold tip_deposit at 1. rewrite (zsum_telescope (tipped_before s q)).
      replace (m + Z.of_nat (Z.to_nat (i - m + 1))) with (i + 1) by lia.
      unfold tipped_before at 1. rewrite (proj2 (Z.leb_gt _ _)) by lia.
      replace (i + 1 - 1) with i by lia. rewrite Htp. simpl. lia.
    + intros k Hk. apply (earned_later s); [by intros; apply claim_final|by apply claim_later|by apply Hks].
    + intros k _. unfold tip_deposit. by rewrite !claimed_before.
Qed.
End Payments.

(** ** Frames *)

Section Ledger.
Context {T : Config} (q : QueryId).
Implicit Types s : State.

Definition tipped_ever s : Balance := event_total (tip_event q) (sys_events s).
Definition claimed_ever s : Balance := event_total (claim_event q) (sys_events s).

(** The tips and what the events tell of them. *)
Definition ledger s := (Tips s, TipCount s, tipped_ever s, claimed_ever s).

#[export] Instance ledger_view : AutopayView ledger.
Proof. split; try done. intros e s He. by destruct e; try destruct (He I). Qed.

#[local] Hint Resolve keeps_do_get_reward_amount : frame.

Lemma ledger_accrue_user_tips a n : keeps ledger (accrue_user_tips a n).
Proof. unfold accrue_user_tips. solve_keeps. Qed.
Lemma ledger_store_data j d : keeps ledger (store_data j d).
Proof. unfold store_data. solve_keeps. Qed.

#[local] Hint Resolve ledger_accrue_user_tips ledger_store_data : frame.

Lemma ledger_do_fund_feed a i j n : keeps ledger (do_fund_feed a i j n).
Proof. unfold do_fund_feed. solve_keeps. Qed.
Lemma ledger_claim_timestamp a i j b l c t : keeps ledger (claim_timestamp a i j b l c t).
Proof. unfold claim_timestamp. solve_keeps. Qed.

#[local] Hint Resolve ledger_do_fund_feed ledger_claim_timestamp : frame.

(** The calls on one-time tips. *)
Definition is_tip_call (c : PalletCall) : Prop :=
  match c with c_tip _ _ _ | c_claim_onetime_tip _ _ => True | _ => False end.

#[export] Instance is_tip_call_dec c : Decision (is_tip_call c).
Proof. destruct c; simpl; solve_decision. Defined.

Lemma keeps_ledger origin c : ~ is_tip_call c -> keeps ledger (call_body origin c).
Proof.
  intros Ht. destruct (decide (is_autopay_call c)) as [Hc|Hc]; [|by apply (keeps_view _)].
  destruct c; try done; cbn [call_body]; unfold claim_tip, fund_feed, setup_data_feed; solve_keeps.
Qed.

Lemma ledger_on_initialize : keeps ledger on_initialize.
Proof. apply view_on_initialize, _. Qed.
End Ledger.

(** ** The calls *)

Section Calls.
Context {T : Config} {Ok_T : ConfigOk T}.
Implicit Types s : State.

(** *** Tips *)

(** The tip that a deposit writes is none that a final report has earned. *)
Lemma add_tip_writes q amount d s u s' : 0 <= tip_count s q ->
  add_tip q amount d s = (Ok u, s') ->
  exists i tp, Tips s' = <[(q, i) := tp]> (Tips s) /\ tip_timestamp tp = sys_now s + 1 /\
    (i = tip_count s q \/
     (i = tip_count s q - 1 /\ exists old, Tips s !! (q, i) = Some old /\
        default 0 (LastReportedTimestamp s !! q) < tip_timestamp old)).
Proof.
  intros Hn H. unfold add_tip, new_tip, store_data in H. unfold_calls. rewrite bind_gets in H.
  change (value_or_zero (TipCount s) q) with (tip_count s q) in H.
  destruct (Z.eqb_spec (tip_count s q) 0) as [Hz|Hz]; cinv; conditions; subst.
  - eexists _, _. split; [reflexivity|]. split; [done|]. by left.
  - destruct (Tips s !! (q, tip_count s q - 1)) as [old|] eqn:Hold;
      [destruct (_ <? tip_timestamp old) eqn:Hlt|]; cinv; conditions; subst.
    + eexists _, _. split; [reflexivity|]. split; [done|]. right. split; [done|]. by exists old.
    + eexists _, _. split; [reflexivity|]. split; [done|]. by left.
    + eexists _, _. split; [reflexivity|]. split; [done|]. by left.
Qed.

Lemma add_tip_later q amount d s u s' : tips_ok s (sys_now s) -> query_wf s (sys_now s) q ->
  0 <= tip_count s q -> add_tip q amount d s = (Ok u, s') -> tips_later s s' q.
Proof.
  intros Hok Hwf Hn H. apply add_tip_writes in H as (i & tp & E & Et & Hi); [|done].
  intros t p l c [Hr Ht] Hc Hct.
  assert (Hl : 0 <= l < tip_count s q) by (apply (tp_dense _ _ Hok); by eexists).
  assert (Hli : l < i).
  { destruct Hi as [->|(-> & old & Hold & Hlt)]; [lia|].
    destruct (Z.eq_dec l (tip_count s q - 1)) as [->|]; [|lia]. simplify_eq.
    pose proof (valid_report_last _ _ _ _ _ Hwf Hr). lia. }
  assert (Hne : forall k, k <= l -> Tips s' !! (q, k) = Tips s !! (q, k)).
  { intros k Hk. rewrite E, lookup_insert_ne; [done|]. intros [= <-]. lia. }
  split; [|split].
  - intros k b Hk Hb. rewrite Hne by done. by eauto.
  - intros k Hk. unfold tip_deposit, tipped_before. by rewrite !Hne by lia.
  - intros j a' Hj. rewrite E, lookup_insert. goal_decide; [|by eauto].
    intros [= <-]. left. unfold HOURS, MINUTES in Ht. lia.
Qed.

(** What a tip does besides its deposit. *)
Lemma tip_effect o q amount d s u s' : tip o q amount d s = (Ok u, s') ->
  0 < amount /\ exists s1, add_tip q amount d s = (Ok tt, s1) /\
    Tips s' = Tips s1 /\ TipCount s' = TipCount s1 /\ st_oracle s' = st_oracle s /\
    sys_now s' = sys_now s /\ forall j, claimed_ever j s' = claimed_ever j s /\
      tipped_ever j s' = tip_event j (TipAdded q amount d 0) + tipped_ever j s.
Proof.
  intros H. unfold tip, accrue_user_tips in H. apply bind_Ok in H as (who & s0 & Ho & H).
  apply ensure_signed_Ok in Ho as [-> ->]. cinv. conditions.
  match goal with H : add_tip _ _ _ s = (Ok ?v, ?s1) |- _ => destruct v; rename s1 into s2 end.
  split; [done|]. exists s2. split; [done|].
  assert (Hk : forall j, keeps (fun s => (st_oracle s, sys_now s, claimed_ever j s, tipped_ever j s))
    (add_tip q amount d)).
  { intros j. unfold add_tip, new_tip, store_data. solve_keeps. }
  assert (E4 : forall j, (Tips s4, TipCount s4, st_oracle s4, sys_now s4, claimed_ever j s4, tipped_ever j s4)
    = (Tips s2, TipCount s2, st_oracle s2, sys_now s2, claimed_ever j s2, tipped_ever j s2)).
  { intros j. match goal with Hif : (if ?b then _ else _) _ = _ |- _ => destruct b; cinv end; done. }
  assert (Hs2 : forall j, st_oracle s2 = st_oracle s /\ sys_now s2 = sys_now s /\
    claimed_ever j s2 = claimed_ever j s /\ tipped_ever j s2 = tipped_ever j s).
  { intros j. match goal with H : add_tip _ _ _ s = _ |- _ => apply (keeps_run _ _ _ _ _ (Hk j)) in H end.
    by split_pairs. }
  pose proof (E4 0) as E0. split_pairs. destruct (Hs2 0) as (? & ? & _ & _).
  split; [simpl; congruence|]. split; [simpl; congruence|]. split; [simpl; congruence|].
  split; [simpl; congruence|]. intros j. specialize (E4 j). split_pairs.
  destruct (Hs2 j) as (_ & _ & Ec & Et). split.
  - transitivity (claimed_ever j s4); [done|congruence].
  - transitivity (tip_event j (TipAdded q amount d who) + tipped_ever j s4); [done|].
    simpl. f_equal. congruence.
Qed.

(** *** The invariant *)

(** The events tell the total of the tips, and the claims were earned. *)
Record paid_ok s (q : QueryId) : Prop := {
  po_tipped : tipped_ever q s = tipped_total s q;
  po_earned : earns s q (claimed_ever q s);
}.

(** No counter or total has reached its bound. *)
Definition room s : Prop :=
  tips_room s /\ forall q, tip_count s q < 2 ^ 31 /\ report_count s q < u32_max.

Lemma paid_ok_same s s' q : st_oracle s' = st_oracle s -> sys_now s' = sys_now s ->
  ledger q s' = ledger q s -> paid_ok s q -> paid_ok s' q.
Proof.
  intros Eo En El [Ht He]. unfold ledger in El. injection El as E1 E2 E3 E4.
  destruct (totals_same s s' q E1 E2) as [_ E].
  split; [congruence|]. rewrite E4. eapply earns_same; [done|done| |exact He].
  intros k. by rewrite E1.
Qed.

(** A tip of [q]. *)
Lemma tip_paid o q amount d s u s' j : tips_ok s (sys_now s) -> oracle_wf s (sys_now s) ->
  (forall q, 0 <= tip_count s q) -> tips_room s' ->
  tip o q amount d s = (Ok u, s') -> paid_ok s j -> paid_ok s' j.
Proof.
  intros Hok Hwf Hn Hroom H [Ht He].
  apply tip_effect in H as (Ha & s1 & Hadd & E1 & E2 & E3 & E4 & E5).
  destruct (E5 j) as [Ec Etip].
  pose proof (proj1 (add_tip_deposit q amount d s tt s1 ltac:(lia) (Hn q) Hadd)) as Hd.
  apply (deposited_same _ _ s') in Hd; [|unfold tips_parts; congruence].
  destruct Hd as [D1 D2 D3 D4]. split.
  - rewrite Etip. simpl. destruct (Z.eqb_spec q j) as [->|Hne].
    + destruct (Hroom j) as [R1 R2]. rewrite (D4 R2 R1). lia.
    + unfold tipped_total, tipped_before in *. rewrite (D1 j), (D2 j) by done. lia.
  - rewrite Ec. destruct (decide (j = q)) as [->|Hne].
    + pose proof (add_tip_later q amount d s tt s1 Hok (Hwf q) (Hn q) Hadd) as Hl.
      apply (earns_later s); [|by intros t p l c H1 H2 H3; specialize (Hl t p l c H1 H2 H3);
        unfold tip_deposit, tipped_before in *; rewrite E1|done].
      unfold final_report. by rewrite E3, E4.
    + eapply earns_same; [done|done| |exact He]. intros k. by apply D2.
Qed.

(** *** Claims *)

Definition oracle_clock s := (st_oracle s, sys_now s).

Lemma oracle_pay_claim a n : keeps oracle_clock (pay_claim a n).
Proof. unfold pay_claim, do_add_staking_rewards, update_rewards. solve_keeps. Qed.

(** What claims of tips of [q] do, from a sum [acc] to a sum [x]. *)
Record claims_effect s s' (q : QueryId) (acc x : Balance) : Prop := {
  ce_ok : tips_ok s' (sys_now s');
  ce_oracle : st_oracle s' = st_oracle s;
  ce_now : sys_now s' = sys_now s;
  ce_count : TipCount s' = TipCount s;
  ce_events : sys_events s' = sys_events s;
  ce_total : forall j, tipped_total s' j = tipped_total s j;
  ce_others : forall j p, earns s j p -> earns s' j p;
  ce_earns : forall p, earns s q (p + acc) -> earns s' q (p + x);
}.

Lemma claim_effect q t who s a s' acc : tips_ok s (sys_now s) -> tip_count s q < 2 ^ 31 ->
  oracle_wf s (sys_now s) -> get_onetime_tip_amount q t who s = (Ok a, s') ->
  claims_effect s s' q acc (saturating_add u128_max acc a).
Proof.
  intros Hok Hn Ho H. apply get_onetime_tip_amount_Ok in H as (r & i & tp & Hc).
  pose proof (earns_claim s s' q t who r i tp a) as He. pose proof Hc as [_ _ _ _ _ _ Htp _ _ -> _].
  split; try done.
  - by apply (tips_ok_claim s _ _ q i tp).
  - intros j. unfold tipped_total. rewrite claimed_before by done. done.
  - intros j p. apply earns_later; [by intros; apply claim_final|by apply claim_later].
  - intros p Hp. apply (earns_less _ _ (p + acc + a)); [unfold saturating_add; lia|]. by apply He.
Qed.

Lemma claims_effect_trans s s1 s' q acc a x :
  claims_effect s s1 q acc a -> claims_effect s1 s' q a x -> claims_effect s s' q acc x.
Proof.
  intros [A1 A2 A3 A4 A5 A6 A7 A8] [B1 B2 B3 B4 B5 B6 B7 B8]. split; try congruence; auto.
Qed.

Lemma claims_paid q who l : forall acc s x s', tips_ok s (sys_now s) -> tip_count s q < 2 ^ 31 ->
  oracle_wf s (sys_now s) ->
  foldM (fun acc timestamp =>
      let* amount := get_onetime_tip_amount q timestamp who in
      ret (saturating_add u128_max acc amount)) acc l s = (Ok x, s') ->
  claims_effect s s' q acc x.
Proof.
  induction l as [|t l IH]; intros acc s x s' Hok Hn Ho H; cbn [foldM] in H; [cinv; by split|].
  apply bind_Ok in H as (acc1 & s1 & H1 & H). apply bind_Ok in H1 as (a & s0 & Ha & Hacc). cinv.
  pose proof (claim_effect _ _ _ _ _ _ acc Hok Hn Ho Ha) as He. eapply claims_effect_trans; [exact He|].
  apply IH; [apply He| |rewrite (ce_oracle _ _ _ _ _ He), (ce_now _ _ _ _ _ He); done|exact H].
  unfold tip_count in *. by rewrite (ce_count _ _ _ _ _ He).
Qed.

Lemma claim_onetime_tip_paid o q l s u s' j : tips_ok s (sys_now s) -> tip_count s q < 2 ^ 31 ->
  oracle_wf s (sys_now s) -> claim_onetime_tip o q l s = (Ok u, s') -> paid_ok s j -> paid_ok s' j.
Proof.
  intros Hok Hn Ho H [Ht He]. unfold claim_onetime_tip in H.
  apply bind_Ok in H as (who & s0 & Hs & H). apply ensure_signed_Ok in Hs as [-> ->].
  cinv. conditions.
  match goal with
  | Hl : foldM _ _ l s = (Ok ?x, ?s1), Hp : pay_claim _ _ ?s1 = (_, ?s2),
    Hif : (if ?b then _ else _) ?s2 = (_, ?s3) |- _ =>
      apply claims_paid in Hl as [C1 C2 C3 C4 C5 C6 C7 C8]; [|done..];
      pose proof (keeps_run _ _ _ _ _ (view_pay_claim (ledger j) _ _) Hp) as Kl;
      pose proof (keeps_run _ _ _ _ _ (oracle_pay_claim _ _) Hp) as Ko;
      assert (Hk : (st_oracle s3, sys_now s3, ledger j s3) = (st_oracle s2, sys_now s2, ledger j s2))
        by (destruct b; cinv; done)
  end.
  unfold oracle_clock, ledger in *. split_pairs.
  match goal with |- paid_ok (upd_sys_events ?f ?x) j => set (s' := upd_sys_events f x);
    assert (ET : Tips s' = Tips s2) by (unfold s'; simpl; congruence);
    assert (EC : TipCount s' = TipCount s2) by (unfold s'; simpl; congruence);
    assert (Eo : st_oracle s' = st_oracle s2) by (unfold s'; simpl; congruence);
    assert (En : sys_now s' = sys_now s2) by (unfold s'; simpl; congruence);
    assert (Etip : tipped_ever j s' = tipped_ever j x) by done;
    assert (Ecl : claimed_ever j s' = (if q =? j then a1 else 0) + claimed_ever j x) by done end.
  assert (E2 : tipped_ever j s2 = tipped_ever j s /\ claimed_ever j s2 = claimed_ever j s)
    by (unfold tipped_ever, claimed_ever; by rewrite C5).
  destruct E2 as [E2t E2c]. clearbody s'. split.
  - rewrite (proj2 (totals_same s2 s' j ET EC)), C6. congruence.
  - apply (earns_same s2); [done|done|intros k; by rewrite ET|]. rewrite Ecl.
    apply (earns_less _ _ ((if q =? j then a1 else 0) + claimed_ever j s)); [apply Z.eq_le_incl; congruence|].
    destruct (Z.eqb_spec q j) as [<-|]; [|by apply C7].
    rewrite Z.add_comm. apply C8. by rewrite Z.add_0_r.
Qed.

(** *** Every call *)

Lemma call_final origin c s u s' q t p : oracle_wf s (sys_now s) ->
  call_body origin c s = (Ok u, s') -> final_report s q t p -> final_report s' q t p.
Proof.
  intros Hwf H. assert (Hsame : oracle_clock s' = oracle_clock s ->
    final_report s q t p -> final_report s' q t p).
  { unfold oracle_clock, final_report. intros E. injection E as E1 E2. by rewrite E1, E2. }
  destruct (call_kinds c) as [Hc|[Hc|[Hc|[(j & v & n & d & ->)|(j & w & b & ->)]]]].
  - apply (keeps_run _ _ _ _ _ (keeps_core origin c Hc)) in H. unfold core in H. apply Hsame.
    unfold oracle_clock. split_pairs. congruence.
  - apply (keeps_run _ _ _ _ _ (keeps_clock_disputes origin c Hc)) in H.
    unfold clock_disputes in H. apply Hsame. unfold oracle_clock. split_pairs. congruence.
  - apply (keeps_run _ _ _ _ _ (keeps_clock_stakes origin c Hc)) in H.
    unfold clock_stakes in H. apply Hsame. unfold oracle_clock. split_pairs. congruence.
  - apply submit_value_Ok in H as (who & st & _ & Hs). by eapply final_submitted.
  - unfold call_body, void in H. cinv.
    match goal with H : begin_dispute _ _ _ _ _ = _ |- _ =>
      apply begin_dispute_Ok in H as (who & n & e & v & d & _ & Hd) end.
    by eapply final_disputed.
Qed.

(** The calls on other things. *)
Lemma other_call_paid origin c s u s' q : ~ is_tip_call c -> oracle_wf s (sys_now s) ->
  call_body origin c s = (Ok u, s') -> paid_ok s q -> paid_ok s' q.
Proof.
  intros Hc Hwf H [Ht He]. pose proof (keeps_run _ _ _ _ _ (keeps_ledger q origin c Hc) H) as El.
  unfold ledger in El. injection El as E1 E2 E3 E4.
  destruct (totals_same s s' q E1 E2) as [_ E].
  split; [congruence|]. rewrite E4. apply (earns_later s); [|by apply tips_later_same; intros; rewrite E1|done].
  intros t p. by eapply call_final.
Qed.

Lemma claims_totals q who l : forall acc s x s',
  foldM (fun acc timestamp =>
      let* amount := get_onetime_tip_amount q timestamp who in
      ret (saturating_add u128_max acc amount)) acc l s = (Ok x, s') ->
  TipCount s' = TipCount s /\ forall j, tipped_total s' j = tipped_total s j.
Proof.
  induction l as [|t l IH]; intros acc s x s' H; cbn [foldM] in H; [by cinv|].
  apply bind_Ok in H as (acc1 & s1 & H1 & H). apply bind_Ok in H1 as (a & s0 & Ha & Hacc). cinv.
  apply IH in H as [E1 E2]. apply get_onetime_tip_amount_Ok in Ha as (r & i & tp & [_ _ _ _ _ _ Htp _ _ -> _]).
  split; [done|]. intros j. rewrite E2. unfold tipped_total. by rewrite claimed_before.
Qed.

(** There was room before a call that leaves room. *)
Lemma call_tips_room origin c s u s' : call_ok c -> (forall q, 0 <= tip_count s q) ->
  call_body origin c s = (Ok u, s') -> tips_room s' ->
  tips_room s /\ forall q, tip_count s q <= tip_count s' q.
Proof.
  intros Hok Hn H Hroom.
  assert (Hsame : (forall q, tip_count s' q = tip_count s q /\ tipped_total s' q = tipped_total s q) ->
    tips_room s /\ forall q, tip_count s q <= tip_count s' q).
  { intros E. split; [|intros q; destruct (E q); lia]. intros q. destruct (Hroom q), (E q). lia. }
  destruct (decide (is_tip_call c)) as [Hc|Hc].
  - destruct c; try done; cbn [call_body call_ok] in *.
    + unfold claim_onetime_tip in H. apply Hsame. cinv.
      match goal with
      | Hl : foldM _ _ timestamps ?s0 = (Ok ?x, ?s1), Hp : pay_claim _ _ ?s1 = (_, ?s2),
        Hif : (if ?b then _ else _) ?s2 = (_, ?s3) |- _ =>
          apply claims_totals in Hl as [E1 E2];
          pose proof (keeps_run _ _ _ _ _ (view_pay_claim (ledger 0) _ _) Hp) as Kl;
          assert (Hk : ledger 0 s3 = ledger 0 s2) by (destruct b; cinv; done)
      end.
      unfold ledger in *. split_pairs. intros q. rewrite <- E2.
      match goal with |- tip_count (st_autopay ?s') _ = _ /\ _ => destruct (totals_same s3 s' q) as [-> ->] end;
        [simpl; congruence..|]. unfold tip_count. by rewrite E1.
    + apply tip_effect in H as (Ha & s1 & Hadd & E1 & E2 & _).
      pose proof (proj1 (add_tip_deposit _ _ _ _ _ _ (proj1 Hok) (Hn _) Hadd)) as Hd.
      apply (deposited_same _ _ s') in Hd; [|unfold tips_parts; congruence].
      pose proof (deposited_room _ _ _ _ (proj1 Hok) Hd Hroom) as Hr. split; [done|]. intros q.
      destruct Hd as [D1 _ D3 _]. destruct (decide (q = query_id)) as [->|]; [|rewrite D1; done].
      destruct (Hr query_id) as [? _]. lia.
  - apply Hsame. intros q. pose proof (keeps_run _ _ _ _ _ (keeps_ledger q origin c Hc) H) as El.
    unfold ledger in El. injection El as E1 E2 _ _. by apply totals_same.
Qed.

(** Room after a call is room before it. *)
Lemma call_room origin c s u s' : reachable s -> call_ok c -> call_body origin c s = (Ok u, s') ->
  room s' -> room s.
Proof.
  intros Hs Hok H [Hroom Hcounts].
  destruct (call_tips_room origin c s u s' Hok) as [Htr Hle];
    [intros q; apply (dir_count _ (directory_ok_reachable _ Hs))|done|done|].
  split; [done|]. intros q. destruct (Hcounts q). specialize (Hle q).
  pose proof (call_count origin c s u s' q H (proj1 (oracle_inv_reachable _ Hs) q)). lia.
Qed.

(** What the hook leaves of the oracle, the time and the tips. *)
Lemma hook_paid_frame s r s' : on_initialize s = (r, s') -> r <> Panic ->
  oracle_clock s' = oracle_clock s /\ forall q, ledger q s' = ledger q s.
Proof.
  intros Hi Hr. split.
  - destruct (on_initialize_run _ _ _ Hi Hr) as (s1 & v & Hk & Hv).
    apply (hook_clock_stakes _ _ _ _ Hk) in Hv. unfold clock_stakes in Hv.
    unfold oracle_clock. split_pairs. congruence.
  - intros j. exact (keeps_run _ _ _ _ _ (ledger_on_initialize j) Hi).
Qed.

Lemma room_same s s' : oracle_clock s' = oracle_clock s -> ledger 0 s' = ledger 0 s ->
  room s' -> room s.
Proof.
  unfold oracle_clock, ledger. intros Ec El [R1 R2]. split_pairs.
  split; [eapply tips_room_parts; [|exact R1]; unfold tips_parts; congruence|].
  intros j. rewrite <- (proj1 (totals_same s s' j ltac:(congruence) ltac:(congruence))).
  unfold report_count in *. match goal with E : st_oracle s' = _ |- _ => rewrite <- E end. apply R2.
Qed.

Lemma step_room s s' : reachable s -> step s s' -> room s' -> room s.
Proof.
  intros Hs Hstep. revert Hs.
  destruct Hstep as [x origin c r y Hok Hd Hr|x r y Hi Hr|x t b Ht|x a]; intros Hs; [| |done|done].
  - unfold dispatch in Hd. destruct r as [u|e|]; [| |done].
    + apply transactional_Ok in Hd. by eapply call_room.
    + apply transactional_Err in Hd. by subst.
  - apply hook_paid_frame in Hi as [Ec El]; [|done]. by apply room_same.
Qed.

(** What a call pays. *)
Lemma call_paid origin c s u s' : reachable s -> call_ok c -> call_body origin c s = (Ok u, s') ->
  room s' -> (forall q, paid_ok s q) -> forall q, paid_ok s' q.
Proof.
  intros Hs Hok H Hroom' Hinv j.
  pose proof (dir_count _ (directory_ok_reachable _ Hs)) as Hn.
  destruct (oracle_inv_reachable _ Hs) as [_ Ho].
  pose proof (call_room _ _ _ _ _ Hs Hok H Hroom') as [Htr Hc].
  assert (Hwf : oracle_wf s (sys_now s)) by (apply Ho; intros q; apply Hc).
  pose proof (tips_inv_reachable _ Hs Htr) as Htok. specialize (Hinv j).
  destruct (decide (is_tip_call c)) as [Ht|Ht]; [|by eapply other_call_paid].
  destruct c; try done; cbn [call_body] in H.
  - eapply claim_onetime_tip_paid; [exact Htok|apply Hc|done|exact H|done].
  - eapply tip_paid; [exact Htok|done|intros q; apply Hn|apply Hroom'|exact H|done].
Qed.

Lemma paid_reachable s : reachable s -> room s -> forall q, paid_ok s q.
Proof.
  revert s. apply (reachable_ind_inv (fun s => room s -> forall q, paid_ok s q)).
  - intros t a _ _ q. split; [done|]. exists []. split; [constructor|]. split; [set_solver|done].
  - intros s s' Hs Hinv Hstep Hroom q. pose proof (step_room _ _ Hs Hstep Hroom) as Hroom0.
    specialize (Hinv Hroom0). revert Hs Hinv Hroom.
    destruct Hstep as [x origin c r y Hok Hd Hr|x r y Hi Hr|x t b Ht|x a]; intros Hs Hinv Hroom.
    + unfold dispatch in Hd. destruct r as [u|e|]; [| |done].
      * apply transactional_Ok in Hd. by eapply call_paid.
      * apply transactional_Err in Hd. by subst.
    + apply hook_paid_frame in Hi as [Ec El]; [|done]. unfold oracle_clock in Ec. injection Ec as Eo En.
      by apply (paid_ok_same x).
    + destruct (Hinv q) as [H1 H2]. split; [done|].
      apply (earns_later x); [|by apply tips_later_same|done].
      intros u p [Hu Hage]. split; [done|]. simpl. lia.
    + by apply (paid_ok_same x).
Qed.

(** The claims of one-time tips pay at most what was tipped. *)
Lemma claims_within_tips s q : reachable s -> room s -> claimed_ever q s <= tipped_ever q s.
Proof.
  intros Hs Hr. destruct (paid_reachable _ Hs Hr q) as [-> He].
  apply earns_bounded; [by apply tips_inv_reachable; [|apply Hr]| |done].
  apply (dir_count _ (directory_ok_reachable _ Hs)).
Qed.
End Calls.
