(* ===== verification/SolvencyFacts.v ===== *)
(** * The tips account covers what is owed

    What the pallet owes from the tips account is the balances of the feeds and the
    one-time tips that no claim has paid.  Only claims take from that account, as much
    as the debt falls by, so an account that covers the debt goes on covering it. *)

From S2P Require Import Prelude Types Config Storage Oracle OracleFacts Queries Xcm.
From S2P Require Import Governance GovernanceFacts Staking StakingFacts Autopay Pallet PalletFacts.
From S2P Require Import AccountFacts AutopayFacts AutopayFrames FundingFacts DirectoryFacts.
From S2P Require Import TipFacts PaymentFacts.

#[local] Set Warnings "-clear-no-such-hyp".

(** ** What is owed *)

Section Owed.
Context {T : Config}.
Implicit Types s : State.

(** What an event adds to the one-time tips that were not paid. *)
Definition tip_flow (e : Event) : Balance :=
  match e with
  | TipAdded _ amount _ _ => amount
  | OneTimeTipClaimed _ amount _ => - amount
  | _ => 0
  end.

Definition unclaimed s : Balance := event_total tip_flow (sys_events s).
Definition feeds_total s : Balance := map_sum feed_balance (DataFeeds s).

Definition tips_owed s : Balance := feeds_total s + unclaimed s.

Lemma event_total_ext (f g : Event -> Balance) l :
  (forall e, e ∈ l -> f e = g e) -> event_total f l = event_total g l.
Proof.
  induction l as [|e l IH]; intros H; simpl; [done|].
  rewrite (H e) by set_solver. f_equal. apply IH. set_solver.
Qed.

Lemma event_total_add (f g : Event -> Balance) l :
  event_total (fun e => f e + g e) l = event_total f l + event_total g l.
Proof. induction l; simpl; lia. Qed.

(** The flow of one query, and of the queries [ks]. *)
Definition query_flow (q : QueryId) (e : Event) : Balance := tip_event q e + - claim_event q e.

Definition flow_among (ks : list QueryId) (e : Event) : Balance :=
  match e with
  | TipAdded q amount _ _ => if decide (q ∈ ks) then amount else 0
  | OneTimeTipClaimed q amount _ => if decide (q ∈ ks) then - amount else 0
  | _ => 0
  end.

Lemma flow_among_cons q ks e : q ∉ ks ->
  flow_among (q :: ks) e = query_flow q e + flow_among ks e.
Proof.
  intros Hq. unfold query_flow. destruct e; try done; simpl;
    match goal with |- context [?k =? q] => destruct (Z.eqb_spec k q) as [->|Hne] end;
    repeat case_decide; set_solver by lia.
Qed.

Lemma query_flow_total q l :
  event_total (query_flow q) l = event_total (tip_event q) l - event_total (claim_event q) l.
Proof. unfold query_flow. induction l; simpl; lia. Qed.

(** When the claims of no query have paid more than its tips, no debt is negative. *)
Lemma tip_flow_nonneg l :
  (forall q, event_total (claim_event q) l <= event_total (tip_event q) l) ->
  0 <= event_total tip_flow l.
Proof.
  intros Hq. assert (Hks : forall ks, NoDup ks -> 0 <= event_total (flow_among ks) l).
  { induction 1 as [|q ks Hnin _ IH].
    - rewrite (event_total_ext _ (fun _ => 0)) by (by intros []). clear. induction l; simpl; lia.
    - rewrite (event_total_ext _ (fun e => query_flow q e + flow_among ks e))
        by (intros; by apply flow_among_cons).
      rewrite event_total_add, query_flow_total. specialize (Hq q). lia. }
  pose (key := fun e => match e with
    | TipAdded q _ _ _ | OneTimeTipClaimed q _ _ => Some q | _ => None end).
  specialize (Hks _ (NoDup_remove_dups (omap key l))).
  erewrite event_total_ext; [exact Hks|]. intros e He.
  assert (Hkey : forall q, key e = Some q -> q ∈ remove_dups (omap key l))
    by (intros q Hk; apply elem_of_remove_dups, list_elem_of_omap; eauto).
  destruct e; try done; simpl; by rewrite decide_True by by apply Hkey.
Qed.

(** What is owed, as the calls of autopay change it. *)
Definition debts s := (DataFeeds s, unclaimed s).

#[export] Instance debts_view : AutopayView debts.
Proof. split; try done. intros e s He. by destruct e; try destruct (He I). Qed.

Lemma feeds_total_nonneg s : feeds_wf s -> 0 <= feeds_total s.
Proof.
  intros Hwf. apply map_sum_nonneg. intros k f Hf. apply (fs_feed _ _ Hwf _ _ Hf).
Qed.

Lemma feeds_total_write s s' q i f f' : DataFeeds s !! (q, i) = Some f ->
  DataFeeds s' = <[(q, i) := f']> (DataFeeds s) ->
  feeds_total s' = feeds_total s + feed_balance f' - feed_balance f.
Proof.
  intros Hf E. unfold feeds_total. rewrite E, map_sum_insert, Hf. simpl. lia.
Qed.
End Owed.

(** ** The calls of autopay *)

Section Calls.
Context {T : Config} {Ok_T : ConfigOk T} {A_laws : AssetLaws cfg_Asset}.
Implicit Types s : State.

Abbreviation solvent := (covered tips tips_owed).

Lemma beside_tips_account : pallet_account <> tips /\ staking_rewards <> tips.
Proof.
  pose proof sub_accounts_distinct as Hd. rewrite !NoDup_cons in Hd. set_solver.
Qed.

(** A payment from an account that keeps the minimum balance. *)
Lemma claim_paid_exact a a' who n : claim_paid a a' who n -> who <> tips ->
  minimum_balance + n <= asset_balance a tips -> asset_balance a' tips = asset_balance a tips - n.
Proof.
  intros [Hfee (a1 & H1 & H2)] Hwho Hmin. pose proof (proj2 beside_tips_account) as Hr.
  pose proof (transfer_src _ _ _ _ _ _ H1 ltac:(done) ltac:(right; lia)) as E1.
  destruct (Z.ltb_spec 0 (claim_fee n)); [|subst; lia].
  pose proof (transfer_src _ _ _ _ _ _ H2 ltac:(done) ltac:(right; lia)) as E2. lia.
Qed.

(** A deposit and a payment, and the debt. *)
Lemma solvent_deposit s s' who n p : who <> tips -> solvent s ->
  asset_transfer (sys_assets s) who tips n p = inr (sys_assets s') ->
  tips_owed s' <= tips_owed s + n -> solvent s'.
Proof.
  intros Hwho Hs H Hd. unfold covered in *. rewrite (transfer_dst _ _ _ _ _ _ H) by done. lia.
Qed.

Lemma solvent_payment s s' who n : who <> tips -> solvent s ->
  claim_paid (sys_assets s) (sys_assets s') who n ->
  0 <= tips_owed s' -> tips_owed s' = tips_owed s - n -> solvent s'.
Proof.
  intros Hwho Hs H H0 Hd. unfold covered in *.
  rewrite (claim_paid_exact _ _ _ _ H) by (done || lia). lia.
Qed.

Lemma do_fund_feed_solvent who i q n s u s' : who <> tips -> solvent s ->
  do_fund_feed who i q n s = (Ok u, s') -> solvent s'.
Proof.
  intros Hwho Hs H. apply do_fund_feed_Ok in H as (f & [Hf Ha Hp ED _ _ _ _ (f' & Ee)]).
  eapply solvent_deposit; [exact Hwho|exact Hs|exact Hp|].
  unfold tips_owed. rewrite (feeds_total_write _ _ _ _ _ _ Hf ED). unfold unclaimed. rewrite Ee. simpl.
  unfold saturating_add. lia.
Qed.

Lemma setup_data_feed_solvent o q r st iv w th inc d n s u s' : o <> Signed tips -> solvent s ->
  setup_data_feed o q r st iv w th inc d n s = (Ok u, s') -> solvent s'.
Proof.
  intros Ho Hs H. unfold setup_data_feed in H. apply bind_Ok in H as (who & s0 & Hw & H).
  apply ensure_signed_Ok in Hw as [-> ->]. assert (who <> tips) by congruence. cinv. conditions.
  match goal with Hk : store_data _ _ _ = _ |- _ =>
    assert (Hks : keeps (fun s => (debts s, sys_assets s)) (store_data q d))
      by (unfold store_data; solve_keeps);
    apply (keeps_run _ _ _ _ _ Hks) in Hk; unfold debts in Hk; simpl in Hk; injection Hk as ED EU EA end.
  match goal with Hk : (if _ then do_fund_feed _ _ _ _ else _) ?s1 = _ |- _ =>
    assert (Hs1 : solvent s1);
    [|destruct (0 <? n); [by eapply do_fund_feed_solvent|by cinv]] end.
  unfold covered, tips_owed in *. simpl. rewrite EA.
  match goal with |- _ + (?a + ?b) <= _ =>
    assert (a = feeds_total s) as ->; [|assert (b = unclaimed s) as ->; [exact EU|done]] end.
  unfold feeds_total. simpl. rewrite ED, map_sum_insert.
  match goal with H : _ = None |- _ => rewrite H end. simpl. lia.
Qed.

Lemma claim_tip_solvent o i q l s u s' : o <> Signed tips -> reachable s -> solvent s ->
  0 <= feeds_total s' -> 0 <= unclaimed s' -> claim_tip o i q l s = (Ok u, s') -> solvent s'.
Proof.
  intros Ho Hr Hs Hf0 Hu0 H. apply claim_tip_Ok in H as (who & f & n & -> & Hc).
  2: { intros f Hf. by destruct (fs_feed _ _ (feeds_wf_reachable _ Hr) _ _ Hf). }
  destruct Hc as [Hf _ _ ED Hp _ _ _ _ _ _ Ee].
  assert (Eu : unclaimed s' = unclaimed s) by (unfold unclaimed; by rewrite Ee).
  eapply solvent_payment; [|exact Hs|exact Hp|unfold tips_owed; lia|]; [congruence|].
  unfold tips_owed. rewrite (feeds_total_write _ _ _ _ _ _ Hf ED). simpl. lia.
Qed.

Lemma tip_solvent o q n d s u s' : o <> Signed tips -> solvent s ->
  tip o q n d s = (Ok u, s') -> solvent s'.
Proof.
  intros Ho Hs H.
  pose proof (keeps_run _ _ _ _ _ (keeps_feeds o (c_tip q n d) ltac:(by intros [])) H) as Hf.
  unfold tip, accrue_user_tips in H. apply bind_Ok in H as (who & s0 & Hw & H).
  apply ensure_signed_Ok in Hw as [-> ->]. assert (who <> tips) by congruence. cinv. conditions.
  assert (Hk : keeps (fun s => (unclaimed s, sys_assets s)) (add_tip q n d))
    by (unfold add_tip, new_tip, store_data; solve_keeps).
  match goal with Ha : add_tip _ _ _ s = (_, ?s1), Hif : (if ?b then _ else _) ?s1 = (_, ?s2) |- _ =>
    apply (keeps_run _ _ _ _ _ Hk) in Ha; injection Ha as EU EA;
    assert (E : unclaimed s2 = unclaimed s1 /\ sys_assets s2 = sys_assets s1)
      by (destruct b; cinv; done); rename s2 into sx end.
  destruct E as [EU2 EA2]. unfold feeds in Hf. simpl in Hf. injection Hf as ED _.
  eapply (solvent_deposit s _ who n); [done|done|simpl; first [rewrite <- EA, <- EA2; eassumption]|].
  unfold tips_owed. match goal with |- feeds_total ?a + unclaimed ?b <= _ =>
    assert (feeds_total a = feeds_total s) as -> by (unfold feeds_total; simpl; by rewrite ED);
    change (unclaimed b) with (n + unclaimed sx) end.
  lia.
Qed.

#[local] Hint Resolve keeps_search_tip keeps_tip_later keeps_tip_later_or_missing
  keeps_earlier_tips : frame.

Lemma keeps_claims q who l : forall acc, keeps (fun s => (unclaimed s, sys_assets s))
  (foldM (fun acc timestamp =>
     let* amount := get_onetime_tip_amount q timestamp who in
     ret (saturating_add u128_max acc amount)) acc l).
Proof.
  unfold get_onetime_tip_amount. induction l as [|t l IH]; intros acc; cbn [foldM]; solve_keeps.
Qed.

Lemma claim_onetime_tip_solvent o q l s u s' : o <> Signed tips -> solvent s ->
  0 <= feeds_total s' -> 0 <= unclaimed s' ->
  claim_onetime_tip o q l s = (Ok u, s') -> solvent s'.
Proof.
  intros Ho Hs Hf0 Hu0 H.
  pose proof (keeps_run _ _ _ _ _ (keeps_feeds o (c_claim_onetime_tip q l) ltac:(by intros [])) H)
    as Hf.
  unfold claim_onetime_tip in H. apply bind_Ok in H as (who & s0 & Hw & H).
  apply ensure_signed_Ok in Hw as [-> ->]. assert (who <> tips) by congruence. cinv. conditions.
  match goal with
  | Hl : foldM _ _ l s = (Ok ?x, ?s1), Hp : pay_claim _ _ ?s1 = (_, ?s2),
    Hif : (if ?b then _ else _) ?s2 = (_, ?s3) |- _ =>
      apply (keeps_run _ _ _ _ _ (keeps_claims q who l _)) in Hl; injection Hl as EU EA;
      pose proof (keeps_run _ _ _ _ _ (view_pay_claim debts _ _) Hp) as Kd;
      apply pay_claim_Ok in Hp as [Hp _];
      assert (E : unclaimed s3 = unclaimed s2 /\ sys_assets s3 = sys_assets s2)
        by (destruct b; cinv; done);
      rename x into n; rename s3 into sx
  end.
  destruct E as [EU2 EA2]. unfold feeds in Hf. simpl in Hf. injection Hf as ED _.
  unfold debts in Kd. injection Kd as _ EU3.
  set (s' := upd_sys_events _ sx) in *.
  assert (EU4 : unclaimed s' = - n + unclaimed sx) by done.
  eapply (solvent_payment s s' who n); [done|done| |unfold tips_owed; lia|].
  - change (sys_assets s') with (sys_assets sx). by rewrite EA2, <- EA.
  - unfold tips_owed. assert (feeds_total s' = feeds_total s) as -> by (unfold feeds_total; simpl; by rewrite ED). lia.
Qed.

Lemma owed_debts s s' : debts s' = debts s -> tips_owed s' = tips_owed s.
Proof.
  unfold debts, tips_owed, feeds_total. intros E. injection E as ED EU. by rewrite ED, EU.
Qed.

Lemma call_solvent origin c s u s' : reachable s -> origin <> Signed tips ->
  0 <= feeds_total s' -> 0 <= unclaimed s' ->
  call_body origin c s = (Ok u, s') -> solvent s -> solvent s'.
Proof.
  intros Hr Ho Hf0 Hu0 H Hs. destruct (decide (is_autopay_call c)) as [Ha|Ha].
  - destruct c; try done; cbn [call_body] in H.
    + by eapply claim_onetime_tip_solvent.
    + by eapply claim_tip_solvent.
    + unfold fund_feed in H. apply bind_Ok in H as (who & s0 & Hw & H).
      apply ensure_signed_Ok in Hw as [-> ->]. eapply do_fund_feed_solvent; [|exact Hs|exact H]. congruence.
    + by eapply setup_data_feed_solvent.
    + by eapply tip_solvent.
  - eapply (takes_none_covered tips tips_owed (call_body origin c)); [| |exact H|done|done].
    + apply kept_call; [apply beside_tips_account| |done].
      pose proof sub_accounts_distinct as Hd. rewrite !NoDup_cons in Hd.
      destruct c; try done; simpl; set_solver.
    + apply owed_debts. by apply (keeps_run _ _ _ _ _ (keeps_view debts origin c Ha)) in H.
Qed.

(** ** Runs *)

Lemma unclaimed_nonneg s : reachable s -> room s -> 0 <= unclaimed s.
Proof. intros Hs Hr. apply tip_flow_nonneg. intros q. by apply (claims_within_tips s q). Qed.

Lemma guarded_run_solvent s s' : reachable s -> rtc (guarded_step tips) s s' -> room s' ->
  solvent s -> solvent s'.
Proof.
  destruct beside_tips_account as [Hp Hr]. apply covered_run; try done.
  - by apply step_room.
  - intros x r y _ Hi _. apply owed_debts.
    pose proof (view_on_initialize debts x) as Hk. by rewrite Hi in Hk.
  - intros o c x u y Hx Hy Hroom Ho _ H. apply (call_solvent o c x u y); try done.
    + by apply feeds_total_nonneg, feeds_wf_reachable.
    + by apply unclaimed_nonneg.
Qed.
End Calls.
