(* ===== verification/RewardRunFacts.v ===== *)
(** * The rewards account along a run

    Between changes of stakes the account covers what is allocated as far as before:
    releases of rewards and additions are exact, and no other call takes from it.  Each
    change of a stake costs the rounding that [RewardFacts] bounds. *)

From S2P Require Import Prelude Types Config Storage RunLogic Oracle OracleFacts Queries Xcm.
From S2P Require Import Governance GovernanceFacts Staking StakingFacts RewardFacts Autopay.
From S2P Require Import Pallet PalletFacts AccountFacts WidthFacts.

#[local] Set Warnings "-clear-no-such-hyp".

Section RewardRuns.
Context {T : Config} {Ok_T : ConfigOk T} {A_laws : AssetLaws cfg_Asset}.
Implicit Types s : State.

(** What the allocated rewards are computed from. *)
Definition reward_parts s :=
  (AccumulatedRewardPerShare s, RewardRate s, TotalStakeAmount s, TotalRewardDebt s).

(** The account is short of [k] at most, and the share has not fallen below [x]. *)
Record within (k x : Z) s : Prop := {
  wi_range : rewards_range s;
  wi_share : x <= AccumulatedRewardPerShare s;
  wi_short : allocated s <= staking_rewards_balance s + k;
}.

Lemma within_frame k x s s' : reward_parts s' = reward_parts s ->
  staking_rewards_balance s <= staking_rewards_balance s' -> within k x s -> within k x s'.
Proof.
  unfold reward_parts. intros E Hle [[Hs Hr Ht] Hx Hk]. injection E as E1 E2 E3 E4.
  split; [split; congruence|congruence|]. unfold allocated in *. rewrite E1, E3, E4. lia.
Qed.

(** A run that succeeds keeps it. *)
Definition keeps_within {A} (m : Call A) : Prop :=
  forall k x s a s', 0 <= k -> m s = (Ok a, s') -> within k x s -> within k x s'.

Lemma keeps_within_bind {A B} (m : Call A) (f : A -> Call B) :
  keeps_within m -> (forall a, keeps_within (f a)) -> keeps_within (bind m f).
Proof.
  intros Hm Hf k x s b s' Hk H Hs. apply bind_Ok in H as (a & s1 & H1 & H2).
  eapply Hf; [done|exact H2|]. by eapply Hm.
Qed.

(** What takes nothing from the account and leaves the rewards alone. *)
Lemma keeps_within_frame {A} (m : Call A) : takes_none staking_rewards m -> keeps reward_parts m ->
  keeps_within m.
Proof.
  intros Ht Hkeep k x s a s' Hk H Hs. eapply within_frame; [|  |exact Hs].
  - exact (keeps_run _ _ _ _ _ Hkeep H).
  - specialize (Ht _ s (Z.le_refl _)). unfold wp in Ht. by rewrite H in Ht.
Qed.

(** ** Releasing and adding rewards *)

Lemma within_update_rewards : keeps_within update_rewards.
Proof.
  intros k x s a s' Hk H [Hr Hx Hs].
  destruct (update_rewards_Ok _ _ _ Hr H) as (_ & Ht & Ha & Hcase).
  unfold stake_totals in Ht. split_pairs. destruct Hr as [R1 R2 R3].
  assert (E1 : TotalRewardDebt s' = TotalRewardDebt s) by congruence.
  assert (E2 : TotalStakeAmount s' = TotalStakeAmount s) by congruence.
  assert (Hbal : staking_rewards_balance s' = staking_rewards_balance s)
    by (unfold staking_rewards_balance, balance_of; congruence).
  unfold allocated in *.
  destruct Hcase as [(E3 & E4 & _)|(Hle & _ & [[E4 Hc]|[E4 Hc]])];
    (split; [split; rewrite ?E2, ?E4, ?E3; lia|lia|]); unfold allocated; rewrite Hbal, E1, E2;
    rewrite ?E3; lia.
Qed.

Lemma within_transfer src dst n p : src <> staking_rewards -> keeps_within (transfer src dst n p).
Proof.
  intros Hsrc k x s a s' Hk H Hs. apply transfer_Ok in H as (a' & Htr & H). subst.
  apply (within_frame k x s); [done| |done]. by eapply transfer_holds.
Qed.

Lemma keeps_within_ret {A} (a : A) : keeps_within (ret a).
Proof. intros k x s b s' _ [-> ->]%ret_Ok Hs. done. Qed.

Lemma within_do_add source amount : source <> staking_rewards ->
  keeps_within (do_add_staking_rewards source amount).
Proof.
  intros Hsrc. unfold do_add_staking_rewards. apply keeps_within_bind.
  { destruct (0 <? amount); [by apply within_transfer|apply keeps_within_ret]. }
  intros _. apply keeps_within_bind; [apply within_update_rewards|intros _].
  intros k x s a s' Hk H [[R1 R2 R3] Hx Hs]. unfold rate_over_30_days in H. sinv. simpl in *.
  set (rate := _ / (30 * DAYS)). assert (0 <= rate) by (apply Z.div_pos; [lia|done]).
  pose proof (U256ToBalance_range rate ltac:(done)).
  split; [split; simpl; [done|lia|done]|done|exact Hs].
Qed.

(** ** The calls that change no stake *)

#[local] Hint Resolve keeps_do_get_reward_amount keeps_search_tip keeps_tip_later
  keeps_tip_later_or_missing keeps_earlier_tips : frame.

Lemma parts_new_tip q n a c : keeps reward_parts (new_tip q n a c).
Proof. unfold new_tip. solve_keeps. Qed.
Lemma parts_init_sub_accounts l : keeps reward_parts (init_sub_accounts l).
Proof. induction l as [|a l IH]; simpl; solve_keeps. Qed.
Lemma parts_remove_value_loop q p l : forall it, keeps reward_parts (remove_value_loop q p l it).
Proof. induction l as [|i l IH]; intros it; simpl; solve_keeps. Qed.
Lemma parts_do_vote a i b : keeps reward_parts (do_vote a i b).
Proof. unfold do_vote. solve_keeps. Qed.
Lemma parts_pay_rounds i r d v n l : keeps reward_parts (pay_rounds i r d v n l).
Proof. induction l as [|k l IH]; simpl; solve_keeps. Qed.
Lemma parts_send_contract_call c d g e : keeps reward_parts (send_contract_call c d g e).
Proof. unfold send_contract_call, bounded_input, transact, send_xcm. solve_keeps. Qed.
Lemma parts_get_onetime_tip_amount q t a : keeps reward_parts (get_onetime_tip_amount q t a).
Proof. unfold get_onetime_tip_amount. solve_keeps. Qed.
Lemma parts_claim_timestamp a i q b l c t : keeps reward_parts (claim_timestamp a i q b l c t).
Proof. unfold claim_timestamp. solve_keeps. Qed.

#[local] Hint Resolve parts_new_tip parts_init_sub_accounts parts_remove_value_loop parts_do_vote
  parts_pay_rounds parts_send_contract_call parts_get_onetime_tip_amount
  parts_claim_timestamp : frame.

Lemma parts_vote_all a l : keeps reward_parts (vote_all a l).
Proof. induction l as [|[i b] l IH]; simpl; solve_keeps. Qed.
Lemma parts_remove_value q t : keeps reward_parts (remove_value q t).
Proof. unfold remove_value. solve_keeps. Qed.
Lemma parts_send_vote i r : keeps reward_parts (send_vote i r).
Proof. unfold send_vote. solve_keeps. Qed.

#[local] Hint Resolve parts_vote_all parts_remove_value parts_send_vote : frame.

(** The calls that release rewards, by adding to them or by changing a stake. *)
Definition is_rewards_call (c : PalletCall) : Prop :=
  match c with
  | c_claim_onetime_tip _ _ | c_claim_tip _ _ _ | c_add_staking_rewards _
  | c_report_stake_deposited _ _ _ | c_report_staking_withdraw_request _ _ _
  | c_report_slash _ _ => True
  | _ => False
  end.

Lemma keeps_reward_parts origin c : ~ is_rewards_call c -> keeps reward_parts (call_body origin c).
Proof.
  destruct c; simpl; intros Hc; try (by contradict Hc);
    unfold void, register, fee_location_get, fee_location_convert, fund_feed,
      setup_data_feed, tip, add_tip, store_data, do_fund_feed, accrue_user_tips,
      submit_value, update_stake_amount, do_update_stake_amount, update_dispute_fee, begin_dispute,
      begin_first_round, begin_next_round, vote, send_votes, do_send_votes,
      vote_on_multiple_disputes, report_stake_withdrawn, withdraw_sub,
      report_vote_tallied, tally_votes, report_vote_executed, execute_vote; solve_keeps.
Qed.

Lemma parts_update_prices t : keeps reward_parts (update_prices t).
Proof.
  apply keeps_transactional. unfold do_update_stake_amount, update_dispute_fee. solve_keeps.
Qed.

Lemma parts_do_send_votes t n : keeps reward_parts (do_send_votes t n).
Proof. unfold do_send_votes. solve_keeps. Qed.

#[local] Hint Resolve parts_update_prices parts_do_send_votes : frame.

Lemma parts_on_initialize : keeps reward_parts on_initialize.
Proof. unfold on_initialize. solve_keeps. Qed.

(** ** Calls that add rewards *)

Lemma beside_rewards_account :
  pallet_account <> staking_rewards /\ tips <> staking_rewards /\ dispute_fees <> staking_rewards.
Proof. pose proof sub_accounts_distinct as Hd. rewrite !NoDup_cons in Hd. set_solver. Qed.

Lemma keeps_within_foldM {A B} (f : B -> A -> Call B) l :
  (forall b a, keeps_within (f b a)) -> forall b, keeps_within (foldM f b l).
Proof.
  intros Hf. induction l as [|a l IH]; intros b; cbn [foldM]; [apply keeps_within_ret|].
  by apply keeps_within_bind.
Qed.

Lemma within_pay_claim reporter n : keeps_within (pay_claim reporter n).
Proof.
  destruct beside_rewards_account as (_ & Ht & _). intros k x s a s' Hk H Hs. unfold pay_claim in H.
  apply bind_Ok in H as (product & s1 & H1 & H). apply ok_or_Ok in H1 as [_ ->].
  apply bind_Ok in H as (fee & s2 & H2 & H). apply expect_Ok in H2 as [_ ->].
  apply bind_Ok in H as (payment & s3 & H3 & H). apply ok_or_Ok in H3 as [_ ->].
  apply bind_Ok in H as (u & s4 & H4 & H5). eapply within_do_add; [done|done|exact H5|].
  by eapply within_transfer.
Qed.

(** Neither the rewards nor the balances change. *)
Definition quiet s := (reward_parts s, sys_assets s).

Lemma keeps_within_quiet {A} (m : Call A) : keeps quiet m -> keeps_within m.
Proof.
  intros Hkeep k x s a s' Hk H. apply (keeps_run _ _ _ _ _ Hkeep) in H. unfold quiet in H.
  injection H as E1 E2 E3 E4 E5. apply within_frame; [unfold reward_parts; congruence|].
  unfold staking_rewards_balance, balance_of. by rewrite E5.
Qed.

Lemma quiet_claim_timestamp a i q b l c t : keeps quiet (claim_timestamp a i q b l c t).
Proof. unfold claim_timestamp. solve_keeps. Qed.
Lemma quiet_get_onetime_tip_amount q t a : keeps quiet (get_onetime_tip_amount q t a).
Proof. unfold get_onetime_tip_amount. solve_keeps. Qed.

#[local] Hint Resolve quiet_claim_timestamp quiet_get_onetime_tip_amount : frame.

Ltac solve_within :=
  unfold_calls; cbv zeta;
  repeat (intros; lazymatch goal with
  | |- keeps_within (bind _ _) => apply keeps_within_bind
  | |- keeps_within (foldM _ _ _) => apply keeps_within_foldM
  | |- keeps_within (let _ := _ in _) => cbv zeta
  | |- keeps_within (pay_claim _ _) => apply within_pay_claim
  | |- keeps_within _ => apply keeps_within_quiet; solve_keeps
  end).

Lemma within_claim_tip origin i q l : keeps_within (claim_tip origin i q l).
Proof. unfold claim_tip. solve_within. Qed.

Lemma within_claim_onetime_tip origin q l : keeps_within (claim_onetime_tip origin q l).
Proof. unfold claim_onetime_tip. solve_within. Qed.

Lemma within_add_staking_rewards origin n : origin <> Signed staking_rewards ->
  keeps_within (add_staking_rewards origin n).
Proof.
  intros Ho k x s a s' Hk H Hs. unfold add_staking_rewards in H.
  apply bind_Ok in H as (who & s0 & Hw & H). apply ensure_signed_Ok in Hw as [-> ->].
  apply bind_Ok in H as (u & s1 & H1 & H).
  eapply keeps_within_quiet; [|exact Hk|exact H|]; [solve_keeps|].
  eapply within_do_add; [|exact Hk|exact H1|exact Hs]. congruence.
Qed.

(** A change of a stake that is reported. *)
Definition is_restake (c : PalletCall) : Prop :=
  match c with
  | c_report_stake_deposited _ _ _ | c_report_staking_withdraw_request _ _ _
  | c_report_slash _ _ => True
  | _ => False
  end.

#[export] Instance is_restake_dec c : Decision (is_restake c).
Proof. destruct c; simpl; solve_decision. Defined.

(** Every other call keeps the account as it was. *)
Lemma call_within origin c : ~ is_restake c -> origin <> Signed staking_rewards ->
  keeps_within (call_body origin c).
Proof.
  intros Hc Ho. destruct (decide (is_restake c)) as [?|_]; [done|].
  destruct beside_rewards_account as (Hp & Ht & Hd).
  assert (Hframe : ~ is_rewards_call c -> keeps_within (call_body origin c)).
  { intros Hr. apply keeps_within_frame; [|by apply keeps_reward_parts].
    apply kept_call; [done| |done]. destruct c; simpl in *; try done; congruence. }
  destruct c; try (by apply Hframe; auto); cbn [call_body].
  - apply within_claim_onetime_tip.
  - apply within_claim_tip.
  - by apply within_add_staking_rewards.
Qed.

Lemma hook_within : keeps_within on_initialize.
Proof.
  apply keeps_within_frame; [apply kept_on_initialize|apply parts_on_initialize].
Qed.

(** ** Changes of stakes *)

(** What a change of a stake starts from and ends with. *)
Definition reward_clock s :=
  (reward_parts s, TimeOfLastAllocation s, sys_now s, sys_assets s, TotalStakers s).

Lemma clock_withdraw_sub n : keeps reward_clock (withdraw_sub n).
Proof. unfold withdraw_sub. solve_keeps. Qed.

#[local] Hint Resolve clock_withdraw_sub : frame.

Lemma clock_restake a i n : keeps reward_clock (restake a i n).
Proof. unfold restake. solve_keeps. Qed.

(** The stake [i] of the account changes, and little else. *)
Definition changes_stake s s' (a : AccountId) : Prop :=
  exists i new i' s1 s2, update_stake_and_pay_rewards a i new s1 = (Ok i', s2) /\
    reward_clock s1 = reward_clock s /\ reward_clock s' = reward_clock s2 /\
    0 <= new /\ 0 <= stk_staked_balance i <= TotalStakeAmount s.

Lemma staked_in_total s a i : staking_wf s -> StakerDetails s !! a = Some i ->
  0 <= stk_staked_balance i <= TotalStakeAmount s.
Proof.
  intros Hwf Hi. split; [apply (so_staked _ (to_stakers _ _ _ _ _ Hwf _ _ Hi))|].
  rewrite (to_total _ _ _ _ _ Hwf). eapply map_sum_lookup_le; [|exact Hi].
  intros b j Hj. apply (so_staked _ (to_stakers _ _ _ _ _ Hwf _ _ Hj)).
Qed.

(** Restaking from the locked balance leaves the stake alone. *)
Lemma restake_staked a i n s i' s' : restake a i n s = (Ok i', s') ->
  stk_staked_balance i' = stk_staked_balance i.
Proof.
  unfold restake. intros H. repeat (destruct (_ <? _) || destruct (_ <=? _) || destruct (_ =? _));
    cinv; done.
Qed.

Lemma deposit_changes_stake origin a amount addr s u s' : staking_wf s ->
  report_stake_deposited origin a amount addr s = (Ok u, s') -> changes_stake s s' a.
Proof.
  intros Hwf H. unfold report_stake_deposited in H. cinv.
  set (i := default (StakeInfo_new addr) (StakerDetails s !! a)) in *.
  assert (Hi : 0 <= stk_staked_balance i <= TotalStakeAmount s).
  { subst i. destruct (StakerDetails s !! a) eqn:E; simpl; [by eapply staked_in_total|].
    rewrite (to_total _ _ _ _ _ Hwf). split; [done|]. apply map_sum_nonneg.
    intros b j Hj. apply (so_staked _ (to_stakers _ _ _ _ _ Hwf _ _ Hj)). }
  match goal with Hr : restake _ _ _ _ = (Ok ?j, ?x),
    H : update_stake_and_pay_rewards _ _ ?n _ = (Ok ?j', ?y) |- _ =>
    exists j, n, j', x, y;
    pose proof (keeps_run _ _ _ _ _ (clock_restake _ _ _) Hr) as Hk;
    apply restake_staked in Hr as Hb; rewrite <- Hb in Hi end.
  conditions. do 3 (split; [done|]). split; [lia|exact Hi].
Qed.

Lemma request_changes_stake origin a amount addr s u s' : staking_wf s ->
  report_staking_withdraw_request origin a amount addr s = (Ok u, s') -> changes_stake s s' a.
Proof.
  intros Hwf H. unfold report_staking_withdraw_request in H. cinv.
  match goal with Hi : StakerDetails _ !! a = Some ?i,
    H : update_stake_and_pay_rewards _ ?i ?n ?x = (Ok ?j, ?y) |- _ =>
    exists i, n, j, x, y; do 3 (split; [done|]); pose proof (staked_in_total _ _ _ Hwf Hi) end.
  conditions. split; [lia|done].
Qed.

(** A slash of the locked balance only changes no stake. *)
Lemma slash_changes_stake origin a amount s u s' : staking_wf s ->
  report_slash origin a amount s = (Ok u, s') ->
  reward_clock s' = reward_clock s \/ changes_stake s s' a.
Proof.
  intros Hwf H. unfold report_slash, slash_staker in H. cinv.
  match goal with Hi : StakerDetails _ !! a = Some ?i |- _ =>
    pose proof (staked_in_total _ _ _ Hwf Hi) as Hle end.
  destruct (amount <=? _); cinv; [left|].
  { match goal with H : withdraw_sub _ _ = _ |- _ =>
      exact (keeps_run _ _ _ _ _ (clock_withdraw_sub _) H) end. }
  right. destruct (amount <=? _); cinv.
  all: match goal with H : withdraw_sub _ _ = _,
    Hu : update_stake_and_pay_rewards _ ?i ?n ?x = (Ok ?j, ?y) |- _ =>
    pose proof (keeps_run _ _ _ _ _ (clock_withdraw_sub _) H) as Hk; exists i, n, j, x, y end.
  all: do 3 (split; [done|]); conditions; split; [lia|exact Hle].
Qed.

(** The account is alive, and no reward leaves the width of a balance. *)
Definition rewards_healthy s : Prop :=
  minimum_balance <= staking_rewards_balance s /\
  reward_for (AccumulatedRewardPerShare s) (to_local (TotalStakeAmount s)) (10 ^ Decimals)
    <= u128_max.

Lemma allocated_clock s s' : reward_clock s' = reward_clock s ->
  allocated s' = allocated s /\ staking_rewards_balance s' = staking_rewards_balance s /\
  AccumulatedRewardPerShare s' = AccumulatedRewardPerShare s.
Proof.
  unfold reward_clock, reward_parts, allocated, staking_rewards_balance, balance_of. intros E.
  injection E as E1 E2 E3 E4 E5 E6 E7 E8. rewrite E1, E3, E4, E7. done.
Qed.

Lemma reward_for_part share part total : 0 <= share -> 0 <= part <= total ->
  reward_for (to_local part) share (10 ^ Decimals)
    <= reward_for share (to_local total) (10 ^ Decimals).
Proof.
  intros Hs Hp. rewrite reward_for_comm. pose proof (to_local_add part (total - part)) as [H _].
  replace (part + (total - part)) with total in H by lia.
  pose proof (to_decimals_nonneg (total - part) Decimals ltac:(lia)).
  apply Z.div_le_mono; [apply Z.pow_pos_nonneg; [lia|apply Decimals_u8]|].
  apply Z.mul_le_mono_nonneg_l; [done|]. unfold to_local in *. lia.
Qed.

(** A change of a stake allocates the rewards up to now. *)
Lemma update_stake_allocates a i new s i' s' : rewards_range s ->
  update_stake_and_pay_rewards a i new s = (Ok i', s') -> TimeOfLastAllocation s' = sys_now s.
Proof.
  intros Hr H. unfold update_stake_and_pay_rewards in H. apply bind_Ok in H as (u & s1 & H1 & H).
  destruct (update_rewards_Ok _ _ _ Hr H1) as [<- _].
  eapply (keeps_run (fun s => TimeOfLastAllocation s)); [|exact H].
  pose proof @keeps_pending_reward_of. unfold settle_stake, count_staker, enter_stake. solve_keeps.
Qed.

Lemma changes_stake_within k a s s' : rewards_range s -> 0 <= TotalRewardDebt s ->
  0 <= TotalStakers s -> a <> staking_rewards -> 0 <= k ->
  (TimeOfLastAllocation s = sys_now s -> allocated s <= staking_rewards_balance s + k) ->
  rewards_healthy s' -> changes_stake s s' a ->
  AccumulatedRewardPerShare s <= AccumulatedRewardPerShare s' /\
  allocated s' <= staking_rewards_balance s'
                  + (k + unit_reward (AccumulatedRewardPerShare s') (10 ^ Decimals) + 2).
Proof.
  intros Hr HD HS Ha Hk Hcov [Hmin Hfit] (i & new & i' & s1 & s2 & Hrun & E1 & E2 & Hnew & Hi).
  destruct (allocated_clock _ _ E1) as (A1 & B1 & C1).
  destruct (allocated_clock _ _ E2) as (A2 & B2 & C2). rewrite A2, B2, C2.
  unfold reward_clock, reward_parts in E1, E2.
  injection E1 as D1 D2 D3 D4 D5 D6 D7 D8. injection E2 as F1 F2 F3 F4 F5 F6 F7 F8.
  assert (Hr1 : rewards_range s1) by (destruct Hr; split; congruence).
  destruct (update_stake_paid _ _ _ _ _ _ Hrun) as (u & su & Hu & Hshare & _).
  pose proof (update_rewards_share _ _ _ Hr1 Hu) as Hpos.
  assert (Hmono : AccumulatedRewardPerShare s1 <= AccumulatedRewardPerShare su)
    by (destruct (update_rewards_Ok _ _ _ Hr1 Hu) as (_ & _ & _ & [[E _]|[Hle _]]); lia).
  split; [lia|].
  assert (Hre : restaked s1 s2 i i' new)
    by (eapply update_stake_and_pay_rewards_Ok; [lia|congruence|exact Hrun]).
  pose proof (rs_total _ _ _ _ _ Hre) as Htot.
  apply (stake_change_overdraws_little a i new s1 i' s2 k); try done; try lia.
  rewrite F1, F3 in Hfit. etransitivity; [|exact Hfit]. apply reward_for_part; lia.
Qed.

(** ** Runs *)

Definition restaker (c : PalletCall) : option AccountId :=
  match c with
  | c_report_stake_deposited a _ _ | c_report_staking_withdraw_request a _ _
  | c_report_slash a _ => Some a
  | _ => None
  end.

(** The changes of stakes since the rewards were last allocated. *)
Definition restakes (c : PalletCall) s s' (n : nat) : nat :=
  if decide (is_restake c)
  then if TimeOfLastAllocation s' =? TimeOfLastAllocation s then S n else 1%nat
  else n.

(** A run from the genesis in which nothing but the pallet takes from the rewards account,
    which holds no stake itself, and with that many changes of stakes. *)
Inductive rewards_run : nat -> State -> Prop :=
| run_genesis t a : 0 <= t <= u64_max -> rewards_run 0 (genesis t a)
| run_call n s origin c r s' : rewards_run n s ->
    origin <> Signed staking_rewards -> restaker c <> Some staking_rewards -> call_ok c ->
    dispatch origin c s = (r, s') -> r <> Panic -> (is_restake c -> rewards_healthy s') ->
    rewards_run (restakes c s s' n) s'
| run_initialize n s r s' : rewards_run n s ->
    on_initialize s = (r, s') -> r <> Panic -> rewards_run n s'
| run_time n s t b : rewards_run n s -> sys_now s <= t <= u64_max ->
    rewards_run n (upd_sys_block_number (fun _ => b) (upd_sys_now (fun _ => t) s))
| run_assets n s a : rewards_run n s ->
    asset_balance (sys_assets s) staking_rewards <= asset_balance a staking_rewards ->
    rewards_run n (upd_sys_assets (fun _ => a) s).

Lemma rewards_run_reachable n s : rewards_run n s -> reachable s.
Proof.
  induction 1; [eexists _, _; split; [done|apply rtc_refl]|..];
    (eapply reachable_step; [eassumption|]);
    [by eapply step_call|by eapply step_initialize|by apply step_time|by apply step_assets].
Qed.

(** What a change of a stake costs at most. *)
Definition rounding s : Z := unit_reward (AccumulatedRewardPerShare s) (10 ^ Decimals) + 2.

Definition covered_but n s : Prop :=
  allocated s <= staking_rewards_balance s + Z.of_nat n * rounding s.

Lemma reachable_range s : reachable s -> rewards_range s.
Proof.
  intros Hs%typed_reachable. pose proof (ty_share _ Hs). pose proof (ty_rate _ Hs).
  pose proof (ty_total _ Hs). unfold fits in *. by split; try lia.
Qed.

Lemma rounding_mono s s' : AccumulatedRewardPerShare s <= AccumulatedRewardPerShare s' ->
  rounding s <= rounding s'.
Proof.
  intros H. unfold rounding, unit_reward. apply Z.add_le_mono_r, Z.div_le_mono; [|done].
  apply Z.pow_pos_nonneg; [lia|apply Decimals_u8].
Qed.

Lemma rounding_nonneg s : reachable s -> 0 <= rounding s.
Proof.
  intros Hs%reachable_range. pose proof (unit_reward_nonneg _ (proj1 (rr_share _ Hs))).
  unfold rounding. lia.
Qed.

(** What keeps the account within what it was short of. *)
Lemma covered_but_within {A} (m : Call A) n s a s' : reachable s -> keeps_within m ->
  m s = (Ok a, s') -> covered_but n s -> covered_but n s'.
Proof.
  intros Hr Hm H Hs. pose proof (rounding_nonneg s Hr).
  destruct (Hm (Z.of_nat n * rounding s) (AccumulatedRewardPerShare s) s a s' ltac:(nia) H)
    as [_ Hx Hk]; [split; [by apply reachable_range|lia|exact Hs]|].
  pose proof (rounding_mono s s' Hx). unfold covered_but. nia.
Qed.

(** A report on a stake. *)
Lemma covered_but_restake n s c s' a : reachable s -> a <> staking_rewards -> rewards_healthy s' ->
  is_restake c -> changes_stake s s' a -> covered_but n s -> covered_but (restakes c s s' n) s'.
Proof.
  intros Hr Ha Hh Hc Hch Hs. pose proof (reachable_range s Hr) as Hrange.
  pose proof (typed_reachable _ Hr) as Ht.
  pose proof (ty_debt _ Ht). pose proof (ty_total_stakers _ Ht).
  pose proof (rounding_nonneg s Hr). unfold fits, covered_but in *.
  assert (Hbound : forall k, 0 <= k ->
    (TimeOfLastAllocation s = sys_now s -> allocated s <= staking_rewards_balance s + k) ->
    rounding s <= rounding s' /\ allocated s' <= staking_rewards_balance s' + (k + rounding s')).
  { intros k Hk Hcov. destruct (changes_stake_within k a s s') as [Hx Hle]; try done; try lia.
    split; [by apply rounding_mono|]. unfold rounding. lia. }
  unfold restakes. rewrite decide_True by done.
  destruct (Z.eqb_spec (TimeOfLastAllocation s') (TimeOfLastAllocation s)) as [_|Hne].
  - destruct (Hbound (Z.of_nat n * rounding s)) as [Hx Hle]; [nia|lia|]. nia.
  - destruct (Hbound 0) as [Hx Hle]; [lia| |lia]. intros E. exfalso. apply Hne.
    destruct Hch as (i & new & i' & s1 & s2 & Hu & E1 & E2 & _).
    unfold reward_clock, reward_parts in E1, E2.
    injection E1 as D1 D2 D3 D4 D5 D6 D7 D8. injection E2 as F1 F2 F3 F4 F5 F6 F7 F8.
    rewrite F5, E, <- D6. eapply update_stake_allocates; [|exact Hu].
    destruct Hrange. split; congruence.
Qed.

Lemma call_covered_but n s origin c u s' : reachable s -> origin <> Signed staking_rewards ->
  restaker c <> Some staking_rewards -> (is_restake c -> rewards_healthy s') ->
  call_body origin c s = (Ok u, s') -> covered_but n s -> covered_but (restakes c s s' n) s'.
Proof.
  intros Hr Ho Ha Hh H Hs. destruct (decide (is_restake c)) as [Hc|Hc].
  2: { unfold restakes. rewrite decide_False by done.
       eapply covered_but_within; [exact Hr|by apply call_within|exact H|exact Hs]. }
  pose proof (staking_wf_reachable _ Hr) as Hwf.
  destruct c; try done; cbn [call_body restaker] in *.
  - apply deposit_changes_stake in H; [|done].
    eapply covered_but_restake; try done; [congruence|auto].
  - apply request_changes_stake in H; [|done].
    eapply covered_but_restake; try done; [congruence|auto].
  - apply slash_changes_stake in H as [H|H]; [| |done].
    + destruct (allocated_clock _ _ H) as (A1 & B1 & C1).
      unfold restakes. rewrite decide_True by done.
      replace (TimeOfLastAllocation s') with (TimeOfLastAllocation s)
        by (unfold reward_clock, reward_parts in H; congruence).
      rewrite Z.eqb_refl. unfold covered_but, rounding in *. rewrite A1, B1, C1.
      pose proof (rounding_nonneg s Hr). unfold rounding in *. nia.
    + eapply covered_but_restake; try done; [congruence|auto].
Qed.

(** What changes no rewards and leaves the account as much. *)
Lemma covered_but_frame n s s' : reward_parts s' = reward_parts s ->
  staking_rewards_balance s <= staking_rewards_balance s' -> covered_but n s -> covered_but n s'.
Proof.
  unfold reward_parts, covered_but, rounding, allocated. intros E Hle. injection E as E1 E2 E3 E4.
  rewrite E1, E3, E4. lia.
Qed.

Lemma covered_but_more n s : reachable s -> covered_but n s -> covered_but (S n) s.
Proof. intros Hr%rounding_nonneg. unfold covered_but. nia. Qed.

Lemma hook_covered_but n s r s' : on_initialize s = (r, s') -> r <> Panic ->
  covered_but n s -> covered_but n s'.
Proof.
  intros H Hr. apply covered_but_frame; [exact (keeps_run _ _ _ _ _ parts_on_initialize H)|].
  pose proof (kept_on_initialize staking_rewards _ s (Z.le_refl _)) as Hk. unfold wp in Hk.
  rewrite H in Hk. by destruct r.
Qed.

Lemma rewards_run_covered n s : rewards_run n s -> covered_but n s.
Proof.
  induction 1 as [t a Ht|n s origin c r s' Hrun IH Ho Ha Hok Hd Hr Hh|n s r s' Hrun IH Hi Hr
                 |n s t b Hrun IH Ht|n s a Hrun IH Hle].
  - unfold covered_but, allocated, reward_for. simpl. rewrite Zdiv_0_l.
    pose proof (balance_range a staking_rewards).
    unfold staking_rewards_balance, balance_of. simpl. lia.
  - pose proof (rewards_run_reachable _ _ Hrun) as Hs. unfold dispatch in Hd.
    destruct r as [u|e|]; [| |done].
    + apply transactional_Ok in Hd. by eapply call_covered_but.
    + apply transactional_Err in Hd. subst s'. unfold restakes.
      destruct (decide _); [|done]. rewrite Z.eqb_refl. by apply covered_but_more.
  - by eapply hook_covered_but.
  - exact IH.
  - by eapply covered_but_frame; [| |exact IH].
Qed.
End RewardRuns.
