(* ===== verification/SafetyFacts.v ===== *)
(** * The calls do not panic

    A weakest-precondition reading of the calls for the invariant [ranges]: a run
    that starts in range ends in range, with a result or an error, and does not
    reach a failing [expect], a subtraction below zero in one, or a search without
    end.  Only the release of rewards needs a bound on the decimals for that; the ranges
    themselves hold in every reachable state without one. *)

From S2P Require Import Prelude Types Config Storage Oracle OracleFacts Queries Xcm Governance.
From S2P Require Import GovernanceFacts Staking StakingFacts Autopay Pallet PalletFacts RunLogic.

(** ** The logic *)

Section Ranges.
Context {T : Config}.
Implicit Types s : State.

(** The storage items that the failure of an [expect] depends on, in range. *)
Record ranges s : Prop := {
  rg_open : forall q n, OpenDisputesOnId s !! q = Some n -> 0 <= n;
  rg_tips : forall q n, TipCount s !! q = Some n -> 0 <= n <= u32_max;
  rg_rounds : forall k v, VoteInfo s !! k = Some v -> 0 <= vote_vote_round v <= u8_max;
  rg_share : 0 <= AccumulatedRewardPerShare s <= u128_max;
  rg_rate : 0 <= RewardRate s <= u128_max;
  rg_total : 0 <= TotalStakeAmount s <= u256_max;
}.

(** The parts of the storage that [ranges] reads. *)
Definition ranged s :=
  (OpenDisputesOnId s, TipCount s, VoteInfo s, AccumulatedRewardPerShare s, RewardRate s,
   TotalStakeAmount s).

Lemma ranges_same s s' : ranged s' = ranged s -> ranges s -> ranges s'.
Proof.
  unfold ranged. intros E [H1 H2 H3 H4 H5 H6]. injection E as E1 E2 E3 E4 E5 E6.
  by split; rewrite ?E1, ?E2, ?E3, ?E4, ?E5, ?E6.
Qed.

Lemma ranges_frame (g : State -> State) s :
  (forall s, ranged (g s) = ranged s) -> ranges s -> ranges (g s).
Proof. intros Hg. by apply ranges_same. Qed.
End Ranges.

(** ** Writes of the items that [ranges] reads *)

Section Writes.
Context {T : Config}.
Implicit Types s : State.

Lemma write_vote s k v : 0 <= vote_vote_round v <= u8_max ->
  ranges s -> ranges (upd_VoteInfo <[k := v]> s).
Proof.
  intros Hv [? ? H3 ? ? ?]. split; simpl; try assumption. intros k' v'.
  rewrite lookup_insert_Some. intros [[_ <-]|[_ Hk]]; eauto.
Qed.

Lemma write_open s q n : 0 <= n -> ranges s -> ranges (upd_OpenDisputesOnId <[q := n]> s).
Proof.
  intros Hn [H1 ? ? ? ? ?]. split; simpl; try assumption. intros q' n'.
  rewrite lookup_insert_Some. intros [[_ <-]|[_ Hk]]; eauto.
Qed.

Lemma write_tip_count s q n : 0 <= n <= u32_max ->
  ranges s -> ranges (upd_TipCount <[q := n]> s).
Proof.
  intros Hn [? H2 ? ? ? ?]. split; simpl; try assumption. intros q' n'.
  rewrite lookup_insert_Some. intros [[_ <-]|[_ Hk]]; eauto.
Qed.

Lemma write_share s n : 0 <= n <= u128_max ->
  ranges s -> ranges (upd_AccumulatedRewardPerShare (fun _ => n) s).
Proof. intros Hn [? ? ? ? ? ?]. by split. Qed.

Lemma write_rate s n : 0 <= n <= u128_max -> ranges s -> ranges (upd_RewardRate (fun _ => n) s).
Proof. intros Hn [? ? ? ? ? ?]. by split. Qed.

Lemma write_total s n : 0 <= n <= u256_max ->
  ranges s -> ranges (upd_TotalStakeAmount (fun _ => n) s).
Proof. intros Hn [? ? ? ? ? ?]. by split. Qed.

Lemma tip_count_range s q : ranges s -> 0 <= value_or_zero (TipCount s) q <= u32_max.
Proof.
  intros Hs. unfold value_or_zero. destruct (TipCount s !! q) as [n|] eqn:E; simpl; [|done].
  by apply (rg_tips _ Hs q).
Qed.
End Writes.

(** A write that [ranges] does not read. *)
Ltac in_range :=
  match goal with
  | H : ranges ?s |- ranges ?s => exact H
  | H : ranges ?s |- ranges (?g ?s) => exact (ranges_frame g s (fun _ => eq_refl) H)
  end.

Ltac write_range :=
  first [apply write_vote | apply write_open | apply write_tip_count | apply write_share
        | apply write_rate | apply write_total].

Ltac wp_step := wp_step_with ltac:(first [in_range | write_range]).

(** The round of a vote that was read. *)
Ltac vote_round_range :=
  match goal with
  | H : ranges ?s, Hv : _ !! _ = Some ?v |- _ <= vote_vote_round _ <= _ =>
      exact (rg_rounds s H _ v Hv)
  end.

Ltac solve_safe := unfold_calls; cbv zeta; repeat wp_step;
  try vote_round_range; try (unfold saturating_sub; lia).

Section Calls.
(** Runs that end in range, and panic only if [stuck].  The calls that update the
    rewards do not panic while the local currency has at most 18 decimals. *)
Context {T : Config} {Ok_T : ConfigOk T} {stuck : Prop} (Hdecimals : stuck \/ Decimals <= 18).
Implicit Types s : State.

Abbreviation wp := (RunLogic.wp ranges stuck).
Abbreviation safe := (RunLogic.safe ranges stuck).

(** ** The oracle *)

Lemma safe_submit_value o q v n d : safe (submit_value o q v n d).
Proof. unfold submit_value. solve_safe. Qed.

Lemma safe_remove_value_loop q p l : forall it, safe (remove_value_loop q p l it).
Proof. induction l as [|i l IH]; intros it; simpl; solve_safe. Qed.

#[local] Hint Resolve safe_remove_value_loop : safe.

Lemma safe_remove_value q t : safe (remove_value q t).
Proof. unfold remove_value. solve_safe. Qed.

(** ** Messages *)

Lemma safe_send_contract_call c d g e : safe (send_contract_call c d g e).
Proof. unfold send_contract_call, bounded_input, transact, send_xcm. solve_safe. Qed.

Lemma safe_init_sub_accounts l : safe (init_sub_accounts l).
Proof. induction l as [|a l IH]; simpl; solve_safe. Qed.

#[local] Hint Resolve safe_remove_value safe_send_contract_call safe_init_sub_accounts : safe.

(** The configured fee location can be encoded. *)
Definition registrable : Prop := forall loc,
  register_call ParachainId (PalletIndex mod 256) WeightToFee loc registration_weights <> None.

Lemma safe_register o g : registrable -> safe (register o g).
Proof.
  intros Hreg. unfold register, fee_location_get, fee_location_convert. solve_safe.
  match goal with |- wp (expect ?x) _ _ => destruct x eqn:Hx; [|by destruct (Hreg _ Hx)] end.
  eapply wp_expect; [done|]. solve_safe.
Qed.

(** ** Governance *)

Lemma safe_send_vote i r : safe (send_vote i r).
Proof.
  unfold send_vote. solve_safe.
Qed.

#[local] Hint Resolve safe_send_vote : safe.

Lemma safe_do_send_votes t n : safe (do_send_votes t n).
Proof. unfold do_send_votes. solve_safe. Qed.

#[local] Hint Resolve safe_do_send_votes : safe.

Lemma safe_do_vote a i b : safe (do_vote a i b).
Proof. unfold do_vote. solve_safe. Qed.

#[local] Hint Resolve safe_do_vote : safe.

Lemma safe_vote_all a l : safe (vote_all a l).
Proof. induction l as [|[i b] l IH]; simpl; solve_safe. Qed.

Lemma safe_tally_votes i r : safe (tally_votes i r).
Proof.
  unfold tally_votes. solve_safe.
  match goal with Hv : VoteInfo _ !! _ = Some ?v |- _ =>
    pose proof (rg_rounds _ Hs _ _ Hv); eapply (wp_expect _ (vote_vote_round v * DAYS)) end.
  - apply checked_ok. unfold_times. unfold u8_max, u64_max in *. lia.
  - solve_safe.
Qed.

Lemma safe_pay_rounds i r d v n l : safe (pay_rounds i r d v n l).
Proof. induction l as [|k l IH]; simpl; solve_safe. Qed.

#[local] Hint Resolve safe_vote_all safe_tally_votes safe_pay_rounds : safe.

Lemma safe_execute_vote i : safe (execute_vote i).
Proof. unfold execute_vote. solve_safe. Qed.

#[local] Hint Resolve safe_execute_vote : safe.

Lemma safe_begin_first_round q t i v : safe (begin_first_round q t i v).
Proof.
  unfold begin_first_round. solve_safe.
  - apply checked_add_Some in Ha0. lia.
  - match goal with Hb : _ !! q = Some a1 |- _ =>
      simpl in Hb; rewrite lookup_insert_eq in Hb; injection Hb as <- end.
    apply checked_add_Some in Ha0 as [-> Hsum].
    eapply wp_expect; [apply checked_sub_Some|solve_safe].
    split; [done|]. destruct (OpenDisputesOnId s !! q) as [k|] eqn:Hk; simpl in *; [|lia].
    pose proof (rg_open _ Hs _ _ Hk). lia.
Qed.

Lemma safe_begin_next_round i n v : safe (begin_next_round i n v).
Proof.
  unfold begin_next_round. solve_safe. eapply wp_expect; [eassumption|]. solve_safe.
Qed.

#[local] Hint Resolve safe_begin_first_round safe_begin_next_round : safe.

Lemma safe_begin_dispute o q t b : safe (begin_dispute o q t b).
Proof.
  unfold begin_dispute. solve_safe;
    match goal with Hn : checked_add u8_max _ 1 = Some _ |- _ => apply checked_Some in Hn as [-> ?] end;
    subst;
    [match goal with Hb : begin_first_round _ _ _ _ _ = _ |- _ =>
       apply begin_first_round_Ok in Hb as (e & -> & _) end
    |match goal with Hb : begin_next_round _ _ _ _ = _ |- _ =>
       apply begin_next_round_Ok in Hb as (_ & -> & _) end];
    match goal with |- context [if ?b then _ else _] => destruct b end; assumption.
Qed.

(** ** Staking *)

Lemma safe_convert a : safe (convert a).
Proof.
  unfold convert, convert_to_decimals. solve_safe.
  match goal with Hp : checked_pow _ _ _ = Some _ |- _ => apply checked_Some in Hp as [-> _] end.
  apply Z.pow_nonzero; [lia|]. match goal with Hg : (_ ?= _) = Gt |- _ => apply Z.compare_gt_iff in Hg end. lia.
Qed.

Lemma safe_unit_of_balance : safe unit_of_balance.
Proof. unfold unit_of_balance. solve_safe. Qed.

#[local] Hint Resolve safe_begin_dispute safe_convert safe_unit_of_balance : safe.

Lemma safe_calculate_dispute_fee p : safe (calculate_dispute_fee p).
Proof. unfold calculate_dispute_fee. solve_safe; done. Qed.

Lemma safe_reward_on a b u : safe (reward_on a b u).
Proof. unfold reward_on. solve_safe. Qed.

#[local] Hint Resolve safe_calculate_dispute_fee safe_reward_on : safe.

Lemma safe_reward_less_debt a b u d : safe (reward_less_debt a b u d).
Proof. unfold reward_less_debt. solve_safe. Qed.

Lemma safe_read_price q e : safe (read_price q e).
Proof. unfold read_price. solve_safe. Qed.

#[local] Hint Resolve safe_reward_less_debt safe_read_price : safe.

Lemma safe_do_update_stake_amount : safe do_update_stake_amount.
Proof.
  unfold do_update_stake_amount. solve_safe. subst.
  match goal with Hp : read_price _ _ _ = _ |- _ => apply read_price_Ok in Hp as [_ [Hp _]] end. lia.
Qed.

Lemma safe_update_dispute_fee : safe update_dispute_fee.
Proof. unfold update_dispute_fee. solve_safe. Qed.

(** The divisions and the sum in [update_rewards]. *)
Lemma update_rewards_sum total share rate elapsed : Decimals <= 18 ->
  0 < total -> 0 <= share <= u128_max -> 0 <= rate <= u128_max -> 0 <= elapsed <= u64_max ->
  0 <= share + elapsed * rate * 10 ^ Decimals / total <= u256_max.
Proof.
  intros Hd Ht Hs Hr He. pose proof Decimals_u8.
  assert (Hu : 0 < 10 ^ Decimals <= 10 ^ 18).
  { split; [apply Z.pow_pos_nonneg; lia|apply Z.pow_le_mono_r; lia]. }
  assert (H1 : 0 <= elapsed * rate <= u64_max * u128_max) by (split; [lia|apply Z.mul_le_mono_nonneg; lia]).
  assert (H2 : 0 <= elapsed * rate * 10 ^ Decimals <= u64_max * u128_max * 10 ^ 18)
    by (split; [lia|apply Z.mul_le_mono_nonneg; lia]).
  assert (elapsed * rate * 10 ^ Decimals / total <= elapsed * rate * 10 ^ Decimals)
    by (apply Z.div_le_upper_bound; [lia|nia]).
  pose proof (Z.div_pos (elapsed * rate * 10 ^ Decimals) total ltac:(lia) ltac:(lia)).
  split; [lia|]. unfold u64_max, u128_max, u256_max in *. lia.
Qed.

Lemma safe_update_rewards : safe update_rewards.
Proof.
  unfold update_rewards. solve_safe.
  apply convert_Ok in Hm as [-> ->]. apply unit_of_balance_Ok in Hm0 as [-> ->].
  apply checked_mul_Some in Ha as [-> Ha]. apply checked_mul_Some in Ha0 as [-> Ha0].
  match goal with Hz : _ || _ = false |- _ => apply orb_false_iff in Hz as [Hz _]; conditions end.
  pose proof (to_decimals_nonneg _ Decimals (proj1 (rg_total _ Hs))).
  assert (Ht : 0 < to_local (TotalStakeAmount s)) by (unfold to_local in *; lia).
  assert (He : 0 <= wrapping_sub u64_max (sys_now s) (TimeOfLastAllocation s) <= u64_max).
  { unfold wrapping_sub. pose proof (Z.mod_pos_bound (sys_now s - TimeOfLastAllocation s) (u64_max + 1)).
    zlia. }
  apply wp_expect_or.
  { destruct Hdecimals as [Hstuck|Hd]; [by left|right].
    eexists. apply checked_add_Some. split; [done|].
    apply (update_rewards_sum _ _ _ _ Hd Ht (rg_share _ Hs) (rg_rate _ Hs) He). }
  intros n Hn. apply checked_add_Some in Hn as [-> Hsum]. solve_safe; try done.
  - match goal with Hv : checked_add _ _ _ = Some _ |- _ => apply checked_Some in Hv as [-> Hv] end.
    done.
  - apply U256ToBalance_range. lia.
Qed.

#[local] Hint Resolve safe_do_update_stake_amount safe_update_dispute_fee safe_update_rewards : safe.

Lemma safe_update_stake_amount o : safe (update_stake_amount o).
Proof. unfold update_stake_amount. solve_safe. Qed.

Lemma safe_rate_over_30_days b a : safe (rate_over_30_days b a).
Proof. unfold rate_over_30_days. solve_safe; done. Qed.

Lemma rate_over_30_days_range b a s r s' :
  rate_over_30_days b a s = (Ok r, s') -> 0 <= r <= u128_max.
Proof.
  unfold rate_over_30_days. intros H. cinv. conditions. subst.
  apply U256ToBalance_range. apply Z.div_pos; [lia|done].
Qed.

#[local] Hint Resolve safe_rate_over_30_days : safe.

(** A rate that was computed, or a total that was checked. *)
Ltac stake_range :=
  match goal with
  | Hm : rate_over_30_days _ _ _ = (Ok ?r, _) |- 0 <= ?r <= _ =>
      exact (rate_over_30_days_range _ _ _ _ _ Hm)
  | Hv : checked_sub _ _ _ = Some ?r |- 0 <= ?r <= _ => by apply checked_Some in Hv as [-> Hv]
  | Hv : checked_add _ _ _ = Some ?r |- 0 <= ?r <= _ => by apply checked_Some in Hv as [-> Hv]
  end.

Lemma safe_do_add_staking_rewards a n : safe (do_add_staking_rewards a n).
Proof. unfold do_add_staking_rewards. solve_safe; stake_range. Qed.

Lemma safe_pending_reward_of a i u : safe (pending_reward_of a i u).
Proof. unfold pending_reward_of, participation. solve_safe. Qed.

#[local] Hint Resolve safe_do_add_staking_rewards safe_pending_reward_of : safe.

Lemma safe_add_staking_rewards o n : safe (add_staking_rewards o n).
Proof. unfold add_staking_rewards. solve_safe. Qed.

Lemma safe_settle_stake a i u : safe (settle_stake a i u).
Proof. unfold settle_stake. solve_safe; stake_range. Qed.

Lemma safe_count_staker i : safe (count_staker i).
Proof. unfold count_staker. solve_safe. Qed.

Lemma safe_enter_stake i u : safe (enter_stake i u).
Proof. unfold enter_stake. solve_safe; stake_range. Qed.

#[local] Hint Resolve safe_settle_stake safe_count_staker safe_enter_stake : safe.

Lemma safe_update_stake a i n : safe (update_stake_and_pay_rewards a i n).
Proof. unfold update_stake_and_pay_rewards. solve_safe. Qed.

Lemma safe_withdraw_sub n : safe (withdraw_sub n).
Proof. unfold withdraw_sub. solve_safe. Qed.

#[local] Hint Resolve safe_update_stake safe_withdraw_sub : safe.

Lemma safe_restake a i n : safe (restake a i n).
Proof. unfold restake. solve_safe. Qed.

Lemma safe_slash_staker a i n : safe (slash_staker a i n).
Proof. unfold slash_staker. solve_safe. Qed.

#[local] Hint Resolve safe_restake safe_slash_staker : safe.

Lemma safe_report_staking_withdraw_request o a n d : safe (report_staking_withdraw_request o a n d).
Proof. unfold report_staking_withdraw_request. solve_safe. Qed.

Lemma safe_report_stake_withdrawn o a n : safe (report_stake_withdrawn o a n).
Proof. unfold report_stake_withdrawn. solve_safe. Qed.

Lemma safe_report_slash o a n : safe (report_slash o a n).
Proof. unfold report_slash. solve_safe. Qed.

(** The sum of the stake and the deposit fits 256 bits. *)
Lemma safe_report_stake_deposited o a n d s : ranges s ->
  0 <= from_option stk_staked_balance 0 (StakerDetails s !! a) + n <= u256_max ->
  wp (report_stake_deposited o a n d) (fun _ => ranges) s.
Proof.
  intros Hs Hn. unfold report_stake_deposited. solve_safe.
  eapply wp_expect; [apply checked_add_Some; split; [done|]|solve_safe].
  by destruct (StakerDetails s !! a).
Qed.

(** ** Autopay *)

Lemma safe_accrue_user_tips a n : safe (accrue_user_tips a n).
Proof. unfold accrue_user_tips. solve_safe. Qed.
Lemma safe_store_data q d : safe (store_data q d).
Proof. unfold store_data. solve_safe. Qed.

#[local] Hint Resolve safe_accrue_user_tips safe_store_data : safe.

Lemma safe_do_fund_feed a i q n : safe (do_fund_feed a i q n).
Proof. unfold do_fund_feed. solve_safe. Qed.

#[local] Hint Resolve safe_do_fund_feed : safe.

Lemma safe_fund_feed o i q n : safe (fund_feed o i q n).
Proof. unfold fund_feed. solve_safe. Qed.

Lemma safe_setup_data_feed o q r st iv w th inc d n :
  safe (setup_data_feed o q r st iv w th inc d n).
Proof. unfold setup_data_feed. solve_safe. Qed.

Lemma safe_do_get_reward_amount i q t : safe (do_get_reward_amount i q t).
Proof.
  unfold do_get_reward_amount, price_change, price_change_between. solve_safe.
Qed.

Lemma safe_pay_claim a n : safe (pay_claim a n).
Proof. unfold pay_claim. solve_safe; done. Qed.

#[local] Hint Resolve safe_do_get_reward_amount safe_pay_claim : safe.

Lemma safe_claim_timestamp a i q b l c t : safe (claim_timestamp a i q b l c t).
Proof. unfold claim_timestamp. solve_safe. Qed.

#[local] Hint Resolve safe_claim_timestamp : safe.

Lemma safe_claim_tip o i q l : safe (claim_tip o i q l).
Proof. unfold claim_tip. solve_safe. Qed.

Lemma safe_new_tip q n a c : safe (new_tip q n a c).
Proof.
  unfold new_tip. solve_safe. pose proof (tip_count_range s q Hs).
  simpl. unfold saturating_add. zlia.
Qed.

#[local] Hint Resolve safe_new_tip : safe.

Lemma safe_add_tip q n d : safe (add_tip q n d).
Proof.
  unfold add_tip. solve_safe. pose proof (tip_count_range s q Hs). conditions.
  eapply wp_expect; [apply checked_sub_Some; split; [done|lia]|]. solve_safe.
Qed.

#[local] Hint Resolve safe_add_tip : safe.

Lemma safe_tip o q n d : safe (tip o q n d).
Proof. unfold tip. solve_safe. Qed.

(** The turn of the search over a range of more than one tip. *)
Lemma safe_search_tip_step fuel later a b : (forall m, safe (later m)) ->
  (forall m, a < m < b -> b - a <= u32_max -> m - a <= (b - a) / 2 -> b - m <= (b - a + 1) / 2 ->
     safe (search_tip fuel later a m) /\ safe (search_tip fuel later m b)) ->
  safe (search_tip (S fuel) later a b).
Proof.
  intros Hl Hf. cbn [search_tip]. solve_safe.
  all: apply checked_Some in Ha as [-> Hr], Ha0 as [-> _]; conditions.
  all: destruct (Hf ((b + a) / 2)) as [H1 H2]; [split|..];
    try (Z.to_euclidean_division_equations; lia).
  all: by first [apply H1 | apply H2].
Qed.

(** A range of [2 ^ fuel] is searched with [fuel + 1] turns; a wider one than an
    index is an error in the first turn. *)
Lemma safe_search_tip later fuel : (forall m, safe (later m)) -> forall a b,
  b - a <= 2 ^ Z.of_nat fuel -> safe (search_tip (S fuel) later a b).
Proof.
  intros Hl. induction fuel as [|fuel IH]; intros a b Hab; apply safe_search_tip_step; try done;
    intros m Hm _ H1 H2.
  - simpl in Hab. lia.
  - rewrite Nat2Z.inj_succ, Z.pow_succ_r in Hab by lia.
    split; apply IH; Z.to_euclidean_division_equations; lia.
Qed.

Lemma safe_search_tips later a b : (forall m, safe (later m)) ->
  safe (search_tip search_tip_fuel later a b).
Proof.
  intros Hl. apply safe_search_tip_step; [done|]. intros m Hm Hr H1 H2.
  split; apply (safe_search_tip _ 31); try done;
    unfold u32_max in Hr; Z.to_euclidean_division_equations; lia.
Qed.

Lemma safe_tip_later q t m : safe (tip_later q t m).
Proof. unfold tip_later. solve_safe. Qed.
Lemma safe_tip_later_or_missing q t m : safe (tip_later_or_missing q t m).
Proof. unfold tip_later_or_missing. solve_safe. Qed.

#[local] Hint Resolve safe_search_tips safe_tip_later safe_tip_later_or_missing : safe.

Lemma safe_earlier_tips q r t m a : safe (earlier_tips q r t m a).
Proof. unfold earlier_tips. solve_safe. Qed.

#[local] Hint Resolve safe_earlier_tips : safe.

Lemma safe_get_onetime_tip_amount q t a : safe (get_onetime_tip_amount q t a).
Proof. unfold get_onetime_tip_amount. solve_safe. Qed.

#[local] Hint Resolve safe_get_onetime_tip_amount : safe.

Lemma safe_claim_onetime_tip o q l : safe (claim_onetime_tip o q l).
Proof. unfold claim_onetime_tip. solve_safe. Qed.

(** ** The hook and the dispatcher *)

Lemma safe_on_initialize : safe on_initialize.
Proof. unfold on_initialize, update_prices. solve_safe. Qed.

(** What a call needs beyond the ranges. *)
Definition call_bounded s (c : PalletCall) : Prop :=
  match c with
  | c_register _ => registrable
  | c_report_stake_deposited a n _ =>
      0 <= from_option stk_staked_balance 0 (StakerDetails s !! a) + n <= u256_max
  | _ => True
  end.

#[local] Hint Resolve safe_register safe_claim_onetime_tip safe_claim_tip safe_fund_feed
  safe_setup_data_feed safe_tip safe_add_staking_rewards safe_submit_value
  safe_update_stake_amount safe_report_staking_withdraw_request safe_report_stake_withdrawn
  safe_report_slash : safe.

Lemma call_runs origin c s : ranges s -> call_bounded s c ->
  wp (call_body origin c) (fun _ => ranges) s.
Proof.
  intros Hs Hc. destruct c; cbn [call_body call_bounded] in *;
    unfold void, vote, vote_on_multiple_disputes, send_votes, report_vote_tallied,
      report_vote_executed; try solve [solve_safe].
  by apply safe_report_stake_deposited.
Qed.
End Calls.

(** ** Every reachable state is in range

    The ranges hold for every number of decimals: a run that panics has no effect. *)

Section Reachable.
Context {T : Config} {Ok_T : ConfigOk T}.
Implicit Types s : State.

Lemma ranged_send_contract_call c d g e : keeps ranged (send_contract_call c d g e).
Proof. unfold send_contract_call, bounded_input, transact, send_xcm. solve_keeps. Qed.
Lemma ranged_init_sub_accounts l : keeps ranged (init_sub_accounts l).
Proof. induction l as [|a l IH]; simpl; solve_keeps. Qed.

#[local] Hint Resolve ranged_send_contract_call ranged_init_sub_accounts : frame.

Lemma ranged_register o g : keeps ranged (register o g).
Proof. unfold register, fee_location_get, fee_location_convert. solve_keeps. Qed.

Lemma deposit_bounded o a n d s u s' : report_stake_deposited o a n d s = (Ok u, s') ->
  0 <= from_option stk_staked_balance 0 (StakerDetails s !! a) + n <= u256_max.
Proof.
  unfold report_stake_deposited. intros H. cinv. conditions. by destruct (StakerDetails s !! a).
Qed.

Lemma call_ranges origin c s u s' : ranges s -> call_body origin c s = (Ok u, s') -> ranges s'.
Proof.
  intros Hs H. assert ((exists g, c = c_register g) \/ call_bounded s c) as [[g ->]|Hc].
  { destruct c; simpl; eauto. right. by eapply deposit_bounded. }
  - apply (keeps_run _ _ _ _ _ (ranged_register _ _)) in H. by eapply ranges_same.
  - pose proof (call_runs (stuck := True) (or_introl I) origin c s Hs Hc) as Hw.
    unfold wp in Hw. by rewrite H in Hw.
Qed.

Lemma ranges_reachable s : reachable s -> ranges s.
Proof.
  revert s. apply reachable_ind_inv; [by split|].
  intros s s' _ Hs Hstep. revert Hs.
  destruct Hstep as [x origin c r y Hc Hd Hr|x r y Hi Hr|x t b Ht|x a]; intros Hs;
    try by apply (ranges_same x).
  - unfold dispatch in Hd. destruct r as [u|e|]; [| |done].
    + apply transactional_Ok in Hd. by eapply call_ranges.
    + apply transactional_Err in Hd. by subst.
  - pose proof (safe_on_initialize (stuck := True) x Hs) as Hw. unfold wp in Hw. rewrite Hi in Hw.
    by destruct r.
Qed.
End Reachable.
