(* ===== verification/Scenario.v ===== *)
(** * A run of the mock runtime

    Concrete states, reached from the genesis by dispatched calls: two stakes are
    deposited, two values reported, the first value disputed, the dispute voted
    on, sent, tallied and executed, a feed and a tip funded and claimed.  The
    witnesses instantiate the theorems with them. *)

From S2P Require Import Prelude Types Config Storage Oracle OracleFacts Mock Queries Xcm.
From S2P Require Import Governance GovernanceFacts Staking StakingFacts Autopay UsingTellor.
From S2P Require Import Pallet PalletFacts AccountFacts.

#[local] Existing Instance Test.

Definition reporter : AccountId := 1.
Definition disputer : AccountId := 2.
Definition tipper : AccountId := 3.
Definition query_data : bytes := [x05].
Definition query : QueryId := 261.
Definition T0 : Timestamp := 1700000000.
Definition TRB : Z := 10 ^ 18.

Definition call (origin : RuntimeOrigin) (c : PalletCall) (s : State) : State :=
  after (dispatch origin c) s.

Definition s_registered : State := call Root (c_register None) mock_genesis.
Definition s_staked : State :=
  call (TellorOrigin Staking) (c_report_stake_deposited reporter (250 * TRB) 17) s_registered.
Definition s_rewards : State := call (Signed tipper) (c_add_staking_rewards (10 ^ 12)) s_staked.
Definition s_feed : State :=
  call (Signed tipper) (c_setup_data_feed query 100 (T0 - 50) 1000 600 0 1 query_data 10000) s_rewards.
(** The feed of the run. *)
Definition feed1 : FeedId := Eval vm_compute in feed_id_of query 100 (T0 - 50) 1000 600 0 1.
Definition s_tipped : State := call (Signed tipper) (c_tip query 500 query_data) s_feed.
Definition s_report1 : State :=
  call (Signed reporter) (c_submit_value query [x07] 0 query_data) (at_time (T0 + 10) s_tipped).
Definition s_report2 : State :=
  call (Signed reporter) (c_submit_value query [x09] 0 query_data) (at_time (T0 + 30000) s_report1).
Definition s_disputed : State :=
  call (Signed disputer) (c_begin_dispute query (T0 + 10) (Some 99)) s_report2.
Definition dispute : DisputeId := Eval vm_compute in dispute_id_of query (T0 + 10).
Definition s_voted : State :=
  call (Signed reporter) (c_vote dispute (Some true)) s_disputed.
Definition s_to_tally : State := at_time (T0 + 30000 + 86400) s_voted.
Definition s_tallied : State :=
  call (TellorOrigin Governance) (c_report_vote_tallied dispute Passed) s_to_tally.
Definition s_to_execute : State := at_time (T0 + 30000 + 2 * 86400) s_tallied.
Definition s_executed : State :=
  call (TellorOrigin Governance) (c_report_vote_executed dispute) s_to_execute.

(** A call of the run. *)
Lemma call_run origin c s : succeeds (dispatch origin c) s = true ->
  call_body origin c s = (Ok tt, call origin c s).
Proof.
  intros Hok. destruct (succeeds_run _ _ Hok) as [[] Hu]. by apply transactional_Ok in Hu.
Qed.

(** When both kinds of tips of the second report can be claimed. *)
Definition s_claimable : State := at_time (T0 + 30000 + 50000) s_disputed.

(** ** The states are reachable *)

Lemma call_reachable origin c s :
  reachable s -> call_ok c -> succeeds (dispatch origin c) s = true ->
  reachable (call origin c s).
Proof.
  intros Hs Hc Hok. destruct (succeeds_run _ _ Hok) as [u Hu].
  eapply reachable_step; [exact Hs|]. by eapply (step_call s origin c (Ok u)).
Qed.

Lemma call_guarded acct origin c s : origin <> Signed acct -> call_ok c ->
  succeeds (dispatch origin c) s = true -> guarded_step acct s (call origin c s).
Proof.
  intros Ho Hc Hok. destruct (succeeds_run _ _ Hok) as [u Hu].
  by eapply (guarded_call acct s origin c (Ok u)).
Qed.

Lemma time_guarded acct t (s : State) : sys_now s <= t <= u64_max -> guarded_step acct s (at_time t s).
Proof.
  intros Ht. replace (at_time t s) with
    (upd_sys_block_number (fun _ => sys_block_number s) (upd_sys_now (fun _ => t) s))
    by (by destruct s as [? ? ? ? []]).
  by apply guarded_time.
Qed.

Lemma time_reachable t s : reachable s -> sys_now s <= t <= u64_max -> reachable (at_time t s).
Proof.
  intros Hs Ht. eapply reachable_step; [exact Hs|]. by apply (guarded_is_step 0), time_guarded.
Qed.

(** A call in a block of the tests is a step to a later time and the call, but for the
    events and the messages, which the tests forget. *)
Lemma with_block_reachable clock t origin c r (s s' : State) :
  reachable s -> sys_now s <= clock <= u64_max -> 0 <= t -> sys_now s + (1 + t) <= u64_max ->
  call_ok c -> r <> Panic -> with_block_after clock t (dispatch origin c) s = (r, s') ->
  exists x, reachable x /\ s' = end_block x.
Proof.
  intros Hs Hclock Ht Hmax Hc Hr H. unfold with_block_after in H.
  destruct (dispatch origin c (new_block clock t s)) as [r' x] eqn:Hd. injection H as -> <-.
  exists x. split; [|done]. eapply reachable_step; [|by eapply step_call].
  eapply reachable_step; [exact Hs|]. unfold new_block.
  destruct (sys_block_number s); apply step_time; lia.
Qed.

Ltac by_run := vm_compute; first [reflexivity | split; discriminate | exact I | intuition discriminate].

(** A call some time after a reachable state. *)
Ltac step_reachable Hs := apply call_reachable; [apply time_reachable; [exact Hs|by_run]|by_run..].

(** The run of the body of a call that succeeds. *)
Ltac by_call origin c s :=
  let E := fresh "E" in
  assert (E : succeeds (dispatch origin c) s = true) by by_run;
  apply call_run in E; cbn [call_body] in E; exact E.

(** The run of a body whose result the call drops. *)
Lemma void_run {A} (m : Call A) (s s' : State) :
  void m s = (Ok tt, s') -> exists a, m s = (Ok a, s').
Proof.
  unfold void, bind. destruct (m s) as [[a| |] s1]; intros Hrun; [|done..].
  injection Hrun as <-. by exists a.
Qed.

Ltac by_void_call origin c s :=
  let E := fresh "E" in
  assert (E : succeeds (dispatch origin c) s = true) by by_run;
  apply call_run in E; cbn [call_body] in E; apply void_run in E; exact E.

Lemma reachable_genesis : reachable mock_genesis.
Proof. eexists _, _. split; [|apply rtc_refl]. by_run. Qed.
Lemma reachable_registered : reachable s_registered.
Proof. apply call_reachable; [apply reachable_genesis|by_run..]. Qed.
Lemma reachable_staked : reachable s_staked.
Proof. apply call_reachable; [apply reachable_registered|by_run..]. Qed.
Lemma reachable_rewards : reachable s_rewards.
Proof. apply call_reachable; [apply reachable_staked|by_run..]. Qed.
Lemma reachable_feed : reachable s_feed.
Proof. apply call_reachable; [apply reachable_rewards|by_run..]. Qed.
Lemma reachable_tipped : reachable s_tipped.
Proof. apply call_reachable; [apply reachable_feed|by_run..]. Qed.
Lemma reachable_report1 : reachable s_report1.
Proof.
  apply call_reachable; [apply time_reachable; [apply reachable_tipped|by_run]|by_run..].
Qed.
Lemma reachable_report2 : reachable s_report2.
Proof.
  apply call_reachable; [apply time_reachable; [apply reachable_report1|by_run]|by_run..].
Qed.
Lemma reachable_disputed : reachable s_disputed.
Proof. apply call_reachable; [apply reachable_report2|by_run..]. Qed.
Lemma reachable_voted : reachable s_voted.
Proof. apply call_reachable; [apply reachable_disputed|by_run..]. Qed.
Lemma reachable_tallied : reachable s_tallied.
Proof.
  apply call_reachable; [apply time_reachable; [apply reachable_voted|by_run]|by_run..].
Qed.
Lemma reachable_executed : reachable s_executed.
Proof.
  apply call_reachable; [apply time_reachable; [apply reachable_tallied|by_run]|by_run..].
Qed.
Lemma reachable_claimable : reachable s_claimable.
Proof. apply time_reachable; [apply reachable_disputed|by_run]. Qed.

(** The second round of the dispute. *)
Definition s_to_reopen : State := at_time (T0 + 120000) s_tallied.
Definition s_reopened : State :=
  call (Signed disputer) (c_begin_dispute query (T0 + 10) (Some 99)) s_to_reopen.

(** ** Their invariants *)

#[local] Existing Instance TestOk.

(** The queries a concrete state has reports for are the keys of one map. *)
Lemma room_from_counts (s : State) (n : Z) :
  map_Forall (fun _ c => c <= n) (ReportedTimestampCount s) -> 0 <= n ->
  forall q, report_count s q <= n.
Proof.
  intros Hall Hn q. unfold report_count, value_or_zero.
  destruct (ReportedTimestampCount s !! q) as [c|] eqn:Hq; [|done]. by apply (Hall q).
Qed.

Lemma few_reports (s : State) :
  bool_decide (map_Forall (fun _ c => c <= 100) (ReportedTimestampCount s)) = true ->
  forall q, report_count s q <= 100.
Proof. intros H. apply room_from_counts; [|done]. by apply bool_decide_eq_true in H. Qed.

Lemma room_registered q : report_count s_registered q < u32_max.
Proof. eapply Z.le_lt_trans; [apply few_reports; by_run|done]. Qed.
Lemma room_report1 q : report_count s_report1 q < u32_max.
Proof. eapply Z.le_lt_trans; [apply few_reports; by_run|done]. Qed.
Lemma room_report2 q : report_count s_report2 q < u32_max.
Proof. eapply Z.le_lt_trans; [apply few_reports; by_run|done]. Qed.
Lemma room_disputed q : report_count s_disputed q < u32_max.
Proof. eapply Z.le_lt_trans; [apply few_reports; by_run|done]. Qed.

(** Time does not change the reports. *)
Lemma wf_at_time t (s : State) : reachable s -> (forall q, report_count s q < u32_max) ->
  sys_now s <= t <= u64_max -> oracle_wf (at_time t s) (sys_now (at_time t s)).
Proof.
  intros Hs Hroom Ht. by apply (oracle_inv_reachable _ (time_reachable t s Hs Ht)).
Qed.

Lemma wf_report2 : oracle_wf s_report2 (sys_now s_report2).
Proof. apply (oracle_inv_reachable _ reachable_report2). exact room_report2. Qed.
Lemma wf_disputed : oracle_wf s_disputed (sys_now s_disputed).
Proof. apply (oracle_inv_reachable _ reachable_disputed). exact room_disputed. Qed.
