(* ===== verification/OracleTheorems.v ===== *)
(** * Theorems on the oracle

    Reports and their lookup: what [submit_value] accepts and does, what
    [remove_value] does, and the searches against the history of valid values. *)

From S2P Require Import Prelude Types Config Storage Oracle OracleFacts Mock Queries Xcm.
From S2P Require Import Governance GovernanceFacts Staking StakingFacts Autopay UsingTellor.
From S2P Require Import UsingTellorFacts Pallet PalletFacts Scenario.

Section Theorems.
Context {T : Config} {Ok_T : ConfigOk T}.
Implicit Types s : State.

(** C6: on well-formed storage the binary search for the latest value before a
    time, run for at most 32 iterations, returns the last valid (undisputed)
    index whose time is before it, or nothing when every report before it is
    disputed: 32 iterations are enough for every query. *)
Theorem search_before_finds_latest s clock q timestamp (Hwf : query_wf s clock q) :
  exists res iterations,
    get_index_for_data_before_with_start s q timestamp 0 = (res, iterations) /\
    latest_before s q timestamp res /\ 0 <= iterations <= MAX_ITERATIONS.
Proof.
  pose proof (get_index_for_data_before_with_start_correct s clock q Hwf timestamp) as H.
  destruct (get_index_for_data_before_with_start s q timestamp 0) as [res it]. eauto.
Qed.

(** C8: a report is accepted exactly when its value is not empty, the nonce is
    the number of reports or 0, the reporter holds the stake amount and has
    waited out 12 hours divided by the number of stakes it holds, the query id is
    the hash of the query data, and nothing was reported for the query at this
    time; it then has exactly the effect recorded in [submitted]. *)
Theorem submit_value_accepts s s' who q v n qd
    (Hnow : sys_now s <= u64_max)
    (Hlast : forall st, StakerDetails s !! who = Some st -> 0 <= stk_reporter_last_timestamp st) :
  submit_value (Signed who) q v n qd s = (Ok tt, s') <->
  exists st, submitted s s' who q v n qd st.
Proof.
  split.
  - intros H. apply submit_value_Ok in H as (w & st & [= <-] & Hs). eauto.
  - intros [st [Hv Hn Hst Hstake Hl [Hs0 Hs1] Hlock Hq Hfresh ->]].
    pose proof (Hlast st Hst). unfold submit_value, ensure_signed.
    unfold_calls. rewrite bind_ret.
    rewrite bind_ensure_true by (by destruct v). rewrite bind_gets.
    rewrite bind_ensure_true.
    2: { apply orb_true_iff. rewrite !Z.eqb_eq. destruct Hn; auto. }
    rewrite bind_gets, (bind_ok_or_some _ _ _ _ _ Hst), bind_gets.
    rewrite bind_ensure_true by (by apply Z.leb_le). rewrite bind_gets.
    rewrite (bind_ok_or_some _ _ _ _ (sys_now s - stk_reporter_last_timestamp st))
      by (apply checked_ok; lia).
    rewrite (bind_ok_or_some _ _ _ _ ((sys_now s - stk_reporter_last_timestamp st) * 1000))
      by (apply checked_ok; zlia).
    rewrite (bind_ok_or_some _ _ _ _ (REPORTING_LOCK * 1000)) by done.
    rewrite (bind_ok_or_some _ _ _ _ (stk_staked_balance st / StakeAmount s))
      by (by apply checked_div_Some).
    rewrite (bind_ok_or_some _ _ _ _ (lock_ms st (StakeAmount s)))
      by (by apply checked_div_Some).
    rewrite bind_ensure_true by (by apply Z.ltb_lt).
    rewrite bind_ensure_true by (by apply Z.eqb_eq). rewrite bind_gets.
    rewrite bind_ensure_true by (by apply bool_decide_eq_true). done.
Qed.

(** C9: an accepted report appends its value to the history of its query and
    leaves the other queries alone, and the storage stays well formed. *)
Theorem submit_value_appends origin s s' q v n qd u
    (Hwf : oracle_wf s (sys_now s)) (Hnow : 0 <= sys_now s)
    (Hroom : report_count s q < u32_max)
    (Hrun : submit_value origin q v n qd s = (Ok u, s')) :
  history s' q = history s q ++ [(sys_now s, v)] /\
  (forall q', q' <> q -> history s' q' = history s q') /\
  oracle_wf s' (sys_now s').
Proof.
  pose proof (submit_value_wf _ _ _ _ _ _ _ _ Hwf Hnow Hroom Hrun).
  apply submit_value_Ok in Hrun as (who & st & _ & Hs).
  destruct (submitted_history _ _ _ _ _ _ _ _ Hwf Hroom Hs). done.
Qed.

(** C10: removing a value drops it from the history of its query and nothing
    else, marks its report as disputed, and keeps the storage well formed: the
    reports after it point at the last valid report before them. *)
Theorem remove_value_drops s s' q ts clock it
    (Hwf : oracle_wf s clock) (Hrun : remove_value q ts s = (Ok it, s')) :
  history s' q = filter (fun p => fst p <> ts) (history s q) /\
  (forall q', q' <> q -> history s' q' = history s q') /\
  is_in_dispute s' q ts = true /\ oracle_wf s' clock.
Proof.
  pose proof (remove_value_wf _ _ _ _ _ _ Hwf Hrun).
  destruct (remove_value_Ok q ts clock s it s' (Hwf q) Hrun) as (r & Hr & _).
  destruct (removed_history _ _ _ _ _ Hr). split; [done|]. split; [done|]. split; [|done].
  unfold is_in_dispute. by rewrite (rm_reports _ _ _ _ _ Hr), !decide_True.
Qed.

(** C7: the value retrieved before a time is the last valid one before it. *)
Theorem get_data_before_is_last s clock q t (Hwf : query_wf s clock q) :
  get_data_before s q t = prod_swap <$> last (filter (fun p => fst p < t) (history s q)).
Proof. by eapply get_data_before_history. Qed.

(** C34: while a query has at most [2 ^ 31] reports, the value retrieved after
    a time is the first valid one after it: the 33 turns of the binary search and a turn
    per disputed report are enough to find it. *)
Theorem get_data_after_is_first s clock q t (Hwf : query_wf s clock q)
    (Hsmall : report_count s q <= 2 ^ 31) :
  get_data_after s q t = prod_swap <$> head (filter (fun p => t < fst p) (history s q)).
Proof. by eapply get_data_after_history. Qed.

(** C35: [get_multiple_values_before] returns the last [max_count] valid values
    with a time between [timestamp - max_age] and [timestamp], both excluded,
    oldest first. *)
Theorem get_multiple_values_before_is_range s clock q t max_age max_count
    (Hwf : query_wf s clock q) (Hsmall : report_count s q <= 2 ^ 31) (Hc : 0 <= max_count) :
  get_multiple_values_before s q t max_age max_count =
    let range := filter (fun p => saturating_sub t max_age < fst p < t) (history s q) in
    prod_swap <$> drop (length range - Z.to_nat max_count) range.
Proof. by eapply get_multiple_values_before_history. Qed.

(** A byte string is converted to an integer exactly when its big-endian
    value fits 256 bits, and the result is that value. *)
Theorem bytes_to_uint_big_endian b :
  BytesToU256 b = checked u256_max (be_value b).
Proof.
  unfold BytesToU256. induction b as [|x b IH] using rev_ind; [done|].
  rewrite foldl_app, IH, be_value_snoc. simpl.
  pose proof (be_value_nonneg b). pose proof (byte_to_Z_range x).
  unfold checked_mul, checked_add, checked.
  repeat (match goal with |- context [?a <=? ?b] => destruct (Z.leb_spec a b) end; simpl);
    try done; try zlia; f_equal; lia.
Qed.
End Theorems.

(** ** Witnesses *)

#[local] Existing Instance Test.
#[local] Existing Instance TestOk.

Lemma search_before_finds_latest_witness :
  exists res iterations,
    get_index_for_data_before_with_start s_disputed query (T0 + 20) 0 = (res, iterations) /\
    latest_before s_disputed query (T0 + 20) res /\ 0 <= iterations <= MAX_ITERATIONS.
Proof. exact (search_before_finds_latest _ _ _ _ (wf_disputed query)). Defined.

Lemma submit_value_accepts_witness :
  submit_value (Signed reporter) query [x07] 0 query_data (at_time (T0 + 10) s_tipped)
    = (Ok tt, s_report1) <->
  exists st, submitted (at_time (T0 + 10) s_tipped) s_report1 reporter query [x07] 0 query_data st.
Proof.
  apply submit_value_accepts; [by_run|]. intros st Hst.
  vm_compute in Hst. injection Hst as <-. by_run.
Defined.

Lemma submit_value_appends_witness :
  let s := at_time (T0 + 30000) s_report1 in
  history s_report2 query = history s query ++ [(sys_now s, [x09])] /\
  (forall q', q' <> query -> history s_report2 q' = history s q') /\
  oracle_wf s_report2 (sys_now s_report2).
Proof.
  intros s. apply (submit_value_appends (Signed reporter) s s_report2
           query [x09] 0 query_data tt).
  - apply wf_at_time; [exact reachable_report1|exact room_report1|by_run].
  - by_run.
  - by_run.
  - unfold s_report2. by_call (Signed reporter) (c_submit_value query [x09] 0 query_data) s.
Defined.

Lemma remove_value_drops_witness :
  let s' := after (remove_value query (T0 + 10)) s_report2 in
  history s' query = filter (fun p => fst p <> T0 + 10) (history s_report2 query) /\
  (forall q', q' <> query -> history s' q' = history s_report2 q') /\
  is_in_dispute s' query (T0 + 10) = true /\ oracle_wf s' (sys_now s_report2).
Proof.
  intros s'. apply (remove_value_drops s_report2 _ query (T0 + 10) (sys_now s_report2) 1 wf_report2).
  subst s'. assert (E : fst (remove_value query (T0 + 10) s_report2) = Ok 1) by by_run.
  exact (run_after _ _ _ E).
Defined.

Lemma get_data_before_is_last_witness :
  get_data_before s_disputed query (T0 + 30001) =
    prod_swap <$> last (filter (fun p => fst p < T0 + 30001) (history s_disputed query)).
Proof. exact (get_data_before_is_last _ _ _ _ (wf_disputed query)). Defined.

Lemma get_data_after_is_first_witness :
  get_data_after s_disputed query T0 =
    prod_swap <$> head (filter (fun p => T0 < fst p) (history s_disputed query)).
Proof. apply (get_data_after_is_first _ _ _ _ (wf_disputed query)). by_run. Defined.

Lemma get_multiple_values_before_is_range_witness :
  get_multiple_values_before s_disputed query (T0 + 40000) 40001 5 =
    let range := filter (fun p => saturating_sub (T0 + 40000) 40001 < fst p < T0 + 40000)
                   (history s_disputed query) in
    prod_swap <$> drop (length range - Z.to_nat 5) range.
Proof.
  apply (get_multiple_values_before_is_range _ _ _ _ _ _ (wf_disputed query)); by_run.
Defined.
