(* ===== verification/GovernanceTheorems.v ===== *)
(** * Theorems on governance

    The life of a dispute: its beginning and its fee, voting, the sending of the
    votes, the tally and the execution. *)

From S2P Require Import Prelude Types Config Storage Oracle OracleFacts Mock Queries Xcm.
From S2P Require Import Governance GovernanceFacts Staking StakingFacts Autopay UsingTellor.
From S2P Require Import UsingTellorFacts Pallet PalletFacts AccountFacts LivenessFacts.
From S2P Require Import DisputeCountFacts WidthFacts FeeFacts Scenario.

(** ** Lemmas *)

Section Lemmas.
Context {T : Config} {A_laws : AssetLaws cfg_Asset}.
Implicit Types s : State.

(** What a list of payments gives an account. *)
Definition credit (ps : list (AccountId * Balance)) (a : AccountId) : Z :=
  foldr (fun p acc => (if decide (fst p = a) then snd p else 0) + acc) 0 ps.

(** Transfers out of [src] credit every other account what is due to it. *)
Lemma transfers_credit src a ps : src <> a -> forall st st',
  transfers st src ps = inr st' ->
  asset_balance st a + credit ps a <= asset_balance st' a.
Proof.
  intros Hne. induction ps as [|[dst amt] ps IH]; intros st st' H; simpl in *.
  - injection H as <-. lia.
  - destruct (asset_transfer st src dst amt Protect) as [c|st1] eqn:Ht; [done|].
    specialize (IH _ _ H). destruct (decide (dst = a)) as [->|Hd].
    + rewrite (transfer_dst _ _ _ _ _ _ Ht Hne) in IH. lia.
    + assert (asset_balance st a <= asset_balance st1 a).
      { destruct (decide (src = dst)) as [->|].
        - rewrite (transfer_self _ _ _ _ _ a Ht). done.
        - eapply transfer_other; [exact Ht|congruence|congruence]. }
      lia.
Qed.

Lemma dispute_exists_Some s id : dispute_exists s id = true -> is_Some (DisputeInfo s !! id).
Proof. unfold dispute_exists. intros H. by conditions. Qed.
End Lemmas.

Section Theorems.
Context {T : Config} {Ok_T : ConfigOk T}.
Implicit Types s : State.

(** C17: a dispute that is begun opens the next of at most 20 rounds.  The
    first round requires a report less than 12 hours old, a further one that the
    previous round was tallied less than a day ago and not executed.  The fee is
    the dispute fee doubled for every open dispute on the query (first round) or
    every previous round, at most ten times the dispute fee, and it is paid by
    the initiator. *)
Theorem begin_dispute_opens_round origin q ts b s it s'
    (Hfee : 0 <= DisputeFee s) (Hcap : DisputeFee s * 10 <= u128_max)
    (Hrun : begin_dispute origin q ts b s = (Ok it, s')) :
  exists who n e v d, origin = Signed who /\ disputed s s' who q ts n e v d /\
    vote_fee v = Z.min (DisputeFee s * 10) (DisputeFee s * 2 ^ e) /\
    asset_transfer (sys_assets s) who dispute_fees (vote_fee v) Protect = inr (sys_assets s').
Proof.
  apply begin_dispute_Ok in Hrun as (who & n & e & v & d & Ho & Hd).
  exists who, n, e, v, d. split; [done|]. split; [done|].
  split; [|apply (ds_paid _ _ _ _ _ _ _ _ _ Hd)].
  rewrite (ds_vote _ _ _ _ _ _ _ _ _ Hd). simpl.
  apply capped_fee_min; [done|done|]. apply (ds_exponent _ _ _ _ _ _ _ _ _ Hd).
Qed.

(** The first round of a dispute takes the disputed value out of the
    history of its query, and records it in the dispute. *)
Theorem begin_dispute_removes_value origin q ts b s it s'
    (Hwf : oracle_wf s (sys_now s)) (Hnew : value_or_zero (VoteRounds s) (dispute_id_of q ts) = 0)
    (Hrun : begin_dispute origin q ts b s = (Ok it, s')) :
  history s' q = filter (fun p => fst p <> ts) (history s q) /\
  exists d, DisputeInfo s' !! dispute_id_of q ts = Some d /\
    retrieve_data s q ts = Some (dsp_value d) /\
    get_reporter_by_timestamp s q ts = Some (dsp_disputed_reporter d) /\
    retrieve_data s' q ts = None.
Proof.
  apply begin_dispute_Ok in Hrun as (who & n & e & v & d & _ & Hd).
  pose proof (ds_round _ _ _ _ _ _ _ _ _ Hd) as Hn. rewrite Hnew in Hn.
  apply (ds_first _ _ _ _ _ _ _ _ _ Hd) in Hn
    as (_ & _ & (w & Hw & Ew) & Hrep & _ & _ & _ & ED & _ & _ & it' & s1 & s2 & Hrm & E1 & E2 & E3).
  rewrite <- E1 in Hwf. rewrite E3.
  destruct (remove_value_Ok q ts (sys_now s) s1 it' s2 (Hwf q) Hrm) as (r & Hr & _).
  destruct (removed_history _ _ _ _ _ Hr) as [Hh _]. rewrite E1 in Hh. split; [done|].
  exists d. rewrite ED, lookup_insert_eq. split; [done|]. split; [congruence|]. split; [done|].
  unfold retrieve_data. rewrite E3, (rm_values _ _ _ _ _ Hr). apply lookup_delete_eq.
Qed.

(** C18: a vote is counted once: it adds the voter's tips to the users' tally
    and its number of reports to the reporters' tally of the choice it made, and
    voting again in the same round fails. *)
Theorem vote_counts_once who id supports again s u s'
    (Hwf : disputes_wf s) (Hrun : vote (Signed who) id supports s = (Ok u, s')) :
  (exists v, VoteInfo s !! (id, rounds s id) = Some v /\
    VoteInfo s' = <[(id, rounds s id) :=
      set_vote_users (tally_vote supports (get_tips_by_address s who) (vote_users v))
        (set_vote_reporters
           (tally_vote supports (get_reports_submitted_by_address s who) (vote_reporters v)) v)]>
      (VoteInfo s)) /\
  vote (Signed who) id again s' = (Err (PalletError AlreadyVoted), s').
Proof.
  change (do_vote who id supports s = (Ok u, s')) in Hrun.
  change (vote (Signed who) id again s') with (do_vote who id again s').
  apply do_vote_Ok in Hrun as [v [Hk Hv Ht Ho Hs ->]].
  split; [by exists v|]. unfold do_vote. unfold_calls.
  rewrite bind_gets, bind_ensure_true by done. rewrite !bind_gets.
  erewrite bind_ok_or_some by (simpl; apply lookup_insert_eq).
  rewrite bind_ensure_true by (by apply Z.eqb_eq). rewrite bind_gets.
  apply bind_ensure_false. apply negb_false_iff. unfold did_vote. simpl.
  rewrite (rw_round _ _ _ _ (dw_round _ _ (Hwf id) _ _ Hv)).
  change (value_or_zero (VoteRounds s) id) with (rounds s id).
  by rewrite lookup_insert_eq.
Qed.

(** The governance contract's tally is accepted exactly for the last round
    of a dispute, not tallied and not executed before, once the round has run for
    as many days as its number, or for six days; it sets the result and the time
    of the tally. *)
Theorem tally_votes_accepts id result s s' (Hwf : disputes_wf s) (Hnow : sys_now s <= u64_max)
    (Hstart : forall v, VoteInfo s !! (id, rounds s id) = Some v -> 0 <= vote_start_date v) :
  tally_votes id result s = (Ok tt, s') <-> exists v d, tallied s s' id result v d.
Proof.
  split; [apply tally_votes_Ok|]. intros (v & d & [Hv Hd Hx Ht Htime ->]).
  pose proof (Hstart v Hv). pose proof (rw_round _ _ _ _ (dw_round _ _ (Hwf id) _ _ Hv)) as Hr.
  assert (Hn : 1 <= rounds s id <= rounds s id) by (apply (dw_votes _ _ (Hwf id)); by eexists).
  pose proof (dw_rounds _ _ (Hwf id)) as Hmax. unfold MAX_VOTE_ROUNDS in Hmax.
  unfold tally_votes. unfold_calls. rewrite !bind_gets.
  change (value_or_zero (VoteRounds s) id) with (rounds s id).
  rewrite (bind_ok_or_some _ _ _ _ _ Hv).
  rewrite bind_ensure_true by (by rewrite Hx). rewrite bind_ensure_true by (by apply Z.eqb_eq).
  unfold_times. rewrite bind_gets.
  rewrite (bind_ok_or_some _ _ _ _ (sys_now s - vote_start_date v)) by (apply checked_ok; lia).
  rewrite (bind_run _ _ _ (vote_vote_round v * (24 * (60 * 60))) s).
  2: { unfold expect, checked_mul. rewrite checked_ok; [done|]. rewrite Hr. zlia. }
  rewrite bind_ensure_true.
  2: { apply orb_true_iff. rewrite !Z.leb_le. lia. }
  rewrite bind_modify, bind_gets. by rewrite (bind_ok_or_some _ _ _ _ d) by done.
Qed.

(** C20: executing the vote of a dispute happens at least a day after its last
    round was tallied, and pays the fee of every round out of the dispute fees: to
    the initiator of the round when the dispute passed or was invalid, to the
    disputed reporter when it failed.  Every account is credited at least what
    these payments give it. *)
Theorem execute_vote_pays {A_laws : AssetLaws cfg_Asset} id s n s' a
    (Ha : dispute_fees <> a) (Hrun : execute_vote id s = (Ok n, s')) :
  exists result v d ps,
    n = rounds s id /\ VoteInfo s !! (id, n) = Some v /\ vote_result v = Some result /\
    DAYS <= sys_now s - vote_tally_date v /\ DisputeInfo s !! id = Some d /\
    payments s id result d (reverse (seqZ 1 n)) = Some ps /\
    asset_balance (sys_assets s) a + credit ps a <= asset_balance (sys_assets s') a.
Proof.
  apply execute_vote_Ok in Hrun as (result & v & d & Hx).
  destruct (ex_paid _ _ _ _ _ _ _ Hx) as (ps & Hps & Htr).
  exists result, v, d, ps. split; [apply (ex_round _ _ _ _ _ _ _ Hx)|].
  split; [apply (ex_vote _ _ _ _ _ _ _ Hx)|].
  split; [apply (ex_tallied _ _ _ _ _ _ _ Hx)|]. split; [apply (ex_time _ _ _ _ _ _ _ Hx)|].
  split; [apply (ex_dispute _ _ _ _ _ _ _ Hx)|]. split; [done|]. by eapply transfers_credit.
Qed.

(** C19: the account for dispute fees can always pay out the disputes: once it has the
    minimum balance beside the fees of all rounds of the disputes that were not
    executed, it has so after every run of calls and hooks in which only the pallet
    takes from it. *)
Theorem dispute_fees_stay_covered {A_laws : AssetLaws cfg_Asset} s s'
    (Hs : reachable s) (Hrun : rtc (guarded_step dispute_fees) s s')
    (H0 : minimum_balance + fees_owed s <= asset_balance (sys_assets s) dispute_fees) :
  minimum_balance + fees_owed s' <= asset_balance (sys_assets s') dispute_fees /\
  0 <= fees_owed s'.
Proof.
  split; [exact (guarded_fees_solvent _ _ Hs Hrun H0)|].
  by eapply fees_owed_nonneg, typed_reachable, guarded_reachable.
Qed.

(** A dispute is executed once. *)
Theorem execute_vote_once id s n s' (Hrun : execute_vote id s = (Ok n, s')) :
  execute_vote id s' = (Err (PalletError VoteAlreadyExecuted), s').
Proof.
  apply execute_vote_Ok in Hrun as (result & v & d & [Hk [-> Hn] Hv Hx Ht _ Hd _ _ EV Hrest]).
  assert (ED : DisputeInfo s' = DisputeInfo s) by congruence.
  assert (ER : VoteRounds s' = VoteRounds s) by congruence.
  unfold execute_vote. unfold_calls. rewrite bind_gets.
  assert (Hk' : dispute_exists s' id = true) by (unfold dispute_exists in *; by rewrite ED).
  rewrite bind_ensure_true by done. rewrite bind_gets, ER.
  change (value_or_zero (VoteRounds s) id) with (rounds s id).
  rewrite bind_ensure_true by (by apply Z.ltb_lt). rewrite bind_gets, EV.
  by rewrite (bind_ok_or_some _ _ _ _ (set_vote_executed true v)) by apply lookup_insert_eq.
Qed.

(** Sending votes attempts at most [max] of the due votes, sends at most as
    many messages, and leaves every other vote and pending vote alone; what it
    returns is the number of attempts. *)
Theorem send_votes_bounded timestamp max s n s'
    (Hmax : 0 <= max <= u32_max) (Hrun : do_send_votes timestamp max s = (Ok n, s')) :
  n = Z.min max (Z.of_nat (length (due_votes s timestamp))) /\
  Z.of_nat (length (sys_sent s')) <= Z.of_nat (length (sys_sent s)) + max /\
  (forall id, id ∉ (take (Z.to_nat max) (due_votes s timestamp)).*1 ->
     PendingVotes s' !! id = PendingVotes s !! id /\
     forall r, VoteInfo s' !! (id, r) = VoteInfo s !! (id, r)) /\
  (disputes_wf s -> disputes_wf s').
Proof.
  apply do_send_votes_Ok in Hrun as [-> Hs]. rewrite length_take. split; [lia|].
  pose proof (sa_sent _ _ _ Hs) as Hlen. rewrite length_take in Hlen. split; [lia|].
  split; [|apply (sa_wf _ _ _ Hs)]. intros id Hid.
  split; [by apply (sa_others _ _ _ Hs)|]. intros r. by apply (sa_votes _ _ _ Hs).
Qed.

(** A further round only begins after the previous one was tallied. *)
Theorem next_round_after_tally origin q ts b s it s'
    (Hnow : DAYS <= sys_now s) (Hold : value_or_zero (VoteRounds s) (dispute_id_of q ts) <> 0)
    (Hrun : begin_dispute origin q ts b s = (Ok it, s')) :
  exists prev, VoteInfo s !! (dispute_id_of q ts, rounds s (dispute_id_of q ts)) = Some prev /\
    vote_tally_date prev <> 0 /\ vote_executed prev = false /\
    rounds s' (dispute_id_of q ts) = rounds s (dispute_id_of q ts) + 1.
Proof.
  apply begin_dispute_Ok in Hrun as (who & n & e & v & d & _ & Hd).
  pose proof (ds_round _ _ _ _ _ _ _ _ _ Hd) as Hn.
  destruct (ds_next _ _ _ _ _ _ _ _ _ Hd ltac:(lia)) as (_ & (prev & Hp & Ht & Hx) & _).
  exists prev. unfold rounds. rewrite (ds_VoteRounds _ _ _ _ _ _ _ _ _ Hd).
  replace (n - 1) with (value_or_zero (VoteRounds s) (dispute_id_of q ts)) in Hp by lia.
  split; [done|]. split; [lia|]. split; [done|]. unfold value_or_zero at 1.
  rewrite lookup_insert_eq. simpl. lia.
Qed.

(** C22: in every reachable state the number of open disputes of a query is that of
    the disputes on its values whose last round was not executed. *)
Theorem open_disputes_counted s q (Hs : reachable s) :
  get_open_disputes_on_id s q = Z.of_nat (size (open_disputes s q)) /\
  forall id, id ∈ open_disputes s q <->
    exists d v, DisputeInfo s !! id = Some d /\ dsp_query_id d = q /\
      VoteInfo s !! (id, rounds s id) = Some v /\ vote_executed v = false.
Proof.
  split; [by apply open_ok_reachable|]. intros id. rewrite elem_of_open. unfold executed_last.
  rewrite lookup_fmap. pose proof (disputes_wf_reachable _ Hs id) as Hwf. split.
  - intros (d & Hd & Hq & Hx). destruct (dw_votes _ _ Hwf (rounds s id)) as [_ Hv].
    assert (1 <= rounds s id) by (apply (dw_dispute _ _ Hwf); by eexists).
    destruct Hv as [v Hv]; [lia|]. rewrite Hv in Hx. by exists d, v.
  - intros (d & v & Hd & Hq & Hv & Hx). exists d. by rewrite Hv.
Qed.

(** C21: while the network accepts messages for the governance contract, a vote that is
    due is sent, or a further round has replaced it, after as many blocks as a third of
    the votes scheduled before it, whatever calls run in between. *)
Theorem due_vote_is_sent {Net : GovernanceReachable T} id r t n s s' (Hs : reachable s)
    (Hp : PendingVotes s !! id = Some (r, t)) (Ht : t <= sys_now s)
    (Hrun : execution n s s') (Hn : (size (ahead id r t s) <= 3 * n)%nat)
    (Hlate : sys_now s' + 11 * HOURS <= u64_max) :
  (exists v, VoteInfo s' !! (id, r) = Some v /\ vote_sent v = true) \/ r < rounds s' id.
Proof.
  destruct (execution_progress id r t n s s' Hrun Hs Ht Hlate Hp) as [?|[Hw Hsz]]; [done|].
  apply waiting_ahead in Hw. exfalso.
  assert (size (ahead id r t s') <> 0%nat); [|lia].
  intros E. apply size_empty_inv in E. by apply E in Hw.
Qed.
End Theorems.

(** ** Witnesses *)

#[local] Existing Instance Test.
#[local] Existing Instance TestOk.
#[local] Existing Instance MockAssetLaws.

Lemma begin_dispute_opens_round_witness :
  exists who n e v d, Signed disputer = Signed who /\
    disputed s_report2 s_disputed who query (T0 + 10) n e v d /\
    vote_fee v = Z.min (DisputeFee s_report2 * 10) (DisputeFee s_report2 * 2 ^ e) /\
    asset_transfer (sys_assets s_report2) who dispute_fees (vote_fee v) Protect
      = inr (sys_assets s_disputed).
Proof.
  assert (E : exists it, begin_dispute (Signed disputer) query (T0 + 10) (Some 99) s_report2
              = (Ok it, s_disputed)).
  { unfold s_disputed.
    by_void_call (Signed disputer) (c_begin_dispute query (T0 + 10) (Some 99)) s_report2. }
  destruct E as [it E].
  apply (begin_dispute_opens_round (Signed disputer) query (T0 + 10) (Some 99) s_report2 it);
    [by_run|by_run|exact E].
Defined.

Lemma begin_dispute_removes_value_witness :
  history s_disputed query = filter (fun p => fst p <> T0 + 10) (history s_report2 query) /\
  exists d, DisputeInfo s_disputed !! dispute_id_of query (T0 + 10) = Some d /\
    retrieve_data s_report2 query (T0 + 10) = Some (dsp_value d) /\
    get_reporter_by_timestamp s_report2 query (T0 + 10) = Some (dsp_disputed_reporter d) /\
    retrieve_data s_disputed query (T0 + 10) = None.
Proof.
  assert (E : exists it, begin_dispute (Signed disputer) query (T0 + 10) (Some 99) s_report2
              = (Ok it, s_disputed)).
  { unfold s_disputed.
    by_void_call (Signed disputer) (c_begin_dispute query (T0 + 10) (Some 99)) s_report2. }
  destruct E as [it E].
  apply (begin_dispute_removes_value (Signed disputer) query (T0 + 10) (Some 99) s_report2 it);
    [exact wf_report2|by_run|exact E].
Defined.

Lemma vote_counts_once_witness :
  (exists v, VoteInfo s_disputed !! (dispute, rounds s_disputed dispute) = Some v /\
    VoteInfo s_voted = <[(dispute, rounds s_disputed dispute) :=
      set_vote_users (tally_vote (Some true) (get_tips_by_address s_disputed reporter) (vote_users v))
        (set_vote_reporters
           (tally_vote (Some true) (get_reports_submitted_by_address s_disputed reporter)
              (vote_reporters v)) v)]>
      (VoteInfo s_disputed)) /\
  vote (Signed reporter) dispute None s_voted = (Err (PalletError AlreadyVoted), s_voted).
Proof.
  apply (vote_counts_once reporter dispute (Some true) None s_disputed tt).
  - exact (disputes_wf_reachable _ reachable_disputed).
  - unfold s_voted. by_call (Signed reporter) (c_vote dispute (Some true)) s_disputed.
Defined.

Lemma tally_votes_accepts_witness :
  tally_votes dispute Passed s_to_tally = (Ok tt, s_tallied) <->
  exists v d, tallied s_to_tally s_tallied dispute Passed v d.
Proof.
  apply tally_votes_accepts.
  - apply disputes_wf_reachable. apply time_reachable; [exact reachable_voted|by_run].
  - by_run.
  - intros v Hv. vm_compute in Hv. injection Hv as <-. by_run.
Defined.

Lemma execute_vote_pays_witness :
  let s' := after (execute_vote dispute) s_to_execute in
  exists result v d ps,
    1 = rounds s_to_execute dispute /\ VoteInfo s_to_execute !! (dispute, 1) = Some v /\
    vote_result v = Some result /\
    DAYS <= sys_now s_to_execute - vote_tally_date v /\
    DisputeInfo s_to_execute !! dispute = Some d /\
    payments s_to_execute dispute result d (reverse (seqZ 1 1)) = Some ps /\
    asset_balance (sys_assets s_to_execute) disputer + credit ps disputer
      <= asset_balance (sys_assets s') disputer.
Proof.
  intros s'. apply (execute_vote_pays dispute s_to_execute 1); [done|].
  assert (E : fst (execute_vote dispute s_to_execute) = Ok 1) by by_run. exact (run_after _ _ _ E).
Defined.

Lemma execute_vote_once_witness :
  let s' := after (execute_vote dispute) s_to_execute in
  execute_vote dispute s' = (Err (PalletError VoteAlreadyExecuted), s').
Proof.
  intros s'. apply (execute_vote_once dispute s_to_execute 1).
  assert (E : fst (execute_vote dispute s_to_execute) = Ok 1) by by_run. exact (run_after _ _ _ E).
Defined.

Lemma send_votes_bounded_witness :
  let s := s_to_tally in
  let s' := after (do_send_votes (sys_now s) 5) s in
  1 = Z.min 5 (Z.of_nat (length (due_votes s (sys_now s)))) /\
  Z.of_nat (length (sys_sent s')) <= Z.of_nat (length (sys_sent s)) + 5 /\
  (forall id, id ∉ (take (Z.to_nat 5) (due_votes s (sys_now s))).*1 ->
     PendingVotes s' !! id = PendingVotes s !! id /\
     forall r, VoteInfo s' !! (id, r) = VoteInfo s !! (id, r)) /\
  (disputes_wf s -> disputes_wf s').
Proof.
  intros s s'. apply (send_votes_bounded (sys_now s) 5 s 1 s'); [by_run|].
  assert (E : fst (do_send_votes (sys_now s) 5 s) = Ok 1) by by_run. exact (run_after _ _ _ E).
Defined.

Lemma next_round_after_tally_witness :
  let id := dispute_id_of query (T0 + 10) in
  exists prev, VoteInfo s_to_reopen !! (id, rounds s_to_reopen id) = Some prev /\
    vote_tally_date prev <> 0 /\ vote_executed prev = false /\
    rounds s_reopened id = rounds s_to_reopen id + 1.
Proof.
  intros id.
  assert (E : exists it, begin_dispute (Signed disputer) query (T0 + 10) (Some 99) s_to_reopen
              = (Ok it, s_reopened)).
  { unfold s_reopened.
    by_void_call (Signed disputer) (c_begin_dispute query (T0 + 10) (Some 99)) s_to_reopen. }
  destruct E as [it E].
  apply (next_round_after_tally (Signed disputer) query (T0 + 10) (Some 99) s_to_reopen it);
    [by_run|by_run|exact E].
Defined.

#[local] Instance mock_reachable : GovernanceReachable Test.
Proof.
  split; [done|intros; eexists; by vm_compute|]. intros. vm_compute. discriminate.
Qed.

Lemma due_vote_is_sent_witness :
  let s' := after on_initialize s_to_tally in
  (exists v, VoteInfo s' !! (dispute, 1) = Some v /\ vote_sent v = true) \/ 1 < rounds s' dispute.
Proof.
  intros s'.
  assert (E : fst (on_initialize s_to_tally) = Ok (0, 0, 1)) by by_run.
  apply (due_vote_is_sent dispute 1 (T0 + 30000 + 11 * HOURS) 1 s_to_tally s').
  - apply time_reachable; [exact reachable_voted|by_run].
  - by_run.
  - by_run.
  - eapply exec_hook; [apply exec_refl|exact (run_after _ _ _ E)|done].
  - apply Nat.leb_le. by_run.
  - by_run.
Defined.

Lemma open_disputes_counted_witness :
  get_open_disputes_on_id s_disputed query = Z.of_nat (size (open_disputes s_disputed query)) /\
  forall id, id ∈ open_disputes s_disputed query <->
    exists d v, DisputeInfo s_disputed !! id = Some d /\ dsp_query_id d = query /\
      VoteInfo s_disputed !! (id, rounds s_disputed id) = Some v /\ vote_executed v = false.
Proof. exact (open_disputes_counted s_disputed query reachable_disputed). Defined.

(** The fee of the dispute is owed until it is executed. *)
Example fees_owed_run :
  (fees_owed s_registered, fees_owed s_disputed, fees_owed s_tallied, fees_owed s_executed)
  = (0, 50 * 10 ^ 12, 50 * 10 ^ 12, 0).
Proof. by_run. Qed.

Lemma dispute_fees_stay_covered_witness :
  minimum_balance + fees_owed s_executed <= asset_balance (sys_assets s_executed) dispute_fees /\
  0 <= fees_owed s_executed.
Proof.
  apply (dispute_fees_stay_covered s_disputed s_executed); [exact reachable_disputed| |by_run].
  eapply rtc_l; [apply (call_guarded _ (Signed reporter) (c_vote dispute (Some true))); by_run|].
  eapply rtc_l; [apply (time_guarded _ (T0 + 30000 + 86400)); by_run|].
  eapply rtc_l; [apply (call_guarded _ (TellorOrigin Governance) (c_report_vote_tallied dispute Passed)); by_run|].
  eapply rtc_l; [apply (time_guarded _ (T0 + 30000 + 2 * 86400)); by_run|].
  apply rtc_once, (call_guarded _ (TellorOrigin Governance) (c_report_vote_executed dispute)); by_run.
Defined.
