(* ===== verification/StakingTheorems.v ===== *)
(** * Theorems on staking

    The conversion of amounts, the allocation and payment of rewards, slashing,
    withdrawals, and the price-driven stake amount and dispute fee. *)

From S2P Require Import Prelude Types Config Storage Oracle OracleFacts Mock Queries Xcm.
From S2P Require Import Governance GovernanceFacts Staking StakingFacts RewardFacts Autopay.
From S2P Require Import UsingTellor UsingTellorFacts Pallet PalletFacts AccountFacts.
From S2P Require Import WidthFacts RewardRunFacts Scenario.

(** ** Lemmas *)

Section Lemmas.
Context {T : Config} {Ok_T : ConfigOk T}.
Implicit Types s : State.

(** What a slash of [amount] takes from the locked balance and from the stake. *)
Definition locked_part (i : StakeInfo) (amount : Tributes) : Tributes :=
  Z.min amount (stk_locked_balance i).
Definition staked_part (i : StakeInfo) (amount : Tributes) : Tributes :=
  Z.min (amount - locked_part i amount) (stk_staked_balance i).

Lemma slash_staker_Ok a i amount s i' s' :
  staker_ok i -> 0 <= TotalStakers s -> 0 <= amount ->
  slash_staker a i amount s = (Ok i', s') ->
  stk_locked_balance i' = stk_locked_balance i - locked_part i amount /\
  stk_staked_balance i' = stk_staked_balance i - staked_part i amount /\
  TotalStakeAmount s' = TotalStakeAmount s - staked_part i amount /\
  ToWithdraw s' = ToWithdraw s - locked_part i amount /\
  StakerDetails s' = StakerDetails s.
Proof.
  intros Hi Hn Ha. unfold slash_staker, staked_part, locked_part. intros H.
  pose proof (so_staked _ Hi). pose proof (so_locked _ Hi).
  repeat (match goal with Hb : (if ?b then _ else _) _ = _ |- _ => destruct b eqn:? end; cinv);
    conditions; subst;
    repeat match goal with
    | Hw : withdraw_sub _ _ = (Ok _, _) |- _ => apply withdraw_sub_Ok in Hw as [-> ?]
    | Hu : update_stake_and_pay_rewards _ _ _ _ = (Ok _, _) |- _ =>
        apply update_stake_and_pay_rewards_Ok in Hu; [|done..];
        pose proof (restaked_storage _ _ _ _ _ Hu) as (? & ? & ?);
        pose proof (rs_total _ _ _ _ _ Hu); pose proof (rs_info _ _ _ _ _ Hu) as Hinfo
    end; simpl in *.
  all: try (apply (f_equal stk_staked_balance) in Hinfo; simpl in Hinfo).
  all: repeat split; try congruence; lia.
Qed.
End Lemmas.

Section Theorems.
Context {T : Config} {Ok_T : ConfigOk T}.
Implicit Types s : State.

(** Converting an amount of 18 decimals to other decimals divides it by the
    power of ten, rounding down, or multiplies it, and fails with an overflow
    exactly when the result does not fit 256 bits; it never changes storage. *)
Theorem convert_to_decimals_rounds_down amount decimals s
    (Ha : 0 <= amount <= u256_max) (Hd : 0 <= decimals) :
  convert_to_decimals amount decimals s =
    (if to_decimals amount decimals <=? u256_max then Ok (to_decimals amount decimals)
     else Err (Arithmetic Overflow), s).
Proof. by apply convert_to_decimals_run. Qed.

(** While the rewards account covers the rewards allocated to the stakes,
    releasing rewards keeps it so, whether or not the rewards run out, and leaves
    stakes and balances alone. *)
Theorem update_rewards_stays_covered s u s'
    (Hr : rewards_range s) (Hcov : allocated s <= staking_rewards_balance s)
    (Hrun : update_rewards s = (Ok u, s')) :
  allocated s' <= staking_rewards_balance s' /\
  AccumulatedRewardPerShare s <= AccumulatedRewardPerShare s' /\
  stake_totals s' = stake_totals s /\ sys_assets s' = sys_assets s.
Proof.
  destruct (update_rewards_covered _ _ _ Hr Hcov Hrun) as [_ Hc]. split; [done|].
  apply update_rewards_Ok in Hrun as (_ & Ht & Ha & Hs); [|done].
  split; [|done]. destruct Hs as [[-> _]|[? _]]; lia.
Qed.

(** C11: changing a stake first releases the rewards, pays a staker exactly what
    it is due (its share of the rewards less its debt, scaled by its part in the
    votes since it staked), and moves the totals from the old stake to the new
    one. *)
Theorem update_stake_pays_reward_due a i new s i' s'
    (Hi : 0 <= stk_staked_balance i) (Hn : 0 <= TotalStakers s)
    (Hrun : update_stake_and_pay_rewards a i new s = (Ok i', s')) :
  restaked s s' i i' new /\
  exists u s1, update_rewards s = (Ok u, s1) /\
    if 0 <? stk_staked_balance i
    then asset_transfer (sys_assets s) staking_rewards a (reward_due s1 a i) Protect
         = inr (sys_assets s')
    else sys_assets s' = sys_assets s.
Proof.
  split; [by eapply update_stake_and_pay_rewards_Ok|].
  apply update_stake_paid in Hrun as (u & s1 & H1 & _ & _ & Hpaid). exists u, s1. split; [done|].
  apply (keeps_run _ _ _ _ _ keeps_update_rewards) in H1. cbv beta in H1. split_pairs.
  by replace (sys_assets s) with (sys_assets s1) by congruence.
Qed.

(** C12: in every run from the genesis in which only the pallet takes from the rewards account
    (which keeps the minimum balance when a stake changes, with rewards in the width of a
    balance), that account covers the rewards that are allocated to the stakes, but for the
    rounding of the changes of stakes since the rewards were last allocated: each of them
    costs at most the reward of one unit of stake and two.  Releases, additions and claims
    cost nothing, and a change at a later time makes up for all that rounding took before. *)
Theorem rewards_account_covers_allocated {A_laws : AssetLaws cfg_Asset} n s
    (Hrun : rewards_run n s) :
  allocated s <= staking_rewards_balance s
    + Z.of_nat n * (unit_reward (AccumulatedRewardPerShare s) (10 ^ Decimals) + 2).
Proof. exact (rewards_run_covered n s Hrun). Qed.

(** C23: a slash takes the amount from the locked balance first, the rest from
    the stake, and at most what the reporter holds; the totals follow and no other
    staker is touched. *)
Theorem report_slash_takes_locked_first origin a amount s u s'
    (Hwf : staking_wf s) (Ha : 0 <= amount)
    (Hrun : report_slash origin a amount s = (Ok u, s')) :
  exists i i', StakerDetails s !! a = Some i /\ StakerDetails s' = <[a := i']> (StakerDetails s) /\
    stk_locked_balance i' = stk_locked_balance i - locked_part i amount /\
    stk_staked_balance i' = stk_staked_balance i - staked_part i amount /\
    locked_part i amount + staked_part i amount
      = Z.min amount (stk_locked_balance i + stk_staked_balance i) /\
    TotalStakeAmount s' = TotalStakeAmount s - staked_part i amount /\
    ToWithdraw s' = ToWithdraw s - locked_part i amount.
Proof.
  unfold report_slash in Hrun. cinv. conditions. subst.
  match goal with H : _ !! a = Some ?i, Hs : slash_staker _ _ _ _ = (Ok ?i', _) |- _ =>
    exists i, i'; pose proof (to_stakers _ _ _ _ _ Hwf _ _ H) as Hi;
    apply slash_staker_Ok in Hs as (E1 & E2 & E3 & E4 & E5);
      [|exact Hi|apply (to_stakers_nonneg _ _ _ _ _ Hwf)|done] end.
  simpl. rewrite E5. do 4 (split; [done|]). split; [|done].
  pose proof (so_locked _ Hi). pose proof (so_staked _ Hi). unfold staked_part, locked_part. lia.
Qed.

(** A withdrawal is accepted only seven days after it was requested, for at
    most the locked balance; it lowers the locked balance by the amount and leaves
    the stake and every other staker alone. *)
Theorem report_stake_withdrawn_after_lock origin a amount s u s'
    (Ha : 0 <= amount) (Hrun : report_stake_withdrawn origin a amount s = (Ok u, s')) :
  exists i, StakerDetails s !! a = Some i /\ 0 < stk_locked_balance i /\
    amount <= stk_locked_balance i /\ 7 * DAYS <= sys_now s - stk_start_date i /\
    StakerDetails s' = <[a := set_stk_locked_balance (stk_locked_balance i - amount) i]>
                         (StakerDetails s) /\
    TotalStakeAmount s' = TotalStakeAmount s.
Proof.
  unfold report_stake_withdrawn in Hrun. cinv. conditions.
  match goal with H : withdraw_sub _ _ = _ |- _ => apply withdraw_sub_Ok in H as [-> ?] end.
  subst. simpl. eexists. split; [done|]. do 3 (split; [first [done|lia]|]). done.
Qed.

(** C39: [report_stake_withdrawn] takes the whole locked balance of the staker
    out of [ToWithdraw], although a partial withdrawal leaves a part of it locked:
    from then on [ToWithdraw] is less than what is locked, by that part. *)
Theorem partial_withdrawal_undercounts origin a amount i s u s'
    (Hi : StakerDetails s !! a = Some i) (Ha : 0 <= amount < stk_locked_balance i)
    (Hsum : ToWithdraw s = map_sum stk_locked_balance (StakerDetails s))
    (Hrun : report_stake_withdrawn origin a amount s = (Ok u, s')) :
  map_sum stk_locked_balance (StakerDetails s') =
    ToWithdraw s' + (stk_locked_balance i - amount).
Proof.
  unfold report_stake_withdrawn in Hrun. cinv. conditions. simplify_eq.
  match goal with H : withdraw_sub _ _ = _ |- _ => apply withdraw_sub_Ok in H as [-> ?] end.
  subst. simpl. rewrite map_sum_insert. unfold of_staker. rewrite Hi. simpl. lia.
Qed.

(** C36: updating the stake amount and the dispute fee reads the last valid
    prices more than 12 hours old, between [10 ^ 16] and [10 ^ 24]; the stake amount
    becomes the target divided by the price, at least the minimum, and the dispute
    fee a tenth of it in local currency. *)
Theorem update_stake_amount_follows_prices origin s u s'
    (Hrun : update_stake_amount origin s = (Ok u, s')) : repriced s s'.
Proof.
  unfold update_stake_amount in Hrun. apply bind_Ok in Hrun as (w & s0 & Ho & Hrun).
  apply ensure_signed_Ok in Ho as [-> ->]. cinv. by eapply reprice_Ok.
Qed.

(** C38: in a reachable state in which the rewards have run out (the release of the rewards up
    to now leaves no rate), the report of the first deposit of a reporter is accepted exactly
    when the rewards account covers what is allocated with the new stake in the totals (an
    amount that must not be negative), and is rejected with an underflow otherwise, provided
    the deposit and its reward are in width.  The new stake has earned nothing: what is
    allocated grows by rounding alone, by at most the reward of one unit of stake and two,
    so an account that covers the rewards of all stakes exactly can reject a new one. *)
Theorem rounding_rejects_deposit {A_laws : AssetLaws cfg_Asset} origin a amount addr s u s1
    (Hs : reachable s) (Ho : StakingOrigin origin = true) (Hnew : StakerDetails s !! a = None)
    (Hrun : update_rewards s = (Ok u, s1)) (Hrate : RewardRate s1 = 0)
    (Hfit : entry_fits s1 amount) :
  0 <= entry_rounding s1 amount <= rounding s1 /\
  fst (dispatch origin (c_report_stake_deposited a amount addr) s) =
    if bool_decide (0 <= allocated s1 + entry_rounding s1 amount <= staking_rewards_balance s1)
    then Ok tt else Err (Arithmetic Underflow).
Proof.
  pose proof (reachable_range _ Hs) as Hr. apply typed_reachable in Hs as Hty.
  pose proof (update_rewards_share _ _ _ Hr Hrun) as Hshare.
  split; [by apply entry_rounding_bounds|].
  pose proof (fun i Hi => first_stake_unreleased a i amount s u s1 Hr (proj1 (ty_debt _ Hty)) Hi
    Hrun Hrate Hfit) as Hstake.
  apply (keeps_run _ _ _ _ _ keeps_update_rewards) in Hrun. cbv beta in Hrun.
  unfold stake_totals in Hrun. split_pairs.
  pose proof (ef_total _ _ Hfit). pose proof (ef_amount _ _ Hfit). pose proof (rr_total _ Hr).
  unfold dispatch, transactional. cbn [call_body]. unfold report_stake_deposited. unfold_calls.
  rewrite bind_ensure_true by done. rewrite bind_gets, Hnew. cbn [default].
  rewrite bind_ensure_true by (simpl; lia).
  assert (Hrestake : exists i, stk_staked_balance i = 0 /\
    restake a (StakeInfo_new addr) amount s = (Ok i, s))
    by (eexists; split; [|reflexivity]; done).
  destruct Hrestake as (i & Hi & Hrestake). rewrite (bind_run _ _ _ _ _ Hrestake).
  erewrite (bind_run (expect _)) by (unfold checked_add; simpl; by rewrite checked_ok by lia).
  specialize (Hstake i Hi). case_bool_decide.
  - destruct Hstake as (i' & s' & Hstake). by rewrite (bind_run _ _ _ _ _ Hstake).
  - destruct Hstake as [s' Hstake]. by rewrite (bind_fails _ _ _ _ _ Hstake).
Qed.
End Theorems.

(** ** Witnesses *)

#[local] Existing Instance Test.
#[local] Existing Instance TestOk.
#[local] Existing Instance MockAssetLaws.

Definition s_later : State := at_time (T0 + 1000) s_rewards.
Definition stake1 : StakeInfo := default (StakeInfo_new 17) (StakerDetails s_later !! reporter).
Definition s_requested : State :=
  call (TellorOrigin Staking) (c_report_staking_withdraw_request reporter (100 * TRB) 17) s_later.
Definition s_unlocked : State := at_time (T0 + 1000 + 7 * 86400) s_requested.
Definition stake2 : StakeInfo := default (StakeInfo_new 17) (StakerDetails s_unlocked !! reporter).

Lemma reachable_requested : reachable s_requested.
Proof. apply call_reachable; [apply time_reachable; [apply reachable_rewards|by_run]|by_run..]. Qed.

(** Prices for the staking token, reported 12 hours before they are used. *)
Definition s_price1 : State :=
  call (Signed reporter) (c_submit_value StakingTokenPriceQueryId (to_be_bytes 32 (5 * 10 ^ 18)) 0
                            staking_token_price_query_data)
    (at_time (T0 + 1000) s_staked).
Definition s_price2 : State :=
  call (Signed reporter) (c_submit_value StakingToLocalTokenPriceQueryId (to_be_bytes 32 (6 * 10 ^ 16)) 0
                            staking_to_local_token_price_query_data)
    (at_time (T0 + 30000) s_price1).
Definition s_priced : State := at_time (T0 + 30000 + 43201) s_price2.

Lemma convert_to_decimals_rounds_down_witness :
  convert_to_decimals (1234567 * 10 ^ 5) 12 s_later =
    (if to_decimals (1234567 * 10 ^ 5) 12 <=? u256_max
     then Ok (to_decimals (1234567 * 10 ^ 5) 12) else Err (Arithmetic Overflow), s_later).
Proof. apply convert_to_decimals_rounds_down; by_run. Defined.

Lemma range_later : rewards_range s_later.
Proof. split; by_run. Qed.

Lemma update_rewards_stays_covered_witness :
  let s' := after update_rewards s_later in
  allocated s' <= staking_rewards_balance s' /\
  AccumulatedRewardPerShare s_later <= AccumulatedRewardPerShare s' /\
  stake_totals s' = stake_totals s_later /\ sys_assets s' = sys_assets s_later.
Proof.
  intros s'. apply (update_rewards_stays_covered s_later tt s' range_later); [by_run|].
  assert (E : fst (update_rewards s_later) = Ok tt) by by_run. exact (run_after _ _ _ E).
Defined.

Lemma update_stake_pays_reward_due_witness :
  let s' := after (update_stake_and_pay_rewards reporter stake1 (300 * TRB)) s_later in
  exists i', restaked s_later s' stake1 i' (300 * TRB) /\
  exists u s1, update_rewards s_later = (Ok u, s1) /\
    if 0 <? stk_staked_balance stake1
    then asset_transfer (sys_assets s_later) staking_rewards reporter
           (reward_due s1 reporter stake1) Protect = inr (sys_assets s')
    else sys_assets s' = sys_assets s_later.
Proof.
  intros s'.
  assert (E : succeeds (update_stake_and_pay_rewards reporter stake1 (300 * TRB)) s_later = true)
    by by_run.
  apply succeeds_run in E as [i' E]. exists i'.
  apply (update_stake_pays_reward_due reporter stake1 (300 * TRB) s_later i' s');
    [by_run|by_run|exact E].
Defined.

Lemma report_slash_takes_locked_first_witness :
  let s' := after (report_slash (TellorOrigin Staking) reporter (150 * TRB)) s_requested in
  exists i i', StakerDetails s_requested !! reporter = Some i /\
    StakerDetails s' = <[reporter := i']> (StakerDetails s_requested) /\
    stk_locked_balance i' = stk_locked_balance i - locked_part i (150 * TRB) /\
    stk_staked_balance i' = stk_staked_balance i - staked_part i (150 * TRB) /\
    locked_part i (150 * TRB) + staked_part i (150 * TRB)
      = Z.min (150 * TRB) (stk_locked_balance i + stk_staked_balance i) /\
    TotalStakeAmount s' = TotalStakeAmount s_requested - staked_part i (150 * TRB) /\
    ToWithdraw s' = ToWithdraw s_requested - locked_part i (150 * TRB).
Proof.
  intros s'.
  apply (report_slash_takes_locked_first (TellorOrigin Staking) reporter (150 * TRB)
           s_requested tt s'); [exact (staking_wf_reachable _ reachable_requested)|by_run|].
  assert (E : fst (report_slash (TellorOrigin Staking) reporter (150 * TRB) s_requested) = Ok tt)
    by by_run.
  exact (run_after _ _ _ E).
Defined.

Lemma report_stake_withdrawn_after_lock_witness :
  let s' := after (report_stake_withdrawn (TellorOrigin Staking) reporter (100 * TRB)) s_unlocked in
  exists i, StakerDetails s_unlocked !! reporter = Some i /\ 0 < stk_locked_balance i /\
    100 * TRB <= stk_locked_balance i /\ 7 * DAYS <= sys_now s_unlocked - stk_start_date i /\
    StakerDetails s' = <[reporter := set_stk_locked_balance (stk_locked_balance i - 100 * TRB) i]>
                         (StakerDetails s_unlocked) /\
    TotalStakeAmount s' = TotalStakeAmount s_unlocked.
Proof.
  intros s'.
  apply (report_stake_withdrawn_after_lock (TellorOrigin Staking) reporter (100 * TRB)
           s_unlocked tt s'); [by_run|].
  assert (E : fst (report_stake_withdrawn (TellorOrigin Staking) reporter (100 * TRB) s_unlocked)
              = Ok tt) by by_run.
  exact (run_after _ _ _ E).
Defined.

Lemma partial_withdrawal_undercounts_witness :
  let s' := after (report_stake_withdrawn (TellorOrigin Staking) reporter (40 * TRB)) s_unlocked in
  map_sum stk_locked_balance (StakerDetails s') =
    ToWithdraw s' + (stk_locked_balance stake2 - 40 * TRB).
Proof.
  intros s'.
  apply (partial_withdrawal_undercounts (TellorOrigin Staking) reporter (40 * TRB) stake2
           s_unlocked tt s'); [by_run|by_run|by_run|].
  assert (E : fst (report_stake_withdrawn (TellorOrigin Staking) reporter (40 * TRB) s_unlocked)
              = Ok tt) by by_run.
  exact (run_after _ _ _ E).
Defined.

Lemma update_stake_amount_follows_prices_witness :
  repriced s_priced (after (update_stake_amount (Signed tipper)) s_priced).
Proof.
  apply (update_stake_amount_follows_prices (Signed tipper) s_priced (0, 0)).
  assert (E : fst (update_stake_amount (Signed tipper) s_priced) = Ok (0, 0)) by by_run.
  exact (run_after _ _ _ E).
Defined.

(** A call of such a run. *)
Lemma call_rewards_run n n' origin c (s : State) : rewards_run n s ->
  origin <> Signed staking_rewards -> restaker c <> Some staking_rewards -> call_ok c ->
  succeeds (dispatch origin c) s = true -> rewards_healthy (call origin c s) ->
  restakes c s (call origin c s) n = n' -> rewards_run n' (call origin c s).
Proof.
  intros Hs Ho Ha Hc Hok Hh <-. destruct (succeeds_run _ _ Hok) as [u Hu]. by eapply run_call.
Qed.

Lemma rewards_run_staked : rewards_run 1 s_rewards.
Proof.
  eapply (call_rewards_run 1); [|by_run..].
  eapply (call_rewards_run 0); [|by_run..].
  eapply (call_rewards_run 0); [|by_run..].
  by apply run_genesis.
Qed.

Lemma rewards_account_covers_allocated_witness :
  allocated s_rewards <= staking_rewards_balance s_rewards
    + 1 * (unit_reward (AccumulatedRewardPerShare s_rewards) (10 ^ Decimals) + 2).
Proof. exact (rewards_account_covers_allocated 1 s_rewards rewards_run_staked). Defined.

(** ** A deposit that rounding rejects *)

(** Two stakes, of 100 and of 100.5 tokens, whose rewards have run out twice. *)
Definition half_token : Tributes := 5 * 10 ^ 17.
Definition s_rounding1 : State :=
  call (TellorOrigin Staking) (c_report_stake_deposited reporter (100 * TRB) 17) mock_genesis.
Definition s_rounding2 : State :=
  call (TellorOrigin Staking) (c_report_stake_deposited disputer (100 * TRB + half_token) 18)
    s_rounding1.
Definition s_rounding3 : State := call (Signed tipper) (c_add_staking_rewards 200500201) s_rounding2.
Definition s_rounding4 : State :=
  call (Signed tipper) (c_add_staking_rewards 0) (at_time (T0 + 60 * DAYS) s_rounding3).
Definition s_rounding5 : State := call (Signed tipper) (c_add_staking_rewards 400999999) s_rounding4.
Definition s_rounding : State := at_time (T0 + 120 * DAYS) s_rounding5.

Lemma reachable_rounding : reachable s_rounding.
Proof.
  apply time_reachable; [|by_run]. apply call_reachable; [|by_run..].
  apply call_reachable; [|by_run..]. apply time_reachable; [|by_run].
  do 3 (apply call_reachable; [|by_run..]). apply reachable_genesis.
Qed.

(** There the account covers the rewards exactly: a deposit whose reward is not whole is
    rejected, and a deposit whose reward is whole is accepted. *)
Definition s_run_out : State := after update_rewards s_rounding.

Lemma run_out_fits n : n = half_token \/ n = TRB -> entry_fits s_run_out n.
Proof. intros [-> | ->]; split; by_run. Qed.

Lemma rounding_rejects_deposit_witness :
  let deposit n := c_report_stake_deposited tipper n 19 in
  allocated s_run_out = staking_rewards_balance s_run_out /\
  entry_rounding s_run_out half_token = 1 /\
  fst (dispatch (TellorOrigin Staking) (deposit half_token) s_rounding)
    = Err (Arithmetic Underflow) /\
  fst (dispatch (TellorOrigin Staking) (deposit TRB) s_rounding) = Ok tt.
Proof.
  intros deposit. assert (Hrun : update_rewards s_rounding = (Ok tt, s_run_out))
    by (apply run_after; by vm_compute).
  pose proof (fun n Hn => proj2 (rounding_rejects_deposit (TellorOrigin Staking) tipper n 19
    s_rounding tt s_run_out reachable_rounding eq_refl ltac:(by_run) Hrun ltac:(by_run)
    (run_out_fits n Hn))) as H.
  split; [by_run|]. split; [by_run|]. split.
  - unfold deposit. rewrite (H half_token) by (by left). by vm_compute.
  - unfold deposit. rewrite (H TRB) by (by right). by vm_compute.
Defined.
