(* ===== verification/AutopayTheorems.v ===== *)
(** * Theorems on tips and feeds

    The reward of a report, the claims of feed tips and one-time tips and their
    payment, the funding of feeds, and the deposit of tips. *)

From S2P Require Import Prelude Types Config Storage Oracle OracleFacts Mock Queries Xcm.
From S2P Require Import Governance GovernanceFacts Staking StakingFacts Autopay UsingTellor.
From S2P Require Import UsingTellorFacts Pallet PalletFacts AutopayFacts FundingFacts TipFacts.
From S2P Require Import AccountFacts PaymentFacts SolvencyFacts Scenario.

(** ** Lemmas *)

#[local] Set Warnings "-clear-no-such-hyp".

Section Lemmas.
Context {T : Config}.
Implicit Types s : State.

(** What the deposit of a tip does not touch. *)
Definition beside_tips s := (st_oracle s, sys_now s, sys_assets s, UserTipsTotal s).

Lemma beside_tips_store_data q d : keeps beside_tips (store_data q d).
Proof. unfold store_data. solve_keeps. Qed.
Lemma beside_tips_new_tip q n a c : keeps beside_tips (new_tip q n a c).
Proof. unfold new_tip. solve_keeps. Qed.

#[local] Hint Resolve beside_tips_store_data beside_tips_new_tip : frame.

Lemma beside_tips_add_tip q a d : keeps beside_tips (add_tip q a d).
Proof. unfold add_tip. solve_keeps. Qed.

(** The tip [tp] at index [i] is written, and there are [n] tips. *)
Definition tip_written s s' (q : QueryId) (i n : Z) (tp : Tip) : Prop :=
  Tips s' = <[(q, i) := tp]> (Tips s) /\ value_or_zero (TipCount s') q = n.

Lemma new_tip_Ok q amount c s u s' :
  let n := value_or_zero (TipCount s) q in
  0 <= n < u32_max -> new_tip q n amount c s = (Ok u, s') ->
  tip_written s s' q n (n + 1)
    {| tip_amount := amount; tip_timestamp := sys_now s + 1; tip_cumulative_tips := c + amount |}.
Proof.
  intros n Hn H. unfold new_tip in H. cinv. conditions. subst. split; simpl; [done|].
  fold n. unfold value_or_zero at 1. rewrite lookup_insert_eq. simpl.
  unfold saturating_add. lia.
Qed.

(** A deposit joins the last tip while nothing was reported after it, or starts
    a new one when there is no tip left to earn. *)
Lemma add_tip_Ok q amount d s u s' :
  let n := value_or_zero (TipCount s) q in
  0 <= n < u32_max -> add_tip q amount d s = (Ok u, s') ->
  (exists old, 0 < n /\ Tips s !! (q, n - 1) = Some old /\
     get_current_tip s q = tip_amount old /\
     tip_written s s' q (n - 1) n
       {| tip_amount := saturating_add u128_max (tip_amount old) amount;
          tip_timestamp := sys_now s + 1;
          tip_cumulative_tips := saturating_add u128_max (tip_cumulative_tips old) amount |}) \/
  (get_current_tip s q = 0 /\ exists c, tip_written s s' q n (n + 1)
     {| tip_amount := amount; tip_timestamp := sys_now s + 1; tip_cumulative_tips := c + amount |}).
Proof.
  intros n Hn H. unfold add_tip in H. unfold_calls. rewrite bind_gets in H. fold n in H.
  unfold get_current_tip. fold n. destruct (Z.eqb_spec n 0) as [Hz|Hz].
  - right. split; [done|]. apply bind_Ok in H as (? & s1 & Ht & Hd).
    apply new_tip_Ok in Ht; [|done]. exists 0. unfold store_data in Hd. cinv. done.
  - cinv. conditions. subst.
    change (default 0 (LastReportedTimestamp s !! q))
      with (value_or_zero (LastReportedTimestamp s) q) in *.
    destruct (Tips s !! (q, n - 1)) as [old|] eqn:Hold.
    + destruct (Z.ltb_spec (value_or_zero (LastReportedTimestamp s) q) (tip_timestamp old)).
      * left. exists old. cinv. conditions. subst. split; [lia|]. done.
      * right. split; [done|]. apply new_tip_Ok in H; [|done]. by eexists.
    + right. split; [done|]. apply new_tip_Ok in H; [|done]. by exists 0.
Qed.

(** The tip that was written last is the current one. *)
Lemma written_current s s' q i tp : 0 <= i -> tip_written s s' q i (i + 1) tp ->
  value_or_zero (LastReportedTimestamp s') q < tip_timestamp tp ->
  get_current_tip s' q = tip_amount tp.
Proof.
  intros Hi [ET EN] Hlt. unfold get_current_tip. rewrite EN, ET.
  rewrite (proj2 (Z.eqb_neq _ _)) by lia. replace (i + 1 - 1) with i by lia.
  rewrite lookup_insert_eq. by rewrite (proj2 (Z.ltb_lt _ _) Hlt).
Qed.

(** The payment of a claim, in balances. *)
Lemma claim_paid_credit {A_laws : AssetLaws cfg_Asset} a a' who amount :
  claim_paid a a' who amount -> who <> tips -> who <> staking_rewards -> tips <> staking_rewards ->
  asset_balance a who + (amount - claim_fee amount) <= asset_balance a' who /\
  asset_balance a staking_rewards + claim_fee amount <= asset_balance a' staking_rewards /\
  asset_balance a' tips <= asset_balance a tips - amount.
Proof.
  intros [Hf (a1 & H1 & H2)] Hwt Hws Hts.
  assert (Htw : tips <> who) by congruence.
  pose proof (transfer_dst _ _ _ _ _ _ H1 Htw). pose proof (transfer_src_le _ _ _ _ _ _ H1 Htw).
  assert (asset_balance a staking_rewards <= asset_balance a1 staking_rewards)
    by (eapply transfer_other; [exact H1|congruence|congruence]).
  destruct (Z.ltb_spec 0 (claim_fee amount)).
  - pose proof (transfer_dst _ _ _ _ _ _ H2 Hts). pose proof (transfer_src_le _ _ _ _ _ _ H2 Hts).
    assert (asset_balance a1 who <= asset_balance a' who)
      by (eapply transfer_other; [exact H2|congruence|congruence]). lia.
  - subst. lia.
Qed.
End Lemmas.

Section Theorems.
Context {T : Config} {Ok_T : ConfigOk T}.
Implicit Types s : State.

(** C14: in every reachable state, a claim of feed tips that succeeds was made by
    the reporter of distinct reports, not disputed, not claimed before and between
    12 hours and 4 weeks old; it pays the sum of their rewards, at most the balance
    of the feed, lowers the balance by what it pays, records the claims, and takes the feed off the funded
    ones exactly when its balance is used up. *)
Theorem claim_tip_pays_reporter origin i q l s u s'
    (Hs : reachable s) (Hrun : claim_tip origin i q l s = (Ok u, s')) :
  exists who f amount, origin = Signed who /\ tips_claimed s s' who i q l f amount.
Proof.
  eapply claim_tip_Ok; [|exact Hrun]. intros f Hf.
  by destruct (fs_feed _ _ (feeds_wf_reachable _ Hs) _ _ Hf).
Qed.

(** Of a claim of [amount], the reporter gets all but the fee, the staking
    rewards get the fee, and the tips account pays no less than the two. *)
Theorem claim_payment_is_split {A_laws : AssetLaws cfg_Asset} who amount s u s'
    (Hwho : who ∉ [tips; staking_rewards]) (Hrun : pay_claim who amount s = (Ok u, s')) :
  asset_balance (sys_assets s) who + (amount - amount * Fee / 1000)
    <= asset_balance (sys_assets s') who /\
  asset_balance (sys_assets s) staking_rewards + amount * Fee / 1000
    <= asset_balance (sys_assets s') staking_rewards /\
  asset_balance (sys_assets s') tips <= asset_balance (sys_assets s) tips - amount.
Proof.
  apply pay_claim_Ok in Hrun as [Hp _]. pose proof sub_accounts_distinct as Hd.
  rewrite !NoDup_cons in Hd. eapply claim_paid_credit; [exact Hp|set_solver..].
Qed.

(** What a report earns from a feed: it is valid, less than 4 weeks old, not
    yet claimed, and the first of its interval within the window (then its reward
    grows with the time since the start of the interval) or it changes the price by
    more than the threshold; never more than the balance. *)
Theorem feed_reward_formula i q t s x s' (Hrun : do_get_reward_amount i q t s = (Ok x, s')) :
  s' = s /\ exists f r, reward_earned s i q t f r /\ x = reward_of f r t.
Proof. by apply do_get_reward_amount_Ok. Qed.

(** A one-time tip is paid once: after a report has claimed its tip, claiming
    again fails. *)
Theorem onetime_tip_claimed_once q t who s x s'
    (Hrun : get_onetime_tip_amount q t who s = (Ok x, s')) :
  get_onetime_tip_amount q t who s' = (Err (PalletError TipAlreadyClaimed), s').
Proof.
  apply get_onetime_tip_amount_Ok in Hrun as (r & i & tp & Hc).
  by eapply get_onetime_tip_amount_again.
Qed.

(** C15: A valid report that claims its one-time tips is paid at least what is left of the
    last tip that is not later than it, and at most the deposits of the tips that were
    made after the previous valid report and up to it. *)
Theorem onetime_tip_within_window q t who s paid s' (Hs : reachable s)
    (Hreports : forall q, report_count s q < u32_max) (Htips : tips_room s)
    (Hn : tip_count s q < 2 ^ 31)
    (Hrun : get_onetime_tip_amount q t who s = (Ok paid, s')) :
  exists r m i tp, Reports s !! (q, t) = Some r /\ rep_reporter r = who /\
    rep_is_disputed r = false /\
    window s q (default 0 (rep_previous r)) t m i /\ Tips s !! (q, i) = Some tp /\
    0 < tip_amount tp <= paid /\ paid <= tip_cumulative_tips tp - tipped_before s q m /\
    s' = upd_Tips <[(q, i) := set_tip_amount 0 tp]> s.
Proof.
  apply get_onetime_tip_amount_Ok in Hrun as (r & i & tp & Hc).
  destruct (tip_claimed_bounds s s' q t who r i tp paid) as (m & Hw & Hlo & Hhi);
    [by apply tips_inv_reachable|done|by apply (oracle_inv_reachable _ Hs)|done|].
  pose proof Hc as []. by exists r, m, i, tp.
Qed.

(** C40: a first tip is lost when the report that should earn it comes after the second tip
    of the query (the reports in between, if any, were disputed) and a valid report was made
    before the first tip.  That report is paid at most the deposits of the tips from the
    second to its last one, although all of them, the first included, were made after the
    previous valid report and up to it; the first tip stays as it is.  And no other valid
    report is paid for it: the first tip is not in the window of any other valid report,
    which is all that a report is paid for.  The numbers of reports and tips and the total
    of the tips have not reached their limits. *)
Theorem first_tip_is_lost q t who s paid s' r p first second (Hs : reachable s)
    (Hreports : forall q, report_count s q < u32_max) (Htips : tips_room s)
    (Hn : tip_count s q < 2 ^ 31)
    (Hr : Reports s !! (q, t) = Some r) (Hprev : rep_previous r = Some p)
    (Hfirst : Tips s !! (q, 0) = Some first) (Hafter : p < tip_timestamp first)
    (Hsecond : Tips s !! (q, 1) = Some second) (Hup : tip_timestamp second <= t)
    (Hrun : get_onetime_tip_amount q t who s = (Ok paid, s')) :
  exists i last, window s q p t 0 i /\ Tips s !! (q, i) = Some last /\
    paid <= tip_cumulative_tips last - tip_cumulative_tips first /\
    Tips s' !! (q, 0) = Some first /\
    forall t' r', t' <> t -> Reports s !! (q, t') = Some r' -> rep_is_disputed r' = false ->
      ~ (default 0 (rep_previous r') < tip_timestamp first <= t').
Proof.
  pose proof (tips_inv_reachable _ Hs Htips) as Hok.
  pose proof (proj2 (oracle_inv_reachable _ Hs) Hreports) as Ho.
  pose proof (tp_order _ _ Hok q 0 1 _ _ ltac:(lia) Hfirst Hsecond) as Hord.
  apply get_onetime_tip_amount_Ok in Hrun as (r' & i & tp & Hc).
  assert (r' = r) as -> by (pose proof (tc_report _ _ _ _ _ _ _ _ _ Hc); congruence).
  destruct (tip_claimed_bounds s s' q t who r i tp paid) as (m & Hw & _); [done..|].
  rewrite Hprev in Hw. change (default 0 (Some p)) with p in Hw. destruct Hw as (Hmi & Hic & Hwin).
  assert (m <= 1 <= i) as Hi by (apply (Hwin 1 second Hsecond); lia).
  assert (m = 0) as -> by (assert (m <= 0 <= i) by (apply (Hwin 0 first Hfirst); lia); lia).
  pose proof (tip_claimed_not_first _ _ _ _ _ _ _ _ _ p Hok Hn Ho Hc Hprev ltac:(lia)) as Hpaid.
  change (tipped_before s q 1) with (default 0 (tip_cumulative_tips <$> Tips s !! (q, 0))) in Hpaid.
  rewrite Hfirst in Hpaid.
  pose proof Hc as [_ Hv _ _ _ _ Htp _ _ E _].
  exists i, tp. split; [exact (conj Hmi (conj Hic Hwin))|]. do 2 (split; [done|]). split.
  - rewrite E. simpl. rewrite lookup_insert_ne; [done|]. intros [= Hk]. lia.
  - intros t' r' Hne Hr' Hv' Hwin'. apply Hne. symmetry.
    assert (Hin : default 0 (rep_previous r) < tip_timestamp first <= t)
      by (rewrite Hprev; simpl; lia).
    eapply windows_disjoint; [exact (Ho q)|by exists r|by exists r'|exact Hin|exact Hwin'].
Qed.

(** C16: of the one-time tips of a query, the claims have never paid more in total than was
    tipped for it: whatever the order of tips, reports, disputes and claims, no deposit
    is paid twice. *)
Theorem onetime_claims_within_tips s q (Hs : reachable s) (Hroom : room s) :
  claimed_ever q s <= tipped_ever q s.
Proof. by apply claims_within_tips. Qed.

(** C13: the tips account can always pay what it owes: once it has the minimum balance
    beside the balances of the feeds and the one-time tips that no claim has paid, it
    has so after every run of calls, hooks and other pallets' doings in which only the
    pallet takes from it. *)
Theorem tips_account_stays_solvent {A_laws : AssetLaws cfg_Asset} s s' (Hs : reachable s)
    (Hrun : rtc (guarded_step tips) s s') (Hroom : room s')
    (H0 : minimum_balance + feeds_total s + unclaimed s <= asset_balance (sys_assets s) tips) :
  minimum_balance + feeds_total s' + unclaimed s' <= asset_balance (sys_assets s') tips /\
  0 <= feeds_total s' /\ 0 <= unclaimed s'.
Proof.
  pose proof (guarded_reachable _ _ _ Hs Hrun) as Hs'.
  pose proof (guarded_run_solvent _ _ Hs Hrun Hroom) as H. unfold covered, tips_owed in H.
  rewrite !Z.add_assoc in H. split; [by apply H|].
  split; [by apply feeds_total_nonneg, feeds_wf_reachable|by apply unclaimed_nonneg].
Qed.

(** In every reachable state the tips of a query are numbered without gaps, in the
    order of their times, none of which is more than a second ahead of the clock, and
    what is left of a tip is at most its deposit. *)
Theorem reachable_tips_ok s (Hs : reachable s) (Htips : tips_room s) : tips_ok s (sys_now s).
Proof. by apply tips_inv_reachable. Qed.

(** The binary search over tips ends within its fuel at the last tip that is
    not later than the time (or at the first tip when all are later), on any range
    of fewer than [2 ^ 31] tips ordered by time. *)
Theorem search_tip_finds_last q t n s
    (Hn : 0 < n < 2 ^ 31)
    (Hsorted : forall i j a b, 0 <= i < j -> j < n -> Tips s !! (q, i) = Some a ->
       Tips s !! (q, j) = Some b -> tip_timestamp a <= tip_timestamp b)
    (Hdense : forall i, 0 <= i < n -> is_Some (Tips s !! (q, i))) :
  exists i, search_tip search_tip_fuel (tip_later_or_missing q t) 0 n s = (Ok i, s) /\
    0 <= i < n /\
    (forall j b, i < j < n -> Tips s !! (q, j) = Some b -> t < tip_timestamp b) /\
    (forall j b, 0 < j <= i -> Tips s !! (q, j) = Some b -> tip_timestamp b <= t).
Proof.
  set (p := fun m => t <? default 0 (tip_timestamp <$> Tips s !! (q, m))).
  destruct (search_tip_correct (tip_later_or_missing q t) p s 0 n) with (fuel := 32%nat) (a := 0) (b := n)
    as (i & Hi & Hr & Hlo & Hhi); try zlia; try (by left).
  { by intros m Hm. }
  exists i. split; [exact Hi|]. split; [done|]. split.
  - intros j b Hj Hb. destruct Hhi as [?|Hhi]; [lia|].
    destruct (Hdense (i + 1)) as [b' Hb']; [lia|]. unfold p in Hhi. rewrite Hb' in Hhi. simpl in Hhi.
    apply Z.ltb_lt in Hhi. destruct (Z.eq_dec j (i + 1)) as [->|]; [congruence|].
    pose proof (Hsorted (i + 1) j b' b ltac:(lia) ltac:(lia) Hb' Hb). lia.
  - intros j b Hj Hb. destruct Hlo as [?|Hlo]; [lia|].
    destruct (Hdense i) as [b' Hb']; [lia|]. unfold p in Hlo. rewrite Hb' in Hlo. simpl in Hlo.
    apply Z.ltb_ge in Hlo. destruct (Z.eq_dec j i) as [->|]; [congruence|].
    pose proof (Hsorted j i b b' ltac:(lia) ltac:(lia) Hb Hb'). lia.
Qed.

(** In every reachable state in which no two feeds share an identifier, the
    funded feeds are exactly those with a balance. *)
Theorem funded_feeds_have_balance s i (Hs : reachable s) (Hd : ids_distinct (DataFeeds s)) :
  i ∈ get_funded_feeds s <->
  exists q f, DataFeeds s !! (q, i) = Some f /\ 0 < feed_balance f.
Proof.
  unfold get_funded_feeds. rewrite elem_of_elements.
  pose proof (feeds_wf_reachable _ Hs) as Hwf. split; [apply (fs_funded _ _ Hwf)|].
  intros (q & f & Hf & Hb). by eapply (fs_complete _ _ Hwf Hd).
Qed.

(** Tipping raises the current tip of the query by the amount, which is
    transferred from the tipper to the tips account. *)
Theorem tip_raises_current_tip origin q amount d s u s'
    (Hn : 0 <= value_or_zero (TipCount s) q < u32_max) (Ha : amount <= u128_max)
    (Hclock : value_or_zero (LastReportedTimestamp s) q <= sys_now s)
    (Hrun : tip origin q amount d s = (Ok u, s')) :
  0 < amount /\ q = keccak256 d /\
  get_current_tip s' q = saturating_add u128_max (get_current_tip s q) amount /\
  exists who, origin = Signed who /\
    asset_transfer (sys_assets s) who tips amount Expendable = inr (sys_assets s').
Proof.
  unfold tip, accrue_user_tips in Hrun. apply bind_Ok in Hrun as (who & s0 & Ho & Hrun).
  apply ensure_signed_Ok in Ho as [-> ->]. cinv. conditions.
  match goal with H : add_tip _ _ _ _ = (_, ?s1) |- _ =>
    pose proof (keeps_run _ _ _ _ _ (beside_tips_add_tip _ _ _) H) as Hk;
    apply add_tip_Ok in H as Ht; [|done]; rename s1 into s2 end.
  unfold beside_tips in Hk. injection Hk as Eo En Ea Eu.
  assert (E4 : get_current_tip s4 q = get_current_tip s2 q /\ sys_assets s4 = sys_assets s2)
    by (destruct (0 <? get_current_tip s2 q); cinv; done).
  destruct E4 as [E4 E5]. rewrite <- Ea, <- E5.
  split; [done|]. split; [done|]. split; [|by exists who].
  etransitivity; [exact E4|]. rewrite <- Eo in Hclock.
  destruct Ht as [(old & Hpos & _ & -> & Hw)|(-> & c & Hw)].
  - set (n := value_or_zero (TipCount s) q) in *.
    assert (Hn1 : n = n - 1 + 1) by lia. rewrite Hn1 in Hw at 2.
    erewrite written_current; [|..|exact Hw|]; simpl; [done|lia|lia].
  - erewrite written_current; [|..|exact Hw|]; simpl; [|lia|lia]. unfold saturating_add. lia.
Qed.
End Theorems.

(** ** Witnesses *)

#[local] Existing Instance Test.
#[local] Existing Instance TestOk.
#[local] Existing Instance MockAssetLaws.

(** A valid report, a tip, a report that is disputed later, another tip, and a
    report that should earn both tips. *)
Definition s_valid : State :=
  call (Signed reporter) (c_submit_value query [x07] 0 query_data) (at_time (T0 + 10) s_staked).
Definition s_tip0 : State :=
  call (Signed tipper) (c_tip query 500 query_data) (at_time (T0 + 20) s_valid).
Definition s_bad : State :=
  call (Signed reporter) (c_submit_value query [x08] 0 query_data) (at_time (T0 + 30000) s_tip0).
Definition s_tip1 : State :=
  call (Signed tipper) (c_tip query 700 query_data) (at_time (T0 + 30005) s_bad).
Definition s_gone : State :=
  call (Signed disputer) (c_begin_dispute query (T0 + 30000) (Some 99)) (at_time (T0 + 30010) s_tip1).
Definition s_good : State :=
  call (Signed reporter) (c_submit_value query [x09] 0 query_data) (at_time (T0 + 60000) s_gone).
Definition s_due : State := at_time (T0 + 110000) s_good.

Lemma reachable_valid : reachable s_valid.
Proof. step_reachable reachable_staked. Qed.
Lemma reachable_tip0 : reachable s_tip0.
Proof. step_reachable reachable_valid. Qed.
Lemma reachable_bad : reachable s_bad.
Proof. step_reachable reachable_tip0. Qed.
Lemma reachable_tip1 : reachable s_tip1.
Proof. step_reachable reachable_bad. Qed.
Lemma reachable_gone : reachable s_gone.
Proof. step_reachable reachable_tip1. Qed.
Lemma reachable_good : reachable s_good.
Proof. step_reachable reachable_gone. Qed.

Lemma claim_tip_pays_reporter_witness :
  let s' := after (claim_tip (Signed reporter) feed1 query [T0 + 30000]) s_claimable in
  exists who f amount, Signed reporter = Signed who /\
    tips_claimed s_claimable s' who feed1 query [T0 + 30000] f amount.
Proof.
  intros s'. apply (claim_tip_pays_reporter (Signed reporter) feed1 query [T0 + 30000] s_claimable tt);
    [exact reachable_claimable|].
  assert (E : fst (claim_tip (Signed reporter) feed1 query [T0 + 30000] s_claimable) = Ok tt) by by_run.
  exact (run_after _ _ _ E).
Defined.

Lemma claim_payment_is_split_witness :
  let s' := after (pay_claim reporter 400) s_claimable in
  asset_balance (sys_assets s_claimable) reporter + (400 - 400 * Fee / 1000)
    <= asset_balance (sys_assets s') reporter /\
  asset_balance (sys_assets s_claimable) staking_rewards + 400 * Fee / 1000
    <= asset_balance (sys_assets s') staking_rewards /\
  asset_balance (sys_assets s') tips <= asset_balance (sys_assets s_claimable) tips - 400.
Proof.
  intros s'. apply (claim_payment_is_split reporter 400 s_claimable tt s').
  - apply (bool_decide_unpack _). by vm_compute.
  - assert (E : fst (pay_claim reporter 400 s_claimable) = Ok tt) by by_run. exact (run_after _ _ _ E).
Defined.

Lemma feed_reward_formula_witness :
  let s' := after (do_get_reward_amount feed1 query (T0 + 30000)) s_claimable in
  s' = s_claimable /\ exists f r, reward_earned s_claimable feed1 query (T0 + 30000) f r /\
    150 = reward_of f r (T0 + 30000).
Proof.
  intros s'. apply (feed_reward_formula feed1 query (T0 + 30000) s_claimable 150 s').
  assert (E : fst (do_get_reward_amount feed1 query (T0 + 30000) s_claimable) = Ok 150) by by_run.
  exact (run_after _ _ _ E).
Defined.

Lemma onetime_tip_claimed_once_witness :
  let s' := after (get_onetime_tip_amount query (T0 + 60000) reporter) s_due in
  get_onetime_tip_amount query (T0 + 60000) reporter s'
    = (Err (PalletError TipAlreadyClaimed), s').
Proof.
  intros s'. apply (onetime_tip_claimed_once query (T0 + 60000) reporter s_due 700 s').
  assert (E : fst (get_onetime_tip_amount query (T0 + 60000) reporter s_due) = Ok 700) by by_run.
  exact (run_after _ _ _ E).
Defined.

Lemma two_tips i : 0 <= i < 2 -> i = 0 \/ i = 1.
Proof. lia. Qed.

Lemma search_tip_finds_last_witness :
  exists i, search_tip search_tip_fuel (tip_later_or_missing query (T0 + 60000)) 0 2 s_due = (Ok i, s_due) /\
    0 <= i < 2 /\
    (forall j b, i < j < 2 -> Tips s_due !! (query, j) = Some b -> T0 + 60000 < tip_timestamp b) /\
    (forall j b, 0 < j <= i -> Tips s_due !! (query, j) = Some b -> tip_timestamp b <= T0 + 60000).
Proof.
  apply search_tip_finds_last; [by_run| |].
  - intros i j a b Hij Hj Ha Hb. assert (i = 0) as -> by lia. assert (j = 1) as -> by lia.
    vm_compute in Ha, Hb. injection Ha as <-. injection Hb as <-. by_run.
  - intros i Hi. apply two_tips in Hi as [->| ->]; (eexists; by_run).
Defined.

(** Distinctness of the identifiers is decidable. *)
Lemma ids_distinct_check (m : gmap (QueryId * FeedId) Feed) :
  bool_decide (map_Forall (fun k _ =>
    map_Forall (fun k' _ => snd k = snd k' -> fst k = fst k') m) m) = true -> ids_distinct m.
Proof.
  intros H q q' i [f Hf] [f' Hf']. apply bool_decide_eq_true in H.
  exact (H (q, i) f Hf (q', i) f' Hf' eq_refl).
Qed.

Lemma funded_feeds_have_balance_witness :
  feed1 ∈ get_funded_feeds s_feed <->
  exists q f, DataFeeds s_feed !! (q, feed1) = Some f /\ 0 < feed_balance f.
Proof.
  apply funded_feeds_have_balance; [exact reachable_feed|].
  apply ids_distinct_check. by_run.
Defined.

Lemma tip_raises_current_tip_witness :
  let s := at_time (T0 + 20) s_valid in
  let s' := after (tip (Signed tipper) query 500 query_data) s in
  0 < 500 /\ query = keccak256 query_data /\
  get_current_tip s' query = saturating_add u128_max (get_current_tip s query) 500 /\
  exists who, Signed tipper = Signed who /\
    asset_transfer (sys_assets s) who tips 500 Expendable = inr (sys_assets s').
Proof.
  intros s s'. apply (tip_raises_current_tip (Signed tipper) query 500 query_data s tt s');
    [by_run|by_run|by_run|].
  assert (E : fst (tip (Signed tipper) query 500 query_data s) = Ok tt) by by_run.
  exact (run_after _ _ _ E).
Defined.

(** The totals of a concrete state. *)
Lemma tips_room_check s :
  map_Forall (fun _ n => n < u32_max) (TipCount s) ->
  map_Forall (fun _ tp => tip_cumulative_tips tp < u128_max) (Tips s) -> tips_room s.
Proof.
  intros Hn Ht q. split; [|unfold tipped_total, tipped_before].
  - unfold tip_count, value_or_zero. destruct (TipCount s !! q) as [n|] eqn:E; [exact (Hn _ _ E)|done].
  - destruct (_ <=? 0); [done|]. destruct (Tips s !! _) as [tp|] eqn:E; [exact (Ht _ _ E)|done].
Qed.

Lemma room_due : tips_room s_due.
Proof. by apply tips_room_check; apply (bool_decide_unpack _); by_run. Qed.

Lemma reachable_due : reachable s_due.
Proof. apply time_reachable; [exact reachable_good|by_run]. Qed.

Lemma onetime_tip_within_window_witness :
  let s' := after (get_onetime_tip_amount query (T0 + 60000) reporter) s_due in
  exists r m i tp, Reports s_due !! (query, T0 + 60000) = Some r /\ rep_reporter r = reporter /\
    rep_is_disputed r = false /\
    window s_due query (default 0 (rep_previous r)) (T0 + 60000) m i /\
    Tips s_due !! (query, i) = Some tp /\
    0 < tip_amount tp <= 700 /\ 700 <= tip_cumulative_tips tp - tipped_before s_due query m /\
    s' = upd_Tips <[(query, i) := set_tip_amount 0 tp]> s_due.
Proof.
  intros s'. apply (onetime_tip_within_window query (T0 + 60000) reporter s_due 700 s').
  - exact reachable_due.
  - intros q. eapply Z.le_lt_trans; [apply (room_from_counts s_due 10)|by_run]; [|by_run].
    apply (bool_decide_unpack _). by_run.
  - exact room_due.
  - by_run.
  - assert (E : fst (get_onetime_tip_amount query (T0 + 60000) reporter s_due) = Ok 700) by by_run.
    exact (run_after _ _ _ E).
Defined.

(** The first tip of 500 and the second of 700, of which the report gets 700. *)
Definition tip_first : Tip := {| tip_amount := 500; tip_timestamp := T0 + 21; tip_cumulative_tips := 500 |}.

Lemma first_tip_is_lost_witness :
  let s' := after (get_onetime_tip_amount query (T0 + 60000) reporter) s_due in
  exists i last, window s_due query (T0 + 10) (T0 + 60000) 0 i /\
    Tips s_due !! (query, i) = Some last /\ 700 <= tip_cumulative_tips last - 500 /\
    Tips s' !! (query, 0) = Some tip_first /\
    forall t' r', t' <> T0 + 60000 -> Reports s_due !! (query, t') = Some r' ->
      rep_is_disputed r' = false ->
      ~ (default 0 (rep_previous r') < T0 + 21 <= t').
Proof.
  intros s'. destruct (Reports s_due !! (query, T0 + 60000)) as [r|] eqn:Hr; [|by vm_compute in Hr].
  destruct (Tips s_due !! (query, 1)) as [second|] eqn:Hsecond; [|by vm_compute in Hsecond].
  eapply (first_tip_is_lost query (T0 + 60000) reporter s_due 700 s' r (T0 + 10) tip_first second).
  - exact reachable_due.
  - intros q. eapply Z.le_lt_trans; [apply (room_from_counts s_due 10)|by_run]; [|by_run].
    apply (bool_decide_unpack _). by_run.
  - exact room_due.
  - by_run.
  - exact Hr.
  - vm_compute in Hr. by injection Hr as <-.
  - by_run.
  - by_run.
  - exact Hsecond.
  - vm_compute in Hsecond. injection Hsecond as <-. by_run.
  - assert (E : fst (get_onetime_tip_amount query (T0 + 60000) reporter s_due) = Ok 700) by by_run.
    exact (run_after _ _ _ E).
Defined.

Lemma reachable_tips_ok_witness : tips_ok s_due (sys_now s_due).
Proof. apply reachable_tips_ok; [exact reachable_due|exact room_due]. Defined.

(** The state after the report of the second tip has claimed it. *)
Definition s_claimed : State :=
  call (Signed reporter) (c_claim_onetime_tip query [T0 + 60000]) s_due.

Example onetime_claims_run : tipped_ever query s_claimed = 1200 /\ claimed_ever query s_claimed = 700.
Proof. split; by_run. Qed.

Lemma reachable_claimed : reachable s_claimed.
Proof. apply call_reachable; [exact reachable_due|by_run..]. Qed.

Lemma room_claimed : room s_claimed.
Proof.
  split; [by apply tips_room_check; apply (bool_decide_unpack _); by_run|]. intros q. split.
  - unfold tip_count, value_or_zero. destruct (TipCount s_claimed !! q) as [n|] eqn:E; [|done].
    assert (H : map_Forall (fun _ n => n < 2 ^ 31) (TipCount s_claimed))
      by (apply (bool_decide_unpack _); by_run).
    exact (H _ _ E).
  - eapply Z.le_lt_trans; [apply (room_from_counts s_claimed 10)|by_run]; [|by_run].
    apply (bool_decide_unpack _). by_run.
Qed.

Lemma onetime_claims_within_tips_witness : claimed_ever query s_claimed <= tipped_ever query s_claimed.
Proof. apply onetime_claims_within_tips; [exact reachable_claimed|exact room_claimed]. Defined.

(** The account holds the minimum balance from the registration on. *)
Example registered_is_solvent : covered tips tips_owed s_registered.
Proof. by_run. Qed.

Lemma tips_account_stays_solvent_witness :
  minimum_balance + feeds_total s_claimed + unclaimed s_claimed
    <= asset_balance (sys_assets s_claimed) tips /\
  0 <= feeds_total s_claimed /\ 0 <= unclaimed s_claimed.
Proof.
  apply (tips_account_stays_solvent s_due s_claimed).
  - exact reachable_due.
  - apply rtc_once, call_guarded; by_run.
  - exact room_claimed.
  - by_run.
Defined.
