(* ===== verification/PalletTheorems.v ===== *)
(** * Theorems on the pallet as a whole

    The invariants of the reachable states, the absence of panics, who can change
    stakes, the hook that runs in every block, the origins of the controller
    contracts, and the client of the interface for other pallets. *)

From S2P Require Import Prelude Types Config Storage Oracle OracleFacts Mock Queries Xcm.
From S2P Require Import Governance GovernanceFacts Staking StakingFacts Autopay UsingTellor.
From S2P Require Import UsingTellorFacts Pallet PalletFacts AutopayFacts RunLogic SafetyFacts.
From S2P Require Import WidthFacts Scenario.

(** ** Lemmas *)

Section Lemmas.
Context {T : Config} {Ok_T : ConfigOk T}.
Implicit Types s : State.

Definition prices s :=
  (StakeAmount s, DisputeFee s, LastStakeAmountUpdate s).

Lemma prices_send_contract_call c d g e : keeps prices (send_contract_call c d g e).
Proof. unfold send_contract_call, bounded_input, transact, send_xcm. solve_keeps. Qed.

#[local] Hint Resolve prices_send_contract_call : frame.

Lemma prices_send_vote i r : keeps prices (send_vote i r).
Proof. unfold send_vote. solve_keeps. Qed.

#[local] Hint Resolve prices_send_vote : frame.

Lemma prices_do_send_votes t n : keeps prices (do_send_votes t n).
Proof. unfold do_send_votes. solve_keeps. Qed.

Lemma sent_do_update_stake_amount : keeps (fun s => sys_sent s) do_update_stake_amount.
Proof. unfold do_update_stake_amount. solve_keeps. Qed.
Lemma sent_update_dispute_fee : keeps (fun s => sys_sent s) update_dispute_fee.
Proof. unfold update_dispute_fee. solve_keeps. Qed.

Lemma update_prices_Ok t s n m s' : update_prices t s = (Ok (n, m), s') ->
  repriced s s' /\ LastStakeAmountUpdate s' = t /\ sys_sent s' = sys_sent s.
Proof.
  intros H. apply transactional_Ok in H. apply bind_Ok in H as (a & s1 & H1 & H).
  apply bind_Ok in H as (b & s2 & H2 & H). cinv.
  pose proof (keeps_run _ _ _ _ _ sent_do_update_stake_amount H1) as E1.
  pose proof (keeps_run _ _ _ _ _ sent_update_dispute_fee H2) as E2.
  split; [exact (reprice_Ok _ _ _ _ _ H1 H2)|]. split; [done|]. simpl in *. congruence.
Qed.

(** What a staker holds. *)
Definition holdings s (a : AccountId) : option (Tributes * Tributes) :=
  (fun i => (stk_staked_balance i, stk_locked_balance i)) <$> StakerDetails s !! a.

(** A call from another origin than the staking contract's keeps the stakes. *)
Lemma other_calls_keep_stakes origin c s u s' a : StakingOrigin origin = false ->
  call_body origin c s = (Ok u, s') ->
  holdings s' a = holdings s a /\ TotalStakeAmount s' = TotalStakeAmount s /\
  ToWithdraw s' = ToWithdraw s.
Proof.
  intros Ho Hrun.
  destruct (call_kinds c) as [Hc|[Hc|[Hc|[(q & v & n & d & ->)|(q & t & b & ->)]]]].
  - pose proof (keeps_run _ _ _ _ _ (keeps_core origin c Hc) Hrun) as Hk.
    unfold core, stakes in Hk. unfold holdings. split_pairs. split; [congruence|done].
  - destruct c; try done; unfold call_body, report_stake_deposited,
      report_staking_withdraw_request, report_stake_withdrawn, report_slash, ensure_origin,
      bind, ensure in Hrun; rewrite Ho in Hrun; done.
  - pose proof (keeps_run _ _ _ _ _ (keeps_clock_stakes origin c Hc) Hrun) as Hk.
    unfold clock_stakes, stakes in Hk. unfold holdings. split_pairs. split; [congruence|done].
  - apply submit_value_Ok in Hrun as (who & st & _ & Hs). rewrite (sb_effect _ _ _ _ _ _ _ _ Hs).
    split; [|done]. unfold holdings. simpl. destruct (decide (who = a)) as [->|Hne].
    + by rewrite lookup_insert_eq, (sb_staker _ _ _ _ _ _ _ _ Hs).
    + by rewrite lookup_insert_ne.
  - unfold call_body, void in Hrun. cinv.
    match goal with H : begin_dispute _ _ _ _ _ = _ |- _ =>
      apply begin_dispute_Ok in H as (? & ? & ? & ? & ? & _ & Hd) end.
    pose proof (ds_staking _ _ _ _ _ _ _ _ _ Hd) as E. unfold holdings. by rewrite E.
Qed.
End Lemmas.

Section Theorems.
Context {T : Config} {Ok_T : ConfigOk T}.
Implicit Types s : State.

(** C3: in every reachable state (while a query has fewer reports than a 32-bit
    index) the reports of every query are dense and ordered by time, the values are
    those of the valid reports, the last reported timestamp and the links to the
    previous report skip the disputed ones. *)
Theorem reachable_oracle_wf s (Hs : reachable s) (Hroom : forall q, report_count s q < u32_max) :
  oracle_wf s (sys_now s).
Proof. by apply (oracle_inv_reachable _ Hs). Qed.

(** C2: in every reachable state the total stake and the total reward debt are the
    sums over the stakers, what is to be withdrawn is at most the sum of the locked
    balances, and each staker is well formed: its amounts are not negative, and without a
    stake it has no reward debt.  While there are no more stakers than 64 bits count, the
    number of stakers is that of the stakers whose flag [staked] is set.  The flag is of the
    last change of the stake, by the stake amount of that time: after the stake amount has
    changed, the number need not be that of the stakers that hold it. *)
Theorem reachable_stakes_add_up s (Hs : reachable s) :
  TotalStakeAmount s = map_sum stk_staked_balance (StakerDetails s) /\
  TotalRewardDebt s = map_sum stk_reward_debt (StakerDetails s) /\
  0 <= ToWithdraw s <= map_sum stk_locked_balance (StakerDetails s) /\
  (Z.of_nat (size (StakerDetails s)) <= u64_max ->
     TotalStakers s = map_sum counted (StakerDetails s)) /\
  forall a i, StakerDetails s !! a = Some i -> staker_ok i.
Proof. by destruct (staking_wf_reachable _ Hs). Qed.

(** C4: in every reachable state the rounds of a dispute are numbered from 1 to at
    most 20, a tallied round has a result, only the last round can be executed and
    only after its tally, and a pending vote is an unsent vote of the last round. *)
Theorem reachable_disputes_wf s (Hs : reachable s) : disputes_wf s.
Proof. by apply disputes_wf_reachable. Qed.

(** C1: no call panics in a reachable state, and neither does the hook: every
    [expect] in the calls is justified.  A deposit must keep the stake of the
    reporter within 256 bits, the fee location must be encodable for [register], and
    the local currency has at most 18 decimals. *)
Theorem calls_never_panic s origin c (Hs : reachable s) (Hd : Decimals <= 18)
    (Hc : call_bounded s c) :
  fst (dispatch origin c s) <> Panic /\ fst (on_initialize s) <> Panic.
Proof.
  pose proof (ranges_reachable _ Hs) as Hr. split.
  - pose proof (wp_transactional _ _ _ Hr (call_runs (stuck := False) (or_intror Hd) origin c s Hr Hc)) as Hw.
    unfold dispatch, wp in *. by destruct (transactional (call_body origin c) s) as [[]].
  - pose proof (safe_on_initialize (stuck := False) s Hr) as Hw. unfold wp in Hw.
    by destruct (on_initialize s) as [[]].
Qed.

(** C5: in every reachable state every integer that storage holds as a value or in a field of
    one is in the range of the type of its storage item or field (the keys of the maps and
    the block numbers, but for the times of reports, are not part of the statement): the timestamps, the indices, counts and rounds, the
    balances and rates, the amounts of the staking token and the addresses of stakers. *)
Theorem reachable_storage_typed s (Hs : reachable s) : typed s.
Proof. by apply typed_reachable. Qed.

(** C30: what a staker holds (stake and locked balance), the total stake and what is to be
    withdrawn change only in calls from the origin of the staking contract: not in any call
    from another origin, whether it succeeds or fails, and not in the hook. *)
Theorem only_staking_changes_stakes s s' a
    (Hrun : (exists origin c r, StakingOrigin origin = false /\
               dispatch origin c s = (r, s') /\ r <> Panic) \/
            (exists r, on_initialize s = (r, s') /\ r <> Panic)) :
  holdings s' a = holdings s a /\ TotalStakeAmount s' = TotalStakeAmount s /\
  ToWithdraw s' = ToWithdraw s.
Proof.
  destruct Hrun as [(origin & c & [u|e|] & Ho & Hrun & Hr)|(r & Hrun & Hr)]; [| |done|].
  - apply transactional_Ok in Hrun. by eapply other_calls_keep_stakes.
  - apply transactional_Err in Hrun. by subst.
  - apply on_initialize_run in Hrun as (s1 & v & Hc & Hv); [|done].
    pose proof (keeps_run _ _ _ _ _ (clock_stakes_do_send_votes _ _) Hv) as Hk.
    unfold core, clock_stakes, stakes in *. unfold holdings. split_pairs. split; [congruence|split; congruence].
Qed.

(** C24: in every reachable state and for every number of decimals the hook succeeds:
    an error in it is dropped, and no [expect] in it fails.  It sends at most three
    votes, and either updates both the stake amount and the dispute fee from their
    prices, once the interval has passed, or neither (as when the dispute fee does not fit
    the decimals of the local currency). *)
Theorem on_initialize_total s (Hs : reachable s) :
  exists n m v s', on_initialize s = (Ok (n, m, v), s') /\ 0 <= v <= 3 /\
    Z.of_nat (length (sys_sent s')) <= Z.of_nat (length (sys_sent s)) + 3 /\
    (prices s' = prices s \/
     (update_due s = true /\ LastStakeAmountUpdate s' = sys_now s /\ repriced s s')).
Proof.
  pose proof (safe_on_initialize (stuck := False) s (ranges_reachable _ Hs)) as Hw. unfold wp in Hw.
  destruct (on_initialize s) as [r s'] eqn:H.
  assert (Hr : r <> Panic) by (by destruct r).
  destruct (on_initialize_cases _ _ _ H Hr) as (s1 & n & m & v & -> & Hv & Hp).
  pose proof (keeps_run _ _ _ _ _ (prices_do_send_votes _ _) Hv) as Hk.
  apply do_send_votes_Ok in Hv as [-> Hsent]. pose proof (sa_sent _ _ _ Hsent) as Hlen.
  rewrite length_take in *.
  change (Z.to_nat MAX_AGGREGATE_VOTES_SENT_PER_BLOCK) with 3%nat in *.
  exists n, m. eexists _, s'. split; [done|]. split; [zlia|].
  destruct Hp as [(-> & _)|[Hdue Hp]]; [split; [lia|by left]|].
  apply update_prices_Ok in Hp as (Hrep & Hlast & Hs1). rewrite Hs1 in Hlen.
  split; [lia|]. right. unfold prices in Hk. injection Hk as E1 E2 E3.
  split; [done|]. split; [congruence|].
  destruct Hrep as (p & p' & Hp & Hp' & Es & Ef). exists p, p'. rewrite E1, E2. done.
Qed.

(** A message gets the origin of a controller contract only from the location
    of that contract, as a sovereign account: distinct contracts have distinct
    locations. *)
Theorem origin_only_from_contract loc loc' o r kind :
  LocationToOrigin_convert loc o (location_of_contract loc') kind = inl r <->
  kind = SovereignAccount /\ loc' = loc /\ r = o.
Proof.
  unfold LocationToOrigin_convert. split.
  - destruct kind; try done. intros H.
    match type of H with (if bool_decide ?P then _ else _) = _ =>
      destruct (bool_decide_reflect P) as [E|] end; [|done].
    injection H as <-. destruct loc, loc'. unfold location_of_contract in E. simpl in E.
    injection E as -> -> ->. done.
  - intros (-> & -> & ->). by rewrite bool_decide_true.
Qed.
End Theorems.

(** The client of the interface, over any implementation with the laws. *)
Section Client.
Context {S : Type} {U : UsingTellor S} {ok : S -> Prop}
  {hist : S -> QueryId -> list (Timestamp * Value)} {Laws : UsingTellorLaws U ok hist}.

(** C37: the price of the sample client is the last valid value more than 15 minutes
    old, as a number, when it is less than a day old. *)
Theorem get_price_is_recent st q (Hok : ok st) :
  Sample.get_price st q =
    ('(t, v) ← last (filter (fun p => fst p < saturating_sub (ut_now st) (15 * MINUTES))
                       (hist st q));
     if saturating_sub (ut_now st) t <? 24 * HOURS then ut_bytes_to_uint v else None).
Proof.
  unfold Sample.get_price. rewrite (data_before_law st q _ Hok).
  by destruct (last _) as [[t v]|].
Qed.
End Client.

(** ** Witnesses *)

#[local] Existing Instance Test.
#[local] Existing Instance TestOk.

Lemma reachable_oracle_wf_witness : oracle_wf s_disputed (sys_now s_disputed).
Proof. exact (reachable_oracle_wf s_disputed reachable_disputed room_disputed). Defined.

Lemma reachable_stakes_add_up_witness :
  TotalStakeAmount s_disputed = map_sum stk_staked_balance (StakerDetails s_disputed) /\
  TotalRewardDebt s_disputed = map_sum stk_reward_debt (StakerDetails s_disputed) /\
  0 <= ToWithdraw s_disputed <= map_sum stk_locked_balance (StakerDetails s_disputed) /\
  (Z.of_nat (size (StakerDetails s_disputed)) <= u64_max ->
     TotalStakers s_disputed = map_sum counted (StakerDetails s_disputed)) /\
  forall a i, StakerDetails s_disputed !! a = Some i -> staker_ok i.
Proof. exact (reachable_stakes_add_up s_disputed reachable_disputed). Defined.

Lemma reachable_disputes_wf_witness : disputes_wf s_tallied.
Proof. exact (reachable_disputes_wf s_tallied reachable_tallied). Defined.

Lemma reachable_storage_typed_witness : typed s_tallied.
Proof. exact (reachable_storage_typed s_tallied reachable_tallied). Defined.

Lemma calls_never_panic_witness :
  let c := c_report_stake_deposited reporter (250 * TRB) 17 in
  fst (dispatch (TellorOrigin Staking) c s_report2) <> Panic /\
  fst (on_initialize s_report2) <> Panic.
Proof.
  intros c. apply (calls_never_panic s_report2 (TellorOrigin Staking) c reachable_report2); by_run.
Defined.

Lemma only_staking_changes_stakes_witness :
  let s1 := call (Signed disputer) (c_begin_dispute query (T0 + 10) (Some 99)) s_report2 in
  let s2 := after on_initialize s_to_tally in
  (holdings s1 reporter = holdings s_report2 reporter /\
   TotalStakeAmount s1 = TotalStakeAmount s_report2 /\ ToWithdraw s1 = ToWithdraw s_report2) /\
  holdings s2 reporter = holdings s_to_tally reporter /\
  TotalStakeAmount s2 = TotalStakeAmount s_to_tally /\ ToWithdraw s2 = ToWithdraw s_to_tally.
Proof.
  intros s1 s2. split; apply only_staking_changes_stakes; [left|right].
  - assert (E : fst (dispatch (Signed disputer) (c_begin_dispute query (T0 + 10) (Some 99)) s_report2)
                = Ok tt) by by_run.
    do 3 eexists. split; [|split; [exact (run_after _ _ _ E)|done]]. by_run.
  - assert (E : fst (on_initialize s_to_tally) = Ok (0, 0, 1)) by by_run.
    eexists. split; [exact (run_after _ _ _ E)|done].
Defined.

Lemma on_initialize_total_witness :
  exists n m v s', on_initialize s_to_tally = (Ok (n, m, v), s') /\ 0 <= v <= 3 /\
    Z.of_nat (length (sys_sent s')) <= Z.of_nat (length (sys_sent s_to_tally)) + 3 /\
    (prices s' = prices s_to_tally \/
     (update_due s_to_tally = true /\ LastStakeAmountUpdate s' = sys_now s_to_tally /\
      repriced s_to_tally s')).
Proof.
  apply on_initialize_total, time_reachable; [exact reachable_voted|by_run].
Defined.

Lemma tellor_ok_disputed : tellor_ok s_disputed.
Proof. split; [exact wf_disputed|]. intros q. pose proof (few_reports s_disputed ltac:(by_run) q). lia. Qed.

Lemma get_price_is_recent_witness :
  Sample.get_price s_disputed query =
    ('(t, v) ← last (filter (fun p => fst p < saturating_sub (ut_now s_disputed) (15 * MINUTES))
                       (history s_disputed query));
     if saturating_sub (ut_now s_disputed) t <? 24 * HOURS then ut_bytes_to_uint v else None).
Proof.
  exact (get_price_is_recent (U := PalletUsingTellor) (Laws := PalletUsingTellorLaws)
           s_disputed query tellor_ok_disputed).
Defined.
