(* ===== verification/RuntimeApiTheorems.v ===== *)
(** * Theorems on the runtime API

    The lists of funded feeds and tips are complete and consistent with the storage,
    and the reward the API quotes for some reports is what a claim of them pays. *)

From S2P Require Import Prelude Types Config Storage Oracle OracleFacts Mock Queries Xcm.
From S2P Require Import Governance GovernanceFacts Staking StakingFacts Autopay RuntimeApi.
From S2P Require Import Pallet PalletFacts AutopayFacts FundingFacts DirectoryFacts SafetyFacts.
From S2P Require Import Scenario.

#[local] Set Warnings "-clear-no-such-hyp".

(** ** Lemmas *)

Section Lemmas.
Context {T : Config} {Ok_T : ConfigOk T}.
Implicit Types s : State.

(** What the reward of a report depends on. *)
Definition reward_inputs (i : FeedId) (q : QueryId) (t : Timestamp) s :=
  (sys_now s, DataFeeds s, Reports s, ReportedValuesByTimestamp s,
   bool_decide ((q, i, t) ∈ DataFeedRewardClaimed s)).

Ltac solve_reads :=
  unfold_calls; cbv zeta;
  repeat (intros; lazymatch goal with
  | |- reads_only _ (bind _ _) => apply reads_bind; [|solve [solve_keeps]|]
  | |- reads_only _ (gets _) => apply reads_gets
  | |- reads_only _ (let _ := _ in _) => cbv zeta
  | |- reads_only _ (if ?b then _ else _) => destruct b
  | |- reads_only _ (match ?x with _ => _ end) => destruct x
  | |- reads_only _ _ => solve [auto with frame]
  | H : reward_inputs _ _ _ _ = _ |- _ = _ =>
      unfold reward_inputs in H; split_pairs; simpl; congruence
  end).

Lemma reads_price_change i q t f b : reads_only (reward_inputs i q t) (price_change f q t b).
Proof. unfold price_change, price_change_between. solve_reads. Qed.

#[local] Hint Resolve reads_price_change : frame.

Lemma keeps_price_change {X} (g : State -> X) f q t b : keeps g (price_change f q t b).
Proof. unfold price_change, price_change_between. solve_keeps. Qed.

#[local] Hint Resolve keeps_price_change : frame.

Lemma reads_do_get_reward_amount i q t :
  reads_only (reward_inputs i q t) (do_get_reward_amount i q t).
Proof. unfold do_get_reward_amount. solve_reads. Qed.

(** A reward that could be claimed later in a claim could be claimed at its start. *)
Lemma reward_at_start i q t s s1 x s' :
  beside_claims s1 = beside_claims s -> DataFeedRewardClaimed s ⊆ DataFeedRewardClaimed s1 ->
  do_get_reward_amount i q t s1 = (Ok x, s') -> do_get_reward_amount i q t s = (Ok x, s).
Proof.
  intros Hb Hsub H. pose proof H as H1. apply do_get_reward_amount_Ok in H1 as (_ & f & r & He & _).
  assert (E : reward_inputs i q t s1 = reward_inputs i q t s).
  { pose proof (re_unclaimed _ _ _ _ _ _ He) as Hu. unfold beside_claims in Hb.
    unfold reward_inputs. split_pairs.
    rewrite !bool_decide_eq_false_2 by (clear -Hsub Hu; set_solver). congruence. }
  apply reads_do_get_reward_amount in E. rewrite H in E. simpl in E.
  pose proof (keeps_do_get_reward_amount id i q t s) as Hk. unfold id in Hk.
  destruct (do_get_reward_amount i q t s) as [r0 s0]. simpl in *. congruence.
Qed.

(** The loop of the quote. *)
Definition quote_all (i : FeedId) (q : QueryId) : Balance -> list Timestamp -> Call Balance :=
  foldM (fun acc timestamp =>
    let* reward := attempt (do_get_reward_amount i q timestamp) in
    ret (saturating_add u128_max acc (default 0 reward))).

(** It follows the loop of a claim, which stops at the balance [b]. *)
Lemma quote_follows_claim who i q b all f l : 0 <= b <= u128_max -> feed_ok f ->
  forall c s c' s' s0 acc,
  DataFeeds s0 !! (q, i) = Some f ->
  beside_claims s = beside_claims s0 -> DataFeedRewardClaimed s0 ⊆ DataFeedRewardClaimed s ->
  0 <= acc -> c = Z.min b acc ->
  foldM (claim_timestamp who i q b all) c l s = (Ok c', s') ->
  exists acc', quote_all i q acc l s0 = (Ok acc', s0) /\ 0 <= acc' /\ c' = Z.min b acc'.
Proof.
  intros Hb Hok. induction l as [|t l IH]; intros c s c' s' s0 acc Hf Hbe Hsub Hacc Hc H;
    cbn [foldM quote_all] in *.
  - apply ret_Ok in H as [-> ->]. by exists acc.
  - apply bind_Ok in H as (c1 & s1 & H1 & H).
    assert (Hrun : exists x s2, do_get_reward_amount i q t s = (Ok x, s2))
      by (unfold claim_timestamp in H1; cinv; eauto).
    destruct Hrun as (x & s2 & Hrun).
    pose proof (reward_at_start _ _ _ _ _ _ _ Hbe Hsub Hrun) as Hstart.
    pose proof Hstart as Hx. apply do_get_reward_amount_Ok in Hx as (_ & f' & r' & He' & Hx).
    apply claim_timestamp_Ok in H1 as (f1 & r & He & _ & _ & Hc1 & _ & _ & HD & Hk).
    assert (f' = f) as -> by (pose proof (re_feed _ _ _ _ _ _ He'); congruence).
    unfold beside_claims in Hbe. split_pairs.
    assert (f1 = f) as ->.
    { pose proof (re_feed _ _ _ _ _ _ He) as E. congruence. }
    assert (r' = r) as ->.
    { pose proof (re_report _ _ _ _ _ _ He). pose proof (re_report _ _ _ _ _ _ He'). congruence. }
    pose proof (reward_of_nonneg f r t Hok (proj2 (re_interval _ _ _ _ _ _ He'))) as Hpos.
    assert (Hstep : (let* reward := attempt (do_get_reward_amount i q t) in
      ret (saturating_add u128_max acc (default 0 reward))) s0
      = (Ok (saturating_add u128_max acc x), s0)) by (unfold bind, attempt; by rewrite Hstart).
    rewrite (bind_run _ _ _ _ _ Hstep).
    eapply (IH c1 s1); [exact Hf|etransitivity; [exact Hk|]; unfold beside_claims; congruence
      |rewrite HD; set_solver|..|exact H].
    + unfold saturating_add. simpl. zlia.
    + subst x c1 c. simpl. unfold saturating_add. lia.
Qed.

(** Every element is found. *)
Lemma omap_length_full {A B} (g : A -> option B) (l : list A) :
  (forall a, a ∈ l -> is_Some (g a)) -> length (omap g l) = length l.
Proof.
  induction l as [|a l IH]; intros Hg; [done|]. simpl. destruct (Hg a) as [b Hb]; [by left|].
  rewrite Hb. simpl. f_equal. apply IH. intros x Hx. apply Hg. by right.
Qed.

(** What a claim runs: its loop, and a payment within the balances. *)
Lemma claim_tip_loop origin i q l s u s' f : DataFeeds s !! (q, i) = Some f ->
  claim_tip origin i q l s = (Ok u, s') ->
  exists who c s1, foldM (claim_timestamp who i q (feed_balance f) l) 0 l s = (Ok c, s1) /\
    0 <= c * Fee <= u128_max.
Proof.
  intros Hf H. unfold claim_tip, pay_claim in H. cinv. conditions. simplify_eq. eauto 10.
Qed.
End Lemmas.

Section Theorems.
Context {T : Config} {Ok_T : ConfigOk T}.
Implicit Types s : State.

(** C33: while no two feeds have the same identifier (identifiers are Keccak hashes, so that
    would be a collision), the funded feeds listed by the API are exactly the feeds with a
    balance, each with the data whose hash is the identifier of its query, and none is left
    out for missing data. *)
Theorem funded_feed_details_complete s (Hs : reachable s) (Hd : ids_distinct (DataFeeds s)) :
  length (api_get_funded_feed_details s) = length (api_get_funded_feeds s) /\
  forall v, v ∈ api_get_funded_feed_details s <->
    exists q i, DataFeeds s !! (q, i) = Some (details v) /\ 0 < feed_balance (details v) /\
      QueryData s !! q = Some (fd_query_data v) /\ keccak256 (fd_query_data v) = q.
Proof.
  pose proof (directory_ok_reachable _ Hs) as Hdir. pose proof (feeds_wf_reachable _ Hs) as Hwf.
  assert (Hfind : forall i, i ∈ get_funded_feeds s -> exists q f d,
    QueryIdFromDataFeedId s !! i = Some q /\ DataFeeds s !! (q, i) = Some f /\
    0 < feed_balance f /\ QueryData s !! q = Some d).
  { unfold get_funded_feeds. intros i Hi. apply elem_of_elements, (fs_funded _ _ Hwf) in Hi as (q & f & Hf & Hb).
    destruct (dir_data _ Hdir q i) as [d Hq]; [by eexists|]. exists q, f, d.
    split; [|done]. apply (dir_query _ Hdir Hd). by eexists. }
  unfold api_get_funded_feed_details, api_get_funded_feeds. simpl. rewrite length_fmap. split.
  - unfold get_funded_feed_details. apply omap_length_full. intros i Hi.
    destruct (Hfind i Hi) as (q & f & d & Hq & Hf & _ & HQ).
    unfold get_data_feed, get_query_id_from_feed_id, get_query_data.
    rewrite Hq. simpl. rewrite Hf. simpl. rewrite HQ. by eexists.
  - intros v. rewrite list_elem_of_fmap. unfold get_funded_feed_details.
    setoid_rewrite list_elem_of_omap. split.
    + intros ([f d] & -> & i & Hi & Hv). destruct (Hfind i Hi) as (q & f' & d' & Hq & Hf & Hb & HQ).
      unfold get_data_feed, get_query_id_from_feed_id, get_query_data in Hv.
      rewrite Hq in Hv. simpl in Hv. rewrite Hf in Hv. simpl in Hv. rewrite HQ in Hv. simplify_eq/=.
      exists q, i. repeat split; try done. symmetry. by apply (dir_hash _ Hdir).
    + intros (q & i & Hf & Hb & HQ & _). exists (details v, fd_query_data v).
      split; [by destruct v|]. exists i. split.
      * unfold get_funded_feeds. apply elem_of_elements. by eapply (fs_complete _ _ Hwf Hd).
      * assert (Hq : QueryIdFromDataFeedId s !! i = Some q)
          by (apply (dir_query _ Hdir Hd); by eexists).
        unfold get_data_feed, get_query_id_from_feed_id, get_query_data.
        rewrite Hq. simpl. rewrite Hf. simpl. by rewrite HQ.
Qed.

(** C32: what the API quotes as the reward of some reports is what claiming them pays
    the reporter, after the fee. *)
Theorem quote_is_what_claim_pays origin i q l s u s' (Hs : reachable s)
    (Hl : Z.of_nat (length l) <= MaxClaimTimestamps)
    (Hrun : claim_tip origin i q l s = (Ok u, s')) :
  exists who amount, origin = Signed who /\
    api_get_reward_amount s i q l = Some (amount - claim_fee amount) /\
    claim_paid (sys_assets s) (sys_assets s') who amount.
Proof.
  pose proof (feeds_wf_reachable _ Hs) as Hwf.
  pose proof Hrun as Hc. apply claim_tip_Ok in Hc as (who & f & n & -> & Hc).
  2: { intros f Hf. by destruct (fs_feed _ _ Hwf _ _ Hf). }
  pose proof (tcl_feed _ _ _ _ _ _ _ _ Hc) as Hf.
  destruct (fs_feed _ _ Hwf _ _ Hf) as [Hok Hb _].
  destruct (claim_tip_loop _ _ _ _ _ _ _ _ Hf Hrun) as (who' & c & s1 & Hloop & Hfee).
  assert (Hbal : 0 <= feed_balance f <= u128_max) by (split; [apply Hok|done]).
  pose proof (claim_all_Ok _ _ _ _ _ _ _ _ _ _ _ ltac:(split; [done|apply Hbal]) (proj2 Hbal) Hf Hok Hloop) as Hall.
  assert (c = n) as -> by (rewrite (tcl_amount _ _ _ _ _ _ _ _ Hc), (ca_sum _ _ _ _ _ _ _ _ _ _ Hall);
    f_equal; lia).
  destruct (quote_follows_claim who' i q _ l f l Hbal Hok 0 s n s1 s 0) as (acc & Hq & Hacc & Hn);
    try done; [lia|].
  exists who, n. split; [done|]. split; [|apply Hc].
  unfold api_get_reward_amount. simpl. unfold returned, get_reward_amount. unfold_calls.
  rewrite bind_gets, Hf, take_ge by lia.
  rewrite (bind_run _ _ _ _ _ Hq). simpl.
  assert ((if feed_balance f <? acc then feed_balance f else acc) = n) as ->
    by (destruct (Z.ltb_spec (feed_balance f) acc); lia).
  f_equal. unfold claim_fee, saturating_sub, saturating_mul. 
  pose proof (cp_fee _ _ _ _ (tcl_paid _ _ _ _ _ _ _ _ Hc)). unfold claim_fee in *.
  rewrite (Z.min_r _ (n * Fee)) by lia. lia.
Qed.

(** The API lists every query marked as tipped, with the data that hashes to it
    and its current tip; it has been tipped. *)
Theorem tipped_queries_listed s (Hs : reachable s) :
  length (api_get_funded_single_tips_info s) = length (api_get_funded_query_ids s) /\
  forall v, v ∈ api_get_funded_single_tips_info s ->
    let q := keccak256 (st_query_data v) in
    q ∈ api_get_funded_query_ids s /\ QueryData s !! q = Some (st_query_data v) /\
    0 < api_get_past_tip_count s q /\ st_tip v = api_get_current_tip s q.
Proof.
  pose proof (directory_ok_reachable _ Hs) as Hdir.
  assert (Hfind : forall q, q ∈ get_funded_query_ids s ->
    0 < get_past_tip_count s q /\ is_Some (QueryData s !! q)).
  { unfold get_funded_query_ids. intros q Hq. apply elem_of_elements, (dir_funded _ Hdir) in Hq.
    split; [done|]. by apply (dir_tips _ Hdir). }
  unfold api_get_funded_single_tips_info, api_get_funded_query_ids. simpl.
  rewrite length_fmap. split.
  - apply omap_length_full. intros q Hq. destruct (Hfind q Hq) as [_ [d Hd]].
    unfold get_query_data. rewrite Hd. by eexists.
  - intros v Hv. apply list_elem_of_fmap in Hv as ([d n] & -> & Hv).
    apply list_elem_of_omap in Hv as (q & Hq & Hv). destruct (Hfind q Hq) as [Hn [d' Hd]].
    unfold get_query_data in Hv. rewrite Hd in Hv. simplify_eq/=.
    by rewrite <- (dir_hash _ Hdir _ _ Hd).
Qed.
End Theorems.

(** ** Witnesses *)

#[local] Existing Instance Test.
#[local] Existing Instance TestOk.

(** A second tip, earned by a second report, the claim of the first, and the dispute of
    the second report. *)
Definition s_more : State :=
  call (Signed tipper) (c_tip query 700 query_data) (at_time (T0 + 20) s_report1).
Definition s_earned : State :=
  call (Signed reporter) (c_submit_value query [x09] 0 query_data) (at_time (T0 + 30000) s_more).
Definition s_paid : State :=
  call (Signed reporter) (c_claim_onetime_tip query [T0 + 10]) (at_time (T0 + 50000) s_earned).
Definition s_current : State :=
  call (Signed disputer) (c_begin_dispute query (T0 + 30000) (Some 99)) (at_time (T0 + 60000) s_paid).

Lemma reachable_more : reachable s_more.
Proof. step_reachable reachable_report1. Qed.
Lemma reachable_earned : reachable s_earned.
Proof. step_reachable reachable_more. Qed.
Lemma reachable_paid : reachable s_paid.
Proof. step_reachable reachable_earned. Qed.
Lemma reachable_current : reachable s_current.
Proof. step_reachable reachable_paid. Qed.

(** The list of queries with tips lags behind the current tips.  A query is still
    listed, with no tip, after a report earned it; and claiming an earlier report takes
    a query off the list until it is tipped again, even if the later report that earned
    its last tip is then disputed, which makes that tip current again. *)
Theorem listed_tips_lag :
  reachable s_report1 /\ reachable s_current /\
  api_get_current_tip s_report1 query = 0 /\
  api_get_funded_single_tips_info s_report1
    = [{| st_query_data := query_data; st_tip := 0 |}] /\
  api_get_current_tip s_current query = 700 /\
  api_get_funded_single_tips_info s_current = [].
Proof.
  split; [exact reachable_report1|]. split; [exact reachable_current|]. repeat split; by_run.
Qed.

Lemma distinct_feeds s : bool_decide (map_Forall (fun k _ => map_Forall (fun k' _ =>
  snd k = snd k' -> fst k = fst k') (DataFeeds s)) (DataFeeds s)) = true -> ids_distinct (DataFeeds s).
Proof.
  intros H q q' i [f Hf] [f' Hf']. apply bool_decide_eq_true in H.
  exact (H (q, i) f Hf (q', i) f' Hf' eq_refl).
Qed.

Lemma funded_feed_details_complete_witness :
  length (api_get_funded_feed_details s_report2) = length (api_get_funded_feeds s_report2) /\
  forall v, v ∈ api_get_funded_feed_details s_report2 <->
    exists q i, DataFeeds s_report2 !! (q, i) = Some (details v) /\
      0 < feed_balance (details v) /\ QueryData s_report2 !! q = Some (fd_query_data v) /\
      keccak256 (fd_query_data v) = q.
Proof.
  apply (funded_feed_details_complete s_report2 reachable_report2).
  apply distinct_feeds. by_run.
Defined.

Lemma quote_is_what_claim_pays_witness :
  let s' := after (claim_tip (Signed reporter) feed1 query [T0 + 30000]) s_claimable in
  exists who amount, Signed reporter = Signed who /\
    api_get_reward_amount s_claimable feed1 query [T0 + 30000] = Some (amount - claim_fee amount) /\
    claim_paid (sys_assets s_claimable) (sys_assets s') who amount.
Proof.
  intros s'.
  apply (quote_is_what_claim_pays (Signed reporter) feed1 query [T0 + 30000] s_claimable tt s'
           reachable_claimable); [by_run|].
  assert (E : fst (claim_tip (Signed reporter) feed1 query [T0 + 30000] s_claimable) = Ok tt) by by_run.
  exact (run_after _ _ _ E).
Defined.

Lemma tipped_queries_listed_witness :
  length (api_get_funded_single_tips_info s_tipped) = length (api_get_funded_query_ids s_tipped) /\
  forall v, v ∈ api_get_funded_single_tips_info s_tipped ->
    let q := keccak256 (st_query_data v) in
    q ∈ api_get_funded_query_ids s_tipped /\ QueryData s_tipped !! q = Some (st_query_data v) /\
    0 < api_get_past_tip_count s_tipped q /\ st_tip v = api_get_current_tip s_tipped q.
Proof. exact (tipped_queries_listed s_tipped reachable_tipped). Defined.
