(* ===== verification/PostDispatch.v ===== *)
(** * The weight that errors carry

    The calls that return [DispatchResultWithPostInfo], with the weight of what was done
    before an error ([with_weight]).  An error that is raised by [?] without one is charged
    the declared weight. *)

From S2P Require Import Prelude Types Weights Config Storage Oracle Queries Xcm Governance.
From S2P Require Import Staking Autopay Pallet PalletWeights.

Section PostDispatch.
Context {T : Config}.
Implicit Types s : State.

(** [DispatchErrorWithPostInfo] *)
Definition PostError : Type := DispatchError * option Weight.

Definition Post (A : Type) : Type := M State PostError A.

(** [m.map_err(|e| ..)?] *)
Definition map_err {A} (f : DispatchError -> PostError) (m : Call A) : Post A :=
  fun s =>
    match m s with
    | (Ok a, s') => (Ok a, s')
    | (Err e, s') => (Err (f e), s')
    | (Panic, s') => (Panic, s')
    end.

(** [m?], and [m] with errors [e.with_weight(w)] *)
Definition plain {A} : Call A -> Post A := map_err (fun e => (e, None)).
Definition with_weight {A} (w : Weight) : Call A -> Post A := map_err (fun e => (e, Some w)).

(** [l.iter().enumerate().map(|(i, x)| (i.saturating_add(1) as u32, x))] *)
Definition enumerate_from_1 {A} (l : list A) : list (Z * A) := zip (seqZ 1 (len l)) l.

(** ** The calls *)

Definition claim_onetime_tip_post (origin : RuntimeOrigin) (query_id : QueryId)
    (timestamps : list Timestamp) : Post unit :=
  let* reporter := plain (ensure_signed origin) in
  let* tip_count := plain (read (fun s => value_or_zero (TipCount s) query_id)) in
  with_weight (wi_claim_onetime_tip 0) (ensure_that (0 <? tip_count) NoTipsSubmitted) ;;;
  let* cumulative_reward :=
    foldM (fun acc ' (i, timestamp) =>
        let* amount := with_weight (wi_claim_onetime_tip i)
          (get_onetime_tip_amount query_id timestamp reporter) in
        ret (saturating_add u128_max acc amount)) 0 (enumerate_from_1 timestamps) in
  plain
    (pay_claim reporter cumulative_reward ;;;
     let* current_tip := read (fun s => get_current_tip s query_id) in
     (if current_tip =? 0 then write (upd_QueryIdsWithFunding (fun x => x ∖ {[query_id]}))
      else ret tt) ;;;
     deposit_event (OneTimeTipClaimed query_id cumulative_reward reporter)).

(** A turn of the loop, the [i]-th from 1. *)
Definition claim_timestamp_post (reporter : AccountId) (feed_id : FeedId) (query_id : QueryId)
    (balance : Balance) (timestamps : list Timestamp) (cumulative_reward : Balance) (i : Z)
    (timestamp : Timestamp) : Post Balance :=
  let* t := plain now in
  let* age := plain (ok_or_arith (checked_sub u64_max t timestamp) Underflow) in
  with_weight (wi_claim_tip i) (ensure_that (12 * HOURS <? age) ClaimBufferNotPassed) ;;;
  let* claimer := plain (read (fun s => get_reporter_by_timestamp s query_id timestamp)) in
  with_weight (wi_claim_tip i)
    (ensure_that (bool_decide (Some reporter = claimer)) InvalidClaimer) ;;;
  let* reward := with_weight (wi_claim_tip i) (do_get_reward_amount feed_id query_id timestamp) in
  let cumulative_reward := saturating_add u128_max cumulative_reward reward in
  let* cumulative_reward :=
    if balance <=? cumulative_reward then
      with_weight (wi_claim_tip i)
        (ensure_that (bool_decide (Some timestamp = last timestamps)) InsufficientFeedBalance) ;;;
      plain (write (upd_FeedsWithFunding (fun x => x ∖ {[feed_id]}))) ;;;
      ret balance
    else ret cumulative_reward in
  plain (write (upd_DataFeedRewardClaimed (union {[(query_id, feed_id, timestamp)]}))) ;;;
  ret cumulative_reward.

Definition claim_tip_post (origin : RuntimeOrigin) (feed_id : FeedId) (query_id : QueryId)
    (timestamps : list Timestamp) : Post unit :=
  let* reporter := plain (ensure_signed origin) in
  let* maybe_feed := plain (read (fun s => DataFeeds s !! (query_id, feed_id))) in
  let* feed := with_weight (wi_claim_tip 0) (ok_or_error maybe_feed InvalidFeed) in
  let balance := feed_balance feed in
  with_weight (wi_claim_tip 0) (ensure_that (0 <? balance) InsufficientFeedBalance) ;;;
  let* cumulative_reward :=
    foldM (fun acc ' (i, timestamp) =>
        claim_timestamp_post reporter feed_id query_id balance timestamps acc i timestamp)
      0 (enumerate_from_1 timestamps) in
  plain
    (write (upd_DataFeeds <[(query_id, feed_id) :=
       set_feed_balance (saturating_sub (feed_balance feed) cumulative_reward) feed]>) ;;;
     pay_claim reporter cumulative_reward ;;;
     deposit_event (TipClaimed feed_id query_id cumulative_reward reporter)).

Definition vote_on_multiple_disputes_post (origin : RuntimeOrigin)
    (votes : list (DisputeId * option bool)) : Post unit :=
  let* voter := plain (ensure_signed origin) in
  foldM (fun _ ' (i, (dispute_id, supports)) =>
      with_weight (wi_vote_on_multiple_disputes i) (do_vote voter dispute_id supports))
    tt (enumerate_from_1 votes).

Definition begin_first_round_post (query_id : QueryId) (timestamp : Timestamp)
    (dispute_id : DisputeId) (vote : Vote) : Post (Vote * Dispute * Z) :=
  let* t := plain now in
  let* age := plain (ok_or_arith (checked_sub u64_max t timestamp) Underflow) in
  with_weight (wi_begin_dispute 0)
    (ensure_that (age <? REPORTING_LOCK) DisputeReportingPeriodExpired) ;;;
  with_weight (wi_begin_dispute 0)
    (let* maybe_open := read (fun s => OpenDisputesOnId s !! query_id) in
     let* open_disputes := ok_or_arith (checked_add u32_max (default 0 maybe_open) 1) Overflow in
     write (upd_OpenDisputesOnId <[query_id := open_disputes]>)) ;;;
  let* maybe_open := plain (read (fun s => OpenDisputesOnId s !! query_id)) in
  let* open_disputes := plain (ok_or_error maybe_open InvalidIndex) in
  let* exponent := expect (checked_sub u32_max open_disputes 1) in
  let vote := set_vote_fee
    (saturating_mul u128_max (vote_fee vote) (saturating_pow u128_max 2 exponent)) vote in
  let* maybe_value := plain (read (fun s => retrieve_data s query_id timestamp)) in
  let* value := with_weight (wi_begin_dispute 0) (ok_or_error maybe_value InvalidTimestamp) in
  let* maybe_reporter := plain (read (fun s => get_reporter_by_timestamp s query_id timestamp)) in
  let* disputed_reporter :=
    with_weight (wi_begin_dispute 0) (ok_or_error maybe_reporter NoValueExists) in
  plain
    (let* slashed_amount := read (fun s => StakeAmount s) in
     let dispute :=
       {| dsp_query_id := query_id; dsp_timestamp := timestamp; dsp_value := value;
          dsp_disputed_reporter := disputed_reporter; dsp_slashed_amount := slashed_amount |} in
     write (upd_DisputeIdsByReporter (union {[(disputed_reporter, dispute_id)]})) ;;;
     write (upd_DisputeInfo <[dispute_id := dispute]>) ;;;
     let* disputed_timestamps := remove_value query_id timestamp in
     ret (vote, dispute, disputed_timestamps)).

Definition begin_next_round_post (dispute_id : DisputeId) (vote_round : Z) (vote : Vote)
    : Post (Vote * Dispute * Z) :=
  let* prev_id :=
    with_weight (wi_begin_dispute 0) (ok_or_arith (checked_sub u8_max vote_round 1) Underflow) in
  let* maybe_prev := plain (read (fun s => VoteInfo s !! (dispute_id, prev_id))) in
  let* prev_vote := with_weight (wi_begin_dispute 0) (ok_or_error maybe_prev InvalidVote) in
  let* t := plain now in
  let* age := with_weight (wi_begin_dispute 0)
    (ok_or_arith (checked_sub u64_max t (vote_tally_date prev_vote)) Underflow) in
  with_weight (wi_begin_dispute 0)
    (ensure_that (age <? DAYS) DisputeRoundReportingPeriodExpired) ;;;
  with_weight (wi_begin_dispute 0)
    (ensure_that (negb (vote_executed prev_vote)) VoteAlreadyExecuted) ;;;
  let* exponent := expect (checked_sub u8_max vote_round 1) in
  let vote := set_vote_fee
    (saturating_mul u128_max (vote_fee vote) (saturating_pow u128_max 2 exponent)) vote in
  plain
    (let* maybe_dispute := read (fun s => DisputeInfo s !! dispute_id) in
     let* dispute := ok_or_error maybe_dispute InvalidDispute in
     ret (vote, dispute, 0)).

Definition begin_dispute_post (origin : RuntimeOrigin) (query_id : QueryId)
    (timestamp : Timestamp) (beneficiary : option Address) : Post Z :=
  let* dispute_initiator := plain (ensure_signed origin) in
  let* own := plain (read (fun s => stk_address <$> StakerDetails s !! dispute_initiator)) in
  let* beneficiary := with_weight (wi_begin_dispute 0)
    (ok_or_error (match beneficiary with Some b => Some b | None => own end) NotReporter) in
  let* known := plain (read (fun s => bool_decide (is_Some (Reports s !! (query_id, timestamp))))) in
  with_weight (wi_begin_dispute 0) (ensure_that known NoValueExists) ;;;
  let dispute_id := dispute_id_of query_id timestamp in
  let* vote_round := with_weight (wi_begin_dispute 0)
    (let* vote_rounds := read (fun s => value_or_zero (VoteRounds s) dispute_id) in
     let* vote_round := ok_or_error (checked_add u8_max vote_rounds 1) MaxVoteRoundsReached in
     ensure_that (negb (MAX_VOTE_ROUNDS <? vote_round)) MaxVoteRoundsReached ;;;
     write (upd_VoteRounds <[dispute_id := vote_round]>) ;;;
     ret vote_round) in
  let* start_date := plain now in
  let* block_number := plain (read (fun s => sys_block_number s)) in
  let* dispute_fee := plain (read (fun s => get_dispute_fee s)) in
  let vote :=
    {| vote_identifier := dispute_id; vote_vote_round := vote_round;
       vote_start_date := start_date; vote_block_number := block_number;
       vote_fee := dispute_fee; vote_tally_date := 0; vote_users := Tally_default;
       vote_reporters := Tally_default; vote_sent := false; vote_executed := false;
       vote_result := None; vote_initiator := dispute_initiator |} in
  let* ' (vote, dispute, disputed_timestamps) :=
    if vote_round =? 1 then begin_first_round_post query_id timestamp dispute_id vote
    else begin_next_round_post dispute_id vote_round vote in
  plain
    (let* base_fee := read (fun s => DisputeFee s) in
     let stake_amount := saturating_mul u128_max base_fee 10 in
     let vote := if stake_amount <? vote_fee vote then set_vote_fee stake_amount vote else vote in
     let* count := read (fun s => VoteCount s) in
     write (upd_VoteCount (fun _ => saturating_add u64_max count 1)) ;;;
     transfer dispute_initiator dispute_fees (vote_fee vote) Protect ;;;
     write (upd_PendingVotes <[dispute_id :=
       (vote_round, wrapping_add u64_max (vote_start_date vote) (11 * HOURS))]>) ;;;
     write (upd_VoteInfo <[(dispute_id, vote_round) := vote]>) ;;;
     deposit_event (NewDispute dispute_id query_id timestamp (dsp_disputed_reporter dispute)) ;;;
     let* maybe_staker := read (fun s => StakerDetails s !! dsp_disputed_reporter dispute) in
     let* staker := ok_or_error maybe_staker NotReporter in
     send_contract_call GovernanceContract
       (begin_parachain_dispute (to_be_bytes 32 query_id) timestamp (dsp_value dispute)
          (stk_address staker) beneficiary (dsp_slashed_amount dispute))
       BEGIN_PARACHAIN_DISPUTE_GAS
       (NewDisputeSent (cl_para_id GovernanceContract) (cl_address GovernanceContract)) ;;;
     ret disputed_timestamps).

(** A call with the weight it reports, on success or with an error. *)
Definition post_body (origin : RuntimeOrigin) (c : PalletCall) : Post (option Weight) :=
  match c with
  | c_claim_onetime_tip query_id timestamps =>
      claim_onetime_tip_post origin query_id timestamps ;;; ret None
  | c_claim_tip feed_id query_id timestamps =>
      claim_tip_post origin feed_id query_id timestamps ;;; ret None
  | c_begin_dispute query_id timestamp beneficiary =>
      let* disputed_timestamps := begin_dispute_post origin query_id timestamp beneficiary in
      ret (Some (wi_begin_dispute disputed_timestamps))
  | c_vote_on_multiple_disputes votes =>
      vote_on_multiple_disputes_post origin votes ;;; ret None
  | _ => plain (weighed_body origin c)
  end.

(** The weight a call is charged, whether it succeeds or fails. *)
Definition post_weight (c : PalletCall) (r : Outcome PostError (option Weight)) : Weight :=
  match r with
  | Ok w | Err (_, w) => charged_weight c w
  | Panic => declared_weight c
  end.

(** A call without the weights of its errors. *)
Definition erase {A} (m : Post A) : Call A :=
  fun s =>
    match m s with
    | (Ok a, s') => (Ok a, s')
    | (Err (e, _), s') => (Err e, s')
    | (Panic, s') => (Panic, s')
    end.
End PostDispatch.
