(* ===== verification/PostDispatchFacts.v ===== *)
(** * The weight that errors carry: facts

    Without the weights of their errors the calls are those of the other files
    ([erases]), and the weights are those of no more work than was declared ([carries]). *)

From S2P Require Import Prelude Types Weights Config Storage Oracle Queries Xcm Governance.
From S2P Require Import Staking Autopay Pallet PalletWeights PostDispatch.

Section Erasure.
Context {T : Config}.
Implicit Types s : State.

(** [m'] is [m] without the weights of its errors. *)
Definition erases {A} (m : Post A) (m' : Call A) : Prop := forall s, erase m s = m' s.

Lemma erases_plain {A} (m : Call A) : erases (plain m) m.
Proof. intros s. unfold erase, plain, map_err. by destruct (m s) as [[a|e|] s']. Qed.

Lemma erases_with_weight {A} w (m : Call A) : erases (with_weight w m) m.
Proof. intros s. unfold erase, with_weight, map_err. by destruct (m s) as [[a|e|] s']. Qed.

Lemma erases_ret {A} (a : A) : erases (ret a) (ret a).
Proof. by intros s. Qed.

Lemma erases_expect {A} (o : option A) : erases (expect o) (expect o).
Proof. by destruct o; intros s. Qed.

Lemma erases_bind {A B} (m : Post A) m' (k : A -> Post B) k' :
  erases m m' -> (forall a, erases (k a) (k' a)) -> erases (bind m k) (bind m' k').
Proof.
  intros Hm Hk s. specialize (Hm s). unfold erase, bind in *. rewrite <- Hm.
  destruct (m s) as [[a|[e w]|] s']; [apply Hk|done..].
Qed.

(** A weight on several steps of the call. *)
Lemma erases_steps {A B} (m : Post A) m1 (k : A -> Post B) k' m' :
  erases m m1 -> (forall a, erases (k a) (k' a)) ->
  (forall s, bind m1 k' s = m' s) -> erases (bind m k) m'.
Proof. intros Hm Hk E s. rewrite <- E. by apply erases_bind. Qed.

Lemma erases_if {A} (b : bool) (m1 m2 : Post A) m1' m2' :
  erases m1 m1' -> erases m2 m2' -> erases (if b then m1 else m2) (if b then m1' else m2').
Proof. by destruct b. Qed.

Lemma enumerate_cons {A} k (x : A) l :
  zip (seqZ k (len (x :: l))) (x :: l) = (k, x) :: zip (seqZ (k + 1) (len l)) l.
Proof.
  unfold len. rewrite seqZ_cons by (simpl; lia). simpl. f_equal. f_equal. f_equal; lia.
Qed.

Lemma erases_foldM {A B} (f : B -> Z -> A -> Post B) g l :
  (forall b i x, erases (f b i x) (g b x)) ->
  forall k b, erases (foldM (fun b ' (i, x) => f b i x) b (zip (seqZ k (len l)) l)) (foldM g b l).
Proof.
  intros Hf. induction l as [|x l IH]; intros k b; [by intros s|].
  rewrite enumerate_cons. cbn [foldM]. apply erases_bind; [apply Hf|]. intros b'. apply IH.
Qed.
End Erasure.

Create HintDb erase.
#[export] Hint Resolve erases_plain erases_with_weight erases_ret erases_expect : erase.

Ltac solve_erases := repeat first
  [ solve [auto with erase] | apply erases_bind; [|intros ?] | apply erases_if
  | lazymatch goal with |- erases (let _ := _ in _) _ => cbv zeta
    | |- erases (match ?x with pair _ _ => _ end) _ => destruct x end ].

Section Calls.
Context {T : Config}.
Implicit Types s : State.

Lemma erases_claim_onetime_tip o q l :
  erases (claim_onetime_tip_post o q l) (claim_onetime_tip o q l).
Proof.
  unfold claim_onetime_tip_post, claim_onetime_tip, enumerate_from_1. solve_erases.
  apply erases_foldM. intros acc i t. solve_erases.
Qed.

Lemma erases_claim_timestamp a f q b l c i t :
  erases (claim_timestamp_post a f q b l c i t) (claim_timestamp a f q b l c t).
Proof. unfold claim_timestamp_post, claim_timestamp. cbv zeta. solve_erases. Qed.

Lemma erases_claim_tip o f q l : erases (claim_tip_post o f q l) (claim_tip o f q l).
Proof.
  unfold claim_tip_post, claim_tip, enumerate_from_1. cbv zeta. solve_erases.
  apply erases_foldM. intros. apply erases_claim_timestamp.
Qed.

Lemma erases_vote_on_multiple o l :
  erases (vote_on_multiple_disputes_post o l) (vote_on_multiple_disputes o l).
Proof.
  unfold vote_on_multiple_disputes_post, vote_on_multiple_disputes, enumerate_from_1.
  apply erases_bind; [apply erases_plain|]. intros voter. generalize 1 as k.
  induction l as [|[id b] l IH]; intros k; [by intros s|].
  rewrite enumerate_cons. cbn [foldM vote_all].
  apply erases_bind; [apply erases_with_weight|]. intros []. apply IH.
Qed.

(** Steps that are charged together are a sequence of steps. *)
Lemma bind_ext {A B} (m : Call A) (f g : A -> Call B) s :
  (forall a s1, f a s1 = g a s1) -> bind m f s = bind m g s.
Proof. unfold bind. intros H. destruct (m s) as [[a|e|] s1]; [apply H|done..]. Qed.

Ltac reassociate :=
  intros ?s; repeat (rewrite bind_assoc; apply bind_ext; intros ? ?); reflexivity.

Lemma erases_first_round q t id v :
  erases (begin_first_round_post q t id v) (begin_first_round q t id v).
Proof.
  unfold begin_first_round_post, begin_first_round. cbv zeta.
  do 3 (apply erases_bind; [solve_erases|intros ?]).
  eapply erases_steps; [apply erases_with_weight| |reassociate]. intros []. solve_erases.
Qed.

Lemma erases_next_round id n v : erases (begin_next_round_post id n v) (begin_next_round id n v).
Proof. unfold begin_next_round_post, begin_next_round. cbv zeta. solve_erases. Qed.

Lemma erases_begin_dispute o q t b :
  erases (begin_dispute_post o q t b) (begin_dispute o q t b).
Proof.
  unfold begin_dispute_post, begin_dispute. cbv zeta.
  do 5 (apply erases_bind; [solve_erases|intros ?]).
  eapply erases_steps; [apply erases_with_weight| |reassociate]. intros n. cbv beta.
  do 3 (apply erases_bind; [solve_erases|intros ?]).
  apply erases_bind; [apply erases_if; [apply erases_first_round|apply erases_next_round]|].
  intros [[v d] it]. apply erases_plain.
Qed.

Lemma erases_post_body o c : erases (post_body o c) (weighed_body o c).
Proof.
  destruct c; cbn [post_body weighed_body call_body]; try apply erases_plain;
    (apply erases_bind; [|intros; apply erases_ret]).
  - apply erases_claim_onetime_tip.
  - apply erases_claim_tip.
  - apply erases_begin_dispute.
  - apply erases_vote_on_multiple.
Qed.
End Calls.

(** ** The weights that are carried *)

Section Carried.
Context {T : Config} (P : Weight -> Prop).
Implicit Types s : State.

(** The weights of the errors of [m] have [P]. *)
Definition carries {A} (m : Post A) : Prop :=
  forall s e w s', m s = (Err (e, Some w), s') -> P w.

Lemma carries_plain {A} (m : Call A) : carries (plain m).
Proof. intros s e w s'. unfold plain, map_err. by destruct (m s) as [[a|e'|] s1]. Qed.

Lemma carries_with_weight {A} w (m : Call A) : P w -> carries (with_weight w m).
Proof.
  intros Hw s e w' s'. unfold with_weight, map_err.
  destruct (m s) as [[a|e'|] s1]; [done| |done]. by intros [= _ <- _].
Qed.

Lemma carries_ret {A} (a : A) : carries (ret a).
Proof. by intros s e w s'. Qed.

Lemma carries_expect {A} (o : option A) : carries (expect o).
Proof. by destruct o; intros s e w s'. Qed.

Lemma carries_bind {A B} (m : Post A) (k : A -> Post B) :
  carries m -> (forall a, carries (k a)) -> carries (bind m k).
Proof.
  intros Hm Hk s e w s' H. unfold bind in H.
  destruct (m s) as [[a|[e' w']|] s1] eqn:E; [by eapply Hk| |done].
  injection H as -> -> ->. by eapply Hm.
Qed.

Lemma carries_foldM {A B} (f : B -> A -> Post B) l : Forall (fun x => forall b, carries (f b x)) l ->
  forall b, carries (foldM f b l).
Proof.
  induction 1 as [|x l Hx Hl IH]; intros b; [apply carries_ret|].
  apply carries_bind; [apply Hx|exact IH].
Qed.

(** A loop that charges the turns up to an error. *)
Lemma carries_enumerated {A B} (f : B -> Z * A -> Post B) l :
  (forall b i x, 1 <= i <= len l -> carries (f b (i, x))) ->
  forall b, carries (foldM f b (enumerate_from_1 l)).
Proof.
  intros Hf. apply carries_foldM, Forall_forall. intros [i x] Hx b. apply Hf.
  unfold enumerate_from_1 in Hx. apply elem_of_zip_l, elem_of_seqZ in Hx. lia.
Qed.
End Carried.

Create HintDb carry.
#[export] Hint Resolve carries_plain carries_with_weight carries_ret carries_expect : carry.

Ltac solve_carries := repeat first
  [ solve [auto with carry] | apply carries_bind; [|intros ?]
  | lazymatch goal with |- carries _ (let _ := _ in _) => cbv zeta
    | |- carries _ (if ?b then _ else _) => destruct b
    | |- carries _ (match ?x with pair _ _ => _ end) => destruct x end ].

Section Bounds.
Context {T : Config}.

(** At most so many of the elements of a list. *)
Definition up_to (weight : Z -> Weight) (n : Z) (w : Weight) : Prop :=
  exists i, 0 <= i <= n /\ w = weight i.

Lemma up_to_intro weight n i : 0 <= i <= n -> up_to weight n (weight i).
Proof. by exists i. Qed.

Lemma len_nonneg {A} (l : list A) : 0 <= len l.
Proof. unfold len. lia. Qed.

Hint Extern 1 (up_to _ _ (_ _)) => apply up_to_intro; pose proof @len_nonneg; lia : carry.

Lemma carries_claim_onetime_tip o q l :
  carries (up_to wi_claim_onetime_tip (len l)) (claim_onetime_tip_post o q l).
Proof.
  pose proof (len_nonneg l). unfold claim_onetime_tip_post. solve_carries.
  apply carries_enumerated. intros b i t Hi. solve_carries.
Qed.

Lemma carries_claim_tip o f q l : carries (up_to wi_claim_tip (len l)) (claim_tip_post o f q l).
Proof.
  pose proof (len_nonneg l). unfold claim_tip_post. cbv zeta. solve_carries.
  apply carries_enumerated. intros b i t Hi. unfold claim_timestamp_post. cbv zeta. solve_carries.
Qed.

Lemma carries_vote_on_multiple o l :
  carries (up_to wi_vote_on_multiple_disputes (len l)) (vote_on_multiple_disputes_post o l).
Proof.
  unfold vote_on_multiple_disputes_post. solve_carries.
  apply carries_enumerated. intros b i [d v] Hi. solve_carries.
Qed.

Lemma carries_begin_dispute o q t b :
  carries (up_to wi_begin_dispute 0) (begin_dispute_post o q t b).
Proof.
  unfold begin_dispute_post, begin_first_round_post, begin_next_round_post. cbv zeta. solve_carries.
Qed.
End Bounds.
