(* ===== verification/WeightTheorems.v ===== *)
(** * Theorems on weights

    What calls report to have used is covered by the weight they declared, and so
    is the hook's; the generated weights grow with their components. *)

From S2P Require Import Prelude Types Weights Config Storage Oracle OracleFacts Mock Queries Xcm.
From S2P Require Import Governance GovernanceFacts Staking StakingFacts Autopay Pallet.
From S2P Require Import PalletWeights PostDispatch PostDispatchFacts PalletFacts WeightFacts.
From S2P Require Import Scenario.

(** ** Lemmas *)

Section Lemmas.
Context {T : Config} {Ok_T : ConfigOk T}.
Implicit Types s : State.

(** The number of votes a call attempts to send. *)
Lemma do_send_votes_count t max s n s' : 0 <= max ->
  do_send_votes t max s = (Ok n, s') -> 0 <= n <= max.
Proof. intros Hmax H. apply do_send_votes_Ok in H as [-> _]. rewrite length_take. zlia. Qed.

(** The rounds an execution pays. *)
Lemma execute_vote_count id s n s' : disputes_wf s ->
  execute_vote id s = (Ok n, s') -> 0 <= n <= MAX_VOTE_ROUNDS.
Proof.
  intros Hwf H. apply execute_vote_Ok in H as (r & v & d & Hx).
  destruct (ex_round _ _ _ _ _ _ _ Hx) as [-> _]. apply (dw_rounds _ _ (Hwf id)).
Qed.

(** The lookups of an update of the prices. *)
Lemma update_prices_count t s clock n m s' : oracle_wf s clock ->
  update_prices t s = (Ok (n, m), s') -> 0 <= n <= MAX_ITERATIONS /\ 0 <= m <= MAX_ITERATIONS.
Proof.
  intros Hwf H. apply transactional_Ok in H. apply bind_Ok in H as (a & s1 & H1 & H).
  apply bind_Ok in H as (b & s2 & H2 & H). cinv. simplify_eq. by eapply update_both_count.
Qed.
End Lemmas.

(** The arguments that bound a loop of a call. *)
Definition loop_bounded (c : PalletCall) : Prop :=
  match c with c_send_votes max_votes => 0 <= max_votes <= u8_max | _ => True end.

Section Charged.
Context {T : Config} {Ok_T : ConfigOk T} {Mono : WeightInfoMono cfg_WeightInfo}.
Implicit Types s : State.

Lemma success_within_declared s origin c w s' :
  reachable s -> (forall q, report_count s q < u32_max) -> loop_bounded c ->
  weighed_body origin c s = (Ok w, s') -> all_lte (charged_weight c w) (declared_weight c).
Proof.
  intros Hs Hroom Hc Hrun. pose proof (proj2 (oracle_inv_reachable _ Hs) Hroom) as Hwf.
  destruct c; cbn [weighed_body declared_weight loop_bounded] in *;
    unfold update_stake_amount, send_votes, report_vote_executed in Hrun; cinv;
    conditions; subst; unfold charged_weight; cbn [default]; try reflexivity.
  - match goal with H : do_update_stake_amount _ = _, H' : update_dispute_fee _ = _ |- _ =>
      destruct (update_both_count _ _ _ _ _ _ Hwf H H') end.
    by apply wm_update_stake_amount.
  - match goal with H : begin_dispute _ _ _ _ _ = _ |- _ =>
      apply begin_dispute_count in H end.
    by apply wm_begin_dispute.
  - match goal with H : do_send_votes _ _ _ = _ |- _ =>
      apply do_send_votes_count in H; [|lia] end.
    by apply wm_send_votes.
  - match goal with H : execute_vote _ _ = _ |- _ =>
      apply execute_vote_count in H; [|by apply disputes_wf_reachable] end.
    by apply wm_report_vote_executed.
Qed.

(** The weight of an error is that of fewer turns of a loop than were declared. *)
Lemma carried_within_declared origin c :
  carries (fun w => all_lte w (declared_weight c)) (post_body origin c).
Proof.
  assert (Hup : forall weight n A (m : Post A),
    (forall i, 0 <= i <= n -> all_lte (weight i) (declared_weight c)) ->
    carries (up_to weight n) m -> carries (fun w => all_lte w (declared_weight c)) m).
  { intros weight n A m Hw Hm s e w s' H. destruct (Hm _ _ _ _ H) as (i & Hi & ->). by apply Hw. }
  destruct c; cbn [post_body]; try apply carries_plain;
    (apply carries_bind; [|intros; apply carries_ret]); cbn [declared_weight] in *.
  - eapply Hup; [|apply carries_claim_onetime_tip]. intros i Hi. by apply wm_claim_onetime_tip.
  - eapply Hup; [|apply carries_claim_tip]. intros i Hi. by apply wm_claim_tip.
  - eapply Hup; [|apply carries_begin_dispute]. intros i Hi. apply wm_begin_dispute.
    pose proof MaxDisputedTimeSeries_u32. lia.
  - eapply Hup; [|apply carries_vote_on_multiple]. intros i Hi. by apply wm_vote_on_multiple_disputes.
Qed.
End Charged.

Section Theorems.
Context {T : Config} {Ok_T : ConfigOk T} {Mono : WeightInfoMono cfg_WeightInfo}.
Implicit Types s : State.

(** A successful call in a reachable state is charged at most the weight it
    declared: the lookups of prices, the timestamps removed, the votes sent and the
    rounds paid that a call reports are at most those it declared. *)
Theorem calls_within_declared_weight s origin c w s'
    (Hs : reachable s) (Hroom : forall q, report_count s q < u32_max)
    (Hc : loop_bounded c) (Hrun : weighed_body origin c s = (Ok w, s')) :
  all_lte (charged_weight c w) (declared_weight c).
Proof. by eapply success_within_declared. Qed.

(** C29: A call in a reachable state, whether it succeeds or fails, is charged at most the weight
    it declared: on success for the lookups, the timestamps removed, the votes sent and the
    rounds paid, with an error for the turns of a loop up to the one that failed. *)
Theorem calls_charged_within_declared s origin c r s'
    (Hs : reachable s) (Hroom : forall q, report_count s q < u32_max)
    (Hc : loop_bounded c) (Hrun : post_body origin c s = (r, s')) :
  all_lte (post_weight c r) (declared_weight c).
Proof.
  destruct r as [w|[e [w|]]|]; simpl; [|by eapply carried_within_declared|reflexivity..].
  eapply success_within_declared; [exact Hs|exact Hroom|exact Hc|].
  rewrite <- erases_post_body. unfold erase. by rewrite Hrun.
Qed.

(** The weight the hook reports is at most that of 32 lookups for each price and
    3 votes, whatever the storage. *)
Theorem hook_within_limits s w s' (Hs : reachable s)
    (Hroom : forall q, report_count s q < u32_max) (Hrun : weighed_hook s = (Ok w, s')) :
  all_lte w (wi_on_initialize MAX_ITERATIONS MAX_ITERATIONS MAX_AGGREGATE_VOTES_SENT_PER_BLOCK).
Proof.
  pose proof (proj2 (oracle_inv_reachable _ Hs) Hroom) as Hwf.
  apply bind_Ok in Hrun as ([[n m] v] & s1 & H & Hr). cinv.
  destruct (on_initialize_cases _ _ _ H) as (s2 & n' & m' & v' & E & Hv & Hp); [done|].
  simplify_eq. apply do_send_votes_count in Hv; [|done].
  assert (0 <= n' <= MAX_ITERATIONS /\ 0 <= m' <= MAX_ITERATIONS) as [Hn Hm].
  { destruct Hp as [(_ & -> & ->)|[_ Hp]]; [by split|by eapply update_prices_count]. }
  by apply wm_on_initialize.
Qed.
End Theorems.

(** ** Witnesses *)

#[local] Existing Instance Test.
#[local] Existing Instance TestOk.

Lemma calls_within_declared_weight_witness :
  let c := c_begin_dispute query (T0 + 10) (Some 99) in
  all_lte (charged_weight c (Some (wi_begin_dispute 1))) (declared_weight c).
Proof.
  intros c. set (m := weighed_body (Signed disputer) c).
  assert (E : fst (m s_report2) = Ok (Some (wi_begin_dispute 1))) by by_run.
  exact (calls_within_declared_weight s_report2 (Signed disputer) c _ _ reachable_report2
           room_report2 I (run_after _ _ _ E)).
Defined.

Lemma calls_charged_within_declared_witness :
  let c := c_vote_on_multiple_disputes [(dispute, Some true); (dispute, None)] in
  all_lte (wi_vote_on_multiple_disputes 2) (declared_weight c).
Proof.
  intros c. set (m := post_body (Signed reporter) c).
  assert (E : fst (m s_disputed) =
    Err (PalletError AlreadyVoted, Some (wi_vote_on_multiple_disputes 2))) by by_run.
  refine (calls_charged_within_declared s_disputed (Signed reporter) c
            (Err (PalletError AlreadyVoted, Some (wi_vote_on_multiple_disputes 2))) (after m s_disputed)
            reachable_disputed _ I _).
  - exact room_disputed.
  - by rewrite <- E, <- surjective_pairing.
Defined.

Lemma hook_within_limits_witness :
  all_lte (wi_on_initialize 0 0 1)
    (wi_on_initialize MAX_ITERATIONS MAX_ITERATIONS MAX_AGGREGATE_VOTES_SENT_PER_BLOCK).
Proof.
  assert (E : fst (weighed_hook s_to_tally) = Ok (wi_on_initialize 0 0 1)) by by_run.
  refine (hook_within_limits s_to_tally _ _ _ _ (run_after _ _ _ E)).
  - apply time_reachable; [exact reachable_voted|by_run].
  - intros q. eapply Z.le_lt_trans; [apply few_reports; by_run|done].
Defined.
