(* ===== verification/XcmTheorems.v ===== *)
(** * Theorems on messages

    Locations survive their encoding for the registry contract, and every message the
    pallet sends is a call of a controller contract that pays its own execution. *)

From S2P Require Import Prelude Types Weights Config Storage Oracle OracleFacts Mock Queries Xcm.
From S2P Require Import Governance GovernanceFacts Staking StakingFacts Autopay Pallet PalletFacts.
From S2P Require Import LocationCodec MessageFacts Scenario.

#[local] Set Warnings "-clear-no-such-hyp".

Section Theorems.
Context {T : Config} {Ok_T : ConfigOk T}.
Implicit Types s : State.

(** C25: every message the pallet has sent calls a controller contract, on the parachain
    of that contract and at its address, as the pallet's own account: a registration, a
    new dispute or the tally of a vote, within the input bound.  It withdraws its fee,
    which is the price of the whole weight it buys.  Only registering, disputing and
    sending votes (or the hook) send messages. *)
Theorem sent_messages_are_paid_calls s (Hs : reachable s) :
  Forall paid_call (sys_sent s) /\
  forall origin c r s', ~ is_sending_call c -> dispatch origin c s = (r, s') ->
    sys_sent s' = sys_sent s.
Proof.
  split; [by apply messages_ok_reachable|]. intros origin c r s' Hc Hd.
  eapply (keeps_run messages); [|exact Hd]. apply keeps_transactional, keeps_messages, Hc.
Qed.

(** The network of an account key is not encoded in the format: with the derived
    encoding of [Some(Polkadot)] the registry contract cannot decode the location. *)
Theorem account_key_network_undecodable key
    (Hscale : scale_encode_network (Some Polkadot) = [x01; x02]) (Hk : length key = 20%nat) :
  encode_junction (AccountKey20 (Some Polkadot) key) ≫= decode_junction = None /\
  encode_junction (AccountId32 (Some Polkadot) (key ++ to_be_bytes 12 0)) ≫= decode_junction
    = Some (AccountId32 (Some Polkadot) (key ++ to_be_bytes 12 0)).
Proof.
  split; unfold encode_junction; cbn [mbind option_bind]; rewrite decode_tag by lia;
    unfold decode_tagged.
  - rewrite drop_app_length' by done. by rewrite Hscale.
  - assert (Hl : length (key ++ to_be_bytes 12 0) = 32%nat)
      by (rewrite length_app, length_to_be_bytes; lia).
    rewrite take_app_length', drop_app_length' by done. by rewrite decode_network_encode.
Qed.
End Theorems.

(** The weigher of the mock weighs the sample that [transact] builds as it weighs the
    message that is then recorded, with the origin it descends to first. *)
Lemma sample_weighs_sent interior dest call weight total_weight sent :
  interior <> [] ->
  exists message, @test_send_xcm interior dest (@transact_message Test call weight total_weight) sent
    = (dest, message) :: sent /\
  mock_weigh dest message = mock_weigh dest (@sample_message Test call weight).
Proof. intros Hi. destruct interior as [|j l]; [done|]. by eexists. Qed.

(** ** Witnesses *)

#[local] Existing Instance Test.
#[local] Existing Instance TestOk.

Lemma sent_messages_are_paid_calls_witness :
  Forall paid_call (sys_sent s_disputed) /\
  forall origin c r s', ~ is_sending_call c -> dispatch origin c s_disputed = (r, s') ->
    sys_sent s' = sys_sent s_disputed.
Proof. exact (sent_messages_are_paid_calls s_disputed reachable_disputed). Defined.

Lemma account_key_network_undecodable_witness :
  encode_junction (AccountKey20 (Some Polkadot) (to_be_bytes 20 9)) ≫= decode_junction = None /\
  encode_junction (AccountId32 (Some Polkadot) (to_be_bytes 20 9 ++ to_be_bytes 12 0))
    ≫= decode_junction
    = Some (AccountId32 (Some Polkadot) (to_be_bytes 20 9 ++ to_be_bytes 12 0)).
Proof. apply account_key_network_undecodable; reflexivity. Defined.
