(* ===== verification/ContractTheorems.v ===== *)
(** * Theorems on what the controller contracts are told

    A registration, a new dispute and the votes that are sent reach the contracts'
    functions with the arguments that the storage holds. *)

From S2P Require Import Prelude Types Keccak Abi AbiFacts Weights Config Storage RunLogic Oracle.
From S2P Require Import OracleFacts Mock Queries Xcm ContractAbi LocationCodec Governance.
From S2P Require Import GovernanceFacts Staking StakingFacts Autopay Pallet PalletFacts WidthFacts.
From S2P Require Import MessageFacts Scenario.

#[local] Set Warnings "-clear-no-such-hyp".

Section Told.
Context {T : Config}.
Implicit Types s : State.

(** A message tells a contract the inputs of one of its functions. *)
Definition tells (c : ContractLocation) (f : Function) (inputs : list Token) (gas : Z)
    (sent : MultiLocation * list Instruction) : Prop :=
  exists data, call_message c data gas sent /\ decode_input f data = Some inputs.

Lemma tells_encoded `{!AbiLaws cfg_Encoders} c f inputs data gas m :
  length (short_signature f) = 4%nat -> encode_input f inputs = Some data ->
  call_message c data gas m -> tells c f inputs gas m.
Proof.
  intros Hf Hdata Hm. exists data. split; [done|]. destruct Hm as [Hlen _].
  apply decode_encode_input; [done..|].
  change MAX_ETHEREUM_XCM_INPUT_SIZE with 65536 in Hlen. lia.
Qed.

(** ** A new dispute *)

#[local] Hint Resolve messages_remove_value : frame.

Lemma messages_begin_first_round q t i v : keeps messages (begin_first_round q t i v).
Proof. unfold begin_first_round. solve_keeps. Qed.

Lemma messages_begin_next_round i n v : keeps messages (begin_next_round i n v).
Proof. unfold begin_next_round. solve_keeps. Qed.

(** The dispute that a round is about, and that nothing is sent yet. *)
Lemma round_dispute q t id n v s v' d it s' :
  (if n =? 1 then begin_first_round q t id v else begin_next_round id n v) s
    = (Ok (v', d, it), s') ->
  DisputeInfo s' !! id = Some d /\ sys_sent s' = sys_sent s /\ st_staking s' = st_staking s.
Proof.
  destruct (n =? 1); intros H.
  - pose proof (keeps_run messages _ _ _ _ (messages_begin_first_round q t id v) H).
    apply begin_first_round_Ok in H as (e & _ & Hrest & _ & _ & _ & _ & _ & _ & _ & _ & HD & _).
    unfold gov_rest in Hrest. split_pairs. rewrite HD. split_and!; [apply lookup_insert_eq|done..].
  - by apply begin_next_round_Ok in H as (-> & _ & _ & Hd & _).
Qed.

Lemma begin_dispute_sends origin q ts b s it s' : begin_dispute origin q ts b s = (Ok it, s') ->
  exists who initiator d i m, origin = Signed who /\
    match b with
    | Some b => b = initiator
    | None => stk_address <$> StakerDetails s !! who = Some initiator
    end /\
    is_Some (Reports s !! (q, ts)) /\
    DisputeInfo s' !! dispute_id_of q ts = Some d /\
    StakerDetails s' !! dsp_disputed_reporter d = Some i /\ sys_sent s' = m :: sys_sent s /\
    call_message GovernanceContract
      (begin_parachain_dispute (to_be_bytes 32 q) ts (dsp_value d) (stk_address i) initiator
         (dsp_slashed_amount d))
      BEGIN_PARACHAIN_DISPUTE_GAS m.
Proof.
  unfold begin_dispute. intros H. cinv. conditions. cinv.
  match goal with H : _ = (Ok ?r, _) |- _ => is_var r; destruct r as [[v1 d] it'];
    apply round_dispute in H as (Hd & Hsent & Hstaking) end. cinv.
  match goal with H : send_contract_call _ _ _ _ _ = _ |- _ =>
    pose proof (keeps_run _ _ _ _ _ (keeps_send_contract_call _ _ _ _) H) as Hk;
    apply send_contract_call_sends in H as (m & Hm & Hcall) end.
  unfold beside_sent in Hk. split_pairs. simpl in *. subst.
  eexists _, _, d, _, m. split_and!; try done.
  - destruct b; congruence.
  - match goal with Hg : st_governance _ = Build_GovernanceStore _ _ _ _ _ _ _ _ _ _ |- _ =>
      by rewrite Hg end.
  - congruence.
  - congruence.
Qed.

(** ** Votes *)

(** The call that tells the tally of a vote. *)
Definition tally_call (id : DisputeId) (v : Vote) : bytes :=
  vote_call (to_be_bytes 32 id)
    (does_support (vote_users v)) (against (vote_users v)) (invalid_query (vote_users v))
    (does_support (vote_reporters v)) (against (vote_reporters v))
    (invalid_query (vote_reporters v)).

Lemma send_vote_sends id r s u s' : send_vote id r s = (Ok u, s') ->
  exists v m, VoteInfo s !! (id, r) = Some v /\ vote_sent v = false /\
    VoteInfo s' !! (id, r) = Some (set_vote_sent true v) /\ PendingVotes s' !! id = None /\
    sys_sent s' = m :: sys_sent s /\
    call_message GovernanceContract (tally_call id v) VOTE_GAS m.
Proof.
  intros H. pose proof (send_vote_Ok _ _ _ _ _ H) as (v & Hv & Hs & EV & EP & _).
  unfold send_vote in H. cinv. conditions.
  match goal with H : send_contract_call _ _ _ _ _ = _ |- _ =>
    apply send_contract_call_sends in H as (m & Hm & Hcall) end.
  exists v, m. rewrite EV, EP, lookup_insert_eq, lookup_delete_eq. simplify_eq. split_and!; done.
Qed.

Lemma send_vote_fails id r s e s' : send_vote id r s = (Err e, s') -> sys_sent s' = sys_sent s.
Proof.
  unfold send_vote, bind, read, gets, ok_or_error, ok_or, fail.
  destruct (VoteInfo s !! (id, r)) as [v|]; [|intros; by simplify_eq].
  unfold ret, ensure_that, ensure. destruct (vote_sent v); simpl; [intros; by simplify_eq|].
  destruct (send_contract_call _ _ _ _ s) as [[] s1] eqn:Hs; intros; simplify_eq.
  by apply send_contract_call_adds in Hs as [[? _]|[_ ?]].
Qed.

(** The message for a vote that was due, and the vote before and after. *)
Definition told_tally s s' (entry : DisputeId * (Z * Timestamp))
    (m : MultiLocation * list Instruction) : Prop :=
  let '(id, (r, _)) := entry in
  exists v, VoteInfo s !! (id, r) = Some v /\ vote_sent v = false /\
    VoteInfo s' !! (id, r) = Some (set_vote_sent true v) /\ PendingVotes s' !! id = None /\
    call_message GovernanceContract (tally_call id v) VOTE_GAS m.

(** A due vote that is not sent is due as before. *)
Definition still_due s s' (entry : DisputeId * (Z * Timestamp)) : Prop :=
  let '(id, (r, t)) := entry in
  PendingVotes s' !! id = Some (r, t) /\ VoteInfo s' !! (id, r) = VoteInfo s !! (id, r).

Lemma send_turn_sends n id r t s n' s' : PendingVotes s !! id = Some (r, t) ->
  send_turn n (id, (r, t)) s = (Ok n', s') ->
  (exists m, sys_sent s' = m :: sys_sent s /\ told_tally s s' (id, (r, t)) m) \/
  (sys_sent s' = sys_sent s /\ still_due s s' (id, (r, t))).
Proof.
  intros Hp H. unfold send_turn in H. cinv.
  match goal with H : attempt _ _ = _ |- _ =>
    apply attempt_Ok in H as [(u & _ & Hv)|(e & _ & Hv)] end.
  - left. apply send_vote_sends in Hv as (v & m & Hv). exists m. split; [apply Hv|].
    exists v. tauto.
  - right. split; [by eapply send_vote_fails|]. apply send_vote_Err in Hv.
    unfold beside_sent in Hv. split_pairs. split; congruence.
Qed.

(** Both depend on the vote only, before and after. *)
Lemma told_tally_same id rt s s' (x x' : State) m :
  (forall r, VoteInfo x !! (id, r) = VoteInfo s !! (id, r)) ->
  (forall r, VoteInfo x' !! (id, r) = VoteInfo s' !! (id, r)) ->
  PendingVotes x' !! id = PendingVotes s' !! id ->
  told_tally x x' (id, rt) m -> told_tally s s' (id, rt) m.
Proof. destruct rt as [r t]. intros H1 H2 H3. simpl. by rewrite H1, H2, H3. Qed.

Lemma still_due_same id rt s s' (x x' : State) :
  (forall r, VoteInfo x !! (id, r) = VoteInfo s !! (id, r)) ->
  (forall r, VoteInfo x' !! (id, r) = VoteInfo s' !! (id, r)) ->
  PendingVotes x' !! id = PendingVotes s' !! id ->
  still_due x x' (id, rt) -> still_due s s' (id, rt).
Proof. destruct rt as [r t]. intros H1 H2 H3. simpl. by rewrite H1, H2, H3. Qed.

(** The messages of the loop, in its order (the newest message is the first sent). *)
Lemma send_all_sends l : forall n s n' s',
  NoDup l -> (forall id rt, (id, rt) ∈ l -> PendingVotes s !! id = Some rt) ->
  0 <= n <= u32_max -> foldM send_turn n l s = (Ok n', s') ->
  exists told ms, sublist told l /\ sys_sent s' = reverse ms ++ sys_sent s /\
    Forall2 (told_tally s s') told ms /\
    forall entry, entry ∈ l -> entry ∈ told \/ still_due s s' entry.
Proof.
  induction l as [|[id [r t]] l IH]; intros n s n' s' Hnd Hin Hn H; cbn [foldM] in H.
  - apply ret_Ok in H as [-> ->]. exists [], []. split_and!; [done..|].
    by intros e He%not_elem_of_nil.
  - apply bind_Ok in H as (n1 & s1 & H1 & H).
    assert (Hp : PendingVotes s !! id = Some (r, t)) by (apply Hin; left).
    pose proof (send_turn_sends _ _ _ _ _ _ _ Hp H1) as Hturn.
    pose proof (send_turn_Ok _ _ _ _ _ _ _ Hp H1) as [-> Ht].
    apply NoDup_cons in Hnd as [Hnew Hnd].
    assert (Hne : forall id' rt', (id', rt') ∈ l -> id' <> id).
    { intros id' rt' Hl ->. assert (Some rt' = Some (r, t)) as [= ->]; [|done].
      rewrite <- (Hin id rt') by by right. done. }
    assert (Hin1 : forall id' rt', (id', rt') ∈ l -> PendingVotes s1 !! id' = Some rt').
    { intros id' rt' Hl. rewrite (st_others _ _ _ Ht) by (by eapply Hne). apply Hin. by right. }
    assert (Hn1 : 0 <= saturating_add u32_max n 1 <= u32_max) by (unfold saturating_add; zlia).
    pose proof (send_all_Ok _ _ _ _ _ Hnd Hin1 Hn1 H) as [_ Hall].
    apply IH in H as (told & ms & Hsub & Hms & Htold & Hrest); [|done..].
    destruct Ht as [_ _ Tv _ _], Hall as [_ Ap Av _ _].
    assert (Hid : id ∉ l.*1).
    { intros ([i rt'] & -> & Hl)%list_elem_of_fmap. by apply (Hne i rt'). }
    assert (Hrest' : forall e, e ∈ l -> e ∈ told \/ still_due s s' e).
    { intros [i rt'] Hl. destruct (Hrest _ Hl) as [?|Hd]; [by left|right].
      eapply still_due_same; [| | |exact Hd]; [|done..]. intros k. by eapply Tv, Hne. }
    assert (Htold' : Forall2 (told_tally s s') told ms).
    { apply (Forall2_impl_elem _ _ _ _ Htold). intros [i rt'] m Hi.
      apply told_tally_same; [|done..].
      intros k. eapply Tv, Hne. by apply (elem_of_sublist _ _ _ Hi). }
    destruct Hturn as [(m & Hm & Hmtold)|[Hm Hdue]].
    + exists ((id, (r, t)) :: told), (m :: ms). split; [by constructor|].
      split; [by rewrite reverse_cons, <- app_assoc, Hms, Hm|]. split.
      * constructor; [|done]. eapply told_tally_same; [done|..|exact Hmtold]; [|by rewrite Ap].
        intros k. by rewrite Av.
      * intros e [->|He]%elem_of_cons; [by left; left|]. 
        destruct (Hrest' _ He); [left; by right|by right].
    + exists told, ms. split; [by constructor|]. split; [congruence|]. split; [done|].
      intros e [->|He]%elem_of_cons; [right|by apply Hrest'].
      eapply still_due_same; [done|..|exact Hdue]; [|by rewrite Ap]. intros k. by rewrite Av.
Qed.

Lemma do_send_votes_sends t max s n s' : do_send_votes t max s = (Ok n, s') ->
  exists told ms, sublist told (take (Z.to_nat max) (due_votes s t)) /\
    sys_sent s' = reverse ms ++ sys_sent s /\ Forall2 (told_tally s s') told ms /\
    forall entry, entry ∈ take (Z.to_nat max) (due_votes s t) ->
      entry ∈ told \/ still_due s s' entry.
Proof.
  unfold do_send_votes. intros H. cinv. eapply send_all_sends; [| | |exact H]; [|..|done].
  - apply (sublist_NoDup _ (due_votes s t)); [apply due_votes_NoDup|apply sublist_take].
  - intros id rt Hin. apply (subseteq_take _ (due_votes s t)) in Hin.
    by apply due_votes_pending in Hin as [? _].
Qed.

(** ** Registration *)

Definition registry_dest : MultiLocation :=
  {| parents := 1; interior := [Parachain (cl_para_id Registry)] |}.

Lemma register_sends origin gas s u s' : register origin gas s = (Ok u, s') ->
  exists location data m,
    reanchor FeeLocation registry_dest [Parachain ParachainId] = Some location /\
    register_call ParachainId (PalletIndex mod 256) WeightToFee location registration_weights
      = Some data /\
    sys_sent s' = m :: sys_sent s /\ call_message Registry data (default REGISTER_GAS gas) m.
Proof.
  unfold register, fee_location_get, fee_location_convert. intros H. cinv.
  match goal with H : init_sub_accounts _ _ = _ |- _ =>
    apply (keeps_run _ _ _ _ _ (messages_init_sub_accounts _)) in H as Hk end.
  match goal with H : send_contract_call _ _ _ _ _ = _ |- _ =>
    apply send_contract_call_sends in H as (m & Hm & Hcall) end.
  unfold messages in Hk. do 3 eexists. split_and!; [done..| |done]. congruence.
Qed.

(** What a registration sends is in the widths of its types. *)
Record registration_ok : Prop := {
  ro_para : 0 <= ParachainId <= u32_max;
  ro_fee : 0 <= WeightToFee <= u128_max;
  ro_weights : weights_ok registration_weights;
  ro_location : forall location,
    reanchor FeeLocation registry_dest [Parachain ParachainId] = Some location ->
    0 <= parents location <= u8_max /\ Forall junction_ok (interior location);
}.

End Told.

Section Theorems.
Context {T : Config} {Ok_T : ConfigOk T} {Laws : AbiLaws cfg_Encoders}.
Implicit Types s : State.
(** C26: a dispute that succeeds tells the governance contract, and nothing else, of the
    query and the timestamp, of the value, the slashed amount and the reporter of the
    dispute that is recorded (by the address of the stake), and of the beneficiary, by
    default the disputing reporter's own address: what the contract decodes of the call by
    the types of its [beginParachainDispute] is exactly that. *)
Theorem new_dispute_reaches_contract s origin q ts b s'
    (Hs : reachable s) (Hb : call_ok (c_begin_dispute q ts b))
    (Hd : dispatch origin (c_begin_dispute q ts b) s = (Ok tt, s')) :
  exists who initiator d i m, origin = Signed who /\
    match b with
    | Some b => b = initiator
    | None => stk_address <$> StakerDetails s !! who = Some initiator
    end /\
    DisputeInfo s' !! dispute_id_of q ts = Some d /\
    StakerDetails s' !! dsp_disputed_reporter d = Some i /\
    sys_sent s' = m :: sys_sent s /\
    tells GovernanceContract begin_parachain_dispute_function
      [FixedBytes (to_be_bytes 32 q); Uint ts; Bytes (dsp_value d); TokenAddress (stk_address i);
       TokenAddress initiator; Uint (dsp_slashed_amount d)]
      BEGIN_PARACHAIN_DISPUTE_GAS m.
Proof.
  assert (Hs' : reachable s') by (eapply reachable_step, step_call; done).
  apply typed_reachable in Hs as Hty, Hs'.
  apply transactional_Ok in Hd. cbn [call_body] in Hd. unfold void in Hd.
  apply bind_Ok in Hd as (it & s1 & Hd & [_ ->]%ret_Ok).
  apply begin_dispute_sends in Hd
    as (who & initiator & d & i & m & -> & Hb' & [r Hr] & HD & Hi & Hm & Hcall).
  exists who, initiator, d, i, m. split_and!; try done. eapply tells_encoded; [| |exact Hcall].
  - by rewrite begin_parachain_dispute_selector.
  - apply encodes_begin_parachain_dispute.
    + exact (ty_report_times _ Hty _ _ Hr).
    + apply st_address. exact (ty_stakers _ Hs' _ _ Hi).
    + destruct b as [b|]; [by subst|]. destruct (StakerDetails s !! who) as [j|] eqn:Hj; [|done].
      injection Hb' as <-. apply st_address. exact (ty_stakers _ Hty _ _ Hj).
    + apply dt_slashed. exact (ty_disputes _ Hs' _ _ HD).
Qed.

(** C27: sending votes, by the call or by the hook, tells the governance contract of votes
    that were due, in the order of their times and each once: the contract decodes, by
    the types of its [voteParachain], the dispute and the six tallies of the vote as
    stored.  These votes are then marked as sent and no longer pending; every other
    vote that was to be sent is due as before. *)
Theorem sent_votes_reach_contract s t max n s' (Hs : reachable s)
    (Hsend : do_send_votes t max s = (Ok n, s')) :
  exists told ms, sublist told (take (Z.to_nat max) (due_votes s t)) /\
    sys_sent s' = reverse ms ++ sys_sent s /\
    Forall2 (fun '(id, (r, _)) m => exists v, VoteInfo s !! (id, r) = Some v /\
        vote_sent v = false /\ VoteInfo s' !! (id, r) = Some (set_vote_sent true v) /\
        PendingVotes s' !! id = None /\
        tells GovernanceContract vote_function
          [FixedBytes (to_be_bytes 32 id);
           Uint (does_support (vote_users v)); Uint (against (vote_users v));
           Uint (invalid_query (vote_users v)); Uint (does_support (vote_reporters v));
           Uint (against (vote_reporters v)); Uint (invalid_query (vote_reporters v))]
          VOTE_GAS m)
      told ms /\
    forall entry, entry ∈ take (Z.to_nat max) (due_votes s t) ->
      entry ∈ told \/ still_due s s' entry.
Proof.
  apply do_send_votes_sends in Hsend as (told & ms & Hsub & Hms & Htold & Hrest).
  exists told, ms. split_and!; [done..| |done]. eapply Forall2_impl; [exact Htold|].
  intros [id [r t']] m (v & Hv & Hsent & Hv' & Hp & Hcall). exists v. split_and!; [done..|].
  destruct (ty_votes _ (typed_reachable _ Hs) _ _ Hv) as [_ _ _ _ [] []].
  eapply tells_encoded; [by rewrite vote_selector| |exact Hcall]. by apply encodes_vote.
Qed.

(** C28: a registration that succeeds tells the registry contract, and nothing else, of the
    parachain, the pallet, the fee per weight, the fee location as seen from the contract's
    chain and the weights of the pallet's calls, all within the widths of their types: the
    contract decodes them by the types of its [register].  It also decodes each junction of
    the location from its bytes, in the format the encoder cites, with one exception: for an
    [AccountKey20] that names a network it gets the key and the SCALE encoding of the
    network, which is not of that format.  (A location with a [Plurality] panics; SCALE
    encodes an absent network as a zero byte.) *)
Theorem registration_reaches_contract origin gas s s'
    (Hnone : scale_encode_network None = [x00]) (Hok : registration_ok)
    (Hreg : dispatch origin (c_register gas) s = (Ok tt, s')) :
  exists location junctions m,
    reanchor FeeLocation registry_dest [Parachain ParachainId] = Some location /\
    Forall2 conveyed (interior location) junctions /\
    sys_sent s' = m :: sys_sent s /\
    tells Registry register_function
      [Uint ParachainId; Uint (PalletIndex mod 256); Uint WeightToFee;
       Tuple [Uint (parents location); Array (map Bytes junctions)];
       Tuple [Uint (w_report_stake_deposited registration_weights);
              Uint (w_report_staking_withdraw_request registration_weights);
              Uint (w_report_stake_withdrawn registration_weights);
              Uint (w_report_vote_tallied registration_weights);
              Uint (w_report_vote_executed registration_weights);
              Uint (w_report_slash registration_weights)]]
      (default REGISTER_GAS gas) m.
Proof.
  apply transactional_Ok in Hreg. cbn [call_body] in Hreg.
  apply register_sends in Hreg as (location & data & m & Hloc & Hdata & Hm & Hcall).
  destruct Hok as [Hpara Hfee Hweights Hlocation].
  destruct (Hlocation location Hloc) as [Hparents Hjs].
  destruct (mapM encode_junction (interior location)) as [junctions|] eqn:He;
    [|unfold register_call in Hdata; by rewrite He in Hdata].
  exists location, junctions, m. split_and!; [done|by eapply encode_junctions_conveyed|done|].
  eapply tells_encoded; [by rewrite register_selector| |exact Hcall].
  rewrite <- Hdata. apply encodes_register; try done.
  pose proof (Z.mod_pos_bound PalletIndex 256). zlia.
Qed.
End Theorems.

(** ** Witnesses *)

#[local] Existing Instance Test.
#[local] Existing Instance TestOk.

#[local] Instance TestAbi : AbiLaws cfg_Encoders.
Proof. apply encode_tokens_laws. Defined.

Lemma new_dispute_reaches_contract_witness :
  exists who initiator d i m, Signed disputer = Signed who /\ 99 = initiator /\
    DisputeInfo s_disputed !! dispute_id_of query (T0 + 10) = Some d /\
    StakerDetails s_disputed !! dsp_disputed_reporter d = Some i /\
    sys_sent s_disputed = m :: sys_sent s_report2 /\
    tells GovernanceContract begin_parachain_dispute_function
      [FixedBytes (to_be_bytes 32 query); Uint (T0 + 10); Bytes (dsp_value d);
       TokenAddress (stk_address i); TokenAddress initiator; Uint (dsp_slashed_amount d)]
      BEGIN_PARACHAIN_DISPUTE_GAS m.
Proof.
  assert (Hok : succeeds (dispatch (Signed disputer) (c_begin_dispute query (T0 + 10) (Some 99)))
                  s_report2 = true) by by_run.
  destruct (succeeds_run _ _ Hok) as [[] Hrun].
  exact (new_dispute_reaches_contract s_report2 _ query (T0 + 10) (Some 99) s_disputed
    reachable_report2 ltac:(by_run) Hrun).
Defined.

(** A vote that is due. *)
Definition s_due : State := at_time (T0 + 30000 + 11 * HOURS) s_voted.

Lemma sent_votes_reach_contract_witness :
  exists told ms, sublist told (take 5 (due_votes s_due (sys_now s_due))) /\
    sys_sent (after (do_send_votes (sys_now s_due) 5) s_due) = reverse ms ++ sys_sent s_due /\
    length told = length ms.
Proof.
  assert (Hs : reachable s_due) by (apply time_reachable; [apply reachable_voted|by_run]).
  assert (Hrun : do_send_votes (sys_now s_due) 5 s_due =
                 (Ok 1, after (do_send_votes (sys_now s_due) 5) s_due))
    by (apply run_after; by vm_compute).
  destruct (sent_votes_reach_contract s_due (sys_now s_due) 5 1 _ Hs Hrun)
    as (told & ms & Hsub & Hms & Htold & _).
  exists told, ms. split_and!; [exact Hsub|exact Hms|exact (Forall2_length _ _ _ Htold)].
Defined.

Lemma registration_ok_mock : registration_ok.
Proof.
  split; [by_run|by_run|split; by_run|].
  intros location [= <-]. split; [by_run|]. constructor; [by_run|constructor].
Qed.

Lemma registration_reaches_contract_witness :
  exists location junctions m,
    reanchor FeeLocation registry_dest [Parachain ParachainId] = Some location /\
    Forall2 conveyed (interior location) junctions /\
    sys_sent s_registered = m :: sys_sent mock_genesis /\
    exists inputs, tells Registry register_function inputs REGISTER_GAS m.
Proof.
  assert (Hok : succeeds (dispatch Root (c_register None)) mock_genesis = true) by by_run.
  destruct (succeeds_run _ _ Hok) as [[] Hrun].
  destruct (registration_reaches_contract Root None mock_genesis s_registered eq_refl
    registration_ok_mock Hrun) as (location & junctions & m & H1 & H2 & H3 & H4).
  exists location, junctions, m. split_and!; [exact H1|exact H2|exact H3|].
  by eexists.
Defined.
