(* ===== verification/BenchmarkFacts.v ===== *)
(** * What the price benchmarks measure

    A price of which the last valid report is older than the 12 hours that a lookup goes
    back is found without a search.  The set-ups that should make the search long end
    with such a report. *)

From Stdlib Require Import Strings.String.
From S2P Require Import Prelude Types Weights Config Storage Oracle OracleFacts Queries Xcm.
From S2P Require Import Governance Staking Autopay Pallet PalletWeights Benchmarks.

(** What [src/src/traits.rs] documents of the helper: it sets the time or a balance and
    nothing else of the oracle, and the query data are those of the configured price
    queries. *)
Class BenchmarkLaws {T : Config} (H : BenchmarkHelper) : Prop := {
  time_only : forall t (s : State), st_oracle (set_time t s) = st_oracle s;
  balance_only : forall a n (s : State), st_oracle (set_balance a n s) = st_oracle s /\
    sys_now (set_balance a n s) = sys_now s;
  staking_token_query : keccak256 get_staking_token_price_query_data = StakingTokenPriceQueryId;
  staking_to_local_token_query :
    keccak256 get_staking_to_local_token_price_query_data = StakingToLocalTokenPriceQueryId;
}.

(** A helper that moves the clock further than the time it is given.  The trait does not ask
    for it; [TestBenchmarkHelper::set_time] of [src/src/mock.rs] adds a second. *)
Class StrictClock {T : Config} (H : BenchmarkHelper) : Prop :=
  time_passes : forall t (s : State), 0 <= t -> sys_now s + t < sys_now (set_time t s).

(** ** A lookup that needs no search *)

Section Lookups.
Context {T : Config}.
Implicit Types s : State.

(** The last valid report of the query, if any, is more than 12 hours old. *)
Definition settled (q : QueryId) s : Prop :=
  forall t, LastReportedTimestamp s !! q = Some t -> t + 12 * HOURS < sys_now s.

Lemma settled_lookup q s : settled q s ->
  snd (get_data_before_with_start s q (sys_now s - 12 * HOURS) 0) = 0.
Proof.
  intros Hs. unfold get_data_before_with_start, get_index_for_data_before_with_start.
  destruct (LastReportedTimestamp s !! q) as [t|] eqn:Ht; [|done]. apply Hs in Ht.
  destruct (ReportedTimestampsByIndex s !! (q, 0)); [|done].
  destruct (_ <=? _); [done|]. destruct (Reports s !! _) as [r|]; [|done].
  by rewrite (proj2 (Z.ltb_lt _ _)) by lia.
Qed.

Lemma read_price_settled q e s p n s' : settled q s -> read_price q e s = (Ok (p, n), s') ->
  n = 0 /\ s' = s.
Proof.
  intros Hs H. apply settled_lookup in Hs. unfold read_price in H. cinv. conditions. subst.
  destruct (get_data_before_with_start _ _ _ _) as [[[v u]|] it]; simpl in Hs; cinv; conditions.
  by simplify_eq.
Qed.

(** What a lookup depends on. *)
Definition query_clock (q : QueryId) s := (LastReportedTimestamp s !! q, sys_now s).

Lemma settled_clock q s s' : query_clock q s' = query_clock q s -> settled q s -> settled q s'.
Proof. unfold query_clock, settled. intros E. injection E as -> ->. done. Qed.

Lemma prices_settled s m s' :
  settled StakingTokenPriceQueryId s -> settled StakingToLocalTokenPriceQueryId s ->
  (let* i := do_update_stake_amount in let* j := update_dispute_fee in ret (i, j)) s = (Ok m, s') ->
  m = (0, 0).
Proof.
  intros H1 H2 H. apply bind_Ok in H as (i & s1 & Hi & H). apply bind_Ok in H as (j & s2 & Hj & H).
  cinv. unfold do_update_stake_amount in Hi. apply bind_Ok in Hi as ([p n] & s3 & Hp & Hi).
  apply read_price_settled in Hp as [-> ->]; [|done]. cinv.
  unfold update_dispute_fee in Hj. apply bind_Ok in Hj as ([p' n'] & s4 & Hp & Hj).
  apply read_price_settled in Hp as [-> ->]; [|exact H2].
  apply bind_Ok in Hj as (f & s5 & Hf & Hj). by cinv.
Qed.
End Lookups.

(** ** Steps of the set-ups *)

Section Steps.
Context {T : Config} {Helper : BenchmarkHelper} {Laws : BenchmarkLaws Helper}.
Context {Clock : StrictClock Helper}.
Implicit Types s : State.

Lemma run_or_Ok {A} f (m : Call A) s a s' : run_or f m s = (Ok a, s') -> m s = (Ok a, s').
Proof. unfold run_or. destruct (m s) as [[x|e|] y]; [congruence|by destruct (f e)|done]. Qed.

Lemma stable_run_or {A} (I : State -> Prop) f (m : Call A) : stable I m -> stable I (run_or f m).
Proof.
  intros Hm s Hs. specialize (Hm s Hs). unfold run_or. by destruct (m s) as [[x|e|] y].
Qed.

Lemma stable_gets {A} (I : State -> Prop) (f : State -> A) :
  stable I (gets f : Bench A).
Proof. by intros s. Qed.

Lemma settled_later q s s' : LastReportedTimestamp s' !! q = LastReportedTimestamp s !! q ->
  sys_now s <= sys_now s' -> settled q s -> settled q s'.
Proof. unfold settled. intros -> Hn Hs t Ht. apply Hs in Ht. lia. Qed.

Lemma settled_set_time q t s : 0 <= t -> settled q s -> settled q (set_time t s).
Proof.
  intros Ht. apply settled_later; [by rewrite time_only|]. pose proof (time_passes t s Ht). lia.
Qed.

Lemma settled_set_balance q a n s : settled q s -> settled q (set_balance a n s).
Proof. destruct (balance_only a n s) as [E1 E2]. apply settled_later; [by rewrite E1|lia]. Qed.

(** The calls on other queries. *)
Section Other.
Context (q j : QueryId) (Hne : j <> q).

Ltac other_query :=
  solve_keeps; intros; unfold query_clock; simpl;
  rewrite ?lookup_insert_ne, ?lookup_partial_alter_ne by done; reflexivity.

Lemma clock_submit_value o v n d : keeps (query_clock q) (submit_value o j v n d).
Proof. unfold submit_value. other_query. Qed.
Lemma clock_remove_value_loop p l : forall it, keeps (query_clock q) (remove_value_loop j p l it).
Proof. induction l as [|i l IH]; intros it; simpl; other_query. Qed.

#[local] Hint Resolve clock_remove_value_loop : frame.

Lemma clock_remove_value t : keeps (query_clock q) (remove_value j t).
Proof. unfold remove_value. other_query. Qed.

#[local] Hint Resolve clock_remove_value : frame.

Lemma clock_begin_dispute o t b : keeps (query_clock q) (begin_dispute o j t b).
Proof.
  unfold begin_dispute, begin_first_round, begin_next_round, send_contract_call, bounded_input,
    transact, send_xcm. other_query.
Qed.
Lemma clock_tip o n d : keeps (query_clock q) (tip o j n d).
Proof. unfold tip, add_tip, new_tip, store_data, accrue_user_tips. other_query. Qed.
Lemma clock_vote o i b : keeps (query_clock q) (vote o i b).
Proof. unfold vote, do_vote. other_query. Qed.
End Other.

Lemma settled_call q {A} f (m : Call A) : keeps (query_clock q) m -> stable (settled q) (run_or f m).
Proof. intros Hm. apply stable_run_or. eapply stable_keeps; [|exact Hm]. by apply settled_clock. Qed.

Lemma settled_void q {A} (m : Call A) : keeps (query_clock q) m -> keeps (query_clock q) (void m).
Proof. intros Hm. unfold void. solve_keeps. Qed.

(** A step of a set-up that leaves the last report of [q] alone. *)
Lemma stable_expect {A} (I : State -> Prop) (o : option A) : stable I (expect o : Bench A).
Proof. by destruct o; intros s. Qed.

Lemma stable_ret {A} (I : State -> Prop) (a : A) : stable I (ret a : Bench A).
Proof. by intros s. Qed.

Ltac solve_settled :=
  repeat (intros; lazymatch goal with
  | |- stable _ (bind _ _) => apply stable_bind
  | |- stable _ (ret _) => apply stable_ret
  | |- stable _ (gets _) => apply stable_gets
  | |- stable _ (expect _) => apply stable_expect
  | |- stable _ (modify _) => apply stable_modify
  | |- stable _ (foldM _ _ _) => apply stable_foldM
  | |- stable _ (question _) => apply settled_call
  | |- stable _ (unwrap _) => apply settled_call
  | |- stable _ (if ?b then _ else _) => destruct b
  | |- settled _ (set_time _ _) => apply settled_set_time; [by vm_compute|assumption]
  | |- settled _ (set_balance _ _ _) => by apply settled_set_balance
  | |- keeps _ (void _) => apply settled_void
  end).

Lemma settled_submit q who j v d : j <> q -> stable (settled q) (submit who j v d).
Proof. intros Hj. unfold submit, uint_value. solve_settled. by apply clock_submit_value. Qed.

Lemma settled_timestamp_at q j i : stable (settled q) (timestamp_at j i).
Proof. unfold timestamp_at. solve_settled. Qed.

Lemma settled_last_new_value q : stable (settled q) last_new_value.
Proof. unfold last_new_value. solve_settled. Qed.

(** ** The reports of a price *)

Lemma price_reports_other q retract who d v n :
  keccak256 d <> q -> (forall t, stable (settled q) (retract (keccak256 d) t)) ->
  stable (settled q) (price_reports retract who d v n).
Proof.
  intros Hd Hr. unfold price_reports, for_each. apply stable_foldM. intros _ i.
  apply stable_bind; [by apply settled_submit|intros _].
  apply stable_bind; [|intros _; solve_settled].
  destruct (_ && _); [|solve_settled].
  apply stable_bind; [apply settled_timestamp_at|done].
Qed.

Lemma pow_reports n : 0 <= n -> 1 <= saturating_pow u32_max 2 n.
Proof. intros Hn. unfold saturating_pow. pose proof (Z.pow_pos_nonneg 2 n). zlia. Qed.

Lemma submit_last who q v d s u s' : submit who q v d s = (Ok u, s') ->
  LastReportedTimestamp s' = <[q := sys_now s']> (LastReportedTimestamp s) /\
  sys_now s' = sys_now s.
Proof.
  unfold submit. intros H. apply bind_Ok in H as (x & s1 & Hv & H).
  unfold uint_value in Hv. cinv. apply run_or_Ok in H.
  apply submit_value_Ok in H as (w & st & _ & [_ _ _ _ _ _ _ _ _ ->]). done.
Qed.

(** They end with a valid report, and 12 hours later. *)
Lemma price_reports_settled retract who d v n s u s' : 0 <= n ->
  price_reports retract who d v n s = (Ok u, s') -> settled (keccak256 d) s'.
Proof.
  intros Hn H. unfold price_reports, for_each in H. pose proof (pow_reports n Hn).
  set (k := saturating_pow u32_max 2 n) in *.
  replace k with (k - 1 + 1) in H at 1 by lia. rewrite seqZ_app, foldM_app in H by lia.
  apply bind_Ok in H as ([] & s1 & _ & H).
  replace (seqZ (1 + (k - 1)) 1) with [k] in H by (unfold seqZ; simpl; f_equal; lia).
  cbn [foldM] in H.
  apply bind_Ok in H as ([] & s2 & H & Hret). cinv.
  rewrite Z.ltb_irrefl, andb_false_r in *. cinv.
  match goal with Hs : submit _ _ _ _ _ = _ |- _ => apply submit_last in Hs as [E1 E2] end.
  intros t. rewrite time_only, E1, lookup_insert_eq. intros [= <-].
  pose proof (time_passes (12 * HOURS) s0 ltac:(by vm_compute)). lia.
Qed.

(** ** The set-ups *)

Definition prices_fresh s : Prop :=
  settled StakingTokenPriceQueryId s /\ settled StakingToLocalTokenPriceQueryId s.

(** Both series of reports, however the reports between are taken back, as long as
    that does not touch other queries. *)
Lemma price_series_settled retract who v w n m s u s' : 0 <= n -> 0 <= m ->
  (forall q j t, j <> q -> stable (settled q) (retract j t)) ->
  (price_reports retract who get_staking_token_price_query_data v n ;;;
   price_reports retract who get_staking_to_local_token_price_query_data w m) s = (Ok u, s') ->
  prices_fresh s'.
Proof.
  intros Hn Hm Hr H. apply bind_Ok in H as ([] & s1 & H1 & H2).
  pose proof (price_reports_settled _ _ _ _ _ _ _ _ Hm H2) as Hlocal.
  pose proof (price_reports_settled _ _ _ _ _ _ _ _ Hn H1) as Htoken.
  rewrite staking_token_query in Htoken. rewrite staking_to_local_token_query in Hlocal.
  split; [|done]. destruct (decide (StakingToLocalTokenPriceQueryId = StakingTokenPriceQueryId))
    as [<-|Hne]; [done|]. eapply stable_run; [|exact H2|exact Htoken].
  rewrite <- staking_to_local_token_query in Hne.
  apply price_reports_other; [done|]. intros t. by apply Hr.
Qed.

Lemma retract_dispute who q j t b : j <> q ->
  stable (settled q) (question (void (begin_dispute who j t b))).
Proof. intros Hj. apply settled_call, settled_void. by apply clock_begin_dispute. Qed.

Lemma retract_remove q j t : j <> q -> stable (settled q) (question (void (remove_value j t))).
Proof. intros Hj. apply settled_call, settled_void. by apply clock_remove_value. Qed.

(** The set-up of [update_stake_amount]. *)
Lemma update_stake_amount_setup n m s o c v s' : 0 <= n -> 0 <= m ->
  benchmark_update_stake_amount n m s = (Ok (o, c, v), s') ->
  c = c_update_stake_amount /\ prices_fresh s'.
Proof.
  intros Hn Hm H. unfold benchmark_update_stake_amount in H. cbv zeta in H.
  apply bind_Ok in H as (a & s1 & _ & H). apply bind_Ok in H as (b & s2 & _ & H).
  apply bind_Ok in H as (d & s3 & _ & H). rewrite <- bind_assoc in H.
  apply bind_Ok in H as (e & s4 & H4 & H). apply ret_Ok in H as [E ->]. simplify_eq. split; [done|].
  eapply (price_series_settled _ _ _ _ n m); [done|done| |exact H4].
  intros q j t. apply retract_dispute.
Qed.

(** The hook finds fresh prices without a search. *)
Lemma hook_fresh s c s' : prices_fresh s -> on_initialize s = (Ok c, s') ->
  exists k, c = (0, 0, k).
Proof.
  intros [H1 H2] H. unfold on_initialize in H. cinv.
  destruct (update_due s); cinv; [|by eexists].
  match goal with Ha : attempt (update_prices _) _ = _ |- _ =>
    apply attempt_Ok in Ha as [(r & -> & Hu)|(e & -> & _)] end; [|by eexists].
  apply transactional_Ok in Hu. apply bind_Ok in Hu as (i & x3 & Hi & Hu).
  apply bind_Ok in Hu as (j & x4 & Hj & Hu). cinv.
  assert (E : (i, j) = (0, 0)); [|injection E as -> ->; by eexists].
  eapply (prices_settled s (i, j) x4); [done|done|].
  unfold bind, ret. rewrite Hi. by rewrite Hj.
Qed.

(** A disputed value of another query, with its votes, leaves the prices fresh. *)
Lemma vote_round_settled q j who disputer user d i : j <> q ->
  stable (settled q)
    (submit who j i d ;;;
     let* timestamp := last_new_value in
     let id := dispute_id ParachainId j timestamp in
     question (void (begin_dispute (Signed disputer) j timestamp (Some 0))) ;;;
     question (vote (Signed user) id (Some true)) ;;;
     question (vote (Signed who) id (Some false)) ;;;
     modify (set_time HOURS)).
Proof.
  intros Hj. apply stable_bind; [by apply settled_submit|intros _].
  apply stable_bind; [apply settled_last_new_value|intros t]. cbv zeta.
  apply stable_bind; [by apply retract_dispute|intros _].
  solve_settled; apply clock_vote.
Qed.

Lemma measured_query_fresh who disputer user j d l :
  j <> StakingTokenPriceQueryId -> j <> StakingToLocalTokenPriceQueryId ->
  stable prices_fresh
    (unwrap (tip (Signed user) j (token 1) d) ;;;
     for_each l (fun i =>
       submit who j (thousands i) d ;;;
       let* timestamp := last_new_value in
       let id := dispute_id ParachainId j timestamp in
       question (void (begin_dispute (Signed disputer) j timestamp (Some 0))) ;;;
       question (vote (Signed user) id (Some true)) ;;;
       question (vote (Signed who) id (Some false)) ;;;
       modify (set_time HOURS)) ;;;
     modify (set_time (12 * HOURS))).
Proof.
  intros H1 H2.
  assert (Hq : forall q, j <> q -> stable (settled q) (unwrap (tip (Signed user) j (token 1) d) ;;;
     for_each l (fun i =>
       submit who j (thousands i) d ;;;
       let* timestamp := last_new_value in
       let id := dispute_id ParachainId j timestamp in
       question (void (begin_dispute (Signed disputer) j timestamp (Some 0))) ;;;
       question (vote (Signed user) id (Some true)) ;;;
       question (vote (Signed who) id (Some false)) ;;;
       modify (set_time HOURS)) ;;;
     modify (set_time (12 * HOURS)))).
  { intros q Hj. apply stable_bind; [by apply settled_call, clock_tip|intros _].
    apply stable_bind; [|intros _; solve_settled].
    apply stable_foldM. intros _ i. by apply vote_round_settled. }
  intros s [Hs1 Hs2]. split; by apply Hq.
Qed.

(** The benchmark of the hook. *)
Lemma on_initialize_benchmark_fresh n m k s w s' : 0 <= n -> 0 <= m ->
  let j := keccak256 (filled x00 MaxQueryDataLength) in
  j <> StakingTokenPriceQueryId -> j <> StakingToLocalTokenPriceQueryId ->
  benchmark_on_initialize n m k s = (Ok w, s') -> exists v, w = wi_on_initialize 0 0 v.
Proof.
  intros Hn Hm j Hj1 Hj2 H. unfold benchmark_on_initialize in H. cbv zeta in H. fold j in H.
  apply bind_Ok in H as (a & s1 & _ & H). apply bind_Ok in H as (b & s2 & _ & H).
  apply bind_Ok in H as (c & s3 & _ & H). apply bind_Ok in H as (d & s4 & _ & H).
  rewrite <- bind_assoc in H. apply bind_Ok in H as (e & s5 & H5 & H).
  assert (Hf : prices_fresh s5).
  { eapply (price_series_settled _ _ _ _ n m); [done|done| |exact H5].
    intros q i t. apply retract_remove. }
  apply bind_Ok in H as (f & s6 & H6 & H). apply bind_Ok in H as (g & s7 & H7 & H).
  apply bind_Ok in H as (h & s8 & H8 & H). apply run_or_Ok in H.
  assert (Hf' : prices_fresh s8).
  { eapply stable_run; [apply (measured_query_fresh (account "account" 1 SEED)
      (account "account" 2 SEED) (account "account" 3 SEED) j (filled x00 MaxQueryDataLength)
      (seqZ 1 k) Hj1 Hj2)| |exact Hf].
    erewrite bind_run by exact H6. erewrite bind_run by exact H7. exact H8. }
  unfold weighed_hook in H. apply bind_Ok in H as ([[x y] v] & s9 & H9 & H).
  apply hook_fresh in H9 as [v' E]; [|done]. simplify_eq. cinv. by exists v'.
Qed.
End Steps.
