(* ===== verification/BenchmarkTheorems.v ===== *)
(** * Theorems on the benchmarks

    What the benchmarks measure: calls of the size of their component, and, for the
    prices, lookups without a search.  They are run on the mock runtime with the helper
    of [src/src/mock.rs]. *)

From Stdlib Require Import Strings.String.
From S2P Require Import Prelude Types Weights Config Storage Oracle OracleFacts Mock Queries Xcm.
From S2P Require Import Governance Staking Autopay Pallet PalletWeights Benchmarks BenchmarkFacts.

(** ** [TestBenchmarkHelper] *)

Section Helper.
#[local] Existing Instance Test.

(** A block later, [1 + time_in_secs] seconds later. *)
Definition mock_set_time (time_in_secs : Timestamp) (s : State) : State :=
  upd_sys_block_number (fun n => n + 1) (upd_sys_now (fun t => t + (1 + time_in_secs)) s).

(** [Balance::from_be]: the bytes are swapped on a little-endian machine. *)
Definition from_be (amount : Balance) : Balance := be_value (rev (to_be_bytes 16 amount)).

Definition mock_set_balance (account_id : AccountId) (amount : Balance) (s : State) : State :=
  upd_sys_assets (fun a => <[account_id := from_be amount]> a) s.

(** A stand-in for the accounts of the framework, which are hashes. *)
Definition mock_account (name : string) (index seed : Z) : AccountId :=
  if String.eqb name "account" then 1000 + index else 2000 + index.

(** The helper, for a way to set a balance. *)
Definition helper (balance : AccountId -> Balance -> State -> State) : BenchmarkHelper := {|
  set_time := mock_set_time;
  set_balance := balance;
  get_staking_token_price_query_data := staking_token_price_query_data;
  get_staking_to_local_token_price_query_data := staking_to_local_token_price_query_data;
  account := mock_account;
  staking_successful_origin := Some (TellorOrigin Staking);
  governance_successful_origin := Some (TellorOrigin Governance);
|}.

Definition TestBenchmarkHelper : BenchmarkHelper := helper mock_set_balance.

Lemma TestBenchmarkLaws : BenchmarkLaws TestBenchmarkHelper.
Proof. split; [done|by split|by vm_compute..]. Qed.

Lemma TestStrictClock : StrictClock TestBenchmarkHelper.
Proof. intros t s Ht. simpl. lia. Qed.

(** A helper that moves the clock by exactly the time it is given. *)
Definition ExactBenchmarkHelper : BenchmarkHelper := {|
  set_time := fun t => upd_sys_block_number (fun n => n + 1) ∘ upd_sys_now (fun now => now + t);
  set_balance := mock_set_balance;
  get_staking_token_price_query_data := staking_token_price_query_data;
  get_staking_to_local_token_price_query_data := staking_to_local_token_price_query_data;
  account := mock_account;
  staking_successful_origin := Some (TellorOrigin Staking);
  governance_successful_origin := Some (TellorOrigin Governance);
|}.

(** The storage of [new_test_ext]: the pallet's account is funded. *)
Definition bench_genesis : State :=
  genesis 0 (list_to_map [(pallet_account, 1000000 * 10 ^ 12)] : gmap Z Z).
End Helper.

(** ** The length of what a loop collects *)

Section Lengths.
Context {T : Config} {H : BenchmarkHelper}.
Implicit Types s : State.

Lemma try_push_Ok {A} bound (l : list A) x s l' s' :
  try_push bound l x s = (Ok l', s') -> len l' = len l + 1.
Proof. unfold try_push, len. destruct (_ <? _); simpl; intros; cinv;
    simplify_eq; rewrite ?length_app; simpl; lia. Qed.

Definition grows {A B} (body : list B -> A -> Bench (list B)) : Prop :=
  forall l a s l' s', body l a s = (Ok l', s') -> len l' = len l + 1.

Lemma foldM_grows {A B} (body : list B -> A -> Bench (list B)) (Hb : grows body) la :
  forall l s l' s', foldM body l la s = (Ok l', s') -> len l' = len l + len la.
Proof.
  unfold len. induction la as [|a la IH]; intros l s l' s' Hf; cbn [foldM] in Hf.
  - cinv. simpl. lia.
  - apply bind_Ok in Hf as (l1 & s1 & Hr & Hf). apply Hb in Hr. apply IH in Hf.
    unfold len in *. simpl. lia.
Qed.

Lemma grows_bind {A B C} (m : list B -> A -> Bench C) body :
  (forall c, grows (fun l a => body l a c)) -> grows (fun l (a : A) => bind (m l a) (body l a)).
Proof. intros Hb l a s l' s' Hr. apply bind_Ok in Hr as (c & s1 & _ & Hr). by eapply Hb. Qed.

Lemma grows_push {A B} bound (x : A -> B) : grows (fun l a => try_push bound l (x a)).
Proof. intros l a s l' s'. apply try_push_Ok. Qed.

Lemma grows_if {A B} (b : A -> bool) (f g : list B -> A -> Bench (list B)) :
  grows f -> grows g -> grows (fun l a => if b a then f l a else g l a).
Proof. intros Hf Hg l a s l' s'. destruct (b a); [apply Hf|apply Hg]. Qed.

Lemma len_range n : 0 <= n -> len (seqZ 1 n) = n.
Proof. intros Hn. unfold len. rewrite length_seqZ. lia. Qed.

Lemma len_filled b n : 0 <= n -> len (filled b n) = n.
Proof. intros Hn. unfold len, filled. rewrite length_replicate. lia. Qed.
End Lengths.

Ltac solve_grows := repeat first
  [ apply grows_push | apply grows_bind; intros | apply grows_if ].

(** The steps of a set-up, and the size of the call it ends with. *)
Ltac unfold_setup E :=
  unfold benchmark_claim_onetime_tip, benchmark_claim_tip, benchmark_setup_data_feed, benchmark_tip,
    benchmark_submit_value, benchmark_vote_on_multiple_disputes, benchmark_send_votes in E;
  cbv zeta in E.

Ltac measured n m :=
  cinv; simplify_eq; cbn [declared_weight];
  repeat match goal with Hf : foldM _ _ _ _ = _ |- _ =>
    apply foldM_grows in Hf; [|solve [solve_grows]]; rewrite (len_range n) in Hf by done
  end;
  rewrite ?len_filled, ?Z.mod_small by zlia; f_equal; unfold len in *; simpl in *; lia.

Section Theorems.
Context {T : Config} {H : BenchmarkHelper}.
Implicit Types s : State.

(** A set-up that yields a call of the weight [w]. *)
Definition measures (setup : Bench Measured) (w : Weight) : Prop :=
  forall s o c v s', setup s = (Ok (o, c, v), s') -> declared_weight c = w.

(** Each benchmark with a component that sizes the arguments measures a call whose
    declared weight is that of the component: so many timestamps, votes or bytes. *)
Theorem benchmarks_vary_their_component n m (Hn : 0 <= n) (Hm : 0 <= m) :
  measures (benchmark_claim_onetime_tip n) (wi_claim_onetime_tip n) /\
  measures (benchmark_claim_tip n) (wi_claim_tip n) /\
  measures (benchmark_setup_data_feed n) (wi_setup_data_feed n) /\
  measures (benchmark_tip n) (wi_tip n) /\
  measures (benchmark_submit_value n m) (wi_submit_value n m) /\
  measures (benchmark_vote_on_multiple_disputes n) (wi_vote_on_multiple_disputes n) /\
  (n <= u8_max -> measures (benchmark_send_votes n) (wi_send_votes n)).
Proof.
  repeat split; intros; intros s o c v s' E; unfold_setup E; measured n m.
Qed.
End Theorems.

Section Prices.
Context {T : Config} {Helper : BenchmarkHelper} {Laws : BenchmarkLaws Helper}.
Implicit Types s : State.

(** C31: with a helper whose [set_time] moves the clock further than the time it is given,
    as that of the mock runtime does by a second, the benchmark of [update_stake_amount]
    measures no search, however many reports its components ask for: the last report of each
    price stays valid and is more than 12 hours old, so the lookups find it at once.  (The
    trait asks only to set the time; it documents that the query data of the helper are those
    of the configured price queries.) *)
Theorem update_stake_amount_benchmark_searches_nothing n m s w s'
    (Hclock : StrictClock Helper) (Hn : 0 <= n) (Hm : 0 <= m)
    (Hrun : run_benchmark (benchmark_update_stake_amount n m) s = (Ok w, s')) :
  w = wi_update_stake_amount 0 0.
Proof.
  unfold run_benchmark in Hrun. apply bind_Ok in Hrun as ([[o c] v] & s1 & Hsetup & Hrun).
  apply update_stake_amount_setup in Hsetup as [-> [Htoken Hlocal]]; [|done..].
  apply bind_Ok in Hrun as (actual & s2 & Hc & Hrun).
  apply run_or_Ok, transactional_Ok in Hc. cbn [weighed_body] in Hc.
  apply bind_Ok in Hc as ([i j] & s3 & Hc & Hr). unfold update_stake_amount in Hc.
  apply bind_Ok in Hc as (a & s4 & Ha & Hc).
  assert (s4 = s1) as -> by (by cinv).
  apply (prices_settled s1) in Hc as [= -> ->]; [|done..]. cinv.
  by destruct (v s3); cinv.
Qed.

(** Nor does the benchmark of the hook. *)
Theorem hook_benchmark_searches_nothing n m k s w s'
    (Hclock : StrictClock Helper) (Hn : 0 <= n) (Hm : 0 <= m)
    (Htoken : keccak256 (filled x00 MaxQueryDataLength) <> StakingTokenPriceQueryId)
    (Hlocal : keccak256 (filled x00 MaxQueryDataLength) <> StakingToLocalTokenPriceQueryId)
    (Hrun : benchmark_on_initialize n m k s = (Ok w, s')) :
  exists v, w = wi_on_initialize 0 0 v.
Proof. by eapply on_initialize_benchmark_fresh in Hrun. Qed.
End Prices.

(** ** Runs on the mock runtime *)

#[local] Existing Instance Test.
#[local] Existing Instance TestBenchmarkHelper.
#[local] Existing Instance TestBenchmarkLaws.

Definition measured_weight (setup : Bench Measured) : Outcome BenchmarkError Weight :=
  fst (run_benchmark setup bench_genesis).

Lemma benchmarks_vary_their_component_witness :
  match fst (benchmark_claim_onetime_tip 2 bench_genesis) with
  | Ok (o, c, v) => declared_weight c = wi_claim_onetime_tip 2
  | _ => False
  end.
Proof.
  assert (Hok : match fst (benchmark_claim_onetime_tip 2 bench_genesis) with
                | Ok _ => true | _ => false end = true) by (vm_compute; reflexivity).
  revert Hok.
  destruct (benchmark_claim_onetime_tip 2 bench_genesis) as [[[[o c] v]|e|] s'] eqn:E; intros Hok;
    [|done|done].
  exact (proj1 (benchmarks_vary_their_component 2 2 ltac:(done) ltac:(done)) _ _ _ _ _ E).
Defined.

Lemma update_stake_amount_benchmark_searches_nothing_witness :
  exists w, measured_weight (benchmark_update_stake_amount 2 2) = Ok w /\
    w = wi_update_stake_amount 0 0.
Proof.
  assert (E : measured_weight (benchmark_update_stake_amount 2 2) = Ok (wi_update_stake_amount 0 0))
    by (vm_compute; reflexivity).
  exact (ex_intro _ _ (conj E (update_stake_amount_benchmark_searches_nothing 2 2 bench_genesis _ _
    TestStrictClock ltac:(done) ltac:(done) (run_after _ _ _ E)))).
Defined.

Lemma hook_benchmark_searches_nothing_witness :
  exists v, wi_on_initialize 0 0 1 = wi_on_initialize 0 0 v.
Proof.
  assert (E : fst (benchmark_on_initialize 2 2 1 bench_genesis) = Ok (wi_on_initialize 0 0 1))
    by (vm_compute; reflexivity).
  refine (hook_benchmark_searches_nothing 2 2 1 bench_genesis _ _ TestStrictClock _ _ _ _
    (run_after _ _ _ E)); [done|done|by vm_compute..].
Defined.

(** The condition on the clock is needed: when [set_time] moves it by exactly the time it is
    given, the last report of the second price is 12 hours old to the second, not older, and
    the reports before it are searched. *)
Example exact_clock_searches :
  fst (run_benchmark (benchmark_update_stake_amount (H := ExactBenchmarkHelper) 2 2) bench_genesis)
  = Ok (wi_update_stake_amount 0 1).
Proof. by vm_compute. Qed.

(** The benchmark of [begin_dispute] walks over one timestamp fewer than its component
    (but for a component of 1). *)
Example begin_dispute_measures_one_less :
  measured_weight (benchmark_begin_dispute 3) = Ok (wi_begin_dispute 2).
Proof. by vm_compute. Qed.

(** In the benchmark of [send_votes] the votes fall due 11 hours after their dispute, an
    hour apart: of eleven, one is sent. *)
Example send_votes_measures_due_votes :
  measured_weight (benchmark_send_votes 11) = Ok (wi_send_votes 1).
Proof. by vm_compute. Qed.

Definition is_ok (r : Outcome BenchmarkError Weight) : bool :=
  match r with Ok _ => true | _ => false end.

(** Every benchmark of a call runs to its end, for the smallest components. *)
Example benchmarks_run :
  forallb (fun setup => is_ok (measured_weight setup))
    [benchmark_register; benchmark_claim_onetime_tip 1; benchmark_claim_tip 1;
     benchmark_fund_feed; benchmark_setup_data_feed 1; benchmark_tip 1;
     benchmark_add_staking_rewards; benchmark_submit_value 1 1; benchmark_update_stake_amount 2 2;
     benchmark_begin_dispute 1; benchmark_vote; benchmark_vote_on_multiple_disputes 1;
     benchmark_send_votes 1; benchmark_report_stake_deposited;
     benchmark_report_staking_withdraw_request; benchmark_report_stake_withdrawn;
     benchmark_report_slash; benchmark_report_vote_tallied; benchmark_report_vote_executed 1]
  = true.
Proof. by vm_compute. Qed.
